(* ===== verification/_CoqProject ===== *)
-Q . S2P
Prelude.v
PyUtils.v
Json.v
Redis.v
RateLimit.v
ApiRateLimit.v
SlidingWindow.v
DownlinkQueue.v
Models.v
Config.v
Database.v
Reservations.v
StateManager.v
DisplayMachine.v
Auth.v
RefreshTokens.v
WebhookSpool.v
WebhookValidation.v
DeviceHandlers.v
OrphanDevices.v
Uplink.v
Gateways.v
ChirpStack.v
BackgroundTasks.v
Devices.v
Cache.v
Estate.v
Monitor.v
Pool.v
AuditTrail.v
Sites.v
Queries.v
Spaces.v
Tenants.v
ApiKeyScript.v
AdminUser.v
Migration.v
Workers.v
App.v
Served.v
System.v
