(* ===== verification/Prelude.v ===== *)
(** * Smart Parking Platform: a verification library

    The platform (Python, FastAPI, under src/src/) manages parking spaces for several
    tenants.  Sensors report occupancy over a LoRaWAN network server, drivers book spaces
    over an HTTP API, and small displays at the spaces show their state; PostgreSQL keeps
    the data, Redis keeps queues, locks, rate-limit counters and caches.  This library
    models the parts that carry the logic and proves what makes them correct, or how they
    fail.

    ** The files, and what of the program each one models

    Foundations:
    - Prelude (this file): results and the state-and-exception monad [stE], Python string
      operations, decimal numerals, lemmas on lists that all files share.
    - PyUtils: src/src/utils.py (EUI normalisation, codecs, colours, masks).
    - Json: JSON values, [json.dumps] and [json.loads], and [safe_dict_get] of utils.py.
    - Redis: the commands the program issues, as an interface.  [Class Redis] has one
      operation per command and one law per operation, stated against functions on a
      finite map of values with expiry times; [gmap_redis] implements it and runs the
      witnesses.  Every client is proved against the class.
    - Models: exceptions.py, the enumerations and validators of models.py.
    - Config: secrets.py and config.py: where a secret or a setting comes from, the bounds
      and validators of each setting.

    Devices and downlinks:
    - RateLimit: the token buckets of DownlinkRateLimiter in downlink_queue.py.  The
      module Bucket is shared with ApiRateLimit.  Python's floats enter as the class
      [PyFloat], whose two laws say that a printed number is read back.
    - DownlinkQueue: DownlinkQueue and DownlinkWorker of downlink_queue.py, the health
      rules of routers/downlink_monitor.py, and the module AbstractQueue, the queue the
      Redis keys implement.  Monitor: the other endpoints of that router.
    - StateManager: state_manager.py: the Redis lock, the transition table, the update
      with its audit row and display push, the availability queries; each call to the
      outside can fail ([CallSite]).  The module Lock is the protocol between clients.
    - DisplayMachine: display_state_machine.py, the SQL function [compute_display_state]
      and the view of migration 006, and routers/display_policies.py.
    - DeviceHandlers: device_handlers.py, the parsers and encoders of payloads.
    - WebhookValidation: webhook_validation.py and the webhook-secret endpoints;
      WebhookSpool: webhook_spool.py on files, with crashes between system calls;
      Workers: how its worker and DownlinkWorker are started and stopped, with their tasks;
      OrphanDevices: orphan_devices.py; Uplink: [process_uplink] of main.py.
    - ChirpStack: chirpstack_client.py; Gateways: gateway_monitor.py and
      routers/gateways.py; Devices: routers/devices.py.
    - BackgroundTasks: the timers and loops of background_tasks.py.

    Tables and their API:
    - Database: the tables as records and lists of rows, with the constraints and
      functions of the migrations that guard them, and the queries of database.py.  Pool:
      its connection pool, row-level security (migrations 008, 009) and the queries that
      go through it.  AuditTrail: audit.py and the table of migration 007.
    - Reservations: routers/reservations.py and the expiry job, with the relation
      [reservation_step] of everything that touches the reservations table.
    - Estate: the tables of sites and spaces with their constraints and triggers; Sites:
      routers/sites.py; Spaces: routers/spaces_tenanted.py; Cache: cache.py, the response
      cache they use; Queries: the joined query of queries.py.

    Accounts and requests:
    - Auth: auth.py, tenant_auth.py, api_scopes.py and the API-key endpoints of
      api_tenants.py; RefreshTokens: refresh_token_service.py; Tenants: the rest of
      api_tenants.py (registration, login, tenant, users, limits).
    - ApiRateLimit: rate_limit.py; SlidingWindow: rate_limiter.py and its middleware.
    - App: the middlewares, exception handlers, health checks, start-up and shutdown of
      main.py and middleware.py.

    Operators' scripts:
    - ApiKeyScript: scripts/manage_api_keys.py; AdminUser: create_admin_user.py;
      Migration: scripts/migrate_v4_spaces.py.

    Composition:
    - Served: a writing request on spaces through the whole stack of App, the dependencies
      of Auth and the handlers of Spaces.
    - System: from the webhook (Uplink) or the expiry job (BackgroundTasks) through
      StateManager and DownlinkQueue to the display, with a turn of the worker.

    How they meet: a request passes the middlewares of App, which resolve its tenant and
    ask SlidingWindow, then the dependencies of Auth; the handler works on the tables of
    Database and Estate.  A webhook is checked by WebhookValidation and decoded by
    DeviceHandlers; Uplink stores the reading and calls StateManager, which writes the state
    and enqueues a downlink on DownlinkQueue; the worker, which shares only the Redis store
    with the rest, asks RateLimit before it sends.  BackgroundTasks moves states when
    reservations expire.  DisplayMachine reads reservations, readings and overrides.

    ** What the theorems show

    - End to end: a good uplink that changes the state of a space, or the expiry of its
      booking, has the code of that state delivered to the display after one turn of the
      worker (System); a writing request changes the spaces of one active tenant, that of
      its credentials, or nothing, and an access token of a newly registered owner creates
      the first space (Served).
    - Reservations: reachable tables are well formed and free of double bookings under
      every interleaving; creation is idempotent in its request id, exact about conflicts
      and race free; expiry and cancellation change exactly the rows they should.
    - State updates: only allowed transitions are written and successes are audited; the
      lock is exclusive while releases are timely and is given back on every path.
      Converse results: a late release, a failure between two writes, and an availability
      query that does not count the API's own bookings.
    - Uplinks: at most one space changes; a good reading sets the state it reports; what
      forged, replayed and orphan messages do.  Handlers return valid uplinks only.
    - Downlinks: the Redis queue refines the abstract queue; no command is taken more than
      five times, the queue drains in five turns for each command whatever the deliveries
      do, failing commands end in the dead-letter list, a delivered content is not repeated,
      the worker settles each command once; clearing the metrics loses no command; however the worker is
      started and stopped, one task at most is in its loop.  Converse: a failure
      reported after replacement revives a ghost command; a duplicate is judged against the
      last delivery only; a stop loses the command in flight.
    - Rate limits: both token buckets and the sliding window never admit more than their
      bound, and the API bucket fails open.
    - Displays: the command computed is exactly what the priority rules say of the rows; an
      override acts from its start to its end and its deletion restores every display; a
      tenant gets one policy and never a second; debouncing never confirms a reading.  A
      policy change would be read at once in every process, if the application were given
      the Redis client it looks for.
    - Timers: with the datetimes asyncpg documents no timer of a reservation is ever set;
      what the bodies of the timers and the loops do to the tables.
    - Tables: sites and spaces keep their constraints under every request; requests of one
      tenant leave the rows of all others alone; listings show own rows, though stale ones;
      the joined queries on sites agree with counts made site by site; pages cover a listing
      exactly; the audit trail only grows and gives back what was logged.  Row-level security
      sees the tenant of the sites router's SET only: the one given to a connection of the
      pool never reaches it.
    - Accounts: registration is atomic and gives its owner an access token; the login itself
      works with the refresh-token table the service is written for and is answered 500 with
      the one the migrations leave; uniqueness of users, tenants and memberships is kept; a
      deactivated tenant is locked out for ever.
    - Access: a tenant context is only given to a valid token of an active member or a
      matching active key; scope and role checks agree with reference definitions; revoked
      keys are rejected; access tokens live 24 hours; an API key can mint one with any
      scope.
    - Refresh tokens: single use under sequential calls; a replay never rotates, and revokes
      the family with the naive datetimes the service is written for; two tokens from one
      under concurrency; a family escaped by changing the fingerprint; no refresh and no
      detection at all with the aware datetimes asyncpg documents.
    - Webhooks: the spool loses nothing whatever crashes, but retries never advance and a
      crash strands a file; a hasty restart doubles its worker; what the signature check
      accepts, and what rotation leaves.
    - Scripts: a key made by the command line tool is valid until it is revoked, yet opens
      no route; the administrator's script keeps the accounts consistent and makes an owner, whose
      login depends on the refresh-token table and on an account in use; the migration of the old spaces stores nothing.
    - Wiring: every answer of the stack is tagged, refused requests never reach their
      endpoint; components start after what they need; settings that load are valid.

    ** Modelling choices

    Timestamps are microseconds ([Z]); a handler gets the clock and fresh ids as arguments,
    and one clock value serves a call unless two are given.  Integers are unbounded as in
    Python.  Strings are 8-bit characters.  A coroutine is a function of its state; where
    the program is interleaved, a step relation or an argument [others] (what the rest of
    the system does in between) says where.  SQL statements are functions on lists of rows
    in the table's order; rows that ORDER BY does not tell apart come in that order.
    Row-level security is taken to be bypassed, as for a superuser, except in Pool.  One
    function recurses on fuel, the parser of Json, with twice the length of its text and
    one: a step for each value or separator, and each of them takes a character.  What
    asyncio does is that a created task sleeps until its time, runs to its end then, and
    never wakes once it is cancelled.

    The calls of a rate limiter or of the refresh-token service run one after the other
    where a theorem says so (the bounds on the windows, single use): each is several Redis
    commands or statements, and concurrent calls can pass a bound together.

    The database is the one the migrations describe, with three things to know.  Its table
    of refresh tokens is either that of migration 007, which wins when the migrations run
    in order and requires a tenant_id the service does not give, or that of migration 010,
    which the service is written for ([TokenTable] of RefreshTokens).  It has no trigger
    trg_spaces_eui_upper, which migration 008 creates, no migration drops, and with which
    every write to [spaces] raises (Estate).  And it may hold the seeded Default
    Organization, a tenant without members until AdminUser's script has run
    ([seeded_platform] of Tenants).

    Parameters, with hypotheses that are their documented behaviour and witnesses that
    instantiate them: SHA-256, HMAC, MD5, bcrypt, PyJWT, the network server, Starlette and
    its CORS middleware, what Pydantic makes of a text ([Pydantic], [Lax]), float printing
    and parsing ([PyFloat], [Numeric], repr_float), the decoding and encoding of timestamps,
    JSONB and INET columns by the database driver, and the columns of tables whose
    definitions are not in the repository (bare_sensor, bare_display, [DeviceColumns],
    [TypeColumns]).

    ** What is not modelled

    - metrics.py and routers/metrics.py (calls of the Prometheus client), logging_config.py,
      the FastAPI and asyncio machinery; the frontend, shell scripts and containers.
    - The superseded main_v5.2_legacy.py, main_recovered.py, databse.py, routers/spaces.py,
      which the deployment does not start.
    - queries.py: the two queries on columns that do not exist, which only raise.  models.py:
      models no route uses (invitations, password updates). *)

From Stdlib Require Export Ascii String ZArith Lia.
From Stdlib Require Import DecimalString DecimalZ.
From stdpp Require Export base tactics list gmap strings fin_maps sorting relations.


(** ** Results: values of fallible Python code *)

Inductive result (E A : Type) : Type :=
| Ok (a : A)
| Err (e : E).
Arguments Ok {E A} a.
Arguments Err {E A} e.

#[export] Instance result_eq_dec {E A} `{EqDecision E, EqDecision A} : EqDecision (result E A).
Proof. solve_decision. Defined.

#[export] Instance result_ret {E} : MRet (result E) := fun A a => Ok a.
#[export] Instance result_bind {E} : MBind (result E) := fun A B f r =>
  match r with Ok a => f a | Err e => Err e end.
#[export] Instance result_fmap {E} : FMap (result E) := fun A B f r =>
  match r with Ok a => Ok (f a) | Err e => Err e end.

Definition is_ok {E A} (r : result E A) : bool :=
  match r with Ok _ => true | Err _ => false end.

(** Python's [x or d] on an optional value whose falsy value is [None]. *)
Definition or_else {A} (o : option A) (d : A) : A :=
  match o with Some a => a | None => d end.

(** ** State and exceptions: a Python coroutine run to completion.
    The state survives an exception, as the effects of the statements that ran
    before a [raise] do. *)

Definition stE (S E A : Type) : Type := S → result E A * S.

#[export] Instance stE_ret {S E} : MRet (stE S E) := fun A a s => (Ok a, s).
#[export] Instance stE_bind {S E} : MBind (stE S E) := fun A B f c s =>
  match c s with
  | (Ok a, s') => f a s'
  | (Err e, s') => (Err e, s')
  end.

Definition raise {S E A} (e : E) : stE S E A := fun s => (Err e, s).
Definition get_st {S E} : stE S E S := fun s => (Ok s, s).
Definition put_st {S E} (s' : S) : stE S E unit := fun _ => (Ok tt, s').
Definition modify_st {S E} (f : S → S) : stE S E unit := fun s => (Ok tt, f s).

(** A fallible computation that does not touch the state. *)
Definition lift {S E A} (r : result E A) : stE S E A := fun s => (r, s).

(** [try: c except: h] *)
Definition try_catch {S E A} (c : stE S E A) (h : E → stE S E A) : stE S E A :=
  fun s => match c s with
           | (Ok a, s') => (Ok a, s')
           | (Err e, s') => h e s'
           end.

(** A call that raises [e] when the environment makes it fail, and otherwise
    runs [c]. *)
Definition may_fail {S E A} (fault : option E) (c : stE S E A) : stE S E A :=
  match fault with Some e => raise e | None => c end.

(** *** Reasoning about them

    [wp c Q s]: run from [s], [c] ends with a result and a state that satisfy [Q]. *)
Definition wp {S E A} (c : stE S E A) (Q : result E A → S → Prop) (s : S) : Prop := Q (c s).1 (c s).2.

Section Wp.
Context {S E : Type}.

Lemma wp_mono {A} (c : stE S E A) (Q Q' : result E A → S → Prop) s :
  wp c Q s → (∀ r s', Q r s' → Q' r s') → wp c Q' s.
Proof. unfold wp. auto. Qed.

Lemma wp_ret {A} (a : A) (Q : result E A → S → Prop) s : Q (Ok a) s → wp (mret a) Q s.
Proof. done. Qed.

Lemma wp_raise {A} (e : E) (Q : result E A → S → Prop) s : Q (Err e) s → wp (raise e) Q s.
Proof. done. Qed.

Lemma wp_lift {A} (r : result E A) (Q : result E A → S → Prop) s : Q r s → wp (lift r) Q s.
Proof. done. Qed.

Lemma wp_modify (f : S → S) (Q : result E unit → S → Prop) s : Q (Ok tt) (f s) → wp (modify_st f) Q s.
Proof. done. Qed.

Lemma wp_bind {A B} (c : stE S E A) (f : A → stE S E B) (Q : result E B → S → Prop) s :
  wp c (λ r s', match r with Ok a => wp (f a) Q s' | Err e => Q (Err e) s' end) s → wp (c ≫= f) Q s.
Proof. unfold wp, mbind, stE_bind. by destruct (c s) as [[a|e] s']. Qed.

Lemma wp_try {A} (c : stE S E A) (h : E → stE S E A) (Q : result E A → S → Prop) s :
  wp c (λ r s', match r with Ok a => Q (Ok a) s' | Err e => wp (h e) Q s' end) s → wp (try_catch c h) Q s.
Proof. unfold wp, try_catch. by destruct (c s) as [[a|e] s']. Qed.

Lemma wp_may_fail {A} (fault : option E) (c : stE S E A) (Q : result E A → S → Prop) s :
  (∀ e, fault = Some e → Q (Err e) s) → (fault = None → wp c Q s) → wp (may_fail fault c) Q s.
Proof. destruct fault; unfold may_fail; intros; [apply wp_raise|]; auto. Qed.

(** A computation that only moves along a preorder, whatever its result *)
Definition keeps {A} (Rel : relation S) (c : stE S E A) : Prop := ∀ s, Rel s (c s).2.

Context (Rel : relation S) `{!PreOrder Rel}.

Lemma keeps_ret {A} (a : A) : keeps Rel (mret a).
Proof. intros s. reflexivity. Qed.

Lemma keeps_raise {A} (e : E) : keeps (A := A) Rel (raise e).
Proof. intros s. reflexivity. Qed.

Lemma keeps_lift {A} (r : result E A) : keeps Rel (lift r).
Proof. intros s. reflexivity. Qed.

Lemma keeps_get : keeps Rel (get_st (E := E)).
Proof. intros s. reflexivity. Qed.

Lemma keeps_modify (f : S → S) : (∀ s, Rel s (f s)) → keeps Rel (modify_st (E := E) f).
Proof. intros H s. apply H. Qed.

Lemma keeps_bind {A B} (c : stE S E A) (f : A → stE S E B) :
  keeps Rel c → (∀ a, keeps Rel (f a)) → keeps Rel (c ≫= f).
Proof.
  intros Hc Hf s. unfold mbind, stE_bind. specialize (Hc s). destruct (c s) as [[a|e] s']; [|done].
  etrans; [exact Hc|apply Hf].
Qed.

Lemma keeps_try {A} (c : stE S E A) (h : E → stE S E A) :
  keeps Rel c → (∀ e, keeps Rel (h e)) → keeps Rel (try_catch c h).
Proof.
  intros Hc Hf s. unfold try_catch. specialize (Hc s). destruct (c s) as [[a|e] s']; [done|].
  etrans; [exact Hc|apply Hf].
Qed.

Lemma wp_keeps {A} (c : stE S E A) (Q : result E A → S → Prop) s :
  keeps Rel c → (∀ r s', Rel s s' → Q r s') → wp c Q s.
Proof. intros Hc HQ. apply HQ, Hc. Qed.

(** One step of a sequence: it may end here, or go on from a related state. *)
Lemma wp_bind_keeps {A B} (c : stE S E A) (f : A → stE S E B) (Q : result E B → S → Prop) s :
  keeps Rel c → (∀ e s', Rel s s' → Q (Err e) s') → (∀ a s', c s = (Ok a, s') → Rel s s' → wp (f a) Q s') →
  wp (c ≫= f) Q s.
Proof.
  intros Hc He Hf. unfold wp, mbind, stE_bind. specialize (Hc s).
  destruct (c s) as [[a|e] s'] eqn:E1; [by apply Hf|by apply He].
Qed.

Lemma keeps_may_fail {A} (fault : option E) (c : stE S E A) : keeps Rel c → keeps Rel (may_fail fault c).
Proof. intros Hc. destruct fault; [apply keeps_raise|exact Hc]. Qed.
End Wp.

Create HintDb keeps.
#[export] Hint Resolve keeps_ret keeps_raise keeps_lift keeps_get keeps_modify keeps_bind keeps_try keeps_may_fail : keeps.
#[export] Hint Extern 1 (PreOrder _) => apply _ : keeps.

(** ** Time: microseconds since the epoch *)

Definition sec : Z := 1000000.

(** ** Strings: Python [str] over 8-bit characters *)

Declare Scope py_scope.
Delimit Scope py_scope with py.
Open Scope string_scope.

Fixpoint str_map (f : ascii → ascii) (s : string) : string :=
  match s with
  | EmptyString => EmptyString
  | String c s' => String (f c) (str_map f s')
  end.

Fixpoint str_filter (p : ascii → bool) (s : string) : string :=
  match s with
  | EmptyString => EmptyString
  | String c s' => if p c then String c (str_filter p s') else str_filter p s'
  end.

Fixpoint str_forallb (p : ascii → bool) (s : string) : bool :=
  match s with
  | EmptyString => true
  | String c s' => p c && str_forallb p s'
  end.

(** [s[:n]] for a non-negative [n] *)
Fixpoint str_take (n : nat) (s : string) : string :=
  match n, s with
  | O, _ | _, EmptyString => EmptyString
  | S n', String c s' => String c (str_take n' s')
  end.

(** [s[n:]] for a non-negative [n] *)
Fixpoint str_drop (n : nat) (s : string) : string :=
  match n, s with
  | O, _ => s
  | _, EmptyString => EmptyString
  | S n', String _ s' => str_drop n' s'
  end.

(** [c * n] *)
Fixpoint str_repeat (c : ascii) (n : nat) : string :=
  match n with O => EmptyString | S n' => String c (str_repeat c n') end.

Definition ascii_in (lo hi : N) (c : ascii) : bool :=
  (lo <=? N_of_ascii c)%N && (N_of_ascii c <=? hi)%N.

Definition is_digit (c : ascii) : bool := ascii_in 48 57 c.
Definition is_upper (c : ascii) : bool := ascii_in 65 90 c.
Definition is_lower (c : ascii) : bool := ascii_in 97 122 c.

Definition ascii_upper (c : ascii) : ascii :=
  if is_lower c then ascii_of_N (N_of_ascii c - 32) else c.
Definition ascii_lower (c : ascii) : ascii :=
  if is_upper c then ascii_of_N (N_of_ascii c + 32) else c.

(** [s.upper()] and [s.lower()] *)
Definition str_upper : string → string := str_map ascii_upper.
Definition str_lower : string → string := str_map ascii_lower.

(** [s.replace(c, "")] for a one-character [c] *)
Definition str_remove (c : ascii) : string → string :=
  str_filter (fun d => negb (Ascii.eqb c d)).

(** [s.startswith(p)] *)
Definition starts_with (p s : string) : bool := String.prefix p s.

(** [needle in s] *)
Definition str_contains (needle s : string) : bool :=
  match String.index 0 needle s with Some _ => true | None => false end.

(** [s.endswith(p)] *)
Definition ends_with (p s : string) : bool :=
  (String.length p <=? String.length s)%nat && String.eqb (str_drop (String.length s - String.length p) s) p.

(** The order of [sorted] on strings *)
Definition string_leb (a b : string) : Prop := String.leb a b = true.
#[export] Instance string_leb_dec : RelDecision string_leb := fun a b => decide (String.leb a b = true).

Definition newline : ascii := ascii_of_N 10.

(** The anchor [$] of Python's [re] also matches just before a newline that
    ends the string: [re.match(r"^...$", s)] accepts [s] when the pattern [p]
    matches all of [s], or all of [s] but its final newline. *)
Fixpoint strip_newline (s : string) : option string :=
  match s with
  | EmptyString => None
  | String c EmptyString => if Ascii.eqb c newline then Some EmptyString else None
  | String c s' => String c <$> strip_newline s'
  end.

Definition re_dollar (p : string → bool) (s : string) : bool :=
  p s || match strip_newline s with Some s' => p s' | None => false end.

(** Python's truth value of an optional string: [None] and [""] are false. *)
Definition truthy (o : option string) : bool :=
  match o with Some (String _ _) => true | _ => false end.

Definition non_empty (s : string) : bool :=
  match s with EmptyString => false | _ => true end.

(** [str(n)] and [int(s)] on decimal numerals *)
Definition show_Z (n : Z) : string := NilZero.string_of_int (Z.to_int n).
Definition read_Z (s : string) : option Z := Z.of_int <$> NilZero.int_of_string s.

(** [s.zfill(w)] of a non-negative number *)
Definition zfill (w : nat) (n : Z) : string :=
  let s := show_Z n in (str_repeat "0" (w - String.length s) ++ s)%string.

(** [datetime.isoformat] of a naive UTC time: the date by counting days from the first of
    March of year 0, in eras of 400 years; the fraction is left out when it is zero. *)
Definition isoformat (t : Z) : string :=
  let us := (t mod sec)%Z in
  let secs := (t / sec)%Z in
  let z := (secs / 86400 + 719468)%Z in
  let s := (secs mod 86400)%Z in
  let doe := (z mod 146097)%Z in
  let yoe := ((doe - doe / 1460 + doe / 36524 - doe / 146096) / 365)%Z in
  let doy := (doe - (365 * yoe + yoe / 4 - yoe / 100))%Z in
  let mp := ((5 * doy + 2) / 153)%Z in
  let day := (doy - (153 * mp + 2) / 5 + 1)%Z in
  let month := if (mp <? 10)%Z then (mp + 3)%Z else (mp - 9)%Z in
  let year := (yoe + z / 146097 * 400 + if (month <=? 2)%Z then 1 else 0)%Z in
  (zfill 4 year ++ "-" ++ zfill 2 month ++ "-" ++ zfill 2 day ++ "T" ++ zfill 2 (s / 3600) ++ ":" ++
   zfill 2 (s mod 3600 / 60) ++ ":" ++ zfill 2 (s mod 60) ++
   if (us =? 0)%Z then "" else "." ++ zfill 6 us)%string.

Example isoformat_leap_day : isoformat 951827696000123 = "2000-02-29T12:34:56.000123".
Proof. reflexivity. Qed.

(** ** Generic lemmas *)

Lemma read_show_Z n : read_Z (show_Z n) = Some n.
Proof.
  unfold read_Z, show_Z. rewrite NilZero.isi; cbn.
  - by rewrite of_to.
  - destruct n; cbn; intros [=]; by eapply DecimalPos.Unsigned.to_uint_nonnil.
  - destruct n; cbn; intros [=]; by eapply DecimalPos.Unsigned.to_uint_nonnil.
Qed.

Lemma show_Z_inj n m : show_Z n = show_Z m → n = m.
Proof. intros H%(f_equal read_Z). rewrite !read_show_Z in H. congruence. Qed.

Lemma str_map_length f s : String.length (str_map f s) = String.length s.
Proof. induction s; simpl; congruence. Qed.

Lemma str_map_map f g s : str_map f (str_map g s) = str_map (f ∘ g) s.
Proof. induction s; simpl; [done|]. by rewrite IHs. Qed.

Lemma str_map_ext f g s : (∀ c, f c = g c) → str_map f s = str_map g s.
Proof. intros H; induction s; simpl; [done|]. by rewrite H, IHs. Qed.

Lemma str_forallb_map p f s :
  str_forallb p (str_map f s) = str_forallb (p ∘ f) s.
Proof. induction s; simpl; [done|]. by rewrite IHs. Qed.

Lemma str_forallb_impl p q s :
  (∀ c, p c = true → q c = true) → str_forallb p s = true → str_forallb q s = true.
Proof. intros H; induction s; simpl; [done|]. rewrite !andb_true_iff; intros [? ?]; auto. Qed.

Lemma str_filter_id p s : str_forallb p s = true → str_filter p s = s.
Proof.
  induction s; simpl; [done|]. rewrite andb_true_iff; intros [-> H]. by rewrite IHs.
Qed.

Lemma str_filter_forallb p s : str_forallb p (str_filter p s) = true.
Proof. induction s as [|c s IH]; simpl; [done|]. destruct (p c) eqn:E; simpl; [by rewrite E|done]. Qed.

Lemma str_filter_filter p q s :
  str_filter p (str_filter q s) = str_filter (fun c => q c && p c) s.
Proof.
  induction s as [|c s IH]; [done|]. cbn [str_filter].
  destruct (q c); cbn [andb str_filter]; [|done]. by rewrite IH.
Qed.

Lemma str_filter_ext p q s : (∀ c, p c = q c) → str_filter p s = str_filter q s.
Proof. intros H; induction s as [|c s IH]; [done|]. cbn [str_filter]. by rewrite H, IH. Qed.

Lemma str_filter_map p f s :
  (∀ c, p (f c) = p c) → str_filter p (str_map f s) = str_map f (str_filter p s).
Proof.
  intros H; induction s as [|c s IH]; simpl; [done|].
  rewrite H. destruct (p c); simpl; by rewrite IH.
Qed.

(** All 256 characters, to decide facts about characters by evaluation. *)
Lemma ascii_all (P : ascii → bool) :
  forallb (fun n => P (ascii_of_nat n)) (seq 0 256) = true → ∀ c, P c = true.
Proof.
  intros H c. rewrite forallb_forall in H.
  rewrite <- (ascii_nat_embedding c). apply H, in_seq.
  pose proof (nat_ascii_bounded c). lia.
Qed.

Ltac ascii_decide :=
  match goal with
  | |- ∀ c : ascii, @?f c = @?g c =>
      let H := fresh in
      assert (∀ c, bool_decide (f c = g c) = true) as H;
      [ apply (ascii_all (fun c => bool_decide (f c = g c))); vm_compute; reflexivity
      | intros c; exact (bool_decide_eq_true_1 _ (H c)) ]
  end.

Lemma ascii_upper_idemp : ∀ c, ascii_upper (ascii_upper c) = ascii_upper c.
Proof. ascii_decide. Qed.

Lemma ascii_upper_lower : ∀ c, ascii_upper (ascii_lower c) = ascii_upper c.
Proof. ascii_decide. Qed.

Lemma str_upper_idemp s : str_upper (str_upper s) = str_upper s.
Proof. unfold str_upper. rewrite str_map_map. apply str_map_ext, ascii_upper_idemp. Qed.

Lemma ascii_lower_idemp : ∀ c, ascii_lower (ascii_lower c) = ascii_lower c.
Proof. ascii_decide. Qed.

Lemma str_lower_idemp s : str_lower (str_lower s) = str_lower s.
Proof. unfold str_lower. rewrite str_map_map. apply str_map_ext, ascii_lower_idemp. Qed.

Lemma str_upper_lower s : str_upper (str_lower s) = str_upper s.
Proof. unfold str_upper, str_lower. rewrite str_map_map. apply str_map_ext, ascii_upper_lower. Qed.

(** ** Lists *)

Lemma elem_of_snoc {A} (x y : A) l : x ∈ (l ++ [y])%list ↔ x ∈ l ∨ x = y.
Proof. by rewrite elem_of_app, list_elem_of_singleton. Qed.

Lemma existsb_false {A} (p : A → bool) l : existsb p l = false ↔ ∀ x, x ∈ l → p x = false.
Proof.
  rewrite <- not_true_iff_false, existsb_exists. split.
  - intros H x Hx. apply not_true_iff_false. intros E. apply H. exists x. by rewrite <- list_elem_of_In.
  - intros H (x & Hx%list_elem_of_In & E). rewrite (H x Hx) in E. discriminate.
Qed.

(** A computation that succeeds on every element *)
Lemma mapM_ok {E A B} (f : A → result E B) (g : A → B) l :
  (∀ x, x ∈ l → f x = Ok (g x)) → mapM f l = Ok (map g l).
Proof.
  induction l as [|x l IH]; intros H; [done|]. cbn. rewrite (H x) by left. cbn. by rewrite IH by (intros; apply H; by right).
Qed.

Lemma mapM_id {E A} (f : A → result E A) l : (∀ x, x ∈ l → f x = Ok x) → mapM f l = Ok l.
Proof. intros H. rewrite (mapM_ok f id) by done. f_equal. apply list_fmap_id. Qed.

(** Consecutive pieces of [m] elements *)
Lemma concat_chunks {A} (m n : nat) (l : list A) :
  (List.length l ≤ n * m)%nat → concat (map (λ k, take m (drop (k * m)%nat l)) (seq 0 n)) = l.
Proof.
  intros Hn. change l with (drop (0 * m)%nat l) at 2. change (n * m)%nat with ((0 + n) * m)%nat in Hn. revert Hn.
  generalize 0%nat as b. induction n as [|n IH]; intros b Hn; cbn [seq map concat].
  - symmetry. apply drop_ge. lia.
  - rewrite IH by lia. rewrite <- (take_drop m (drop (b * m)%nat l)) at 2. rewrite drop_drop. do 2 f_equal. lia.
Qed.

(** Sorting by a key, before or after a map that keeps the key *)
Section MergeSortMap.
Context {A B : Type} (R : A → A → Prop) (R' : B → B → Prop) `{!RelDecision R, !RelDecision R'} (f : A → B).
Context (f_R : ∀ x y, R' (f x) (f y) ↔ R x y).

Lemma list_merge_map l1 l2 : list_merge R' (map f l1) (map f l2) = map f (list_merge R l1 l2).
Proof.
  revert l2. induction l1 as [|x l1 IH1]; intros l2; [by destruct l2|]. induction l2 as [|y l2 IH2]; [done|].
  cbn. destruct (decide (R x y)) as [H|H].
  - rewrite decide_True by by apply f_R. cbn. f_equal. exact (IH1 (y :: l2)).
  - rewrite decide_False by by rewrite f_R. cbn. f_equal. exact IH2.
Qed.

Lemma merge_sort_map l : merge_sort R' (map f l) = map f (merge_sort R l).
Proof.
  assert (∀ st l, merge_list_to_stack R' (map (fmap (map f)) st) (map f l) = map (fmap (map f)) (merge_list_to_stack R st l)) as Hpush.
  { intros st. induction st as [|[l'|] st IH]; intros l0; [done| |done]. cbn. f_equal. by rewrite <- IH, list_merge_map. }
  assert (∀ st, merge_stack R' (map (fmap (map f)) st) = map f (merge_stack R st)) as Hpop.
  { intros st. induction st as [|[l'|] st IH]; [done| |done]. cbn. by rewrite IH, list_merge_map. }
  unfold merge_sort. change (@nil (option (list B))) with (map (fmap (map f)) (@nil (option (list A)))).
  generalize (@nil (option (list A))) as st. induction l as [|x l IH]; intros st; cbn; [apply Hpop|].
  rewrite <- IH. f_equal. apply (Hpush st [x]).
Qed.
End MergeSortMap.

Lemma filter_filter_andb {A} (p q : A → bool) l : List.filter q (List.filter p l) = List.filter (λ x, p x && q x) l.
Proof. induction l as [|x l IH]; [done|]. cbn. destruct (p x); cbn; by rewrite IH. Qed.

Lemma NoDup_map_inj {A B} (f : A → B) l x y :
  NoDup (map f l) → x ∈ l → y ∈ l → f x = f y → x = y.
Proof.
  induction l as [|z l IH]; cbn; [by intros _ ?%elem_of_nil|].
  intros [Hz Hl]%NoDup_cons Hx Hy E. rewrite elem_of_cons in Hx, Hy.
  destruct Hx as [->|Hx], Hy as [->|Hy]; auto.
  - destruct Hz. rewrite E. apply list_elem_of_fmap. eauto.
  - destruct Hz. rewrite <- E. apply list_elem_of_fmap. eauto.
Qed.

Lemma NoDup_map_filter {A B} (f : A → B) (P : A → Prop) `{∀ x, Decision (P x)} l :
  NoDup (map f l) → NoDup (map f (filter P l)).
Proof.
  intros Hl. eapply sublist_NoDup; [exact Hl|]. apply (fmap_sublist f), sublist_filter.
Qed.

Lemma filter_all {A} (P : A → Prop) `{∀ x, Decision (P x)} (l : list A) :
  (∀ x, x ∈ l → P x) → filter P l = l.
Proof.
  induction l as [|x l IH]; intros HP; [done|]. rewrite filter_cons, decide_True by (apply HP; by left).
  f_equal. apply IH. intros y Hy. apply HP. by right.
Qed.

Lemma filter_none {A} (P : A → Prop) `{∀ x, Decision (P x)} (l : list A) :
  (∀ x, x ∈ l → ¬ P x) → filter P l = [].
Proof.
  induction l as [|x l IH]; intros HP; [done|]. rewrite filter_cons, decide_False by (apply HP; by left).
  apply IH. intros y Hy. apply HP. by right.
Qed.

Lemma filter_nil {A} (q : A → bool) l : (∀ x, x ∈ l → q x = false) → List.filter q l = [].
Proof.
  induction l as [|x l IH]; intros H; [done|]. cbn. rewrite (H x) by by left. apply IH. intros y Hy. apply H. by right.
Qed.

Lemma find_no {A} (q : A → bool) l : (∀ x, x ∈ l → q x = false) → find q l = None.
Proof.
  intros H. destruct (find q l) as [x|] eqn:E; [|done]. apply find_some in E as [Hx Hq].
  by rewrite H in Hq by by apply list_elem_of_In.
Qed.

Lemma starts_with_app p s : starts_with p (p +:+ s) = true.
Proof.
  unfold starts_with. induction p as [|c p IH]; [by destruct s|].
  change (String c p +:+ s) with (String c (p +:+ s)). cbn [String.prefix].
  destruct (ascii_dec c c); [exact IH|done].
Qed.

(** [append] does not simplify; these unfold it. *)
Lemma append_cons c (s t : string) : String c s +:+ t = String c (s +:+ t).
Proof. reflexivity. Qed.

Lemma append_length (s t : string) : String.length (s +:+ t) = (String.length s + String.length t)%nat.
Proof. induction s as [|c s IH]; [done|]. rewrite append_cons. cbn. by rewrite IH. Qed.

(** [s.split(c)] *)
Fixpoint split_on (c : ascii) (s : string) : list string :=
  match s with
  | EmptyString => [""]
  | String d s' =>
      if Ascii.eqb d c then "" :: split_on c s'
      else match split_on c s' with x :: l => String d x :: l | [] => [String d ""] end
  end.

Definition char_free (c : ascii) (s : string) : bool := str_forallb (λ d, negb (Ascii.eqb d c)) s.

Lemma split_on_last c s : char_free c s = true → split_on c s = [s].
Proof.
  induction s as [|d s IH]; [done|]. intros [Hd Hs]%andb_true_iff. apply negb_true_iff in Hd.
  cbn [split_on]. by rewrite Hd, (IH Hs).
Qed.

Lemma split_on_cons c s t : char_free c s = true → split_on c (s +:+ String c t) = s :: split_on c t.
Proof.
  induction s as [|d s IH]; intros Hs.
  - change ("" +:+ String c t) with (String c t). cbn [split_on]. by rewrite Ascii.eqb_refl.
  - apply andb_true_iff in Hs as [Hd Hs]. apply negb_true_iff in Hd.
    rewrite append_cons. cbn [split_on]. by rewrite Hd, (IH Hs).
Qed.

(** Splitting undoes joining. *)
Lemma split_on_join c l : l ≠ [] → Forall (λ s, char_free c s = true) l → split_on c (String.concat (String c "") l) = l.
Proof.
  intros Hl H. induction H as [|s l Hs H IH]; [done|]. destruct l as [|s' l]; [by apply split_on_last|].
  change (String.concat (String c "") (s :: s' :: l)) with (s +:+ String c (String.concat (String c "") (s' :: l))).
  by rewrite split_on_cons, IH.
Qed.

Lemma append_assoc (s t u : string) : (s +:+ t) +:+ u = s +:+ (t +:+ u).
Proof. induction s as [|c s IH]; [done|]. rewrite !append_cons. by rewrite IH. Qed.

Lemma append_nil_r (s : string) : s +:+ "" = s.
Proof. induction s as [|c s IH]; [done|]. rewrite append_cons. by rewrite IH. Qed.

Lemma append_inj_l (u s t : string) : u +:+ s = u +:+ t → s = t.
Proof. induction u as [|c u IH]; [done|]. rewrite !append_cons. intros [= H]. auto. Qed.

Lemma append_inj_r (s t u : string) : s +:+ u = t +:+ u → s = t.
Proof.
  revert t. induction s as [|c s IH]; intros t H.
  - destruct t; [done|]. apply (f_equal String.length) in H. rewrite !append_length in H. cbn in H. lia.
  - destruct t as [|c' t].
    + apply (f_equal String.length) in H. rewrite !append_length in H. cbn in H. lia.
    + rewrite !append_cons in H. injection H as -> H. f_equal. by apply IH.
Qed.

(** A key without the prefix differs from every key with it. *)
Lemma starts_with_ne p k : starts_with p k = false → ∀ x, p +:+ x ≠ k.
Proof. intros Hk x <-. by rewrite starts_with_app in Hk. Qed.

Lemma show_Z_non_empty n : non_empty (show_Z n) = true.
Proof.
  pose proof (read_show_Z n) as H. destruct (show_Z n) eqn:E; [|done].
  destruct n; unfold show_Z in E; cbn in E; [done| |done].
  all: unfold NilZero.string_of_uint in E; by destruct (Pos.to_uint p).
Qed.
