(* ===== verification/PyUtils.v ===== *)
(** * PyUtils: the pure helpers of [src/utils.py]

    EUI normalisation, the hex and base64 codecs with the parts of Python's
    [bytes.fromhex], [base64.b64encode] and [binascii.a2b_base64] they use, the
    payload-encoding test, colour parsing and the logging helpers.  Bytes are
    integers of [0, 255]. *)

From Stdlib Require Import QArith Qround.
From S2P Require Import Prelude.

Open Scope Z_scope.

(** ** Characters *)

Definition hex_val (c : ascii) : option Z :=
  let n := Z.of_N (N_of_ascii c) in
  if is_digit c then Some (n - 48)
  else if ascii_in 65 70 c then Some (n - 55)
  else if ascii_in 97 102 c then Some (n - 87)
  else None.

(** The class [[0-9a-fA-F]] *)
Definition is_hex (c : ascii) : bool :=
  is_digit c || ascii_in 65 70 c || ascii_in 97 102 c.

(** The class [[0-9A-F]] *)
Definition is_hex_upper (c : ascii) : bool := is_digit c || ascii_in 65 70 c.

Definition is_sep (c : ascii) : bool :=
  Ascii.eqb c ":" || Ascii.eqb c "-" || Ascii.eqb c " ".

(** [[0-9a-fA-F]{16}] *)
Definition hex16 (s : string) : bool :=
  Nat.eqb (String.length s) 16 && str_forallb is_hex s.

(** ** Ids and keys

    [uuid4().hex], [token_urlsafe(32)] and SHA-256 are arguments. *)

Definition generate_request_id (uuid_hex : string) : string := "req_" +:+ str_take 12 uuid_hex.
Definition get_request_id (uuid_hex : string) : string := generate_request_id uuid_hex.
Definition generate_api_key (token_urlsafe : string) : string := token_urlsafe.
Definition hash_api_key (sha256_hexdigest : string → string) (api_key : string) : string := sha256_hexdigest api_key.

(** ** EUI normalisation *)

(** The three chained [replace] calls. *)
Definition strip_separators (s : string) : string :=
  str_remove " " (str_remove "-" (str_remove ":" s)).

Definition normalize_deveui (deveui : string) : result string string :=
  if negb (non_empty deveui) then Ok ""
  else
    let cleaned := strip_separators deveui in
    if negb (re_dollar hex16 cleaned)
    then Err ("Invalid DevEUI format: " +:+ deveui +:+ " (must be 16 hex characters)")
    else Ok (str_upper cleaned).

Definition normalize_gateway_eui (gw_eui : string) : result string string :=
  if negb (non_empty gw_eui) then Ok ""
  else
    let cleaned := strip_separators gw_eui in
    if negb (re_dollar hex16 cleaned)
    then Err ("Invalid Gateway EUI format: " +:+ gw_eui +:+ " (must be 16 hex characters)")
    else Ok (str_upper cleaned).

(** ** Space codes *)

(** [f"{number:03d}"] *)
Definition pad3 (n : Z) : string :=
  let sign := if n <? 0 then "-" else "" in
  let body := show_Z (Z.abs n) in
  sign +:+ str_repeat "0" (3 - String.length sign - String.length body) +:+ body.

Definition generate_space_code (building floor : option string) (number : Z) : string :=
  let building_code := str_upper (str_take 1 (if truthy building then or_else building "" else "X")) in
  let floor_code := str_take 2 (if truthy floor then or_else floor "" else "0") in
  building_code +:+ floor_code +:+ "-" +:+ pad3 number.

(** ** Hexadecimal *)

(** C's [isspace], the characters [bytes.fromhex] skips between two bytes. *)
Definition is_c_space (c : ascii) : bool := ascii_in 9 13 c || Ascii.eqb c " ".

(** [bytes.fromhex] *)
Fixpoint bytes_fromhex (s : string) : option (list Z) :=
  match s with
  | EmptyString => Some []
  | String c1 s1 =>
      if is_c_space c1 then bytes_fromhex s1
      else match s1 with
           | EmptyString => None
           | String c2 s2 =>
               match hex_val c1, hex_val c2 with
               | Some h, Some l => cons (16 * h + l) <$> bytes_fromhex s2
               | _, _ => None
               end
           end
  end.

Definition hex_digit (v : Z) : ascii :=
  ascii_of_N (Z.to_N (if v <? 10 then v + 48 else v + 87)).

(** [bytes.hex] *)
Fixpoint bytes_hex (bs : list Z) : string :=
  match bs with
  | [] => ""
  | b :: bs' => String (hex_digit (b / 16)) (String (hex_digit (b mod 16)) (bytes_hex bs'))
  end.

(** ** Base64 *)

Definition b64_char (v : Z) : ascii :=
  ascii_of_N (Z.to_N (if v <? 26 then v + 65
                      else if v <? 52 then v + 71
                      else if v <? 62 then v - 4
                      else if v =? 62 then 43 else 47)).

Definition b64_val (c : ascii) : option Z :=
  let n := Z.of_N (N_of_ascii c) in
  if is_upper c then Some (n - 65)
  else if is_lower c then Some (n - 71)
  else if is_digit c then Some (n + 4)
  else if n =? 43 then Some 62
  else if n =? 47 then Some 63
  else None.

Definition b64_pad : ascii := "=".

(** [base64.b64encode(bs).decode('ascii')] *)
Fixpoint b64encode (bs : list Z) : string :=
  match bs with
  | [] => ""
  | [a] => String (b64_char (a / 4)) (String (b64_char ((a mod 4) * 16))
             (String b64_pad (String b64_pad "")))
  | [a; b] => String (b64_char (a / 4)) (String (b64_char ((a mod 4) * 16 + b / 16))
                (String (b64_char ((b mod 16) * 4)) (String b64_pad "")))
  | a :: b :: c :: bs' =>
      String (b64_char (a / 4)) (String (b64_char ((a mod 4) * 16 + b / 16))
        (String (b64_char ((b mod 16) * 4 + c / 64)) (String (b64_char (c mod 64))
           (b64encode bs'))))
  end.

(** The loop of [binascii.a2b_base64] in its default, non-strict mode: [quad] is
    the position in the group of four, [left] the bits carried over, [pads] the
    padding characters seen since the last data character. *)
Fixpoint a2b_base64 (quad : nat) (left pads : Z) (s : string) : option (list Z) :=
  match s with
  | EmptyString => if Nat.eqb quad 0 then Some [] else None
  | String c s' =>
      if Ascii.eqb c b64_pad then
        if Nat.leb 2 quad
        then if 4 <=? Z.of_nat quad + (pads + 1) then Some []
             else a2b_base64 quad left (pads + 1) s'
        else a2b_base64 quad left pads s'
      else match b64_val c with
           | None => a2b_base64 quad left pads s'
           | Some v =>
               match quad with
               | 0%nat => a2b_base64 1 v 0 s'
               | 1%nat => cons (left * 4 + v / 16) <$> a2b_base64 2 (v mod 16) 0 s'
               | 2%nat => cons (left * 16 + v / 4) <$> a2b_base64 3 (v mod 4) 0 s'
               | _ => cons (left * 64 + v) <$> a2b_base64 0 0 0 s'
               end
           end
  end.

(** [base64.b64decode(s)]: a [str] argument must be ASCII. *)
Definition b64decode (s : string) : option (list Z) :=
  if str_forallb (ascii_in 0 127) s then a2b_base64 0 0 0 s else None.

Definition hex_to_base64 (hex_string : string) : result string string :=
  match bytes_fromhex hex_string with
  | Some bytes_data => Ok (b64encode bytes_data)
  | None => Err ("Invalid hex string: " +:+ hex_string)
  end.

Definition base64_to_hex (base64_string : string) : result string string :=
  match b64decode base64_string with
  | Some bytes_data => Ok (bytes_hex bytes_data)
  | None => Err ("Invalid base64 string: " +:+ base64_string)
  end.

(** [[0-9a-fA-F]+] and [[A-Za-z0-9+/]+=*] *)
Definition re_hex_plus (s : string) : bool := non_empty s && str_forallb is_hex s.

Definition is_b64 (c : ascii) : bool := bool_decide (is_Some (b64_val c)).

Fixpoint re_b64_tail (s : string) : bool :=
  match s with
  | EmptyString => true
  | String c s' =>
      (is_b64 c && re_b64_tail s')
      || (Ascii.eqb c b64_pad && str_forallb (Ascii.eqb b64_pad) s')
  end.

Definition re_b64 (s : string) : bool :=
  match s with String c s' => is_b64 c && re_b64_tail s' | EmptyString => false end.

Definition detect_encoding (payload : string) : string :=
  if re_dollar re_hex_plus payload && Nat.even (String.length payload) then "hex"
  else if re_dollar re_b64 payload then "base64"
  else "unknown".

(** ** Durations *)

(** [int(q)]: truncation towards zero *)
Definition Qtrunc (q : Q) : Z := if Qle_bool 0 q then Qfloor q else - Qfloor (- q).

Definition format_duration (seconds : Q) : string :=
  if negb (Qle_bool 1 seconds) then show_Z (Qtrunc (seconds * 1000)) +:+ "ms"
  else
    let whole := Qfloor seconds in
    let hours := whole / 3600 in
    let minutes := (whole mod 3600) / 60 in
    let secs := whole mod 60 in
    let parts := ((if hours =? 0 then [] else [show_Z hours +:+ "h"])
                 ++ (if minutes =? 0 then [] else [show_Z minutes +:+ "m"])
                 ++ (if secs =? 0 then [] else [show_Z secs +:+ "s"]))%list in
    match parts with [] => "0s" | _ => String.concat " " parts end.

(** ** Phone numbers: [^\+?[1-9]\d{9,14}$] on the number without spaces and dashes *)

Definition re_phone_digits (s : string) : bool :=
  match s with
  | String c s' =>
      ascii_in 49 57 c && str_forallb is_digit s'
      && Nat.leb 9 (String.length s') && Nat.leb (String.length s') 14
  | EmptyString => false
  end.

Definition re_phone (s : string) : bool :=
  re_phone_digits s
  || match s with String c s' => Ascii.eqb c "+" && re_phone_digits s' | _ => false end.

Definition is_valid_phone (phone : string) : bool :=
  re_dollar re_phone (str_remove "-" (str_remove " " phone)).

(** ** Display colours *)

Definition color_map : list (string * string) :=
  [("FREE", "00FF00"); ("OCCUPIED", "FF0000"); ("RESERVED", "FFFF00");
   ("MAINTENANCE", "FFA500"); ("ERROR", "0000FF")].

Fixpoint assoc {A} (k : string) (l : list (string * A)) : option A :=
  match l with
  | [] => None
  | (k', v) :: l' => if String.eqb k k' then Some v else assoc k l'
  end.

Definition get_display_color (state : string) : string :=
  or_else (assoc (str_upper state) color_map) "FFFFFF".

(** The characters [str.strip] removes, which [int(s, 16)] skips on both sides. *)
Definition is_py_space (c : ascii) : bool :=
  ascii_in 9 13 c || ascii_in 28 32 c || Ascii.eqb c (ascii_of_N 133) || Ascii.eqb c (ascii_of_N 160).

(** [int(s, 16)] on a string of two characters *)
Definition int16_2 (c1 c2 : ascii) : option Z :=
  match hex_val c1, hex_val c2 with
  | Some h, Some l => Some (16 * h + l)
  | Some h, None => if is_py_space c2 then Some h else None
  | None, Some l =>
      if is_py_space c1 || Ascii.eqb c1 "+" then Some l
      else if Ascii.eqb c1 "-" then Some (- l) else None
  | None, None => None
  end.

Definition parse_rgb_hex (hex_color : string) : result string (Z * Z * Z) :=
  match hex_color with
  | String a (String b (String c (String d (String e (String f EmptyString))))) =>
      match int16_2 a b, int16_2 c d, int16_2 e f with
      | Some r, Some g, Some bl => Ok (r, g, bl)
      | _, _, _ => Err "invalid literal for int() with base 16"
      end
  | _ => Err ("Invalid hex color: " +:+ hex_color)
  end.

(** ** Logging helpers *)

Definition truncate_string (s : string) (max_length : nat) : string :=
  if Nat.leb (String.length s) max_length then s else str_take max_length s +:+ "...".

Definition mask_sensitive_data (data : string) (visible_chars : nat) : string :=
  if Nat.leb (String.length data) visible_chars
  then str_repeat "*" (String.length data)
  else str_take visible_chars data +:+ str_repeat "*" (String.length data - visible_chars).

(** ** Properties of EUI normalisation *)

Lemma strip_separators_filter s :
  strip_separators s = str_filter (fun c => negb (is_sep c)) s.
Proof.
  unfold strip_separators, str_remove. rewrite !str_filter_filter.
  apply str_filter_ext. ascii_decide.
Qed.

Lemma is_sep_upper : ∀ c, is_sep (ascii_upper c) = is_sep c.
Proof. ascii_decide. Qed.

Lemma is_hex_upper_case : ∀ c, is_hex (ascii_upper c) = is_hex c.
Proof. ascii_decide. Qed.

Lemma newline_upper : ∀ c, Ascii.eqb (ascii_upper c) newline = Ascii.eqb c newline.
Proof. ascii_decide. Qed.

Lemma strip_separators_upper s : strip_separators (str_upper s) = str_upper (strip_separators s).
Proof.
  rewrite !strip_separators_filter. apply str_filter_map.
  intros c. by rewrite is_sep_upper.
Qed.

Lemma strip_separators_idemp s : strip_separators (strip_separators s) = strip_separators s.
Proof. rewrite !strip_separators_filter. apply str_filter_id, str_filter_forallb. Qed.

Lemma strip_newline_upper s : strip_newline (str_upper s) = str_upper <$> strip_newline s.
Proof.
  induction s as [|c [|d s] IH]; [done| |].
  - simpl. rewrite newline_upper. by destruct (Ascii.eqb c newline).
  - change (strip_newline (str_upper (String c (String d s))))
      with (String (ascii_upper c) <$> strip_newline (str_upper (String d s))).
    change (strip_newline (String c (String d s))) with (String c <$> strip_newline (String d s)).
    rewrite IH. by destruct (strip_newline (String d s)).
Qed.

Lemma hex16_upper s : hex16 (str_upper s) = hex16 s.
Proof.
  unfold hex16, str_upper. rewrite str_map_length, str_forallb_map. f_equal.
  induction s; simpl; [done|]. by rewrite is_hex_upper_case, IHs.
Qed.

Lemma re_hex16_upper s : re_dollar hex16 (str_upper s) = re_dollar hex16 s.
Proof.
  unfold re_dollar. rewrite hex16_upper, strip_newline_upper.
  destruct (strip_newline s); simpl; [by rewrite hex16_upper|done].
Qed.

Lemma re_hex16_non_empty s : re_dollar hex16 s = true → s ≠ "".
Proof. by intros H ->. Qed.

(** [normalize_deveui] accepts exactly the strings that are empty, or that are
    sixteen hexadecimal digits (with at most one final newline, which [$] lets
    through) once separators are removed, and returns them upper-cased. *)
Theorem normalize_deveui_spec s t :
  normalize_deveui s = Ok t ↔
  (s = "" ∧ t = "") ∨
  (s ≠ "" ∧ t = str_upper (strip_separators s) ∧ re_dollar hex16 t = true).
Proof.
  unfold normalize_deveui. destruct s as [|c s]; [split; [intros [= <-]; auto|intros [[_ ->]|[? _]]; done]|].
  cbn [non_empty negb]. destruct (re_dollar hex16 (strip_separators (String c s))) eqn:E; simpl.
  - rewrite <- re_hex16_upper in E. split; [intros [= <-]; auto|].
    intros [[? ?]|(_ & -> & _)]; congruence.
  - rewrite <- re_hex16_upper in E. split; [done|].
    intros [[? ?]|(_ & -> & ?)]; congruence.
Qed.

(** Normalising is idempotent, and the stored form depends only on the digits:
    any other spelling of the same EUI (case, [:], [-], blanks) normalises to the
    same database key. *)
Theorem normalize_deveui_canonical s t :
  normalize_deveui s = Ok t →
  normalize_deveui t = Ok t ∧
  ∀ s', s' ≠ "" → str_upper (strip_separators s') = str_upper (strip_separators s) →
        s ≠ "" → normalize_deveui s' = Ok t.
Proof.
  rewrite !normalize_deveui_spec. intros [[-> ->]|(Hs & -> & Hre)].
  - split; [by left|done].
  - split.
    + right. split; [by apply re_hex16_non_empty|].
      by rewrite strip_separators_upper, strip_separators_idemp, str_upper_idemp.
    + intros s' Hs' Heq _. rewrite normalize_deveui_spec. right. by rewrite Heq.
Qed.

Lemma normalize_deveui_canonical_witness :
  normalize_deveui "e8:e1:e1:00:01:03:c3:f8" = Ok "E8E1E1000103C3F8" ∧
  normalize_deveui "E8-E1-E1-00-01-03-C3-F8" = Ok "E8E1E1000103C3F8".
Proof.
  split; [vm_compute; reflexivity|].
  refine (proj2 (normalize_deveui_canonical "e8:e1:e1:00:01:03:c3:f8" _ _) _ _ _ _);
    [vm_compute; reflexivity|discriminate|vm_compute; reflexivity|discriminate].
Defined.

Lemma strip_newline_app h : strip_newline (h +:+ String newline "") = Some h.
Proof.
  induction h as [|c h IH]; [done|].
  change (String c h +:+ String newline "") with (String c (h +:+ String newline "")).
  destruct (h +:+ String newline "") as [|d r] eqn:E; [by destruct h|].
  change (strip_newline (String c (String d r))) with (String c <$> strip_newline (String d r)).
  by rewrite IH.
Qed.

Lemma str_filter_app p s1 s2 : str_filter p (s1 +:+ s2) = str_filter p s1 +:+ str_filter p s2.
Proof.
  induction s1 as [|c s1 IH]; [done|].
  change (String c s1 +:+ s2) with (String c (s1 +:+ s2)). cbn [str_filter].
  destruct (p c); [|done]. by rewrite IH.
Qed.

Lemma is_hex_not_sep : ∀ c, implb (is_hex c) (negb (is_sep c)) = true.
Proof. ascii_decide. Qed.

Lemma hex_strip_id h : str_forallb is_hex h = true → strip_separators h = h.
Proof.
  intros H. rewrite strip_separators_filter. apply str_filter_id.
  revert H. apply str_forallb_impl. intros c. pose proof (is_hex_not_sep c).
  by destruct (is_hex c).
Qed.

Lemma hex16_inv s : hex16 s = true → String.length s = 16%nat ∧ str_forallb is_hex s = true.
Proof. unfold hex16. by rewrite andb_true_iff, Nat.eqb_eq. Qed.

(** A valid EUI followed by a newline passes the format check, so the value
    returned is 17 characters long although the function's contract says 16. *)
Theorem normalize_deveui_newline h :
  hex16 h = true →
  normalize_deveui (h +:+ String newline "") = Ok (str_upper (h +:+ String newline "")) ∧
  String.length (str_upper (h +:+ String newline "")) = 17%nat.
Proof.
  intros H. destruct (hex16_inv _ H) as [Hlen Hhex].
  assert (strip_separators (h +:+ String newline "") = h +:+ String newline "") as Hs.
  { rewrite strip_separators_filter, str_filter_app, <- strip_separators_filter.
    by rewrite hex_strip_id. }
  split.
  - rewrite normalize_deveui_spec. right. rewrite Hs, re_hex16_upper.
    split; [by destruct h|]. split; [done|].
    unfold re_dollar. rewrite strip_newline_app, H. apply orb_true_r.
  - unfold str_upper. rewrite str_map_length.
    clear -Hlen. revert Hlen. generalize 16%nat.
    induction h; simpl; intros [] [=]; [done|]. f_equal. by apply IHh.
Qed.

Lemma normalize_deveui_newline_witness :
  hex16 "0004A30B001A2B3C" = true ∧
  String.length (str_upper ("0004A30B001A2B3C" +:+ String newline "")) = 17%nat.
Proof.
  split; [reflexivity|]. apply (normalize_deveui_newline "0004A30B001A2B3C"). reflexivity.
Defined.

(** ** Round trips of the codecs *)

Definition is_byte (b : Z) : Prop := 0 <= b < 256.

(** Check a fact about the integers of [0, n) by evaluation. *)
Lemma Z_below (n : nat) (P : Z → bool) :
  forallb (fun k => P (Z.of_nat k)) (seq 0 n) = true → ∀ v, 0 <= v < Z.of_nat n → P v = true.
Proof.
  intros H v Hv. rewrite forallb_forall in H.
  replace v with (Z.of_nat (Z.to_nat v)) by lia. apply H, in_seq. lia.
Qed.

Lemma b64_char_val v : 0 <= v < 64 → b64_val (b64_char v) = Some v.
Proof.
  intros Hv. apply (bool_decide_eq_true_1 (b64_val (b64_char v) = Some v)).
  revert v Hv. apply (Z_below 64 (fun v => bool_decide (b64_val (b64_char v) = Some v))).
  vm_compute. reflexivity.
Qed.

Lemma b64_char_class v :
  0 <= v < 64 → Ascii.eqb (b64_char v) b64_pad = false ∧ ascii_in 0 127 (b64_char v) = true.
Proof.
  intros Hv.
  assert (negb (Ascii.eqb (b64_char v) b64_pad) && ascii_in 0 127 (b64_char v) = true) as H.
  { revert v Hv.
    apply (Z_below 64 (fun v => negb (Ascii.eqb (b64_char v) b64_pad) && ascii_in 0 127 (b64_char v))).
    vm_compute. reflexivity. }
  apply andb_true_iff in H as [?%negb_true_iff ?]. auto.
Qed.

(** One data character of the decoder. *)
Lemma a2b_step q left pads v s :
  0 <= v < 64 →
  a2b_base64 q left pads (String (b64_char v) s) =
  match q with
  | 0%nat => a2b_base64 1 v 0 s
  | 1%nat => cons (left * 4 + v / 16) <$> a2b_base64 2 (v mod 16) 0 s
  | 2%nat => cons (left * 16 + v / 4) <$> a2b_base64 3 (v mod 4) 0 s
  | _ => cons (left * 64 + v) <$> a2b_base64 0 0 0 s
  end.
Proof.
  intros Hv. cbn [a2b_base64].
  destruct (b64_char_class v Hv) as [-> _]. by rewrite b64_char_val.
Qed.

Lemma list_ind3 {A} (P : list A → Prop) :
  P [] → (∀ a, P [a]) → (∀ a b, P [a; b]) →
  (∀ a b c l, P l → P (a :: b :: c :: l)) → ∀ l, P l.
Proof.
  intros H0 H1 H2 H3. fix IH 1. intros [|a [|b [|c l]]]; [done|done|done|]. apply H3, IH.
Qed.

Ltac byte_arith :=
  unfold is_byte in *; Z.div_mod_to_equations; lia.

Lemma a2b_encode bs : Forall is_byte bs → a2b_base64 0 0 0 (b64encode bs) = Some bs.
Proof.
  induction bs as [|a|a b|a b c l IH] using list_ind3; intros Hb;
    rewrite ?Forall_cons in Hb; [done| | |]; destruct_and!; cbn [b64encode].
  - rewrite !a2b_step by byte_arith. change (a2b_base64 2 ?l 0 (String b64_pad (String b64_pad ""))) with (Some (@nil Z)).
    cbn [fmap option_fmap option_map].
    do 2 f_equal. byte_arith.
  - rewrite !a2b_step by byte_arith. change (a2b_base64 3 ?l 0 (String b64_pad "")) with (Some (@nil Z)).
    cbn [fmap option_fmap option_map]. do 2 f_equal; [|f_equal]; byte_arith.
  - rewrite !a2b_step by byte_arith. rewrite IH by done. cbn [fmap option_fmap option_map].
    do 2 f_equal; [byte_arith|f_equal; [byte_arith|f_equal; byte_arith]].
Qed.

Lemma b64encode_ascii bs : Forall is_byte bs → str_forallb (ascii_in 0 127) (b64encode bs) = true.
Proof.
  induction bs as [|a|a b|a b c l IH] using list_ind3; intros Hb;
    rewrite ?Forall_cons in Hb; [done| | |]; destruct_and!; cbn [b64encode str_forallb];
    rewrite ?(λ v H, proj2 (b64_char_class v H)) by byte_arith; auto.
Qed.

Lemma b64_roundtrip bs : Forall is_byte bs → b64decode (b64encode bs) = Some bs.
Proof. intros H. unfold b64decode. by rewrite b64encode_ascii, a2b_encode. Qed.

(** A digit's value is below 16, and printing it gives the digit in lower case. *)
Lemma hex_val_digit : ∀ c,
  match hex_val c with
  | Some v => (0 <=? v) && (v <? 16) && Ascii.eqb (hex_digit v) (ascii_lower c)
              && negb (is_c_space c)
  | None => negb (is_hex c)
  end = true.
Proof. apply ascii_all. vm_compute. reflexivity. Qed.

Lemma hex_val_Some c v :
  hex_val c = Some v → 0 <= v < 16 ∧ hex_digit v = ascii_lower c ∧ is_c_space c = false.
Proof.
  intros H. pose proof (hex_val_digit c) as Hd. rewrite H, !andb_true_iff in Hd.
  destruct Hd as [[[? ?] ?%Ascii.eqb_eq] ?%negb_true_iff]. repeat split; [lia|lia|done|done].
Qed.

Lemma is_hex_val c : is_hex c = true → ∃ v, hex_val c = Some v.
Proof.
  intros H. pose proof (hex_val_digit c) as Hd.
  destruct (hex_val c); [eauto|]. by rewrite H in Hd.
Qed.

Lemma bytes_fromhex_bytes s bs : bytes_fromhex s = Some bs → Forall is_byte bs.
Proof.
  revert bs. induction s as [s IH] using (induction_ltof1 _ String.length).
  unfold ltof in IH. destruct s as [|c1 s1]; intros bs H; cbn in H; [simplify_eq; constructor|].
  destruct (is_c_space c1); [eapply IH; [|done]; simpl; lia|].
  destruct s1 as [|c2 s2]; [done|].
  destruct (hex_val c1) eqn:E1, (hex_val c2) eqn:E2; try done.
  apply hex_val_Some in E1, E2. destruct (bytes_fromhex s2) eqn:E; simplify_eq/=.
  constructor; [unfold is_byte; lia|]. eapply IH; [|done]. simpl; lia.
Qed.

Lemma bytes_hex_fromhex h bs :
  str_forallb is_hex h = true → bytes_fromhex h = Some bs → bytes_hex bs = str_lower h.
Proof.
  revert bs. induction h as [h IH] using (induction_ltof1 _ String.length).
  unfold ltof in IH. destruct h as [|c1 [|c2 s]]; intros bs Hh H.
  - by simplify_eq/=.
  - cbn in H, Hh. rewrite andb_true_r in Hh. destruct (is_hex_val _ Hh) as [v E].
    apply hex_val_Some in E as (_ & _ & E). by rewrite E in H.
  - cbn in Hh. rewrite !andb_true_iff in Hh. destruct Hh as (H1 & H2 & H3).
    destruct (is_hex_val _ H1) as [v1 E1], (is_hex_val _ H2) as [v2 E2].
    pose proof (hex_val_Some _ _ E1) as (? & D1 & N1). pose proof (hex_val_Some _ _ E2) as (? & D2 & _).
    cbn in H. rewrite N1, E1, E2 in H.
    destruct (bytes_fromhex s) eqn:E; simplify_eq/=. cbn.
    replace ((16 * v1 + v2) / 16) with v1 by byte_arith.
    replace ((16 * v1 + v2) mod 16) with v2 by byte_arith.
    unfold str_lower. cbn [str_map]. rewrite D1, D2. do 2 f_equal.
    apply IH; [simpl; lia|done|done].
Qed.

(** Converting a hexadecimal payload to base64 and back returns the same
    payload in lower case: no byte is lost on the way to and from the network
    server, whatever the length modulo three. *)
Theorem hex_base64_roundtrip h b :
  str_forallb is_hex h = true → hex_to_base64 h = Ok b → base64_to_hex b = Ok (str_lower h).
Proof.
  unfold hex_to_base64, base64_to_hex. intros Hh H.
  destruct (bytes_fromhex h) as [bs|] eqn:E; simplify_eq.
  rewrite b64_roundtrip by (by eapply bytes_fromhex_bytes).
  f_equal. by apply bytes_hex_fromhex.
Qed.

Lemma hex_base64_roundtrip_witness :
  hex_to_base64 "00FF0A1B" = Ok "AP8KGw==" ∧ base64_to_hex "AP8KGw==" = Ok "00ff0a1b".
Proof.
  split; [reflexivity|]. apply (hex_base64_roundtrip "00FF0A1B"); reflexivity.
Defined.
