(* ===== verification/Json.v ===== *)
(** * Json: the values of Python's json module

    The uplink endpoint receives JSON, and process_uplink leaves in Redis a report that
    the reconciliation loop reads back; the downlink queue stores its commands as JSON.
    [dumps] is [json.dumps] with its default separators and [ensure_ascii]; [loads] is
    [json.loads], a descent on fuel for which twice the length of the text is enough.  A
    float is kept as its literal ([JFloat]), a string has 8-bit characters (an escape of a
    larger code point is not read), and a decoded object has one entry per key. *)

From Stdlib Require Import DecimalString QArith.
From S2P Require Import Prelude PyUtils.

Open Scope Z_scope.

Inductive json :=
| JNull
| JBool (b : bool)
| JInt (n : Z)
| JFloat (literal : string)
| JText (s : string)
| JArr (l : list json)
| JObj (o : list (string * json)).

(** ** Printing *)

Definition json_char (c : ascii) : string :=
  let n := Z.of_N (N_of_ascii c) in
  if n =? 34 then String (ascii_of_N 92) (String (ascii_of_N 34) "") else
  if n =? 92 then String (ascii_of_N 92) (String (ascii_of_N 92) "") else
  if n =? 10 then "\n" else if n =? 13 then "\r" else if n =? 9 then "\t" else
  if n =? 8 then "\b" else if n =? 12 then "\f" else
  if (n <? 32) || (127 <=? n) && negb (n =? 127)
  then "\u00" +:+ String (hex_digit (n / 16)) (String (hex_digit (n mod 16)) "")
  else String c "".

Fixpoint json_chars (s : string) : string :=
  match s with EmptyString => "" | String c s' => json_char c +:+ json_chars s' end.

Definition quote : string := String (ascii_of_N 34) "".

Definition json_str (s : string) : string := quote +:+ json_chars s +:+ quote.

Fixpoint dumps (j : json) : string :=
  match j with
  | JNull => "null"
  | JBool b => if b then "true" else "false"
  | JInt n => show_Z n
  | JFloat x => x
  | JText s => json_str s
  | JArr l => "[" +:+ String.concat ", " (map dumps l) +:+ "]"
  | JObj o => "{" +:+ String.concat ", " (map (λ kv, let '(k, v) := kv in json_str k +:+ ": " +:+ dumps v) o) +:+ "}"
  end.

(** What the handlers make of nullable text and of a timestamp with time zone *)
Definition text_or_null (o : option string) : json := match o with Some s => JText s | None => JNull end.
Definition iso (t : Z) : json := JText (isoformat t +:+ "+00:00").

(** ** Reading *)

(** The two characters after the backslash [u00] *)
Definition code_char (h l : ascii) : option ascii :=
  match hex_val h, hex_val l with
  | Some h, Some l => Some (ascii_of_N (Z.to_N (16 * h + l)))
  | _, _ => None
  end.

Definition unescape (e : ascii) : option ascii :=
  if Ascii.eqb e "n" then Some (ascii_of_N 10) else
  if Ascii.eqb e "r" then Some (ascii_of_N 13) else
  if Ascii.eqb e "t" then Some (ascii_of_N 9) else
  if Ascii.eqb e "b" then Some (ascii_of_N 8) else
  if Ascii.eqb e "f" then Some (ascii_of_N 12) else
  if Ascii.eqb e (ascii_of_N 34) || Ascii.eqb e (ascii_of_N 92) || Ascii.eqb e "/" then Some e
  else None.

(** The rest of a string literal after its opening quote: its characters, what follows. *)
Fixpoint str_body (s : string) : option (string * string) :=
  match s with
  | EmptyString => None
  | String c s' =>
      if Ascii.eqb c (ascii_of_N 34) then Some ("", s')
      else if Ascii.eqb c (ascii_of_N 92) then
        match s' with
        | String e s2 =>
            if Ascii.eqb e "u" then
              match s2 with
              | String a (String b (String h (String l s3))) =>
                  if Ascii.eqb a "0" && Ascii.eqb b "0" then
                    match code_char h l, str_body s3 with
                    | Some d, Some (t, r) => Some (String d t, r)
                    | _, _ => None
                    end
                  else None
              | _ => None
              end
            else match unescape e, str_body s2 with
                 | Some d, Some (t, r) => Some (String d t, r)
                 | _, _ => None
                 end
        | EmptyString => None
        end
      else if (N_of_ascii c <? 32)%N then None
      else match str_body s' with Some (t, r) => Some (String c t, r) | None => None end
  end.

(** The longest prefix of characters in [p], and what follows. *)
Fixpoint span (p : ascii → bool) (s : string) : string * string :=
  match s with
  | String c s' => if p c then let '(a, b) := span p s' in (String c a, b) else ("", s)
  | EmptyString => ("", "")
  end.

(** The text up to the first character in [p], and what follows that character. *)
Definition cut (p : ascii → bool) (s : string) : string * option string :=
  let '(a, b) := span (λ c, negb (p c)) s in
  (a, match b with String _ r => Some r | EmptyString => None end).

Definition is_sign (c : ascii) : bool := Ascii.eqb c "+" || Ascii.eqb c "-".
Definition is_num_char (c : ascii) : bool :=
  is_digit c || is_sign c || Ascii.eqb c "." || Ascii.eqb c "e" || Ascii.eqb c "E".

Definition digits1 (s : string) : bool := non_empty s && str_forallb is_digit s.

(** An optional minus and digits, without a leading zero *)
Definition int_literal (s : string) : option Z :=
  match read_Z s with
  | Some n => if String.eqb (show_Z n) s || String.eqb s "-0" then Some n else None
  | None => None
  end.

Definition float_literal (s : string) : bool :=
  let '(mantissa, exponent) := cut (λ c, Ascii.eqb c "e" || Ascii.eqb c "E") s in
  let '(int, frac) := cut (Ascii.eqb ".") mantissa in
  let signed e := match e with String c r => if is_sign c then r else e | EmptyString => e end in
  bool_decide (is_Some (int_literal int)) &&
  match frac with Some f => digits1 f | None => true end &&
  match exponent with Some e => digits1 (signed e) | None => true end.

Definition number (s : string) : option json :=
  match int_literal s with
  | Some n => Some (JInt n)
  | None => if float_literal s then Some (JFloat s) else None
  end.

Definition is_json_space (c : ascii) : bool :=
  Ascii.eqb c " " || Ascii.eqb c newline || Ascii.eqb c (ascii_of_N 9) || Ascii.eqb c (ascii_of_N 13).

Definition skip_ws (s : string) : string := (span is_json_space s).2.

(** [d[k] = v] on a dict in insertion order *)
Fixpoint obj_set {A} (k : string) (v : A) (o : list (string * A)) : list (string * A) :=
  match o with
  | [] => [(k, v)]
  | (k', v') :: o' => if String.eqb k k' then (k, v) :: o' else (k', v') :: obj_set k v o'
  end.

(** The literals [null], [true], [false] and numbers *)
Definition scalar (s : string) : option (json * string) :=
  if starts_with "null" s then Some (JNull, str_drop 4 s)
  else if starts_with "true" s then Some (JBool true, str_drop 4 s)
  else if starts_with "false" s then Some (JBool false, str_drop 5 s)
  else let '(t, r) := span is_num_char s in (λ j, (j, r)) <$> number t.

Fixpoint value (n : nat) (s : string) : option (json * string) :=
  match n with
  | O => None
  | S n =>
      match s with
      | EmptyString => None
      | String c s' =>
          if Ascii.eqb c (ascii_of_N 34) then
            match str_body s' with Some (t, r) => Some (JText t, r) | None => None end
          else if Ascii.eqb c "[" then
            match skip_ws s' with
            | String d r =>
                if Ascii.eqb d "]" then Some (JArr [], r)
                else match elements n (String d r) with Some (l, r) => Some (JArr l, r) | None => None end
            | EmptyString => None
            end
          else if Ascii.eqb c "{" then
            match skip_ws s' with
            | String d r =>
                if Ascii.eqb d "}" then Some (JObj [], r)
                else match members n [] (String d r) with Some (o, r) => Some (JObj o, r) | None => None end
            | EmptyString => None
            end
          else scalar s
      end
  end
with elements (n : nat) (s : string) : option (list json * string) :=
  match n with
  | O => None
  | S n =>
      match value n s with
      | Some (j, r) =>
          match skip_ws r with
          | String d r =>
              if Ascii.eqb d "]" then Some ([j], r)
              else if Ascii.eqb d "," then
                match elements n (skip_ws r) with Some (l, r) => Some (j :: l, r) | None => None end
              else None
          | EmptyString => None
          end
      | None => None
      end
  end
with members (n : nat) (o : list (string * json)) (s : string) : option (list (string * json) * string) :=
  match n with
  | O => None
  | S n =>
      match s with
      | String q s' =>
          if negb (Ascii.eqb q (ascii_of_N 34)) then None
          else match str_body s' with
          | Some (k, r) =>
              match skip_ws r with
              | String colon r =>
                  if negb (Ascii.eqb colon ":") then None
                  else match value n (skip_ws r) with
                  | Some (j, r) =>
                      match skip_ws r with
                      | String d r =>
                          if Ascii.eqb d "}" then Some (obj_set k j o, r)
                          else if Ascii.eqb d "," then members n (obj_set k j o) (skip_ws r)
                          else None
                      | EmptyString => None
                      end
                  | None => None
                  end
              | EmptyString => None
              end
          | None => None
          end
      | EmptyString => None
      end
  end.

Definition loads (s : string) : option json :=
  match value (2 * String.length s + 1) (skip_ws s) with
  | Some (j, r) => if non_empty (skip_ws r) then None else Some j
  | None => None
  end.

(** The number a float literal names *)
Definition float_value (x : string) : Q :=
  let '(mantissa, exponent) := cut (λ c, Ascii.eqb c "e" || Ascii.eqb c "E") x in
  let '(int, frac) := cut (Ascii.eqb ".") mantissa in
  let digits := str_filter is_digit (int +:+ or_else frac "") in
  let e := or_else (exponent ≫= λ e, read_Z (str_filter (λ c, negb (Ascii.eqb c "+")) e)) 0 - Z.of_nat (String.length (or_else frac "")) in
  let n := or_else (read_Z digits) 0 in
  let n := if starts_with "-" int then - n else n in
  if 0 <=? e then inject_Z (n * 10 ^ e) else n # Z.to_pos (10 ^ (- e)).

(** ** Reading back what was printed *)

Fixpoint json_rect' (P : json → Prop) (Hn : P JNull) (Hb : ∀ b, P (JBool b)) (Hi : ∀ n, P (JInt n))
  (Hf : ∀ x, P (JFloat x)) (Ht : ∀ s, P (JText s)) (Ha : ∀ l, Forall P l → P (JArr l))
  (Ho : ∀ o, Forall (λ kv, P kv.2) o → P (JObj o)) (j : json) : P j :=
  let rec := json_rect' P Hn Hb Hi Hf Ht Ha Ho in
  match j with
  | JNull => Hn | JBool b => Hb b | JInt n => Hi n | JFloat x => Hf x | JText s => Ht s
  | JArr l => Ha l ((fix go l : Forall P l := match l with
                                 | [] => List.Forall_nil _
                                 | x :: l => List.Forall_cons _ x l (rec x) (go l)
                                 end) l)
  | JObj o => Ho o ((fix go o : Forall (λ kv, P kv.2) o := match o with
                                 | [] => List.Forall_nil _
                                 | kv :: o => List.Forall_cons _ kv o (rec kv.2) (go o)
                                 end) o)
  end.

(** A value [loads] can return: keys are distinct, floats are literals. *)
Fixpoint wf_json (j : json) : Prop :=
  match j with
  | JFloat x => number x = Some (JFloat x) ∧ non_empty x && str_forallb is_num_char x = true
  | JArr l => fold_right (λ x P, wf_json x ∧ P) True l
  | JObj o => NoDup o.*1 ∧ fold_right (λ kv P, (let '(_, v) := kv in wf_json v) ∧ P) True o
  | _ => True
  end.

Lemma str_body_char c t :
  str_body (json_char c +:+ t) =
  match str_body t with Some (x, r) => Some (String c x, r) | None => None end.
Proof. destruct c as [[] [] [] [] [] [] [] []]; reflexivity. Qed.

Lemma str_body_chars s r : str_body (json_chars s +:+ quote +:+ r) = Some (s, r).
Proof.
  induction s as [|c s IH]; [reflexivity|].
  cbn [json_chars]. rewrite append_assoc, str_body_char, IH. reflexivity.
Qed.

Lemma span_app p t r :
  str_forallb p t = true → match r with String c _ => p c = false | EmptyString => True end →
  span p (t +:+ r) = (t, r).
Proof.
  intros Ht Hr. induction t as [|c t IH].
  - change ("" +:+ r) with r. destruct r as [|c r]; [done|]. cbn. by rewrite Hr.
  - cbn in Ht. apply andb_true_iff in Ht as [Hc Ht]. rewrite append_cons. cbn. by rewrite Hc, IH.
Qed.

(** What follows a value never continues a number. *)
Definition stops (r : string) : bool :=
  match r with String c _ => negb (is_num_char c) | EmptyString => true end.

Lemma num_char_other : ∀ c, implb (is_num_char c)
  (negb (Ascii.eqb c (ascii_of_N 34) || Ascii.eqb c "[" || Ascii.eqb c "{" || Ascii.eqb c "]" ||
         Ascii.eqb c "n" || Ascii.eqb c "t" || Ascii.eqb c "f" || is_json_space c)) = true.
Proof. apply ascii_all. vm_compute. reflexivity. Qed.

Lemma num_char_facts c : is_num_char c = true →
  Ascii.eqb c (ascii_of_N 34) = false ∧ Ascii.eqb c "[" = false ∧ Ascii.eqb c "{" = false ∧
  Ascii.eqb c "]" = false ∧ c ≠ "n"%char ∧ c ≠ "t"%char ∧ c ≠ "f"%char ∧ is_json_space c = false.
Proof.
  intros Hc. pose proof (num_char_other c) as H. rewrite Hc in H. cbn [implb] in H.
  rewrite negb_true_iff, !orb_false_iff in H. destruct H as [[[[[[[? ?] ?] ?] Hn] Ht] Hf] ?].
  apply Ascii.eqb_neq in Hn, Ht, Hf. done.
Qed.

Lemma prefix_other a p c s : c ≠ a → starts_with (String a p) (String c s) = false.
Proof. intros Hc. unfold starts_with. cbn. by destruct (ascii_dec a c) as [->|]. Qed.

Lemma prefix_other_app a p c s r : c ≠ a → starts_with (String a p) (String c s +:+ r) = false.
Proof. apply prefix_other. Qed.

Lemma value_number n t r :
  non_empty t && str_forallb is_num_char t = true → stops r = true →
  value (S n) (t +:+ r) = (λ j, (j, r)) <$> number t.
Proof.
  intros [Hne Ht]%andb_true_iff Hr. pose proof (span_app _ t r Ht) as Hs.
  destruct t as [|c t]; [done|]. cbn in Ht. apply andb_true_iff in Ht as [Hc Ht].
  destruct (num_char_facts c Hc) as (Hq & Hb & Hbr & _ & Hn & Htr & Hf & _).
  rewrite append_cons in *. cbn [value]. rewrite Hq, Hb, Hbr. unfold scalar.
  rewrite !prefix_other by done. rewrite Hs; [done|].
  destruct r as [|d r]; [done|]. by apply negb_true_iff.
Qed.

Lemma uint_num_chars d : str_forallb is_num_char (NilEmpty.string_of_uint d) = true.
Proof. induction d; cbn; auto. Qed.

Lemma show_Z_num_chars z : non_empty (show_Z z) && str_forallb is_num_char (show_Z z) = true.
Proof.
  rewrite show_Z_non_empty. cbn [andb]. unfold show_Z, NilZero.string_of_int, NilZero.string_of_uint.
  destruct (Z.to_int z) as [d|d]; destruct d; cbn; rewrite ?uint_num_chars; done.
Qed.

Lemma number_show_Z z : number (show_Z z) = Some (JInt z).
Proof. unfold number, int_literal. by rewrite read_show_Z, String.eqb_refl. Qed.

Definition head_ok (s : string) : bool :=
  match s with String c _ => negb (is_json_space c || Ascii.eqb c "]") | EmptyString => false end.

Lemma skip_ws_head c s : is_json_space c = false → skip_ws (String c s) = String c s.
Proof. intros H. unfold skip_ws. cbn. by rewrite H. Qed.

Lemma num_head_ok t r : non_empty t && str_forallb is_num_char t = true → head_ok (t +:+ r) = true.
Proof.
  destruct t as [|c t]; [done|]. cbn. intros [Hc _]%andb_true_iff. rewrite append_cons. cbn.
  destruct (num_char_facts c Hc) as (_ & _ & _ & -> & _ & _ & _ & ->). done.
Qed.

Lemma dumps_head j r : wf_json j → head_ok (dumps j +:+ r) = true.
Proof.
  destruct j as [|[]| | | | |]; cbn [dumps wf_json]; try reflexivity.
  - intros _. apply num_head_ok, show_Z_num_chars.
  - intros [_ H]. by apply num_head_ok.
Qed.

Lemma head_ok_skip s : head_ok s = true → ∃ c s', s = String c s' ∧ skip_ws s = s ∧ Ascii.eqb c "]" = false.
Proof.
  destruct s as [|c s]; [done|]. cbn. rewrite negb_true_iff, orb_false_iff. intros [Hw Hb].
  exists c, s. split_and!; [done| |done]. by apply skip_ws_head.
Qed.

(** What [value] does on the text of [j]. *)
Definition reads (j : json) : Prop :=
  wf_json j → ∀ n r, (2 * String.length (dumps j) ≤ n)%nat → stops r = true →
  value n (dumps j +:+ r) = Some (j, r).

Definition member (kv : string * json) : string := let '(k, v) := kv in json_str k +:+ ": " +:+ dumps v.

Lemma concat_cons2 sep x y l : String.concat sep (x :: y :: l) = x +:+ sep +:+ String.concat sep (y :: l).
Proof. reflexivity. Qed.

Lemma elements_dumps l : l ≠ [] → Forall reads l → fold_right (λ x P, wf_json x ∧ P) True l →
  ∀ n r, (2 * String.length (String.concat ", " (map dumps l)) < n)%nat →
  elements n (String.concat ", " (map dumps l) +:+ "]" +:+ r) = Some (l, r).
Proof.
  intros Hne Hl. induction Hl as [|x l Hx Hl IH]; [done|]. cbn [fold_right]. intros [Wx Wl] [|n] r Hn; [lia|].
  destruct l as [|y l].
  - cbn [map String.concat] in *. cbn [elements]. rewrite Hx by (done || lia). reflexivity.
  - cbn [map] in *. rewrite concat_cons2 in *. rewrite !append_length in Hn. cbn [String.length] in Hn.
    rewrite !append_assoc. cbn [elements]. rewrite Hx by (done || lia).
    set (tl := String.concat ", " (dumps y :: map dumps l)) in *.
    change (", " +:+ tl +:+ "]" +:+ r) with (String "," (String " " (tl +:+ "]" +:+ r))).
    rewrite (skip_ws_head ",") by done. cbn [Ascii.eqb Bool.eqb].
    assert (skip_ws (String " " (tl +:+ "]" +:+ r)) = tl +:+ "]" +:+ r) as ->.
    { assert (head_ok (tl +:+ "]" +:+ r) = true) as (c & s' & E & Hs & _)%head_ok_skip.
      { subst tl. destruct l; cbn [map]; rewrite ?concat_cons2, ?append_assoc; apply dumps_head, Wl. }
      rewrite <- Hs at 2. unfold skip_ws. cbn [span]. by destruct (span is_json_space (tl +:+ _)). }
    rewrite IH by (done || lia). reflexivity.
Qed.

Lemma obj_set_fresh {A} k (v : A) o : k ∉ o.*1 → obj_set k v o = (o ++ [(k, v)])%list.
Proof.
  induction o as [|[k' v'] o IH]; [done|]. cbn. intros [Hk Ho]%not_elem_of_cons.
  destruct (String.eqb_spec k k') as [->|_]; [done|]. by rewrite IH.
Qed.

(** One member up to what follows its value *)
Lemma members_one n o k v r :
  reads v → wf_json v → (2 * String.length (member (k, v)) ≤ n)%nat → stops r = true →
  members (S n) o (member (k, v) +:+ r) =
  match skip_ws r with
  | String d r => if Ascii.eqb d "}" then Some (obj_set k v o, r)
                  else if Ascii.eqb d "," then members n (obj_set k v o) (skip_ws r) else None
  | EmptyString => None
  end.
Proof.
  intros Hv Wv Hn Hr. unfold member, json_str in *. rewrite !append_length in Hn. rewrite !append_assoc.
  change (quote +:+ ?s) with (String (ascii_of_N 34) s). cbn [members].
  change (negb (Ascii.eqb (ascii_of_N 34) (ascii_of_N 34))) with false. cbv beta iota.
  change (String (ascii_of_N 34) ?s) with (quote +:+ s). rewrite str_body_chars.
  change (": " +:+ ?s) with (String ":" (String " " s)). rewrite (skip_ws_head ":") by done.
  cbn [Ascii.eqb Bool.eqb negb].
  assert (skip_ws (String " " (dumps v +:+ r)) = dumps v +:+ r) as ->.
  { destruct (head_ok_skip _ (dumps_head v r Wv)) as (c & s' & E & Hs & _).
    rewrite <- Hs at 2. unfold skip_ws. cbn [span]. by destruct (span is_json_space (dumps v +:+ r)). }
  rewrite Hv by (done || lia). reflexivity.
Qed.

Lemma members_dumps o2 : o2 ≠ [] → Forall (λ kv, reads kv.2) o2 →
  fold_right (λ kv P, (let '(_, v) := kv in wf_json v) ∧ P) True o2 →
  ∀ o1 n r, NoDup (o1 ++ o2)%list.*1 → (2 * String.length (String.concat ", " (map member o2)) < n)%nat →
  members n o1 (String.concat ", " (map member o2) +:+ "}" +:+ r) = Some ((o1 ++ o2)%list, r).
Proof.
  intros Hne Ho. induction Ho as [|[k v] o2 Hx Ho IH]; [done|]. cbn [fold_right snd] in *.
  intros [Wx Wo] o1 [|n] r Hd Hn; [lia|].
  assert (k ∉ o1.*1) as Hk.
  { rewrite fmap_app, fmap_cons in Hd. cbn in Hd. apply NoDup_app in Hd as (_ & Hd & _). intros Hin.
    apply (Hd k Hin). by left. }
  destruct o2 as [|y o2].
  - cbn [map String.concat] in *. rewrite members_one by (done || lia).
    change ("}" +:+ r) with (String "}" r). rewrite skip_ws_head by done. cbn. by rewrite obj_set_fresh.
  - cbn [map] in *. rewrite concat_cons2 in *. rewrite (append_length (member (k, v))) in Hn.
    rewrite append_length in Hn. change (String.length ", ") with 2%nat in Hn.
    rewrite !append_assoc, members_one by (done || lia).
    set (tl := String.concat ", " (member y :: map member o2)) in *.
    change (", " +:+ tl +:+ "}" +:+ r) with (String "," (String " " (tl +:+ "}" +:+ r))).
    rewrite (skip_ws_head ",") by done. cbn [Ascii.eqb Bool.eqb].
    assert (skip_ws (String " " (tl +:+ "}" +:+ r)) = tl +:+ "}" +:+ r) as ->.
    { subst tl. destruct y as [k2 v2]. by destruct o2. }
    rewrite obj_set_fresh by done.
    assert ((o1 ++ (k, v) :: y :: o2)%list = ((o1 ++ [(k, v)]) ++ y :: o2)%list) as Eapp by by rewrite <- app_assoc.
    rewrite Eapp in *. apply IH; done || lia.
Qed.

Lemma value_dumps j : reads j.
Proof.
  induction j as [|[]|z|x|s|l IH|o IH] using json_rect'; intros W n r Hn Hr;
    (destruct n as [|n]; [destruct (head_ok_skip _ (dumps_head _ "" W)) as (c & s' & E & _);
       rewrite append_nil_r in E; rewrite E in Hn; cbn in Hn; lia|]).
  - cbn [dumps value]. unfold scalar. by rewrite starts_with_app.
  - cbn [dumps value]. unfold scalar. by rewrite (prefix_other_app "n") by done; rewrite starts_with_app.
  - cbn [dumps value]. unfold scalar.
    rewrite (prefix_other_app "n"), (prefix_other_app "t") by done; by rewrite starts_with_app.
  - cbn [dumps]. rewrite value_number by (done || apply show_Z_num_chars). by rewrite number_show_Z.
  - destruct W as [Wn Wc]. cbn [dumps]. rewrite value_number by done. by rewrite Wn.
  - cbn [dumps]. unfold json_str. rewrite !append_assoc. change (quote +:+ ?s) with (String (ascii_of_N 34) s) at 1.
    cbn [value]. change (Ascii.eqb (ascii_of_N 34) (ascii_of_N 34)) with true. by rewrite str_body_chars.
  - destruct l as [|x l]; [reflexivity|]. cbn [dumps] in *. rewrite !append_length in Hn. rewrite !append_assoc.
    set (body := String.concat ", " (map dumps (x :: l))) in *. change (String.length "[") with 1%nat in Hn.
    change ("[" +:+ body +:+ "]" +:+ r) with (String "[" (body +:+ "]" +:+ r)). cbn [value Ascii.eqb Bool.eqb].
    assert (head_ok (body +:+ "]" +:+ r) = true) as (c & s' & E & Hs & Hb)%head_ok_skip.
    { subst body. destruct l; cbn [map]; rewrite ?concat_cons2, ?append_assoc; apply dumps_head, W. }
    change (Ascii.eqb "[" (ascii_of_N 34)) with false. cbv iota.
    rewrite Hs, E, Hb, <- E. subst body. rewrite elements_dumps; [done|done|done|done|lia].
  - destruct o as [|kv o]; [reflexivity|]. destruct W as [Wd Wo]. cbn [dumps] in *. fold member in *.
    change (λ kv0 : string * json, let '(k, v) := kv0 in json_str k +:+ ": " +:+ dumps v) with member in *.
    rewrite !append_length in Hn. rewrite !append_assoc.
    set (body := String.concat ", " (map member (kv :: o))) in *. change (String.length "{") with 1%nat in Hn.
    change ("{" +:+ body +:+ "}" +:+ r) with (String "{" (body +:+ "}" +:+ r)). cbn [value Ascii.eqb Bool.eqb].
    change (Ascii.eqb "{" (ascii_of_N 34)) with false. cbv iota.
    assert (∃ s', body +:+ "}" +:+ r = String (ascii_of_N 34) s') as [s' E].
    { subst body. destruct kv as [k v]. destruct o; cbn [map]; rewrite ?concat_cons2; eexists; reflexivity. }
    rewrite E, skip_ws_head by done. change (Ascii.eqb (ascii_of_N 34) "}") with false. cbv iota. rewrite <- E.
    subst body. rewrite (members_dumps (kv :: o) ltac:(done) IH Wo []); [done|done|lia].
Qed.

(** [json.loads(json.dumps(j)) == j] *)
Theorem loads_dumps j : wf_json j → loads (dumps j) = Some j.
Proof.
  intros W. unfold loads. destruct (head_ok_skip _ (dumps_head j "" W)) as (c & s' & _ & Hs & _).
  rewrite append_nil_r in Hs. rewrite Hs.
  rewrite <- (append_nil_r (dumps j)) at 2. by rewrite value_dumps by (done || lia).
Qed.

(** ** [safe_dict_get] of src/src/utils.py *)

(** The loop: a missing key, a null and a value that is no dict give the default. *)
Fixpoint get_keys (keys : list string) (value default : json) : json :=
  match keys with
  | [] => value
  | key :: keys =>
      match value with
      | JObj o => match assoc key o with Some JNull | None => default | Some v => get_keys keys v default end
      | _ => default
      end
  end.

Definition safe_dict_get (d : json) (path : string) (default : json) : json := get_keys (split_on "." path) d default.

(** One step down, to a value that is not null *)
Definition child (key : string) (j : json) : option json :=
  match j with
  | JObj o => match assoc key o with Some JNull => None | o => o end
  | _ => None
  end.

(** A dotted path of keys without dots leads down step by step; the default stands for
    whatever is not there. *)
Theorem safe_dict_get_spec keys d default :
  keys ≠ [] → Forall (λ k, char_free "." k = true) keys →
  safe_dict_get d (String.concat "." keys) default = or_else (foldl (λ o k, o ≫= child k) (Some d) keys) default.
Proof.
  intros Hne Hf. unfold safe_dict_get. rewrite (split_on_join ".") by done. clear Hne Hf.
  assert (∀ keys, foldl (λ o k, o ≫= child k) None keys = None) as Hnone by (intros l; by induction l).
  revert d. induction keys as [|k keys IH]; intros d; [done|]. cbn [get_keys foldl mbind option_bind].
  destruct d; cbn [child]; rewrite ?Hnone; try done.
  destruct (assoc k _) as [[]|]; rewrite ?Hnone; try done; apply IH.
Qed.

Lemma safe_dict_get_spec_witness :
  safe_dict_get (JObj [("deviceInfo", JObj [("devEui", JText "E8")])]) "deviceInfo.devEui" JNull = JText "E8".
Proof. apply (safe_dict_get_spec ["deviceInfo"; "devEui"]); [discriminate|]. repeat constructor. Defined.
