(* ===== verification/Redis.v ===== *)
(** * Redis: the contract of the key-value server the platform calls

    The server is not part of the repository.  [Redis] is the interface the
    components are written against: an abstract store, the commands the code
    issues, and one law per command that states its documented effect on the
    keyspace.  Every component takes a [Redis] instance as a parameter;
    [gmap_redis] at the end of the file shows that the laws can hold together.

    A keyspace maps a key to a typed value and an optional deadline.  Time is in
    microseconds; a key whose deadline has passed is absent to every command.  A
    command on a key that holds another type leaves the store as it is (the
    server replies with WRONGTYPE). *)

From S2P Require Import Prelude.

Open Scope Z_scope.

Inductive rval :=
| RStr (s : string)
| RList (l : list string)
| RHash (h : gmap string string)
| RZSet (z : gmap string Z).

Abbreviation entry := (rval * option Z)%type.
Abbreviation keyspace := (gmap string entry).

(** ** What the commands do to a keyspace *)

Definition live (t : Z) (e : entry) : bool :=
  match e.2 with None => true | Some d => t <? d end.

Definition alive (t : Z) (k : string) (ks : keyspace) : option entry :=
  match ks !! k with
  | Some e => if live t e then Some e else None
  | None => None
  end.

(** Absolute deadline of an [EX] argument given in seconds. *)
Definition deadline (t : Z) (ex : option Z) : option Z := (λ s, t + s * sec) <$> ex.

Definition str_at (t : Z) (k : string) (ks : keyspace) : option string :=
  match alive t k ks with Some (RStr v, _) => Some v | _ => None end.

Definition list_at (t : Z) (k : string) (ks : keyspace) : list string :=
  match alive t k ks with Some (RList l, _) => l | _ => [] end.

Definition hash_at (t : Z) (k : string) (ks : keyspace) : gmap string string :=
  match alive t k ks with Some (RHash h, _) => h | _ => ∅ end.

Definition zset_at (t : Z) (k : string) (ks : keyspace) : gmap string Z :=
  match alive t k ks with Some (RZSet z, _) => z | _ => ∅ end.

(** SET key value [EX seconds] *)
Definition ks_set (t : Z) (k v : string) (ex : option Z) (ks : keyspace) : keyspace :=
  <[k := (RStr v, deadline t ex)]> ks.

(** SET key value NX EX seconds *)
Definition ks_set_nx (t : Z) (k v : string) (ex : option Z) (ks : keyspace) : bool * keyspace :=
  match alive t k ks with
  | Some _ => (false, ks)
  | None => (true, ks_set t k v ex ks)
  end.

(** DEL key *)
Definition ks_del (k : string) (ks : keyspace) : keyspace := delete k ks.

(** EXPIRE key seconds *)
Definition ks_expire (t : Z) (k : string) (s : Z) (ks : keyspace) : keyspace :=
  match alive t k ks with
  | Some e => <[k := (e.1, Some (t + s * sec))]> ks
  | None => ks
  end.

(** HSET key field value ... *)
Definition ks_hset (t : Z) (k : string) (m : gmap string string) (ks : keyspace) : keyspace :=
  match alive t k ks with
  | Some (RHash h, d) => <[k := (RHash (m ∪ h), d)]> ks
  | Some _ => ks
  | None => <[k := (RHash m, None)]> ks
  end.

(** A list or sorted set that becomes empty is removed. *)
Definition put_list (k : string) (l : list string) (d : option Z) (ks : keyspace) : keyspace :=
  match l with [] => delete k ks | _ => <[k := (RList l, d)]> ks end.

Definition on_list (t : Z) (k : string) (f : list string → list string) (ks : keyspace) : keyspace :=
  match alive t k ks with
  | Some (RList l, d) => put_list k (f l) d ks
  | Some _ => ks
  | None => put_list k (f []) None ks
  end.

(** RPUSH key value; LREM key 0 value; LTRIM key -n -1 *)
Definition ks_rpush (t : Z) (k v : string) : keyspace → keyspace := on_list t k (λ l, l ++ [v])%list.
Definition ks_lrem (t : Z) (k v : string) : keyspace → keyspace := on_list t k (filter (λ x, x ≠ v)).
Definition ks_ltrim_last (t : Z) (k : string) (n : nat) : keyspace → keyspace :=
  on_list t k (λ l, drop (length l - n) l).

(** LPOP key, what a BLPOP that finds an element does *)
Definition ks_lpop (t : Z) (k : string) (ks : keyspace) : option string * keyspace :=
  match list_at t k ks with
  | [] => (None, ks)
  | v :: _ => (Some v, on_list t k (drop 1) ks)
  end.

Definition on_zset (t : Z) (k : string) (f : gmap string Z → gmap string Z) (ks : keyspace) : keyspace :=
  let put z d := if decide (z = ∅) then delete k ks else <[k := (RZSet z, d)]> ks in
  match alive t k ks with
  | Some (RZSet z, d) => put (f z) d
  | Some _ => ks
  | None => put (f ∅) None
  end.

(** ZADD key score member; ZREMRANGEBYSCORE key lo hi *)
Definition ks_zadd (t : Z) (k m : string) (score : Z) : keyspace → keyspace :=
  on_zset t k <[m := score]>.
Definition ks_zremrangebyscore (t : Z) (k : string) (lo hi : Z) : keyspace → keyspace :=
  on_zset t k (filter (λ ms, ¬ (lo ≤ ms.2 ≤ hi))).

(** INCR key: the value of an absent counter is 0 *)
Definition ks_incr (t : Z) (k : string) (ks : keyspace) : keyspace :=
  match alive t k ks with
  | Some (RStr v, d) =>
      match read_Z v with
      | Some n => <[k := (RStr (show_Z (n + 1)), d)]> ks
      | None => ks
      end
  | Some _ => ks
  | None => <[k := (RStr (show_Z 1), None)]> ks
  end.

(** KEYS pattern, for patterns whose only special character is the star *)
Fixpoint glob_match (p s : string) : bool :=
  match p with
  | EmptyString => negb (non_empty s)
  | String c p' =>
      if Ascii.eqb c "*" then
        (fix star (s : string) : bool :=
           glob_match p' s || match s with EmptyString => false | String _ s' => star s' end) s
      else match s with
           | EmptyString => false
           | String d s' => Ascii.eqb c d && glob_match p' s'
           end
  end.

(** ** The interface *)

Class Redis := {
  store : Type;
  dump : store → keyspace;

  r_get : store → Z → string → option string;
  r_hgetall : store → Z → string → gmap string string;
  r_lrange : store → Z → string → list string;
  r_zcard : store → Z → string → Z;
  r_zmin : store → Z → string → option (string * Z);
  r_keys : store → Z → string → list string;

  r_set : store → Z → string → string → option Z → store;
  r_set_nx : store → Z → string → string → option Z → bool * store;
  r_del : store → string → store;
  r_expire : store → Z → string → Z → store;
  r_hset : store → Z → string → gmap string string → store;
  r_rpush : store → Z → string → string → store;
  r_lrem : store → Z → string → string → store;
  r_ltrim_last : store → Z → string → nat → store;
  r_lpop : store → Z → string → option string * store;
  r_zadd : store → Z → string → string → Z → store;
  r_zremrangebyscore : store → Z → string → Z → Z → store;
  r_incr : store → Z → string → store;
  r_flushdb : store → store;

  r_get_law s t k : r_get s t k = str_at t k (dump s);
  r_hgetall_law s t k : r_hgetall s t k = hash_at t k (dump s);
  r_lrange_law s t k : r_lrange s t k = list_at t k (dump s);
  r_zcard_law s t k : r_zcard s t k = Z.of_nat (size (zset_at t k (dump s)));
  r_zmin_none s t k : r_zmin s t k = None ↔ zset_at t k (dump s) = ∅;
  r_zmin_some s t k m sc :
    r_zmin s t k = Some (m, sc) →
    zset_at t k (dump s) !! m = Some sc ∧
    ∀ m' sc', zset_at t k (dump s) !! m' = Some sc' → sc ≤ sc';
  r_keys_law s t p k : k ∈ r_keys s t p ↔ is_Some (alive t k (dump s)) ∧ glob_match p k = true;

  r_set_law s t k v ex : dump (r_set s t k v ex) = ks_set t k v ex (dump s);
  r_set_nx_law s t k v ex :
    (r_set_nx s t k v ex).1 = (ks_set_nx t k v ex (dump s)).1 ∧
    dump (r_set_nx s t k v ex).2 = (ks_set_nx t k v ex (dump s)).2;
  r_del_law s k : dump (r_del s k) = ks_del k (dump s);
  r_expire_law s t k n : dump (r_expire s t k n) = ks_expire t k n (dump s);
  r_hset_law s t k m : dump (r_hset s t k m) = ks_hset t k m (dump s);
  r_rpush_law s t k v : dump (r_rpush s t k v) = ks_rpush t k v (dump s);
  r_lrem_law s t k v : dump (r_lrem s t k v) = ks_lrem t k v (dump s);
  r_ltrim_law s t k n : dump (r_ltrim_last s t k n) = ks_ltrim_last t k n (dump s);
  r_lpop_law s t k :
    (r_lpop s t k).1 = (ks_lpop t k (dump s)).1 ∧
    dump (r_lpop s t k).2 = (ks_lpop t k (dump s)).2;
  r_zadd_law s t k m sc : dump (r_zadd s t k m sc) = ks_zadd t k m sc (dump s);
  r_zrem_law s t k lo hi :
    dump (r_zremrangebyscore s t k lo hi) = ks_zremrangebyscore t k lo hi (dump s);
  r_incr_law s t k : dump (r_incr s t k) = ks_incr t k (dump s);
  r_flushdb_law s : dump (r_flushdb s) = ∅;
}.

Create Rewrite HintDb redis.
#[export] Hint Rewrite @r_get_law @r_hgetall_law @r_lrange_law @r_zcard_law
  @r_set_law @r_del_law @r_expire_law @r_hset_law @r_rpush_law @r_lrem_law
  @r_ltrim_law @r_zadd_law @r_zrem_law @r_incr_law @r_flushdb_law : redis.

(** ** Frame: a command touches only the key it names *)

Section Frame.
Context (t : Z) (k k' : string) (ks : keyspace).
Hypothesis Hne : k ≠ k'.

Lemma lookup_set_ne v ex : ks_set t k v ex ks !! k' = ks !! k'.
Proof. unfold ks_set. by rewrite lookup_insert_ne. Qed.

Lemma lookup_set_nx_ne v ex : (ks_set_nx t k v ex ks).2 !! k' = ks !! k'.
Proof. unfold ks_set_nx. destruct (alive t k ks); [done|apply lookup_set_ne]. Qed.

Lemma lookup_del_ne : ks_del k ks !! k' = ks !! k'.
Proof. unfold ks_del. by rewrite lookup_delete_ne. Qed.

Lemma lookup_expire_ne s : ks_expire t k s ks !! k' = ks !! k'.
Proof. unfold ks_expire. destruct (alive t k ks); [by rewrite lookup_insert_ne|done]. Qed.

Lemma lookup_hset_ne m : ks_hset t k m ks !! k' = ks !! k'.
Proof. unfold ks_hset. repeat case_match; rewrite ?lookup_insert_ne; done. Qed.

Lemma lookup_on_list_ne f : on_list t k f ks !! k' = ks !! k'.
Proof.
  unfold on_list, put_list.
  repeat case_match; rewrite ?lookup_insert_ne, ?lookup_delete_ne; done.
Qed.

Lemma lookup_lpop_ne : (ks_lpop t k ks).2 !! k' = ks !! k'.
Proof. unfold ks_lpop. destruct (list_at t k ks); [done|apply lookup_on_list_ne]. Qed.

Lemma lookup_on_zset_ne f : on_zset t k f ks !! k' = ks !! k'.
Proof.
  unfold on_zset.
  repeat case_match; rewrite ?lookup_insert_ne, ?lookup_delete_ne; done.
Qed.

Lemma lookup_incr_ne : ks_incr t k ks !! k' = ks !! k'.
Proof. unfold ks_incr. repeat case_match; rewrite ?lookup_insert_ne; done. Qed.
End Frame.

(** The views of a key depend on its entry only. *)
Lemma alive_ext t k (ks ks' : keyspace) : ks !! k = ks' !! k → alive t k ks = alive t k ks'.
Proof. unfold alive. by intros ->. Qed.

Lemma lookup_foldl_del `{Redis} k l s :
  dump (foldl r_del s l) !! k = if bool_decide (k ∈ l) then None else dump s !! k.
Proof.
  revert s. induction l as [|x l IH]; intros s; [by rewrite bool_decide_false by apply not_elem_of_nil|].
  cbn [foldl]. rewrite IH, r_del_law. destruct (decide (k = x)) as [->|Hne].
  - rewrite (bool_decide_true (x ∈ x :: l)) by apply list_elem_of_here. unfold ks_del. rewrite lookup_delete_eq.
    by destruct (bool_decide _).
  - rewrite lookup_del_ne by done. rewrite (bool_decide_ext (k ∈ x :: l) (k ∈ l)); [done|]. rewrite elem_of_cons. tauto.
Qed.

Lemma alive_foldl_del `{Redis} t k l s :
  alive t k (dump (foldl r_del s l)) = if bool_decide (k ∈ l) then None else alive t k (dump s).
Proof. unfold alive. rewrite lookup_foldl_del. by destruct (bool_decide _). Qed.

Lemma alive_later now t k ks : now ≤ t → alive now k ks = None → alive t k ks = None.
Proof.
  unfold alive, live. intros Hle. destruct (ks !! k) as [[v [d|]]|]; cbn; [|done|done].
  destruct (Z.ltb_spec now d), (Z.ltb_spec t d); done || lia.
Qed.

(** A pattern that ends in its only star is a prefix. *)
Lemma glob_match_prefix p s : ~ In "*"%char (list_ascii_of_string p) → glob_match (p +:+ "*") s = starts_with p s.
Proof.
  revert s. induction p as [|c p IH]; intros s Hp.
  - change ("" +:+ "*") with "*". replace (starts_with "" s) with true by (by destruct s). cbn.
    induction s as [|a s IHs]; [done|]. exact IHs.
  - rewrite append_cons. cbn [glob_match]. cbn in Hp. destruct (Ascii.eqb_spec c "*") as [->|Hc]; [tauto|].
    unfold starts_with in *. destruct s as [|d s]; [done|]. cbn [String.prefix].
    rewrite IH by tauto. destruct (ascii_dec c d) as [->|Hne]; [by rewrite Ascii.eqb_refl|].
    by rewrite (proj2 (Ascii.eqb_neq _ _)).
Qed.

Lemma str_at_ext t k (ks ks' : keyspace) : ks !! k = ks' !! k → str_at t k ks = str_at t k ks'.
Proof. intros H. unfold str_at. by rewrite (alive_ext t k ks ks'). Qed.

Lemma hash_at_ext t k (ks ks' : keyspace) : ks !! k = ks' !! k → hash_at t k ks = hash_at t k ks'.
Proof. intros H. unfold hash_at. by rewrite (alive_ext t k ks ks'). Qed.

Lemma list_at_ext t k (ks ks' : keyspace) : ks !! k = ks' !! k → list_at t k ks = list_at t k ks'.
Proof. intros H. unfold list_at. by rewrite (alive_ext t k ks ks'). Qed.

Lemma zset_at_ext t k (ks ks' : keyspace) : ks !! k = ks' !! k → zset_at t k ks = zset_at t k ks'.
Proof. intros H. unfold zset_at. by rewrite (alive_ext t k ks ks'). Qed.

(** ** Strings *)

Lemma str_at_set t t' k v s ks :
  str_at t' k (ks_set t k v (Some s) ks) = if t' <? t + s * sec then Some v else None.
Proof. unfold str_at, alive, ks_set. rewrite lookup_insert_eq. unfold live; simpl. by destruct (t' <? t + s * sec). Qed.

Lemma str_at_del t k ks : str_at t k (ks_del k ks) = None.
Proof. unfold str_at, alive, ks_del. by rewrite lookup_delete_eq. Qed.

(** ** Lists that never expire *)

Definition plist (k : string) (ks : keyspace) : list string :=
  match ks !! k with Some (RList l, None) => l | _ => [] end.

Definition perm_list (k : string) (ks : keyspace) : Prop :=
  match ks !! k with None | Some (RList (_ :: _), None) => True | _ => False end.

Lemma plist_ext k (ks ks' : keyspace) : ks !! k = ks' !! k → plist k ks = plist k ks'.
Proof. unfold plist. by intros ->. Qed.

Lemma perm_list_ext k (ks ks' : keyspace) : ks !! k = ks' !! k → perm_list k ks → perm_list k ks'.
Proof. intros H. unfold perm_list. by rewrite H. Qed.

Lemma list_at_perm t k ks : perm_list k ks → list_at t k ks = plist k ks.
Proof.
  unfold perm_list, list_at, plist, alive.
  destruct (ks !! k) as [[[] []]|]; simpl; try done; by case_match.
Qed.

Lemma on_list_perm t k f ks :
  perm_list k ks → perm_list k (on_list t k f ks) ∧ plist k (on_list t k f ks) = f (plist k ks).
Proof.
  intros Hp. assert (on_list t k f ks = put_list k (f (plist k ks)) None ks) as ->.
  { revert Hp. unfold perm_list, on_list, plist, alive.
    destruct (ks !! k) as [[[] []]|]; simpl; try done; by case_match. }
  unfold put_list. destruct (f (plist k ks)) as [|x l];
    unfold perm_list, plist; by rewrite ?lookup_delete_eq, ?lookup_insert_eq.
Qed.

(** ** Hashes *)

Lemma hash_at_hset t k m ks :
  match alive t k ks with None | Some (RHash _, _) => True | _ => False end →
  hash_at t k (ks_hset t k m ks) = m ∪ hash_at t k ks.
Proof.
  unfold hash_at at 2, ks_hset. destruct (alive t k ks) as [[[] d]|] eqn:E; try done; intros _.
  - unfold hash_at, alive. rewrite lookup_insert_eq. unfold alive in E.
    destruct (ks !! k) as [[v d']|]; [|done]. destruct (live t (v, d')) eqn:El; [|done].
    simplify_eq. unfold live in *; simpl in *. by rewrite El.
  - unfold hash_at, alive. rewrite lookup_insert_eq. simpl. by rewrite map_union_empty.
Qed.

Lemma alive_expire t t' k s ks e :
  alive t k ks = Some e → t' < t + s * sec →
  alive t' k (ks_expire t k s ks) = Some (e.1, Some (t + s * sec)).
Proof.
  intros E Ht. unfold ks_expire. rewrite E. unfold alive. rewrite lookup_insert_eq.
  unfold live; simpl. by rewrite (proj2 (Z.ltb_lt _ _) Ht).
Qed.

(** ** An instance: the keyspace itself *)

Definition zset_min (z : gmap string Z) : option (string * Z) :=
  map_fold (λ m sc acc, match acc with
                        | Some (_, best) => if sc <? best then Some (m, sc) else acc
                        | None => Some (m, sc)
                        end) None z.

Lemma zset_min_spec z :
  match zset_min z with
  | None => z = ∅
  | Some (m, sc) => z !! m = Some sc ∧ ∀ m' sc', z !! m' = Some sc' → sc ≤ sc'
  end.
Proof.
  unfold zset_min.
  apply (map_fold_weak_ind (λ acc z, match acc with
    | None => z = ∅
    | Some (m, sc) => z !! m = Some sc ∧ ∀ m' sc', z !! m' = Some sc' → sc ≤ sc' end)); [done|].
  intros m sc z' [[m0 best]|] Hm; [|intros ->].
  - intros [H1 H2]. cbn. destruct (Z.ltb_spec sc best).
    + split; [by rewrite lookup_insert_eq|]. intros m' sc'. rewrite lookup_insert_Some.
      intros [[_ <-]|[_ ?%H2]]; lia.
    + assert (m ≠ m0) by congruence. rewrite lookup_insert_ne by done. split; [done|].
      intros m' sc'. rewrite lookup_insert_Some. intros [[_ <-]|[_ ?%H2]]; lia.
  - split; [by rewrite lookup_insert_eq|]. intros m' sc'. rewrite lookup_insert_Some.
    intros [[_ <-]|[_ H]]; [lia|]. by rewrite lookup_empty in H.
Qed.

#[export, refine] Instance gmap_redis : Redis := {|
  store := keyspace; dump ks := ks;
  r_get ks t k := str_at t k ks;
  r_hgetall ks t k := hash_at t k ks;
  r_lrange ks t k := list_at t k ks;
  r_zcard ks t k := Z.of_nat (size (zset_at t k ks));
  r_zmin ks t k := zset_min (zset_at t k ks);
  r_keys ks t p := filter (λ k, is_Some (alive t k ks) ∧ glob_match p k = true) (map fst (map_to_list ks));
  r_set ks t k v ex := ks_set t k v ex ks;
  r_set_nx ks t k v ex := ks_set_nx t k v ex ks;
  r_del ks k := ks_del k ks;
  r_expire ks t k n := ks_expire t k n ks;
  r_hset ks t k m := ks_hset t k m ks;
  r_rpush ks t k v := ks_rpush t k v ks;
  r_lrem ks t k v := ks_lrem t k v ks;
  r_ltrim_last ks t k n := ks_ltrim_last t k n ks;
  r_lpop ks t k := ks_lpop t k ks;
  r_zadd ks t k m sc := ks_zadd t k m sc ks;
  r_zremrangebyscore ks t k lo hi := ks_zremrangebyscore t k lo hi ks;
  r_incr ks t k := ks_incr t k ks;
  r_flushdb _ := ∅
|}.
Proof.
  all: try done.
  - intros s t k. pose proof (zset_min_spec (zset_at t k s)) as H.
    split; [intros E; by rewrite E in H|intros ->; reflexivity].
  - intros s t k m sc E. pose proof (zset_min_spec (zset_at t k s)) as H. by rewrite E in H.
  - intros s t p k. rewrite list_elem_of_filter. split; [tauto|]. intros H. split; [done|].
    destruct H as [[e He] _]. unfold alive in He. destruct (s !! k) as [e'|] eqn:E; [|done].
    apply list_elem_of_fmap. exists (k, e'). split; [done|]. by apply elem_of_map_to_list.
Defined.
