(* ===== verification/RateLimit.v ===== *)
(** * RateLimit: token buckets kept in Redis

    [Bucket] is the algorithm src/src/downlink_queue.py and src/src/rate_limit.py share,
    with the interface [TokenBucket] a limiter satisfies and what it guarantees;
    [DownlinkRateLimiter] is the limiter of the downlink worker.

    A Python [float] is modelled by the rational it denotes: sums, products and
    quotients are exact, so the rounding of the last binary digit is not modelled.
    [PyFloat] states what the code relies on when it stores a float as text. *)

From Stdlib Require Import QArith Qround Lqa.
From S2P Require Import Prelude PyUtils Redis.

Open Scope Z_scope.

#[export] Instance Qle_transitive : Transitive Qle := Qle_trans.

(** ** Floats as text: [float(str(x)) == x] *)

Class PyFloat := {
  show_float : Q → string;
  read_float : string → option Q;
  read_show_float q : read_float (show_float q) = Some q;
  show_float_non_empty q : non_empty (show_float q) = true;
}.

(** An instance, so that closed examples compute: a rational is written as the
    decimal code of its numerator and denominator. *)
#[export] Instance Q_eq_dec : EqDecision Q.
Proof. solve_decision. Defined.

#[export] Instance Q_countable : Countable Q :=
  inj_countable' (λ q, (Qnum q, Qden q)) (λ p, Qmake p.1 p.2) (λ q, match q with Qmake _ _ => eq_refl end).

#[export, refine] Instance coded_float : PyFloat := {|
  show_float q := show_Z (Zpos (encode q));
  read_float s := match read_Z s with Some (Zpos p) => decode p | _ => None end
|}.
Proof.
  - intros q. by rewrite read_show_Z, decode_encode.
  - intros q. unfold show_Z. cbn. by destruct (Pos.to_uint (encode q)).
Defined.

(** A clock reading in seconds, as [time.time()] returns it. *)
Definition secs (t : Z) : Q := inject_Z t / inject_Z sec.

Definition py_min (a b : Q) : Q := if Qle_bool a b then a else b.

Lemma py_min_le_l a b : (py_min a b <= a)%Q.
Proof.
  unfold py_min. destruct (Qle_bool a b) eqn:E; [apply Qle_refl|].
  apply Qnot_lt_le. intros H. apply Qlt_le_weak, Qle_bool_iff in H. congruence.
Qed.

Lemma py_min_le_r a b : (py_min a b <= b)%Q.
Proof. unfold py_min. destruct (Qle_bool a b) eqn:E; [by apply Qle_bool_iff|apply Qle_refl]. Qed.

Lemma py_min_case a b : py_min a b = a ∨ py_min a b = b.
Proof. unfold py_min. destruct (Qle_bool a b); auto. Qed.

Lemma secs_le a b : a ≤ b → (secs a <= secs b)%Q.
Proof. unfold secs, Qle, Qdiv, Qmult, Qinv, inject_Z, sec; simpl. lia. Qed.

Lemma secs_add a n : (secs (a + n * sec) == secs a + inject_Z n)%Q.
Proof. unfold secs, Qeq, Qplus, Qdiv, Qmult, Qinv, inject_Z, sec; simpl. lia. Qed.

Lemma Qle_bool_false a b : Qle_bool a b = false → (b < a)%Q.
Proof.
  intros E. apply Qnot_le_lt. intros H. apply Qle_bool_iff in H. congruence.
Qed.

(** ** The token-bucket algorithm *)

Module Bucket.
Section Core.
Context {R : Redis} {F : PyFloat}.

(** [float(x) if x else d] on a hash field *)
Definition float_or (o : option string) (d : Q) : result string Q :=
  match o with
  | Some (String c x) =>
      match read_float (String c x) with
      | Some q => Ok q
      | None => Err "could not convert string to float"
      end
  | _ => Ok d
  end.

(** [new_tokens]: the stored tokens and those earned since [last_update], capped *)
Definition refill (now : Z) (tokens_per_second max_tokens : Q) (h : gmap string string)
  : result string Q :=
  current_tokens ← float_or (h !! "tokens") max_tokens;
  last_update ← float_or (h !! "last_update") (secs now);
  let time_passed := (secs now - last_update)%Q in
  mret (py_min max_tokens (current_tokens + time_passed * tokens_per_second)%Q).

(** The pipeline that stores the bucket after a token was taken. *)
Definition write_bucket (now : Z) (key : string) (new_tokens : Q) (s : store) : store :=
  let s := r_hset s now key {["tokens" := show_float new_tokens]} in
  let s := r_hset s now key {["last_update" := show_float (secs now)]} in
  r_expire s now key 120.

(** *** The invariant of a bucket's hash *)

(** The key is absent, or holds [q >= 0] tokens written at [u] and expires 120
    seconds after [u]. *)
Definition bucket_state (ks : keyspace) (key : string) (b : option (Q * Z)) : Prop :=
  match b with
  | None => ks !! key = None
  | Some (q, u) =>
      (0 <= q)%Q ∧
      ∃ h, ks !! key = Some (RHash h, Some (u + 120 * sec)) ∧
           h !! "tokens" = Some (show_float q) ∧ h !! "last_update" = Some (show_float (secs u))
  end.

(** Tokens available at [t]: what the code computes as [new_tokens]. *)
Definition tokens_at (t : Z) (rate cap : Q) (b : option (Q * Z)) : Q :=
  match b with
  | Some (q, u) =>
      if t <? u + 120 * sec
      then py_min cap (q + (secs t - secs u) * rate)
      else py_min cap (cap + (secs t - secs t) * rate)
  | None => py_min cap (cap + (secs t - secs t) * rate)
  end.

Lemma float_or_show q d : float_or (Some (show_float q)) d = Ok q.
Proof.
  pose proof (show_float_non_empty q) as H. pose proof (read_show_float q) as E.
  unfold float_or. destruct (show_float q); [done|]. by rewrite E.
Qed.

Lemma alive_wf t ks key b :
  bucket_state ks key b →
  match alive t key ks with None | Some (RHash _, _) => True | _ => False end.
Proof.
  unfold bucket_state, alive. destruct b as [[q u]|]; [intros (_ & h & -> & _)|intros ->; done].
  by destruct (live t _).
Qed.

Lemma hash_at_wf t ks key b :
  bucket_state ks key b →
  hash_at t key ks !! "tokens" =
    match b with Some (q, u) => if t <? u + 120 * sec then Some (show_float q) else None | None => None end ∧
  hash_at t key ks !! "last_update" =
    match b with Some (q, u) => if t <? u + 120 * sec then Some (show_float (secs u)) else None | None => None end.
Proof.
  unfold bucket_state, hash_at, alive. destruct b as [[q u]|].
  - intros (_ & h & -> & H1 & H2). unfold live; cbn.
    by destruct (t <? u + 120 * sec).
  - intros ->. done.
Qed.

Lemma refill_spec now key rate cap s b :
  bucket_state (dump s) key b →
  refill now rate cap (r_hgetall s now key) = Ok (tokens_at now rate cap b).
Proof.
  intros Hb. destruct (hash_at_wf now _ _ _ Hb) as [H1 H2].
  unfold refill. rewrite r_hgetall_law, H1, H2.
  destruct b as [[q u]|]; [cbn; destruct (now <? u + 120 * sec)|]; by rewrite ?float_or_show.
Qed.

Lemma consume_state now key q ks b :
  (0 <= q)%Q → bucket_state ks key b →
  bucket_state
    (ks_expire now key 120
       (ks_hset now key {["last_update" := show_float (secs now)]}
          (ks_hset now key {["tokens" := show_float q]} ks)))
    key (Some (q, now)).
Proof.
  intros Hq Hb. pose proof (alive_wf now _ _ _ Hb) as Ha.
  set (ks1 := ks_hset now key {["tokens" := show_float q]} ks).
  assert (∃ h1 d1, alive now key ks1 = Some (RHash h1, d1) ∧ h1 !! "tokens" = Some (show_float q)) as (h1 & d1 & E1 & T1).
  { subst ks1. unfold ks_hset. destruct (alive now key ks) as [[[] d]|] eqn:E; try done.
    - eexists _, d. unfold alive. rewrite lookup_insert_eq. unfold alive in E.
      destruct (ks !! key) as [[v d']|]; [|done]. destruct (live now (v, d')) eqn:El; [|done].
      simplify_eq. unfold live in *; simpl in *. rewrite El. split; [done|].
      by apply lookup_union_Some_l, lookup_singleton_eq.
    - eexists _, None. unfold alive. rewrite lookup_insert_eq. split; [done|].
      by rewrite lookup_singleton_eq. }
  unfold ks_expire at 1, ks_hset at 1 2. rewrite E1.
  unfold alive at 1. rewrite lookup_insert_eq.
  assert (live now (RHash ({["last_update" := show_float (secs now)]} ∪ h1), d1) = true) as ->.
  { unfold alive in E1. destruct (ks1 !! key) as [e|]; [|done].
    destruct (live now e) eqn:El; [|done]. by simplify_eq. }
  split; [done|]. eexists. rewrite lookup_insert_eq. split; [done|]. cbn.
  split; [by rewrite lookup_union_r by by rewrite lookup_singleton_ne|].
  by apply lookup_union_Some_l, lookup_singleton_eq.
Qed.

Lemma write_bucket_state now key q s b :
  (0 <= q)%Q → bucket_state (dump s) key b →
  bucket_state (dump (write_bucket now key q s)) key (Some (q, now)) ∧
  ∀ k', k' ≠ key → dump (write_bucket now key q s) !! k' = dump s !! k'.
Proof.
  intros Hq Hb. unfold write_bucket. autorewrite with redis. split.
  - by apply consume_state with b.
  - intros k' Hk. by rewrite lookup_expire_ne, !lookup_hset_ne by done.
Qed.

(** *** The interface of a token bucket and what it guarantees

    A limiter is a function of the time and the store that answers whether the
    call is admitted.  [TokenBucket] states one step of it on the abstract bucket;
    the theorems below hold of every limiter that satisfies it. *)

Class TokenBucket (key : string) (rate cap : Q) (check : Z → store → bool * store) := {
  rate_pos : (0 < rate)%Q;
  cap_one : (1 <= cap)%Q;
  cap_refill : (cap <= 120 * rate)%Q;
  check_step now s b :
    bucket_state (dump s) key b →
    if Qle_bool 1 (tokens_at now rate cap b)
    then ∃ s', check now s = (true, s') ∧
               bucket_state (dump s') key (Some ((tokens_at now rate cap b - 1)%Q, now))
    else check now s = (false, s)
}.

(** A sequence of calls at the given times: how many were admitted. *)
Fixpoint run (check : Z → store → bool * store) (times : list Z) (s : store) : nat * store :=
  match times with
  | [] => (0%nat, s)
  | t :: ts =>
      let '(ok, s1) := check t s in
      let '(n, s2) := run check ts s1 in
      (((if ok then 1 else 0) + n)%nat, s2)
  end.

(** Times that never go back, from [t0] to [t1]. *)
Fixpoint clock_between (t0 t1 : Z) (times : list Z) : Prop :=
  match times with
  | [] => t0 ≤ t1
  | t :: ts => t0 ≤ t ∧ clock_between t t1 ts
  end.

(** The bucket was last written at or before [t]. *)
Definition written_by (t : Z) (b : option (Q * Z)) : Prop :=
  match b with Some (q, u) => (0 <= q)%Q ∧ u ≤ t | None => True end.

Lemma written_by_mono t t' b : written_by t b → t ≤ t' → written_by t' b.
Proof. destruct b as [[q u]|]; [intros [? ?]; split; [done|lia]|done]. Qed.
End Core.

Section Guarantee.
Context {R : Redis} {F : PyFloat} (key : string) (rate cap : Q) (check : Z → store → bool * store)
  {TB : TokenBucket key rate cap check}.

Lemma tokens_bounds t b : written_by t b → (0 <= tokens_at t rate cap b <= cap)%Q.
Proof.
  intros Hw. pose proof rate_pos as Hr. pose proof cap_one as Hc.
  split; [|destruct b as [[q u]|]; cbn; try destruct (t <? _); apply py_min_le_l].
  destruct b as [[q u]|]; cbn; try destruct (t <? u + 120 * sec);
    try (destruct (py_min_case cap (cap + (secs t - secs t) * rate)) as [->| ->]; lra).
  destruct Hw as [Hq Hu]. apply secs_le in Hu.
  destruct (py_min_case cap (q + (secs t - secs u) * rate)) as [->| ->]; [lra|].
  assert (0 <= (secs t - secs u) * rate)%Q by (apply Qmult_le_0_compat; lra). lra.
Qed.

(** Waiting earns at most [rate] tokens per second, also when the hash expires in
    between. *)
Lemma tokens_time t t' b :
  written_by t b → t ≤ t' →
  (tokens_at t' rate cap b <= tokens_at t rate cap b + (secs t' - secs t) * rate)%Q.
Proof.
  intros Hw Ht. pose proof rate_pos as Hr. pose proof cap_one as Hc. pose proof cap_refill as Hc120.
  destruct (tokens_bounds t' b (written_by_mono _ _ _ Hw Ht)) as [_ Hcap].
  apply secs_le in Ht as Hs.
  assert (0 <= (secs t' - secs t) * rate)%Q as Hpos by (apply Qmult_le_0_compat; lra).
  assert (py_min cap (cap + (secs t - secs t) * rate) == cap)%Q as Hfull.
  { destruct (py_min_case cap (cap + (secs t - secs t) * rate)) as [->| ->]; lra. }
  destruct b as [[q u]|]; cbn [tokens_at] in *; [|lra].
  destruct (Z.ltb_spec t (u + 120 * sec)) as [Hlt|Hge]; [|lra].
  destruct (py_min_case cap (q + (secs t - secs u) * rate)) as [->| ->]; [lra|].
  destruct (Z.ltb_spec t' (u + 120 * sec)) as [Hlt'|Hge'].
  - pose proof (py_min_le_r cap (q + (secs t' - secs u) * rate)). lra.
  - apply secs_le in Hge'. rewrite secs_add in Hge'. change (inject_Z 120) with 120%Q in Hge'.
    assert (120 * rate <= (secs t' - secs u) * rate)%Q by (apply Qmult_le_compat_r; lra).
    destruct Hw as [Hq _]. lra.
Qed.

Lemma tokens_after_consume t n :
  (n <= cap)%Q → (tokens_at t rate cap (Some ((n - 1)%Q, t)) <= n - 1)%Q.
Proof.
  intros Hn. cbn. rewrite (proj2 (Z.ltb_lt t _)) by (unfold sec; lia).
  etrans; [apply py_min_le_r|]. lra.
Qed.

Lemma run_bound times t t1 s b :
  bucket_state (dump s) key b → written_by t b → clock_between t t1 times →
  (inject_Z (Z.of_nat (run check times s).1) <= tokens_at t rate cap b + (secs t1 - secs t) * rate)%Q.
Proof.
  pose proof rate_pos as Hr.
  revert t s b. induction times as [|t' ts IH]; intros t s b Hb Hw Hc; cbn [clock_between] in Hc.
  - cbn [run fst]. pose proof (tokens_bounds t b Hw) as [? _]. apply secs_le in Hc.
    assert (0 <= (secs t1 - secs t) * rate)%Q by (apply Qmult_le_0_compat; lra).
    change (inject_Z (Z.of_nat 0)) with 0%Q. lra.
  - destruct Hc as [Htt Hc]. cbn [run].
    pose proof (tokens_time t t' b Hw Htt) as Htime.
    pose proof (written_by_mono _ _ _ Hw Htt) as Hw'.
    pose proof (check_step t' s b Hb) as Hs.
    destruct (Qle_bool 1 (tokens_at t' rate cap b)) eqn:E.
    + destruct Hs as (s' & -> & Hb').
      assert (written_by t' (Some ((tokens_at t' rate cap b - 1)%Q, t'))) as Hw''.
      { split; [apply Qle_bool_iff in E; lra|lia]. }
      specialize (IH t' s' _ Hb' Hw'' Hc). destruct (run check ts s') as [n s'']. cbn [fst] in IH |- *.
      pose proof (tokens_after_consume t' _ (proj2 (tokens_bounds t' b Hw'))).
      rewrite Nat2Z.inj_add, inject_Z_plus. change (inject_Z (Z.of_nat 1)) with 1%Q. lra.
    + rewrite Hs. specialize (IH t' s b Hb Hw' Hc).
      destruct (run check ts s) as [n s'']. cbn [fst Nat.add] in IH |- *. lra.
Qed.

(** Admitted calls between two instants: burst plus rate times elapsed time. *)
Lemma run_rate_bound times t0 t1 s b :
  bucket_state (dump s) key b → written_by t0 b → clock_between t0 t1 times →
  (inject_Z (Z.of_nat (run check times s).1) <= cap + (secs t1 - secs t0) * rate)%Q.
Proof.
  intros Hb Hw Hc. pose proof (run_bound times t0 t1 s b Hb Hw Hc).
  pose proof (tokens_bounds t0 b Hw). lra.
Qed.

Lemma Qdiv_lt_mult x y z : (0 < y)%Q → (x / y < z)%Q → (x < z * y)%Q.
Proof.
  intros Hb H. apply (Qmult_lt_compat_r _ _ y Hb) in H.
  assert (x / y * y == x)%Q as E by (field; intros E; rewrite E in Hb; by apply (Qlt_irrefl 0)). lra.
Qed.

Lemma tokens_after_wait t t' r b :
  t + r * sec ≤ t' → 0 ≤ r →
  ((1 - tokens_at t rate cap b) / rate < inject_Z r)%Q → (1 <= tokens_at t' rate cap b)%Q.
Proof.
  intros Ht Hr0 Hr. pose proof rate_pos as Hp. pose proof cap_one as Hc1.
  assert (1 <= py_min cap (cap + (secs t' - secs t') * rate))%Q as Hfull.
  { destruct (py_min_case cap (cap + (secs t' - secs t') * rate)) as [->| ->]; lra. }
  destruct b as [[q u]|]; [|done]. cbn [tokens_at] in *.
  destruct (Z.ltb_spec t' (u + 120 * sec)) as [Hlt|]; [|done].
  rewrite (proj2 (Z.ltb_lt t _)) in Hr by (unfold sec in *; lia).
  apply Qdiv_lt_mult in Hr; [|done].
  pose proof (py_min_le_r cap (q + (secs t - secs u) * rate)).
  apply secs_le in Ht. rewrite secs_add in Ht.
  assert (inject_Z r * rate <= (secs t' - secs t) * rate)%Q by (apply Qmult_le_compat_r; lra).
  destruct (py_min_case cap (q + (secs t' - secs u) * rate)) as [->| ->]; lra.
Qed.
End Guarantee.

Lemma Qtrunc_lt q : (0 <= q)%Q → (q < inject_Z (Qtrunc q + 1))%Q.
Proof. intros H. unfold Qtrunc. rewrite (proj2 (Qle_bool_iff 0 q) H). apply Qlt_floor. Qed.
End Bucket.

(** ** [DownlinkRateLimiter] of src/downlink_queue.py *)

Module DownlinkRateLimiter.
Import Bucket.
Section Limiter.
Context {R : Redis} {F : PyFloat}.

Definition GATEWAY_LIMIT_KEY_PREFIX : string := "dl:limit:gw:".
Definition TENANT_LIMIT_KEY_PREFIX : string := "dl:limit:tenant:".
Definition DEFAULT_GATEWAY_LIMIT_PER_MIN : Z := 30.
Definition DEFAULT_TENANT_LIMIT_PER_MIN : Z := 100.

(** [(allowed, retry_after)] and the store afterwards; a raised exception keeps
    the store. *)
Definition _check_token_bucket (now : Z) (key : string) (limit_per_min : Z) (s : store)
  : result string (bool * option Z) * store :=
  let tokens_per_second := (inject_Z limit_per_min / 60)%Q in
  let max_tokens := inject_Z limit_per_min in
  match refill now tokens_per_second max_tokens (r_hgetall s now key) with
  | Ok new_tokens =>
      if Qle_bool 1 new_tokens then
        (Ok (true, None), write_bucket now key (new_tokens - 1) s)
      else if limit_per_min =? 0 then (Err "float division by zero", s)
      else
        let retry_after := Qtrunc ((1 - new_tokens) / tokens_per_second)%Q + 1 in
        (Ok (false, Some retry_after), s)
  | Err e => (Err e, s)
  end.

(** [limit_per_min or DEFAULT] *)
Definition limit_or (limit_per_min : option Z) (d : Z) : Z :=
  match limit_per_min with Some n => if n =? 0 then d else n | None => d end.

Definition check_gateway_limit (now : Z) (gateway_id : string) (limit_per_min : option Z) (s : store)
  : result string (bool * option Z) * store :=
  if negb (non_empty gateway_id) then (Ok (true, None), s)
  else _check_token_bucket now (GATEWAY_LIMIT_KEY_PREFIX +:+ gateway_id)
         (limit_or limit_per_min DEFAULT_GATEWAY_LIMIT_PER_MIN) s.

Definition check_tenant_limit (now : Z) (tenant_id : string) (limit_per_min : option Z) (s : store)
  : result string (bool * option Z) * store :=
  _check_token_bucket now (TENANT_LIMIT_KEY_PREFIX +:+ tenant_id)
    (limit_or limit_per_min DEFAULT_TENANT_LIMIT_PER_MIN) s.

(** Was the call admitted? *)
Definition admitted (key : string) (limit now : Z) (s : store) : bool * store :=
  let '(r, s') := _check_token_bucket now key limit s in
  (match r with Ok (true, _) => true | _ => false end, s').

Lemma downlink_bucket key limit (Hl : 0 < limit) :
  TokenBucket key (inject_Z limit / 60) (inject_Z limit) (admitted key limit).
Proof.
  constructor.
  - apply Qlt_shift_div_l; [lra|]. unfold Qlt; simpl; lia.
  - unfold Qle; simpl; lia.
  - assert (inject_Z limit == 60 * (inject_Z limit / 60))%Q by field.
    assert (0 <= inject_Z limit)%Q by (unfold Qle; simpl; lia). lra.
  - intros now s b Hb. unfold admitted, _check_token_bucket.
    rewrite (refill_spec _ _ _ _ _ _ Hb).
    destruct (Qle_bool 1 _) eqn:E.
    + eexists. split; [done|]. apply (write_bucket_state _ _ _ _ b); [|done].
      apply Qle_bool_iff in E. lra.
    + by rewrite (proj2 (Z.eqb_neq limit 0)) by lia.
Qed.
End Limiter.

(** C13. The token bucket of the downlink limiter admits, between any two instants of a
    clock that does not go back, at most its burst size plus its refill rate times
    the elapsed time, whatever the arrival pattern and across the 120-second
    expiry of the bucket's hash. *)
Theorem downlink_rate_bound {R : Redis} {F : PyFloat} key limit times t0 t1 s b :
  0 < limit → bucket_state (dump s) key b → written_by t0 b → clock_between t0 t1 times →
  (inject_Z (Z.of_nat (run (admitted key limit) times s).1)
     <= inject_Z limit + (secs t1 - secs t0) * (inject_Z limit / 60))%Q.
Proof. intros Hl. apply run_rate_bound. by apply downlink_bucket. Qed.

Lemma downlink_rate_bound_witness :
  (run (admitted (R := gmap_redis) "dl:limit:gw:g1" 2) [0; 0; 0; 31 * sec] ∅).1 = 3%nat ∧
  (inject_Z (Z.of_nat (run (admitted (R := gmap_redis) "dl:limit:gw:g1" 2) [0; 0; 0; 31 * sec]%Z ∅).1)
     <= inject_Z 2 + (secs (31 * sec)%Z - secs 0%Z) * (inject_Z 2 / 60))%Q.
Proof.
  split; [vm_compute; reflexivity|].
  apply (downlink_rate_bound (R := gmap_redis) "dl:limit:gw:g1" 2 [0; 0; 0; 31 * sec] 0 (31 * sec) ∅ None);
    [lia|reflexivity|exact I|unfold sec; cbn; lia].
Defined.

(** The retry hint is sound: a call that is refused with [retry_after = r] leaves
    the bucket untouched, and the same call made [r] seconds later (or at any time
    after that) is admitted. *)
Theorem bucket_retry_sound {R : Redis} {F : PyFloat} now t' key limit s s' b r :
  0 < limit → bucket_state (dump s) key b → written_by now b →
  _check_token_bucket now key limit s = (Ok (false, Some r), s') →
  now + r * sec ≤ t' →
  s' = s ∧ 0 < r ∧ ∃ s'', _check_token_bucket t' key limit s' = (Ok (true, None), s'').
Proof.
  intros Hl Hb Hw Hc Ht. pose proof (downlink_bucket key limit Hl) as TB.
  unfold _check_token_bucket in Hc. rewrite (refill_spec _ _ _ _ _ _ Hb) in Hc.
  destruct (Qle_bool 1 _) eqn:E in Hc; [done|].
  rewrite (proj2 (Z.eqb_neq limit 0)) in Hc by lia. simplify_eq. apply Qle_bool_false in E.
  pose proof (rate_pos (TokenBucket := TB)) as Hp.
  set (x := ((1 - _) / _)%Q) in *. assert (0 <= x)%Q as Hx by (apply Qle_shift_div_l; lra).
  pose proof (Qtrunc_lt x Hx) as Hlt.
  assert (0 < Qtrunc x + 1) as Hpos.
  { assert (0 < inject_Z (Qtrunc x + 1))%Q as Hq by lra. unfold Qlt in Hq; simpl in Hq. lia. }
  split; [done|]. split; [done|].
  unfold _check_token_bucket. rewrite (refill_spec _ _ _ _ _ _ Hb).
  pose proof (tokens_after_wait key _ _ _ now t' _ b Ht ltac:(lia) Hlt) as Hge.
  rewrite (proj2 (Qle_bool_iff 1 _) Hge). eauto.
Qed.

(** The store after two admitted calls at time 0 on a bucket of size 2. *)
Definition drained : store (Redis := gmap_redis) :=
  (run (admitted (R := gmap_redis) "dl:limit:tenant:x" 2) [0; 0] ∅).2.

Lemma bucket_retry_sound_witness :
  _check_token_bucket (R := gmap_redis) 0 "dl:limit:tenant:x" 2 drained = (Ok (false, Some 31), drained) ∧
  ∃ s'', _check_token_bucket (R := gmap_redis) (31 * sec) "dl:limit:tenant:x" 2 drained = (Ok (true, None), s'').
Proof.
  assert (_check_token_bucket (R := gmap_redis) 0 "dl:limit:tenant:x" 2 drained
          = (Ok (false, Some 31), drained)) as H by (vm_compute; reflexivity).
  split; [exact H|].
  apply (bucket_retry_sound (R := gmap_redis) 0 (31 * sec) "dl:limit:tenant:x" 2 drained drained
           (Some ((tokens_at 0 (2 / 60) 2 (Some ((tokens_at 0 (2 / 60) 2 None - 1)%Q, 0%Z)) - 1)%Q, 0)) 31);
    [lia| | |exact H|lia].
  - split; [vm_compute; discriminate|].
    eexists. split; [vm_compute; reflexivity|]. split; vm_compute; reflexivity.
  - split; [vm_compute; discriminate|lia].
Defined.
End DownlinkRateLimiter.
