(* ===== verification/ApiRateLimit.v ===== *)
(** * ApiRateLimit: request limiting for the HTTP API

    [TokenBucketLimiter] models src/src/rate_limit.py: the token bucket per API key or
    IP address, with its response headers, its fail-open error handling and the
    middleware. *)

From Stdlib Require Import QArith Qround Lqa.
From S2P Require Import Prelude PyUtils Redis RateLimit.

Open Scope Z_scope.

(** What the middlewares read of a request. *)
Record Request := mkRequest {
  req_path : string;
  req_method : string;
  req_api_key : option string;      (* header X-API-Key *)
  req_client_host : option string;
  req_tenant_id : option string;    (* request.state.tenant_id, when set *)
}.

(** What a middleware does: run the application and add headers to its response,
    or answer 429. *)
Inductive Decision :=
| CallNext (headers : list (string * string))
| TooManyRequests (headers : list (string * string)).

(** ** src/rate_limit.py *)

Module TokenBucketLimiter.
Import Bucket.

Record RateLimitConfig := mkConfig { requests_per_minute : Z; burst_size : Z }.

Section Limiter.
Context {R : Redis} {F : PyFloat}.

(** Whether the connection exists, and whether the read and the write pipeline
    raise. *)
Record Link := mkLink { connected : bool; read_fails : bool; write_fails : bool }.

Definition check_rate_limit (link : Link) (now : Z) (key : string) (config : RateLimitConfig) (s : store)
  : (bool * list (string * string)) * store :=
  if negb (connected link) then ((true, []), s)
  else
    let redis_key := "rate_limit:" +:+ key in
    let tokens_per_second := (inject_Z (requests_per_minute config) / 60)%Q in
    let max_tokens := inject_Z (burst_size config) in
    if read_fails link then ((true, []), s)
    else match refill now tokens_per_second max_tokens (r_hgetall s now redis_key) with
    | Err _ => ((true, []), s)
    | Ok new_tokens =>
        if Qle_bool 1 new_tokens then
          let new_tokens := (new_tokens - 1)%Q in
          if write_fails link then ((true, []), s)
          else
            let s := write_bucket now redis_key new_tokens s in
            if requests_per_minute config =? 0 then ((true, []), s)  (* ZeroDivisionError *)
            else
              let reset_in := Qtrunc ((max_tokens - new_tokens) / tokens_per_second)%Q in
              ((true, [("X-RateLimit-Limit", show_Z (requests_per_minute config));
                       ("X-RateLimit-Remaining", show_Z (Qtrunc new_tokens));
                       ("X-RateLimit-Reset", show_Z (Qtrunc (secs now) + reset_in))]), s)
        else if requests_per_minute config =? 0 then ((true, []), s)
        else
          let reset_in := Qtrunc ((1 - new_tokens) / tokens_per_second)%Q in
          ((false, [("X-RateLimit-Limit", show_Z (requests_per_minute config));
                    ("X-RateLimit-Remaining", "0");
                    ("X-RateLimit-Reset", show_Z (Qtrunc (secs now) + reset_in));
                    ("Retry-After", show_Z reset_in)]), s)
    end.

Definition check_tenant_rate_limit (link : Link) (now : Z) (tenant_id limit_type : string)
  (requests_per_minute : Z) (burst_size : option Z) (s : store)
  : (bool * list (string * string)) * store :=
  let burst_size := match burst_size with Some b => b | None => Z.max 10 (requests_per_minute / 6) end in
  let config := mkConfig requests_per_minute burst_size in
  check_rate_limit link now ("tenant:" +:+ tenant_id +:+ ":" +:+ limit_type) config s.

(** [RateLimitMiddleware.dispatch]; [limiter] is the global limiter instance. *)
Definition dispatch (limiter : option Link) (default_config api_key_config : RateLimitConfig)
  (now : Z) (request : Request) (s : store) : Decision * store :=
  if String.eqb (req_path request) "/health" then (CallNext [], s)
  else match limiter with
  | None => (CallNext [], s)
  | Some link =>
      if negb (connected link) then (CallNext [], s)
      else
        let '(limit_key, config) :=
          match req_api_key request with
          | Some (String c k) => ("api_key:" +:+ str_take 16 (String c k), api_key_config)
          | _ => ("ip:" +:+ or_else (req_client_host request) "unknown", default_config)
          end in
        let '((allowed, headers), s) := check_rate_limit link now limit_key config s in
        if allowed then (CallNext headers, s)
        else (TooManyRequests (headers ++ [("Content-Type", "application/json")])%list, s)
  end.

Definition link_up : Link := mkLink true false false.

Definition admitted (key : string) (config : RateLimitConfig) (now : Z) (s : store) : bool * store :=
  let '((ok, _), s') := check_rate_limit link_up now key config s in (ok, s').

Lemma api_bucket key config :
  0 < requests_per_minute config → 1 ≤ burst_size config ≤ 2 * requests_per_minute config →
  TokenBucket ("rate_limit:" +:+ key) (inject_Z (requests_per_minute config) / 60)
    (inject_Z (burst_size config)) (admitted key config).
Proof.
  intros Hr Hb. constructor.
  - apply Qlt_shift_div_l; [lra|]. unfold Qlt; simpl; lia.
  - unfold Qle; simpl; lia.
  - assert (inject_Z (requests_per_minute config) == 60 * (inject_Z (requests_per_minute config) / 60))%Q by field.
    assert (inject_Z (burst_size config) <= 2 * inject_Z (requests_per_minute config))%Q
      by (unfold Qle; simpl; lia). lra.
  - intros now s b Hst. unfold admitted, check_rate_limit, link_up. cbn [connected read_fails write_fails negb].
    rewrite (refill_spec _ _ _ _ _ _ Hst).
    rewrite (proj2 (Z.eqb_neq (requests_per_minute config) 0)) by lia.
    destruct (Qle_bool 1 _) eqn:E; [|done].
    eexists. split; [done|]. apply (write_bucket_state _ _ _ _ b); [|done].
    apply Qle_bool_iff in E. lra.
Qed.
End Limiter.

(** The API token bucket admits at most [burst_size + rate * elapsed] requests when
    the burst fits in the two minutes after which an idle bucket is dropped
    ([burst_size <= 2 * requests_per_minute]). *)
Theorem api_rate_bound {R : Redis} {F : PyFloat} key config times t0 t1 s b :
  0 < requests_per_minute config → 1 ≤ burst_size config ≤ 2 * requests_per_minute config →
  bucket_state (dump s) ("rate_limit:" +:+ key) b → written_by t0 b → clock_between t0 t1 times →
  (inject_Z (Z.of_nat (run (admitted key config) times s).1)
     <= inject_Z (burst_size config) +
        (secs t1 - secs t0) * (inject_Z (requests_per_minute config) / 60))%Q.
Proof. intros Hr Hb. apply run_rate_bound. by apply api_bucket. Qed.

Lemma api_rate_bound_witness :
  (run (admitted (R := gmap_redis) "ip:10.0.0.1" (mkConfig 60 2)) [0; 0; 0; 2 * sec; 2 * sec; 2 * sec] ∅).1 = 4%nat ∧
  (inject_Z (Z.of_nat (run (admitted (R := gmap_redis) "ip:10.0.0.1" (mkConfig 60 2))
                          [0; 0; 0; 2 * sec; 2 * sec; 2 * sec]%Z ∅).1)
     <= inject_Z 2 + (secs (2 * sec)%Z - secs 0%Z) * (inject_Z 60 / 60))%Q.
Proof.
  split; [vm_compute; reflexivity|].
  apply (api_rate_bound (R := gmap_redis) "ip:10.0.0.1" (mkConfig 60 2)
           [0; 0; 0; 2 * sec; 2 * sec; 2 * sec] 0 (2 * sec) ∅ None);
    [cbn; lia|cbn; lia|reflexivity|exact I|unfold sec; cbn; lia].
Defined.

(** Without the bound on the burst the guarantee fails: with one request per minute
    and a burst of ten (what [check_tenant_rate_limit] computes by default), twenty
    requests pass in 121 seconds, because the bucket's hash expires after 120
    seconds and an absent bucket counts as full. *)
Theorem api_burst_refilled_by_expiry :
  ∃ times : list Z, clock_between 0 (121 * sec) times ∧
    let check now s := let '((ok, _), s') := check_tenant_rate_limit (R := gmap_redis) link_up now "t" "webhook" 1 None s in (ok, s') in
    (run check times ∅).1 = 20%nat ∧
    (inject_Z 10 + (secs (121 * sec) - secs 0) * (inject_Z 1 / 60) < 13)%Q.
Proof.
  exists (replicate 10 0 ++ replicate 10 (121 * sec))%list. split; [|split].
  - vm_compute. intuition discriminate.
  - vm_compute. reflexivity.
  - vm_compute. reflexivity.
Qed.

(** The limiter fails open and never charges for it: whatever goes wrong with Redis
    (no connection, a failing read or write pipeline, a corrupt field, a zero rate),
    the request is admitted with no headers; it refuses only when the bucket was read
    and holds less than one token, and then the store is unchanged. *)
Theorem api_fail_open {R : Redis} {F : PyFloat} link now key config s headers s' :
  check_rate_limit link now key config s = ((false, headers), s') →
  s' = s ∧ connected link = true ∧ read_fails link = false ∧
  ∃ tokens, refill now (inject_Z (requests_per_minute config) / 60) (inject_Z (burst_size config))
              (r_hgetall s now ("rate_limit:" +:+ key)) = Ok tokens ∧ (tokens < 1)%Q.
Proof.
  unfold check_rate_limit. destruct (connected link); [|done].
  destruct (read_fails link); [done|].
  destruct (refill _ _ _ _) as [tokens|]; [|done].
  destruct (Qle_bool 1 tokens) eqn:E.
  - destruct (write_fails link); [done|]. by destruct (_ =? 0).
  - destruct (_ =? 0); [done|]. cbn [negb]. intros ?; simplify_eq.
    do 3 (split; [done|]). exists tokens. split; [done|]. by apply Qle_bool_false.
Qed.

Lemma api_fail_open_witness :
  let s := (run (admitted (R := gmap_redis) "k" (mkConfig 60 1)) [0] ∅).2 in
  (check_rate_limit (R := gmap_redis) link_up 0 "k" (mkConfig 60 1) s).1.1 = false ∧
  connected link_up = true.
Proof.
  intros s. split; [vm_compute; reflexivity|].
  destruct (check_rate_limit (R := gmap_redis) link_up 0 "k" (mkConfig 60 1) s) as [[[] h] s'] eqn:E.
  - vm_compute in E. discriminate.
  - apply (api_fail_open link_up 0 "k" (mkConfig 60 1) s h s' E).
Defined.
End TokenBucketLimiter.
