(* ===== verification/SlidingWindow.v ===== *)
(** * SlidingWindow: per-tenant request limiting with sliding windows

    Models src/src/rate_limiter.py: the sorted sets of request times per tenant and
    window ([check_limit], [get_limit_info]), the middleware and the decorator.  Times
    and scores are in microseconds; the member [str(now)] of the sorted set is the
    decimal numeral of the time. *)

From S2P Require Import Prelude PyUtils Redis ApiRateLimit.

Open Scope Z_scope.

(** A Python dict in insertion order. *)
Abbreviation limits_dict := (list (string * Z)).

(** [d[k] = v] *)
Fixpoint dict_set (k : string) (v : Z) (d : limits_dict) : limits_dict :=
  match d with
  | [] => [(k, v)]
  | (k', v') :: d' => if String.eqb k k' then (k, v) :: d' else (k', v') :: dict_set k v d'
  end.

(** [d.update(e)] *)
Definition dict_update (d e : limits_dict) : limits_dict :=
  foldl (λ d kv, dict_set kv.1 kv.2 d) d e.

Record RateLimiter := mkLimiter { enabled : bool; default_limits : limits_dict }.

(** [__init__] with the settings of the deployment *)
Definition new_limiter (rate_limit_enabled : bool) (rate_limit_per_minute rate_limit_per_hour : Z)
  : RateLimiter :=
  mkLimiter rate_limit_enabled [("minute", rate_limit_per_minute); ("hour", rate_limit_per_hour)].

Definition windows : limits_dict := [("minute", 60); ("hour", 3600)].

Definition window_key (tenant_id window_name : string) : string :=
  "rate_limit:" +:+ tenant_id +:+ ":" +:+ window_name.

(** The dict of limits a call is checked against. *)
Definition limits_for (self : RateLimiter) (operation_type : string) (custom_limits : option limits_dict)
  : limits_dict :=
  let limits := if String.eqb operation_type "write" then [("minute", 10); ("hour", 100)]
                else default_limits self in
  match custom_limits with Some c => dict_update limits c | None => limits end.

Section Limiter.
Context {R : Redis}.

(** One iteration of the loop of [check_limit]: [Some retry_after] when it returns. *)
Definition check_window (tenant_id : string) (now : Z) (window_name : string) (limit : Z) (s : store)
  : result string (option Z) * store :=
  match assoc window_name windows with
  | None => (Err ("KeyError: " +:+ window_name), s)
  | Some window_seconds =>
      let key := window_key tenant_id window_name in
      let window_start := now - window_seconds * sec in
      let s := r_zremrangebyscore s now key 0 window_start in
      let request_count := r_zcard s now key in
      match (if limit <=? request_count then r_zmin s now key else None) with
      | Some (_, oldest_timestamp) =>
          (Ok (Some (Z.quot (oldest_timestamp + window_seconds * sec - now) sec + 1)), s)
      | None =>
          let s := r_zadd s now key (show_Z now) now in
          let s := r_expire s now key (window_seconds + 60) in
          (Ok None, s)
      end
  end.

Fixpoint check_windows (tenant_id : string) (now : Z) (limits : limits_dict) (s : store)
  : result string (option Z) * store :=
  match limits with
  | [] => (Ok None, s)
  | (window_name, limit) :: rest =>
      match check_window tenant_id now window_name limit s with
      | (Ok None, s) => check_windows tenant_id now rest s
      | other => other
      end
  end.

Definition check_limit (self : RateLimiter) (now : Z) (tenant_id operation_type : string)
  (custom_limits : option limits_dict) (s : store) : result string (bool * option Z) * store :=
  if negb (enabled self) then (Ok (true, None), s)
  else
    let '(r, s) := check_windows tenant_id now (limits_for self operation_type custom_limits) s in
    (match r with
     | Ok None => Ok (true, None)
     | Ok (Some retry_after) => Ok (false, Some retry_after)
     | Err e => Err e
     end, s).

Record WindowInfo := mkInfo { wi_limit : Z; wi_current : Z; wi_remaining : Z; wi_reset_at : Z }.

Fixpoint limit_info (now : Z) (tenant_id : string) (limits : limits_dict) (s : store)
  : result string (list (string * WindowInfo)) * store :=
  match limits with
  | [] => (Ok [], s)
  | (window_name, limit) :: rest =>
      match assoc window_name windows with
      | None => (Err ("KeyError: " +:+ window_name), s)
      | Some window_seconds =>
          let key := window_key tenant_id window_name in
          let s := r_zremrangebyscore s now key 0 (now - window_seconds * sec) in
          let current := r_zcard s now key in
          let info := mkInfo limit current (Z.max 0 (limit - current)) (now + window_seconds * sec) in
          let '(r, s) := limit_info now tenant_id rest s in
          (cons (window_name, info) <$> r, s)
      end
  end.

Definition get_limit_info (self : RateLimiter) (now : Z) (tenant_id : string) (s : store)
  : result string (list (string * WindowInfo)) * store :=
  limit_info now tenant_id (default_limits self) s.

Definition skip_paths : list string :=
  ["/health"; "/docs"; "/redoc"; "/openapi.json"; "/api/v1/uplink";
   "/api/v1/auth/login"; "/api/v1/auth/refresh"].

(** [RateLimitMiddleware.dispatch] over a state that contains the store: [call_next] is the
    application, whose effect is arbitrary; [refuse] makes the answer 429 with its headers,
    [add_headers] adds headers to the answer of the application. *)
Section Dispatch.
Context {W E A : Type} (store_of : W → store) (with_store : store → W → W) (fail : string → E).
Context (refuse : list (string * string) → A) (add_headers : list (string * string) → A → A).

Definition on_store {B} (f : store → result string B * store) : stE W E B := λ w,
  let '(r, s) := f (store_of w) in
  (match r with Ok b => Ok b | Err e => Err (fail e) end, with_store s w).

(** The tenant whose windows a request is counted in *)
Definition limited_tenant (request : Request) : string := or_else (req_tenant_id request) "anonymous".

Definition operation_type (request : Request) : string :=
  if bool_decide (req_method request ∈ ["POST"; "PUT"; "PATCH"; "DELETE"]) then "write" else "read".

Definition refused_headers (self : RateLimiter) (retry_after : option Z) : result string (list (string * string)) :=
  match assoc "minute" (default_limits self) with
  | None => Err "KeyError: minute"
  | Some limit =>
      Ok [("X-RateLimit-Limit", show_Z limit); ("X-RateLimit-Remaining", "0");
          ("Retry-After", match retry_after with Some r => show_Z r | None => "None" end)]
  end.

Definition info_headers (limit_info : list (string * WindowInfo)) : list (string * string) :=
  let '(limit, remaining) :=
    match assoc "minute" limit_info with Some i => (wi_limit i, wi_remaining i) | None => (0, 0) end in
  [("X-RateLimit-Limit", show_Z limit); ("X-RateLimit-Remaining", show_Z remaining)].

Definition dispatch (self : RateLimiter) (call_next : stE W E A) (now now' : Z) (request : Request) : stE W E A :=
  if bool_decide (req_path request ∈ skip_paths) then call_next
  else
    let tenant_id := limited_tenant request in
    checked ← on_store (check_limit self now tenant_id (operation_type request) None);
    match checked with
    | (false, retry_after) => headers ← on_store (λ s, (refused_headers self retry_after, s)); mret (refuse headers)
    | (true, _) =>
        response ← call_next;
        limit_info ← on_store (get_limit_info self now' tenant_id);
        mret (add_headers (info_headers limit_info) response)
    end.
End Dispatch.

(** A sequence of calls of one tenant, each at its time with its operation type and
    custom limits: the times at which the limiter said yes. *)
Fixpoint admitted_at (self : RateLimiter) (tenant_id : string)
  (calls : list (Z * (string * option limits_dict))) (s : store) : list Z * store :=
  match calls with
  | [] => ([], s)
  | (now, (op, custom)) :: rest =>
      let '(r, s) := check_limit self now tenant_id op custom s in
      let '(ts, s) := admitted_at self tenant_id rest s in
      (match r with Ok (true, _) => now :: ts | _ => ts end, s)
  end.
End Limiter.

(** [rate_limit]: the override the decorator attaches to an endpoint *)
Definition rate_limit (limit_per_minute limit_per_hour : option Z) : limits_dict :=
  (match limit_per_minute with Some m => [("minute", m)] | None => [] end ++
   match limit_per_hour with Some h => [("hour", h)] | None => [] end)%list.

Definition get_tenant_id_from_request (request : Request) (x_tenant_id : option string) : string :=
  match req_tenant_id request with
  | Some t => t
  | None => or_else x_tenant_id "anonymous"
  end.

(** *** The window bound *)

(** The calls of [rec] that fall in the window that ends at [t]. *)
Definition in_window (w t : Z) (rec : list Z) : list Z := filter (λ a, t - w < a ≤ t) rec.

Lemma in_window_sublist w t l l' : l `sublist_of` l' → (length (in_window w t l) ≤ length (in_window w t l'))%nat.
Proof.
  induction 1 as [|x l l' _ IH|x l l' _ IH]; unfold in_window in *; rewrite ?filter_cons;
    repeat case_decide; cbn [length]; lia.
Qed.

(** Times kept in a sorted set are counted by its size. *)
Lemma recorded_le_size (z : gmap string Z) (l : list Z) :
  NoDup l → (∀ a, a ∈ l → z !! show_Z a = Some a) → (length l ≤ size z)%nat.
Proof.
  intros Hnd Hz. rewrite <- (length_map show_Z), <- (size_list_to_set (C := gset string)).
  - rewrite <- size_dom. apply subseteq_size. intros k.
    rewrite elem_of_list_to_set, list_elem_of_fmap. intros (a & -> & Ha).
    apply elem_of_dom_2 with a. by apply Hz.
  - apply NoDup_fmap_2; [|done]. intros a b. apply show_Z_inj.
Qed.

Section Bound.
Context {R : Redis} (tenant_id window_name : string) (window_seconds L : Z).
Hypothesis Hwin : assoc window_name windows = Some window_seconds.

Let key := window_key tenant_id window_name.
Let W := window_seconds * sec.

(** [rec], the calls recorded so far in the window's sorted set: each that is still
    inside the window is a member of the set, and no window holds more than [L]. *)
Record recorded (ks : keyspace) (last : Z) (rec : list Z) : Prop := {
  rec_nodup : NoDup rec;
  rec_past a : a ∈ rec → 0 ≤ a ≤ last;
  rec_typed : match ks !! key with None | Some (RZSet _, _) => True | _ => False end;
  rec_kept a : a ∈ rec → last - W < a →
    ∃ z d, ks !! key = Some (RZSet z, Some d) ∧ z !! show_Z a = Some a ∧ a + W ≤ d;
  rec_bound t : Z.of_nat (length (in_window W t rec)) ≤ Z.max 1 L;
}.

Lemma zset_at_typed now (ks : keyspace) :
  match ks !! key with None | Some (RZSet _, _) => True | _ => False end →
  match alive now key ks with None | Some (RZSet _, _) => True | _ => False end.
Proof. unfold alive. destruct (ks !! key) as [[[] ?]|]; cbn; try done. by destruct (live _ _). Qed.

Lemma recorded_trim ks last rec now :
  recorded ks last rec → last ≤ now →
  let ks' := ks_zremrangebyscore now key 0 (now - W) ks in
  recorded ks' now rec ∧
  (∀ a, a ∈ rec → now - W < a → zset_at now key ks' !! show_Z a = Some a).
Proof.
  intros Hr Hn ks'.
  assert (∀ a, a ∈ rec → now - W < a →
     ∃ z d, ks' !! key = Some (RZSet z, Some d) ∧ z !! show_Z a = Some a ∧ a + W ≤ d) as Hk.
  { intros a Ha Hw. destruct (rec_kept _ _ _ Hr a Ha ltac:(lia)) as (z & d & E & Hz & Hd).
    assert (filter (λ ms : string * Z, ¬ (0 ≤ ms.2 ≤ now - W)) z !! show_Z a = Some a) as Hf.
    { apply map_lookup_filter_Some. split; [done|]. cbn. lia. }
    exists (filter (λ ms : string * Z, ¬ (0 ≤ ms.2 ≤ now - W)) z), d. split; [|done].
    subst ks'. unfold ks_zremrangebyscore, on_zset, alive. rewrite E. unfold live; cbn.
    rewrite (proj2 (Z.ltb_lt now d)) by lia.
    rewrite decide_False; [by rewrite lookup_insert_eq|]. intros E'. by rewrite E', lookup_empty in Hf. }
  split; [split|].
  - apply Hr.
  - intros a Ha. pose proof (rec_past _ _ _ Hr a Ha). lia.
  - pose proof (zset_at_typed now _ (rec_typed _ _ _ Hr)) as Ht. subst ks'.
    unfold ks_zremrangebyscore, on_zset. destruct (alive now key ks) as [[[] ?]|]; try done;
      case_decide; rewrite ?lookup_delete_eq, ?lookup_insert_eq; done.
  - done.
  - apply Hr.
  - intros a Ha Hw. destruct (Hk a Ha Hw) as (z & d & E & Hz & Hd).
    unfold zset_at, alive. rewrite E. unfold live; cbn. rewrite (proj2 (Z.ltb_lt now d)) by lia. done.
Qed.

Lemma recorded_add ks rec now :
  recorded ks now rec → (∀ a, a ∈ rec → a < now) → 0 ≤ now →
  (∀ a, a ∈ rec → now - W < a → zset_at now key ks !! show_Z a = Some a) →
  Z.of_nat (size (zset_at now key ks)) < Z.max 1 L →
  recorded (ks_expire now key (window_seconds + 60) (ks_zadd now key (show_Z now) now ks)) now (now :: rec).
Proof.
  intros Hr Hlt H0 Hz Hsz.
  set (z := zset_at now key ks) in *.
  assert (∃ d, alive now key (ks_zadd now key (show_Z now) now ks) = Some (RZSet (<[show_Z now := now]> z), d)) as [d Ed].
  { pose proof (zset_at_typed now _ (rec_typed _ _ _ Hr)) as Ht. subst z.
    unfold ks_zadd, on_zset, zset_at. destruct (alive now key ks) as [[[] d]|] eqn:E; try done.
    - rewrite decide_False by apply insert_non_empty. exists d. unfold alive. rewrite lookup_insert_eq.
      unfold alive in E. destruct (ks !! key) as [e|]; [|done]. destruct (live now e) eqn:El; [|done].
      simplify_eq. unfold live in *; cbn in *. by rewrite El.
    - rewrite decide_False by apply insert_non_empty. exists None. unfold alive. by rewrite lookup_insert_eq. }
  unfold ks_expire. rewrite Ed. cbn [fst]. split.
  - constructor; [|apply Hr]. intros Ha%Hlt. lia.
  - intros a [->|Ha]%elem_of_cons; [lia|]. by apply (rec_past _ _ _ Hr).
  - by rewrite lookup_insert_eq.
  - intros a Ha Hw. eexists _, _. rewrite lookup_insert_eq. split; [done|].
    apply elem_of_cons in Ha as [->|Ha].
    + rewrite lookup_insert_eq. split; [done|]. unfold W, sec. lia.
    + split; [|pose proof (Hlt a Ha); unfold W, sec; lia].
      rewrite lookup_insert_ne by (intros ?%show_Z_inj; specialize (Hlt a Ha); lia). by apply Hz.
  - intros t. unfold in_window. rewrite filter_cons. case_decide as Ht; [|apply (rec_bound _ _ _ Hr)].
    cbn [length]. enough (length (filter (λ a : Z, (t - W < a ≤ t)%Z) rec) ≤ size z)%nat by lia.
    apply recorded_le_size; [by apply NoDup_filter, Hr|].
    intros a [? Ha]%list_elem_of_filter. apply Hz; [done|lia].
Qed.

(** The window's own check records the call or refuses it. *)
Lemma check_window_own s last rec now limit r s' :
  recorded (dump s) last rec → last < now → 0 ≤ now → limit ≤ L →
  check_window tenant_id now window_name limit s = (r, s') →
  recorded (dump s') now (if decide (r = Ok None) then now :: rec else rec).
Proof.
  intros Hr Hlt H0 Hlim. unfold check_window. rewrite Hwin. fold key W.
  destruct (recorded_trim _ _ _ now Hr ltac:(lia)) as [Hr1 Hz1].
  rewrite <- r_zrem_law in Hr1, Hz1.
  set (s1 := r_zremrangebyscore s now key 0 (now - W)) in *.
  assert (∀ a, a ∈ rec → a < now) as Hpast by (intros a Ha; pose proof (rec_past _ _ _ Hr a Ha); lia).
  assert (recorded (dump (r_expire (r_zadd s1 now key (show_Z now) now) now key (window_seconds + 60))) now (now :: rec)
          ∨ Z.max 1 L ≤ Z.of_nat (size (zset_at now key (dump s1)))) as Hadd.
  { destruct (Z.lt_ge_cases (Z.of_nat (size (zset_at now key (dump s1)))) (Z.max 1 L)); [left|by right].
    autorewrite with redis. by apply recorded_add. }
  assert (r_zmin s1 now key = None → Z.of_nat (size (zset_at now key (dump s1))) = 0) as Hempty.
  { intros ->%r_zmin_none. by rewrite map_size_empty. }
  rewrite r_zcard_law. destruct (Z.leb_spec limit (Z.of_nat (size (zset_at now key (dump s1))))) as [Hle|Hgt].
  - destruct (r_zmin s1 now key) as [[m o]|] eqn:Emin; intros ?; simplify_eq; [by rewrite decide_False|].
    rewrite decide_True by done. destruct Hadd; [done|]. specialize (Hempty eq_refl). lia.
  - intros ?; simplify_eq. rewrite decide_True by done. destruct Hadd; [done|lia].
Qed.

(** Another window's check leaves this window's key alone. *)
Lemma check_window_other s now name' limit :
  name' ≠ window_name →
  dump (check_window tenant_id now name' limit s).2 !! key = dump s !! key.
Proof.
  intros Hne. assert (window_key tenant_id name' ≠ key) as Hk.
  { unfold key, window_key. intros H. by simplify_eq. }
  unfold check_window. destruct (assoc name' windows); [|done].
  repeat case_match; cbn [snd]; autorewrite with redis;
    unfold ks_zadd, ks_zremrangebyscore; rewrite ?lookup_expire_ne, ?lookup_on_zset_ne by done; done.
Qed.

Lemma recorded_ext ks ks' last rec :
  ks !! key = ks' !! key → recorded ks last rec → recorded ks' last rec.
Proof. intros E []. split; try done; by rewrite <- E. Qed.

Lemma recorded_later ks last now rec : last ≤ now → recorded ks last rec → recorded ks now rec.
Proof.
  intros Hle []. split; try done.
  - intros a Ha. specialize (rec_past0 a Ha). lia.
  - intros a Ha Hw. apply rec_kept0; [done|lia].
Qed.

(** All the windows of a call: it is recorded in this one or not, and a call that
    passes every window is recorded in this one. *)
Lemma check_windows_recorded limits s last rec now r s' :
  NoDup limits.*1 → (∀ l, (window_name, l) ∈ limits → l ≤ L) →
  recorded (dump s) last rec → last < now → 0 ≤ now →
  check_windows tenant_id now limits s = (r, s') →
  ∃ b : bool, recorded (dump s') now (if b then now :: rec else rec) ∧
              (r = Ok None → window_name ∈ limits.*1 → b = true).
Proof.
  intros Hnd Hlim Hr Hlt H0.
  assert (∀ limits s r s', window_name ∉ limits.*1 →
     check_windows tenant_id now limits s = (r, s') → dump s' !! key = dump s !! key) as Hframe.
  { clear -Hwin. intros limits. induction limits as [|[name' l] limits IH]; intros s r s' Hn; cbn.
    - by intros; simplify_eq.
    - cbn in Hn. rewrite not_elem_of_cons in Hn. destruct Hn as [Hne Hn].
      pose proof (check_window_other s now name' l ltac:(done)) as Hf.
      destruct (check_window tenant_id now name' l s) as [[[x|]|e] s1]; cbn in Hf; intros H; simplify_eq; try done.
      by rewrite (IH _ _ _ Hn H). }
  revert s last Hr Hlt. induction limits as [|[name' l] limits IH]; intros s last Hr Hlt; cbn [check_windows].
  - intros ?; simplify_eq. exists false. split; [by apply recorded_later with last; [lia|]|].
    cbn. by intros _ ?%elem_of_nil.
  - cbn in Hnd. apply NoDup_cons in Hnd as [Hn Hnd].
    destruct (decide (name' = window_name)) as [->|Hne].
    + destruct (check_window tenant_id now window_name l s) as [r1 s1] eqn:E.
      pose proof (check_window_own _ _ _ _ _ _ _ Hr Hlt H0 (Hlim l ltac:(by left)) E) as Hr1.
      destruct r1 as [[x|]|e]; intros H; simplify_eq;
        [exists false; by rewrite decide_False in Hr1| |exists false; by rewrite decide_False in Hr1].
      exists true. rewrite decide_True in Hr1 by done. split; [|done].
      apply (recorded_ext (dump s1)); [|done]. symmetry. by apply (Hframe limits s1 r s').
    + pose proof (check_window_other s now name' l Hne) as Hf.
      destruct (check_window tenant_id now name' l s) as [r1 s1]. cbn in Hf.
      assert (recorded (dump s1) last rec) as Hr1 by by apply (recorded_ext (dump s)).
      destruct r1 as [[x|]|e]; intros H; simplify_eq;
        try (exists false; split; [by apply recorded_later with last; [lia|]|done]).
      edestruct IH as (b & Hb & Hb'); [done| |exact Hr1|done|exact H|].
      { intros l' Hl'. apply Hlim. by right. }
      exists b. split; [done|]. intros Ho Hin. apply Hb'; [done|].
      cbn in Hin. apply elem_of_cons in Hin as [?|?]; congruence.
Qed.
End Bound.

Lemma dict_set_fst k v d : NoDup d.*1 → NoDup (dict_set k v d).*1 ∧ ∀ k', k' ∈ (dict_set k v d).*1 ↔ k' = k ∨ k' ∈ d.*1.
Proof.
  induction d as [|[k1 v1] d IH]; cbn.
  - intros _. split; [apply NoDup_singleton|]. intros k'. by rewrite elem_of_cons.
  - intros [Hn Hd]%NoDup_cons. destruct (String.eqb_spec k k1) as [->|Hne]; cbn.
    + split; [by constructor|]. intros k'. rewrite elem_of_cons. tauto.
    + destruct (IH Hd) as [H1 H2]. split.
      * constructor; [|done]. rewrite H2. intros [?|?]; congruence.
      * intros k'. rewrite !elem_of_cons, H2. tauto.
Qed.

Lemma dict_update_fst e d :
  NoDup d.*1 → NoDup (dict_update d e).*1 ∧ ∀ k, k ∈ d.*1 → k ∈ (dict_update d e).*1.
Proof.
  unfold dict_update. revert d. induction e as [|[k v] e IH]; intros d Hd; cbn [foldl]; [done|].
  destruct (dict_set_fst k v d Hd) as [H1 H2]. destruct (IH _ H1) as [H3 H4]. split; [done|].
  intros k' Hk'. cbn [fst snd]. apply H4, H2. by right.
Qed.

Lemma limits_for_fst self op custom :
  NoDup (default_limits self).*1 → NoDup (limits_for self op custom).*1 ∧
  ("minute" ∈ (default_limits self).*1 → "minute" ∈ (limits_for self op custom).*1) ∧
  ("hour" ∈ (default_limits self).*1 → "hour" ∈ (limits_for self op custom).*1).
Proof.
  intros Hd. unfold limits_for.
  set (base := if String.eqb op "write" then _ else _).
  assert (NoDup base.*1 ∧ ("minute" ∈ (default_limits self).*1 → "minute" ∈ base.*1) ∧
          ("hour" ∈ (default_limits self).*1 → "hour" ∈ base.*1)) as (H1 & H2 & H3).
  { subst base. destruct (String.eqb op "write"); [|done].
    split; [by apply (bool_decide_unpack _)|]. split; intros _; cbn; set_solver. }
  destruct custom as [c|]; [|done]. destruct (dict_update_fst c base H1). auto.
Qed.

(** The calls are strictly ordered in time, from [last] on. *)
Fixpoint strictly_after {A} (last : Z) (calls : list (Z * A)) : Prop :=
  match calls with
  | [] => True
  | (t, _) :: rest => last < t ∧ strictly_after t rest
  end.

Section Runs.
Context {R : Redis} (self : RateLimiter) (tenant_id window_name : string) (window_seconds L : Z).
Hypothesis Hwin : assoc window_name windows = Some window_seconds.
Hypothesis Hon : enabled self = true.
Hypothesis Hnd : NoDup (default_limits self).*1.
Hypothesis Hin : "minute" ∈ (default_limits self).*1 ∧ "hour" ∈ (default_limits self).*1.

Lemma window_name_in op custom : window_name ∈ (limits_for self op custom).*1.
Proof.
  destruct (limits_for_fst self op custom Hnd) as (_ & H1 & H2). revert Hwin. cbn.
  destruct (String.eqb_spec window_name "minute") as [->|]; [intros _; apply H1, Hin|].
  destruct (String.eqb_spec window_name "hour") as [->|]; [intros _; apply H2, Hin|done].
Qed.

Lemma admitted_recorded calls s last rec :
  Forall (λ c : Z * (string * option limits_dict),
            ∀ l, (window_name, l) ∈ limits_for self c.2.1 c.2.2 → l ≤ L) calls →
  strictly_after last calls → 0 ≤ last →
  recorded tenant_id window_name window_seconds L (dump s) last rec →
  ∃ rec' last', recorded tenant_id window_name window_seconds L
                  (dump (admitted_at self tenant_id calls s).2) last' rec' ∧
    (reverse (admitted_at self tenant_id calls s).1 ++ rec)%list `sublist_of` rec'.
Proof.
  revert s last rec. induction calls as [|[t [op custom]] calls IH]; intros s last rec Hall Hs H0 Hr.
  - exists rec, last. by split.
  - apply Forall_cons in Hall as [Hlim Hall]. destruct Hs as [Hlt Hs]. cbn [admitted_at].
    unfold check_limit. rewrite Hon. cbn [negb].
    destruct (check_windows tenant_id t (limits_for self op custom) s) as [r s1] eqn:E.
    edestruct check_windows_recorded as (b & Hb & Hb'); [exact Hwin| |exact Hlim|exact Hr|exact Hlt|lia|exact E|].
    { apply limits_for_fst, Hnd. }
    destruct (IH s1 t _ Hall Hs ltac:(lia) Hb) as (rec' & last' & Hr' & Hsub).
    destruct (admitted_at self tenant_id calls s1) as [ts s2]. cbn [fst snd] in *.
    exists rec', last'. split; [done|].
    destruct r as [[x|]|e].
    + etrans; [|exact Hsub]. apply sublist_app; [done|]. by destruct b; [apply sublist_cons|].
    + rewrite (Hb' eq_refl (window_name_in op custom)) in Hsub.
      rewrite reverse_cons, <- app_assoc. exact Hsub.
    + etrans; [|exact Hsub]. apply sublist_app; [done|]. by destruct b; [apply sublist_cons|].
Qed.
End Runs.

(** C12. The sliding window holds its limit: for calls of one tenant at strictly
    increasing times, starting from an empty window, whatever mix of reads, writes
    and custom limits they carry, every window of 60 (or 3600) seconds contains at
    most [L] admitted calls, where [L >= 1] bounds the limits the calls are checked
    against for that window.  (A limit of 0 admits one call of an empty window, hence
    the maximum with 1.) *)
Theorem sliding_window_bound {R : Redis} self tenant_id window_name window_seconds L calls s t :
  assoc window_name windows = Some window_seconds →
  enabled self = true →
  (default_limits self).*1 = ["minute"; "hour"] →
  Forall (λ c : Z * (string * option limits_dict),
            ∀ l, (window_name, l) ∈ limits_for self c.2.1 c.2.2 → l ≤ L) calls →
  strictly_after 0 calls →
  dump s !! window_key tenant_id window_name = None →
  Z.of_nat (length (in_window (window_seconds * sec) t (admitted_at self tenant_id calls s).1))
    ≤ Z.max 1 L.
Proof.
  intros Hwin Hon Hd Hlim Hs Hnone.
  assert (NoDup (default_limits self).*1) as Hnd by (rewrite Hd; by apply (bool_decide_unpack _)).
  destruct (admitted_recorded self tenant_id window_name window_seconds L Hwin Hon Hnd) with
    (calls := calls) (s := s) (last := 0) (rec := @nil Z) as (rec' & last' & Hr & Hsub); try done.
  - rewrite Hd. set_solver.
  - split.
    + constructor.
    + intros a []%elem_of_nil.
    + by rewrite Hnone.
    + intros a []%elem_of_nil.
    + cbn. lia.
  - rewrite app_nil_r in Hsub.
    etrans; [|exact (rec_bound _ _ _ _ _ _ _ Hr t)].
    apply inj_le. etrans; [|eapply in_window_sublist, Hsub].
    unfold in_window. by rewrite filter_reverse, length_reverse.
Qed.

(** Two reads per minute: five calls one second apart, then one after the window. *)
Lemma sliding_window_bound_witness :
  let calls := [(1 * sec, ("read", None)); (2 * sec, ("read", None)); (3 * sec, ("read", None));
                (62 * sec, ("read", None))] in
  (admitted_at (R := gmap_redis) (new_limiter true 2 1000) "t" calls ∅).1 = [1 * sec; 2 * sec; 62 * sec] ∧
  Z.of_nat (length (in_window (60 * sec) (62 * sec)
    (admitted_at (R := gmap_redis) (new_limiter true 2 1000) "t" calls ∅).1)) ≤ Z.max 1 2.
Proof.
  intros calls. split; [vm_compute; reflexivity|].
  apply (sliding_window_bound (R := gmap_redis) (new_limiter true 2 1000) "t" "minute" 60 2 calls ∅ (62 * sec));
    [reflexivity|reflexivity|reflexivity| | |reflexivity].
  - subst calls. repeat (apply Forall_cons; split; [|]); [| | | |apply Forall_nil; exact I];
      intros l; cbn; rewrite !elem_of_cons, elem_of_nil; intros [E|[E|[]]]; simplify_eq; lia.
  - subst calls. unfold sec. cbn. lia.
Defined.

(** Reads and writes share one sorted set per window, so reads use up the write
    quota: ten reads in a minute, a tenth of the default read limit, and the first
    write of that minute is refused, although the documentation grants each tenant ten
    writes per minute besides its reads. *)
Theorem reads_starve_writes :
  let reads := map (λ i, (Z.of_nat i * sec, ("read", None))) (seq 1 10) in
  let '(ts, s) := admitted_at (R := gmap_redis) (new_limiter true 100 1000) "t" reads ∅ in
  length ts = 10%nat ∧
  (check_limit (R := gmap_redis) (new_limiter true 100 1000) (11 * sec) "t" "write" None s).1
    = Ok (false, Some 51).
Proof. vm_compute. split; reflexivity. Qed.
