(* ===== verification/DownlinkQueue.v ===== *)
(** * DownlinkQueue: the durable queue of display downlinks and its worker

    Models [DownlinkCommand], [DownlinkQueue] and [DownlinkWorker] of
    src/src/downlink_queue.py, with [get_queue_health] of
    src/src/routers/downlink_monitor.py.  The queue's state is in Redis; the functions
    take the store and the clock reading at which they run, the generated UUID of a new
    command, and the digest function of [hashlib] as a parameter.  The
    Prometheus counters and the log lines are not part of the state.

    [AbstractQueue] is what the queue promises: a list of pending commands in order,
    at most one per device; [Refinement] proves that the Redis code implements it. *)

From Stdlib Require Import QArith Qround.
From S2P Require Import Prelude PyUtils Json Redis RateLimit.

Open Scope Z_scope.

(** ** The command and its encodings *)

Record DownlinkCommand := mkCmd {
  id : string;
  device_eui : string;
  tenant_id : string;
  gateway_id : option string;
  payload : string;
  fport : Z;
  confirmed : bool;
  content_hash : string;
  created_at : Q;
  attempts : Z;
  last_error : option string;
  last_attempt_at : option Q;
  space_id : option string;
  trigger_source : option string;
}.

(** [json.dumps] of a flat dict *)
Inductive jval := JStr (s : string) | JLit (s : string).

Definition json_val (v : jval) : string := match v with JStr s => json_str s | JLit s => s end.

Definition json_dumps (d : list (string * jval)) : string :=
  "{" +:+ String.concat ", " (map (λ kv, json_str kv.1 +:+ ": " +:+ json_val kv.2) d) +:+ "}".

Definition jopt (o : option string) : jval := match o with Some s => JStr s | None => JLit "null" end.

(** [str(v) if v is not None else ""] *)
Definition str_or_empty (o : option string) : string := or_else o "".

Definition show_bool (b : bool) : string := if b then "True" else "False".

(** [d.get(k) or None] *)
Definition or_None (o : option string) : option string := if truthy o then o else None.

(** What [queue_downlink] does with the request: it accepts it or raises. *)
Abbreviation Network := (string → list Z → Z → bool → result string unit).

Section Queue.
Context {R : Redis} {F : PyFloat} (sha256_hexdigest : string → string).

Definition PENDING_KEY : string := "dl:pending".
Definition CMD_PREFIX : string := "dl:cmd:".
Definition LAST_HASH_PREFIX : string := "dl:last_hash:".
Definition DEAD_LETTER_KEY : string := "dl:dead".
Definition METRICS_PREFIX : string := "dl:metrics:".
Definition COALESCE_PREFIX : string := "dl:coalesce:".

Definition MAX_ATTEMPTS : Z := 5.
Definition BACKOFF_BASE_SECONDS : Z := 2.
Definition BACKOFF_MAX_SECONDS : Z := 60.
Definition CMD_TTL_SECONDS : Z := 3600.

Definition compute_content_hash (device_eui payload : string) (fport : Z) : string :=
  str_take 16 (sha256_hexdigest (device_eui +:+ ":" +:+ payload +:+ ":" +:+ show_Z fport)).

(** The hash the command is stored as. *)
Definition cmd_mapping (c : DownlinkCommand) : gmap string string :=
  list_to_map [
    ("id", id c); ("device_eui", device_eui c); ("tenant_id", tenant_id c);
    ("gateway_id", str_or_empty (gateway_id c)); ("payload", payload c);
    ("fport", show_Z (fport c)); ("confirmed", show_bool (confirmed c));
    ("content_hash", content_hash c); ("created_at", show_float (created_at c));
    ("attempts", show_Z (attempts c)); ("last_error", str_or_empty (last_error c));
    ("last_attempt_at", str_or_empty (show_float <$> last_attempt_at c));
    ("space_id", str_or_empty (space_id c)); ("trigger_source", str_or_empty (trigger_source c))].

Definition py_int (s : string) : result string Z :=
  match read_Z s with Some n => Ok n | None => Err "invalid literal for int()" end.

Definition py_float (s : string) : result string Q :=
  match read_float s with Some q => Ok q | None => Err "could not convert string to float" end.

(** The command [dequeue] reads back from the hash. *)
Definition deserialize (now : Z) (cmd_id : string) (h : gmap string string)
  : result string DownlinkCommand :=
  let get k d := or_else (h !! k) d in
  fport ← py_int (get "fport" "15");
  created_at ← match h !! "created_at" with Some x => py_float x | None => Ok (secs now) end;
  attempts ← py_int (get "attempts" "0");
  last_attempt_at ← (if truthy (h !! "last_attempt_at")
                     then Some <$> py_float (get "last_attempt_at" "") else Ok None);
  mret {| id := get "id" cmd_id; device_eui := get "device_eui" ""; tenant_id := get "tenant_id" "";
          gateway_id := or_None (h !! "gateway_id"); payload := get "payload" "";
          fport := fport; confirmed := String.eqb (get "confirmed" "False") "True";
          content_hash := get "content_hash" ""; created_at := created_at; attempts := attempts;
          last_error := or_None (h !! "last_error"); last_attempt_at := last_attempt_at;
          space_id := or_None (h !! "space_id"); trigger_source := or_None (h !! "trigger_source") |}.

Definition _increment_metric (now : Z) (metric_name : string) (s : store) : store :=
  r_incr s now (METRICS_PREFIX +:+ metric_name).

Definition _record_latency (now : Z) (latency_ms : Z) (s : store) : store :=
  let key := METRICS_PREFIX +:+ "latencies" in
  r_ltrim_last (r_rpush s now key (show_Z latency_ms)) now key 100.

(** What a caller asks to send. *)
Record EnqueueArgs := mkArgs {
  a_device_eui : string; a_payload : string; a_fport : Z; a_tenant_id : string; a_confirmed : bool;
  a_gateway_id : option string; a_space_id : option string; a_trigger_source : option string;
}.

Definition new_command (now : Z) (cmd_id : string) (a : EnqueueArgs) : DownlinkCommand :=
  {| id := cmd_id; device_eui := a_device_eui a; tenant_id := a_tenant_id a;
     gateway_id := a_gateway_id a; payload := a_payload a; fport := a_fport a;
     confirmed := a_confirmed a;
     content_hash := compute_content_hash (a_device_eui a) (a_payload a) (a_fport a);
     created_at := secs now; attempts := 0; last_error := None; last_attempt_at := None;
     space_id := a_space_id a; trigger_source := a_trigger_source a |}.

(** [enqueue]; [cmd_id] is the value of [uuid.uuid4()]. *)
Definition enqueue (now : Z) (cmd_id : string) (a : EnqueueArgs) (s : store) : option string * store :=
  let content_hash := compute_content_hash (a_device_eui a) (a_payload a) (a_fport a) in
  let last_hash_key := LAST_HASH_PREFIX +:+ a_device_eui a in
  if bool_decide (r_get s now last_hash_key = Some content_hash) then
    (None, _increment_metric now "deduplicated" s)
  else
    let coalesce_key := COALESCE_PREFIX +:+ a_device_eui a in
    let s :=
      match r_get s now coalesce_key with
      | Some (String c x) =>
          let existing_cmd_id := String c x in
          let s := r_lrem s now PENDING_KEY existing_cmd_id in
          let s := r_del s (CMD_PREFIX +:+ existing_cmd_id) in
          _increment_metric now "coalesced" s
      | _ => s
      end in
    let cmd := new_command now cmd_id a in
    let cmd_key := CMD_PREFIX +:+ cmd_id in
    let s := r_hset s now cmd_key (cmd_mapping cmd) in
    let s := r_expire s now cmd_key CMD_TTL_SECONDS in
    let s := r_rpush s now PENDING_KEY cmd_id in
    let s := r_set s now coalesce_key cmd_id (Some 300) in
    let s := _increment_metric now "enqueued" s in
    (Some cmd_id, s).

(** [dequeue]: [BLPOP] takes the head of the list or times out on an empty one. *)
Definition dequeue (now : Z) (s : store) : result string (option DownlinkCommand) * store :=
  let '(popped, s) := r_lpop s now PENDING_KEY in
  match popped with
  | None => (Ok None, s)
  | Some cmd_id =>
      let cmd_data := r_hgetall s now (CMD_PREFIX +:+ cmd_id) in
      if bool_decide (cmd_data = ∅) then (Ok None, s)
      else (Some <$> deserialize now cmd_id cmd_data, s)
  end.

(** [int((time.time() - cmd.created_at) * 1000)] *)
Definition latency_ms (now : Z) (c : DownlinkCommand) : Z := Qtrunc ((secs now - created_at c) * 1000)%Q.

Definition mark_success (now : Z) (c : DownlinkCommand) (s : store) : store :=
  let s := r_set s now (LAST_HASH_PREFIX +:+ device_eui c) (content_hash c) (Some 3600) in
  let s := r_del s (CMD_PREFIX +:+ id c) in
  let s := r_del s (COALESCE_PREFIX +:+ device_eui c) in
  let s := _increment_metric now "succeeded" s in
  _record_latency now (latency_ms now c) s.

(** The JSON text of a dead letter. *)
Definition dead_letter (now : Z) (c : DownlinkCommand) : string :=
  json_dumps [
    ("id", JStr (id c)); ("device_eui", JStr (device_eui c)); ("tenant_id", JStr (tenant_id c));
    ("gateway_id", jopt (gateway_id c)); ("payload", JStr (payload c));
    ("fport", JLit (show_Z (fport c))); ("confirmed", JLit (if confirmed c then "true" else "false"));
    ("content_hash", JStr (content_hash c)); ("created_at", JLit (show_float (created_at c)));
    ("attempts", JLit (show_Z (attempts c))); ("last_error", jopt (last_error c));
    ("last_attempt_at", JLit (or_else (show_float <$> last_attempt_at c) "null"));
    ("space_id", jopt (space_id c)); ("trigger_source", jopt (trigger_source c));
    ("dead_lettered_at", JLit (show_float (secs now)))].

Definition _move_to_dead_letter (now : Z) (c : DownlinkCommand) (s : store) : store :=
  let s := r_rpush s now DEAD_LETTER_KEY (dead_letter now c) in
  let s := r_del s (CMD_PREFIX +:+ id c) in
  r_del s (COALESCE_PREFIX +:+ device_eui c).

(** The command object after a failed attempt. *)
Definition failed (now : Z) (error : string) (c : DownlinkCommand) : DownlinkCommand :=
  {| id := id c; device_eui := device_eui c; tenant_id := tenant_id c; gateway_id := gateway_id c;
     payload := payload c; fport := fport c; confirmed := confirmed c;
     content_hash := content_hash c; created_at := created_at c; attempts := attempts c + 1;
     last_error := Some error; last_attempt_at := Some (secs now);
     space_id := space_id c; trigger_source := trigger_source c |}.

Definition backoff_seconds (attempts : Z) : Z :=
  Z.min (BACKOFF_BASE_SECONDS * 2 ^ (attempts - 1)) BACKOFF_MAX_SECONDS.

(** [mark_failure]: the store, and the delay the log line announces for a requeued
    command. *)
Definition mark_failure (now : Z) (c : DownlinkCommand) (error : string) (requeue : bool) (s : store)
  : option Z * store :=
  let c := failed now error c in
  if (MAX_ATTEMPTS <=? attempts c) || negb requeue then
    let s := _move_to_dead_letter now c s in
    (None, _increment_metric now "dead_lettered" s)
  else
    let s := r_hset s now (CMD_PREFIX +:+ id c)
               (list_to_map [("attempts", show_Z (attempts c)); ("last_error", error);
                             ("last_attempt_at", show_float (secs now))]) in
    let s := r_rpush s now PENDING_KEY (id c) in
    (Some (backoff_seconds (attempts c)), _increment_metric now "retried" s).

Record Metrics := mkMetrics {
  queue_depth : Z; dead_letter_depth : Z; total_enqueued : Z; total_succeeded : Z;
  total_retried : Z; total_dead_lettered : Z; total_deduplicated : Z; total_coalesced : Z;
  success_rate : Q; latency_p50_ms : Z; latency_p99_ms : Z;
}.

(** [int(x or 0)] *)
Definition int_or (d : Z) (o : option string) : result string Z :=
  match o with Some (String c x) => py_int (String c x) | _ => Ok d end.

Fixpoint ints (l : list string) : result string (list Z) :=
  match l with
  | [] => Ok []
  | x :: l' =>
      if non_empty x then n ← py_int x; ns ← ints l'; mret (n :: ns) else ints l'
  end.

Definition get_metrics (now : Z) (s : store) : result string Metrics :=
  let counter name := r_get s now (METRICS_PREFIX +:+ name) in
  latencies ← ints (take 100 (r_lrange s now (METRICS_PREFIX +:+ "latencies")));
  let sorted_latencies := merge_sort Z.le latencies in
  let n := length sorted_latencies in
  enqueued ← int_or 0 (counter "enqueued");
  succeeded ← int_or 0 (counter "succeeded");
  retried ← int_or 0 (counter "retried");
  dead_lettered ← int_or 0 (counter "dead_lettered");
  deduplicated ← int_or 0 (counter "deduplicated");
  coalesced ← int_or 0 (counter "coalesced");
  mret {| queue_depth := Z.of_nat (length (r_lrange s now PENDING_KEY));
          dead_letter_depth := Z.of_nat (length (r_lrange s now DEAD_LETTER_KEY));
          total_enqueued := enqueued; total_succeeded := succeeded; total_retried := retried;
          total_dead_lettered := dead_lettered; total_deduplicated := deduplicated;
          total_coalesced := coalesced;
          success_rate := if 0 <? enqueued
                          then (inject_Z succeeded / inject_Z enqueued * 100)%Q else 0%Q;
          latency_p50_ms := or_else (sorted_latencies !! Nat.div2 n) 0;
          latency_p99_ms := if (1 <? n)%nat
                            then or_else (sorted_latencies !! (n * 99 / 100)%nat) 0
                            else or_else (sorted_latencies !! 0%nat) 0 |}.

Definition clear_metrics (now : Z) (s : store) : store :=
  foldl r_del s (r_keys s now (METRICS_PREFIX +:+ "*")).

(** [get_queue_health] of the monitoring router, on a configured queue; a warning is
    its kind and the number its text shows. *)
Inductive QueueWarning :=
| QueueDepthCritical (depth : Z)
| QueueDepthElevated (depth : Z)
| DeadLetterAccumulating (depth : Z)
| LowSuccessRate (rate : Q).

Record QueueHealth := mkHealth { health_status : string; health_warnings : list QueueWarning }.

Definition get_queue_health (m : Metrics) : QueueHealth :=
  let '(status_level, warnings) :=
    if 500 <? queue_depth m then ("unhealthy", [QueueDepthCritical (queue_depth m)])
    else if 100 <? queue_depth m then ("degraded", [QueueDepthElevated (queue_depth m)])
    else ("healthy", []) in
  let degrade level := if String.eqb level "healthy" then "degraded" else level in
  let '(status_level, warnings) :=
    if 10 <? dead_letter_depth m
    then (degrade status_level, (warnings ++ [DeadLetterAccumulating (dead_letter_depth m)])%list)
    else (status_level, warnings) in
  let '(status_level, warnings) :=
    if (10 <? total_enqueued m) && negb (Qle_bool 90 (success_rate m))
    then (degrade status_level, (warnings ++ [LowSuccessRate (success_rate m)])%list)
    else (status_level, warnings) in
  mkHealth status_level warnings.

(** ** The worker *)

(** The downlinks ChirpStack accepted, oldest first, and the store. *)
Record World := mkWorld {
  redis : store;
  sent : list (string * list Z * Z * bool);
}.

Definition with_redis (f : store → store) (w : World) : World := mkWorld (f (redis w)) (sent w).

Definition fail_command (t : Z) (c : DownlinkCommand) (error : string) (w : World) : World :=
  with_redis (λ s, (mark_failure t c error true s).2) w.

(** The part of [_process_command] after the rate limits; the send takes until [now']. *)
Definition send_command (queue_downlink : Network) (now now' : Z) (c : DownlinkCommand) (w : World)
  : World :=
  match bytes_fromhex (payload c) with
  | None => fail_command now c "non-hexadecimal number found in fromhex() arg" w
  | Some payload_bytes =>
      match queue_downlink (device_eui c) payload_bytes (fport c) (confirmed c) with
      | Ok _ =>
          mkWorld (mark_success now' c (redis w))
            (sent w ++ [(device_eui c, payload_bytes, fport c, confirmed c)])%list
      | Err e => fail_command now' c e w
      end
  end.

(** [if not allowed: sleep(retry); mark_failure(...)], and what follows otherwise *)
Definition limited (now : Z) (c : DownlinkCommand) (error : string)
  (check : store → result string (bool * option Z) * store) (next : World → World) (w : World) : World :=
  match check (redis w) with
  | (Err e, s) => fail_command now c e (mkWorld s (sent w))
  | (Ok (false, retry), s) => fail_command (now + or_else retry 0 * sec) c error (mkWorld s (sent w))
  | (Ok (true, _), s) => next (mkWorld s (sent w))
  end.

(** [_process_command] at time [now].  A rate-limited command sleeps for the retry time
    first.  Every exception before [mark_success] is caught and counted as a failed
    attempt. *)
Definition _process_command (queue_downlink : Network) (now now' : Z) (c : DownlinkCommand) (w : World)
  : World :=
  let tenant :=
    limited now c "Tenant rate limited"
      (DownlinkRateLimiter.check_tenant_limit now (tenant_id c) None)
      (send_command queue_downlink now now' c) in
  if truthy (gateway_id c) then
    limited now c "Gateway rate limited"
      (DownlinkRateLimiter.check_gateway_limit now (str_or_empty (gateway_id c)) None) tenant w
  else tenant w.

(** One turn of [_run_loop] while the worker runs: an exception of [dequeue] (a hash
    field that does not parse) is logged and the loop goes on. *)
Definition run_once (queue_downlink : Network) (now now' : Z) (w : World) : World :=
  let '(r, s) := dequeue now (redis w) in
  let w := mkWorld s (sent w) in
  match r with
  | Ok (Some c) => _process_command queue_downlink now now' c w
  | Ok None | Err _ => w
  end.

(** [_run_loop] for the turns that start at the given times, until [stop]. *)
Definition _run_loop (queue_downlink : Network) (turns : list (Z * Z)) (w : World) : World :=
  foldl (λ w t, run_once queue_downlink t.1 t.2 w) w turns.
End Queue.

(** ** The abstract queue *)

Module AbstractQueue.
Section Spec.
Context {F : PyFloat} (sha256_hexdigest : string → string).

(** Commands waiting in order, the hash of the last delivery per device, and the dead
    letters. *)
Record AQueue := mkAQueue {
  pending : list DownlinkCommand;
  last_sent : gmap string string;
  dead : list string;
}.

(** A command as the queue keeps it: an empty optional string is no string. *)
Definition stored (c : DownlinkCommand) : DownlinkCommand :=
  {| id := id c; device_eui := device_eui c; tenant_id := tenant_id c;
     gateway_id := or_None (gateway_id c); payload := payload c; fport := fport c;
     confirmed := confirmed c; content_hash := content_hash c; created_at := created_at c;
     attempts := attempts c; last_error := or_None (last_error c);
     last_attempt_at := last_attempt_at c; space_id := or_None (space_id c);
     trigger_source := or_None (trigger_source c) |}.

(** A command replaces the one its device waits for; a repetition of the last
    delivery is dropped. *)
Definition a_enqueue (now : Z) (cmd_id : string) (a : EnqueueArgs) (A : AQueue) : option string * AQueue :=
  let c := new_command sha256_hexdigest now cmd_id a in
  if bool_decide (last_sent A !! a_device_eui a = Some (content_hash c)) then (None, A)
  else (Some cmd_id,
        mkAQueue (filter (λ x, device_eui x ≠ a_device_eui a) (pending A) ++ [stored c])%list
          (last_sent A) (dead A)).

Definition a_dequeue (A : AQueue) : option DownlinkCommand * AQueue :=
  match pending A with
  | [] => (None, A)
  | c :: rest => (Some c, mkAQueue rest (last_sent A) (dead A))
  end.

Definition a_success (c : DownlinkCommand) (A : AQueue) : AQueue :=
  mkAQueue (pending A) (<[device_eui c := content_hash c]> (last_sent A)) (dead A).

Definition a_failure (now : Z) (c : DownlinkCommand) (error : string) (requeue : bool) (A : AQueue)
  : AQueue :=
  let c := failed now error c in
  if (MAX_ATTEMPTS <=? attempts c) || negb requeue
  then mkAQueue (pending A) (last_sent A) (dead A ++ [dead_letter now c])%list
  else mkAQueue (pending A ++ [stored c])%list (last_sent A) (dead A).

(** A client's call, or one turn of the worker with the outcome of the delivery. *)
Inductive QueueOp :=
| OpEnqueue (cmd_id : string) (a : EnqueueArgs)
| OpDeliver
| OpFail (error : string) (requeue : bool).

Definition a_step (now : Z) (op : QueueOp) (A : AQueue) : option DownlinkCommand * AQueue :=
  match op with
  | OpEnqueue cmd_id a => (None, (a_enqueue now cmd_id a A).2)
  | OpDeliver =>
      match a_dequeue A with (Some c, A) => (Some c, a_success c A) | (None, A) => (None, A) end
  | OpFail error requeue =>
      match a_dequeue A with
      | (Some c, A) => (Some c, a_failure now c error requeue A)
      | (None, A) => (None, A)
      end
  end.

Definition step {R : Redis} (now : Z) (op : QueueOp) (s : store) : option DownlinkCommand * store :=
  match op with
  | OpEnqueue cmd_id a => (None, (enqueue sha256_hexdigest now cmd_id a s).2)
  | OpDeliver =>
      match dequeue now s with
      | (Ok (Some c), s) => (Some c, mark_success now c s)
      | (_, s) => (None, s)
      end
  | OpFail error requeue =>
      match dequeue now s with
      | (Ok (Some c), s) => (Some c, (mark_failure now c error requeue s).2)
      | (_, s) => (None, s)
      end
  end.

Fixpoint a_run (ops : list (Z * QueueOp)) (A : AQueue) : list (option DownlinkCommand) * AQueue :=
  match ops with
  | [] => ([], A)
  | (now, op) :: ops =>
      let '(o, A) := a_step now op A in let '(os, A) := a_run ops A in (o :: os, A)
  end.

Fixpoint run {R : Redis} (ops : list (Z * QueueOp)) (s : store) : list (option DownlinkCommand) * store :=
  match ops with
  | [] => ([], s)
  | (now, op) :: ops =>
      let '(o, s) := step now op s in let '(os, s) := run ops s in (o :: os, s)
  end.
End Spec.
End AbstractQueue.
Import AbstractQueue.

(** ** Refinement *)

Section Refinement.
Context {R : Redis} {F : PyFloat}.

Lemma or_None_or_empty o : or_None (Some (str_or_empty o)) = or_None o.
Proof. by destruct o as [[|??]|]. Qed.

Lemma deserialize_mapping now i c : deserialize now i (cmd_mapping c) = Ok (stored c).
Proof.
  unfold deserialize, cmd_mapping. cbn [list_to_map foldr curry uncurry fst snd].
  repeat first [rewrite lookup_insert_eq | rewrite lookup_insert_ne by discriminate].
  unfold or_else, py_int, py_float. rewrite !read_show_Z, read_show_float, !or_None_or_empty.
  destruct c as [? ? ? ? ? ? cf ? ? ? ? [q|] ? ?]; cbn [id device_eui confirmed last_attempt_at fmap option_fmap option_map str_or_empty or_else].
  - pose proof (show_float_non_empty q). pose proof (read_show_float q).
    cbn. destruct (show_float q) eqn:E; [done|]. cbn. rewrite <- E in *. cbn in *. rewrite H0. by destruct cf.
  - by destruct cf.
Qed.

Lemma str_or_empty_or_None o : str_or_empty (or_None o) = str_or_empty o.
Proof. by destruct o as [[|??]|]. Qed.

Lemma cmd_mapping_stored c : cmd_mapping (stored c) = cmd_mapping c.
Proof. unfold cmd_mapping. cbn [stored id device_eui tenant_id gateway_id payload fport confirmed
  content_hash created_at attempts last_error last_attempt_at space_id trigger_source].
  by rewrite !str_or_empty_or_None. Qed.

Lemma stored_idemp c : stored (stored c) = stored c.
Proof. unfold stored; cbn. by destruct (gateway_id c) as [[|??]|], (last_error c) as [[|??]|],
  (space_id c) as [[|??]|], (trigger_source c) as [[|??]|]. Qed.

Lemma cmd_mapping_non_empty c : cmd_mapping c ≠ ∅.
Proof. apply insert_non_empty. Qed.

Lemma failed_mapping now error c :
  list_to_map [("attempts", show_Z (attempts (failed now error c))); ("last_error", error);
               ("last_attempt_at", show_float (secs now))] ∪ cmd_mapping c
  = cmd_mapping (failed now error c).
Proof.
  apply map_eq. intros k. unfold cmd_mapping. cbn [list_to_map foldr curry uncurry fst snd].
  rewrite lookup_union.
  repeat match goal with
  | |- context [(<[?f := _]> _) !! k] =>
      destruct (decide (f = k)) as [<-|?];
      [try done; repeat first [rewrite lookup_insert_eq | rewrite lookup_insert_ne by discriminate];
       rewrite ?lookup_empty; reflexivity
      |repeat rewrite (lookup_insert_ne _ f k) by done]
  end.
  rewrite !lookup_empty. reflexivity.
Qed.

(** *** The representation *)

(** The store [ks] represents [A], with the commands [held] taken by the worker and not
    yet settled.  Every deadline lies after the horizon [H]. *)
Record represents (H : Z) (ks : keyspace) (held : list DownlinkCommand) (A : AQueue) : Prop := {
  rp_pending : perm_list PENDING_KEY ks ∧ plist PENDING_KEY ks = map id (pending A);
  rp_dead : perm_list DEAD_LETTER_KEY ks ∧ plist DEAD_LETTER_KEY ks = dead A;
  rp_ids : NoDup (map id (held ++ pending A)%list);
  rp_devices : NoDup (map device_eui (held ++ pending A)%list);
  rp_named c : c ∈ (held ++ pending A)%list → non_empty (id c) = true ∧ stored c = c;
  rp_cmd c : c ∈ (held ++ pending A)%list →
    ∃ d, ks !! (CMD_PREFIX +:+ id c) = Some (RHash (cmd_mapping c), Some d) ∧ H ≤ d;
  rp_no_cmd i : i ∉ map id (held ++ pending A)%list → ks !! (CMD_PREFIX +:+ i) = None;
  rp_coalesce c : c ∈ (held ++ pending A)%list →
    ∃ d, ks !! (COALESCE_PREFIX +:+ device_eui c) = Some (RStr (id c), Some d) ∧ H ≤ d;
  rp_no_coalesce e : e ∉ map device_eui (held ++ pending A)%list → ks !! (COALESCE_PREFIX +:+ e) = None;
  rp_last e : match last_sent A !! e with
              | Some h => ∃ d, ks !! (LAST_HASH_PREFIX +:+ e) = Some (RStr h, Some d) ∧ H ≤ d
              | None => ks !! (LAST_HASH_PREFIX +:+ e) = None
              end;
}.

Definition queue_key (k : string) : Prop :=
  k = PENDING_KEY ∨ k = DEAD_LETTER_KEY ∨
  ∃ x, k = CMD_PREFIX +:+ x ∨ k = COALESCE_PREFIX +:+ x ∨ k = LAST_HASH_PREFIX +:+ x.

Lemma represents_frame H ks ks' held A :
  (∀ k, queue_key k → ks' !! k = ks !! k) → represents H ks held A → represents H ks' held A.
Proof.
  intros Hf [[Hp1 Hp2] [Hd1 Hd2] ? ? ? ? Hn ? Hnc Hl]. unfold queue_key in Hf.
  split; try done.
  - split; [apply (perm_list_ext _ ks)|rewrite <- Hp2; apply plist_ext]; [symmetry|..]; auto.
  - split; [apply (perm_list_ext _ ks)|rewrite <- Hd2; apply plist_ext]; [symmetry|..]; auto.
  - intros c Hc. rewrite Hf by eauto 6. auto.
  - intros i Hi. rewrite Hf by eauto 6. auto.
  - intros c Hc. rewrite Hf by eauto 7. auto.
  - intros i Hi. rewrite Hf by eauto 7. auto.
  - intros e. specialize (Hl e). rewrite Hf by eauto 8. done.
Qed.

Lemma metric_frame name k : queue_key k → METRICS_PREFIX +:+ name ≠ k.
Proof. intros [->|[->|[x [->|[->| ->]]]]]; discriminate. Qed.

Lemma increment_frame now name s k : queue_key k → dump (_increment_metric now name s) !! k = dump s !! k.
Proof. intros Hk. unfold _increment_metric. autorewrite with redis. by apply lookup_incr_ne, metric_frame. Qed.

Lemma latency_frame now ms s k : queue_key k → dump (_record_latency now ms s) !! k = dump s !! k.
Proof.
  intros Hk. pose proof (metric_frame "latencies" k Hk). unfold _record_latency. autorewrite with redis.
  unfold ks_ltrim_last, ks_rpush. by rewrite !lookup_on_list_ne.
Qed.

(** Lookups through a chain of commands: the keys of the queue are distinct by their
    prefixes. *)
Ltac frame :=
  repeat first
    [ rewrite lookup_set_ne by (first [discriminate|congruence|intros ?; simplify_eq; done])
    | rewrite lookup_del_ne by (first [discriminate|congruence|intros ?; simplify_eq; done])
    | rewrite lookup_expire_ne by (first [discriminate|congruence|intros ?; simplify_eq; done])
    | rewrite lookup_hset_ne by (first [discriminate|congruence|intros ?; simplify_eq; done])
    | rewrite lookup_on_list_ne by (first [discriminate|congruence|intros ?; simplify_eq; done])].

(** *** Settling a held command *)

(** The command, its hash and its coalescing key are gone. *)
Lemma settle_keys H ks c A :
  represents H ks [c] A →
  represents H (ks_del (COALESCE_PREFIX +:+ device_eui c) (ks_del (CMD_PREFIX +:+ id c) ks)) [] A.
Proof.
  intros [[Hp1 Hp2] [Hd1 Hd2] Hids Hdevs Hn Hc Hnc Hco Hnco Hl]. cbn in *.
  apply NoDup_cons in Hids as [Hid Hids], Hdevs as [Hdev Hdevs].
  assert (∀ x, x ∈ pending A → id x ≠ id c ∧ device_eui x ≠ device_eui c) as Hne.
  { intros x Hx. split; intros E; [apply Hid|apply Hdev]; rewrite <- E; apply list_elem_of_fmap; eauto. }
  split; cbn; try done.
  - split; [apply (perm_list_ext _ ks)|rewrite <- Hp2; apply plist_ext]; by frame.
  - split; [apply (perm_list_ext _ ks)|rewrite <- Hd2; apply plist_ext]; by frame.
  - intros x Hx. apply Hn. by right.
  - intros x Hx. destruct (Hne x Hx). frame. apply Hc. by right.
  - intros i Hi. rewrite lookup_del_ne by discriminate. unfold ks_del.
    destruct (decide (CMD_PREFIX +:+ id c = CMD_PREFIX +:+ i)) as [->|?]; [by rewrite lookup_delete_eq|].
    rewrite lookup_delete_ne by done. apply Hnc. rewrite not_elem_of_cons. split; [congruence|done].
  - intros x Hx. destruct (Hne x Hx). frame. apply Hco. by right.
  - intros e He. unfold ks_del.
    destruct (decide (COALESCE_PREFIX +:+ device_eui c = COALESCE_PREFIX +:+ e)) as [->|?]; [by rewrite lookup_delete_eq|].
    rewrite lookup_delete_ne by done. fold (ks_del (CMD_PREFIX +:+ id c) ks). frame.
    apply Hnco. rewrite not_elem_of_cons. split; [congruence|done].
  - intros e. specialize (Hl e). by frame.
Qed.

Lemma set_last H now ks held A c :
  H ≤ now + 3600 * sec → represents H ks held A →
  represents H (ks_set now (LAST_HASH_PREFIX +:+ device_eui c) (content_hash c) (Some 3600) ks)
    held (a_success c A).
Proof.
  intros Hh [[Hp1 Hp2] [Hd1 Hd2] ? ? ? Hc Hnc Hco Hnco Hl]. split; cbn [pending dead a_success]; try done.
  - split; [apply (perm_list_ext _ ks)|rewrite <- Hp2; apply plist_ext]; by frame.
  - split; [apply (perm_list_ext _ ks)|rewrite <- Hd2; apply plist_ext]; by frame.
  - intros x Hx. frame. by apply Hc.
  - intros i Hi. frame. by apply Hnc.
  - intros x Hx. frame. by apply Hco.
  - intros i Hi. frame. by apply Hnco.
  - intros e. cbn [last_sent a_success]. destruct (decide (device_eui c = e)) as [->|Hne].
    + rewrite lookup_insert_eq. eexists. unfold ks_set. by rewrite lookup_insert_eq.
    + rewrite lookup_insert_ne by done. specialize (Hl e). by frame.
Qed.

Lemma push_dead H now ks held A j :
  represents H ks held A →
  represents H (ks_rpush now DEAD_LETTER_KEY j ks) held
    (mkAQueue (pending A) (last_sent A) (dead A ++ [j])%list).
Proof.
  intros [[Hp1 Hp2] [Hd1 Hd2] ? ? ? Hc Hnc Hco Hnco Hl].
  unfold ks_rpush. split; cbn [pending dead last_sent]; try done.
  - split; [apply (perm_list_ext _ ks)|rewrite <- Hp2; apply plist_ext]; by frame.
  - destruct (on_list_perm now DEAD_LETTER_KEY (λ l, l ++ [j])%list ks Hd1) as [? ->]. by rewrite Hd2.
  - intros x Hx. frame. by apply Hc.
  - intros i Hi. frame. by apply Hnc.
  - intros x Hx. frame. by apply Hco.
  - intros i Hi. frame. by apply Hnco.
  - intros e. specialize (Hl e). by frame.
Qed.

Lemma success_refines H now s c A :
  H ≤ now + 3600 * sec → represents H (dump s) [c] A →
  represents H (dump (mark_success now c s)) [] (a_success c A).
Proof.
  intros Hh Hr. unfold mark_success.
  eapply represents_frame; [intros k Hk; rewrite latency_frame, increment_frame by done; reflexivity|].
  autorewrite with redis. by apply settle_keys, set_last.
Qed.

(** A held command goes back to the end of the list with its attempt recorded. *)
Lemma requeue_keys H now ks c c' A :
  id c' = id c → device_eui c' = device_eui c →
  (∃ d, ks !! (CMD_PREFIX +:+ id c) = Some (RHash (cmd_mapping c'), Some d) ∧ H ≤ d) →
  stored c' = c' →
  (∃ ks0, represents H ks0 [c] A ∧ ∀ k, k ≠ CMD_PREFIX +:+ id c → ks !! k = ks0 !! k) →
  represents H (ks_rpush now PENDING_KEY (id c) ks) []
    (mkAQueue (pending A ++ [c'])%list (last_sent A) (dead A)).
Proof.
  intros Eid Edev Hcmd Hst (ks0 & [[Hp1 Hp2] [Hd1 Hd2] Hids Hdevs Hn Hc Hnc Hco Hnco Hl] & Hf).
  cbn in *. unfold ks_rpush. split; cbn [pending dead last_sent app].
  - assert (perm_list PENDING_KEY ks) as Hp1'.
    { apply (perm_list_ext _ ks0); [|done]. symmetry. by apply Hf. }
    destruct (on_list_perm now PENDING_KEY (λ l, l ++ [id c])%list ks Hp1') as [? ->]. split; [done|].
    rewrite map_app. cbn. rewrite Eid. f_equal. rewrite <- Hp2. apply plist_ext. by apply Hf.
  - split; [apply (perm_list_ext _ ks0)|rewrite <- Hd2; apply plist_ext]; [|done|]; frame;
      [symmetry|]; by apply Hf.
  - rewrite map_app, Permutation_app_comm. cbn. by rewrite Eid.
  - rewrite map_app, Permutation_app_comm. cbn. by rewrite Edev.
  - intros x Hx. apply elem_of_snoc in Hx as [Hx| ->]; [apply Hn; by right|].
    rewrite Eid. split; [apply Hn; by left|done].
  - intros x Hx. apply elem_of_snoc in Hx as [Hx| ->]; frame.
    + rewrite Hf; [apply Hc; by right|]. intros ?; simplify_eq.
      apply NoDup_cons in Hids as [Hid _]. apply Hid, list_elem_of_fmap. eauto.
    + by rewrite Eid.
  - intros i Hi. frame. rewrite map_app, not_elem_of_app in Hi. cbn in Hi.
    rewrite Hf; [apply Hnc; set_solver|]. intros ?; simplify_eq. set_solver.
  - intros x Hx. frame. rewrite Hf by discriminate.
    apply elem_of_snoc in Hx as [Hx| ->]; [apply Hco; by right|].
    rewrite Eid, Edev. apply Hco. by left.
  - intros e He. frame. rewrite Hf by discriminate. apply Hnco.
    rewrite map_app, not_elem_of_app in He. cbn in He. set_solver.
  - intros e. specialize (Hl e). frame. by rewrite Hf.
Qed.

Lemma failure_refines H now s c A error requeue :
  now < H → represents H (dump s) [c] A →
  represents H (dump (mark_failure now c error requeue s).2) [] (a_failure now c error requeue A).
Proof.
  intros Hn Hr. unfold mark_failure, a_failure.
  destruct ((MAX_ATTEMPTS <=? attempts (failed now error c)) || negb requeue); cbn [snd].
  - eapply represents_frame; [intros k Hk; rewrite increment_frame by done; reflexivity|].
    unfold _move_to_dead_letter. autorewrite with redis.
    by apply (settle_keys H _ c), push_dead.
  - eapply represents_frame; [intros k Hk; rewrite increment_frame by done; reflexivity|].
    autorewrite with redis.
    destruct (rp_cmd _ _ _ _ Hr c ltac:(by left)) as (d & Ed & Hd).
    apply (requeue_keys H now _ c); try done.
    + exists d. split; [|done]. unfold ks_hset, alive. cbn [id failed]. rewrite Ed.
      unfold live; cbn [snd]. rewrite (proj2 (Z.ltb_lt now d)) by lia.
      by rewrite lookup_insert_eq, cmd_mapping_stored, failed_mapping.
    + apply stored_idemp.
    + exists (dump s). split; [done|]. intros k Hk. by rewrite lookup_hset_ne.
Qed.

(** Taking the head of the list gives back the command that was put there. *)
Lemma dequeue_refines H now s A :
  now < H → represents H (dump s) [] A →
  match a_dequeue A with
  | (Some c, A') => ∃ s', dequeue now s = (Ok (Some c), s') ∧ represents H (dump s') [c] A'
  | (None, _) => ∃ s', dequeue now s = (Ok None, s') ∧ represents H (dump s') [] A
  end.
Proof.
  intros Hn Hr. unfold a_dequeue, dequeue.
  destruct (r_lpop s now PENDING_KEY) as [popped s1] eqn:E.
  destruct (r_lpop_law s now PENDING_KEY) as [H1 H2]. rewrite E in H1, H2. cbn in H1, H2.
  destruct (rp_pending _ _ _ _ Hr) as [Hp1 Hp2].
  unfold ks_lpop in H1, H2. rewrite list_at_perm, Hp2 in H1, H2 by done.
  destruct (pending A) as [|c rest] eqn:EA; cbn in H1, H2; subst popped.
  - eexists. split; [done|]. by rewrite H2.
  - destruct (rp_cmd _ _ _ _ Hr c ltac:(rewrite EA; by left)) as (d & Ed & Hd).
    assert (r_hgetall s1 now (CMD_PREFIX +:+ id c) = cmd_mapping c) as ->.
    { rewrite r_hgetall_law, H2. unfold hash_at, alive. rewrite lookup_on_list_ne by discriminate.
      rewrite Ed. unfold live; cbn. by rewrite (proj2 (Z.ltb_lt now d)) by lia. }
    rewrite bool_decide_eq_false_2 by apply cmd_mapping_non_empty.
    rewrite deserialize_mapping.
    rewrite (proj2 (rp_named _ _ _ _ Hr c ltac:(rewrite EA; by left))).
    exists s1. split; [done|]. rewrite H2.
    destruct Hr as [_ [Hd1 Hd2] Hids Hdevs Hnm Hc Hnc Hco Hnco Hl]. rewrite EA in *. cbn in *.
    split; cbn [pending dead last_sent app]; try done.
    + destruct (on_list_perm now PENDING_KEY (drop 1) (dump s) Hp1) as [? ->]. by rewrite Hp2.
    + split; [apply (perm_list_ext _ (dump s))|rewrite <- Hd2; apply plist_ext]; by frame.
    + intros x Hx. frame. by apply Hc.
    + intros i Hi. frame. by apply Hnc.
    + intros x Hx. frame. by apply Hco.
    + intros i Hi. frame. by apply Hnco.
    + intros e. specialize (Hl e). by frame.
Qed.

(** *** Enqueueing *)

Lemma filter_ids_devices (l : list DownlinkCommand) c0 :
  (∀ c, c ∈ l → id c = id c0 ↔ device_eui c = device_eui c0) →
  filter (λ x, x ≠ id c0) (map id l) = map id (filter (λ c, device_eui c ≠ device_eui c0) l).
Proof.
  induction l as [|c l IH]; intros Hl; [done|].
  change (map id (c :: l)) with (id c :: map id l). rewrite !filter_cons.
  pose proof (Hl c ltac:(by left)). rewrite IH by (intros; apply Hl; by right).
  repeat case_decide; tauto.
Qed.

(** Every command of a device with a pending command other than [c0] stays. *)
Lemma purge_refines H now ks A c0 :
  represents H ks [] A → c0 ∈ pending A →
  represents H
    (ks_del (COALESCE_PREFIX +:+ device_eui c0)
       (ks_del (CMD_PREFIX +:+ id c0) (ks_lrem now PENDING_KEY (id c0) ks))) []
    (mkAQueue (filter (λ x, device_eui x ≠ device_eui c0) (pending A)) (last_sent A) (dead A)).
Proof.
  intros [[Hp1 Hp2] [Hd1 Hd2] Hids Hdevs Hn Hc Hnc Hco Hnco Hl] Hc0. cbn in *.
  assert (∀ c, c ∈ pending A → id c = id c0 ↔ device_eui c = device_eui c0) as Hiff.
  { intros c Hcin. split; intros E.
    - by rewrite (NoDup_map_inj id (pending A) c c0).
    - by rewrite (NoDup_map_inj device_eui (pending A) c c0). }
  split; cbn [pending dead last_sent app].
  - split.
    + apply (perm_list_ext _ (ks_lrem now PENDING_KEY (id c0) ks)); [by frame|]. by apply on_list_perm.
    + etrans; [apply (plist_ext _ _ (ks_lrem now PENDING_KEY (id c0) ks)); by frame|].
      unfold ks_lrem. rewrite (proj2 (on_list_perm _ _ _ _ Hp1)), Hp2. by apply filter_ids_devices.
  - split; [apply (perm_list_ext _ ks)|rewrite <- Hd2; apply plist_ext]; [|done|]; unfold ks_lrem; by frame.
  - by apply NoDup_map_filter.
  - by apply NoDup_map_filter.
  - intros c [_ Hcin]%list_elem_of_filter. by apply Hn.
  - intros c [Hdev Hcin]%list_elem_of_filter. unfold ks_lrem. frame.
    assert (id c ≠ id c0) by (rewrite Hiff by done; done). frame. by apply Hc.
  - intros i Hi. unfold ks_lrem. rewrite lookup_del_ne by discriminate.
    destruct (decide (id c0 = i)) as [<-|Hne]; [by apply lookup_delete_eq|]. frame. apply Hnc.
    intros (c & -> & Hcin)%list_elem_of_fmap. apply Hi, list_elem_of_fmap. exists c.
    split; [done|]. apply list_elem_of_filter. split; [|done]. rewrite <- Hiff by done. done.
  - intros c [Hdev Hcin]%list_elem_of_filter. unfold ks_lrem. frame. by apply Hco.
  - intros e He. unfold ks_lrem.
    destruct (decide (device_eui c0 = e)) as [<-|Hne]; [by apply lookup_delete_eq|]. frame. apply Hnco.
    intros (c & -> & Hcin)%list_elem_of_fmap. apply He, list_elem_of_fmap. exists c.
    split; [done|]. apply list_elem_of_filter. by split.
  - intros e. specialize (Hl e). unfold ks_lrem. by frame.
Qed.

(** Adding a command whose device waits for nothing. *)
Lemma append_refines H now ks A c :
  H ≤ now + 300 * sec →
  represents H (ks_del (COALESCE_PREFIX +:+ device_eui c) ks) [] A →
  id c ∉ map id (pending A) → device_eui c ∉ map device_eui (pending A) → non_empty (id c) = true →
  represents H
    (ks_set now (COALESCE_PREFIX +:+ device_eui c) (id c) (Some 300)
       (ks_rpush now PENDING_KEY (id c)
          (ks_expire now (CMD_PREFIX +:+ id c) CMD_TTL_SECONDS
             (ks_hset now (CMD_PREFIX +:+ id c) (cmd_mapping c) ks)))) []
    (mkAQueue (pending A ++ [stored c])%list (last_sent A) (dead A)).
Proof.
  intros Hh [[Hp1 Hp2] [Hd1 Hd2] Hids Hdevs Hn Hc Hnc Hco Hnco Hl] Hid Hdev Hne. cbn [app] in *.
  assert (∀ k, k ≠ COALESCE_PREFIX +:+ device_eui c →
    ks_del (COALESCE_PREFIX +:+ device_eui c) ks !! k = ks !! k) as Hdel by (intros; by frame).
  set (ck := COALESCE_PREFIX +:+ device_eui c) in *. remember (ks_del ck ks) as ks0 eqn:Eks0.
  assert (ks !! (CMD_PREFIX +:+ id c) = None) as Hfresh by (rewrite <- Hdel by discriminate; by apply Hnc).
  assert (ks_expire now (CMD_PREFIX +:+ id c) CMD_TTL_SECONDS (ks_hset now (CMD_PREFIX +:+ id c) (cmd_mapping c) ks)
    = <[CMD_PREFIX +:+ id c := (RHash (cmd_mapping c), Some (now + CMD_TTL_SECONDS * sec))]> ks) as ->.
  { unfold ks_hset, ks_expire, alive. rewrite Hfresh, lookup_insert_eq. unfold live; cbn [snd fst].
    by rewrite insert_insert_eq. }
  set (ks1 := <[CMD_PREFIX +:+ id c := _]> ks).
  assert (∀ k, k ≠ ck → k ≠ CMD_PREFIX +:+ id c → ks1 !! k = ks0 !! k) as Hk1.
  { intros k H1 H2. subst ks1. rewrite lookup_insert_ne by done. by rewrite Hdel. }
  unfold ks_rpush. split; cbn [pending dead last_sent app].
  - assert (perm_list PENDING_KEY ks1) as Hp1'.
    { apply (perm_list_ext _ ks0); [|done]. symmetry. by apply Hk1. }
    destruct (on_list_perm now PENDING_KEY (λ l, l ++ [id c])%list ks1 Hp1') as [Hq1 Hq2]. split.
    + apply (perm_list_ext _ (on_list now PENDING_KEY (λ l, l ++ [id c])%list ks1)); [by frame|done].
    + etrans; [apply (plist_ext _ _ (on_list now PENDING_KEY (λ l, l ++ [id c])%list ks1)); by frame|].
      rewrite Hq2, map_app. cbn. f_equal. rewrite <- Hp2. apply plist_ext. by apply Hk1.
  - split; [apply (perm_list_ext _ ks0)|rewrite <- Hd2; apply plist_ext]; [|done|]; frame;
      [symmetry|]; by apply Hk1.
  - rewrite map_app, Permutation_app_comm. cbn. by apply NoDup_cons.
  - rewrite map_app, Permutation_app_comm. cbn. by apply NoDup_cons.
  - intros x Hx. apply elem_of_snoc in Hx as [Hx| ->]; [by apply Hn|]. split; [done|apply stored_idemp].
  - intros x Hx. apply elem_of_snoc in Hx as [Hx| ->]; frame.
    + rewrite Hk1; [by apply Hc|discriminate|]. intros ?; simplify_eq.
      apply Hid, list_elem_of_fmap. eauto.
    + subst ks1. rewrite lookup_insert_eq, cmd_mapping_stored. eexists. split; [done|].
      unfold CMD_TTL_SECONDS, sec in *. lia.
  - intros i Hi. frame. rewrite map_app, not_elem_of_app in Hi. cbn in Hi.
    rewrite Hk1; [apply Hnc; tauto|discriminate|]. intros ?; simplify_eq. set_solver.
  - intros x Hx. apply elem_of_snoc in Hx as [Hx| ->].
    + assert (device_eui x ≠ device_eui c) by (intros E; apply Hdev, list_elem_of_fmap; eauto).
      assert (ck ≠ COALESCE_PREFIX +:+ device_eui x) by (subst ck; intros ?; simplify_eq; done).
      frame. rewrite Hk1; [by apply Hco|done|discriminate].
    + exists (now + 300 * sec). split; [|done]. unfold ks_set. by rewrite lookup_insert_eq.
  - intros e He. rewrite map_app, not_elem_of_app in He. cbn in He.
    assert (ck ≠ COALESCE_PREFIX +:+ e) by (subst ck; intros ?; simplify_eq; set_solver).
    frame. rewrite Hk1; [apply Hnco; tauto|done|discriminate].
  - intros e. specialize (Hl e). frame. by rewrite Hk1.
Qed.

Context (sha256_hexdigest : string → string).

Lemma enqueue_refines H now s A cmd_id a :
  now < H → H ≤ now + 300 * sec → represents H (dump s) [] A →
  cmd_id ∉ map id (pending A) → non_empty cmd_id = true →
  (enqueue sha256_hexdigest now cmd_id a s).1 = (a_enqueue sha256_hexdigest now cmd_id a A).1 ∧
  represents H (dump (enqueue sha256_hexdigest now cmd_id a s).2) []
    (a_enqueue sha256_hexdigest now cmd_id a A).2.
Proof.
  intros Hn Hh Hr Hid Hne. unfold enqueue, a_enqueue.
  assert (r_get s now (LAST_HASH_PREFIX +:+ a_device_eui a) = last_sent A !! a_device_eui a) as ->.
  { rewrite r_get_law. unfold str_at, alive. pose proof (rp_last _ _ _ _ Hr (a_device_eui a)) as Hl.
    destruct (last_sent A !! a_device_eui a); [|by rewrite Hl]. destruct Hl as (d & -> & Hd).
    unfold live; cbn. by rewrite (proj2 (Z.ltb_lt now d)) by lia. }
  cbn [content_hash new_command]. case_bool_decide; cbn [fst snd].
  { split; [done|]. eapply represents_frame; [|exact Hr]. intros k Hk. by apply increment_frame. }
  split; [done|]. eapply represents_frame; [intros k Hk; by apply increment_frame|].
  set (c := new_command sha256_hexdigest now cmd_id a).
  set (s1 := match r_get s now _ with Some (String _ _) => _ | _ => _ end).
  assert (represents H (ks_del (COALESCE_PREFIX +:+ device_eui c) (dump s1)) []
    (mkAQueue (filter (λ x, device_eui x ≠ a_device_eui a) (pending A)) (last_sent A) (dead A))) as Hr1.
  { subst s1. rewrite r_get_law. unfold str_at, alive.
    destruct (decide (a_device_eui a ∈ map device_eui (pending A))) as [(c0 & Edev & Hc0)%list_elem_of_fmap|Hno].
    - destruct (rp_coalesce _ _ _ _ Hr c0 Hc0) as (d & Ed & Hd). rewrite Edev, Ed.
      unfold live; cbn [snd]. rewrite (proj2 (Z.ltb_lt now d)) by lia.
      pose proof (proj1 (rp_named _ _ _ _ Hr c0 Hc0)) as Hne0.
      destruct (id c0) as [|x0 i0] eqn:Eid0; [done|]. rewrite <- Eid0.
      eapply represents_frame; [|exact (purge_refines H now _ A c0 Hr Hc0)].
      intros k Hk. subst c. cbn [device_eui new_command]. rewrite Edev. unfold ks_del.
      destruct (decide (COALESCE_PREFIX +:+ device_eui c0 = k)) as [<-|?]; [by rewrite !lookup_delete_eq|].
      rewrite !(lookup_delete_ne _ (COALESCE_PREFIX +:+ device_eui c0)) by done.
      rewrite increment_frame by done. by autorewrite with redis.
    - rewrite (rp_no_coalesce _ _ _ _ Hr (a_device_eui a)) by done.
      assert (filter (λ x, device_eui x ≠ a_device_eui a) (pending A) = pending A) as ->.
      { apply filter_all. intros x Hx E. apply Hno, list_elem_of_fmap. eauto. }
      eapply represents_frame; [|by destruct A]. intros k Hk. unfold ks_del.
      destruct (decide (COALESCE_PREFIX +:+ device_eui c = k)) as [<-|?]; [|by rewrite lookup_delete_ne].
      rewrite lookup_delete_eq. symmetry. by apply (rp_no_coalesce _ _ _ _ Hr). }
  autorewrite with redis. apply (append_refines H now _ _ c) in Hr1; try done; cbn [pending].
  - intros (x & E & [_ Hx]%list_elem_of_filter)%list_elem_of_fmap. apply Hid, list_elem_of_fmap. eauto.
  - intros (x & E & [Hx _]%list_elem_of_filter)%list_elem_of_fmap. by apply Hx.
Qed.

(** *** Runs *)

Definition op_ids (ops : list (Z * QueueOp)) : list string :=
  omap (λ o, match o.2 with OpEnqueue i _ => Some i | _ => None end) ops.

(** Steps at times in [[H - 300 s, H)], with fresh command ids. *)
Definition admissible (H : Z) (ops : list (Z * QueueOp)) : Prop :=
  NoDup (op_ids ops) ∧
  Forall (λ o : Z * QueueOp, o.1 < H ≤ o.1 + 300 * sec ∧
            match o.2 with OpEnqueue i _ => non_empty i = true | _ => True end) ops.

Definition empty_queue : AQueue := mkAQueue [] ∅ [].

Lemma a_step_ids now op A i :
  i ∈ map id (pending (a_step sha256_hexdigest now op A).2) →
  i ∈ map id (pending A) ∨ ∃ a, op = OpEnqueue i a.
Proof.
  destruct op as [j a| |error requeue]; cbn [a_step].
  - unfold a_enqueue. case_bool_decide; cbn [snd pending]; [by left|]. rewrite map_app, elem_of_app.
    intros [(c & -> & [_ Hc]%list_elem_of_filter)%list_elem_of_fmap|Hi].
    + left. apply list_elem_of_fmap. eauto.
    + cbn in Hi. apply list_elem_of_singleton in Hi as ->. eauto.
  - unfold a_dequeue. destruct (pending A) as [|c rest] eqn:E; cbn; [rewrite E; by left|].
    rewrite elem_of_cons. auto.
  - unfold a_dequeue. destruct (pending A) as [|c rest] eqn:E; cbn [snd]; [rewrite E; by left|].
    unfold a_failure. destruct (_ || _); cbn [pending]; cbn [map]; rewrite elem_of_cons; [auto|].
    rewrite map_app, elem_of_app. cbn. rewrite list_elem_of_singleton. tauto.
Qed.

Lemma step_refines H now op s A :
  now < H ≤ now + 300 * sec → represents H (dump s) [] A →
  (match op with OpEnqueue i _ => (i ∉ map id (pending A)) ∧ non_empty i = true | _ => True end) →
  (step sha256_hexdigest now op s).1 = (a_step sha256_hexdigest now op A).1 ∧
  represents H (dump (step sha256_hexdigest now op s).2) [] (a_step sha256_hexdigest now op A).2.
Proof.
  intros [Hn Hh] Hr Hop. destruct op as [i a| |error requeue]; cbn [step a_step].
  - destruct Hop. split; [done|]. by apply enqueue_refines.
  - pose proof (dequeue_refines H now s A Hn Hr) as Hd.
    destruct (a_dequeue A) as [[c|] A'] eqn:E; destruct Hd as (s' & -> & Hr'); cbn [fst snd].
    + split; [done|]. apply success_refines; [unfold sec in *; lia|done].
    + split; [done|]. unfold a_dequeue in E. destruct (pending A); by simplify_eq.
  - pose proof (dequeue_refines H now s A Hn Hr) as Hd.
    destruct (a_dequeue A) as [[c|] A'] eqn:E; destruct Hd as (s' & -> & Hr'); cbn [fst snd].
    + split; [done|]. by apply failure_refines.
    + split; [done|]. unfold a_dequeue in E. destruct (pending A); by simplify_eq.
Qed.

Lemma run_refines H ops s A :
  admissible H ops → (∀ i, i ∈ op_ids ops → i ∉ map id (pending A)) → represents H (dump s) [] A →
  (AbstractQueue.run sha256_hexdigest ops s).1 = (a_run sha256_hexdigest ops A).1 ∧
  represents H (dump (AbstractQueue.run sha256_hexdigest ops s).2) [] (a_run sha256_hexdigest ops A).2.
Proof.
  revert s A. induction ops as [|[now op] ops IH]; intros s A [Hnd Hall] Hids Hr; cbn [a_run AbstractQueue.run]; [done|].
  apply Forall_cons in Hall as [[Ht Hop] Hall]. cbn in Ht, Hop.
  assert (NoDup (op_ids ops) ∧ (∀ i, i ∈ op_ids ops → (∀ a, op ≠ OpEnqueue i a) ∧ i ∉ map id (pending A))) as [Hnd' Hids'].
  { unfold op_ids in *. cbn [omap list_omap] in Hnd, Hids. destruct op as [j a| |]; cbn in Hnd, Hids.
    - apply NoDup_cons in Hnd as [Hj Hnd]. split; [done|]. intros i Hi. split; [|by apply Hids; right].
      intros a' [= -> _]. done.
    - split; [done|]. intros i Hi. split; [done|by apply Hids].
    - split; [done|]. intros i Hi. split; [done|by apply Hids]. }
  destruct (step_refines H now op s A Ht Hr) as [Ho Hr'].
  { destruct op as [j a| |]; try done. split; [|done]. apply Hids. by left. }
  destruct (step sha256_hexdigest now op s) as [o s1], (a_step sha256_hexdigest now op A) as [o' A1] eqn:EA.
  cbn [fst snd] in Ho, Hr'. subst o'.
  destruct (IH s1 A1) as [H1 H2]; [by split| |done|].
  { intros i Hi Hin. destruct (Hids' i Hi) as [Hne Hni].
    replace A1 with ((a_step sha256_hexdigest now op A).2) in Hin by (by rewrite EA).
    apply a_step_ids in Hin as [?|[a ->]]; [done|]. by apply (Hne a). }
  destruct (AbstractQueue.run sha256_hexdigest ops s1), (a_run sha256_hexdigest ops A1). cbn [fst snd] in *. by subst.
Qed.

Lemma represents_empty H ks :
  (∀ k, queue_key k → ks !! k = None) → represents H ks [] empty_queue.
Proof.
  intros Hk. unfold queue_key in Hk. split; cbn.
  - unfold perm_list, plist. rewrite Hk by auto. done.
  - unfold perm_list, plist. rewrite Hk by auto. done.
  - constructor.
  - constructor.
  - by intros c ?%elem_of_nil.
  - by intros c ?%elem_of_nil.
  - intros i _. apply Hk. eauto 6.
  - by intros c ?%elem_of_nil.
  - intros e _. apply Hk. eauto 7.
  - intros e. rewrite lookup_empty. apply Hk. eauto 8.
Qed.

(** *** Attempts *)

Definition attempts_ok (A : AQueue) : Prop :=
  ∀ c, c ∈ pending A → 0 ≤ attempts c < MAX_ATTEMPTS.

Lemma attempts_step now op A :
  attempts_ok A → attempts_ok (a_step sha256_hexdigest now op A).2 ∧
  ∀ c, (a_step sha256_hexdigest now op A).1 = Some c → 0 ≤ attempts c < MAX_ATTEMPTS.
Proof.
  intros Hok. destruct op as [j a| |error requeue]; cbn [a_step].
  - split; [|done]. unfold a_enqueue. case_bool_decide; [done|]. intros c Hc. cbn in Hc.
    apply elem_of_snoc in Hc as [[_ Hc]%list_elem_of_filter| ->]; [by apply Hok|].
    cbn. unfold MAX_ATTEMPTS. lia.
  - unfold a_dequeue. destruct (pending A) as [|c rest] eqn:E; cbn; [done|]. split.
    + intros x Hx. apply Hok. rewrite E. by right.
    + intros x [= <-]. apply Hok. rewrite E. by left.
  - unfold a_dequeue. destruct (pending A) as [|c rest] eqn:E; cbn [fst snd]; [done|].
    assert (0 ≤ attempts c < MAX_ATTEMPTS) as Hc by (apply Hok; rewrite E; by left).
    split; [|by intros x [= <-]].
    assert (∀ x, x ∈ rest → 0 ≤ attempts x < MAX_ATTEMPTS) as Hrest
      by (intros x Hx; apply Hok; rewrite E; by right).
    unfold a_failure. destruct (Z.leb_spec MAX_ATTEMPTS (attempts (failed now error c))), requeue; cbn [orb negb];
      intros x Hx; cbn in Hx; auto.
    apply elem_of_snoc in Hx as [Hx| ->]; [auto|]. cbn in *. lia.
Qed.

(** *** The worker *)

Lemma limit_frame now key limit s k :
  k ≠ key → dump (DownlinkRateLimiter._check_token_bucket now key limit s).2 !! k = dump s !! k.
Proof.
  intros Hk. unfold DownlinkRateLimiter._check_token_bucket, Bucket.write_bucket.
  repeat case_match; cbn [snd]; autorewrite with redis; by rewrite ?lookup_expire_ne, ?lookup_hset_ne.
Qed.

Lemma tenant_limit_frame now t l s k :
  queue_key k → dump (DownlinkRateLimiter.check_tenant_limit now t l s).2 !! k = dump s !! k.
Proof. intros Hk. apply limit_frame. intros ->. destruct Hk as [?|[?|(x & [?|[?|?]])]]; discriminate. Qed.

Lemma gateway_limit_frame now g l s k :
  queue_key k → dump (DownlinkRateLimiter.check_gateway_limit now g l s).2 !! k = dump s !! k.
Proof.
  intros Hk. unfold DownlinkRateLimiter.check_gateway_limit. destruct (negb _); [done|].
  apply limit_frame. intros ->. destruct Hk as [?|[?|(x & [?|[?|?]])]]; discriminate.
Qed.
End Refinement.

(** [enqueue] touches the pending list, the metrics, and keys of commands and coalescing;
    [dequeue] the pending list only. *)
Lemma enqueue_other_key {R : Redis} {F : PyFloat} sha256_hexdigest now cmd_id a s k :
  PENDING_KEY ≠ k → (∀ x, METRICS_PREFIX +:+ x ≠ k) → (∀ x, CMD_PREFIX +:+ x ≠ k) → (∀ x, COALESCE_PREFIX +:+ x ≠ k) →
  dump (enqueue sha256_hexdigest now cmd_id a s).2 !! k = dump s !! k.
Proof.
  intros Hp Hm Hc Hco. assert (∀ n s, dump (_increment_metric now n s) !! k = dump s !! k) as Hi.
  { intros n s'. unfold _increment_metric. autorewrite with redis. by rewrite lookup_incr_ne. }
  unfold enqueue. case_bool_decide; cbn [snd]; [by rewrite Hi|]. rewrite Hi. autorewrite with redis.
  unfold ks_rpush. rewrite lookup_set_ne, lookup_on_list_ne, lookup_expire_ne, lookup_hset_ne by done.
  destruct (str_at now _ (dump s)) as [[|c x]|]; [done| |done]. rewrite Hi. autorewrite with redis.
  unfold ks_lrem. by rewrite lookup_del_ne, lookup_on_list_ne.
Qed.

Lemma enqueue_frame {R : Redis} {F : PyFloat} sha256_hexdigest now cmd_id a s k :
  starts_with "dl:" k = false → dump (enqueue sha256_hexdigest now cmd_id a s).2 !! k = dump s !! k.
Proof.
  intros Hk. pose proof (starts_with_ne "dl:" k Hk) as Hne. apply enqueue_other_key.
  - exact (Hne "pending").
  - exact (λ x, Hne ("metrics:" +:+ x)).
  - exact (λ x, Hne ("cmd:" +:+ x)).
  - exact (λ x, Hne ("coalesce:" +:+ x)).
Qed.

Lemma dequeue_other_key {R : Redis} {F : PyFloat} now s k :
  PENDING_KEY ≠ k → dump (dequeue now s).2 !! k = dump s !! k.
Proof.
  intros Hk. unfold dequeue. pose proof (proj2 (r_lpop_law s now PENDING_KEY)) as H.
  destruct (r_lpop s now PENDING_KEY) as [o s1]. cbn [snd] in H.
  assert (dump s1 !! k = dump s !! k) as E by (rewrite H; by apply lookup_lpop_ne).
  destruct o; [|exact E]. destruct (bool_decide _); exact E.
Qed.

(** ** Properties *)

(** C4. The Redis queue implements the abstract queue.  For every sequence of enqueues
    and worker turns (a turn takes the next command and delivers it, or fails and
    requeues or drops it) that starts on a store with no queue keys, uses fresh ids and
    stays within the five minutes of the shortest key expiry, the commands the worker
    takes are those the abstract queue gives out, with every field intact, and the
    final store represents the final abstract queue: the pending list in order, one
    command per device, its data and its coalescing key present, and no other. *)
Theorem queue_refines {R : Redis} {F : PyFloat} sha256_hexdigest H ops s :
  admissible H ops → (∀ k, queue_key k → dump s !! k = None) →
  (AbstractQueue.run sha256_hexdigest ops s).1 = (a_run sha256_hexdigest ops empty_queue).1 ∧
  represents H (dump (AbstractQueue.run sha256_hexdigest ops s).2) []
    (a_run sha256_hexdigest ops empty_queue).2.
Proof.
  intros Ha Hs. apply run_refines; [done|by intros i _ ?%elem_of_nil|by apply represents_empty].
Qed.

Definition on_args (dev payload : string) : EnqueueArgs :=
  mkArgs dev payload 15 "tenant" false None None None.

(** Two devices; the first one's command is replaced before it is sent. *)
Definition sample_ops : list (Z * QueueOp) :=
  [(0, OpEnqueue "c1" (on_args "D1" "01")); (sec, OpEnqueue "c2" (on_args "D2" "01"));
   (2 * sec, OpEnqueue "c3" (on_args "D1" "02")); (3 * sec, OpFail "timeout" true);
   (4 * sec, OpDeliver); (5 * sec, OpDeliver)].

Lemma sample_admissible : admissible (300 * sec) sample_ops.
Proof.
  split.
  - apply (bool_decide_unpack _). vm_compute. exact I.
  - unfold sample_ops, sec. repeat (apply Forall_cons; split; [cbn; split; [lia|done]|]). by apply Forall_nil.
Qed.

Lemma queue_refines_witness :
  map (option_map id) (AbstractQueue.run (R := gmap_redis) (λ x, x) sample_ops ∅).1
    = [None; None; None; Some "c2"; Some "c3"; Some "c2"] ∧
  represents (300 * sec) (dump (AbstractQueue.run (R := gmap_redis) (λ x, x) sample_ops ∅).2) []
    (a_run (λ x, x) sample_ops empty_queue).2.
Proof.
  split; [vm_compute; reflexivity|].
  refine (proj2 (queue_refines (R := gmap_redis) (λ x, x) (300 * sec) sample_ops ∅ sample_admissible _)).
  intros k _. reflexivity.
Defined.

(** *** How often a command is handed out *)

Definition count_if {A} (p : A → bool) (l : list A) : Z := Z.of_nat (length (List.filter p l)).

Lemma count_of_distinct i l : NoDup l → count_if (String.eqb i) l ≤ 1.
Proof.
  unfold count_if. induction 1 as [|x l Hx Hl IH]; cbn; [lia|]. destruct (String.eqb_spec i x) as [->|]; [|done].
  rewrite filter_nil; [cbn; lia|]. intros y Hy. apply String.eqb_neq. by intros ->.
Qed.

(** The attempts that the commands of a list have left, and those with one id *)
Definition attempts_left (l : list DownlinkCommand) : Z := fold_right (λ c n, MAX_ATTEMPTS - attempts c + n) 0 l.
Definition left_of (i : string) (l : list DownlinkCommand) : Z := attempts_left (List.filter (λ c, String.eqb (id c) i) l).

(** The times a run hands out the command [i] *)
Definition times_taken (i : string) (outs : list (option DownlinkCommand)) : Z :=
  count_if (λ o, match o with Some c => String.eqb (id c) i | None => false end) outs.

Definition enqueued (i : string) (op : QueueOp) : Z := match op with OpEnqueue j _ => if String.eqb j i then 1 else 0 | _ => 0 end.

Lemma attempts_left_app l l' : attempts_left (l ++ l') = attempts_left l + attempts_left l'.
Proof. induction l as [|c l IH]; [done|]. unfold attempts_left in *. cbn [app fold_right]. rewrite IH. lia. Qed.

Lemma left_of_app i l l' : left_of i (l ++ l') = left_of i l + left_of i l'.
Proof. unfold left_of. by rewrite List.filter_app, attempts_left_app. Qed.

Lemma left_of_cons i c l : left_of i (c :: l) = (if String.eqb (id c) i then MAX_ATTEMPTS - attempts c else 0) + left_of i l.
Proof. unfold left_of. cbn. by destruct (String.eqb _ _). Qed.

Lemma attempts_left_filter (P : DownlinkCommand → Prop) `{∀ c, Decision (P c)} i l :
  (∀ c, c ∈ l → attempts c ≤ MAX_ATTEMPTS) → 0 ≤ left_of i (filter P l) ≤ left_of i l.
Proof.
  induction l as [|c l IH]; intros Hl; [done|].
  assert (attempts c ≤ MAX_ATTEMPTS) by (apply Hl; left).
  assert (0 ≤ left_of i (filter P l) ≤ left_of i l) by (apply IH; intros x Hx; apply Hl; by right).
  rewrite filter_cons, left_of_cons. destruct (String.eqb (id c) i) eqn:E; case_decide; rewrite ?left_of_cons, ?E; lia.
Qed.

Lemma left_of_nonneg i A : attempts_ok A → 0 ≤ left_of i (pending A).
Proof.
  intros Hok. unfold attempts_ok in Hok. induction (pending A) as [|c l IH]; [done|].
  rewrite left_of_cons. assert (0 ≤ attempts c < MAX_ATTEMPTS) by (apply Hok; left).
  assert (0 ≤ left_of i l) by (apply IH; intros x Hx; apply Hok; by right). destruct (String.eqb _ _); lia.
Qed.

Lemma step_uses_attempt {F : PyFloat} sha256_hexdigest now op A i :
  attempts_ok A →
  times_taken i [(a_step sha256_hexdigest now op A).1] + left_of i (pending (a_step sha256_hexdigest now op A).2) ≤
  left_of i (pending A) + MAX_ATTEMPTS * enqueued i op.
Proof.
  intros Hok. destruct op as [j a| |error requeue]; cbn [a_step enqueued].
  - cbn [fst snd]. change (times_taken i [None]) with 0. unfold a_enqueue. pose proof (left_of_nonneg i A Hok).
    case_bool_decide; cbn [snd pending]; [destruct (String.eqb j i); unfold MAX_ATTEMPTS in *; lia|].
    rewrite left_of_app, left_of_cons.
    assert (0 ≤ left_of i (filter (λ x, device_eui x ≠ a_device_eui a) (pending A)) ≤ left_of i (pending A)) as Hf.
    { apply attempts_left_filter. intros c Hc%Hok. lia. }
    change (left_of i []) with 0. cbn. destruct (String.eqb j i); unfold MAX_ATTEMPTS in *; lia.
  - unfold a_dequeue, times_taken, count_if. destruct (pending A) as [|c rest] eqn:E; cbn [fst snd a_success pending]; [rewrite E; cbn; lia|].
    assert (0 ≤ attempts c < MAX_ATTEMPTS) by (apply Hok; rewrite E; left). rewrite left_of_cons. cbn.
    destruct (String.eqb (id c) i); cbn; lia.
  - unfold a_dequeue, times_taken, count_if. destruct (pending A) as [|c rest] eqn:E; cbn [fst snd]; [rewrite E; cbn; lia|].
    assert (0 ≤ attempts c < MAX_ATTEMPTS) by (apply Hok; rewrite E; left). rewrite left_of_cons. unfold a_failure.
    destruct (_ || _); cbn [pending]; rewrite ?left_of_app, ?left_of_cons; change (left_of i []) with 0; cbn;
      destruct (String.eqb (id c) i); cbn; lia.
Qed.

Lemma run_uses_attempts {F : PyFloat} sha256_hexdigest ops A i :
  attempts_ok A →
  times_taken i (a_run sha256_hexdigest ops A).1 ≤
  left_of i (pending A) + MAX_ATTEMPTS * count_if (String.eqb i) (op_ids ops).
Proof.
  revert A. induction ops as [|[now op] ops IH]; intros A Hok.
  { pose proof (left_of_nonneg i A Hok). change (0 ≤ left_of i (pending A) + MAX_ATTEMPTS * 0). lia. }
  pose proof (step_uses_attempt sha256_hexdigest now op A i Hok) as Hs.
  destruct (attempts_step sha256_hexdigest now op A Hok) as [Hok' _]. cbn [a_run].
  destruct (a_step sha256_hexdigest now op A) as [o A1]. cbn [fst snd] in *. specialize (IH A1 Hok').
  destruct (a_run sha256_hexdigest ops A1) as [os A2]. cbn [fst] in *.
  assert (times_taken i (o :: os) = times_taken i [o] + times_taken i os) as ->.
  { unfold times_taken, count_if. cbn. destruct (match o with Some _ => _ | None => _ end); cbn; lia. }
  assert (count_if (String.eqb i) (op_ids ((now, op) :: ops)) = enqueued i op + count_if (String.eqb i) (op_ids ops)) as ->.
  { unfold op_ids. cbn [omap list_omap snd]. destruct op as [j a| |]; cbn [enqueued]; [|done|done].
    unfold count_if. cbn. rewrite (String.eqb_sym i j). destruct (String.eqb j i); cbn; lia. }
  lia.
Qed.

(** C27. No command is tried more than five times.  Over any run on an empty
    queue with fresh command ids, all within five minutes, and however often deliveries
    fail, the worker takes the command of any one id from the queue at most five times. *)
Theorem at_most_five_attempts {R : Redis} {F : PyFloat} sha256_hexdigest H ops s i :
  admissible H ops → (∀ k, queue_key k → dump s !! k = None) →
  times_taken i (AbstractQueue.run sha256_hexdigest ops s).1 ≤ 5.
Proof.
  intros Ha Hs. destruct (run_refines sha256_hexdigest H ops s empty_queue) as [-> _];
    [done|by intros j _ ?%elem_of_nil|by apply represents_empty|].
  pose proof (run_uses_attempts sha256_hexdigest ops empty_queue i (λ c Hc, False_ind _ (not_elem_of_nil c Hc))) as Hr.
  change (left_of i (pending empty_queue)) with 0 in Hr. pose proof (count_of_distinct i (op_ids ops) (proj1 Ha)).
  unfold MAX_ATTEMPTS in Hr. lia.
Qed.

(** One command that fails for good: taken five times, never a sixth *)
Definition failing_ops : list (Z * QueueOp) :=
  (0, OpEnqueue "c1" (on_args "D1" "01")) :: map (λ n, (Z.of_nat n * sec, OpFail "timeout" true)) (seq 1 7).

Lemma failing_admissible : admissible (300 * sec) failing_ops.
Proof.
  split.
  - apply (bool_decide_unpack _). vm_compute. exact I.
  - unfold failing_ops, sec. repeat (apply Forall_cons; split; [cbn; split; [lia|done]|]). by apply Forall_nil.
Qed.

Lemma at_most_five_attempts_witness :
  map (option_map id) (AbstractQueue.run (R := gmap_redis) (λ x, x) failing_ops ∅).1 =
    [None; Some "c1"; Some "c1"; Some "c1"; Some "c1"; Some "c1"; None; None] ∧
  times_taken "c1" (AbstractQueue.run (R := gmap_redis) (λ x, x) failing_ops ∅).1 ≤ 5.
Proof.
  split; [vm_compute; reflexivity|].
  apply (at_most_five_attempts (R := gmap_redis) (λ x, x) (300 * sec) failing_ops ∅ "c1" failing_admissible).
  intros k _. reflexivity.
Defined.

(** *** The queue drains *)

(** A turn of the worker *)
Definition is_turn (op : QueueOp) : bool := match op with OpEnqueue _ _ => false | _ => true end.

(** The commands a list of turns delivers *)
Definition delivered (turns : list (Z * QueueOp)) (outs : list (option DownlinkCommand)) : Z :=
  count_if (λ '(t, o), match t.2, o with OpDeliver, Some _ => true | _, _ => false end) (zip turns outs).

Lemma delivered_cons t turns o outs : delivered (t :: turns) (o :: outs) = delivered [t] [o] + delivered turns outs.
Proof. unfold delivered, count_if. cbn [zip zip_with List.filter]. destruct (match t.2, o with OpDeliver, Some _ => true | _, _ => false end); cbn [length]; lia. Qed.

(** A turn uses up an attempt, if a command is waiting, and ends with the command
    delivered, dead or waiting again. *)
Lemma turn_progress {F : PyFloat} sha256_hexdigest now op A :
  attempts_ok A → is_turn op = true →
  let '(o, A') := a_step sha256_hexdigest now op A in
  (pending A = [] ∧ pending A' = [] ∨ attempts_left (pending A') < attempts_left (pending A)) ∧
  Z.of_nat (length (pending A)) + Z.of_nat (length (dead A)) =
    Z.of_nat (length (pending A')) + Z.of_nat (length (dead A')) + delivered [(now, op)] [o].
Proof.
  intros Hok Ht. destruct op as [j a| |error requeue]; [done| |]; cbn [a_step]; unfold a_dequeue, delivered, count_if;
    destruct (pending A) as [|c rest] eqn:E; try (rewrite E; cbn; split; [by left|lia]).
  all: assert (0 ≤ attempts c < MAX_ATTEMPTS) by (apply Hok; rewrite E; left).
  - cbn [a_success pending dead zip zip_with List.filter length]. change (attempts_left (c :: rest)) with (MAX_ATTEMPTS - attempts c + attempts_left rest).
    cbn [snd length]. split; [right|]; lia.
  - change (attempts_left (c :: rest)) with (MAX_ATTEMPTS - attempts c + attempts_left rest). unfold a_failure.
    cbn [zip zip_with List.filter length snd]. destruct (_ || _); cbn [pending dead]; rewrite length_app; cbn [length].
    + split; [right|]; lia.
    + rewrite attempts_left_app. change (attempts_left [stored (failed now error c)]) with (MAX_ATTEMPTS - (attempts c + 1) + 0).
      split; [right|]; lia.
Qed.

Lemma turns_drain {F : PyFloat} sha256_hexdigest turns A :
  attempts_ok A → Forall (λ o, is_turn o.2 = true) turns →
  let '(outs, A') := a_run sha256_hexdigest turns A in
  (attempts_left (pending A) ≤ Z.of_nat (length turns) → pending A' = []) ∧
  Z.of_nat (length (pending A)) + Z.of_nat (length (dead A)) =
    Z.of_nat (length (pending A')) + Z.of_nat (length (dead A')) + delivered turns outs.
Proof.
  revert A. induction turns as [|[now op] turns IH]; intros A Hok Ht; cbn [a_run].
  { cbv beta iota. change (delivered [] []) with 0. split; [|lia]. cbn [length]. intros Hl. destruct (pending A) as [|c rest] eqn:E; [done|].
    assert (0 ≤ attempts c < MAX_ATTEMPTS) by (apply Hok; rewrite E; left).
    assert (0 ≤ attempts_left rest) as Hr; [|change (attempts_left (c :: rest)) with (MAX_ATTEMPTS - attempts c + attempts_left rest) in Hl; lia].
    assert (∀ x, x ∈ rest → attempts x < MAX_ATTEMPTS) as Hx by (intros x Hx; apply Hok; rewrite E; by right).
    clear -Hx. induction rest as [|x l IH]; [done|]. change (attempts_left (x :: l)) with (MAX_ATTEMPTS - attempts x + attempts_left l).
    assert (attempts x < MAX_ATTEMPTS) by (apply Hx; left).
    assert (0 ≤ attempts_left l) by (apply IH; intros y Hy; apply Hx; by right). lia. }
  apply Forall_cons in Ht as [Ht Hts]. pose proof (turn_progress sha256_hexdigest now op A Hok Ht) as Hp.
  destruct (attempts_step sha256_hexdigest now op A Hok) as [Hok' _]. destruct (a_step sha256_hexdigest now op A) as [o A1].
  specialize (IH A1 Hok' Hts). destruct (a_run sha256_hexdigest turns A1) as [os A2]. destruct Hp as [Hp Hc], IH as [IH IHc].
  rewrite delivered_cons. split; [|lia]. intros Hl. cbn [length] in Hl. apply IH. destruct Hp as [[_ ->]|Hp]; [cbn|]; lia.
Qed.

Lemma attempts_left_bound l : (∀ c, c ∈ l → 0 ≤ attempts c) → attempts_left l ≤ MAX_ATTEMPTS * Z.of_nat (length l).
Proof.
  induction l as [|c l IH]; intros Hl; [done|]. change (attempts_left (c :: l)) with (MAX_ATTEMPTS - attempts c + attempts_left l).
  assert (0 ≤ attempts c) by (apply Hl; left). assert (attempts_left l ≤ MAX_ATTEMPTS * Z.of_nat (length l)) by (apply IH; intros x Hx; apply Hl; by right).
  cbn [length]. lia.
Qed.

Lemma attempts_after_run {F : PyFloat} sha256_hexdigest ops A :
  attempts_ok A → attempts_ok (a_run sha256_hexdigest ops A).2.
Proof.
  revert A. induction ops as [|[now op] ops IH]; intros A Hok; [done|]. cbn [a_run].
  destruct (attempts_step sha256_hexdigest now op A Hok) as [Hok' _]. destruct (a_step sha256_hexdigest now op A) as [o A1].
  specialize (IH A1 Hok'). by destruct (a_run sha256_hexdigest ops A1).
Qed.

(** C24. The queue drains.  Whatever ran before on the queue and however the deliveries
    end, with fresh command ids and all within five minutes: five turns of the worker for
    each pending command leave the pending list empty, while nothing is enqueued; and
    nothing is lost: each of those commands has been delivered or is a new dead letter. *)
Theorem queue_drains {R : Redis} {F : PyFloat} sha256_hexdigest H before turns s t :
  admissible H before → admissible H turns → (∀ k, queue_key k → dump s !! k = None) →
  Forall (λ o, is_turn o.2 = true) turns →
  let s1 := (AbstractQueue.run sha256_hexdigest before s).2 in
  let '(outs, s2) := AbstractQueue.run sha256_hexdigest turns s1 in
  let waiting s := Z.of_nat (length (r_lrange s t PENDING_KEY)) in
  let dead s := Z.of_nat (length (r_lrange s t DEAD_LETTER_KEY)) in
  5 * waiting s1 ≤ Z.of_nat (length turns) →
  waiting s2 = 0 ∧ waiting s1 + dead s1 = dead s2 + delivered turns outs.
Proof.
  intros Hb Ht Hs Hturns. cbv zeta.
  assert (attempts_ok empty_queue) as He by (intros c Hc; by apply elem_of_nil in Hc).
  destruct (run_refines sha256_hexdigest H before s empty_queue) as [_ Hr1];
    [done|by intros i _ ?%elem_of_nil|by apply represents_empty|].
  pose proof (attempts_after_run sha256_hexdigest before empty_queue He) as Hok.
  set (s1 := (AbstractQueue.run sha256_hexdigest before s).2) in *. set (A1 := (a_run sha256_hexdigest before empty_queue).2) in *.
  assert (op_ids turns = []) as Hn.
  { clear -Hturns. induction Hturns as [|[n op] l Hop _ IH]; [done|]. unfold op_ids in *. cbn [omap list_omap snd]. by destruct op. }
  destruct (run_refines sha256_hexdigest H turns s1 A1 Ht) as [Ho Hr2]; [rewrite Hn; by intros i ?%elem_of_nil|done|].
  pose proof (turns_drain sha256_hexdigest turns A1 Hok Hturns) as Hd.
  destruct (AbstractQueue.run sha256_hexdigest turns s1) as [outs s2], (a_run sha256_hexdigest turns A1) as [outs' A2].
  cbn [fst snd] in *. subst outs'. destruct Hd as [Hd Hc].
  assert (∀ s A, represents H (dump s) [] A → r_lrange s t PENDING_KEY = map id (pending A) ∧ r_lrange s t DEAD_LETTER_KEY = dead A) as Hl.
  { intros s' A Hr. destruct (rp_pending _ _ _ _ Hr) as [P1 P2], (rp_dead _ _ _ _ Hr) as [D1 D2].
    autorewrite with redis. by rewrite !list_at_perm, P2, D2. }
  destruct (Hl _ _ Hr1) as [-> ->], (Hl _ _ Hr2) as [-> ->]. rewrite !length_map. intros Hlen.
  assert (pending A2 = []) as E.
  { apply Hd. etrans; [apply attempts_left_bound; intros c Hin; by apply Hok|]. unfold MAX_ATTEMPTS. lia. }
  rewrite E in *. cbn [length] in *. split; [done|lia].
Qed.

(** Two commands: one is delivered at its second turn, the other fails for good. *)
Definition two_waiting : list (Z * QueueOp) := [(0, OpEnqueue "c1" (on_args "D1" "01")); (sec, OpEnqueue "c2" (on_args "D2" "02"))].
Definition ten_turns : list (Z * QueueOp) :=
  map (λ n, (Z.of_nat (n + 2) * sec, if (n =? 2)%nat then OpDeliver else OpFail "timeout" true)) (seq 0 10).

Lemma admissible_bool (ops : list (Z * QueueOp)) :
  forallb (λ o, (0 <=? o.1) && (o.1 <? 300 * sec) && match o.2 with OpEnqueue i _ => non_empty i | _ => true end) ops = true →
  bool_decide (NoDup (op_ids ops)) = true → admissible (300 * sec) ops.
Proof.
  intros Hf Hn. split; [by apply bool_decide_eq_true in Hn|]. apply Forall_forall. intros [n op] Hin.
  rewrite forallb_forall in Hf. specialize (Hf _ (proj1 (list_elem_of_In _ _) Hin)).
  rewrite !andb_true_iff, Z.leb_le, Z.ltb_lt in Hf. destruct Hf as [[? ?] ?]. cbn in *. split; [lia|by destruct op].
Qed.

Lemma queue_drains_witness :
  let s1 := (AbstractQueue.run (R := gmap_redis) (λ x, x) two_waiting ∅).2 in
  let '(outs, s2) := AbstractQueue.run (R := gmap_redis) (λ x, x) ten_turns s1 in
  delivered ten_turns outs = 1 ∧ Z.of_nat (length (r_lrange s2 0 PENDING_KEY)) = 0.
Proof.
  assert (admissible (300 * sec) two_waiting ∧ admissible (300 * sec) ten_turns) as [H1 H2].
  { split; (apply admissible_bool; vm_compute; reflexivity). }
  pose proof (queue_drains (R := gmap_redis) (λ x, x) (300 * sec) two_waiting ten_turns ∅ 0 H1 H2 (λ k _, eq_refl)) as H.
  assert (delivered ten_turns (AbstractQueue.run (R := gmap_redis) (λ x, x) ten_turns
    (AbstractQueue.run (R := gmap_redis) (λ x, x) two_waiting ∅).2).1 = 1) as Hd by (vm_compute; reflexivity).
  assert (Z.of_nat (length (r_lrange (AbstractQueue.run (R := gmap_redis) (λ x, x) two_waiting ∅).2 0 PENDING_KEY)) = 2) as Hw
    by (vm_compute; reflexivity).
  cbv zeta in *. destruct (AbstractQueue.run (R := gmap_redis) (λ x, x) ten_turns _) as [outs s2]. cbn [fst] in Hd.
  split; [exact Hd|]. apply H; [by repeat constructor|]. rewrite Hw. cbn. lia.
Defined.

Lemma five_failures {F : PyFloat} sha256_hexdigest i a e1 e2 e3 e4 e5 t0 t1 t2 t3 t4 t5 :
  let A := (a_run sha256_hexdigest [(t0, OpEnqueue i a); (t1, OpFail e1 true); (t2, OpFail e2 true);
              (t3, OpFail e3 true); (t4, OpFail e4 true); (t5, OpFail e5 true)] empty_queue).2 in
  pending A = [] ∧ length (dead A) = 1%nat.
Proof. cbn. unfold a_enqueue; cbn. done. Qed.

(** A command whose delivery keeps failing leaves the queue: whatever the errors are,
    after the fifth failed attempt the pending list is empty and the dead-letter list
    holds exactly that command. *)
Theorem five_failures_dead_letter {R : Redis} {F : PyFloat} sha256_hexdigest i a e1 e2 e3 e4 e5 t0 t1 t2 t3 t4 t5 s :
  let ops := [(t0, OpEnqueue i a); (t1, OpFail e1 true); (t2, OpFail e2 true);
              (t3, OpFail e3 true); (t4, OpFail e4 true); (t5, OpFail e5 true)] in
  admissible (t0 + 300 * sec) ops → (∀ k, queue_key k → dump s !! k = None) →
  let s' := (AbstractQueue.run sha256_hexdigest ops s).2 in
  r_lrange s' t5 PENDING_KEY = [] ∧ length (r_lrange s' t5 DEAD_LETTER_KEY) = 1%nat.
Proof.
  intros ops Ha Hs s'.
  destruct (run_refines sha256_hexdigest (t0 + 300 * sec) ops s empty_queue) as [_ Hr];
    [done|by intros j _ ?%elem_of_nil|by apply represents_empty|].
  destruct (five_failures sha256_hexdigest i a e1 e2 e3 e4 e5 t0 t1 t2 t3 t4 t5) as [Hp Hd].
  fold ops in Hp, Hd. destruct (rp_pending _ _ _ _ Hr) as [P1 P2], (rp_dead _ _ _ _ Hr) as [D1 D2].
  fold s' in P1, P2, D1, D2. autorewrite with redis. rewrite !list_at_perm by done.
  by rewrite P2, D2, Hp, Hd.
Qed.

Lemma five_failures_dead_letter_witness :
  let ops := [(0, OpEnqueue "c1" (on_args "D1" "01")); (1, OpFail "e" true); (2, OpFail "e" true);
              (3, OpFail "e" true); (4, OpFail "e" true); (5, OpFail "" true)] in
  let s' := (AbstractQueue.run (R := gmap_redis) (λ x, x) ops ∅).2 in
  r_lrange s' 5 PENDING_KEY = [] ∧ length (r_lrange s' 5 DEAD_LETTER_KEY) = 1%nat.
Proof.
  apply (five_failures_dead_letter (R := gmap_redis) (λ x, x) "c1" (on_args "D1" "01") "e" "e" "e" "e" "" 0 1 2 3 4 5 ∅).
  - split; [apply (bool_decide_unpack _); vm_compute; exact I|].
    unfold sec. repeat (apply Forall_cons; split; [cbn; split; [lia|done]|]). by apply Forall_nil.
  - intros k _. reflexivity.
Defined.

(** The same content is not sent twice in a row: within an hour of a delivery, and
    whatever else the store holds, enqueueing the delivered content for that device
    again returns None and leaves the pending list as it is. *)
Theorem dedup_after_success {R : Redis} {F : PyFloat} sha256_hexdigest now now' cmd_id a c s :
  now' < now + 3600 * sec →
  device_eui c = a_device_eui a →
  content_hash c = compute_content_hash sha256_hexdigest (a_device_eui a) (a_payload a) (a_fport a) →
  let s1 := mark_success now c s in
  (enqueue sha256_hexdigest now' cmd_id a s1).1 = None ∧
  dump (enqueue sha256_hexdigest now' cmd_id a s1).2 !! PENDING_KEY = dump s1 !! PENDING_KEY.
Proof.
  intros Ht Hdev Hhash s1. unfold enqueue.
  assert (r_get s1 now' (LAST_HASH_PREFIX +:+ a_device_eui a) = Some (content_hash c)) as ->.
  { rewrite r_get_law. subst s1. unfold mark_success. rewrite <- Hdev.
    erewrite str_at_ext; [|rewrite latency_frame, increment_frame by (unfold queue_key; eauto 8);
      autorewrite with redis; rewrite !lookup_del_ne by discriminate; reflexivity].
    rewrite str_at_set. by rewrite (proj2 (Z.ltb_lt _ _) Ht). }
  rewrite <- Hhash, bool_decide_eq_true_2 by done. split; [done|].
  apply increment_frame. by left.
Qed.

Lemma dedup_after_success_witness :
  let c := new_command (λ x, x) 0 "c1" (on_args "D1" "01") in
  (enqueue (R := gmap_redis) (λ x, x) sec "c2" (on_args "D1" "01") (mark_success (R := gmap_redis) 0 c ∅)).1 = None.
Proof.
  intros c. apply (dedup_after_success (R := gmap_redis) (λ x, x) 0 sec "c2" (on_args "D1" "01") c ∅);
    [unfold sec; lia|reflexivity|reflexivity].
Defined.

Section Worker.
Context {R : Redis} {F : PyFloat} (queue_downlink : Network) (now now' : Z) (c : DownlinkCommand).

(** [w'] is [w] with the command settled: delivered and marked, or failed once. *)
Definition settled (w w' : World) : Prop :=
  ∃ s1, (∀ k, queue_key k → dump s1 !! k = dump (redis w) !! k) ∧
  ((∃ bytes, bytes_fromhex (payload c) = Some bytes ∧
             queue_downlink (device_eui c) bytes (fport c) (confirmed c) = Ok tt ∧
             w' = mkWorld (mark_success now' c s1)
                    (sent w ++ [(device_eui c, bytes, fport c, confirmed c)])%list) ∨
   (∃ t error, w' = mkWorld (mark_failure t c error true s1).2 (sent w))).

Lemma send_settles w : settled w (send_command queue_downlink now now' c w).
Proof.
  exists (redis w). split; [done|]. unfold send_command, fail_command, with_redis.
  destruct (bytes_fromhex (payload c)) as [bytes|]; [|right; eauto].
  destruct (queue_downlink _ _ _ _) as [[]|e] eqn:E; [left; eauto|right; eauto].
Qed.

Lemma limited_settles error check next w :
  (∀ s k, queue_key k → dump (check s).2 !! k = dump s !! k) →
  (∀ w, settled w (next w)) → settled w (limited now c error check next w).
Proof.
  intros Hc Hn. unfold limited, fail_command, with_redis. pose proof (Hc (redis w)) as Hk.
  destruct (check (redis w)) as [[[[] r]|e] s1]; cbn [snd redis sent] in *;
    [|exists s1; split; [done|right; eauto]..].
  destruct (Hn (mkWorld s1 (sent w))) as (s2 & Hs2 & Hset). exists s2.
  split; [intros k Hq; rewrite Hs2 by done; by apply Hk|exact Hset].
Qed.
End Worker.

(** The worker settles each command it takes exactly once: it hands the payload's
    bytes to the network and marks success, or hands over nothing and marks one failed
    attempt (rate limit, malformed payload or network error); in between, the rate
    limiters change no key of the queue. *)
Theorem worker_settles_once {R : Redis} {F : PyFloat} (queue_downlink : Network) now now' c w :
  settled queue_downlink now' c w (_process_command queue_downlink now now' c w).
Proof.
  unfold _process_command.
  assert (∀ w, settled queue_downlink now' c w
    (limited now c "Tenant rate limited" (DownlinkRateLimiter.check_tenant_limit now (tenant_id c) None)
      (send_command queue_downlink now now' c) w)) as Ht.
  { intros w'. apply limited_settles; [intros; by apply tenant_limit_frame|apply send_settles]. }
  destruct (truthy (gateway_id c)); [|done].
  apply limited_settles; [intros; by apply gateway_limit_frame|done].
Qed.

(** ** Where the queue differs from its description *)

(** Deduplication looks only at the last delivery, not at what is pending: after "01"
    was delivered and "02" is waiting, a third request for "01" is dropped although it
    would be the newest, and the worker then sends "02"; the display ends on the value
    the caller asked to replace. *)
Theorem stale_dedup :
  let ops := [(0, OpEnqueue "c1" (on_args "D1" "01")); (1, OpDeliver);
              (2, OpEnqueue "c2" (on_args "D1" "02")); (3, OpEnqueue "c3" (on_args "D1" "01"));
              (4, OpDeliver); (5, OpDeliver)] in
  map (option_map payload) (AbstractQueue.run (R := gmap_redis) (λ x, x) ops ∅).1
    = [None; Some "01"; None; None; Some "02"; None].
Proof. vm_compute. reflexivity. Qed.

(** A failure reported after the command was replaced revives it as a ghost: the
    worker takes "c1", a newer command for the device deletes c1's data, and
    [mark_failure] of c1 writes a hash of three fields and requeues the id.  The worker
    then gets a command with no device, no payload and no content hash. *)
Theorem ghost_command_after_coalesce :
  let '(_, s) := enqueue (R := gmap_redis) (λ x, x) 0 "c1" (on_args "D1" "01") ∅ in
  match dequeue 1 s with
  | (Ok (Some c1), s) =>
      let '(_, s) := enqueue (λ x, x) 2 "c2" (on_args "D1" "02") s in
      let '(_, s) := mark_failure 3 c1 "timeout" true s in
      let '(r2, s) := dequeue 4 s in
      let '(r1, _) := dequeue 5 s in
      match r2, r1 with
      | Ok (Some c2), Ok (Some ghost) =>
          id c2 = "c2" ∧ id ghost = "c1" ∧ device_eui ghost = "" ∧ payload ghost = "" ∧ attempts ghost = 1
      | _, _ => False
      end
  | _ => False
  end.
Proof. vm_compute. repeat split. Qed.

(** The exponential backoff is announced and not applied: the delay logged for the
    n-th failure is [2^n] seconds up to 60, and the requeued command can be taken again
    at the instant of the failure. *)
Theorem backoff_not_applied {R : Redis} {F : PyFloat} H now s c A error :
  now < H ≤ now + 300 * sec → represents H (dump s) [c] A → pending A = [] →
  0 ≤ attempts c → attempts c + 1 < MAX_ATTEMPTS →
  let '(delay, s') := mark_failure now c error true s in
  delay = Some (2 ^ (attempts c + 1)) ∧
  ∃ s'', dequeue now s' = (Ok (Some (stored (failed now error c))), s'').
Proof.
  intros [Hn _] Hr Hp Ha Hlt.
  pose proof (failure_refines H now s c A error true Hn Hr) as Hf.
  destruct (mark_failure now c error true s) as [delay s'] eqn:E. cbn [snd] in Hf. split.
  - unfold mark_failure in E. rewrite (proj2 (Z.leb_gt _ _)) in E by (cbn; lia). cbn [orb negb] in E.
    simplify_eq. f_equal. unfold backoff_seconds, BACKOFF_BASE_SECONDS, BACKOFF_MAX_SECONDS.
    cbn [attempts failed]. replace (attempts c + 1 - 1) with (attempts c) by lia.
    rewrite <- Z.pow_succ_r by done. unfold MAX_ATTEMPTS in Hlt.
    assert (2 ^ Z.succ (attempts c) ≤ 2 ^ 4) by (apply Z.pow_le_mono_r; lia). rewrite Z.min_l; [done|lia].
  - pose proof (dequeue_refines H now s' _ Hn Hf) as Hd. revert Hd.
    unfold a_failure. rewrite (proj2 (Z.leb_gt _ _)) by (cbn; lia). cbn [orb negb].
    unfold a_dequeue. cbn [pending]. rewrite Hp. cbn. intros (s'' & Es & _). eauto.
Qed.

Definition held_c1 : option DownlinkCommand * store (Redis := gmap_redis) :=
  let '(_, s) := enqueue (R := gmap_redis) (λ x, x) 0 "c1" (on_args "D1" "01") ∅ in
  match dequeue 0 s with (Ok o, s) => (o, s) | (Err _, s) => (None, s) end.

Lemma backoff_not_applied_witness :
  let c := stored (new_command (λ x, x) 0 "c1" (on_args "D1" "01")) in
  held_c1.1 = Some c ∧
  let '(delay, s') := mark_failure 0 c "timeout" true held_c1.2 in
  delay = Some 2 ∧ ∃ s'', dequeue 0 s' = (Ok (Some (stored (failed 0 "timeout" c))), s'').
Proof.
  intros c. split; [vm_compute; reflexivity|].
  apply (backoff_not_applied (R := gmap_redis) (300 * sec) 0 held_c1.2 c empty_queue "timeout");
    [unfold sec; lia| |reflexivity|vm_compute; discriminate|vm_compute; reflexivity].
  assert (represents (300 * sec) (dump (Redis := gmap_redis) ∅) [] empty_queue) as H0
    by (apply represents_empty; intros k _; reflexivity).
  pose proof (enqueue_refines (R := gmap_redis) (λ x, x) (300 * sec) 0 ∅ empty_queue "c1" (on_args "D1" "01")
    ltac:(unfold sec; lia) ltac:(unfold sec; lia) H0
    ltac:(apply not_elem_of_nil) eq_refl) as [_ He].
  change ((a_enqueue (λ x, x) 0 "c1" (on_args "D1" "01") empty_queue).2) with (mkAQueue [c] ∅ []) in He.
  pose proof (dequeue_refines (R := gmap_redis) (300 * sec) 0 _ _ ltac:(unfold sec; lia) He) as Hd.
  destruct Hd as (s' & Es & Hr). unfold held_c1.
  destruct (enqueue (R := gmap_redis) (λ x, x) 0 "c1" (on_args "D1" "01") ∅) as [o s]. cbn [snd] in Es.
  rewrite Es. exact Hr.
Defined.
