(* ===== verification/Models.v ===== *)
(** * Models: exceptions, enumerations and request validation

    Models src/src/exceptions.py and the validating part of src/src/models.py: the
    enumerations with their string values, the records of the request models, and the
    checks pydantic runs on them.  A validator returns the validated (possibly
    normalised) value or the field that was refused.  A [datetime] is a number of
    microseconds (see [Prelude.sec]); a UUID is a string; the JSON objects of
    [metadata] fields are kept as lists of names and texts. *)

From Stdlib Require Import QArith.
From S2P Require Import Prelude PyUtils.

Open Scope Z_scope.

Abbreviation json_obj := (list (string * string)).

(** ** src/exceptions.py *)

Inductive exn :=
| ParkingException (message : string) (code : option string)
| DatabaseError (message : string)
| RecordNotFoundError (resource identifier : string)
| SpaceNotFoundError (space_id : string)
| ReservationNotFoundError (reservation_id : string)
| DeviceNotFoundError (device_eui : string)
| StateTransitionError (message : string) (current_state requested_state : option string)
| SpaceNotAvailableError (space_id reason : string)
| DuplicateResourceError (resource identifier : string)
| ChirpStackError (message : string) (status_code : option Z)
| RedisError (message : string)
| ValidationError (field message : string)
| AuthenticationError (message : string)
| AuthorizationError (message : string)
| HTTPException (status_code : Z) (detail : string)   (* FastAPI *)
| PyException (message : string).                      (* any other exception *)

#[export] Instance exn_eq_dec : EqDecision exn.
Proof. solve_decision. Defined.

(** [isinstance(e, ParkingException)] *)
Definition is_parking (e : exn) : bool :=
  match e with HTTPException _ _ | PyException _ => false | _ => true end.

Definition error_code (e : exn) : string :=
  match e with
  | ParkingException _ c => if truthy c then or_else c "" else "ParkingException"
  | DatabaseError _ => "DatabaseError"
  | RecordNotFoundError _ _ | SpaceNotFoundError _ | ReservationNotFoundError _
  | DeviceNotFoundError _ => "RECORD_NOT_FOUND"
  | StateTransitionError _ _ _ => "INVALID_STATE_TRANSITION"
  | SpaceNotAvailableError _ _ => "SPACE_NOT_AVAILABLE"
  | DuplicateResourceError _ _ => "DUPLICATE_RESOURCE"
  | ChirpStackError _ _ => "CHIRPSTACK_ERROR"
  | RedisError _ => "RedisError"
  | ValidationError _ _ => "VALIDATION_ERROR"
  | AuthenticationError _ => "AUTHENTICATION_ERROR"
  | AuthorizationError _ => "AUTHORIZATION_ERROR"
  | HTTPException _ _ | PyException _ => "INTERNAL_SERVER_ERROR"
  end.

(** [str(e)] *)
Definition message (e : exn) : string :=
  match e with
  | ParkingException m _ | DatabaseError m | StateTransitionError m _ _ | ChirpStackError m _
  | RedisError m | AuthenticationError m | AuthorizationError m | PyException m => m
  | RecordNotFoundError r i => r +:+ " not found: " +:+ i
  | SpaceNotFoundError i => "Space not found: " +:+ i
  | ReservationNotFoundError i => "Reservation not found: " +:+ i
  | DeviceNotFoundError i => "Device not found: " +:+ i
  | SpaceNotAvailableError _ r => r
  | DuplicateResourceError r i => r +:+ " already exists: " +:+ i
  | ValidationError f m => "Validation error for " +:+ f +:+ ": " +:+ m
  | HTTPException c d => show_Z c +:+ ": " +:+ d
  end.

(** [details] of the exception, with [None] values as absent *)
Definition details (e : exn) : json_obj :=
  let not_found r i := [("resource", r); ("identifier", i)] in
  match e with
  | RecordNotFoundError r i => not_found r i
  | SpaceNotFoundError i => not_found "Space" i
  | ReservationNotFoundError i => not_found "Reservation" i
  | DeviceNotFoundError i => not_found "Device" i
  | StateTransitionError _ c r =>
      [("current_state", or_else c "null"); ("requested_state", or_else r "null")]
  | SpaceNotAvailableError i _ => [("space_id", i)]
  | DuplicateResourceError r i => [("resource", r); ("identifier", i)]
  | ChirpStackError _ (Some c) => if c =? 0 then [] else [("status_code", show_Z c)]
  | ValidationError f m => [("field", f); ("error", m)]
  | _ => []
  end.

(** The exception handlers of main.py: the status of the response to an exception. *)
Definition response_status (e : exn) : Z :=
  match e with
  | HTTPException c _ => c
  | PyException _ => 500
  | _ => 400
  end.

(** [except HTTPException: raise] and [except Exception as e: raise HTTPException(500)], the
    clauses of the routers *)
Definition as_server_error {S A} (c : stE S exn A) : stE S exn A :=
  try_catch c (λ e, match e with HTTPException _ _ => raise e | _ => raise (HTTPException 500 (message e)) end).

(** An outcome that holds of errors is kept by the [except] clauses. *)
Lemma wp_as_server_error {S A} (c : stE S exn A) (Q : result exn A → S → Prop) d :
  (∀ e e' d', Q (Err e) d' → Q (Err e') d') → wp c Q d → wp (as_server_error c) Q d.
Proof.
  intros He Hc. apply wp_try. eapply wp_mono; [exact Hc|]. intros [a|e] d' H; [done|].
  destruct e; apply wp_raise; by eapply He.
Qed.

(** ** Datetimes, naive and aware *)

Inductive datetime := Naive (t : Z) | Aware (t : Z).

(** [a > b] *)
Definition dt_gt (a b : datetime) : result exn bool :=
  match a, b with
  | Naive x, Naive y | Aware x, Aware y => Ok (y <? x)
  | _, _ => Err (PyException "can't compare offset-naive and offset-aware datetimes")
  end.

(** [(a - b).total_seconds()], in microseconds *)
Definition dt_sub (a b : datetime) : result exn Z :=
  match a, b with
  | Naive x, Naive y | Aware x, Aware y => Ok (x - y)
  | _, _ => Err (PyException "can't subtract offset-naive and offset-aware datetimes")
  end.

(** ** Enumerations *)

Inductive SpaceState := FREE | OCCUPIED | RESERVED | MAINTENANCE.
Inductive ReservationStatus := PENDING | CONFIRMED | CANCELLED | EXPIRED | ACTIVE | COMPLETED | NO_SHOW.
Inductive DeviceType := SENSOR | DISPLAY | GATEWAY.
Inductive UserRole := PLATFORM_ADMIN | OWNER | ADMIN | OPERATOR | VIEWER.

#[export] Instance space_state_eq_dec : EqDecision SpaceState.
Proof. solve_decision. Defined.
#[export] Instance reservation_status_eq_dec : EqDecision ReservationStatus.
Proof. solve_decision. Defined.
#[export] Instance user_role_eq_dec : EqDecision UserRole.
Proof. solve_decision. Defined.

Definition state_value (s : SpaceState) : string :=
  match s with FREE => "FREE" | OCCUPIED => "OCCUPIED" | RESERVED => "RESERVED" | MAINTENANCE => "MAINTENANCE" end.

Definition status_value (s : ReservationStatus) : string :=
  match s with
  | PENDING => "pending" | CONFIRMED => "confirmed" | CANCELLED => "cancelled" | EXPIRED => "expired"
  | ACTIVE => "active" | COMPLETED => "completed" | NO_SHOW => "no_show"
  end.

Definition role_value (r : UserRole) : string :=
  match r with
  | PLATFORM_ADMIN => "platform_admin" | OWNER => "owner" | ADMIN => "admin"
  | OPERATOR => "operator" | VIEWER => "viewer"
  end.

(** [SpaceState(text)]: the member with that value, or ValueError *)
Definition state_of (s : string) : result exn SpaceState :=
  match find (λ x, String.eqb (state_value x) s) [FREE; OCCUPIED; RESERVED; MAINTENANCE] with
  | Some x => Ok x
  | None => Err (PyException (s +:+ " is not a valid SpaceState"))
  end.

Definition status_of (s : string) : result exn ReservationStatus :=
  match find (λ x, String.eqb (status_value x) s)
          [PENDING; CONFIRMED; CANCELLED; EXPIRED; ACTIVE; COMPLETED; NO_SHOW] with
  | Some x => Ok x
  | None => Err (PyException (s +:+ " is not a valid ReservationStatus"))
  end.

Definition role_of (s : string) : result exn UserRole :=
  match find (λ x, String.eqb (role_value x) s) [PLATFORM_ADMIN; OWNER; ADMIN; OPERATOR; VIEWER] with
  | Some x => Ok x
  | None => Err (PyException (s +:+ " is not a valid UserRole"))
  end.

Lemma state_of_value s : state_of (state_value s) = Ok s.
Proof. by destruct s. Qed.

Lemma status_of_value s : status_of (status_value s) = Ok s.
Proof. by destruct s. Qed.

Lemma role_of_value r : role_of (role_value r) = Ok r.
Proof. by destruct r. Qed.

Lemma state_value_inj s s' : state_value s = state_value s' → s = s'.
Proof. intros H%(f_equal state_of). rewrite !state_of_value in H. congruence. Qed.

(** ** Validators *)

(** A pydantic check: the field's name when it fails. *)
Definition guard (field : string) (ok : bool) : result string unit :=
  if ok then Ok tt else Err field.

Definition len_between (lo hi : nat) (s : string) : bool :=
  (lo <=? String.length s)%nat && (String.length s <=? hi)%nat.

Definition on_opt {A} (p : A → bool) (o : option A) : bool :=
  match o with Some x => p x | None => true end.

Definition Q_between (lo hi : Q) (q : Q) : bool := Qle_bool lo q && Qle_bool q hi.

(** [DevEUIMixin.validate_deveui] *)
Definition validate_deveui (v : option string) : result string (option string) :=
  match v with
  | Some v => if re_dollar hex16 v then Ok (Some (str_upper v)) else Err ("Invalid DevEUI format: " +:+ v)
  | None => Ok None
  end.

Record SpaceBase := mkSpaceBase {
  sb_name : string; sb_code : string; sb_building : option string; sb_floor : option string;
  sb_zone : option string; sb_gps_latitude : option Q; sb_gps_longitude : option Q;
}.

Definition validate_gps_coordinates (s : SpaceBase) : result string unit :=
  guard "Both latitude and longitude must be provided or both null"
    (Bool.eqb (bool_decide (sb_gps_latitude s = None)) (bool_decide (sb_gps_longitude s = None))).

Definition valid_space_base (s : SpaceBase) : result string unit :=
  _ ← guard "name" (len_between 1 100 (sb_name s));
  _ ← guard "code" (len_between 1 20 (sb_code s));
  _ ← guard "building" (on_opt (len_between 0 100) (sb_building s));
  _ ← guard "floor" (on_opt (len_between 0 20) (sb_floor s));
  _ ← guard "zone" (on_opt (len_between 0 50) (sb_zone s));
  _ ← guard "gps_latitude" (on_opt (Q_between (-90 # 1) (90 # 1)) (sb_gps_latitude s));
  _ ← guard "gps_longitude" (on_opt (Q_between (-180 # 1) (180 # 1)) (sb_gps_longitude s));
  validate_gps_coordinates s.

Record SpaceCreate := mkSpaceCreate {
  sc_base : SpaceBase; sc_sensor_eui : option string; sc_display_eui : option string;
  sc_state : SpaceState; sc_site_id : string; sc_metadata : option json_obj;
}.

Definition validate_space_create (s : SpaceCreate) : result string SpaceCreate :=
  sensor_eui ← validate_deveui (sc_sensor_eui s);
  display_eui ← validate_deveui (sc_display_eui s);
  _ ← valid_space_base (sc_base s);
  mret (mkSpaceCreate (sc_base s) sensor_eui display_eui (sc_state s) (sc_site_id s) (sc_metadata s)).

(** [None] is an unset field (pydantic's [exclude_unset]); [Some None] a null. *)
Record SpaceUpdate := mkSpaceUpdate {
  su_name : option (option string); su_code : option (option string);
  su_building : option (option string); su_floor : option (option string);
  su_zone : option (option string); su_sensor_eui : option (option string);
  su_display_eui : option (option string); su_state : option (option SpaceState);
  su_metadata : option (option json_obj);
}.

Definition set_deveui (o : option (option string)) : result string (option (option string)) :=
  match o with Some v => Some <$> validate_deveui v | None => Ok None end.

Definition validate_space_update (u : SpaceUpdate) : result string SpaceUpdate :=
  _ ← guard "name" (on_opt (on_opt (len_between 1 100)) (su_name u));
  _ ← guard "code" (on_opt (on_opt (len_between 1 20)) (su_code u));
  _ ← guard "building" (on_opt (on_opt (len_between 0 100)) (su_building u));
  _ ← guard "floor" (on_opt (on_opt (len_between 0 20)) (su_floor u));
  _ ← guard "zone" (on_opt (on_opt (len_between 0 50)) (su_zone u));
  sensor_eui ← set_deveui (su_sensor_eui u);
  display_eui ← set_deveui (su_display_eui u);
  mret (mkSpaceUpdate (su_name u) (su_code u) (su_building u) (su_floor u) (su_zone u)
          sensor_eui display_eui (su_state u) (su_metadata u)).

Record ReservationCreate := mkReservationCreate {
  rc_space_id : string; rc_start_time : Z; rc_end_time : Z;
  rc_user_email : option string; rc_user_phone : option string; rc_metadata : option json_obj;
  rc_request_id : option string; rc_tenant_id : option string;
}.

(** [ReservationBase.validate_times] *)
Definition validate_times (start_time end_time : Z) : result string unit :=
  if end_time <=? start_time then Err "End time must be after start time"
  else if 86400 * sec <? end_time - start_time then Err "Maximum reservation duration is 24 hours"
  else Ok tt.

Definition validate_reservation_create (r : ReservationCreate) : result string ReservationCreate :=
  _ ← guard "user_email" (on_opt (len_between 0 255) (rc_user_email r));
  _ ← guard "user_phone" (on_opt (len_between 0 20) (rc_user_phone r));
  _ ← validate_times (rc_start_time r) (rc_end_time r);
  mret r.

Record SensorUplink := mkUplink {
  up_device_eui : string; up_timestamp : Z; up_occupancy_state : option SpaceState;
  up_battery : option Q; up_temperature : option Q; up_rssi : option Z; up_snr : option Q;
  up_gateway_id : option string; up_raw_payload : option string;
}.

Definition validate_sensor_uplink (u : SensorUplink) : result string SensorUplink :=
  _ ← guard "battery" (on_opt (Q_between 0 (100 # 1)) (up_battery u));
  _ ← guard "temperature" (on_opt (Q_between (-50 # 1) (100 # 1)) (up_temperature u));
  _ ← guard "rssi" (on_opt (λ r, (-200 <=? r) && (r <=? 0)) (up_rssi u));
  _ ← guard "snr" (on_opt (Q_between (-20 # 1) (20 # 1)) (up_snr u));
  mret u.

Record DownlinkRequest := mkDownlinkRequest {
  dr_payload : option string; dr_fport : Z; dr_confirmed : bool;
  dr_command : option string; dr_parameters : option json_obj;
}.

Definition validate_downlink_request (d : DownlinkRequest) : result string DownlinkRequest :=
  _ ← guard "fport" ((1 <=? dr_fport d) && (dr_fport d <=? 223));
  mret d.

Definition validate_pagination (limit offset : Z) : result string unit :=
  _ ← guard "limit" ((1 <=? limit) && (limit <=? 1000));
  guard "offset" (0 <=? offset).

(** The pattern [^[a-z0-9-]+$] of a tenant's slug; pydantic's own matcher, unlike
    [re.match], accepts no final newline. *)
Definition re_slug (s : string) : bool :=
  non_empty s && str_forallb (λ c, is_lower c || is_digit c || Ascii.eqb c "-") s.

Definition valid_tenant (name slug : string) : result string unit :=
  _ ← guard "name" (len_between 1 255 name);
  _ ← guard "slug" (len_between 1 100 slug);
  guard "slug" (re_slug slug).

Definition is_alpha (c : ascii) : bool := is_lower c || is_upper c.

(** The characters before the first [c], and those after it. *)
Fixpoint split_first (c : ascii) (s : string) : option (string * string) :=
  match s with
  | EmptyString => None
  | String d s' =>
      if Ascii.eqb c d then Some ("", s')
      else match split_first c s' with Some (a, b) => Some (String d a, b) | None => None end
  end.

(** The characters before the last [c], and those after it. *)
Fixpoint split_last (c : ascii) (s : string) : option (string * string) :=
  match s with
  | EmptyString => None
  | String d s' =>
      match split_last c s' with
      | Some (a, b) => Some (String d a, b)
      | None => if Ascii.eqb c d then Some ("", s') else None
      end
  end.

(** The pattern of an email address.  [@] is in neither class, so the local part ends
    at the first [@]; the top-level domain holds no dot, so it starts after the last. *)
Definition email_body (s : string) : bool :=
  match split_first "@" s with
  | Some (local, rest) =>
      non_empty local &&
      str_forallb (λ c, is_alpha c || is_digit c || Ascii.eqb c "." || Ascii.eqb c "_" ||
                        Ascii.eqb c "%" || Ascii.eqb c "+" || Ascii.eqb c "-") local &&
      match split_last "." rest with
      | Some (domain, tld) =>
          non_empty domain &&
          str_forallb (λ c, is_alpha c || is_digit c || Ascii.eqb c "." || Ascii.eqb c "-") domain &&
          (2 <=? String.length tld)%nat && str_forallb is_alpha tld
      | None => false
      end
  | None => false
  end.

(** [UserBase.validate_email] and [utils.is_valid_email] *)
Definition validate_email (v : string) : result string string :=
  if re_dollar email_body v then Ok (str_lower v) else Err "Invalid email format".

Definition is_valid_email (email : string) : bool := re_dollar email_body email.

Definition valid_user (email name password : string) : result string string :=
  _ ← guard "email" (len_between 0 255 email);
  _ ← guard "name" (len_between 1 255 name);
  _ ← guard "password" (len_between 8 100 password);
  validate_email email.

(** [TenantContext] *)
Record TenantContext := mkTenantContext {
  tc_tenant_id : string; tc_tenant_name : string; tc_tenant_slug : string;
  tc_user_id : option string; tc_user_role : option UserRole;
  tc_api_key_id : option string; tc_api_key_scopes : option (list string);
  tc_source : string;
}.

(** ** Properties *)

(** A reservation that passes validation lasts more than nothing and at most 24 hours,
    and validation refuses every other pair of times. *)
Theorem validate_times_spec start_time end_time :
  validate_times start_time end_time = Ok tt ↔ 0 < end_time - start_time ≤ 24 * 3600 * sec.
Proof.
  unfold validate_times. destruct (Z.leb_spec end_time start_time); [split; [done|lia]|].
  destruct (Z.ltb_spec (86400 * sec) (end_time - start_time)); split; try done; unfold sec in *; lia.
Qed.
