(* ===== verification/Database.v ===== *)
(** * Database: the tables, their constraints and the queries of database.py

    Models src/src/database.py on the tables the components use.  The PostgreSQL server
    is not part of the repository; what is modelled is the SQL text of the queries and
    the constraints the migrations under src/migrations/ put on the tables.  A table is
    the list of its rows in insertion order; [NOW()] and generated UUIDs are arguments.
    A constraint that refuses a row raises the exception whose text names it, as the
    driver reports it. *)

From Stdlib Require Import QArith.
From S2P Require Import Prelude PyUtils Models.

Open Scope Z_scope.

(** ** Rows *)

Record Space := mkSpace {
  sp_id : string; sp_name : string; sp_code : string;
  sp_building : option string; sp_floor : option string; sp_zone : option string;
  sp_sensor_eui : option string; sp_display_eui : option string; sp_state : SpaceState;
  sp_site_id : option string; sp_tenant_id : option string;
  sp_gps_latitude : option Q; sp_gps_longitude : option Q; sp_metadata : option json_obj;
  sp_created_at : Z; sp_updated_at : Z; sp_deleted_at : option Z;
}.

Record Reservation := mkReservation {
  rv_id : string; rv_space_id : string; rv_tenant_id : string; rv_request_id : string;
  rv_start_time : Z; rv_end_time : Z;
  rv_user_email : option string; rv_user_phone : option string;
  rv_status : ReservationStatus; rv_metadata : option json_obj;
  rv_created_at : Z; rv_updated_at : Z;
}.

Record StateChange := mkStateChange {
  ch_space_id : string; ch_previous_state : SpaceState; ch_new_state : SpaceState;
  ch_source : string; ch_request_id : option string; ch_timestamp : Z;
}.

Record DisplayDevice := mkDisplayDevice {
  dd_id : string; dd_dev_eui : string; dd_device_type : string; dd_enabled : bool;
  dd_display_codes : list (string * string); dd_fport : Z; dd_confirmed_downlinks : bool;
  dd_device_model : option string; dd_manufacturer : option string; dd_status : string;
  dd_last_seen_at : option Z; dd_created_at : Z; dd_updated_at : Z;
}.

Record Actuation := mkActuation {
  ac_space_id : string; ac_trigger_type : string; ac_trigger_source : string;
  ac_previous_state : option SpaceState; ac_new_state : SpaceState;
  ac_display_eui : string; ac_display_device_id : option string; ac_display_code : option string;
  ac_fport : option Z; ac_confirmed : bool; ac_downlink_sent : bool;
  ac_downlink_queue_id : option string; ac_downlink_error : option string;
}.

Record SensorReading := mkReading {
  rd_device_eui : string; rd_space_id : option string; rd_occupancy_state : option string;
  rd_battery : option Q; rd_rssi : option Z; rd_snr : option Q; rd_timestamp : Z;
  rd_fcnt : option Z; rd_tenant_id : option string;
}.

Record DeviceTypeRow := mkDeviceType {
  dt_id : string; dt_type_code : string; dt_category : string; dt_status : string;
  dt_profile_name : string; dt_handler_class : option string;
  dt_capabilities : list (string * bool); dt_sample_payload : option json_obj;
}.

Record SensorDevice := mkSensorDevice {
  sd_id : string; sd_dev_eui : string; sd_device_type : string; sd_device_type_id : string;
  sd_device_model : option string; sd_status : string; sd_enabled : bool; sd_last_seen_at : Z;
  sd_manufacturer : option string; sd_created_at : Z; sd_updated_at : Z;
}.

Record Db := mkDb {
  spaces : list Space; reservations : list Reservation; state_changes : list StateChange;
  display_devices : list DisplayDevice; actuations : list Actuation;
  sensor_readings : list SensorReading; device_types : list DeviceTypeRow;
  sensor_devices : list SensorDevice;
}.

Definition empty_db : Db := mkDb [] [] [] [] [] [] [] [].

Definition with_spaces (f : list Space → list Space) (d : Db) : Db :=
  mkDb (f (spaces d)) (reservations d) (state_changes d) (display_devices d) (actuations d)
    (sensor_readings d) (device_types d) (sensor_devices d).
Definition with_reservations (f : list Reservation → list Reservation) (d : Db) : Db :=
  mkDb (spaces d) (f (reservations d)) (state_changes d) (display_devices d) (actuations d)
    (sensor_readings d) (device_types d) (sensor_devices d).
Definition with_state_changes (f : list StateChange → list StateChange) (d : Db) : Db :=
  mkDb (spaces d) (reservations d) (f (state_changes d)) (display_devices d) (actuations d)
    (sensor_readings d) (device_types d) (sensor_devices d).
Definition with_display_devices (f : list DisplayDevice → list DisplayDevice) (d : Db) : Db :=
  mkDb (spaces d) (reservations d) (state_changes d) (f (display_devices d)) (actuations d)
    (sensor_readings d) (device_types d) (sensor_devices d).
Definition with_actuations (f : list Actuation → list Actuation) (d : Db) : Db :=
  mkDb (spaces d) (reservations d) (state_changes d) (display_devices d) (f (actuations d))
    (sensor_readings d) (device_types d) (sensor_devices d).
Definition with_readings (f : list SensorReading → list SensorReading) (d : Db) : Db :=
  mkDb (spaces d) (reservations d) (state_changes d) (display_devices d) (actuations d)
    (f (sensor_readings d)) (device_types d) (sensor_devices d).
Definition with_device_types (f : list DeviceTypeRow → list DeviceTypeRow) (d : Db) : Db :=
  mkDb (spaces d) (reservations d) (state_changes d) (display_devices d) (actuations d)
    (sensor_readings d) (f (device_types d)) (sensor_devices d).
Definition with_sensor_devices (f : list SensorDevice → list SensorDevice) (d : Db) : Db :=
  mkDb (spaces d) (reservations d) (state_changes d) (display_devices d) (actuations d)
    (sensor_readings d) (device_types d) (f (sensor_devices d)).

(** ** SQL *)

(** The rows of an UPDATE: those that satisfy [WHERE p] are replaced by [f]. *)
Definition sql_update {A} (p : A → bool) (f : A → A) (rows : list A) : list A :=
  map (λ r, if p r then f r else r) rows.

(** [fetchrow]: the first row that satisfies the condition. *)
Definition fetchrow {A} (p : A → bool) (rows : list A) : option A := find p rows.

Definition sql_count {A} (p : A → bool) (rows : list A) : Z := Z.of_nat (length (List.filter p rows)).

Lemma fetchrow_app {A} (p : A → bool) l l' :
  fetchrow p (l ++ l')%list = match fetchrow p l with Some x => Some x | None => fetchrow p l' end.
Proof. unfold fetchrow. induction l as [|x l IH]; [done|]. cbn. by destruct (p x). Qed.

(** An update that keeps what the condition looks at *)
Lemma fetchrow_update {A} (p q : A → bool) f l :
  (∀ x, p (f x) = p x) → (∀ x, p x = true → q x = true) →
  fetchrow p (sql_update q f l) = f <$> fetchrow p l.
Proof.
  intros Hf Hq. unfold fetchrow, sql_update. induction l as [|x l IH]; [done|]. cbn.
  destruct (q x) eqn:E.
  - rewrite Hf. by destruct (p x).
  - destruct (p x) eqn:Ep; [by rewrite Hq in E|exact IH].
Qed.

(** A condition that holds of one row only *)
Lemma fetchrow_unique {A} (p : A → bool) l x :
  x ∈ l → p x = true → (∀ y, y ∈ l → p y = true → y = x) → fetchrow p l = Some x.
Proof.
  intros Hx Hp Hu. unfold fetchrow. destruct (find p l) as [y|] eqn:E.
  - apply find_some in E as [Hy%list_elem_of_In Hpy]. f_equal. by apply Hu.
  - apply list_elem_of_In in Hx. pose proof (find_none _ _ E x Hx). congruence.
Qed.

Lemma fetchrow_update_some {A} (p q : A → bool) f l r :
  fetchrow p l = Some r → (∀ x, p (f x) = p x) → q r = true → fetchrow p (sql_update q f l) = Some (f r).
Proof.
  intros Hr Hf Hq. unfold fetchrow, sql_update in *. induction l as [|x l IH]; [done|]. cbn in *.
  destruct (q x) eqn:E.
  - rewrite Hf. destruct (p x); [by simplify_eq|by apply IH].
  - destruct (p x); [simplify_eq; congruence|by apply IH].
Qed.

Lemma filter_In_elem {A} (p : A → bool) l x : x ∈ List.filter p l ↔ x ∈ l ∧ p x = true.
Proof. by rewrite !list_elem_of_In, filter_In. Qed.

Lemma fetchrow_update_other {A} (p q : A → bool) f l :
  (∀ x, q x = true → p (f x) = false ∧ p x = false) → fetchrow p (sql_update q f l) = fetchrow p l.
Proof.
  intros Hq. unfold fetchrow, sql_update. induction l as [|x l IH]; [done|]. cbn.
  destruct (q x) eqn:E; [destruct (Hq x E) as [-> ->]; exact IH|]. by destruct (p x).
Qed.

(** [tstzrange(s1, e1, '[)') && tstzrange(s2, e2, '[)')]: an empty range meets none. *)
Definition range_overlap (s1 e1 s2 e2 : Z) : bool :=
  (s1 <? e1) && (s2 <? e2) && (s1 <? e2) && (s2 <? e1).

(** [(s1, e1) OVERLAPS (s2, e2)]: each pair is put in order first; the earlier interval
    must end after the later one starts. *)
Definition sql_overlaps (s1 e1 s2 e2 : Z) : bool :=
  let '(s1, e1) := (Z.min s1 e1, Z.max s1 e1) in
  let '(s2, e2) := (Z.min s2 e2, Z.max s2 e2) in
  if s2 <? s1 then s1 <? e2 else if s1 <? s2 then s2 <? e1 else true.

(** [status IN ('pending', 'confirmed')] *)
Definition blocking (s : ReservationStatus) : bool :=
  match s with PENDING | CONFIRMED => true | _ => false end.

Definition live_space (s : Space) : bool := bool_decide (sp_deleted_at s = None).

Definition is_space (space_id : string) (s : Space) : bool := String.eqb (sp_id s) space_id.

(** ** The constraints of the reservations table *)

Definition unique_violation (name : string) : exn :=
  PyException ("duplicate key value violates unique constraint '" +:+ name +:+ "'").
Definition exclusion_violation (name : string) : exn :=
  PyException ("conflicting key value violates exclusion constraint '" +:+ name +:+ "'").
Definition check_violation (name : string) : exn :=
  PyException ("new row for relation violates check constraint '" +:+ name +:+ "'").
Definition fk_violation (name : string) : exn :=
  PyException ("insert or update on table violates foreign key constraint '" +:+ name +:+ "'").
Definition not_null_violation (column : string) : exn :=
  PyException ("null value in column '" +:+ column +:+ "' violates not-null constraint").

(** Two rows [uq_reservations_no_overlap] keeps apart. *)
Definition conflicts (r r' : Reservation) : bool :=
  blocking (rv_status r) && blocking (rv_status r') && String.eqb (rv_space_id r) (rv_space_id r') &&
  range_overlap (rv_start_time r) (rv_end_time r) (rv_start_time r') (rv_end_time r').

(** [INSERT INTO reservations]: checks, unique keys, exclusion, foreign key. *)
Definition insert_reservation (r : Reservation) : stE Db exn Reservation := λ d,
  if rv_end_time r <=? rv_start_time r then (Err (check_violation "valid_times"), d)
  else if 86400 * sec <? rv_end_time r - rv_start_time r then (Err (check_violation "valid_duration"), d)
  else if existsb (λ x, String.eqb (rv_id x) (rv_id r)) (reservations d)
  then (Err (unique_violation "reservations_pkey"), d)
  else if existsb (λ x, String.eqb (rv_request_id x) (rv_request_id r)) (reservations d)
  then (Err (unique_violation "idx_reservations_request_id"), d)
  else if existsb (λ x, conflicts x r) (reservations d)
  then (Err (exclusion_violation "uq_reservations_no_overlap"), d)
  else if negb (existsb (is_space (rv_space_id r)) (spaces d)) then (Err (fk_violation "fk_space"), d)
  else (Ok r, with_reservations (λ l, l ++ [r])%list d).

(** [expire_old_reservations()] of migration 005: the expired ids. *)
Definition expire_old_reservations (now : Z) (d : Db) : list string * Db :=
  let due r := blocking (rv_status r) && (rv_end_time r <? now) in
  let expire r :=
    mkReservation (rv_id r) (rv_space_id r) (rv_tenant_id r) (rv_request_id r) (rv_start_time r)
      (rv_end_time r) (rv_user_email r) (rv_user_phone r) EXPIRED (rv_metadata r) (rv_created_at r) now in
  (map rv_id (List.filter due (reservations d)), with_reservations (sql_update due expire) d).

(** ** Spaces *)

Definition get_space (space_id : string) (d : Db) : option Space :=
  fetchrow (λ s, is_space space_id s && live_space s) (spaces d).

Definition get_space_by_sensor (sensor_eui : string) (d : Db) : option Space :=
  fetchrow (λ s, bool_decide (sp_sensor_eui s = Some sensor_eui) && live_space s) (spaces d).

Definition set_space_state (now : Z) (st : SpaceState) (s : Space) : Space :=
  mkSpace (sp_id s) (sp_name s) (sp_code s) (sp_building s) (sp_floor s) (sp_zone s)
    (sp_sensor_eui s) (sp_display_eui s) st (sp_site_id s) (sp_tenant_id s) (sp_gps_latitude s)
    (sp_gps_longitude s) (sp_metadata s) (sp_created_at s) now (sp_deleted_at s).

Definition set_space_deleted (now : Z) (s : Space) : Space :=
  mkSpace (sp_id s) (sp_name s) (sp_code s) (sp_building s) (sp_floor s) (sp_zone s)
    (sp_sensor_eui s) (sp_display_eui s) (sp_state s) (sp_site_id s) (sp_tenant_id s) (sp_gps_latitude s)
    (sp_gps_longitude s) (sp_metadata s) (sp_created_at s) now (Some now).

(** [update_space_state]: one transaction, rolled back when it raises. *)
Definition update_space_state (now : Z) (space_id : string) (new_state : SpaceState) (source : string)
  : stE Db exn (string * string) := λ d,
  match get_space space_id d with
  | None => (Err (SpaceNotFoundError space_id), d)
  | Some s =>
      let old_state := sp_state s in
      let d := with_spaces (sql_update (is_space space_id) (set_space_state now new_state)) d in
      let d := with_state_changes
                 (λ l, l ++ [mkStateChange space_id old_state new_state source None now])%list d in
      (Ok (state_value old_state, state_value new_state), d)
  end.

Definition soft_delete_space (now : Z) (space_id : string) : stE Db exn unit := λ d,
  match get_space space_id d with
  | None => (Err (SpaceNotFoundError space_id), d)
  | Some _ =>
      (Ok tt, with_spaces (sql_update (λ s, is_space space_id s && live_space s) (set_space_deleted now)) d)
  end.

(** ** Reservations, the queries of database.py *)

Definition find_reservation (reservation_id : string) (d : Db) : option Reservation :=
  fetchrow (λ r, String.eqb (rv_id r) reservation_id) (reservations d).

(** The count of overlapping reservations [create_reservation] looks at. *)
Definition active_overlaps (space_id : string) (start_time end_time : Z) (d : Db) : Z :=
  sql_count (λ r, String.eqb (rv_space_id r) space_id && bool_decide (rv_status r = ACTIVE) &&
                  sql_overlaps (rv_start_time r) (rv_end_time r) start_time end_time) (reservations d).

(** [create_reservation]: its INSERT names no tenant, which the table requires. *)
Definition create_reservation (r : ReservationCreate) : stE Db exn Reservation := λ d,
  match get_space (rc_space_id r) d with
  | None => (Err (SpaceNotFoundError (rc_space_id r)), d)
  | Some _ =>
      if 0 <? active_overlaps (rc_space_id r) (rc_start_time r) (rc_end_time r) d
      then (Err (DuplicateResourceError "Reservation"
                   ("Overlapping reservation for space " +:+ rc_space_id r)), d)
      else (Err (not_null_violation "tenant_id"), d)
  end.

Definition set_status (now : Z) (st : ReservationStatus) (m : option json_obj) (r : Reservation) : Reservation :=
  mkReservation (rv_id r) (rv_space_id r) (rv_tenant_id r) (rv_request_id r) (rv_start_time r)
    (rv_end_time r) (rv_user_email r) (rv_user_phone r) st m (rv_created_at r) now.

(** [cancel_reservation] of database.py *)
Definition cancel_reservation (now : Z) (reservation_id : string) : stE Db exn bool := λ d,
  let p r := String.eqb (rv_id r) reservation_id && bool_decide (rv_status r = ACTIVE) in
  match fetchrow p (reservations d) with
  | None => (Err (ReservationNotFoundError reservation_id), d)
  | Some _ =>
      (Ok true, with_reservations (sql_update p (λ r, set_status now CANCELLED (rv_metadata r) r)) d)
  end.

Definition starts_before (a b : Reservation) : Prop := rv_start_time a ≤ rv_start_time b.
#[export] Instance starts_before_dec a b : Decision (starts_before a b).
Proof. unfold starts_before. apply _. Defined.

(** ORDER BY start_time *)
Definition by_start : list Reservation → list Reservation := merge_sort starts_before.

Definition get_active_reservations_for_space (now : Z) (space_id : string) (d : Db) : list Reservation :=
  by_start (List.filter (λ r, String.eqb (rv_space_id r) space_id && bool_decide (rv_status r = ACTIVE) &&
                        (now <? rv_end_time r)) (reservations d)).

(** ** Device discovery *)

Definition key_mapping : list (string * string) :=
  [("occupancy", "occupancy"); ("occupied", "occupancy"); ("temperature", "temperature");
   ("temp", "temperature"); ("humidity", "humidity"); ("battery", "battery");
   ("batteryLevel", "battery"); ("battery_level", "battery"); ("co2", "co2"); ("rssi", "rssi");
   ("snr", "snr"); ("door_open", "door_state"); ("motion", "motion")].

Definition _auto_detect_capabilities (payload : json_obj) : list (string * bool) :=
  foldl (λ caps km,
           if bool_decide (km.1 ∈ payload.*1) && negb (bool_decide (km.2 ∈ caps.*1))
           then (caps ++ [(km.2, true)])%list else caps) [] key_mapping.

Definition underscore (c : ascii) : ascii :=
  if Ascii.eqb c " " || Ascii.eqb c "-" then "_"%char else c.

Definition get_or_create_device_type_by_profile (new_id chirpstack_profile_name : string)
  (sample_payload : option json_obj) (category : string) (d : Db) : DeviceTypeRow * Db :=
  match fetchrow (λ r, String.eqb (dt_profile_name r) chirpstack_profile_name) (device_types d) with
  | Some row => (row, d)
  | None =>
      let type_code := "orphan_" +:+ str_map underscore (str_lower chirpstack_profile_name) in
      let sample := match sample_payload with Some [] => None | o => o end in
      let capabilities := match sample with Some p => _auto_detect_capabilities p | None => [] end in
      let row := mkDeviceType new_id type_code category "orphan" chirpstack_profile_name None
                   capabilities sample in
      (row, with_device_types (λ l, l ++ [row])%list d)
  end.

Definition touch (now : Z) (s : SensorDevice) : SensorDevice :=
  mkSensorDevice (sd_id s) (sd_dev_eui s) (sd_device_type s) (sd_device_type_id s) (sd_device_model s)
    (sd_status s) (sd_enabled s) now (sd_manufacturer s) (sd_created_at s) (sd_updated_at s).

(** The row returned is the one read before [last_seen_at] is updated. *)
Definition get_or_create_sensor_device (now : Z) (new_id dev_eui device_type_id : string)
  (device_name device_model : option string) (d : Db) : SensorDevice * Db :=
  match fetchrow (λ s, String.eqb (sd_dev_eui s) dev_eui) (sensor_devices d) with
  | Some row => (row, with_sensor_devices (sql_update (λ s, String.eqb (sd_id s) (sd_id row)) (touch now)) d)
  | None =>
      let model := if truthy device_model then or_else device_model ""
                   else if truthy device_name then or_else device_name ""
                   else "Device " +:+ str_take 8 dev_eui in
      let row := mkSensorDevice new_id dev_eui "orphan" device_type_id (Some model) "orphan" true now None now now in
      (row, with_sensor_devices (λ l, l ++ [row])%list d)
  end.

Definition get_sensor_device_by_deveui (dev_eui : string) (d : Db)
  : option (SensorDevice * option DeviceTypeRow) :=
  match fetchrow (λ s, String.eqb (sd_dev_eui s) dev_eui) (sensor_devices d) with
  | Some s => Some (s, fetchrow (λ t, String.eqb (dt_id t) (sd_device_type_id s)) (device_types d))
  | None => None
  end.

(** ** Sensor data *)

(** The trigger that copies the tenant of the reading's space. *)
Definition sync_tenant (d : Db) (r : SensorReading) : SensorReading :=
  match rd_space_id r with
  | Some i =>
      mkReading (rd_device_eui r) (rd_space_id r) (rd_occupancy_state r) (rd_battery r) (rd_rssi r)
        (rd_snr r) (rd_timestamp r) (rd_fcnt r)
        (match fetchrow (is_space i) (spaces d) with Some s => sp_tenant_id s | None => None end)
  | None => r
  end.

(** The unique index (tenant_id, device_eui, fcnt) WHERE fcnt IS NOT NULL: nulls are
    distinct. *)
Definition same_frame (r r' : SensorReading) : bool :=
  match rd_fcnt r, rd_fcnt r', rd_tenant_id r, rd_tenant_id r' with
  | Some f, Some f', Some t, Some t' =>
      (f =? f') && String.eqb t t' && String.eqb (rd_device_eui r) (rd_device_eui r')
  | _, _, _, _ => false
  end.

(** [insert_sensor_reading]: ON CONFLICT DO NOTHING on a repeated frame *)
Definition insert_sensor_reading (now : Z) (device_eui : string) (space_id occupancy_state : option string)
  (battery : option Q) (rssi : option Z) (snr : option Q) (timestamp : option Z) (fcnt : option Z)
  (tenant_id : option string) (d : Db) : Db :=
  let row := sync_tenant d (mkReading (str_upper device_eui) space_id occupancy_state battery rssi snr
                              (or_else timestamp now) fcnt tenant_id) in
  if existsb (same_frame row) (sensor_readings d) then d
  else with_readings (λ l, l ++ [row])%list d.

(** The tenant that migration 002 seeds *)
Definition DEFAULT_TENANT : string := "00000000-0000-0000-0000-000000000001".

(** [insert_telemetry]: a reading of a device that belongs to no space; the column's
    default (migration 004) gives it to the default tenant. *)
Definition insert_telemetry (now : Z) (device_eui : string) (occupancy_state : option string)
  (battery : option Q) (rssi : option Z) (snr : option Q) (d : Db) : Db :=
  with_readings (λ l, l ++ [mkReading (str_upper device_eui) None occupancy_state battery rssi snr now
                              None (Some DEFAULT_TENANT)])%list d.

(** The greatest timestamp, the first of equals *)
Definition latest (l : list SensorReading) : option SensorReading :=
  foldl (λ best r, match best with
                   | Some b => if rd_timestamp b <? rd_timestamp r then Some r else best
                   | None => Some r
                   end) None l.

Definition get_latest_sensor_reading (device_eui : string) (d : Db) : option SensorReading :=
  latest (List.filter (λ r, String.eqb (str_lower (rd_device_eui r)) (str_lower device_eui)) (sensor_readings d)).
