(* ===== verification/Reservations.v ===== *)
(** * Reservations: the booking API and the no-double-booking guarantee

    Models src/src/routers/reservations.py on the tables of [Database].  The router runs
    each SQL statement in its own transaction, so other requests can act between two
    statements of one call: [create_reservation] takes what they do as a function of the
    database.  [reservation_step] lists the statements of the whole program that change
    the reservations table, as atomic steps in any order. *)

From Stdlib Require Import QArith.
From S2P Require Import Prelude PyUtils Models Database.

Open Scope Z_scope.

(** ** Requests and responses *)

Record CreateRequest := mkCreate {
  cq_id : string;                      (* the space *)
  cq_reserved_from : Z; cq_reserved_until : Z; cq_request_id : option string;
  cq_external_booking_id : option string; cq_external_system : option string;
  cq_reservation_type : option string; cq_grace_period_minutes : option Z;
  cq_user_email : option string; cq_user_phone : option string;
}.

Record ReservationOut := mkOut {
  out_reservation_id : string; out_id : string; out_reserved_from : Z; out_reserved_until : Z;
  out_status : string; out_user_email : option string; out_user_phone : option string;
  out_metadata : json_obj; out_created_at : Z; out_idempotent : bool;
}.

Definition render (idempotent : bool) (r : Reservation) : ReservationOut :=
  mkOut (rv_id r) (rv_space_id r) (rv_start_time r) (rv_end_time r) (status_value (rv_status r))
    (rv_user_email r) (rv_user_phone r) (or_else (rv_metadata r) []) (rv_created_at r) idempotent.

(** The error responses of the router. *)
Inductive ApiError :=
| NotFound (detail : string)                     (* 404 *)
| Conflict (conflicts : list Reservation)        (* 409, with the rows it lists *)
| ServerError (detail : string).                 (* 500 *)

Definition api_status (e : ApiError) : Z :=
  match e with NotFound _ => 404 | Conflict _ => 409 | ServerError _ => 500 end.

Definition opt_entry (k : string) (o : option string) : json_obj :=
  if truthy o then [(k, or_else o "")] else [].

Definition build_metadata (q : CreateRequest) : json_obj :=
  (opt_entry "external_booking_id" (cq_external_booking_id q) ++
   opt_entry "external_system" (cq_external_system q) ++
   opt_entry "reservation_type" (cq_reservation_type q) ++
   match cq_grace_period_minutes q with Some g => [("grace_period_minutes", show_Z g)] | None => [] end)%list.

Definition by_request_id (request_id : string) (d : Db) : option Reservation :=
  fetchrow (λ r, String.eqb (rv_request_id r) request_id) (reservations d).

(** The query that explains a conflict: at most three blocking rows, earliest first. *)
Definition conflicting (q : CreateRequest) (d : Db) : list Reservation :=
  take 3 (by_start (List.filter (λ r, String.eqb (rv_space_id r) (cq_id q) && blocking (rv_status r) &&
    range_overlap (rv_start_time r) (rv_end_time r) (cq_reserved_from q) (cq_reserved_until q))
    (reservations d))).

Definition new_row (now : Z) (new_id request_id tenant_id : string) (q : CreateRequest) : Reservation :=
  mkReservation new_id (cq_id q) tenant_id request_id (cq_reserved_from q) (cq_reserved_until q)
    (cq_user_email q) (cq_user_phone q) CONFIRMED
    (match build_metadata q with [] => None | m => Some m end) now now.

(** The handler of the exception the INSERT raised. *)
Definition on_insert_error (q : CreateRequest) (request_id : string) (db_error : exn) (d : Db)
  : result ApiError ReservationOut :=
  let error_msg := str_lower (message db_error) in
  let rest :=
    if str_contains "exclusion" error_msg || str_contains "no_reservation_overlap" error_msg
    then Err (Conflict (conflicting q d))
    else Err (ServerError ("Failed to create reservation: " +:+ message db_error)) in
  if str_contains "unique" error_msg && str_contains "request_id" error_msg then
    match by_request_id request_id d with
    | Some existing => Ok (render true existing)
    | None => rest
    end
  else rest.

(** [create_reservation]; [new_request_id] and [new_id] are fresh UUIDs, [others] is what
    other requests do before the INSERT. *)
Definition create_reservation (now : Z) (new_request_id new_id : string) (others : Db → Db)
  (q : CreateRequest) (d : Db) : result ApiError ReservationOut * Db :=
  let request_id := or_else (cq_request_id q) new_request_id in
  match by_request_id request_id d with
  | Some existing => (Ok (render true existing), d)
  | None =>
      match get_space (cq_id q) d with
      | None => (Err (NotFound ("Space with ID " +:+ cq_id q +:+ " not found")), d)
      | Some space_check =>
          let d := others d in
          match sp_tenant_id space_check with
          | None =>
              (on_insert_error q request_id (not_null_violation "tenant_id") d, d)
          | Some tenant_id =>
              match insert_reservation (new_row now new_id request_id tenant_id q) d with
              | (Ok result, d) => (Ok (render false result), d)
              | (Err db_error, d) => (on_insert_error q request_id db_error d, d)
              end
          end
      end
  end.

(** [jsonb_set] on a top-level key *)
Fixpoint json_set (k v : string) (m : json_obj) : json_obj :=
  match m with
  | [] => [(k, v)]
  | (k', v') :: m' => if String.eqb k k' then (k, v) :: m' else (k', v') :: json_set k v m'
  end.

(** [cancel_reservation]: no tenant and no status in its WHERE clause *)
Definition cancel_reservation (now : Z) (reservation_id : string) (reason : option string) (d : Db)
  : result ApiError (string * string * string) * Db :=
  let p r := String.eqb (rv_id r) reservation_id in
  let upd r :=
    set_status now CANCELLED
      (if truthy reason then Some (json_set "cancellation_reason" (or_else reason "") (or_else (rv_metadata r) []))
       else rv_metadata r) r in
  match fetchrow p (reservations d) with
  | None => (Err (NotFound ("Reservation " +:+ reservation_id +:+ " not found")), d)
  | Some r => (Ok (rv_id r, rv_space_id r, status_value CANCELLED), with_reservations (sql_update p upd) d)
  end.

(** [get_reservation]: the row of the caller's tenant, joined with its space *)
Definition get_reservation (t : TenantContext) (reservation_id : string) (d : Db)
  : result ApiError (ReservationOut * (string * string)) :=
  let joined r := fetchrow (is_space (rv_space_id r)) (spaces d) in
  match fetchrow (λ r, String.eqb (rv_id r) reservation_id && String.eqb (rv_tenant_id r) (tc_tenant_id t) &&
                       bool_decide (is_Some (joined r))) (reservations d) with
  | None => Err (NotFound ("Reservation " +:+ reservation_id +:+ " not found"))
  | Some r =>
      match joined r with
      | Some s => Ok (render false r, (sp_name s, sp_code s))
      | None => Err (NotFound ("Reservation " +:+ reservation_id +:+ " not found"))
      end
  end.

(** [list_reservations]: the tenant's reservations, latest start first *)
Definition list_reservations (t : TenantContext) (status_filter : option string) (d : Db)
  : list (ReservationOut * Space) :=
  let keep r := String.eqb (rv_tenant_id r) (tc_tenant_id t) &&
                (negb (truthy status_filter) ||
                 bool_decide (status_filter = Some (status_value (rv_status r)))) in
  omap (λ r, (λ s, (render false r, s)) <$> fetchrow (is_space (rv_space_id r)) (spaces d))
    (reverse (by_start (List.filter keep (reservations d)))).

(** The statement of a scheduled reservation's end (background_tasks.py). *)
Definition expire_reservation (now : Z) (reservation_id : string) (d : Db) : Db :=
  with_reservations
    (sql_update (λ r, String.eqb (rv_id r) reservation_id && blocking (rv_status r))
       (λ r, set_status now EXPIRED (rv_metadata r) r)) d.

(** ** The steps that change the table *)

Inductive reservation_step : Db → Db → Prop :=
| step_insert r r' d d' : insert_reservation r d = (Ok r', d') → reservation_step d d'
| step_cancel now i reason d : reservation_step d (cancel_reservation now i reason d).2
| step_expire_old now d : reservation_step d (expire_old_reservations now d).2
| step_expire now i d : reservation_step d (expire_reservation now i d)
| step_legacy_cancel now i d : reservation_step d (Database.cancel_reservation now i d).2
| step_other d d' : reservations d' = reservations d → reservation_step d d'.

(** What every reachable table satisfies. *)
Record reservations_ok (l : list Reservation) : Prop := {
  ok_ids : NoDup (map rv_id l);
  ok_request_ids : NoDup (map rv_request_id l);
  ok_times r : r ∈ l → 0 < rv_end_time r - rv_start_time r ≤ 86400 * sec;
  ok_apart r r' : r ∈ l → r' ∈ l → rv_id r ≠ rv_id r' → conflicts r r' = false;
}.

(** An update that keeps the keys and the times, and never makes a row blocking. *)
Definition tame (f : Reservation → Reservation) : Prop := ∀ r,
  rv_id (f r) = rv_id r ∧ rv_request_id (f r) = rv_request_id r ∧ rv_space_id (f r) = rv_space_id r ∧
  rv_start_time (f r) = rv_start_time r ∧ rv_end_time (f r) = rv_end_time r ∧
  (blocking (rv_status (f r)) = true → blocking (rv_status r) = true).

Lemma tame_update p f : tame f → tame (λ r, if (p r : bool) then f r else r).
Proof. intros Hf r. destruct (p r); [apply Hf|]. repeat split; auto. Qed.

Lemma tame_status now st m : blocking st = false → tame (λ r, set_status now st (m r) r).
Proof. intros Hs r. cbn. rewrite Hs. repeat split; auto. discriminate. Qed.

Lemma conflicts_spec r r' :
  conflicts r r' = true ↔
  blocking (rv_status r) = true ∧ blocking (rv_status r') = true ∧ rv_space_id r = rv_space_id r' ∧
  rv_start_time r < rv_end_time r ∧ rv_start_time r' < rv_end_time r' ∧
  rv_start_time r < rv_end_time r' ∧ rv_start_time r' < rv_end_time r.
Proof.
  unfold conflicts, range_overlap. rewrite !andb_true_iff, String.eqb_eq, !Z.ltb_lt. tauto.
Qed.

Lemma conflicts_sym r r' : conflicts r r' = conflicts r' r.
Proof.
  apply eq_true_iff_eq. rewrite !conflicts_spec. intuition congruence.
Qed.

Lemma tame_ok f l : tame f → reservations_ok l → reservations_ok (map f l).
Proof.
  intros Hf [H1 H2 H3 H4].
  assert (map rv_id (map f l) = map rv_id l) as E1 by (rewrite map_map; apply map_ext; intros r; apply Hf).
  assert (map rv_request_id (map f l) = map rv_request_id l) as E2
    by (rewrite map_map; apply map_ext; intros r; apply Hf).
  split; [by rewrite E1|by rewrite E2| |].
  - intros r (r0 & -> & Hr)%list_elem_of_fmap. destruct (Hf r0) as (_ & _ & _ & -> & -> & _). by apply H3.
  - intros r r' (r0 & -> & Hr)%list_elem_of_fmap (r1 & -> & Hr')%list_elem_of_fmap Hne.
    destruct (Hf r0) as (I0 & _ & S0 & T0 & U0 & B0), (Hf r1) as (I1 & _ & S1 & T1 & U1 & B1).
    rewrite I0, I1 in Hne. specialize (H4 r0 r1 Hr Hr' Hne).
    apply not_true_iff_false. intros Hc. apply not_true_iff_false in H4. apply H4.
    apply conflicts_spec. apply conflicts_spec in Hc. rewrite S0, S1, T0, T1, U0, U1 in Hc. intuition.
Qed.

(** When the INSERT succeeds, and what it appends. *)
Lemma insert_ok r d r' d' :
  insert_reservation r d = (Ok r', d') ↔
  r' = r ∧ d' = with_reservations (λ l, l ++ [r])%list d ∧
  rv_start_time r < rv_end_time r ∧ rv_end_time r - rv_start_time r ≤ 86400 * sec ∧
  (∀ x, x ∈ reservations d → rv_id x ≠ rv_id r) ∧
  (∀ x, x ∈ reservations d → rv_request_id x ≠ rv_request_id r) ∧
  (∀ x, x ∈ reservations d → conflicts x r = false) ∧
  existsb (is_space (rv_space_id r)) (spaces d) = true.
Proof.
  unfold insert_reservation.
  destruct (Z.leb_spec (rv_end_time r) (rv_start_time r)); [split; [done|lia]|].
  destruct (Z.ltb_spec (86400 * sec) (rv_end_time r - rv_start_time r)); [split; [done|lia]|].
  assert (∀ (f : Reservation → string) v,
    existsb (λ x, String.eqb (f x) v) (reservations d) = false ↔ (∀ x, x ∈ reservations d → f x ≠ v)) as Hex.
  { intros f v. rewrite existsb_false. apply forall_proper. intros x. by rewrite String.eqb_neq. }
  destruct (existsb (λ x, String.eqb (rv_id x) (rv_id r)) (reservations d)) eqn:E1.
  { split; [done|]. intros (_ & _ & _ & _ & Hi & _). apply (Hex rv_id) in Hi. congruence. }
  destruct (existsb (λ x, String.eqb (rv_request_id x) (rv_request_id r)) (reservations d)) eqn:E2.
  { split; [done|]. intros (_ & _ & _ & _ & _ & Hi & _). apply (Hex rv_request_id) in Hi. congruence. }
  destruct (existsb (λ x, conflicts x r) (reservations d)) eqn:E3.
  { split; [done|]. intros (_ & _ & _ & _ & _ & _ & Hi & _). apply existsb_false in Hi. congruence. }
  destruct (existsb (is_space (rv_space_id r)) (spaces d)) eqn:E4; cbn [negb].
  - split.
    + intros [= <- <-]. repeat split; try done; try lia.
      * by apply (Hex rv_id).
      * by apply (Hex rv_request_id).
      * by apply existsb_false.
    + by intros (-> & -> & _).
  - split; [done|]. by intros (_ & _ & _ & _ & _ & _ & _ & ?).
Qed.

Lemma insert_row_ok r l :
  reservations_ok l → rv_start_time r < rv_end_time r → rv_end_time r - rv_start_time r ≤ 86400 * sec →
  (∀ x, x ∈ l → rv_id x ≠ rv_id r) → (∀ x, x ∈ l → rv_request_id x ≠ rv_request_id r) →
  (∀ x, x ∈ l → conflicts x r = false) → reservations_ok (l ++ [r])%list.
Proof.
  intros [H1 H2 H3 H4] Ht Hd Hi Hq Hc. split.
  - rewrite map_app, Permutation_app_comm. cbn. apply NoDup_cons. split; [|done].
    intros (x & E & Hx)%list_elem_of_fmap. by apply (Hi x Hx).
  - rewrite map_app, Permutation_app_comm. cbn. apply NoDup_cons. split; [|done].
    intros (x & E & Hx)%list_elem_of_fmap. by apply (Hq x Hx).
  - intros x [Hx| ->]%elem_of_snoc; [by apply H3|lia].
  - intros x y [Hx| ->]%elem_of_snoc [Hy| ->]%elem_of_snoc Hne; [by apply H4|by apply Hc| |done].
    rewrite conflicts_sym. by apply Hc.
Qed.

Lemma step_keeps_ok d d' :
  reservation_step d d' → reservations_ok (reservations d) → reservations_ok (reservations d').
Proof.
  intros Hs Hok. destruct Hs as [r r' d d' Hi|now i reason d|now d|now i d|now i d|d d' ->]; [..|done].
  - apply insert_ok in Hi as (-> & -> & ? & ? & ? & ? & ? & ?). by apply insert_row_ok.
  - unfold cancel_reservation. destruct (fetchrow _ _); [|done]. cbn [snd with_reservations reservations].
    apply tame_ok; [|done]. apply tame_update.
    apply (tame_status now CANCELLED (λ r, if truthy reason then _ else _)); done.
  - cbn [snd expire_old_reservations with_reservations reservations]. apply tame_ok; [|done].
    apply tame_update. apply (tame_status now EXPIRED rv_metadata). done.
  - cbn [expire_reservation with_reservations reservations]. apply tame_ok; [|done].
    apply tame_update, tame_status. done.
  - unfold Database.cancel_reservation. destruct (fetchrow _ _); [|done]. cbn [snd with_reservations reservations].
    apply tame_ok; [|done]. apply tame_update, tame_status. done.
Qed.

(** ** Safety *)

Lemma reachable_ok d d' :
  rtc reservation_step d d' → reservations_ok (reservations d) → reservations_ok (reservations d').
Proof. induction 1; [done|]. intros Hok. eauto using step_keeps_ok. Qed.

Lemma empty_ok d : reservations d = [] → reservations_ok (reservations d).
Proof.
  intros ->. split; cbn; [constructor|constructor|by intros r ?%elem_of_nil|by intros r r' ?%elem_of_nil].
Qed.

(** C1. No double booking.  However the requests, the expiry job, the scheduled tasks and the
    legacy endpoints interleave, two different pending or confirmed reservations of the
    same space never share an instant: one ends before the other starts. *)
Theorem no_double_booking d d' r r' :
  reservations d = [] → rtc reservation_step d d' →
  r ∈ reservations d' → r' ∈ reservations d' → rv_id r ≠ rv_id r' →
  rv_space_id r = rv_space_id r' →
  blocking (rv_status r) = true → blocking (rv_status r') = true →
  rv_end_time r ≤ rv_start_time r' ∨ rv_end_time r' ≤ rv_start_time r.
Proof.
  intros He Hs Hr Hr' Hne Hsp Hb Hb'.
  pose proof (reachable_ok d d' Hs (empty_ok d He)) as Hok.
  pose proof (ok_apart _ Hok r r' Hr Hr' Hne) as Hc. apply not_true_iff_false in Hc.
  rewrite conflicts_spec in Hc.
  pose proof (ok_times _ Hok r Hr). pose proof (ok_times _ Hok r' Hr').
  destruct (Z.le_gt_cases (rv_end_time r) (rv_start_time r')); [by left|].
  destruct (Z.le_gt_cases (rv_end_time r') (rv_start_time r)); [by right|].
  destruct Hc. repeat split; try done; lia.
Qed.

(** A database with one space, and two requests for it. *)
Definition one_space : Db :=
  with_spaces (λ _, [mkSpace "s1" "Bay 1" "A1" None None None None None FREE (Some "site") (Some "t1") None None None 0 0 None])
    empty_db.

Definition request (from until : Z) (request_id : string) : CreateRequest :=
  mkCreate "s1" (from * sec) (until * sec) (Some request_id) None None None None None None.

Definition booked : Db :=
  let d := (create_reservation 0 "q" "r1" (λ d, d) (request 0 3600 "q1") one_space).2 in
  (create_reservation 1 "q" "r2" (λ d, d) (request 3600 7200 "q2") d).2.

(** The router's calls are sequences of steps, whatever happens in between. *)
Lemma create_steps now nq ni others q d :
  (∀ d, rtc reservation_step d (others d)) →
  rtc reservation_step d (create_reservation now nq ni others q d).2.
Proof.
  intros Ho. unfold create_reservation.
  destruct (by_request_id _ d); [constructor|]. destruct (get_space _ d) as [s|]; [|constructor].
  destruct (sp_tenant_id s) as [t|]; [|by apply Ho].
  destruct (insert_reservation _ (others d)) as [[r|e] d'] eqn:E; cbn [snd].
  - eapply rtc_r; [apply Ho|]. by eapply step_insert.
  - replace d' with (others d); [by apply Ho|]. revert E. unfold insert_reservation.
    repeat case_match; intros; by simplify_eq.
Qed.

Lemma booked_reachable : rtc reservation_step one_space booked.
Proof.
  unfold booked. etrans; apply create_steps; intros d; constructor.
Qed.

Lemma no_double_booking_witness :
  ∃ r r', reservations booked = [r; r'] ∧
  (rv_end_time r ≤ rv_start_time r' ∨ rv_end_time r' ≤ rv_start_time r).
Proof.
  do 2 eexists. split; [vm_compute; reflexivity|].
  eapply (no_double_booking one_space booked); [reflexivity|exact booked_reachable| | | | | |];
    [|vm_compute; right; left; reflexivity|discriminate|reflexivity|reflexivity|reflexivity].
  vm_compute; left; reflexivity.
Defined.

(** C23. Every reachable table is well formed: reservation ids and request ids are unique and
    every reservation lasts between one instant and 24 hours, also those the router
    accepts without validating their times. *)
Theorem reservations_well_formed d d' :
  reservations d = [] → rtc reservation_step d d' → reservations_ok (reservations d').
Proof. intros He Hs. by eapply reachable_ok, empty_ok. Qed.

Lemma reservations_well_formed_witness :
  length (reservations booked) = 2%nat ∧ reservations_ok (reservations booked).
Proof.
  split; [vm_compute; reflexivity|].
  exact (reservations_well_formed one_space booked eq_refl booked_reachable).
Defined.

(** ** What a booking answers *)

Lemma fetchrow_none {A} (p : A → bool) l : fetchrow p l = None ↔ ∀ x, x ∈ l → p x = false.
Proof.
  unfold fetchrow. split.
  - intros H x Hx%list_elem_of_In. by apply (find_none p l).
  - intros H. destruct (find p l) as [x|] eqn:E; [|done]. apply find_some in E as [Hx E].
    rewrite (H x) in E; [done|by apply list_elem_of_In].
Qed.

Lemma fetchrow_some {A} (p : A → bool) l x : fetchrow p l = Some x → x ∈ l ∧ p x = true.
Proof. unfold fetchrow. intros [Hx E]%find_some. by rewrite list_elem_of_In. Qed.

Lemma by_request_id_unique l q r :
  NoDup (map rv_request_id l) → r ∈ l → rv_request_id r = q →
  fetchrow (λ r, String.eqb (rv_request_id r) q) l = Some r.
Proof.
  intros Hnd Hr Hq. destruct (fetchrow _ l) as [x|] eqn:E.
  - apply fetchrow_some in E as [Hx E%String.eqb_eq]. f_equal.
    apply (NoDup_map_inj rv_request_id l); try done. congruence.
  - rewrite fetchrow_none in E. specialize (E r Hr). apply String.eqb_neq in E. congruence.
Qed.

Lemma sorted_perm l : by_start l ≡ₚ l.
Proof. unfold by_start. apply merge_sort_Permutation. Qed.

Lemma elem_of_bfilter {A} (p : A → bool) l x : x ∈ List.filter p l ↔ x ∈ l ∧ p x = true.
Proof. by rewrite !list_elem_of_In, filter_In. Qed.

Lemma conflicting_spec q d :
  (∀ r, r ∈ conflicting q d → r ∈ reservations d ∧ rv_space_id r = cq_id q ∧ blocking (rv_status r) = true ∧
      range_overlap (rv_start_time r) (rv_end_time r) (cq_reserved_from q) (cq_reserved_until q) = true) ∧
  (length (conflicting q d) ≤ 3)%nat ∧
  ((∃ r, r ∈ reservations d ∧ rv_space_id r = cq_id q ∧ blocking (rv_status r) = true ∧
     range_overlap (rv_start_time r) (rv_end_time r) (cq_reserved_from q) (cq_reserved_until q) = true) →
   conflicting q d ≠ []).
Proof.
  unfold conflicting. set (l := List.filter _ _).
  assert (∀ r, r ∈ l ↔ r ∈ reservations d ∧ rv_space_id r = cq_id q ∧ blocking (rv_status r) = true ∧
      range_overlap (rv_start_time r) (rv_end_time r) (cq_reserved_from q) (cq_reserved_until q) = true) as Hl.
  { intros r. subst l. rewrite elem_of_bfilter, !andb_true_iff, String.eqb_eq. tauto. }
  split; [|split].
  - intros r Hr. apply Hl. rewrite <- (sorted_perm l). eapply elem_of_sublist; [exact Hr|apply sublist_take].
  - rewrite length_take. lia.
  - intros (r & Hr%Hl). rewrite <- (sorted_perm l) in Hr. destruct (by_start l); [by apply elem_of_nil in Hr|done].
Qed.

(** The request does not collide with a blocking row of its space. *)
Definition slot_free (q : CreateRequest) (d : Db) : Prop :=
  ∀ r, r ∈ reservations d → rv_space_id r = cq_id q → blocking (rv_status r) = true →
    rv_end_time r ≤ cq_reserved_from q ∨ cq_reserved_until q ≤ rv_start_time r.

Lemma insert_outcome now ni qi t q d :
  reservations_ok (reservations d) →
  cq_reserved_from q < cq_reserved_until q ≤ cq_reserved_from q + 86400 * sec →
  existsb (is_space (cq_id q)) (spaces d) = true →
  (∀ r, r ∈ reservations d → rv_id r ≠ ni ∧ rv_request_id r ≠ qi) →
  (slot_free q d ∧ insert_reservation (new_row now ni qi t q) d
     = (Ok (new_row now ni qi t q), with_reservations (λ l, l ++ [new_row now ni qi t q])%list d)) ∨
  (¬ slot_free q d ∧ (∃ r, r ∈ reservations d ∧ conflicts r (new_row now ni qi t q) = true) ∧
   insert_reservation (new_row now ni qi t q) d
     = (Err (exclusion_violation "uq_reservations_no_overlap"), d)).
Proof.
  intros Hok Ht Hsp Hfresh. set (r := new_row now ni qi t q).
  assert (∀ x, x ∈ reservations d → conflicts x r = false ↔
    (rv_space_id x = cq_id q → blocking (rv_status x) = true →
     rv_end_time x ≤ cq_reserved_from q ∨ cq_reserved_until q ≤ rv_start_time x)) as Hcf.
  { intros x Hx. rewrite <- not_true_iff_false, conflicts_spec. pose proof (ok_times _ Hok x Hx).
    subst r. cbn. split; [|intuition lia].
    intros Hn Hs Hb. destruct (Z.le_gt_cases (rv_end_time x) (cq_reserved_from q)); [by left|].
    destruct (Z.le_gt_cases (cq_reserved_until q) (rv_start_time x)); [by right|].
    destruct Hn. repeat split; try done; lia. }
  destruct (existsb (λ x, conflicts x r) (reservations d)) eqn:E.
  - right. split; [|split].
    + intros Hf. apply existsb_exists in E as (x & Hx%list_elem_of_In & Hc).
      apply not_false_iff_true in Hc. apply Hc, Hcf; [done|]. intros. by apply Hf.
    + apply existsb_exists in E as (x & Hx%list_elem_of_In & Hc). eauto.
    + unfold insert_reservation. subst r. cbn -[conflicts Z.mul Z.ltb Z.leb Z.sub] in *.
      rewrite (proj2 (Z.leb_gt _ _)) by lia. rewrite (proj2 (Z.ltb_ge _ _)) by lia.
      rewrite (proj2 (existsb_false _ _)) by (intros x Hx; apply String.eqb_neq, Hfresh, Hx).
      rewrite (proj2 (existsb_false _ _)) by (intros x Hx; apply String.eqb_neq, Hfresh, Hx).
      by rewrite E.
  - left. split.
    + intros x Hx. apply Hcf; [done|]. by apply (proj1 (existsb_false _ _) E).
    + apply insert_ok. subst r. cbn. repeat split; try lia; try (intros; by apply Hfresh); [|done].
      by apply existsb_false.
Qed.

Lemma exclusion_handled q i d :
  on_insert_error q i (exclusion_violation "uq_reservations_no_overlap") d = Err (Conflict (conflicting q d)).
Proof.
  unfold on_insert_error.
  set (m := str_lower _). vm_compute in m. subst m.
  reflexivity.
Qed.

(** C22. A new booking is accepted exactly when its slot is free.  On a well-formed table,
    for a request of at most 24 hours with a new request id on an existing space and
    with nothing in between, the answer is either 201 and the confirmed row appended,
    when no pending or confirmed reservation of the space meets the slot, or 409 with
    the table unchanged, naming one to three reservations, each of which blocks the
    slot. *)
Theorem create_accepts_free_slot now nq ni q d s t :
  reservations_ok (reservations d) →
  cq_reserved_from q < cq_reserved_until q ≤ cq_reserved_from q + 86400 * sec →
  get_space (cq_id q) d = Some s → sp_tenant_id s = Some t →
  (∀ r, r ∈ reservations d → rv_id r ≠ ni ∧ rv_request_id r ≠ or_else (cq_request_id q) nq) →
  let '(res, d') := create_reservation now nq ni (λ d, d) q d in
  (slot_free q d ∧ ∃ row, res = Ok (render false row) ∧ rv_status row = CONFIRMED ∧
     rv_tenant_id row = t ∧ reservations d' = (reservations d ++ [row])%list) ∨
  (¬ slot_free q d ∧ d' = d ∧ ∃ l, res = Err (Conflict l) ∧ l ≠ [] ∧ (length l ≤ 3)%nat ∧
     ∀ r, r ∈ l → r ∈ reservations d ∧ conflicts r (new_row now ni "" t q) = true).
Proof.
  intros Hok Ht Hsp Htn Hfresh. unfold create_reservation.
  set (qi := or_else (cq_request_id q) nq) in *.
  assert (by_request_id qi d = None) as ->.
  { apply fetchrow_none. intros r Hr. apply String.eqb_neq. by apply Hfresh. }
  rewrite Hsp, Htn.
  assert (existsb (is_space (cq_id q)) (spaces d) = true) as Hex.
  { apply fetchrow_some in Hsp as [Hin [Hs _]%andb_true_iff]. apply existsb_exists. exists s.
    by rewrite <- list_elem_of_In. }
  destruct (insert_outcome now ni qi t q d Hok Ht Hex Hfresh) as [[Hf ->]|(Hf & Hc & ->)].
  - left. split; [done|]. eexists. by repeat split.
  - right. split; [done|]. split; [done|]. rewrite exclusion_handled.
    destruct (conflicting_spec q d) as (H1 & H2 & H3). eexists. split; [done|].
    split; [|split; [done|]].
    + apply H3. destruct Hc as (r & Hr & Hc%conflicts_spec). exists r. cbn in Hc.
      unfold range_overlap. rewrite !andb_true_iff, !Z.ltb_lt. intuition.
    + intros r Hr. destruct (H1 r Hr) as (Hin & Hs & Hb & Ho). split; [done|].
      apply conflicts_spec. unfold range_overlap in Ho. rewrite !andb_true_iff, !Z.ltb_lt in Ho.
      cbn. intuition.
Qed.

Lemma create_accepts_free_slot_witness :
  let q := request 1800 5400 "q3" in
  ¬ slot_free q booked ∧
  let '(res, d') := create_reservation 2 "q" "r3" (λ d, d) q booked in
  ∃ l, res = Err (Conflict l) ∧ length l = 2%nat ∧ d' = booked.
Proof.
  intros q.
  pose proof (create_accepts_free_slot 2 "q" "r3" q booked
    (mkSpace "s1" "Bay 1" "A1" None None None None None FREE (Some "site") (Some "t1") None None None 0 0 None) "t1") as H.
  assert (reservations_ok (reservations booked)) as Hok
    by (eapply reachable_ok; [exact booked_reachable|by apply empty_ok]).
  specialize (H Hok). assert (¬ slot_free q booked) as Hn.
  { intros Hf.
    pose proof (fetchrow_some (λ r, String.eqb (rv_id r) "r1") (reservations booked)) as Hr.
    destruct (fetchrow (λ r, String.eqb (rv_id r) "r1") (reservations booked)) as [r|] eqn:E; [|vm_compute in E; discriminate].
    destruct (Hr r eq_refl) as [Hin _]. vm_compute in E. simplify_eq.
    specialize (Hf _ Hin eq_refl eq_refl). vm_compute in Hf. destruct Hf as [Hf|Hf]; by apply Hf. }
  split; [exact Hn|].
  specialize (H ltac:(unfold q, request, sec; cbn; lia) eq_refl eq_refl).
  assert (∀ r, r ∈ reservations booked → rv_id r ≠ "r3" ∧ rv_request_id r ≠ "q3") as Hfr.
  { apply Forall_forall. vm_compute. repeat constructor; discriminate. }
  specialize (H Hfr).
  destruct (create_reservation 2 "q" "r3" (λ d, d) q booked) as [res d'] eqn:E.
  destruct H as [[Hf _]|(_ & Hd & _)]; [destruct (Hn Hf)|].
  vm_compute in E. injection E as <- <-. eexists. split; [reflexivity|]. split; [reflexivity|exact Hd].
Defined.

(** ** Idempotency *)

(** A reservation keeps its id and its request id for ever. *)
Lemma step_keeps_row d d' r :
  reservation_step d d' → r ∈ reservations d →
  ∃ r', r' ∈ reservations d' ∧ rv_id r' = rv_id r ∧ rv_request_id r' = rv_request_id r.
Proof.
  assert (∀ (f : Reservation → Reservation) l, tame f → r ∈ l →
    ∃ r', r' ∈ map f l ∧ rv_id r' = rv_id r ∧ rv_request_id r' = rv_request_id r) as Hmap.
  { intros f l Hf Hr. exists (f r). split; [apply list_elem_of_fmap; eauto|]. by split; apply Hf. }
  intros Hs Hr. destruct Hs as [r0 r' d d' Hi|now i reason d|now d|now i d|now i d|d d' ->]; [..|eauto].
  - apply insert_ok in Hi as (-> & -> & _). exists r. split; [|done]. cbn. apply elem_of_app. by left.
  - unfold cancel_reservation. destruct (fetchrow _ _); [|eauto]. cbn [snd with_reservations reservations].
    apply Hmap; [|done]. apply tame_update.
    apply (tame_status now CANCELLED (λ r, if truthy reason then _ else _)); done.
  - apply Hmap; [|done]. apply tame_update. apply (tame_status now EXPIRED rv_metadata). done.
  - apply Hmap; [|done]. apply tame_update, tame_status. done.
  - unfold Database.cancel_reservation. destruct (fetchrow _ _); [|eauto].
    apply Hmap; [|done]. apply tame_update, tame_status. done.
Qed.

Lemma reachable_row d d' r :
  rtc reservation_step d d' → r ∈ reservations d →
  ∃ r', r' ∈ reservations d' ∧ rv_id r' = rv_id r ∧ rv_request_id r' = rv_request_id r.
Proof.
  intros Hs. revert r. induction Hs as [d|d d1 d' Hs _ IH]; intros r Hr; [eauto|].
  destruct (step_keeps_row d d1 r Hs Hr) as (r1 & Hr1 & E1 & E2).
  destruct (IH r1 Hr1) as (r2 & Hr2 & E3 & E4). exists r2. split; [done|]. split; congruence.
Qed.

(** A successful creation leaves a row with its request id. *)
Lemma create_ok_row now nq ni others q d out d1 :
  create_reservation now nq ni others q d = (Ok out, d1) →
  ∃ r, r ∈ reservations d1 ∧ rv_request_id r = or_else (cq_request_id q) nq ∧ rv_id r = out_reservation_id out.
Proof.
  unfold create_reservation. set (qi := or_else (cq_request_id q) nq).
  assert (∀ d r, by_request_id qi d = Some r → r ∈ reservations d ∧ rv_request_id r = qi) as Hby.
  { intros d0 r [Hr E%String.eqb_eq]%fetchrow_some. done. }
  assert (∀ e d r, on_insert_error q qi e d = Ok r →
    ∃ x, x ∈ reservations d ∧ rv_request_id x = qi ∧ rv_id x = out_reservation_id r) as Herr.
  { intros e d0 r. unfold on_insert_error.
    destruct (by_request_id qi d0) as [x|] eqn:E; repeat case_match; intros H'; simplify_eq.
    destruct (Hby _ _ E). exists x. done. }
  destruct (by_request_id qi d) as [x|] eqn:E.
  { intros ?; simplify_eq. destruct (Hby _ _ E). exists x. done. }
  destruct (get_space _ d) as [s|]; [|done]. destruct (sp_tenant_id s) as [t|].
  - destruct (insert_reservation _ _) as [[r|e] d'] eqn:Ei; intros ?; simplify_eq; [|eauto].
    apply insert_ok in Ei as (-> & -> & _). eexists. split; [cbn; apply elem_of_snoc; by right|]. done.
  - intros H. injection H as H <-. eauto.
Qed.

(** Creation is idempotent in its request id: once a call succeeded, every later call
    with that request id, with whatever payload and after whatever other steps,
    returns the same reservation, marked idempotent, and changes nothing. *)
Theorem create_idempotent now nq ni others q d out d1 d2 now' nq' ni' others' q' i :
  reservations_ok (reservations d) → (∀ d, rtc reservation_step d (others d)) →
  cq_request_id q = Some i → cq_request_id q' = Some i →
  create_reservation now nq ni others q d = (Ok out, d1) → rtc reservation_step d1 d2 →
  ∃ out', create_reservation now' nq' ni' others' q' d2 = (Ok out', d2) ∧
    out_reservation_id out' = out_reservation_id out ∧ out_idempotent out' = true.
Proof.
  intros Hok Ho Eq Eq' Hc Hs.
  destruct (create_ok_row _ _ _ _ _ _ _ _ Hc) as (r & Hr & Er & Eid). rewrite Eq in Er. cbn in Er.
  destruct (reachable_row d1 d2 r Hs Hr) as (r' & Hr' & E1 & E2).
  assert (reservations_ok (reservations d2)) as Hok2.
  { eapply reachable_ok; [exact Hs|]. eapply reachable_ok; [|exact Hok].
    pose proof (create_steps now nq ni others q d Ho) as H1. by rewrite Hc in H1. }
  exists (render true r'). unfold create_reservation. rewrite Eq'. cbn [or_else].
  unfold by_request_id. rewrite (by_request_id_unique _ i r'); [|apply Hok2|done|congruence].
  split; [done|]. cbn. split; [congruence|done].
Qed.

Lemma create_idempotent_witness :
  ∃ out', create_reservation 9 "q" "r9" (λ d, d) (request 0 60 "q1")
            (create_reservation 0 "q" "r1" (λ d, d) (request 0 3600 "q1") one_space).2
    = (Ok out', (create_reservation 0 "q" "r1" (λ d, d) (request 0 3600 "q1") one_space).2) ∧
    out_reservation_id out' = "r1" ∧ out_idempotent out' = true.
Proof.
  destruct (create_reservation 0 "q" "r1" (λ d, d) (request 0 3600 "q1") one_space) as [res d1] eqn:E.
  destruct res as [out|e]; [|vm_compute in E; discriminate].
  assert (out_reservation_id out = "r1") as <- by (vm_compute in E; injection E as <- _; reflexivity).
  apply (create_idempotent 0 "q" "r1" (λ d, d) (request 0 3600 "q1") one_space out d1 d1 9 "q" "r9" (λ d, d)
    (request 0 60 "q1") "q1"); [by apply empty_ok|intros; constructor|reflexivity|reflexivity|exact E|constructor].
Defined.

(** Two concurrent calls with the same request id create one reservation: when another
    request books it between the check and the INSERT, the unique index refuses the
    second row, and the call returns the first one's reservation. *)
Theorem create_race now nq ni others q d s t i r :
  cq_request_id q = Some i → by_request_id i d = None →
  get_space (cq_id q) d = Some s → sp_tenant_id s = Some t →
  cq_reserved_from q < cq_reserved_until q ≤ cq_reserved_from q + 86400 * sec →
  reservations_ok (reservations (others d)) → r ∈ reservations (others d) → rv_request_id r = i →
  (∀ x, x ∈ reservations (others d) → rv_id x ≠ ni) →
  create_reservation now nq ni others q d = (Ok (render true r), others d).
Proof.
  intros Eq Hnone Hsp Ht Htime Hok Hr Er Hni. unfold create_reservation. rewrite Eq. cbn [or_else].
  rewrite Hnone, Hsp, Ht. unfold insert_reservation. cbn [new_row rv_end_time rv_start_time rv_id rv_request_id].
  rewrite (proj2 (Z.leb_gt _ _)) by lia. rewrite (proj2 (Z.ltb_ge _ _)) by lia.
  rewrite (proj2 (existsb_false _ _)) by (intros x Hx; apply String.eqb_neq, Hni, Hx).
  assert (existsb (λ x, String.eqb (rv_request_id x) i) (reservations (others d)) = true) as ->.
  { apply existsb_exists. exists r. rewrite <- list_elem_of_In, String.eqb_eq. done. }
  f_equal. unfold on_insert_error, by_request_id.
  rewrite (by_request_id_unique _ i r); [|apply Hok|done|done].
  set (m := str_lower _). vm_compute in m. subst m. reflexivity.
Qed.

Lemma create_race_witness :
  let others d := (create_reservation 0 "q" "r1" (λ d, d) (request 0 3600 "q1") d).2 in
  ∃ r, create_reservation 1 "q" "r2" others (request 0 3600 "q1") one_space = (Ok (render true r), others one_space)
    ∧ rv_id r = "r1".
Proof.
  intros others. destruct (find_reservation "r1" (others one_space)) as [r|] eqn:E; [|vm_compute in E; discriminate].
  pose proof (fetchrow_some _ _ _ E) as [Hin _]. vm_compute in E. injection E as <-.
  exists (mkReservation "r1" "s1" "t1" "q1" 0 3600000000 None None CONFIRMED None 0 0).
  split; [|reflexivity].
  apply (create_race 1 "q" "r2" others (request 0 3600 "q1") one_space _ "t1" "q1" _
    eq_refl eq_refl eq_refl eq_refl); [unfold request, sec; cbn; lia| |exact Hin|reflexivity|].
  - eapply reachable_ok; [apply create_steps; intros; constructor|by apply empty_ok].
  - apply Forall_forall. vm_compute. repeat constructor; discriminate.
Defined.

(** ** Cancelling and expiring *)

Lemma elem_of_update {A} (p : A → bool) f l x :
  x ∈ sql_update p f l ↔ ∃ y, y ∈ l ∧ x = (if p y then f y else y).
Proof.
  unfold sql_update. rewrite list_elem_of_fmap. split; intros (y & H1 & H2); eauto.
Qed.

(** Cancelling by id: an unknown id is a 404 and changes nothing; a known one makes
    exactly that row cancelled and leaves every other row alone.  It does so for every
    tenant and whatever the row's status was, since the statement asks for neither. *)
Theorem cancel_effect now i reason d :
  NoDup (map rv_id (reservations d)) →
  let '(res, d') := cancel_reservation now i reason d in
  match find_reservation i d with
  | None => d' = d ∧ ∃ detail, res = Err (NotFound detail)
  | Some r =>
      res = Ok (i, rv_space_id r, "cancelled") ∧
      (∃ m, set_status now CANCELLED m r ∈ reservations d') ∧
      ∀ x, rv_id x ≠ i → x ∈ reservations d' ↔ x ∈ reservations d
  end.
Proof.
  intros Hnd. unfold cancel_reservation, find_reservation.
  destruct (fetchrow (λ r, String.eqb (rv_id r) i) (reservations d)) as [r|] eqn:E; [|eauto].
  apply fetchrow_some in E as [Hr Ei]. pose proof Ei as Eid. apply String.eqb_eq in Eid.
  split; [by rewrite Eid|]. cbn [with_reservations reservations]. split.
  - eexists. apply elem_of_update. exists r. by rewrite Ei.
  - intros x Hx. rewrite elem_of_update. split.
    + intros (y & Hy & ->). destruct (String.eqb_spec (rv_id y) i); [|done]. by destruct Hx.
    + intros Hin. exists x. split; [done|]. by rewrite (proj2 (String.eqb_neq _ _)).
Qed.

Lemma cancel_effect_witness :
  (cancel_reservation 5 "r1" (Some "rain") booked).1 = Ok ("r1", "s1", "cancelled") ∧
  (cancel_reservation 5 "nope" None booked).2 = booked.
Proof.
  assert (NoDup (map rv_id (reservations booked))) as Hnd
    by (apply (bool_decide_unpack _); vm_compute; exact I).
  pose proof (cancel_effect 5 "r1" (Some "rain") booked Hnd) as H1.
  pose proof (cancel_effect 5 "nope" None booked Hnd) as H2.
  destruct (cancel_reservation 5 "r1" (Some "rain") booked) as [res d'].
  destruct (cancel_reservation 5 "nope" None booked) as [res' d''].
  split; [exact (proj1 H1)|exact (proj1 H2)].
Defined.

(** The expiry job does what it says: after it ran at [now], no pending or confirmed
    reservation has ended before [now], and it changed exactly the rows whose ids it
    returns. *)
Theorem expiry_complete now d :
  let '(ids, d') := expire_old_reservations now d in
  (∀ r, r ∈ reservations d' → blocking (rv_status r) = true → now ≤ rv_end_time r) ∧
  (∀ r, r ∈ reservations d → rv_id r ∉ ids → r ∈ reservations d') ∧
  (∀ i, i ∈ ids ↔ ∃ r, r ∈ reservations d ∧ rv_id r = i ∧ blocking (rv_status r) = true ∧ rv_end_time r < now).
Proof.
  cbn [expire_old_reservations with_reservations reservations].
  set (due := λ r, blocking (rv_status r) && (rv_end_time r <? now)). split; [|split].
  - intros r Hr Hb. apply elem_of_update in Hr as (y & Hy & ->). destruct (due y) eqn:E; [done|].
    subst due. cbn in E. rewrite Hb in E. by apply Z.ltb_ge in E.
  - intros r Hr Hn. apply elem_of_update. exists r. split; [done|].
    destruct (due r) eqn:E; [|done]. destruct Hn. apply list_elem_of_fmap. exists r. split; [done|].
    by apply elem_of_bfilter.
  - intros i. unfold due. rewrite list_elem_of_fmap. setoid_rewrite elem_of_bfilter.
    setoid_rewrite andb_true_iff. setoid_rewrite Z.ltb_lt. split; intros (r & H); exists r; intuition.
Qed.
