(* ===== verification/StateManager.v ===== *)
(** * StateManager: the state of a parking space and its distributed lock

    Models src/src/state_manager.py: the transition table, [acquire_lock],
    [update_space_state], [update_display] and the availability query.  The world is the
    Redis store, the database and the downlinks sent.  Every call to a server may raise:
    [faults] says which call sites do.  Times are arguments; [others] is what other
    clients of Redis do while [acquire_lock] sleeps before its second try.

    [Lock] is the lock protocol with its clients as a step relation. *)

From Stdlib Require Import QArith.
From S2P Require Import Prelude PyUtils Redis RateLimit DownlinkQueue Models Database Reservations.

Open Scope Z_scope.

Record StateUpdateResult := mkUpdate {
  success : bool; previous_state : option SpaceState; new_state : SpaceState;
  display_updated : bool; error : option string;
}.

Definition VALID_TRANSITIONS (s : SpaceState) : list SpaceState :=
  match s with
  | FREE => [OCCUPIED; RESERVED; MAINTENANCE]
  | OCCUPIED => [FREE; MAINTENANCE]
  | RESERVED => [OCCUPIED; FREE; MAINTENANCE]
  | MAINTENANCE => [FREE]
  end.

Definition is_valid_transition (current_state new_state : SpaceState) (source : string) : bool :=
  if String.eqb source "manual" then true
  else bool_decide (new_state ∈ VALID_TRANSITIONS current_state).

(** The calls that can raise. *)
Inductive CallSite :=
| CGetSpace | CUpdateSpace | CRecordChange | CInvalidate
| CDisplayRow | CTenantRow | CEnqueue | CSend | CActuation | CActuationError.

Definition lock_timeout : Z := 5.

Section Manager.
Context {R : Redis} {F : PyFloat} (sha256_hexdigest : string → string).

Record World := mkWorld { redis : store; db : Db; sent : list (string * list Z * Z * bool) }.

Definition on_redis (f : store → store) (w : World) : World := mkWorld (f (redis w)) (db w) (sent w).
Definition on_db (f : Db → Db) (w : World) : World := mkWorld (redis w) (f (db w)) (sent w).

(** The collaborators: whether a ChirpStack client and a downlink queue were given, and
    what the network does with a direct downlink (its queue id). *)
Record Config := mkConfig {
  has_chirpstack : bool; has_queue : bool;
  direct : string → list Z → Z → bool → result exn (option string);
}.

Context (cfg : Config) (faults : CallSite → option exn).

(** ** The lock *)

Definition lock_key (resource : string) : string := "lock:" +:+ resource.

(** The value is the UTC timestamp at the call. *)
Definition lock_value (now : Z) : string := show_Z now.

(** [SET lock_key value NX EX timeout] *)
Definition set_lock (t : Z) (resource value : string) (s : store) : bool * store :=
  r_set_nx s t (lock_key resource) value (Some lock_timeout).

(** Two tries, a tenth of a second apart; [others] acts in between. *)
Definition try_lock (now : Z) (resource : string) (others : store → store) (s : store) : bool * store :=
  let '(acquired, s) := set_lock now resource (lock_value now) s in
  if acquired then (true, s)
  else set_lock (now + 100000) resource (lock_value now) (others s).

(** The GET of the release: does the key still hold our value? *)
Definition owns_lock (t : Z) (resource value : string) (s : store) : bool :=
  match r_get s t (lock_key resource) with
  | Some current => non_empty current && String.eqb current value
  | None => false
  end.

(** The [finally] clause: the key is deleted when it still holds our value. *)
Definition release (now t_end : Z) (resource : string) (s : store) : store :=
  if owns_lock t_end resource (lock_value now) s then r_del s (lock_key resource) else s.

(** [async with acquire_lock(resource): body], the body ending at [t_end] *)
Definition acquire_lock {A} (now t_end : Z) (resource : string) (others : store → store)
  (body : stE World exn A) : stE World exn A := λ w,
  let '(acquired, s) := try_lock now resource others (redis w) in
  let w := mkWorld s (db w) (sent w) in
  if acquired then
    let '(r, w) := body w in (r, on_redis (release now t_end resource) w)
  else (Err (StateTransitionError ("Could not acquire lock for " +:+ resource) None None), w).

(** ** The display *)

Definition invalidate_cache (space_id : string) (w : World) : World :=
  on_redis (λ s, r_del (r_del (r_del s ("space:" +:+ space_id)) ("space:" +:+ space_id +:+ ":state")) "spaces:all") w.

Record DisplayArgs := mkDisplay {
  da_space_id : string; da_display_eui : string; da_previous_state : SpaceState;
  da_new_state : SpaceState; da_trigger_type : string; da_trigger_source : string;
}.

Definition actuation (a : DisplayArgs) (device_id code : option string) (fport : option Z)
  (confirmed downlink_sent : bool) (queue_id downlink_error : option string) : Actuation :=
  mkActuation (da_space_id a) (da_trigger_type a) (da_trigger_source a) (Some (da_previous_state a))
    (da_new_state a) (da_display_eui a) device_id code fport confirmed downlink_sent queue_id downlink_error.

(** The exception handler: it logs a failed actuation, unless that fails too. *)
Definition log_failure (a : DisplayArgs) (device_id code : option string) (fport : option Z)
  (downlink_sent : bool) (e : exn) (w : World) : bool * World :=
  match faults CActuationError with
  | Some _ => (false, w)
  | None => (false, on_db (with_actuations (λ l, l ++ [actuation a device_id code fport false downlink_sent None
                                                        (Some (message e))])%list) w)
  end.

(** The downlink itself: the id it got, or [None] when it was deduplicated. *)
Definition send_downlink (now : Z) (cmd_id : string) (a : DisplayArgs) (dev : DisplayDevice)
  (payload_hex : string) (bytes : list Z) (tenant : option string) (w : World)
  : result exn (bool * option string) * World :=
  if has_queue cfg then
    match faults CEnqueue with
    | Some e => (Err e, w)
    | None =>
        let '(queue_id, s) :=
          enqueue sha256_hexdigest now cmd_id
            (mkArgs (da_display_eui a) payload_hex (dd_fport dev) (str_or_empty tenant)
               (dd_confirmed_downlinks dev) None (Some (da_space_id a)) (Some (da_trigger_source a)))
            (redis w) in
        (Ok (truthy queue_id, queue_id), mkWorld s (db w) (sent w))
    end
  else
    match direct cfg (da_display_eui a) bytes (dd_fport dev) (dd_confirmed_downlinks dev) with
    | Err e => (Err e, w)
    | Ok queue_id =>
        (Ok (true, queue_id),
         mkWorld (redis w) (db w)
           (sent w ++ [(da_display_eui a, bytes, dd_fport dev, dd_confirmed_downlinks dev)])%list)
    end.

(** [update_display] *)
Definition update_display (now : Z) (cmd_id : string) (a : DisplayArgs) (w : World) : bool * World :=
  if negb (has_chirpstack cfg) then (false, w)
  else match faults CDisplayRow with
  | Some e => log_failure a None None None false e w
  | None =>
  match fetchrow (λ d, String.eqb (dd_dev_eui d) (da_display_eui a) && dd_enabled d) (display_devices (db w)) with
  | None => (false, w)
  | Some dev =>
  match assoc (state_value (da_new_state a)) (dd_display_codes dev) with
  | None | Some EmptyString => (false, w)
  | Some payload_hex =>
  match bytes_fromhex payload_hex with
  | None => log_failure a (Some (dd_id dev)) (Some payload_hex) None false
              (PyException "non-hexadecimal number found in fromhex() arg") w
  | Some bytes =>
  let fport := Some (dd_fport dev) in
  match faults CTenantRow with
  | Some e => log_failure a (Some (dd_id dev)) (Some payload_hex) fport false e w
  | None =>
  let tenant := (λ s, or_else (sp_tenant_id s) "None") <$> fetchrow (is_space (da_space_id a)) (spaces (db w)) in
  match send_downlink now cmd_id a dev payload_hex bytes tenant w with
  | (Err e, w) => log_failure a (Some (dd_id dev)) (Some payload_hex) fport false e w
  | (Ok (downlink_sent, queue_id), w) =>
  match faults CActuation with
  | Some e => log_failure a (Some (dd_id dev)) (Some payload_hex) fport downlink_sent e w
  | None =>
      (true, on_db (with_actuations (λ l, l ++ [actuation a (Some (dd_id dev)) (Some payload_hex) fport
                     (dd_confirmed_downlinks dev) downlink_sent queue_id None])%list) w)
  end end end end end end end.

(** ** [update_space_state] *)

(** The body under the lock.  An exception other than StateTransitionError becomes a
    result with [success = False]; what was written before it stays written. *)
Definition update_body (now : Z) (cmd_id space_id : string) (new : SpaceState) (source request_id : string)
  : stE World exn StateUpdateResult := λ w,
  let failed prev e w := (Ok (mkUpdate false prev new false (Some (message e))), w) in
  match faults CGetSpace with
  | Some e => failed None e w
  | None =>
  match get_space space_id (db w) with
  | None => (Ok (mkUpdate false None new false (Some "Space not found")), w)
  | Some space =>
  let current := sp_state space in
  if decide (current = new) then (Ok (mkUpdate true (Some current) new false None), w)
  else if negb (is_valid_transition current new source) then
    (Err (StateTransitionError
            ("Invalid transition from " +:+ state_value current +:+ " to " +:+ state_value new +:+ " via " +:+ source)
            (Some (state_value current)) (Some (state_value new))), w)
  else
  match faults CUpdateSpace with
  | Some e => failed (Some current) e w
  | None =>
  let w := on_db (with_spaces (sql_update (is_space space_id) (set_space_state now new))) w in
  match faults CRecordChange with
  | Some e => failed (Some current) e w
  | None =>
  let w := on_db (with_state_changes
                    (λ l, l ++ [mkStateChange space_id current new source (Some request_id) now])%list) w in
  match faults CInvalidate with
  | Some e => failed (Some current) e w
  | None =>
  let w := invalidate_cache space_id w in
  let '(shown, w) :=
    match sp_display_eui space with
    | Some (String c x) =>
        update_display now cmd_id (mkDisplay space_id (String c x) current new source request_id) w
    | _ => (false, w)
    end in
  (Ok (mkUpdate true (Some current) new shown None), w)
  end end end end end.

Definition update_space_state (now t_end : Z) (others : store → store) (cmd_id space_id : string)
  (new : SpaceState) (source request_id : string) : stE World exn StateUpdateResult :=
  acquire_lock now t_end ("space:" +:+ space_id) others
    (update_body now cmd_id space_id new source request_id).

(** ** Availability *)

(** The condition of the query, as it is written. *)
Definition overlap_where (r : Reservation) (start_time end_time : Z) : bool :=
  ((rv_start_time r <=? start_time) && (start_time <? rv_end_time r)) ||
  ((rv_start_time r <? end_time) && (end_time <=? rv_end_time r)) ||
  ((start_time <=? rv_start_time r) && (rv_end_time r <=? end_time)).

Definition check_availability (space_id : string) (start_time end_time : Z) (d : Db) : bool :=
  sql_count (λ r, String.eqb (rv_space_id r) space_id && bool_decide (rv_status r = ACTIVE) &&
                  overlap_where r start_time end_time) (reservations d) =? 0.

Definition get_active_reservation_count (now : Z) (d : Db) : Z :=
  sql_count (λ r, blocking (rv_status r) && (now <? rv_end_time r)) (reservations d).
End Manager.

(** ** What an update changes *)

Section Facts.
Context {R : Redis} {F : PyFloat} (sha256_hexdigest : string → string).
Context (cfg : Config) (faults : CallSite → option exn).

(** [update_display] adds at most actuations to the database, and in Redis it touches
    only keys of the downlink queue. *)
Lemma update_display_frame now cmd_id a w :
  let w' := (update_display sha256_hexdigest cfg faults now cmd_id a w).2 in
  (∃ l, db w' = with_actuations (λ _, l) (db w)) ∧
  (∀ k, starts_with "dl:" k = false → dump (redis w') !! k = dump (redis w) !! k).
Proof.
  assert (∀ d, ∃ l, d = with_actuations (λ _, l) d) as Hid by (intros []; eexists; reflexivity).
  assert (∀ f d, ∃ l, with_actuations f d = with_actuations (λ _, l) d) as Hf by (intros; eexists; reflexivity).
  unfold update_display, log_failure, on_db. destruct (negb _); [split; eauto|].
  destruct (faults CDisplayRow); [destruct (faults CActuationError); split; eauto|].
  destruct (fetchrow _ _) as [dev|]; [|split; eauto].
  destruct (assoc _ _) as [[|c x]|]; [split; eauto| |split; eauto].
  destruct (bytes_fromhex _) as [bytes|]; [|destruct (faults CActuationError); split; eauto].
  destruct (faults CTenantRow); [destruct (faults CActuationError); split; eauto|].
  set (tenant := _ <$> _). unfold send_downlink. destruct (has_queue cfg).
  - destruct (faults CEnqueue); [destruct (faults CActuationError); split; eauto|].
    set (args := mkArgs _ _ _ _ _ _ _ _).
    pose proof (λ k, enqueue_frame sha256_hexdigest now cmd_id args (redis w) k) as He.
    destruct (enqueue _ _ _ _ _) as [q s]. cbn [snd] in He.
    destruct (faults CActuation); [destruct (faults CActuationError)|]; split; eauto.
  - destruct (direct _ _ _ _ _); [|destruct (faults CActuationError); split; eauto].
    destruct (faults CActuation); [destruct (faults CActuationError)|]; split; eauto.
Qed.

(** The database after an update: as before, or with the one space in its new state after
    a valid transition. *)
Definition moved (now : Z) (space_id : string) (new : SpaceState) (source : string) (d d' : Db) : Prop :=
  spaces d' = spaces d ∨
  ∃ s, get_space space_id d = Some s ∧ sp_state s ≠ new ∧ is_valid_transition (sp_state s) new source = true ∧
       spaces d' = sql_update (is_space space_id) (set_space_state now new) (spaces d).

Lemma update_body_sound now cmd_id space_id new source request_id w r w' :
  update_body sha256_hexdigest cfg faults now cmd_id space_id new source request_id w = (r, w') →
  moved now space_id new source (db w) (db w') ∧
  (∀ res, r = Ok res → success res = true →
     (previous_state res = Some new ∧ w' = w) ∨
     ∃ s, get_space space_id (db w) = Some s ∧ previous_state res = Some (sp_state s) ∧
       spaces (db w') = sql_update (is_space space_id) (set_space_state now new) (spaces (db w)) ∧
       state_changes (db w') =
         (state_changes (db w) ++ [mkStateChange space_id (sp_state s) new source (Some request_id) now])%list).
Proof.
  unfold update_body, moved.
  destruct (faults CGetSpace); [intros; simplify_eq; split; [by left|]; by intros ? [= <-]|].
  destruct (get_space space_id (db w)) as [s|] eqn:Es;
    [|intros; simplify_eq; split; [by left|]; by intros ? [= <-]].
  destruct (decide (sp_state s = new)) as [E|Hne].
  { intros; simplify_eq. split; [by left|]. intros ? [= <-] _. by left. }
  destruct (is_valid_transition _ _ _) eqn:Ev; cbn [negb]; [|intros; simplify_eq; split; [by left|done]].
  destruct (faults CUpdateSpace); [intros; simplify_eq; split; [by left|]; by intros ? [= <-]|].
  destruct (faults CRecordChange); [intros; simplify_eq; split; [right; eauto|]; by intros ? [= <-]|].
  destruct (faults CInvalidate); [intros; simplify_eq; split; [right; eauto|]; by intros ? [= <-]|].
  set (w1 := invalidate_cache space_id _).
  set (res := match sp_display_eui s with Some (String _ _) => _ | _ => _ end).
  assert (spaces (db res.2) = spaces (db w1) ∧ state_changes (db res.2) = state_changes (db w1)) as [E1 E2].
  { subst res. destruct (sp_display_eui s) as [[|c x]|]; [done| |done].
    destruct (update_display_frame now cmd_id (mkDisplay space_id (String c x) (sp_state s) new source request_id) w1)
      as [[l Hl] _]. by rewrite Hl. }
  destruct res as [shown w2]. cbn [snd] in E1, E2. intros; simplify_eq. split.
  - right. exists s. repeat split; try done.
  - intros ? [= <-] _. right. exists s. repeat split; try done.
Qed.

(** The tables the state manager only reads *)
Definition same_tables (d d' : Db) : Prop :=
  reservations d' = reservations d ∧ display_devices d' = display_devices d ∧
  sensor_readings d' = sensor_readings d ∧ device_types d' = device_types d ∧ sensor_devices d' = sensor_devices d.

#[export] Instance same_tables_preorder : PreOrder same_tables.
Proof. split; unfold same_tables; [done|]. intros x y z (?&?&?&?&?) (?&?&?&?&?). split_and!; congruence. Qed.

Lemma update_display_tables now cmd_id a w : same_tables (db w) (db (update_display sha256_hexdigest cfg faults now cmd_id a w).2).
Proof. destruct (update_display_frame now cmd_id a w) as [[l ->] _]. done. Qed.

Lemma update_body_tables now cmd_id space_id new source request_id w :
  same_tables (db w) (db (update_body sha256_hexdigest cfg faults now cmd_id space_id new source request_id w).2).
Proof.
  unfold update_body. destruct (faults CGetSpace); [done|]. destruct (get_space _ _) as [s|]; [|done].
  destruct (decide _); [done|]. destruct (negb _); [done|]. destruct (faults CUpdateSpace); [done|].
  destruct (faults CRecordChange); [done|]. destruct (faults CInvalidate); [done|].
  set (w1 := invalidate_cache space_id _). assert (same_tables (db w) (db w1)) as H1 by done.
  destruct (sp_display_eui s) as [[|c x]|]; [exact H1| |exact H1].
  pose proof (update_display_tables now cmd_id (mkDisplay space_id (String c x) (sp_state s) new source request_id) w1) as H2.
  destruct (update_display _ _ _ _ _ _ _) as [b w2]. cbn [snd] in *. by etrans.
Qed.

(** The space's rows after an update to [new] *)
Definition spaces_after (now : Z) (s : Space) (new : SpaceState) (d : Db) : list Space :=
  if decide (sp_state s = new) then spaces d
  else sql_update (is_space (sp_id s)) (set_space_state now new) (spaces d).

Definition changes_after (now : Z) (s : Space) (new : SpaceState) (source request_id : string) (d : Db) : list StateChange :=
  if decide (sp_state s = new) then state_changes d
  else (state_changes d ++ [mkStateChange (sp_id s) (sp_state s) new source (Some request_id) now])%list.

(** When no call fails, an allowed update succeeds. *)
Lemma update_body_ok now cmd_id s new source request_id w :
  (∀ c, faults c = None) → get_space (sp_id s) (db w) = Some s →
  sp_state s = new ∨ is_valid_transition (sp_state s) new source = true →
  ∃ shown w', update_body sha256_hexdigest cfg faults now cmd_id (sp_id s) new source request_id w =
      (Ok (mkUpdate true (Some (sp_state s)) new shown None), w') ∧
    spaces (db w') = spaces_after now s new (db w) ∧
    state_changes (db w') = changes_after now s new source request_id (db w).
Proof.
  intros Hf Hs Hv. unfold update_body, spaces_after, changes_after. rewrite !Hf, Hs.
  destruct (decide (sp_state s = new)) as [E|Hne]; [eauto|]. destruct Hv as [?| ->]; [done|]. cbn [negb].
  set (w1 := invalidate_cache (sp_id s) _).
  destruct (sp_display_eui s) as [[|c x]|]; [eauto| |eauto].
  destruct (update_display_frame now cmd_id (mkDisplay (sp_id s) (String c x) (sp_state s) new source request_id) w1)
    as [[l Hl] _].
  destruct (update_display _ _ _ _ _ _ w1) as [b w2]. cbn [snd] in Hl.
  do 2 eexists. split; [reflexivity|]. rewrite Hl. done.
Qed.

(** The lock touches Redis only: the body runs on the same database, or not at all. *)
Lemma acquire_lock_db {A} now t_end resource others (body : stE World exn A) w r w' :
  acquire_lock now t_end resource others body w = (r, w') →
  (∃ w1 w2, db w1 = db w ∧ body w1 = (r, w2) ∧ db w' = db w2) ∨ (db w' = db w ∧ ∃ e, r = Err e).
Proof.
  unfold acquire_lock. destruct (try_lock _ _ _ _) as [[] s].
  - destruct (body (mkWorld s (db w) (sent w))) as [r1 w2] eqn:E. intros; simplify_eq. left.
    by exists (mkWorld s (db w) (sent w)), w2.
  - intros; simplify_eq. right. eauto.
Qed.

Lemma update_space_state_ok now t_end others cmd_id s new source request_id w :
  (∀ c, faults c = None) → (try_lock now ("space:" +:+ sp_id s) others (redis w)).1 = true →
  get_space (sp_id s) (db w) = Some s →
  sp_state s = new ∨ is_valid_transition (sp_state s) new source = true →
  ∃ shown w', update_space_state sha256_hexdigest cfg faults now t_end others cmd_id (sp_id s) new source request_id w =
      (Ok (mkUpdate true (Some (sp_state s)) new shown None), w') ∧
    spaces (db w') = spaces_after now s new (db w) ∧
    state_changes (db w') = changes_after now s new source request_id (db w).
Proof.
  intros Hf Hl Hs Hv. unfold update_space_state, acquire_lock. destruct (try_lock _ _ _ _) as [b st].
  cbn [fst] in Hl. subst b. set (w1 := mkWorld st (db w) (sent w)).
  destruct (update_body_ok now cmd_id s new source request_id w1 Hf Hs Hv) as (shown & w2 & E & H1 & H2).
  rewrite E. do 2 eexists. split; [reflexivity|]. done.
Qed.

Lemma update_space_state_tables now t_end others cmd_id space_id new source request_id w :
  same_tables (db w) (db (update_space_state sha256_hexdigest cfg faults now t_end others cmd_id space_id new source request_id w).2).
Proof.
  destruct (update_space_state _ _ _ _ _ _ _ _ _ _ _ w) as [r w'] eqn:E. cbn [snd].
  destruct (acquire_lock_db now t_end _ others _ w r w' E) as [(w1 & w2 & E1 & E2 & ->)|[-> _]]; [|done].
  pose proof (update_body_tables now cmd_id space_id new source request_id w1) as H.
  rewrite E2, E1 in H. exact H.
Qed.

(** In Redis the body changes only the queue's keys and the cached space. *)
Lemma update_body_frame now cmd_id space_id new source request_id w k :
  starts_with "dl:" k = false → starts_with "space" k = false →
  dump (redis (update_body sha256_hexdigest cfg faults now cmd_id space_id new source request_id w).2) !! k
    = dump (redis w) !! k.
Proof.
  intros Hk Hk'. unfold update_body.
  pose proof (starts_with_ne "space" k Hk') as Hne.
  destruct (faults CGetSpace); [done|]. destruct (get_space space_id (db w)) as [s|]; [|done].
  destruct (decide _); [done|]. destruct (negb _); [done|].
  destruct (faults CUpdateSpace); [done|]. destruct (faults CRecordChange); [done|].
  destruct (faults CInvalidate); [done|]. set (w1 := invalidate_cache space_id _).
  assert (dump (redis w1) !! k = dump (redis w) !! k) as E1.
  { subst w1. unfold invalidate_cache, on_redis. cbn [redis on_db]. autorewrite with redis.
    rewrite !lookup_del_ne; [done|..].
    - exact (Hne (":" +:+ space_id)).
    - exact (Hne (":" +:+ space_id +:+ ":state")).
    - exact (Hne "s:all"). }
  destruct (sp_display_eui s) as [[|c x]|]; [done| |done].
  destruct (update_display_frame now cmd_id (mkDisplay space_id (String c x) (sp_state s) new source request_id) w1)
    as [_ Hr].
  destruct (update_display _ _ _ _ _ _ _) as [b w2]. cbn [snd redis] in *. by rewrite Hr.
Qed.
End Facts.

(** C7. Only valid transitions reach the database, and a successful update is audited.
    Whatever calls fail, [update_space_state] leaves every space as it was or moves the
    one space to the requested state along an allowed transition (any, for the source
    "manual"); and when it reports success, the space already was in that state and
    nothing changed in the database, or exactly the audit row of the change was
    appended. *)
Theorem update_space_state_sound {R : Redis} {F : PyFloat} sha256_hexdigest cfg faults now t_end others
  cmd_id space_id new source request_id w r w' :
  update_space_state sha256_hexdigest cfg faults now t_end others cmd_id space_id new source request_id w = (r, w') →
  moved now space_id new source (db w) (db w') ∧
  (∀ res, r = Ok res → success res = true →
     (previous_state res = Some new ∧ db w' = db w) ∨
     ∃ s, get_space space_id (db w) = Some s ∧ previous_state res = Some (sp_state s) ∧
       spaces (db w') = sql_update (is_space space_id) (set_space_state now new) (spaces (db w)) ∧
       state_changes (db w') =
         (state_changes (db w) ++ [mkStateChange space_id (sp_state s) new source (Some request_id) now])%list).
Proof.
  intros H. destruct (acquire_lock_db now t_end _ others _ w r w' H) as [(w1 & w2 & E1 & E & E2)|(E & e & ->)].
  - destruct (update_body_sound _ _ _ _ _ _ _ _ _ _ _ _ E) as [Hm Hs]. rewrite E1, <- E2 in *.
    split; [exact Hm|]. intros res Hr Hok. destruct (Hs res Hr Hok) as [[? ->]|?]; [left|right]; [split; congruence|done].
  - split; [left; by rewrite E|done].
Qed.

Definition demo_space : Space :=
  mkSpace "s1" "Bay 1" "A1" None None None None (Some "DD") FREE (Some "site") (Some "t1") None None None 0 0 None.
Definition demo_display : DisplayDevice :=
  mkDisplayDevice "d1" "DD" "kuando" true [("FREE", "00ff00"); ("OCCUPIED", "ff0000")] 15 false
    None None "active" None 0 0.
Definition demo_db : Db := mkDb [demo_space] [] [] [demo_display] [] [] [] [].
Definition demo_world : World (R := gmap_redis) := mkWorld (∅ : store (Redis := gmap_redis)) demo_db [].
Definition demo_config : Config := mkConfig true true (λ _ _ _ _, Ok None).

Definition succeeded (r : result exn StateUpdateResult) : bool :=
  match r with Ok res => success res | Err _ => false end.

Lemma update_space_state_sound_witness :
  let rw := update_space_state (λ x, x) demo_config (λ _, None) 5 (5 + sec) (λ s, s) "c1" "s1" OCCUPIED
                    "sensor" "req" demo_world in
  succeeded rw.1 = true ∧ moved 5 "s1" OCCUPIED "sensor" (db demo_world) (db rw.2).
Proof.
  intros rw. split; [vm_compute; reflexivity|].
  apply (proj1 (update_space_state_sound (R := gmap_redis) (λ x, x) demo_config (λ _, None) 5 (5 + sec) (λ s, s)
    "c1" "s1" OCCUPIED "sensor" "req" demo_world rw.1 rw.2 (surjective_pairing rw))).
Defined.

(** The lock is given back on every path.  A call that obtains the lock and ends within
    the five seconds of its expiry leaves the lock free, whether it succeeds, reports a
    failure or raises, whatever calls fail inside. *)
Theorem lock_released {R : Redis} {F : PyFloat} sha256_hexdigest cfg faults now t_end others
  cmd_id space_id new source request_id w :
  0 ≤ now ≤ t_end → t_end < now + lock_timeout * sec →
  (try_lock now ("space:" +:+ space_id) others (redis w)).1 = true →
  alive t_end (lock_key ("space:" +:+ space_id))
    (dump (redis (update_space_state sha256_hexdigest cfg faults now t_end others cmd_id space_id new source
                    request_id w).2)) = None.
Proof.
  intros Ht Hend Hl. unfold update_space_state, acquire_lock.
  set (k := lock_key ("space:" +:+ space_id)).
  assert (∃ d, t_end < d ∧ dump (try_lock now ("space:" +:+ space_id) others (redis w)).2 !! k
                = Some (RStr (lock_value now), Some d)) as (d & Hd & Ek).
  { revert Hl. unfold try_lock, set_lock. fold k.
    assert (∀ s t, (r_set_nx s t k (lock_value now) (Some lock_timeout)).1 = true →
      dump (r_set_nx s t k (lock_value now) (Some lock_timeout)).2 !! k
        = Some (RStr (lock_value now), Some (t + lock_timeout * sec))) as Hset.
    { intros s t. destruct (r_set_nx_law s t k (lock_value now) (Some lock_timeout)) as [-> ->].
      unfold ks_set_nx. destruct (alive t k (dump s)); [done|]. intros _. cbn [snd]. unfold ks_set. by rewrite lookup_insert_eq. }
    pose proof (Hset (redis w) now) as H1. destruct (r_set_nx (redis w) now k _ _) as [[] s1]; cbn [fst snd] in *.
    - intros _. exists (now + lock_timeout * sec). split; [lia|by apply H1].
    - intros H2. exists (now + 100000 + lock_timeout * sec). split; [lia|by apply Hset]. }
  destruct (try_lock now _ others (redis w)) as [acquired s]. cbn [fst snd] in *. subst acquired.
  set (w1 := mkWorld s (db w) (sent w)).
  pose proof (update_body_frame sha256_hexdigest cfg faults now cmd_id space_id new source request_id w1 k eq_refl eq_refl) as Hf.
  destruct (update_body _ _ _ _ _ _ _ _ _ w1) as [r w2]. cbn [snd on_redis redis] in *. subst w1. cbn [redis] in Hf.
  unfold release, owns_lock. fold k.
  assert (r_get (redis w2) t_end k = Some (lock_value now)) as ->.
  { rewrite r_get_law. unfold str_at, alive. rewrite Hf, Ek. unfold live; cbn [snd].
    by rewrite (proj2 (Z.ltb_lt t_end d)) by lia. }
  rewrite String.eqb_refl, andb_true_r. unfold lock_value.
  assert (non_empty (show_Z now) = true) as -> by (apply show_Z_non_empty).
  autorewrite with redis. unfold alive, ks_del. by rewrite lookup_delete_eq.
Qed.

Lemma lock_released_witness :
  alive (5 + sec) (lock_key "space:s1")
    (dump (redis (update_space_state (λ x, x) demo_config (λ c, match c with CRecordChange => Some (DatabaseError "down") | _ => None end)
                    5 (5 + sec) (λ s, s) "c1" "s1" OCCUPIED "sensor" "req" demo_world).2)) = None.
Proof.
  apply (lock_released (R := gmap_redis)); [unfold sec; lia|unfold lock_timeout, sec; lia|reflexivity].
Defined.

(** A failure between the two writes leaves the change unrecorded.  When the audit INSERT
    raises, the call reports [success = False] although the space already is in its new
    state, and no audit row exists: the two statements are not one transaction. *)
Theorem torn_update {R : Redis} {F : PyFloat} sha256_hexdigest cfg faults now t_end others
  cmd_id space_id new source request_id w s e :
  faults CGetSpace = None → faults CUpdateSpace = None → faults CRecordChange = Some e →
  get_space space_id (db w) = Some s → sp_state s ≠ new → is_valid_transition (sp_state s) new source = true →
  (try_lock now ("space:" +:+ space_id) others (redis w)).1 = true →
  let '(r, w') := update_space_state sha256_hexdigest cfg faults now t_end others cmd_id space_id new source
                    request_id w in
  r = Ok (mkUpdate false (Some (sp_state s)) new false (Some (message e))) ∧
  spaces (db w') = sql_update (is_space space_id) (set_space_state now new) (spaces (db w)) ∧
  state_changes (db w') = state_changes (db w).
Proof.
  intros F1 F2 F3 Hs Hne Hv Hl. unfold update_space_state, acquire_lock.
  destruct (try_lock now _ others (redis w)) as [acquired st]. cbn [fst] in Hl. subst acquired.
  unfold update_body. rewrite F1. cbn [db]. rewrite Hs, decide_False by done. rewrite Hv, F2, F3. done.
Qed.

Lemma torn_update_witness :
  let '(r, w') := update_space_state (λ x, x) demo_config
                    (λ c, match c with CRecordChange => Some (DatabaseError "down") | _ => None end)
                    5 (5 + sec) (λ s, s) "c1" "s1" OCCUPIED "sensor" "req" demo_world in
  r = Ok (mkUpdate false (Some FREE) OCCUPIED false (Some "down")) ∧
  spaces (db w') = sql_update (is_space "s1") (set_space_state 5 OCCUPIED) (spaces (db demo_world)) ∧
  state_changes (db w') = state_changes (db demo_world).
Proof.
  apply (torn_update (R := gmap_redis) (λ x, x) demo_config
    (λ c, match c with CRecordChange => Some (DatabaseError "down") | _ => None end)
    5 (5 + sec) (λ s, s) "c1" "s1" OCCUPIED "sensor" "req" demo_world demo_space (DatabaseError "down"));
    (reflexivity || discriminate).
Defined.

(** ** Availability *)

Lemma overlap_where_spec r start_time end_time :
  rv_start_time r < rv_end_time r → start_time < end_time →
  overlap_where r start_time end_time = range_overlap (rv_start_time r) (rv_end_time r) start_time end_time.
Proof.
  intros H1 H2. apply eq_true_iff_eq. unfold overlap_where, range_overlap.
  rewrite !orb_true_iff, !andb_true_iff, !Z.leb_le, !Z.ltb_lt. lia.
Qed.

Lemma sql_count_zero {A} (p : A → bool) l : sql_count p l = 0 ↔ ∀ x, x ∈ l → p x = false.
Proof.
  unfold sql_count. split.
  - intros H x Hx. apply not_true_iff_false. intros E.
    assert (x ∈ List.filter p l) as Hin by by apply elem_of_bfilter.
    destruct (List.filter p l); [by apply elem_of_nil in Hin|discriminate].
  - intros H. destruct (List.filter p l) as [|x l'] eqn:E; [done|].
    assert (x ∈ List.filter p l) as [Hx Hp]%elem_of_bfilter by (rewrite E; by left).
    rewrite H in Hp; done.
Qed.

(** The three-part condition of the availability query is interval intersection: on
    well-formed rows, a slot is available exactly when every active reservation of the
    space ends by its start or starts at or after its end. *)
Theorem check_availability_spec space_id start_time end_time d :
  reservations_ok (reservations d) → start_time < end_time →
  check_availability space_id start_time end_time d = true ↔
  ∀ r, r ∈ reservations d → rv_space_id r = space_id → rv_status r = ACTIVE →
    rv_end_time r ≤ start_time ∨ end_time ≤ rv_start_time r.
Proof.
  intros Hok Ht. unfold check_availability. rewrite Z.eqb_eq, sql_count_zero.
  assert (∀ r, r ∈ reservations d →
    overlap_where r start_time end_time = false ↔ rv_end_time r ≤ start_time ∨ end_time ≤ rv_start_time r) as Ho.
  { intros r Hr. pose proof (ok_times _ Hok r Hr). rewrite overlap_where_spec by lia.
    unfold range_overlap. rewrite <- not_true_iff_false, !andb_true_iff, !Z.ltb_lt. lia. }
  split.
  - intros H r Hr Hs Ha. specialize (H r Hr). apply Ho; [done|]. revert H.
    rewrite Hs, String.eqb_refl, bool_decide_eq_true_2 by done. done.
  - intros H r Hr. destruct (String.eqb_spec (rv_space_id r) space_id); [|done].
    case_bool_decide; [|done]. cbn. apply Ho; auto.
Qed.

Lemma check_availability_spec_witness :
  check_availability "s1" (100 * sec) (200 * sec) booked = true ∧
  ∀ r, r ∈ reservations booked → rv_space_id r = "s1" → rv_status r = ACTIVE →
    rv_end_time r ≤ 100 * sec ∨ 200 * sec ≤ rv_start_time r.
Proof.
  split; [vm_compute; reflexivity|].
  apply (check_availability_spec "s1" (100 * sec) (200 * sec) booked);
    [|unfold sec; lia|vm_compute; reflexivity].
  eapply reachable_ok; [exact booked_reachable|by apply empty_ok].
Defined.

(** The availability check is blind to the API's own bookings: it counts the status
    "active", the API writes "confirmed", so on a table without active rows the slot
    just booked is still reported as available. *)
Theorem availability_blind_to_bookings now nq ni q d out d' :
  (∀ r, r ∈ reservations d → rv_status r ≠ ACTIVE) →
  create_reservation now nq ni (λ d, d) q d = (Ok out, d') →
  check_availability (cq_id q) (cq_reserved_from q) (cq_reserved_until q) d' = true.
Proof.
  intros Hna Hc. assert (∀ r, r ∈ reservations d' → rv_status r ≠ ACTIVE) as Hna'.
  { revert Hc. unfold create_reservation. destruct (by_request_id _ d); [by intros H; injection H as _ <-|].
    destruct (get_space _ d) as [s|]; [|by intros; simplify_eq].
    destruct (sp_tenant_id s) as [t|]; [|by intros H; injection H as _ <-].
    destruct (insert_reservation _ d) as [[r|e] d1] eqn:E; intros H; injection H as H0 <-.
    - apply insert_ok in E as (-> & -> & _). intros x [Hx| ->]%elem_of_snoc; [by apply Hna|done].
    - assert (d1 = d) as ->; [|done]. revert E. unfold insert_reservation.
      repeat case_match; intros; by simplify_eq. }
  unfold check_availability. apply Z.eqb_eq, sql_count_zero. intros r Hr.
  rewrite (bool_decide_eq_false_2 _ (Hna' r Hr)). by rewrite andb_false_r.
Qed.

Lemma availability_blind_to_bookings_witness :
  check_availability "s1" 0 (3600 * sec) (create_reservation 0 "q" "r1" (λ d, d) (request 0 3600 "q1") one_space).2 = true.
Proof.
  destruct (create_reservation 0 "q" "r1" (λ d, d) (request 0 3600 "q1") one_space) as [[out|e] d'] eqn:E;
    [|vm_compute in E; discriminate].
  apply (availability_blind_to_bookings 0 "q" "r1" (request 0 3600 "q1") one_space out d'); [|exact E].
  intros r Hr. by apply elem_of_nil in Hr.
Defined.

(** ** The lock protocol *)

Module Lock.

(** A client inside the critical section: the value it wrote, the expiry of its key, and
    whether its release has read the key and is about to delete it. *)
Record Client := mkClient { cl_name : string; cl_value : string; cl_deadline : Z; cl_releasing : bool }.

Section Protocol.
Context {R : Redis} (resource : string).

Record LockState := mkLock { lk_store : store; lk_now : Z; lk_holders : list Client }.

(** The steps of [acquire_lock] over all clients.  With [in_time], a client deletes the
    key only before its own deadline; without it, whenever it gets to. *)
Inductive lock_step (in_time : bool) : LockState → LockState → Prop :=
| lk_tick s t t' hs : t ≤ t' → lock_step in_time (mkLock s t hs) (mkLock s t' hs)
| lk_acquire s t t0 hs name s' :
    set_lock t resource (lock_value t0) s = (true, s') →
    lock_step in_time (mkLock s t hs)
      (mkLock s' t (hs ++ [mkClient name (lock_value t0) (t + lock_timeout * sec) false])%list)
| lk_check s t l1 c l2 :
    cl_releasing c = false → owns_lock t resource (cl_value c) s = true →
    lock_step in_time (mkLock s t (l1 ++ c :: l2)%list)
      (mkLock s t (l1 ++ mkClient (cl_name c) (cl_value c) (cl_deadline c) true :: l2)%list)
| lk_lost s t l1 c l2 :
    cl_releasing c = false → owns_lock t resource (cl_value c) s = false →
    lock_step in_time (mkLock s t (l1 ++ c :: l2)%list) (mkLock s t (l1 ++ l2)%list)
| lk_delete s t l1 c l2 :
    cl_releasing c = true → (in_time = true → t < cl_deadline c) →
    lock_step in_time (mkLock s t (l1 ++ c :: l2)%list) (mkLock (r_del s (lock_key resource)) t (l1 ++ l2)%list).

Definition inside (t : Z) (hs : list Client) : list Client := filter (λ c, t < cl_deadline c) hs.

(** The clients inside whose key has not expired: at most one, and the key is theirs. *)
Record exclusive (st : LockState) : Prop := {
  ex_one : (length (inside (lk_now st) (lk_holders st)) ≤ 1)%nat;
  ex_key c : c ∈ inside (lk_now st) (lk_holders st) →
    dump (lk_store st) !! lock_key resource = Some (RStr (cl_value c), Some (cl_deadline c));
}.

Lemma inside_app t l1 l2 : inside t (l1 ++ l2)%list = (inside t l1 ++ inside t l2)%list.
Proof. unfold inside. by rewrite filter_app. Qed.

Lemma inside_mono t t' hs : t ≤ t' → inside t' hs `sublist_of` inside t hs.
Proof.
  intros Ht. unfold inside. induction hs as [|c hs IH]; [done|]. rewrite !filter_cons.
  repeat case_decide; [by apply sublist_skip|lia|by apply sublist_cons|done].
Qed.

Lemma step_exclusive st st' : lock_step true st st' → exclusive st → exclusive st'.
Proof.
  intros Hs [H1 H2]. destruct Hs as [s t t' hs Ht|s t t0 hs name s' Ha|s t l1 c l2 Hr Hg|s t l1 c l2 Hr Hg|s t l1 c l2 Hr Hd];
    cbn [lk_now lk_holders lk_store] in *.
  - pose proof (inside_mono t t' hs Ht) as Hsub. split; cbn [lk_now lk_holders lk_store].
    + etrans; [by apply sublist_length|done].
    + intros c Hc. apply H2. by eapply elem_of_sublist.
  - unfold set_lock in Ha. destruct (r_set_nx_law s t (lock_key resource) (lock_value t0) (Some lock_timeout)) as [E1 E2].
    rewrite Ha in E1, E2. cbn in E1, E2. unfold ks_set_nx in E1, E2.
    destruct (alive t (lock_key resource) (dump s)) eqn:Ea; [done|]. cbn in E2.
    assert (inside t hs = []) as Hnil.
    { destruct (inside t hs) as [|c l] eqn:E; [done|]. exfalso.
      assert (c ∈ inside t hs) as Hc by (rewrite E; by left).
      specialize (H2 c ltac:(by left)). unfold alive in Ea. rewrite H2 in Ea.
      unfold live in Ea; cbn in Ea. unfold inside in Hc. apply list_elem_of_filter in Hc as [Hc _].
      by rewrite (proj2 (Z.ltb_lt _ _) Hc) in Ea. }
    split; cbn [lk_now lk_holders lk_store]; rewrite inside_app, Hnil; cbn [app].
    + unfold inside. rewrite filter_cons. case_decide; cbn; lia.
    + intros c Hc. unfold inside in Hc. apply list_elem_of_filter in Hc as [_ Hc%list_elem_of_singleton].
      subst c. cbn. rewrite E2. unfold ks_set. by rewrite lookup_insert_eq.
  - set (c' := mkClient _ _ _ _).
    assert (∀ l, length (inside t (c' :: l)) = length (inside t (c :: l))) as El.
    { intros l. unfold inside. rewrite !filter_cons. cbn. by case_decide. }
    split; cbn [lk_now lk_holders lk_store].
    + rewrite inside_app, length_app, El, <- length_app, <- inside_app. done.
    + intros x Hx. rewrite inside_app, elem_of_app in Hx. unfold inside in *.
      rewrite !list_elem_of_filter in Hx. destruct Hx as [[Ht Hx]|[Ht [->|Hx]%elem_of_cons]].
      * apply H2, list_elem_of_filter. split; [done|]. apply elem_of_app. by left.
      * apply (H2 c), list_elem_of_filter. split; [done|]. apply elem_of_app. right. by left.
      * apply H2, list_elem_of_filter. split; [done|]. apply elem_of_app. right. by right.
  - assert (inside t (l1 ++ l2)%list `sublist_of` inside t (l1 ++ c :: l2)%list) as Hsub.
    { rewrite !inside_app. apply sublist_app; [done|]. unfold inside. rewrite filter_cons.
      case_decide; [by apply sublist_cons|done]. }
    split; cbn [lk_now lk_holders lk_store].
    + etrans; [by apply sublist_length|done].
    + intros x Hx. apply H2. by eapply elem_of_sublist.
  - assert (inside t (l1 ++ l2)%list = []) as Hnil.
    { apply length_zero_iff_nil. rewrite inside_app, length_app in H1 |- *. unfold inside in H1 at 2.
      rewrite filter_cons, decide_True in H1 by auto. cbn in H1. unfold inside at 2. lia. }
    split; cbn [lk_now lk_holders lk_store]; rewrite Hnil; [cbn; lia|by intros x ?%elem_of_nil].
Qed.
End Protocol.

(** C10. Mutual exclusion.  As long as no client deletes the key after its own lock has
    expired, at most one client with an unexpired lock is in the critical section, in
    every state the protocol reaches. *)
Theorem lock_mutual_exclusion {R : Redis} resource s t st :
  rtc (lock_step resource true) (mkLock s t []) st →
  (length (inside (lk_now st) (lk_holders st)) ≤ 1)%nat.
Proof.
  intros Hs. enough (exclusive resource st) as [H _] by exact H.
  assert (exclusive resource (mkLock s t [])) as H0 by (split; cbn; [lia|by intros c ?%elem_of_nil]).
  revert H0. induction Hs as [|x y z Hxy _ IH]; [done|]. intros Hx. by apply IH, (step_exclusive resource x).
Qed.

Definition one_holder : LockState (R := gmap_redis) :=
  mkLock (r_set_nx (Redis := gmap_redis) ∅ 0 "lock:r" "0" (Some 5)).2 0 [mkClient "A" "0" (5 * sec) false].

Lemma lock_mutual_exclusion_witness :
  (length (inside (lk_now one_holder) (lk_holders one_holder)) ≤ 1)%nat.
Proof.
  apply (lock_mutual_exclusion (R := gmap_redis) "r" ∅ 0 one_holder).
  apply rtc_once. apply (lk_acquire (R := gmap_redis) "r" true ∅ 0 0 [] "A"). vm_compute. reflexivity.
Defined.

(** The release is a GET followed by a DEL, and the guard of [lock_mutual_exclusion] is
    needed: a client that reads its own value just before expiry and deletes just after
    removes the lock of the next client, and a third one enters beside it. *)
Theorem lock_release_race :
  ∃ st, rtc (lock_step (R := gmap_redis) "r" false) (mkLock ∅ 0 []) st ∧
        length (inside (lk_now st) (lk_holders st)) = 2%nat.
Proof.
  set (A := mkClient "A" (lock_value 0) (5 * sec) false).
  set (A' := mkClient "A" (lock_value 0) (5 * sec) true).
  set (B := mkClient "B" (lock_value (6 * sec)) (11 * sec) false).
  set (C := mkClient "C" (lock_value (6 * sec)) (11 * sec) false).
  eexists. split.
  - eapply rtc_l; [eapply (lk_acquire (R := gmap_redis) "r" false _ 0 0 [] "A"); vm_compute; reflexivity|].
    eapply rtc_l; [apply (lk_tick (R := gmap_redis) "r" false _ 0 (4 * sec)); unfold sec; lia|].
    eapply rtc_l; [eapply (lk_check (R := gmap_redis) "r" false _ _ [] A []); vm_compute; reflexivity|].
    eapply rtc_l; [apply (lk_tick (R := gmap_redis) "r" false _ (4 * sec) (6 * sec)); unfold sec; lia|].
    eapply rtc_l; [eapply (lk_acquire (R := gmap_redis) "r" false _ (6 * sec) (6 * sec) [A'] "B"); vm_compute; reflexivity|].
    eapply rtc_l; [apply (lk_delete (R := gmap_redis) "r" false _ _ [] A' [B]); [reflexivity|discriminate]|].
    eapply rtc_l; [eapply (lk_acquire (R := gmap_redis) "r" false _ (6 * sec) (6 * sec) [B] "C"); vm_compute; reflexivity|].
    apply rtc_refl.
  - vm_compute. reflexivity.
Qed.
End Lock.
