(* ===== verification/DisplayMachine.v ===== *)
(** * DisplayMachine: display policies, sensor debouncing and the priority rules

    Models src/src/display_state_machine.py, the SQL function [compute_display_state] of
    src/migrations/006_display_state_machine.sql that it calls, and the policy and
    override endpoints of src/src/routers/display_policies.py.  [Tables] are the tables
    these use besides the reservations of [Database]; [Machine] is the Python object with
    its policy cache.  Timestamps are microseconds.  (The CREATE TABLE of display_policies
    ends in a comma too many; the table is the one it means.) *)

From S2P Require Import Prelude PyUtils Json Redis Models Database Reservations.

Open Scope Z_scope.

(** ** Data *)

Inductive SensorState := Occupied | Vacant | Unknown.
Inductive AdminOverrideType := Blocked | OutOfService.

#[export] Instance sensor_state_eq_dec : EqDecision SensorState.
Proof. solve_decision. Defined.
#[export] Instance override_eq_dec : EqDecision AdminOverrideType.
Proof. solve_decision. Defined.

Record DisplayPolicy := mkPolicy {
  p_id : string; p_tenant_id : string; p_name : string;
  reserved_soon_threshold_sec : Z; sensor_unknown_timeout_sec : Z; debounce_window_sec : Z;
  occupied_color : string; free_color : string; reserved_color : string;
  reserved_soon_color : string; blocked_color : string; out_of_service_color : string;
  blink_reserved_soon : bool; blink_pattern_ms : Z; allow_sensor_override : bool;
}.

(** The dataclass defaults *)
Definition default_policy (id tenant_id name : string) : DisplayPolicy :=
  mkPolicy id tenant_id name 900 60 10 "FF0000" "00FF00" "FFA500" "FFFF00" "808080" "800080" false 500 true.

Record SensorReading := mkSensor { sr_state : SensorState; sr_timestamp : Z }.

Record DebounceState := mkDebounce {
  last_sensor_state : option SensorState; last_sensor_timestamp : option Z;
  pending_sensor_state : option SensorState; pending_since : option Z; pending_count : Z;
  stable_sensor_state : option SensorState; stable_since : option Z;
  last_display_state : option string; last_display_color : option string; last_display_blink : bool;
}.

Definition new_debounce : DebounceState :=
  mkDebounce None None None None 0 None None None None false.

Record DisplayCommand := mkCommand {
  c_state : string; c_color : string; c_blink : bool; c_priority_level : Z; c_reason : string;
}.

Record AdminOverride := mkOverride {
  ov_id : string; ov_space_id : string; ov_tenant_id : option string; ov_type : AdminOverrideType;
  ov_start_time : Z; ov_end_time : option Z; ov_is_active : bool;
}.

(** A row of display_policies *)
Record PolicyRow := mkPolicyRow {
  pr_policy : DisplayPolicy; pr_description : option string; pr_is_active : bool;
  pr_created_at : Z; pr_updated_at : option Z;
}.

Record Tables := mkTables {
  core : Db;
  policies : list PolicyRow;
  debounce : gmap string DebounceState;
  overrides : list AdminOverride;
}.

Definition with_debounce (f : gmap string DebounceState → gmap string DebounceState) (t : Tables) : Tables :=
  mkTables (core t) (policies t) (f (debounce t)) (overrides t).
Definition with_policies (f : list PolicyRow → list PolicyRow) (t : Tables) : Tables :=
  mkTables (core t) (f (policies t)) (debounce t) (overrides t).
Definition with_overrides (f : list AdminOverride → list AdminOverride) (t : Tables) : Tables :=
  mkTables (core t) (policies t) (debounce t) (f (overrides t)).

Definition policy_of (tenant_id : string) (q : PolicyRow) : bool := String.eqb (p_tenant_id (pr_policy q)) tenant_id.
Definition active_of (tenant_id : string) (q : PolicyRow) : bool := policy_of tenant_id q && pr_is_active q.
Definition is_policy (policy_id : string) (q : PolicyRow) : bool := String.eqb (p_id (pr_policy q)) policy_id.

Definition active_policy (tenant_id : string) (t : Tables) : option DisplayPolicy :=
  pr_policy <$> fetchrow (active_of tenant_id) (policies t).

(** ** The SQL function [compute_display_state] *)

Definition override_applies (now : Z) (space_id : string) (ty : AdminOverrideType) (o : AdminOverride) : bool :=
  String.eqb (ov_space_id o) space_id && ov_is_active o && bool_decide (ov_type o = ty) &&
  (ov_start_time o <=? now) && on_opt (λ e, now <? e) (ov_end_time o).

Definition reserved_now (now : Z) (space_id : string) (r : Reservation) : bool :=
  String.eqb (rv_space_id r) space_id && blocking (rv_status r) &&
  (rv_start_time r <=? now) && (now <? rv_end_time r).

Definition reserved_soon (now : Z) (space_id : string) (threshold_sec : Z) (r : Reservation) : bool :=
  String.eqb (rv_space_id r) space_id && blocking (rv_status r) &&
  (now <? rv_start_time r) && (rv_start_time r <=? now + threshold_sec * sec).

(** [EXTRACT(EPOCH FROM d)::INTEGER] rounds to the nearest second, halves away from
    zero; [d] is positive here. *)
Definition epoch_integer (d : Z) : Z := (d + sec / 2) / sec.

Definition sensor_recent (now timeout_sec : Z) (d : DebounceState) : bool :=
  match stable_since d with Some t => now - t <=? timeout_sec * sec | None => false end.

(** [RETURN QUERY SELECT]: the row as the function's result *)
Definition compute_display_state (now : Z) (space_id tenant_id : string) (t : Tables) : DisplayCommand :=
  let policy := or_else (active_policy tenant_id t) (default_policy "" tenant_id "default") in
  let rows := reservations (core t) in
  if existsb (override_applies now space_id OutOfService) (overrides t) then
    mkCommand "MAINTENANCE" (out_of_service_color policy) false 1 "Admin override: out_of_service"
  else if existsb (override_applies now space_id Blocked) (overrides t) then
    mkCommand "MAINTENANCE" (blocked_color policy) false 2 "Admin override: blocked"
  else if existsb (reserved_now now space_id) rows then
    mkCommand "RESERVED" (reserved_color policy) false 3 "Active reservation"
  else
  match by_start (List.filter (reserved_soon now space_id (reserved_soon_threshold_sec policy)) rows) with
  | r :: _ =>
      mkCommand "RESERVED" (reserved_soon_color policy) (blink_reserved_soon policy) 4
        ("Reservation starts in " +:+ show_Z (epoch_integer (rv_start_time r - now)) +:+ " seconds")
  | [] =>
      let default := mkCommand "FREE" (free_color policy) false 7 "Default: no sensor data" in
      match debounce t !! space_id with
      | None => default
      | Some d =>
          let held :=
            match last_display_state d with
            | Some st =>
                mkCommand st (or_else (last_display_color d) "") (last_display_blink d) 6
                  ("Holding last stable state (sensor timeout " +:+ show_Z (sensor_unknown_timeout_sec policy) +:+ "s)")
            | None => default
            end in
          if sensor_recent now (sensor_unknown_timeout_sec policy) d then
            match stable_sensor_state d with
            | Some Occupied => mkCommand "OCCUPIED" (occupied_color policy) false 5 "Sensor: occupied"
            | Some Vacant => mkCommand "FREE" (free_color policy) false 5 "Sensor: vacant"
            | _ => held
            end
          else held
      end
  end.

(** The function always returns a row, so the Python fallback is never taken. *)
Definition compute_display_command (now : Z) (space_id tenant_id : string) (t : Tables) : DisplayCommand :=
  compute_display_state now space_id tenant_id t.

(** ** The machine *)

Record Machine := mkMachine {
  policy_cache : gmap string (DisplayPolicy * Z);     (* policy and version *)
  policy_cache_time : gmap string Z;
}.

Definition policy_cache_ttl : Z := 300.

Section Python.
Context {R : Redis}.

Definition version_key (tenant_id : string) : string := "display_policy:tenant:" +:+ tenant_id +:+ ":v".

(** The version in Redis: 0 without a client, without a key or when it does not parse. *)
Definition current_version (now : Z) (redis : option store) (tenant_id : string) : Z :=
  match redis with
  | Some s => match r_get s now (version_key tenant_id) with
              | Some (String c x) => or_else (read_Z (String c x)) 0
              | _ => 0
              end
  | None => 0
  end.

Definition cached_policy (now version : Z) (tenant_id : string) (self : Machine) : option DisplayPolicy :=
  match policy_cache_time self !! tenant_id with
  | Some cache_time =>
      if now - cache_time <? policy_cache_ttl * sec then
        match policy_cache self !! tenant_id with
        | Some (p, v) => if v =? version then Some p else None
        | None => None
        end
      else None
  | None => None
  end.

Definition _get_display_policy (now : Z) (redis : option store) (tenant_id : string) (t : Tables)
  (self : Machine) : DisplayPolicy * Machine :=
  let version := current_version now redis tenant_id in
  match cached_policy now version tenant_id self with
  | Some p => (p, self)
  | None =>
      let policy := or_else (active_policy tenant_id t) (default_policy "default" tenant_id "Default Policy") in
      (policy, mkMachine (<[tenant_id := (policy, version)]> (policy_cache self))
                 (<[tenant_id := now]> (policy_cache_time self)))
  end.

Definition invalidate_policy_cache (tenant_id : string) (self : Machine) : Machine :=
  mkMachine (delete tenant_id (policy_cache self)) (delete tenant_id (policy_cache_time self)).

(** [_get_debounce_state] *)
Definition _get_debounce_state (space_id : string) (t : Tables) : DebounceState :=
  or_else (debounce t !! space_id) new_debounce.

(** [_save_debounce_state]: INSERT ... ON CONFLICT DO UPDATE *)
Definition _save_debounce_state (space_id : string) (d : DebounceState) (t : Tables) : Tables :=
  with_debounce <[space_id := d]> t.

Definition start_pending (now : Z) (st : SensorState) (d : DebounceState) : DebounceState :=
  mkDebounce (last_sensor_state d) (last_sensor_timestamp d) (Some st) (Some now) 1
    (stable_sensor_state d) (stable_since d) (last_display_state d) (last_display_color d) (last_display_blink d).

(** The debouncing of one reading: the new record, without the "last reading" fields,
    and whether the stable state changed. *)
Definition debounce_step (now window_sec : Z) (st : SensorState) (d : DebounceState) : DebounceState * bool :=
  if decide (last_sensor_state d ≠ Some st) then
    if decide (pending_sensor_state d = Some st) then
      if now - or_else (pending_since d) now <=? window_sec * sec then
        let count := pending_count d + 1 in
        if 2 <=? count then
          (mkDebounce (last_sensor_state d) (last_sensor_timestamp d) None None 0 (Some st) (Some now)
             (last_display_state d) (last_display_color d) (last_display_blink d), true)
        else
          (mkDebounce (last_sensor_state d) (last_sensor_timestamp d) (pending_sensor_state d) (pending_since d)
             count (stable_sensor_state d) (stable_since d) (last_display_state d) (last_display_color d)
             (last_display_blink d), false)
      else (start_pending now st d, false)
    else (start_pending now st d, false)
  else
    (mkDebounce (last_sensor_state d) (last_sensor_timestamp d) None (pending_since d) 0
       (stable_sensor_state d) (stable_since d) (last_display_state d) (last_display_color d)
       (last_display_blink d), false).

Definition set_last (reading : SensorReading) (d : DebounceState) : DebounceState :=
  mkDebounce (Some (sr_state reading)) (Some (sr_timestamp reading)) (pending_sensor_state d) (pending_since d)
    (pending_count d) (stable_sensor_state d) (stable_since d) (last_display_state d) (last_display_color d)
    (last_display_blink d).

Definition set_display (c : DisplayCommand) (d : DebounceState) : DebounceState :=
  mkDebounce (last_sensor_state d) (last_sensor_timestamp d) (pending_sensor_state d) (pending_since d)
    (pending_count d) (stable_sensor_state d) (stable_since d) (Some (c_state c)) (Some (c_color c)) (c_blink c).

Definition process_sensor_reading (now : Z) (redis : option store) (space_id tenant_id : string)
  (reading : SensorReading) (self : Machine) (t : Tables) : (bool * option DisplayCommand) * Machine * Tables :=
  let debounce_state := _get_debounce_state space_id t in
  let '(policy, self) := _get_display_policy now redis tenant_id t self in
  let '(debounce_state, state_changed) :=
    debounce_step now (debounce_window_sec policy) (sr_state reading) debounce_state in
  let debounce_state := set_last reading debounce_state in
  let t := _save_debounce_state space_id debounce_state t in
  if state_changed then
    let display_command := compute_display_command now space_id tenant_id t in
    let t := _save_debounce_state space_id (set_display display_command debounce_state) t in
    (true, Some display_command, self, t)
  else (false, None, self, t).

(** [force_recompute_all_spaces]: the commands it computes and logs *)
Definition force_recompute_all_spaces (now : Z) (tenant_id : string) (t : Tables) : list DisplayCommand :=
  map (λ s, compute_display_command now (sp_id s) tenant_id t)
    (List.filter (λ s, bool_decide (sp_tenant_id s = Some tenant_id) && live_space s) (spaces (core t))).

(** ** The endpoints *)

(** What [app.state] has: the machine and a Redis client, each optional. *)
Record App := mkApp { app_machine : option Machine; app_redis : option store }.

Definition color_ok (s : string) : bool := (String.length s =? 6)%nat && str_forallb is_hex s.
Definition in_range (lo hi n : Z) : bool := (lo <=? n) && (n <=? hi).

(** [DisplayPolicyCreate]'s field checks *)
Definition validate_policy (p : DisplayPolicy) : result string unit :=
  _ ← guard "name" (len_between 1 100 (p_name p));
  _ ← guard "reserved_soon_threshold_sec" (in_range 0 3600 (reserved_soon_threshold_sec p));
  _ ← guard "sensor_unknown_timeout_sec" (in_range 0 300 (sensor_unknown_timeout_sec p));
  _ ← guard "debounce_window_sec" (in_range 5 30 (debounce_window_sec p));
  _ ← guard "colors" (forallb color_ok [occupied_color p; free_color p; reserved_color p;
                                        reserved_soon_color p; blocked_color p; out_of_service_color p]);
  guard "blink_pattern_ms" (in_range 100 2000 (blink_pattern_ms p)).

(** After a change: drop the cached policy and bump the shared version. *)
Definition publish (now : Z) (tenant_id : string) (a : App) : App :=
  mkApp (invalidate_policy_cache tenant_id <$> app_machine a)
        ((λ s, r_incr s now (version_key tenant_id)) <$> app_redis a).

(** [create_display_policy]; the policy carries its generated id and its tenant.  The
    partial unique index admits one active policy per tenant. *)
Definition create_display_policy (now : Z) (tenant_exists : bool) (p : DisplayPolicy) (description : option string) (a : App) (t : Tables)
  : result ApiError string * App * Tables :=
  if negb tenant_exists then (Err (NotFound ("Tenant " +:+ p_tenant_id p +:+ " not found")), a, t)
  else if existsb (active_of (p_tenant_id p)) (policies t)
  then (Err (ServerError (message (unique_violation "uq_display_policies_active_per_tenant"))), a, t)
  else (Ok (p_id p), publish now (p_tenant_id p) a, with_policies (λ l, l ++ [mkPolicyRow p description true now None])%list t).

(** The fields of [DisplayPolicyUpdate]: [None] is unset or null, which the handler
    skips alike. *)
Record PolicyUpdate := mkPolicyUpdate {
  u_name : option string; u_description : option string;
  u_reserved_soon_threshold_sec : option Z; u_sensor_unknown_timeout_sec : option Z;
  u_debounce_window_sec : option Z;
  u_occupied_color : option string; u_free_color : option string; u_reserved_color : option string;
  u_reserved_soon_color : option string; u_blocked_color : option string; u_out_of_service_color : option string;
  u_blink_reserved_soon : option bool; u_blink_pattern_ms : option Z; u_allow_sensor_override : option bool;
}.

Definition no_fields : PolicyUpdate :=
  mkPolicyUpdate None None None None None None None None None None None None None None.

#[export] Instance policy_update_eq_dec : EqDecision PolicyUpdate.
Proof. solve_decision. Defined.

Definition apply_update (u : PolicyUpdate) (p : DisplayPolicy) : DisplayPolicy :=
  mkPolicy (p_id p) (p_tenant_id p) (or_else (u_name u) (p_name p))
    (or_else (u_reserved_soon_threshold_sec u) (reserved_soon_threshold_sec p))
    (or_else (u_sensor_unknown_timeout_sec u) (sensor_unknown_timeout_sec p))
    (or_else (u_debounce_window_sec u) (debounce_window_sec p))
    (or_else (u_occupied_color u) (occupied_color p)) (or_else (u_free_color u) (free_color p))
    (or_else (u_reserved_color u) (reserved_color p)) (or_else (u_reserved_soon_color u) (reserved_soon_color p))
    (or_else (u_blocked_color u) (blocked_color p)) (or_else (u_out_of_service_color u) (out_of_service_color p))
    (or_else (u_blink_reserved_soon u) (blink_reserved_soon p)) (or_else (u_blink_pattern_ms u) (blink_pattern_ms p))
    (or_else (u_allow_sensor_override u) (allow_sensor_override p)).

Definition update_row (now : Z) (u : PolicyUpdate) (q : PolicyRow) : PolicyRow :=
  mkPolicyRow (apply_update u (pr_policy q)) (match u_description u with Some d => Some d | None => pr_description q end)
    (pr_is_active q) (pr_created_at q) (Some now).

Definition update_display_policy (now : Z) (policy_id : string) (u : PolicyUpdate) (a : App) (t : Tables)
  : result (Z * string) string * App * Tables :=
  if decide (u = no_fields) then (Err (400, "No fields to update"), a, t)
  else
    match fetchrow (is_policy policy_id) (policies t) with
    | None => (Err (404, "Display policy " +:+ policy_id +:+ " not found"), a, t)
    | Some q =>
        (Ok (p_id (pr_policy q)), publish now (p_tenant_id (pr_policy q)) a,
         with_policies (sql_update (is_policy policy_id) (update_row now u)) t)
    end.

(** The entry of a policy in an answer *)
Definition policy_json (q : PolicyRow) : json :=
  let p := pr_policy q in
  JObj [("id", JText (p_id p)); ("tenant_id", JText (p_tenant_id p)); ("name", JText (p_name p));
        ("description", text_or_null (pr_description q)); ("is_active", JBool (pr_is_active q));
        ("thresholds", JObj [("reserved_soon_threshold_sec", JInt (reserved_soon_threshold_sec p));
                             ("sensor_unknown_timeout_sec", JInt (sensor_unknown_timeout_sec p));
                             ("debounce_window_sec", JInt (debounce_window_sec p))]);
        ("colors", JObj [("occupied", JText (occupied_color p)); ("free", JText (free_color p));
                         ("reserved", JText (reserved_color p)); ("reserved_soon", JText (reserved_soon_color p));
                         ("blocked", JText (blocked_color p)); ("out_of_service", JText (out_of_service_color p))]);
        ("behaviors", JObj [("blink_reserved_soon", JBool (blink_reserved_soon p));
                            ("blink_pattern_ms", JInt (blink_pattern_ms p));
                            ("allow_sensor_override", JBool (allow_sensor_override p))]);
        ("created_at", iso (pr_created_at q));
        ("updated_at", match pr_updated_at q with Some t => iso t | None => JNull end)].

(** ORDER BY is_active DESC, created_at DESC *)
Definition policy_before (a b : PolicyRow) : Prop :=
  pr_is_active b && negb (pr_is_active a) = false ∧
  (pr_is_active a = pr_is_active b → pr_created_at b ≤ pr_created_at a).
#[export] Instance policy_before_dec : RelDecision policy_before.
Proof. intros a b. unfold policy_before. apply _. Defined.

(** The listing, with what the query raises *)
Definition list_display_policies (fault : option exn) (tenant_id : option string) (t : Tables) : result exn (list json) :=
  match tenant_id, fault with
  | None, _ => Err (HTTPException 400 "tenant_id parameter is required")
  | Some _, Some e => Err (HTTPException 500 (message e))
  | Some tenant_id, None => Ok (map policy_json (merge_sort policy_before (List.filter (policy_of tenant_id) (policies t))))
  end.

Definition get_display_policy (fault : option exn) (policy_id : string) (t : Tables) : result exn json :=
  match fault with
  | Some e => Err (HTTPException 500 (message e))
  | None => match fetchrow (is_policy policy_id) (policies t) with
            | Some q => Ok (policy_json q)
            | None => Err (HTTPException 404 ("Display policy " +:+ policy_id +:+ " not found"))
            end
  end.

(** [create_admin_override] *)
Definition create_admin_override (now : Z) (new_id space_id : string) (ty : AdminOverrideType)
  (start_time end_time : option Z) (t : Tables) : result ApiError string * Tables :=
  match get_space space_id (core t) with
  | None => (Err (NotFound ("Space " +:+ space_id +:+ " not found")), t)
  | Some s =>
      (Ok new_id, with_overrides (λ l, l ++ [mkOverride new_id space_id (sp_tenant_id s) ty
                                              (or_else start_time now) end_time true])%list t)
  end.

(** [delete_admin_override]: the row is kept, inactive *)
Definition delete_admin_override (override_id : string) (t : Tables) : result ApiError string * Tables :=
  let p o := String.eqb (ov_id o) override_id in
  match fetchrow p (overrides t) with
  | None => (Err (NotFound ("Admin override " +:+ override_id +:+ " not found")), t)
  | Some o =>
      (Ok (ov_space_id o),
       with_overrides (sql_update p (λ o, mkOverride (ov_id o) (ov_space_id o) (ov_tenant_id o) (ov_type o)
                                           (ov_start_time o) (ov_end_time o) false)) t)
  end.

(** The row of [v_space_display_states] for a live space.  The tenant of a space exists; an
    override or a reservation counts as for the function, but any type of override will
    do for the LIMIT 1 (here the first in the table). *)
Record SpaceDisplay := mkSpaceDisplay {
  vd_space_id : string; vd_space_code : string; vd_space_name : string; vd_tenant_id : option string;
  vd_db_state : SpaceState; vd_computed : DisplayCommand;
  vd_stable_state : option SensorState; vd_stable_since : option Z;
  vd_has_active_reservation : bool; vd_admin_override : option AdminOverrideType;
}.

Definition override_in_force (now : Z) (space_id : string) (o : AdminOverride) : bool :=
  override_applies now space_id (ov_type o) o.

Definition v_space_display_state (now : Z) (t : Tables) (s : Space) : SpaceDisplay :=
  let d := debounce t !! sp_id s in
  mkSpaceDisplay (sp_id s) (sp_code s) (sp_name s) (sp_tenant_id s) (sp_state s)
    (compute_display_state now (sp_id s) (or_else (sp_tenant_id s) "") t)
    (d ≫= stable_sensor_state) (d ≫= stable_since)
    (negb (sql_count (reserved_now now (sp_id s)) (reservations (core t)) =? 0))
    (ov_type <$> fetchrow (override_in_force now (sp_id s)) (overrides t)).

(** [get_computed_display_state] *)
Definition get_computed_display_state (now : Z) (space_id : string) (t : Tables) : result ApiError SpaceDisplay :=
  match fetchrow (λ s, is_space space_id s && live_space s) (spaces (core t)) with
  | None => Err (NotFound ("Space " +:+ space_id +:+ " not found"))
  | Some s => Ok (v_space_display_state now t s)
  end.
End Python.

(** ** Debouncing *)

Section Debounce.
Context {R : Redis} (redis : option store) (space_id tenant_id : string).

(** The readings of one space in order, each at its time: the flags returned. *)
Fixpoint process_all (readings : list (Z * SensorReading)) (self : Machine) (t : Tables)
  : list bool * Machine * Tables :=
  match readings with
  | [] => ([], self, t)
  | (now, reading) :: rest =>
      let '(changed, _, self, t) := process_sensor_reading now redis space_id tenant_id reading self t in
      let '(flags, self, t) := process_all rest self t in
      (changed :: flags, self, t)
  end.

(** A pending state is always the last one read. *)
Definition pending_is_last (d : DebounceState) : Prop :=
  pending_sensor_state d = None ∨ pending_sensor_state d = last_sensor_state d.

Lemma debounce_step_last now window reading d :
  pending_is_last d →
  let '(d', changed) := debounce_step now window (sr_state reading) d in
  changed = false ∧ stable_sensor_state d' = stable_sensor_state d ∧ pending_is_last (set_last reading d').
Proof.
  intros Hp. unfold debounce_step.
  destruct (decide (last_sensor_state d ≠ Some (sr_state reading))) as [Hne|He].
  - destruct (decide (pending_sensor_state d = Some (sr_state reading))) as [Hpe|Hpn].
    + destruct Hp; congruence.
    + repeat split. by right.
  - repeat split. by left.
Qed.

Lemma process_keeps now reading self t :
  pending_is_last (_get_debounce_state space_id t) →
  let '(changed, cmd, self', t') := process_sensor_reading now redis space_id tenant_id reading self t in
  changed = false ∧ cmd = None ∧ pending_is_last (_get_debounce_state space_id t') ∧
  stable_sensor_state (_get_debounce_state space_id t') = stable_sensor_state (_get_debounce_state space_id t).
Proof.
  intros Hp. unfold process_sensor_reading. destruct (_get_display_policy _ _ _ _ _) as [policy self'].
  pose proof (debounce_step_last now (debounce_window_sec policy) reading _ Hp) as Hs.
  destruct (debounce_step _ _ _ _) as [d' changed]. destruct Hs as (-> & Hst & Hl).
  assert (_get_debounce_state space_id (_save_debounce_state space_id (set_last reading d') t) = set_last reading d') as ->.
  { unfold _get_debounce_state, _save_debounce_state, with_debounce. cbn [debounce]. by rewrite lookup_insert_eq. }
  by repeat split.
Qed.

Lemma process_all_keeps readings self t :
  pending_is_last (_get_debounce_state space_id t) →
  let '(flags, _, t') := process_all readings self t in
  Forall (λ b, b = false) flags ∧
  stable_sensor_state (_get_debounce_state space_id t') = stable_sensor_state (_get_debounce_state space_id t).
Proof.
  revert self t. induction readings as [|[now reading] rest IH]; intros self t Hp; cbn [process_all]; [by split|].
  pose proof (process_keeps now reading self t Hp) as Hk.
  destruct (process_sensor_reading _ _ _ _ _ _ _) as [[[changed cmd] self'] t'].
  destruct Hk as (-> & _ & Hp' & Hst). specialize (IH self' t' Hp').
  destruct (process_all rest self' t') as [[flags self''] t'']. destruct IH as [IH1 IH2].
  split; [by constructor|congruence].
Qed.
End Debounce.

(** Debouncing never confirms anything.  The record of the last reading is overwritten by
    every reading, and a reading equal to the last one clears the pending state, so the
    "second reading of a pending state" cannot happen: from a space without a debounce
    record, whatever the sensor sends and whenever, no reading is reported as a state
    change and no stable state is ever recorded. *)
Theorem debounce_never_confirms {R : Redis} redis space_id tenant_id readings self t :
  debounce t !! space_id = None →
  let '(flags, _, t') := process_all redis space_id tenant_id readings self t in
  Forall (λ b, b = false) flags ∧ stable_sensor_state (_get_debounce_state space_id t') = None.
Proof.
  intros Hn. assert (_get_debounce_state space_id t = new_debounce) as E.
  { unfold _get_debounce_state. by rewrite Hn. }
  pose proof (process_all_keeps redis space_id tenant_id readings self t) as H. rewrite E in H.
  specialize (H ltac:(by left)). by destruct (process_all _ _ _ _ _ _) as [[flags self'] t'].
Qed.

Definition no_tables : Tables := mkTables empty_db [] ∅ [].
Definition fresh_machine : Machine := mkMachine ∅ ∅.

(** Three identical readings, one second apart. *)
Definition three_readings : list (Z * SensorReading) :=
  [(1 * sec, mkSensor Occupied 0); (2 * sec, mkSensor Occupied 0); (3 * sec, mkSensor Occupied 0)].

Lemma debounce_never_confirms_witness :
  (process_all (R := gmap_redis) None "s1" "t1" three_readings fresh_machine no_tables).1.1 = [false; false; false] ∧
  Forall (λ b, b = false) (process_all (R := gmap_redis) None "s1" "t1" three_readings fresh_machine no_tables).1.1.
Proof.
  split; [vm_compute; reflexivity|].
  pose proof (debounce_never_confirms (R := gmap_redis) None "s1" "t1" three_readings fresh_machine no_tables eq_refl) as H.
  destruct (process_all _ _ _ _ _ _) as [[flags self'] t']. exact (proj1 H).
Defined.

(** ** Priorities *)

(** What the priority rules ask for, in terms of the rows of the tables *)
Section Rules.
Context (now : Z) (space_id tenant_id : string) (t : Tables).

(** The policy in force: an active one of the tenant, or the built-in one *)
Inductive policy_in_force : DisplayPolicy → Prop :=
| tenant_policy q :
    q ∈ policies t → p_tenant_id (pr_policy q) = tenant_id → pr_is_active q = true → policy_in_force (pr_policy q)
| built_in_policy :
    (∀ q, q ∈ policies t → p_tenant_id (pr_policy q) = tenant_id → pr_is_active q = false) →
    policy_in_force (mkPolicy "" tenant_id "default" 900 60 10 "FF0000" "00FF00" "FFA500" "FFFF00" "808080" "800080" false 500 true).

(** An active override of the type that has begun and not ended *)
Definition overridden (ty : AdminOverrideType) : Prop :=
  ∃ o, o ∈ overrides t ∧ ov_space_id o = space_id ∧ ov_type o = ty ∧ ov_is_active o = true ∧
    ov_start_time o ≤ now ∧ ∀ e, ov_end_time o = Some e → now < e.

(** A reservation that keeps the space *)
Definition keeps_space (r : Reservation) : Prop :=
  r ∈ reservations (core t) ∧ rv_space_id r = space_id ∧ (rv_status r = PENDING ∨ rv_status r = CONFIRMED).

Definition booked_now : Prop := ∃ r, keeps_space r ∧ rv_start_time r ≤ now < rv_end_time r.
Definition begins_within (seconds : Z) (r : Reservation) : Prop :=
  keeps_space r ∧ now < rv_start_time r ≤ now + seconds * sec.

(** A stable sensor state that is at most so old *)
Definition sensed (seconds : Z) (st : SensorState) : Prop :=
  ∃ d since, debounce t !! space_id = Some d ∧ stable_sensor_state d = Some st ∧ stable_since d = Some since ∧
    now - since ≤ seconds * sec.

(** The display that was shown last *)
Definition last_shown (st color : string) (blink : bool) : Prop :=
  ∃ d, debounce t !! space_id = Some d ∧ last_display_state d = Some st ∧ or_else (last_display_color d) "" = color ∧
    last_display_blink d = blink.

(** Neither an override nor a reservation decides. *)
Definition undecided (p : DisplayPolicy) : Prop :=
  ¬ overridden OutOfService ∧ ¬ overridden Blocked ∧ ¬ booked_now ∧
  ¬ ∃ r, begins_within (reserved_soon_threshold_sec p) r.

(** The display under a policy: what, in which colour, blinking or not, and why *)
Inductive display_shows (p : DisplayPolicy) : DisplayCommand → Prop :=
| shows_out_of_service :
    overridden OutOfService →
    display_shows p (mkCommand "MAINTENANCE" (out_of_service_color p) false 1 "Admin override: out_of_service")
| shows_blocked :
    ¬ overridden OutOfService → overridden Blocked →
    display_shows p (mkCommand "MAINTENANCE" (blocked_color p) false 2 "Admin override: blocked")
| shows_reserved :
    ¬ overridden OutOfService → ¬ overridden Blocked → booked_now →
    display_shows p (mkCommand "RESERVED" (reserved_color p) false 3 "Active reservation")
| shows_reserved_soon r :
    ¬ overridden OutOfService → ¬ overridden Blocked → ¬ booked_now → begins_within (reserved_soon_threshold_sec p) r →
    (∀ r', begins_within (reserved_soon_threshold_sec p) r' → rv_start_time r ≤ rv_start_time r') →
    display_shows p (mkCommand "RESERVED" (reserved_soon_color p) (blink_reserved_soon p) 4
      ("Reservation starts in " +:+ show_Z (epoch_integer (rv_start_time r - now)) +:+ " seconds"))
| shows_occupied :
    undecided p → sensed (sensor_unknown_timeout_sec p) Occupied →
    display_shows p (mkCommand "OCCUPIED" (occupied_color p) false 5 "Sensor: occupied")
| shows_vacant :
    undecided p → sensed (sensor_unknown_timeout_sec p) Vacant →
    display_shows p (mkCommand "FREE" (free_color p) false 5 "Sensor: vacant")
| shows_last st color blink :
    undecided p → (∀ sensor, sensor ≠ Unknown → ¬ sensed (sensor_unknown_timeout_sec p) sensor) → last_shown st color blink →
    display_shows p (mkCommand st color blink 6
      ("Holding last stable state (sensor timeout " +:+ show_Z (sensor_unknown_timeout_sec p) +:+ "s)"))
| shows_default :
    undecided p → (∀ sensor, sensor ≠ Unknown → ¬ sensed (sensor_unknown_timeout_sec p) sensor) →
    (∀ st color blink, ¬ last_shown st color blink) →
    display_shows p (mkCommand "FREE" (free_color p) false 7 "Default: no sensor data").

Lemma overridden_spec ty : existsb (override_applies now space_id ty) (overrides t) = true ↔ overridden ty.
Proof.
  rewrite existsb_exists. unfold overridden, override_applies. apply exist_proper. intros o.
  rewrite <- list_elem_of_In, !andb_true_iff, bool_decide_eq_true, String.eqb_eq, Z.leb_le.
  assert (on_opt (λ e, now <? e) (ov_end_time o) = true ↔ ∀ e, ov_end_time o = Some e → now < e) as Hend.
  { destruct (ov_end_time o) as [e|]; cbn; [|by split; [intros _ ? [=]|intros _]]. rewrite Z.ltb_lt.
    split; [by intros ? ? [= <-]|intros H; by apply H]. }
  rewrite Hend. tauto.
Qed.

Lemma blocking_iff st : blocking st = true ↔ st = PENDING ∨ st = CONFIRMED.
Proof. destruct st; cbn; intuition congruence. Qed.

Lemma booked_now_spec : existsb (reserved_now now space_id) (reservations (core t)) = true ↔ booked_now.
Proof.
  rewrite existsb_exists. unfold booked_now, keeps_space, reserved_now. apply exist_proper. intros r.
  rewrite <- list_elem_of_In, !andb_true_iff, String.eqb_eq, blocking_iff, Z.leb_le, Z.ltb_lt. tauto.
Qed.

Lemma begins_within_spec seconds r :
  r ∈ by_start (List.filter (reserved_soon now space_id seconds) (reservations (core t))) ↔ begins_within seconds r.
Proof.
  rewrite sorted_perm, filter_In_elem. unfold begins_within, keeps_space, reserved_soon.
  rewrite !andb_true_iff, String.eqb_eq, blocking_iff, Z.leb_le, Z.ltb_lt. tauto.
Qed.

Lemma sensed_spec seconds st :
  (∃ d, debounce t !! space_id = Some d ∧ sensor_recent now seconds d = true ∧ stable_sensor_state d = Some st) ↔ sensed seconds st.
Proof.
  unfold sensed, sensor_recent. apply exist_proper. intros d. destruct (stable_since d) as [since|].
  - rewrite Z.leb_le. split; [intros (H1 & H2 & H3); by exists since|intros (s & H1 & H2 & [= <-] & H3); done].
  - split; [by intros (_ & ? & _)|by intros (s & _ & _ & ? & _)].
Qed.

Lemma policy_found : policy_in_force (or_else (active_policy tenant_id t) (default_policy "" tenant_id "default")).
Proof.
  unfold active_policy. destruct (fetchrow _ _) as [q|] eqn:E; cbn.
  - apply find_some in E as [Hin%list_elem_of_In [Ht%String.eqb_eq Ha]%andb_true_iff]. by apply tenant_policy.
  - apply built_in_policy. intros q Hq Ht. unfold fetchrow in E. pose proof (find_none _ _ E q) as H.
    rewrite <- list_elem_of_In in H. specialize (H Hq). unfold active_of, policy_of in H.
    rewrite Ht, String.eqb_refl in H. exact H.
Qed.

Lemma not_true_of P (b : bool) : (b = true ↔ P) → b = false → ¬ P.
Proof. intros H Hb HP. apply H in HP. congruence. Qed.

Lemma computed_shows :
  display_shows (or_else (active_policy tenant_id t) (default_policy "" tenant_id "default"))
    (compute_display_state now space_id tenant_id t).
Proof.
  unfold compute_display_state. set (p := or_else _ _).
  destruct (existsb (override_applies now space_id OutOfService) _) eqn:E1; [by apply shows_out_of_service, overridden_spec|].
  apply (not_true_of _ _ (overridden_spec _)) in E1.
  destruct (existsb (override_applies now space_id Blocked) _) eqn:E2; [by apply shows_blocked, overridden_spec|].
  apply (not_true_of _ _ (overridden_spec _)) in E2.
  destruct (existsb (reserved_now _ _) _) eqn:E3; [by apply shows_reserved, booked_now_spec|].
  apply (not_true_of _ _ booked_now_spec) in E3.
  pose proof (begins_within_spec (reserved_soon_threshold_sec p)) as Hsoon.
  destruct (by_start _) as [|r l] eqn:E4.
  2: { apply shows_reserved_soon; [done..|apply Hsoon; left|]. intros r' Hr'%Hsoon.
       assert (StronglySorted starts_before (r :: l)) as [_ Hall]%StronglySorted_inv.
       { rewrite <- E4. apply Sorted_StronglySorted; [intros x y z; unfold starts_before; lia|].
         apply Sorted_merge_sort. intros x y. unfold starts_before. lia. }
       apply elem_of_cons in Hr' as [->|Hr']; [lia|]. rewrite Forall_forall in Hall. by apply Hall. }
  assert (undecided p) as Hu.
  { split_and!; [done..|]. intros [r Hr%Hsoon]. by apply elem_of_nil in Hr. }
  pose proof (sensed_spec (sensor_unknown_timeout_sec p)) as Hs.
  destruct (debounce t !! space_id) as [d|] eqn:Ed.
  2: { apply shows_default; [done|intros st _ (d & ? & ? & _); congruence|intros st c b (d & ? & _); congruence]. }
  assert (∀ held, held = match last_display_state d with
      | Some st => mkCommand st (or_else (last_display_color d) "") (last_display_blink d) 6
          ("Holding last stable state (sensor timeout " +:+ show_Z (sensor_unknown_timeout_sec p) +:+ "s)")
      | None => mkCommand "FREE" (free_color p) false 7 "Default: no sensor data"
      end → (∀ sensor, sensor ≠ Unknown → ¬ sensed (sensor_unknown_timeout_sec p) sensor) → display_shows p held) as Hheld.
  { intros held -> Hn. destruct (last_display_state d) as [st|] eqn:El.
    - apply shows_last; [done..|]. by exists d.
    - apply shows_default; [done..|]. intros st c b (d' & ? & ? & _). congruence. }
  destruct (sensor_recent now _ d) eqn:Er; [destruct (stable_sensor_state d) as [[]|] eqn:Est|].
  1: apply shows_occupied; [done|]. 2: apply shows_vacant; [done|].
  1,2: apply Hs; by exists d.
  all: apply Hheld; [done|]; intros st Hst (d' & ? & ? & ?)%Hs; simplify_eq; congruence.
Qed.

(** The rules leave no choice. *)
Lemma display_shows_unique p c c' : display_shows p c → display_shows p c' → c = c'.
Proof.
  assert (∀ seconds st st', sensed seconds st → sensed seconds st' → st = st') as Hsensed.
  { intros seconds st st' (d & s & ? & ? & _) (d' & s' & ? & ? & _). congruence. }
  assert (∀ st c b st' c' b', last_shown st c b → last_shown st' c' b' → (st, c, b) = (st', c', b')) as Hlast.
  { intros st x b st' x' b' (d & ? & ? & ? & ?) (d' & ? & ? & ? & ?). congruence. }
  intros H H'. destruct H, H'; repeat match goal with Hu : undecided _ |- _ => destruct Hu as (?&?&?&?) end; try reflexivity;
    try match goal with
    | H : ¬ ?P, H' : ?P |- _ => by destruct (H H')
    | H : ¬ (∃ r, begins_within _ r), H' : begins_within _ ?r |- _ => by destruct H; exists r
    | H : (∀ s, s ≠ Unknown → ¬ sensed _ s), H' : sensed _ ?st |- _ => by destruct (H st)
    | H : (∀ st c b, ¬ last_shown st c b), H' : last_shown ?st ?c ?b |- _ => by destruct (H st c b)
    | H : sensed _ Occupied, H' : sensed _ Vacant |- _ => by pose proof (Hsensed _ _ _ H H')
    | H : last_shown _ _ _, H' : last_shown _ _ _ |- _ =>
        assert_fails (constr_eq H H'); by pose proof (Hlast _ _ _ _ _ _ H H') as [= -> -> ->]
    end.
  do 3 f_equal. assert (rv_start_time r = rv_start_time r0) as ->; [|done]. apply Z.le_antisymm; auto.
Qed.
End Rules.

(** C14. The display follows the priority rules.  Under the policy in force (an active one
    of the tenant, or the built-in one), what is computed for a space is exactly what the
    first of these rules that applies says: an active out-of-service override that has
    begun and not ended; such a blocking override; a pending or confirmed reservation that
    has begun and not ended; the soonest one that begins within the policy's threshold; a
    stable sensor state, occupied or vacant, no older than the policy's timeout; the state
    that was shown last; free.  Each rule fixes the state, the colour of the policy, the
    blinking, the level and the reason. *)
Theorem display_priority now space_id tenant_id t :
  ∃ p, policy_in_force tenant_id t p ∧
    ∀ c, display_shows now space_id t p c ↔ c = compute_display_command now space_id tenant_id t.
Proof.
  eexists. split; [apply policy_found|]. intros c. split.
  - intros H. eapply display_shows_unique; [exact H|apply computed_shows].
  - intros ->. apply computed_shows.
Qed.

(** ** Overrides *)

Lemma existsb_filter {A} (p : A → bool) l : existsb p l = match List.filter p l with [] => false | _ => true end.
Proof. induction l as [|x l IH]; cbn; [done|]. by destruct (p x). Qed.

Definition first_override (now : Z) (space_id : string) (t : Tables) : option AdminOverrideType :=
  if existsb (override_applies now space_id OutOfService) (overrides t) then Some OutOfService
  else if existsb (override_applies now space_id Blocked) (overrides t) then Some Blocked
  else None.

(** What the function computes depends on the overrides only through the strongest one. *)
Lemma compute_by_override now space_id tenant_id t :
  let c := compute_display_state now space_id tenant_id t in
  match first_override now space_id t with
  | Some ty => c_state c = "MAINTENANCE" ∧ c_priority_level c = match ty with OutOfService => 1 | Blocked => 2 end
  | None => 3 ≤ c_priority_level c
  end.
Proof.
  unfold compute_display_state, first_override.
  destruct (existsb (override_applies now space_id OutOfService) (overrides t)); [done|].
  destruct (existsb (override_applies now space_id Blocked) (overrides t)); [done|]. cbn zeta.
  repeat (case_match; try (cbn; lia)).
Qed.

Lemma compute_same now space_id tenant_id t t' :
  core t' = core t → policies t' = policies t → debounce t' = debounce t →
  (∀ ty, existsb (override_applies now space_id ty) (overrides t') = existsb (override_applies now space_id ty) (overrides t)) →
  compute_display_state now space_id tenant_id t' = compute_display_state now space_id tenant_id t.
Proof. intros Hc Hp Hd Ho. unfold compute_display_state, active_policy. by rewrite Hc, Hp, Hd, !Ho. Qed.

(** C15. The life of an override.  From its start to its end the space it was created for is
    shown under maintenance, at the level of its type or a stronger one; the displays of
    other spaces are as before; and once it is deleted every display is what it was. *)
Theorem override_lifecycle now new_id space_id ty start_time end_time t i t1 :
  (∀ o, o ∈ overrides t → ov_id o ≠ new_id) →
  create_admin_override now new_id space_id ty start_time end_time t = (Ok i, t1) →
  (∀ now' tenant_id, or_else start_time now ≤ now' → on_opt (λ e, now' <? e) end_time = true →
     let c := compute_display_state now' space_id tenant_id t1 in
     c_state c = "MAINTENANCE" ∧ c_priority_level c ≤ match ty with OutOfService => 1 | Blocked => 2 end) ∧
  (∀ now' other tenant_id, other ≠ space_id →
     compute_display_state now' other tenant_id t1 = compute_display_state now' other tenant_id t) ∧
  ∃ t2, delete_admin_override i t1 = (Ok space_id, t2) ∧
    ∀ now' s tenant_id, compute_display_state now' s tenant_id t2 = compute_display_state now' s tenant_id t.
Proof.
  intros Hnew. unfold create_admin_override. destruct (get_space space_id (core t)) as [sp|]; [|done]. intros [= <- <-].
  set (o := mkOverride _ _ _ _ _ _ _). set (t1 := with_overrides _ t).
  assert (∀ p, existsb p (overrides t1) = existsb p (overrides t) || p o) as Ho.
  { intros p. cbn. rewrite existsb_app. cbn. by rewrite orb_false_r. }
  split_and!.
  - intros now' tenant_id Hs He. assert (override_applies now' space_id ty o = true) as Ha.
    { unfold override_applies. cbn. rewrite String.eqb_refl, He, bool_decide_eq_true_2 by done.
      by destruct (Z.leb_spec (or_else start_time now) now'); [|lia]. }
    pose proof (compute_by_override now' space_id tenant_id t1) as H. unfold first_override in H. rewrite !Ho in H.
    destruct ty; rewrite Ha, orb_true_r in H; [|destruct H as [-> ->]; split; [done|lia]].
    destruct (_ || _); destruct H as [-> ->]; split; [done|lia|done|lia].
  - intros now' other tenant_id Hne. apply compute_same; [done..|]. intros ty'. rewrite Ho.
    unfold override_applies at 2. cbn. rewrite (proj2 (String.eqb_neq _ _)) by done. by rewrite orb_false_r.
  - unfold delete_admin_override. assert (fetchrow (λ o', String.eqb (ov_id o') new_id) (overrides t1) = Some o) as ->.
    { cbn. unfold fetchrow. clear -Hnew. induction (overrides t) as [|x l IH]; cbn; [by rewrite String.eqb_refl|].
      rewrite (proj2 (String.eqb_neq _ _)) by (apply Hnew; by left). apply IH. intros y Hy. apply Hnew. by right. }
    eexists. split; [reflexivity|]. intros now' s tenant_id. apply compute_same; [done..|]. intros ty'. cbn.
    unfold sql_update. rewrite map_app, existsb_app. cbn. rewrite String.eqb_refl. unfold override_applies at 2. cbn.
    rewrite andb_false_r. cbn. rewrite orb_false_r. clear -Hnew.
    induction (overrides t) as [|x l IH]; [done|]. cbn. rewrite IH by (intros y Hy; apply Hnew; by right).
    by rewrite (proj2 (String.eqb_neq _ _)) by (apply Hnew; by left).
Qed.

(** What the monitoring endpoint shows fits together: an override exactly when the computed
    level is 1 or 2, and an active reservation at least when it is 3. *)
Theorem computed_state_coherent now space_id t v :
  get_computed_display_state now space_id t = Ok v →
  (is_Some (vd_admin_override v) ↔ c_priority_level (vd_computed v) ≤ 2) ∧
  (c_priority_level (vd_computed v) = 3 → vd_has_active_reservation v = true) ∧
  (vd_has_active_reservation v = true → c_priority_level (vd_computed v) ≤ 3).
Proof.
  unfold get_computed_display_state. destruct (fetchrow _ _) as [s|]; [|done]. intros [= <-].
  cbn [v_space_display_state vd_admin_override vd_computed vd_has_active_reservation]. set (tenant_id := or_else _ _).
  pose proof (compute_by_override now (sp_id s) tenant_id t) as Hc. cbn zeta in Hc.
  assert (is_Some (fetchrow (override_in_force now (sp_id s)) (overrides t)) ↔ is_Some (first_override now (sp_id s) t)) as Hf.
  { unfold first_override, fetchrow, override_in_force. clear. induction (overrides t) as [|o l IH]; [cbn; split; by intros []|]. cbn.
    assert (override_applies now (sp_id s) (ov_type o) o =
      override_applies now (sp_id s) OutOfService o || override_applies now (sp_id s) Blocked o) as ->.
    { unfold override_applies. destruct (ov_type o); repeat case_bool_decide; try done; by rewrite ?andb_false_r, ?orb_false_r. }
    destruct (override_applies now (sp_id s) OutOfService o), (override_applies now (sp_id s) Blocked o); cbn;
      [..|exact IH]; repeat case_match; split; by eauto. }
  assert (negb (sql_count (reserved_now now (sp_id s)) (reservations (core t)) =? 0) =
    existsb (reserved_now now (sp_id s)) (reservations (core t))) as ->.
  { rewrite existsb_filter. unfold sql_count. by destruct (List.filter _ _). }
  rewrite fmap_is_Some, Hf. split; [|split].
  - destruct (first_override _ _ _) as [[]|]; (split; [|first [intros _; by eexists|intros H; exfalso; lia]]); [lia..|by intros []].
  - intros H. destruct (first_override _ _ _) as [[]|] eqn:E; [lia..|]. unfold compute_display_state in H. unfold first_override in E.
    revert H E. repeat (case_match; try done).
  - intros Hr. destruct (first_override _ _ _) as [[]|] eqn:E; [lia..|]. unfold first_override in E. unfold compute_display_state.
    rewrite Hr. revert E. repeat (case_match; try done); cbn; lia.
Qed.

Definition shown_space : Space :=
  mkSpace "s1" "Bay 1" "A1" None None None None None FREE (Some "site") (Some "t1") None None None 0 0 None.
Definition shown_tables : Tables := mkTables (mkDb [shown_space] [] [] [] [] [] [] []) [] ∅ [].

Lemma override_lifecycle_witness :
  let t1 := (create_admin_override 5 "o1" "s1" Blocked None (Some 9) shown_tables).2 in
  c_state (compute_display_state 8 "s1" "t1" t1) = "MAINTENANCE" ∧
  compute_display_state 8 "s2" "t1" t1 = compute_display_state 8 "s2" "t1" shown_tables.
Proof.
  destruct (override_lifecycle 5 "o1" "s1" Blocked None (Some 9) shown_tables "o1"
    (create_admin_override 5 "o1" "s1" Blocked None (Some 9) shown_tables).2) as (H1 & H2 & _).
  - by intros o ?%elem_of_nil.
  - reflexivity.
  - split; [apply H1; [cbn; lia|reflexivity]|by apply H2].
Defined.

Lemma computed_state_coherent_witness :
  ∃ v, get_computed_display_state 6 "s1" (create_admin_override 5 "o1" "s1" Blocked None (Some 9) shown_tables).2 = Ok v ∧
    c_priority_level (vd_computed v) ≤ 2.
Proof.
  eexists. split; [reflexivity|].
  apply (proj1 (computed_state_coherent 6 "s1" (create_admin_override 5 "o1" "s1" Blocked None (Some 9) shown_tables).2 _ eq_refl)).
  eexists. reflexivity.
Defined.

(** ** The policy cache *)

(** The version key holds the number [n] (or is absent, for 0) and does not expire. *)
Definition version_is {R : Redis} (tenant_id : string) (n : Z) (s : store) : Prop :=
  (n = 0 ∧ dump s !! version_key tenant_id = None) ∨
  dump s !! version_key tenant_id = Some (RStr (show_Z n), None).

Lemma current_version_is {R : Redis} now tenant_id n s :
  version_is tenant_id n s → current_version now (Some s) tenant_id = n.
Proof.
  intros [[-> H]|H]; unfold current_version; rewrite r_get_law; unfold str_at, alive; rewrite H; [done|].
  unfold live; cbn -[read_Z show_Z]. pose proof (show_Z_non_empty n). pose proof (read_show_Z n) as Hr.
  destruct (show_Z n); [done|]. by rewrite Hr.
Qed.

Lemma bump_version {R : Redis} now tenant_id n s :
  version_is tenant_id n s → version_is tenant_id (n + 1) (r_incr s now (version_key tenant_id)).
Proof.
  intros [[-> H]|H]; right; autorewrite with redis; unfold ks_incr, alive; rewrite H; [by rewrite lookup_insert_eq|].
  unfold live; cbn [snd]. by rewrite read_show_Z, lookup_insert_eq.
Qed.

(** Policy changes are visible everywhere at once, where the application has a Redis client.
    After an accepted change of a policy, a machine in any process, whatever it has cached
    under the versions seen so far and however recently, reads the tenant's active policy
    of the database, because the change bumped the version its cache entry is compared
    with.  (main.py sets neither [app.state.redis_client] nor
    [app.state.display_state_machine]: as the program is put together no version is ever
    bumped and no machine asked.) *)
Theorem policy_cache_coherent {R : Redis} now now' policy_id u a t r a' t' tenant_id n s self p :
  update_display_policy now policy_id u a t = (Ok r, a', t') →
  fetchrow (is_policy policy_id) (policies t) = Some p →
  tenant_id = p_tenant_id (pr_policy p) →
  app_redis a = Some s → version_is tenant_id n s →
  (∀ q v, policy_cache self !! tenant_id = Some (q, v) → v ≤ n) →
  (_get_display_policy now' (app_redis a') tenant_id t' self).1
    = or_else (active_policy tenant_id t') (default_policy "default" tenant_id "Default Policy").
Proof.
  unfold update_display_policy. destruct (decide (u = no_fields)); [done|].
  intros Hu Hp -> Ha Hv Hc. rewrite Hp in Hu. destruct p as [p descr active created updated].
  injection Hu as _ <- _. unfold publish. cbn [app_redis pr_policy]. rewrite Ha. cbn [fmap option_fmap option_map].
  unfold _get_display_policy. rewrite (current_version_is _ _ (n + 1)) by by apply bump_version.
  assert (cached_policy now' (n + 1) (p_tenant_id p) self = None) as ->; [|done].
  unfold cached_policy. destruct (policy_cache_time self !! _); [|done]. destruct (_ <? _); [|done].
  destruct (policy_cache self !! p_tenant_id p) as [[q v]|] eqn:E; [|done].
  rewrite (proj2 (Z.eqb_neq v (n + 1))); [done|]. cbn in Hc. specialize (Hc q v E). lia.
Qed.

Definition sample_policy : DisplayPolicy := default_policy "p1" "t1" "Main".
Definition make_blue : PolicyUpdate :=
  mkPolicyUpdate None None None None None None (Some "0000FF") None None None None None None None.

Definition sample_row : PolicyRow := mkPolicyRow sample_policy None true 0 None.
Definition one_policy : Tables := mkTables empty_db [sample_row] ∅ [].
Definition redis_app : App := mkApp None (Some (∅ : store (Redis := gmap_redis))).
Definition stale_machine : Machine := mkMachine {["t1" := (sample_policy, 0)]} {["t1" := 0]}.
Definition blue_tables : Tables :=
  with_policies (λ _, [update_row 0 make_blue sample_row]) one_policy.

Lemma policy_cache_coherent_witness :
  let a' := publish (R := gmap_redis) 0 "t1" redis_app in
  free_color (_get_display_policy (R := gmap_redis) 1 (app_redis redis_app) "t1" blue_tables stale_machine).1 = "00FF00" ∧
  (_get_display_policy (R := gmap_redis) 1 (app_redis a') "t1" blue_tables stale_machine).1
    = apply_update make_blue sample_policy.
Proof.
  intros a'. split; [vm_compute; reflexivity|].
  apply (policy_cache_coherent (R := gmap_redis) 0 1 "p1" make_blue redis_app one_policy "p1" a' blue_tables "t1" 0 ∅
    stale_machine sample_row); [reflexivity|reflexivity|reflexivity|reflexivity| |].
  - left. split; reflexivity.
  - intros q v H. cbn [stale_machine policy_cache] in H. apply lookup_singleton_Some in H as [_ H].
    injection H as _ <-. lia.
Defined.

(** ** The table of policies *)

(** What the endpoints do to the tables *)
Inductive policy_step {R : Redis} (t : Tables) : Tables → Prop :=
| step_create now tenant_exists p description a r a' t' :
    create_display_policy now tenant_exists p description a t = (r, a', t') → policy_step t t'
| step_update now policy_id u a r a' t' :
    update_display_policy now policy_id u a t = (r, a', t') → policy_step t t'.

(** Every policy is active and no two belong to one tenant. *)
Definition sole_policies (l : list PolicyRow) : Prop :=
  NoDup (map (λ q, p_tenant_id (pr_policy q)) l) ∧ Forall (λ q, pr_is_active q = true) l.

Lemma tenant_rows_of tenant_id l :
  sole_policies l → List.filter (policy_of tenant_id) l = option_list (fetchrow (active_of tenant_id) l).
Proof.
  intros [Hn Ha]. induction l as [|q l IH]; [done|].
  cbn in Hn |- *. apply NoDup_cons in Hn as [Hq Hn]. apply Forall_cons in Ha as [Ha Hl].
  unfold fetchrow, active_of in *. cbn [find]. rewrite Ha, andb_true_r.
  destruct (policy_of tenant_id q) eqn:E; [|by apply IH]. cbn. f_equal.
  apply filter_nil. intros x Hx. apply not_true_iff_false. intros Hxt. apply Hq.
  apply String.eqb_eq in E, Hxt. rewrite E, <- Hxt. apply list_elem_of_In in Hx.
  apply list_elem_of_In. by apply (in_map (λ q, p_tenant_id (pr_policy q))).
Qed.

Lemma policy_step_sole {R : Redis} t t' : policy_step t t' → sole_policies (policies t) → sole_policies (policies t').
Proof.
  intros [now e p d a r a' t1 H|now i u a r a' t1 H] Hok.
  - revert H. unfold create_display_policy. destruct e; [|by intros [= _ _ <-]]. cbn [negb].
    destruct (existsb _ _) eqn:Ex; [by intros [= _ _ <-]|]. intros [= _ _ <-]. cbn.
    pose proof (tenant_rows_of (p_tenant_id p) _ Hok) as Hrows. destruct Hok as [Hn Ha].
    split; [|apply Forall_app; split; [done|by constructor]].
    rewrite map_app. apply NoDup_app. split_and!; [done| |apply NoDup_singleton].
    intros x Hx ->%list_elem_of_singleton. apply list_elem_of_In, in_map_iff in Hx as (q & Hqp & Hq). cbn in Hqp.
    apply not_true_iff_false in Ex. apply Ex, existsb_exists. exists q. split; [done|].
    unfold active_of, policy_of. rewrite Hqp, String.eqb_refl. rewrite Forall_forall in Ha. apply Ha. by apply list_elem_of_In.
  - revert H. unfold update_display_policy. case_decide; [by intros [= _ _ <-]|].
    destruct (fetchrow _ _); intros [= _ _ <-]; [|done]. cbn. destruct Hok as [Hn Ha]. split.
    + unfold sql_update. rewrite map_map. erewrite map_ext; [exact Hn|]. intros q. by case_match.
    + unfold sql_update. apply Forall_map. eapply Forall_impl; [exact Ha|]. intros q Hq. by case_match.
Qed.

(** No step takes a tenant's active policy away. *)
Lemma policy_step_kept {R : Redis} tenant_id t t' :
  policy_step t t' → existsb (active_of tenant_id) (policies t) = true → existsb (active_of tenant_id) (policies t') = true.
Proof.
  intros [now e p d a r a' t2 H|now i u a r a' t2 H] Hex.
  - revert H. unfold create_display_policy. destruct e; [|by intros [= _ _ <-]]. cbn [negb].
    destruct (existsb (active_of (p_tenant_id p)) _); intros [= _ _ <-]; [done|]. cbn. by rewrite existsb_app, Hex.
  - revert H. unfold update_display_policy. case_decide; [by intros [= _ _ <-]|].
    destruct (fetchrow _ _); intros [= _ _ <-]; [|done]. cbn. apply existsb_exists in Hex as (q & Hq & Ha).
    apply existsb_exists. exists (if is_policy i q then update_row now u q else q).
    split; [by apply (in_map (λ q, if is_policy i q then update_row now u q else q))|]. by destruct (is_policy i q).
Qed.

Lemma policies_kept {R : Redis} t0 t tenant_id :
  rtc policy_step t0 t → existsb (active_of tenant_id) (policies t0) = true → is_Some (fetchrow (active_of tenant_id) (policies t)).
Proof.
  intros Hr Hex. assert (existsb (active_of tenant_id) (policies t) = true) as H.
  { induction Hr as [|t1 t2 t3 Hs _ IH]; [done|]. apply IH. by eapply policy_step_kept. }
  unfold fetchrow. destruct (find _ _) eqn:E; [done|]. apply existsb_exists in H as (q & Hq & Ha).
  by rewrite (find_none _ _ E q Hq) in Ha.
Qed.

(** The rows migration 006 inserts for the tenants it finds *)
Definition migration_policies (now : Z) (rows : list (string * string)) : list PolicyRow :=
  map (λ '(id, tenant_id), mkPolicyRow (default_policy id tenant_id "Default Policy")
         (Some "Auto-generated default display policy") true now None) rows.

Lemma migration_policies_sole now rows : NoDup (map snd rows) → sole_policies (migration_policies now rows).
Proof.
  intros Hn. split.
  - unfold migration_policies. rewrite map_map. erewrite map_ext; [exact Hn|]. by intros [].
  - apply Forall_map, Forall_forall. by intros [] _.
Qed.

Lemma migration_policy_active now rows tenant_id :
  tenant_id ∈ map snd rows → existsb (active_of tenant_id) (migration_policies now rows) = true.
Proof.
  intros ([i t] & -> & Hin%list_elem_of_In)%list_elem_of_fmap. apply existsb_exists. eexists.
  split; [by apply (in_map (λ '(id, tenant_id), _) _ _ Hin)|]. unfold active_of, policy_of. cbn. by rewrite String.eqb_refl.
Qed.

(** C36. A tenant gets one policy, and only one.  Whatever the endpoints create and update
    in the table the migration leaves (a default policy for each tenant it found), the
    listing of a tenant is its active policy, the one [compute_display_state] uses, or
    empty; and once there is one, creating another is refused with a 500 that changes
    nothing, while the docstring says the new policy deactivates the old one: no endpoint
    changes [is_active]. *)
Theorem one_policy_for_ever {R : Redis} now0 rows t0 t tenant_id :
  NoDup (map snd rows) → policies t0 = migration_policies now0 rows → rtc policy_step t0 t →
  let active := fetchrow (active_of tenant_id) (policies t) in
  list_display_policies None (Some tenant_id) t = Ok (map policy_json (option_list active)) ∧
  active_policy tenant_id t = pr_policy <$> active ∧
  (tenant_id ∈ map snd rows → is_Some active) ∧
  ∀ q, active = Some q → ∀ now p description a, p_tenant_id p = tenant_id →
    ∃ detail, create_display_policy now true p description a t = (Err (ServerError detail), a, t).
Proof.
  intros Hn H0 Hr active.
  assert (sole_policies (policies t)) as Hok.
  { assert (sole_policies (policies t0)) as H by (rewrite H0; by apply migration_policies_sole).
    clear H0 active. induction Hr as [|t1 t2 t3 Hs _ IH]; [done|]. by apply IH, (policy_step_sole t1). }
  assert (tenant_id ∈ map snd rows → is_Some active) as Hkept.
  { intros Hin. unfold active. apply (policies_kept t0 t); [done|]. rewrite H0. by apply migration_policy_active. }
  split_and!; [|done|done|].
  - unfold list_display_policies. rewrite tenant_rows_of by done. fold active. by destruct active.
  - intros q Hq now p d a <-. unfold create_display_policy. cbn [negb].
    assert (existsb (active_of (p_tenant_id p)) (policies t) = true) as ->; [|by eexists].
    apply find_some in Hq. apply existsb_exists. by exists q.
Qed.

Definition migrated_policies : Tables := mkTables empty_db (migration_policies 0 [("p0", "t0")]) ∅ [].
Definition first_policy : Tables :=
  (create_display_policy (R := gmap_redis) 0 true sample_policy None (mkApp None None) migrated_policies).2.

Lemma one_policy_for_ever_witness :
  list_display_policies None (Some "t1") first_policy = Ok [policy_json sample_row] ∧
  is_Some (fetchrow (active_of "t0") (policies first_policy)) ∧
  ∃ detail, create_display_policy (R := gmap_redis) 9 true (default_policy "p2" "t1" "Night") None (mkApp None None) first_policy
    = (Err (ServerError detail), mkApp None None, first_policy).
Proof.
  assert (rtc (policy_step (R := gmap_redis)) migrated_policies first_policy) as Hr.
  { apply rtc_once. by apply (step_create (R := gmap_redis) _ 0 true sample_policy None (mkApp None None) (Ok "p1")
      (publish (R := gmap_redis) 0 "t1" (mkApp None None))). }
  assert (NoDup (map snd [("p0", "t0")])) as Hn by apply NoDup_singleton.
  destruct (one_policy_for_ever (R := gmap_redis) 0 [("p0", "t0")] migrated_policies first_policy "t1" Hn eq_refl Hr) as (H1 & _ & _ & H2).
  destruct (one_policy_for_ever (R := gmap_redis) 0 [("p0", "t0")] migrated_policies first_policy "t0" Hn eq_refl Hr) as (_ & _ & H3 & _).
  split; [exact H1|]. split; [apply H3; left|by apply (H2 sample_row)].
Defined.
