(* ===== verification/Auth.v ===== *)
(** * Auth: API keys, access tokens, tenants, roles and scopes

    Models src/src/auth.py, src/src/tenant_auth.py, src/src/api_scopes.py and the API-key
    endpoints of src/src/api_tenants.py.  [AuthDb] holds the tables these read (the
    refresh tokens are used by [RefreshTokens]).  bcrypt and PyJWT are parameters; a
    Python set of scopes is a [gset].  [utcnow().timestamp()] reads a naive datetime as
    local time, and the host runs in UTC. *)

From S2P Require Import Prelude PyUtils Json Models Database.

Open Scope Z_scope.

(** ** Tables *)

Record ApiKeyRow := mkApiKeyRow {
  ak_id : string; ak_key_hash : string; ak_key_name : option string; ak_tenant_id : option string;
  ak_scopes : list string; ak_is_active : bool; ak_is_admin : bool;
  ak_last_used_at : option Z; ak_created_at : Z;
}.

Record TenantRow := mkTenantRow {
  tn_id : string; tn_name : string; tn_slug : string; tn_metadata : option json; tn_settings : option json;
  tn_active : option bool; tn_created_at : Z; tn_updated_at : Z;
}.

(** The column is nullable; [NULL] is neither true in a WHERE clause nor truthy. *)
Definition tn_is_active (t : TenantRow) : bool := or_else (tn_active t) false.

Record UserRow := mkUserRow {
  us_id : string; us_email : string; us_name : string; us_password_hash : string; us_metadata : option json;
  us_is_active : bool; us_email_verified : bool; us_created_at : Z; us_updated_at : Z; us_last_login_at : option Z;
}.

Record Membership := mkMembership {
  um_id : string; um_user_id : string; um_tenant_id : string; um_role : string; um_is_active : bool; um_created_at : Z;
}.

Record RefreshToken := mkRefreshToken {
  rt_id : Z; rt_user_id : string; rt_token_hash : string; rt_device_fingerprint : option string;
  rt_ip_address : option string; rt_user_agent : option string; rt_created_at : Z;
  rt_expires_at : Z; rt_revoked_at : option Z; rt_last_used_at : option Z;
}.

(** [token_seq] is the next value of the sequence behind [refresh_tokens.id]. *)
Record AuthDb := mkAuthDb {
  api_keys : list ApiKeyRow; tenants : list TenantRow; users : list UserRow;
  user_memberships : list Membership; refresh_tokens : list RefreshToken; token_seq : Z;
}.

Definition with_api_keys (f : list ApiKeyRow → list ApiKeyRow) (d : AuthDb) : AuthDb :=
  mkAuthDb (f (api_keys d)) (tenants d) (users d) (user_memberships d) (refresh_tokens d) (token_seq d).
Definition with_users (f : list UserRow → list UserRow) (d : AuthDb) : AuthDb :=
  mkAuthDb (api_keys d) (tenants d) (f (users d)) (user_memberships d) (refresh_tokens d) (token_seq d).
Definition with_tokens (f : list RefreshToken → list RefreshToken) (d : AuthDb) : AuthDb :=
  mkAuthDb (api_keys d) (tenants d) (users d) (user_memberships d) (f (refresh_tokens d)) (token_seq d).

(** ** UUIDs *)

(** [s.replace(needle, "")]; [skip] characters of a match are still to be dropped. *)
Fixpoint str_delete (needle : string) (skip : nat) (s : string) : string :=
  match s with
  | EmptyString => EmptyString
  | String c s' =>
      match skip with
      | S k => str_delete needle k s'
      | O => if starts_with needle s then str_delete needle (String.length needle - 1) s'
             else String c (str_delete needle 0 s')
      end
  end.

Definition is_brace (c : ascii) : bool := Ascii.eqb c "{" || Ascii.eqb c "}".

Fixpoint lstrip_braces (s : string) : string :=
  match s with
  | String c s' => if is_brace c then lstrip_braces s' else s
  | EmptyString => EmptyString
  end.

Fixpoint rstrip_braces (s : string) : string :=
  match s with
  | EmptyString => EmptyString
  | String c s' =>
      match rstrip_braces s' with
      | EmptyString => if is_brace c then EmptyString else String c EmptyString
      | s'' => String c s''
      end
  end.

Definition is_hex_digit (c : ascii) : bool := is_digit c || ascii_in 65 70 c || ascii_in 97 102 c.

(** [str(UUID(s))] on 32 hexadecimal digits with the prefixes, braces and hyphens that
    [uuid.UUID] drops. *)
Definition UUID (s : string) : result exn string :=
  let hex := str_remove "-" (rstrip_braces (lstrip_braces (str_delete "uuid:" 0 (str_delete "urn:" 0 s)))) in
  if Nat.eqb (String.length hex) 32 && str_forallb is_hex_digit hex then
    let h := str_lower hex in
    Ok (str_take 8 h +:+ "-" +:+ str_take 4 (str_drop 8 h) +:+ "-" +:+ str_take 4 (str_drop 12 h) +:+
        "-" +:+ str_take 4 (str_drop 16 h) +:+ "-" +:+ str_drop 20 h)
  else Err (PyException "badly formed hexadecimal UUID string").

(** ** Scopes: src/api_scopes.py *)

Definition SCOPE_HIERARCHY : gmap string (list string) := list_to_map [
  ("spaces:read", ["spaces:read"]); ("devices:read", ["devices:read"]);
  ("reservations:read", ["reservations:read"]); ("telemetry:read", ["telemetry:read"]);
  ("users:read", ["users:read"]); ("sites:read", ["sites:read"]); ("tenants:read", ["tenants:read"]);
  ("spaces:write", ["spaces:read"; "spaces:write"]);
  ("devices:write", ["devices:read"; "devices:write"]);
  ("reservations:write", ["reservations:read"; "reservations:write"]);
  ("sites:write", ["sites:read"; "sites:write"]);
  ("tenants:write", ["tenants:read"; "tenants:write"]);
  ("webhook:ingest", ["webhook:ingest"]); ("admin:*", ["*"])].

(** What one turn of the loop of [expand_scopes] adds. *)
Definition expand_scope (scope : string) : gset string :=
  match SCOPE_HIERARCHY !! scope with Some l => list_to_set l | None => {[ scope ]} end.

Definition expand_scopes (scopes : gset string) : gset string := set_bind expand_scope scopes.

(** [', '.join(sorted(s))] *)
Definition join_sorted (s : gset string) : string :=
  String.concat ", " (merge_sort string_leb (base.elements s)).

Definition check_scopes (required : gset string) (tenant : TenantContext) : result exn unit :=
  if String.eqb (tc_source tenant) "jwt" then Ok tt
  else if String.eqb (tc_source tenant) "api_key" then
    match tc_api_key_scopes tenant with
    | None | Some [] => Err (HTTPException 403 "API key has no scopes defined")
    | Some scopes =>
        let expanded_required := expand_scopes required in
        let expanded_available := expand_scopes (list_to_set scopes) in
        if bool_decide ("*" ∈ expanded_available) || bool_decide ("admin:*" ∈ expanded_available) then Ok tt
        else if bool_decide (expanded_required ⊆ expanded_available) then Ok tt
        else Err (HTTPException 403 ("API key lacks required scopes: " +:+
                                     join_sorted (expanded_required ∖ expanded_available)))
    end
  else Err (HTTPException 403 "Invalid authentication source").

(** ** Roles: [require_role] of src/tenant_auth.py *)

Definition role_hierarchy (r : UserRole) : option Z :=
  match r with
  | VIEWER => Some 1 | OPERATOR => Some 2 | ADMIN => Some 3 | OWNER => Some 4 | PLATFORM_ADMIN => None
  end.

Definition require_role (minimum_role : UserRole) (tenant : TenantContext) : result exn TenantContext :=
  if String.eqb (tc_source tenant) "api_key" then Ok tenant
  else match tc_user_role tenant with
  | None => Err (HTTPException 403 "Insufficient permissions")
  | Some user_role =>
      let user_level := or_else (role_hierarchy user_role) 0 in
      let required_level := or_else (role_hierarchy minimum_role) 999 in
      if user_level <? required_level
      then Err (HTTPException 403 ("Requires " +:+ role_value minimum_role +:+ " role or higher"))
      else Ok tenant
  end.

(** ** Access tokens *)

Record JwtPayload := mkJwtPayload {
  jp_user_id : string; jp_tenant_id : string; jp_role : string; jp_exp : Z; jp_iat : Z;
}.

Record TokenData := mkTokenData { td_user_id : string; td_tenant_id : string; td_role : UserRole; td_exp : Z }.

Record APIKeyInfo := mkAPIKeyInfo { ki_id : string; ki_name : option string; ki_is_admin : bool }.

Definition JWT_ACCESS_TOKEN_EXPIRE_MINUTES : Z := 60 * 24.

Section Service.

(** [bcrypt.checkpw] (which raises on a malformed hash), [bcrypt.hashpw] with its salt,
    [jwt.encode] and [jwt.decode]: a token that is expired, malformed, signed with
    another key or without the expected claims is an error. *)
Context (checkpw : string → string → result exn bool) (hashpw : string → string → string).
Context (jwt_encode : JwtPayload → string → string).
Context (jwt_decode : Z → string → string → result exn JwtPayload).

(** The module globals [_db_pool] (set or not) and [JWT_SECRET_KEY]. *)
Context (pool_ready : bool) (JWT_SECRET_KEY : option string).

Definition create_access_token (now : Z) (user_id tenant_id : string) (role : UserRole) : result exn string :=
  if negb (truthy JWT_SECRET_KEY) then Err (PyException "JWT secret key not configured")
  else
    let expires_at := now + JWT_ACCESS_TOKEN_EXPIRE_MINUTES * 60 * sec in
    let payload := mkJwtPayload user_id tenant_id (role_value role) (expires_at / sec) (now / sec) in
    Ok (jwt_encode payload (or_else JWT_SECRET_KEY "")).

Definition decode_access_token (now : Z) (token : string) : option TokenData :=
  if negb (truthy JWT_SECRET_KEY) then None
  else
    match (payload ← jwt_decode now token (or_else JWT_SECRET_KEY "");
           user_id ← UUID (jp_user_id payload);
           tenant_id ← UUID (jp_tenant_id payload);
           role ← role_of (jp_role payload);
           mret (mkTokenData user_id tenant_id role (jp_exp payload * sec))) with
    | Ok td => Some td
    | Err _ => None
    end.

Definition verify_password (password password_hash : string) : bool :=
  match checkpw password password_hash with Ok b => b | Err _ => false end.

(** ** API keys: src/auth.py *)

Definition touch_key (now : Z) (k : ApiKeyRow) : ApiKeyRow :=
  mkApiKeyRow (ak_id k) (ak_key_hash k) (ak_key_name k) (ak_tenant_id k) (ak_scopes k) (ak_is_active k)
    (ak_is_admin k) (Some now) (ak_created_at k).

(** The loop over the active keys; a hash bcrypt refuses is skipped. *)
Fixpoint check_keys (now : Z) (api_key : string) (rows : list ApiKeyRow) : stE AuthDb exn (option APIKeyInfo) :=
  match rows with
  | [] => mret None
  | row :: rows =>
      match checkpw api_key (ak_key_hash row) with
      | Ok true =>
          _ ← modify_st (with_api_keys (sql_update (λ k, String.eqb (ak_id k) (ak_id row)) (touch_key now)));
          mret (Some (mkAPIKeyInfo (ak_id row) (ak_key_name row) (ak_is_admin row)))
      | _ => check_keys now api_key rows
      end
  end.

Definition verify_api_key (now : Z) (api_key : string) : stE AuthDb exn (option APIKeyInfo) :=
  if negb pool_ready then mret None
  else d ← get_st; check_keys now api_key (List.filter ak_is_active (api_keys d)).

Definition get_api_key (now : Z) (api_key : option string) : stE AuthDb exn APIKeyInfo :=
  if negb (truthy api_key) then raise (HTTPException 401 "Missing API key. Provide X-API-Key header.")
  else
    key_info ← verify_api_key now (or_else api_key "");
    match key_info with
    | None => raise (HTTPException 401 "Invalid API key")
    | Some key_info => mret key_info
    end.

Definition get_admin_api_key (now : Z) (api_key : option string) : stE AuthDb exn APIKeyInfo :=
  key_info ← get_api_key now api_key;
  if ki_is_admin key_info then mret key_info
  else raise (HTTPException 403 "Admin privileges required").

Definition get_optional_api_key (now : Z) (api_key : option string) : stE AuthDb exn (option APIKeyInfo) :=
  if negb (truthy api_key) then mret None else verify_api_key now (or_else api_key "").

Definition verify_webhook_source (client_ip : string) : bool :=
  starts_with "172." client_ip || String.eqb client_ip "127.0.0.1".

(** ** Tenants: src/tenant_auth.py *)

Definition find_tenant (p : TenantRow → bool) (tenant_id : string) (d : AuthDb) : option TenantRow :=
  fetchrow (λ t, String.eqb (tn_id t) tenant_id && p t) (tenants d).

(** [api_keys INNER JOIN tenants] under the conditions of the query *)
Definition key_with_tenant (key_id : string) (d : AuthDb) : option (ApiKeyRow * TenantRow) :=
  k ← fetchrow (λ k, String.eqb (ak_id k) key_id && ak_is_active k &&
                     match ak_tenant_id k with
                     | Some t => bool_decide (is_Some (find_tenant tn_is_active t d))
                     | None => false
                     end) (api_keys d);
  tenant_id ← ak_tenant_id k;
  t ← find_tenant tn_is_active tenant_id d;
  mret (k, t).

Definition resolve_tenant_from_api_key (info : APIKeyInfo) (d : AuthDb) : option TenantContext :=
  if negb pool_ready then None
  else match key_with_tenant (ki_id info) d with
  | None => None
  | Some (k, t) =>
      Some (mkTenantContext (tn_id t) (tn_name t) (tn_slug t) None None (Some (ki_id info))
              (Some (ak_scopes k)) "api_key")
  end.

(** [users INNER JOIN user_memberships INNER JOIN tenants] *)
Definition membership_of (user_id tenant_id : string) (d : AuthDb) : option (UserRow * Membership * TenantRow) :=
  u ← fetchrow (λ u, String.eqb (us_id u) user_id) (users d);
  m ← fetchrow (λ m, String.eqb (um_user_id m) user_id && String.eqb (um_tenant_id m) tenant_id)
        (user_memberships d);
  t ← find_tenant (λ _, true) tenant_id d;
  mret (u, m, t).

Definition resolve_tenant_from_jwt (td : TokenData) (d : AuthDb) : option TenantContext :=
  if negb pool_ready then None
  else match membership_of (td_user_id td) (td_tenant_id td) d with
  | None => None
  | Some (u, m, t) =>
      if negb (us_is_active u) then None
      else if negb (um_is_active m) then None
      else if negb (tn_is_active t) then None
      else match role_of (um_role m) with
           | Ok role => Some (mkTenantContext (tn_id t) (tn_name t) (tn_slug t) (Some (td_user_id td))
                                (Some role) None None "jwt")
           | Err _ => None
           end
  end.

(** The Bearer token first, then the API key. *)
Definition jwt_context (now : Z) (credentials : option string) (d : AuthDb) : option TenantContext :=
  if truthy credentials
  then td ← decode_access_token now (or_else credentials ""); resolve_tenant_from_jwt td d
  else None.

Definition get_current_tenant (now : Z) (api_key credentials : option string) : stE AuthDb exn TenantContext :=
  d ← get_st;
  match jwt_context now credentials d with
  | Some tenant_context => mret tenant_context
  | None =>
      tenant_context ←
        (if truthy api_key then
           api_key_info ← verify_api_key now (or_else api_key "");
           match api_key_info with
           | Some info => d ← get_st; mret (resolve_tenant_from_api_key info d)
           | None => mret None
           end
         else mret None);
      match tenant_context with
      | Some c => mret c
      | None => raise (HTTPException 401
          "Authentication required. Provide either JWT Bearer token or X-API-Key header.")
      end
  end.

Definition get_optional_tenant (now : Z) (api_key credentials : option string) : stE AuthDb exn (option TenantContext) :=
  try_catch (c ← get_current_tenant now api_key credentials; mret (Some c))
    (λ e, match e with HTTPException _ _ => mret None | _ => raise e end).

(** [Depends(require_role(...))] and [Depends(require_scopes(...))] of a route. *)
Definition depends_role (now : Z) (minimum_role : UserRole) (api_key credentials : option string)
    : stE AuthDb exn TenantContext :=
  c ← get_current_tenant now api_key credentials;
  lift (require_role minimum_role c).

Definition require_scopes (now : Z) (required_scopes : list string) (api_key credentials : option string)
    : stE AuthDb exn TenantContext :=
  c ← get_current_tenant now api_key credentials;
  _ ← lift (check_scopes (list_to_set required_scopes) c);
  mret c.

(** [enforce_api_key_scopes]: the check by the id of a key, with the query that may fail.
    (The scopes in the message come in the order of a set; here in the order of
    [elements].) *)
Definition enforce_api_key_scopes (fault : option exn) (required_scopes : gset string) (api_key_id : string)
    : stE AuthDb exn bool :=
  try_catch (
    row ← may_fail fault (λ d, (Ok (fetchrow (λ k, String.eqb (ak_id k) api_key_id && ak_is_active k) (api_keys d)), d));
    match row with
    | None => raise (HTTPException 403 "API key not found or inactive")
    | Some k =>
        let expanded_required := expand_scopes required_scopes in
        let expanded_available := expand_scopes (list_to_set (ak_scopes k)) in
        if bool_decide ("*" ∈ expanded_available) then mret true
        else if negb (bool_decide (expanded_required ⊆ expanded_available))
        then raise (HTTPException 403 ("API key lacks required scopes: " +:+
               String.concat ", " (base.elements (expanded_required ∖ expanded_available))))
        else mret true
    end)
    (λ e, match e with HTTPException _ _ => raise e | _ => raise (HTTPException 500 "Failed to verify API key scopes") end).

(** ** API-key endpoints: src/api_tenants.py *)

(** The body, given the context that [require_owner] let through.  [plain_key] is
    [generate_api_key()], [salt] the random salt of [hash_api_key]. *)
Definition create_api_key (now : Z) (new_id plain_key salt name tenant_id : string) (scopes : list string)
    (tenant : TenantContext) : stE AuthDb exn ApiKeyRow :=
  if negb (String.eqb tenant_id (tc_tenant_id tenant))
  then raise (HTTPException 403 "Cannot create API key for different tenant")
  else
    let row := mkApiKeyRow new_id (hashpw plain_key salt) (Some name) (Some tenant_id) scopes true false
                 None now in
    d ← get_st;
    if existsb (λ k, String.eqb (ak_key_hash k) (ak_key_hash row)) (api_keys d)
    then raise (unique_violation "unique_key_hash")
    else _ ← modify_st (with_api_keys (λ l, (l ++ [row])%list)); mret row.

(** The route: [Depends(require_owner)], then the body. *)
Definition post_api_key (now : Z) (new_id plain_key salt name tenant_id : string) (scopes : list string)
    (api_key credentials : option string) : stE AuthDb exn ApiKeyRow :=
  tenant ← depends_role now OWNER api_key credentials;
  create_api_key now new_id plain_key salt name tenant_id scopes tenant.

Definition deactivate_key (k : ApiKeyRow) : ApiKeyRow :=
  mkApiKeyRow (ak_id k) (ak_key_hash k) (ak_key_name k) (ak_tenant_id k) (ak_scopes k) false
    (ak_is_admin k) (ak_last_used_at k) (ak_created_at k).

Definition key_of_tenant (key_id : string) (tenant : TenantContext) (k : ApiKeyRow) : bool :=
  String.eqb (ak_id k) key_id && bool_decide (ak_tenant_id k = Some (tc_tenant_id tenant)).

Definition revoke_api_key (key_id : string) (tenant : TenantContext) : stE AuthDb exn unit :=
  d ← get_st;
  if sql_count (key_of_tenant key_id tenant) (api_keys d) =? 0
  then raise (HTTPException 404 "API key not found")
  else modify_st (with_api_keys (sql_update (key_of_tenant key_id tenant) deactivate_key)).

(** Newest first *)
Definition newer_key (a b : ApiKeyRow) : Prop := ak_created_at b ≤ ak_created_at a.
#[local] Instance newer_key_dec : RelDecision newer_key := fun a b => decide (ak_created_at b ≤ ak_created_at a).

Definition list_api_keys (tenant : TenantContext) (d : AuthDb) : list ApiKeyRow :=
  merge_sort newer_key
    (List.filter (λ k, bool_decide (ak_tenant_id k = Some (tc_tenant_id tenant))) (api_keys d)).

End Service.

(** ** Scopes: the grant relation *)

(** A reference definition of what a scope grants: everything when it is a wildcard;
    otherwise itself, and the read scope of the resource it may write. *)
Definition wildcard (s : string) : bool := String.eqb s "*" || String.eqb s "admin:*".

Definition writable : list string := ["spaces"; "devices"; "reservations"; "sites"; "tenants"].

Definition grants (s r : string) : bool :=
  wildcard s || String.eqb s r ||
  existsb (λ res, String.eqb s (res +:+ ":write") && String.eqb r (res +:+ ":read")) writable.

Lemma hierarchy_cases (P : string → list string → Prop) s :
  Forall (λ kv, P kv.1 kv.2) (map_to_list SCOPE_HIERARCHY) →
  (SCOPE_HIERARCHY !! s = None → P s [s]) → P s (or_else (SCOPE_HIERARCHY !! s) [s]).
Proof.
  intros H1 H2. destruct (SCOPE_HIERARCHY !! s) as [l|] eqn:E; [|by apply H2].
  rewrite Forall_forall in H1. apply (H1 (s, l)). by apply elem_of_map_to_list.
Qed.

Lemma elem_of_expand_scope x s : x ∈ expand_scope s ↔ x ∈ or_else (SCOPE_HIERARCHY !! s) [s].
Proof. unfold expand_scope. destruct (SCOPE_HIERARCHY !! s); cbn [or_else]; set_solver. Qed.

Lemma elem_of_expand x (S : gset string) : x ∈ expand_scopes S ↔ ∃ s, s ∈ S ∧ x ∈ expand_scope s.
Proof. unfold expand_scopes. by rewrite elem_of_set_bind. Qed.

(** What a scope expands to, it grants. *)
Lemma expand_grants x s : x ∈ expand_scope s → grants s x = true.
Proof.
  rewrite elem_of_expand_scope. revert x.
  apply (hierarchy_cases (λ s l, ∀ x, x ∈ l → grants s x = true)).
  - apply (Forall_impl (λ kv, forallb (grants kv.1) kv.2 = true)).
    + vm_compute. repeat constructor.
    + intros [k l] H x Hx. cbn [fst snd] in *. rewrite forallb_forall in H. by apply H, list_elem_of_In.
  - intros _ x ->%list_elem_of_singleton. unfold grants. by rewrite String.eqb_refl, orb_true_r.
Qed.

(** A scope other than the administrator's expands to itself at least. *)
Lemma expand_self s : s ≠ "admin:*" → s ∈ expand_scope s.
Proof.
  rewrite elem_of_expand_scope. apply (hierarchy_cases (λ s l, s ≠ "admin:*" → s ∈ l)).
  - apply (Forall_impl (λ kv, existsb (String.eqb kv.1) (("admin:*" :: kv.2)%list) = true)).
    + vm_compute. repeat constructor.
    + intros [k l] [x [Hx Ex%String.eqb_eq]]%existsb_exists Hk. cbn [fst snd] in *. subst x.
      destruct Hx as [E|Hx]; [by destruct Hk|]. by apply list_elem_of_In.
  - intros _ _. by left.
Qed.

Lemma wildcard_expand S : "*" ∈ expand_scopes S ↔ ∃ s, s ∈ S ∧ wildcard s = true.
Proof.
  rewrite elem_of_expand. split.
  - intros (s & Hs & Hx%expand_grants). exists s. split; [done|]. unfold grants in Hx.
    apply orb_true_iff in Hx as [Hx|Hx].
    + apply orb_true_iff in Hx as [?| ->%String.eqb_eq]; [done|reflexivity].
    + apply existsb_exists in Hx as (res & _ & [_ Hr%String.eqb_eq]%andb_true_iff). destruct res as [|c [|c2 res]]; discriminate.
  - intros (s & Hs & Hw). apply orb_true_iff in Hw as [Hw|Hw]; apply String.eqb_eq in Hw; subst s;
      eexists; (split; [exact Hs|]).
    + by apply expand_self.
    + rewrite elem_of_expand_scope. vm_compute. by left.
Qed.

(** "admin:*" is expanded away, so the second test of [check_scopes] never holds. *)
Lemma admin_expanded S : "admin:*" ∉ expand_scopes S.
Proof.
  rewrite elem_of_expand. intros (s & _ & Hx). rewrite elem_of_expand_scope in Hx. revert Hx.
  apply (hierarchy_cases (λ s l, "admin:*" ∉ l)).
  - vm_compute. repeat (apply Forall_cons; split); try apply Forall_nil; set_solver.
  - intros Hn E%list_elem_of_singleton. subst s. vm_compute in Hn. done.
Qed.

(** Without wildcards, a required scope's expansion is covered exactly when some
    available scope grants it. *)
Lemma expand_covered S r :
  (∀ s, s ∈ S → wildcard s = false) →
  (∀ x, x ∈ expand_scope r → x ∈ expand_scopes S) ↔ ∃ s, s ∈ S ∧ grants s r = true.
Proof.
  intros Hw. split.
  - intros H. destruct (decide (r = "admin:*")) as [->|Hr].
    + assert ("*" ∈ expand_scopes S) as (s & Hs & Ews)%wildcard_expand.
      { apply H. rewrite elem_of_expand_scope. vm_compute. by left. }
      by rewrite (Hw s Hs) in Ews.
    + apply expand_self, H, elem_of_expand in Hr as (s & Hs & Hx%expand_grants). eauto.
  - intros (s & Hs & Hg) x Hx. apply elem_of_expand. exists s. split; [done|].
    unfold grants in Hg. rewrite (Hw s Hs) in Hg. cbn [orb] in Hg.
    apply orb_true_iff in Hg as [->%String.eqb_eq|Hg]; [done|].
    apply existsb_exists in Hg as (res & Hres & [->%String.eqb_eq ->%String.eqb_eq]%andb_true_iff).
    rewrite elem_of_expand_scope in Hx |- *.
    cbn [In writable] in Hres. destruct_or! Hres; subst; try done; vm_compute in Hx |- *; set_solver.
Qed.

(** C26. The scope check agrees with the reference: a user's token always passes; an API key
    passes when it has scopes and each required scope is granted by one of them (a
    wildcard grants all, a write scope its read scope, any other scope only itself);
    everything else is refused. *)
Theorem scope_grant_spec required tenant :
  check_scopes required tenant = Ok tt ↔
  tc_source tenant = "jwt" ∨
  (tc_source tenant = "api_key" ∧ ∃ scopes, tc_api_key_scopes tenant = Some scopes ∧ scopes ≠ [] ∧
     ∀ r, r ∈ required → ∃ s, s ∈ scopes ∧ grants s r = true).
Proof.
  unfold check_scopes. destruct (String.eqb_spec (tc_source tenant) "jwt") as [->|Hj]; [tauto|].
  destruct (String.eqb_spec (tc_source tenant) "api_key") as [Ha|]; [|naive_solver].
  destruct (tc_api_key_scopes tenant) as [[|s0 l]|]; [naive_solver| |naive_solver].
  set (scopes := (s0 :: l)%list). rewrite (bool_decide_false _ (admin_expanded _)), orb_false_r.
  assert (∀ s, s ∈ (list_to_set scopes : gset string) ↔ s ∈ scopes) as Hl by (intros; apply elem_of_list_to_set).
  destruct (bool_decide_reflect ("*" ∈ expand_scopes (list_to_set scopes))) as [Hw|Hw].
  - apply wildcard_expand in Hw as (s & Hs%Hl & Ew). split; [|done]. intros _. right. split; [done|].
    exists scopes. split_and!; [done..|]. intros r _. exists s. unfold grants. by rewrite Ew.
  - assert (∀ s, s ∈ (list_to_set scopes : gset string) → wildcard s = false) as Hnw.
    { intros s Hs. apply not_true_iff_false. intros Ew. apply Hw, wildcard_expand. eauto. }
    assert (expand_scopes required ⊆ expand_scopes (list_to_set scopes) ↔
            ∀ r, r ∈ required → ∃ s, s ∈ scopes ∧ grants s r = true) as Hsub.
    { split.
      - intros Hsub r Hr. destruct (proj1 (expand_covered _ r Hnw)) as (s & Hs%Hl & Hg); [|by eauto].
        intros x Hx. apply Hsub, elem_of_expand. eauto.
      - intros H x (r & Hr & Hx)%elem_of_expand. destruct (H r Hr) as (s & Hs%Hl & Hg).
        apply (expand_covered _ r Hnw); eauto. }
    destruct (bool_decide_reflect (expand_scopes required ⊆ expand_scopes (list_to_set scopes))) as [H|H].
    + split; [|done]. intros _. right. split; [done|]. exists scopes. naive_solver.
    + split; [done|]. intros [?|(_ & scopes' & [= <-] & _ & Hr)]; [done|]. by destruct H; apply Hsub.
Qed.

(** The check by key id grants what the check of the routes grants to the context of that
    key, but for a key without scopes, which passes when nothing is required. *)
Lemma enforce_agrees required k d tenant :
  fetchrow (λ x, String.eqb (ak_id x) (ak_id k) && ak_is_active x) (api_keys d) = Some k →
  tc_source tenant = "api_key" → tc_api_key_scopes tenant = Some (ak_scopes k) → ak_scopes k ≠ [] →
  (enforce_api_key_scopes None required (ak_id k) d).1 = Ok true ↔ check_scopes required tenant = Ok tt.
Proof.
  intros Hk Hs Hsc Hne. unfold enforce_api_key_scopes, check_scopes, try_catch, may_fail, mbind, stE_bind, mret, stE_ret.
  rewrite Hk, Hs, Hsc. cbn [String.eqb Ascii.eqb Bool.eqb]. destruct (ak_scopes k) as [|s0 l]; [done|].
  rewrite (bool_decide_false _ (admin_expanded _)), orb_false_r.
  destruct (bool_decide ("*" ∈ _)); [done|]. by destruct (bool_decide (_ ⊆ _)).
Qed.

(** ** Roles *)

(** The order of the docstring: VIEWER < OPERATOR < ADMIN < OWNER. *)
Definition ranked : list UserRole := [VIEWER; OPERATOR; ADMIN; OWNER].

Definition at_least (r m : UserRole) : Prop :=
  ∃ i j, ranked !! i = Some m ∧ ranked !! j = Some r ∧ (i ≤ j)%nat.

Lemma ranked_level i r : ranked !! i = Some r ↔ role_hierarchy r = Some (Z.of_nat i + 1).
Proof.
  split.
  - intros H. do 4 (destruct i as [|i]; [injection H as <-; reflexivity|]). done.
  - destruct r; cbn [role_hierarchy]; intros [= E]; try (replace i with 0%nat by lia; reflexivity);
      [replace i with 3%nat by lia|replace i with 2%nat by lia|replace i with 1%nat by lia]; reflexivity.
Qed.

Lemma at_least_levels r m :
  at_least r m ↔ ∃ a b, role_hierarchy m = Some a ∧ role_hierarchy r = Some b ∧ a ≤ b.
Proof.
  split.
  - intros (i & j & Hi%ranked_level & Hj%ranked_level & Hij). do 2 eexists. split_and!; [done..|lia].
  - intros (a & b & Ha & Hb & Hab).
    assert (1 ≤ a ∧ 1 ≤ b) as [? ?] by (split; [destruct m|destruct r]; cbn in *; simplify_eq; lia).
    exists (Z.to_nat (a - 1)), (Z.to_nat (b - 1)). rewrite !ranked_level.
    split_and!; [rewrite Ha|rewrite Hb|]; [f_equal; lia..|lia].
Qed.

(** A role check lets an API key through whatever the minimum role.  A user passes
    exactly when the role stands at or above the minimum in the documented order
    VIEWER < OPERATOR < ADMIN < OWNER: the platform administrator, who has no position in
    it, passes no check at all.  A caller that passes is returned unchanged. *)
Theorem role_check_spec minimum tenant :
  require_role minimum tenant = Ok tenant ↔
  tc_source tenant = "api_key" ∨ ∃ r, tc_user_role tenant = Some r ∧ at_least r minimum.
Proof.
  unfold require_role. destruct (String.eqb_spec (tc_source tenant) "api_key") as [?|Hs]; [tauto|].
  transitivity (∃ r, tc_user_role tenant = Some r ∧ at_least r minimum); [|naive_solver].
  destruct (tc_user_role tenant) as [r|]; [|naive_solver].
  transitivity (at_least r minimum); [|naive_solver]. rewrite at_least_levels.
  destruct minimum, r; (split; [intros H|intros (a & b & Ha & Hb & Hab)]); cbn in *; simplify_eq;
    try done; do 2 eexists; (split_and!; [reflexivity|reflexivity|lia]).
Qed.

(** ** Authentication *)

Lemma fetchrow_elem {A} (p : A → bool) l x : fetchrow p l = Some x → x ∈ l ∧ p x = true.
Proof. intros [Hx Hp]%find_some. split; [by apply list_elem_of_In|done]. Qed.

Section Authentication.
Context (checkpw : string → string → result exn bool) (hashpw : string → string → string).
Context (jwt_encode : JwtPayload → string → string).
Context (jwt_decode : Z → string → string → result exn JwtPayload).
Context (pool_ready : bool) (JWT_SECRET_KEY : option string).

(** The checks end without an exception; they authenticate a row whose hash matches, and
    then only note when it was used. *)
Lemma check_keys_spec now key rows d :
  match check_keys checkpw now key rows d with
  | (Ok None, d') => d' = d
  | (Ok (Some info), d') => ∃ row, row ∈ rows ∧ checkpw key (ak_key_hash row) = Ok true ∧
      info = mkAPIKeyInfo (ak_id row) (ak_key_name row) (ak_is_admin row) ∧
      d' = with_api_keys (sql_update (λ k, String.eqb (ak_id k) (ak_id row)) (touch_key now)) d
  | (Err _, _) => False
  end.
Proof.
  induction rows as [|row rows IH]; [reflexivity|]. cbn [check_keys].
  assert (match check_keys checkpw now key rows d with
  | (Ok None, d') => d' = d
  | (Ok (Some info), d') => ∃ row', row' ∈ (row :: rows)%list ∧ checkpw key (ak_key_hash row') = Ok true ∧
      info = mkAPIKeyInfo (ak_id row') (ak_key_name row') (ak_is_admin row') ∧
      d' = with_api_keys (sql_update (λ k, String.eqb (ak_id k) (ak_id row')) (touch_key now)) d
  | (Err _, _) => False
  end) as IH'.
  { destruct (check_keys _ _ _ _ _) as [[[info|]|e] d']; [|done..].
    destruct IH as (row' & Hin & H). exists row'. split; [by right|done]. }
  destruct (checkpw key (ak_key_hash row)) as [[]|] eqn:E; [|exact IH'..].
  cbn. exists row. split; [by left|done].
Qed.

(** Noting the use of a key keeps what authorisation reads of it. *)
Lemma touch_key_elem now p l k :
  k ∈ sql_update p (touch_key now) l →
  ∃ k0, k0 ∈ l ∧ ak_id k = ak_id k0 ∧ ak_is_active k = ak_is_active k0 ∧
        ak_tenant_id k = ak_tenant_id k0 ∧ ak_scopes k = ak_scopes k0 ∧ ak_key_hash k = ak_key_hash k0.
Proof.
  unfold sql_update. intros (k0 & -> & Hk0)%list_elem_of_fmap. exists k0.
  split; [done|]. by destruct (p k0).
Qed.

(** The context of a user: the token decodes, and the user, the membership and the tenant
    are active in the database; the role is the membership's, not the token's. *)
Definition via_jwt (now : Z) (credentials : option string) (d : AuthDb) (c : TenantContext) : Prop :=
  ∃ token td u m t role,
    credentials = Some token ∧
    decode_access_token jwt_decode JWT_SECRET_KEY now token = Some td ∧
    u ∈ users d ∧ us_id u = td_user_id td ∧ us_is_active u = true ∧
    m ∈ user_memberships d ∧ um_user_id m = td_user_id td ∧ um_tenant_id m = td_tenant_id td ∧
    um_is_active m = true ∧ role_of (um_role m) = Ok role ∧
    t ∈ tenants d ∧ tn_id t = td_tenant_id td ∧ tn_is_active t = true ∧
    c = mkTenantContext (tn_id t) (tn_name t) (tn_slug t) (Some (us_id u)) (Some role) None None "jwt".

(** The context of an API key: the presented key matches an active key, whose tenant is
    active and whose scopes are the context's. *)
Definition via_key (api_key : option string) (d : AuthDb) (c : TenantContext) : Prop :=
  ∃ key k t,
    api_key = Some key ∧ k ∈ api_keys d ∧ ak_is_active k = true ∧
    checkpw key (ak_key_hash k) = Ok true ∧
    t ∈ tenants d ∧ ak_tenant_id k = Some (tn_id t) ∧ tn_is_active t = true ∧
    c = mkTenantContext (tn_id t) (tn_name t) (tn_slug t) None None (Some (ak_id k)) (Some (ak_scopes k)) "api_key".

Lemma find_tenant_spec p id d t :
  find_tenant p id d = Some t → t ∈ tenants d ∧ tn_id t = id ∧ p t = true.
Proof. intros [Ht [->%String.eqb_eq ?]%andb_true_iff]%fetchrow_elem. done. Qed.

Lemma jwt_context_spec now credentials d c :
  jwt_context jwt_decode pool_ready JWT_SECRET_KEY now credentials d = Some c → via_jwt now credentials d c.
Proof.
  unfold jwt_context. destruct credentials as [[|a token]|]; cbn [truthy or_else]; try discriminate.
  set (tok := String a token). intros (td & Hd & H)%bind_Some.
  unfold resolve_tenant_from_jwt in H. destruct pool_ready; cbn [negb] in H; [|discriminate].
  destruct (membership_of _ _ d) as [[[u m] t]|] eqn:E; [|discriminate].
  unfold membership_of in E.
  apply bind_Some in E as (u' & [Hu Eu%String.eqb_eq]%fetchrow_elem & E).
  apply bind_Some in E as (m' & [Hm [Em1%String.eqb_eq Em2%String.eqb_eq]%andb_true_iff]%fetchrow_elem & E).
  apply bind_Some in E as (t' & (Ht & Et & _)%find_tenant_spec & E).
  injection E as -> -> ->.
  destruct (us_is_active u) eqn:Hua; cbn [negb] in H; [|discriminate].
  destruct (um_is_active m) eqn:Hma; cbn [negb] in H; [|discriminate].
  destruct (tn_is_active t) eqn:Hta; cbn [negb] in H; [|discriminate].
  destruct (role_of (um_role m)) as [role|] eqn:Hr; [|discriminate].
  injection H as <-. exists tok, td, u, m, t, role. by rewrite Eu.
Qed.

Lemma key_with_tenant_spec id d k t :
  key_with_tenant id d = Some (k, t) →
  k ∈ api_keys d ∧ ak_id k = id ∧ ak_is_active k = true ∧ t ∈ tenants d ∧
  ak_tenant_id k = Some (tn_id t) ∧ tn_is_active t = true.
Proof.
  unfold key_with_tenant. intros (k' & Hk & E)%bind_Some.
  apply fetchrow_elem in Hk as [Hk [[Hid%String.eqb_eq Ha]%andb_true_iff _]%andb_true_iff].
  apply bind_Some in E as (id' & Et & E). apply bind_Some in E as (t' & (Ht & Hid' & Hta)%find_tenant_spec & E).
  injection E as -> ->. rewrite Hid'. done.
Qed.

(** C5. Authentication is sound: a request that gets a tenant context holds a valid access
    token of an active user with an active membership in an active tenant (with the role
    the database gives), or presents a key that matches an active API key of an active
    tenant (with that key's scopes). *)
Theorem authentication_sound now api_key credentials d c d' :
  NoDup (map ak_id (api_keys d)) →
  get_current_tenant checkpw jwt_decode pool_ready JWT_SECRET_KEY now api_key credentials d = (Ok c, d') →
  via_jwt now credentials d c ∨ via_key api_key d c.
Proof.
  intros Hnd. unfold get_current_tenant, get_st, mbind, stE_bind.
  destruct (jwt_context _ _ _ _ _ _) as [c1|] eqn:Ej.
  { cbn. intros [= <- <-]. left. by apply jwt_context_spec. }
  destruct api_key as [[|a0 key0]|]; cbn [truthy or_else]; try by intros [=].
  set (key := String a0 key0). unfold verify_api_key, get_st, mbind, stE_bind.
  destruct pool_ready; [|by intros [=]]. cbn [negb].
  pose proof (check_keys_spec now key (List.filter ak_is_active (api_keys d)) d) as Hs.
  destruct (check_keys _ _ _ _ _) as [[[info|]|] d1]; [|by intros [=]|done].
  destruct Hs as (row & [Hin Hact]%list_elem_of_In%filter_In & Hpw & -> & ->). apply list_elem_of_In in Hin.
  unfold resolve_tenant_from_api_key. cbn [negb ki_id].
  destruct (key_with_tenant _ _) as [[k t]|] eqn:Ek; cbn; [|by intros [=]]. intros [= <- <-]. right.
  apply key_with_tenant_spec in Ek as (Hk & Hid & _ & Ht & Htid & Hta).
  apply touch_key_elem in Hk as (k0 & Hk0 & E1 & E2 & E3 & E4 & E5).
  assert (k0 = row) as -> by (eapply (NoDup_map_inj ak_id); [exact Hnd|done|done|congruence]).
  exists key, row, t. split_and!; try done; congruence.
Qed.

Lemma active_key_rows_none key_id now key rows d info d' :
  (∀ k, k ∈ rows → ak_id k ≠ key_id) →
  check_keys checkpw now key rows d = (Ok (Some info), d') → ki_id info ≠ key_id.
Proof.
  intros Hn E. pose proof (check_keys_spec now key rows d) as Hs. rewrite E in Hs.
  destruct Hs as (row & Hin & _ & -> & _). by apply Hn.
Qed.

(** Revocation: once a tenant has revoked one of its keys, no presented key is ever
    authenticated as that key again; a key of another tenant cannot be revoked, and
    nothing else is changed. *)
Theorem revoked_key_rejected now key_id tenant key d :
  NoDup (map ak_id (api_keys d)) →
  match revoke_api_key key_id tenant d with
  | (Ok _, d') =>
      (∀ info d'', verify_api_key checkpw pool_ready now key d' = (Ok (Some info), d'') → ki_id info ≠ key_id) ∧
      (∀ k, k ∈ api_keys d → ak_id k ≠ key_id → k ∈ api_keys d')
  | (Err e, d') => e = HTTPException 404 "API key not found" ∧ d' = d ∧
      ∀ k, k ∈ api_keys d → ak_id k = key_id → ak_tenant_id k ≠ Some (tc_tenant_id tenant)
  end.
Proof.
  intros Hnd. unfold revoke_api_key, get_st, mbind, stE_bind, sql_count.
  destruct (List.filter (key_of_tenant key_id tenant) (api_keys d)) as [|k0 l] eqn:E; cbn [length].
  - cbn. split_and!; [done..|]. intros k Hk Hid Ht.
    assert (In k []) as []. rewrite <- E. apply filter_In. split; [by apply list_elem_of_In|].
    unfold key_of_tenant. rewrite Hid, String.eqb_refl. cbn [andb]. by apply bool_decide_eq_true.
  - replace (Z.of_nat (S (length l)) =? 0) with false by (symmetry; apply Z.eqb_neq; lia). cbn.
    assert (k0 ∈ api_keys d ∧ key_of_tenant key_id tenant k0 = true) as [Hk0 Hp0].
    { split; [apply list_elem_of_In|]; eapply filter_In; rewrite E; by left. }
    unfold key_of_tenant in Hp0. apply andb_true_iff in Hp0 as [Hid0%String.eqb_eq Ht0].
    split.
    + intros info d''. unfold verify_api_key, get_st, mbind, stE_bind.
      destruct pool_ready; [|by intros [=]]. cbn [negb]. apply active_key_rows_none.
      intros k [Hk Ha]%list_elem_of_In%filter_In. apply list_elem_of_In in Hk. cbn [api_keys with_api_keys] in Hk.
      unfold sql_update in Hk. apply list_elem_of_fmap in Hk as (k1 & -> & Hk1).
      destruct (key_of_tenant key_id tenant k1) eqn:Ep; [done|].
      intros Hid. assert (k1 = k0) as ->
        by (eapply (NoDup_map_inj ak_id); [exact Hnd|done|done|congruence]).
      unfold key_of_tenant in Ep. by rewrite Hid0, String.eqb_refl, Ht0 in Ep.
    + intros k Hk Hid. unfold sql_update. apply list_elem_of_fmap. exists k. split; [|done].
      unfold key_of_tenant. apply String.eqb_neq in Hid. by rewrite Hid.
Qed.

(** ** What an API key can mint *)

Lemma fetchrow_snoc {A} (p : A → bool) l x :
  (∀ y, y ∈ l → p y = false) → p x = true → fetchrow p (l ++ [x])%list = Some x.
Proof.
  intros Hl Hx. unfold fetchrow. induction l as [|y l IH]; cbn; [by rewrite Hx|].
  rewrite Hl by (by left). apply IH. intros z Hz. apply Hl. by right.
Qed.

Lemma check_keys_snoc now key rows row d :
  (∀ k, k ∈ rows → checkpw key (ak_key_hash k) = Ok false) → checkpw key (ak_key_hash row) = Ok true →
  (check_keys checkpw now key (rows ++ [row])%list d).1 =
    Ok (Some (mkAPIKeyInfo (ak_id row) (ak_key_name row) (ak_is_admin row))) ∧
  (check_keys checkpw now key (rows ++ [row])%list d).2 =
    with_api_keys (sql_update (λ k, String.eqb (ak_id k) (ak_id row)) (touch_key now)) d.
Proof.
  intros Hl Hx. induction rows as [|k rows IH]; cbn [app check_keys]; [by rewrite Hx|].
  rewrite Hl by (by left). apply IH. intros z Hz. apply Hl. by right.
Qed.

Lemma find_tenant_keys p id f d : find_tenant p id (with_api_keys f d) = find_tenant p id d.
Proof. reflexivity. Qed.

(** The newest key, if no other row has its id, is found with its tenant whatever was
    noted of its use. *)
Lemma key_with_tenant_new now d row t tid :
  (∀ k, k ∈ api_keys d → ak_id k ≠ ak_id row) → ak_is_active row = true → ak_tenant_id row = Some tid →
  find_tenant tn_is_active tid d = Some t →
  key_with_tenant (ak_id row)
    (with_api_keys (sql_update (λ k, String.eqb (ak_id k) (ak_id row)) (touch_key now))
      (with_api_keys (λ l, (l ++ [row])%list) d)) = Some (touch_key now row, t).
Proof.
  intros Hid Ha Htid Ht. unfold key_with_tenant. cbn [api_keys with_api_keys].
  unfold sql_update. rewrite map_app. cbn [map]. rewrite String.eqb_refl.
  rewrite fetchrow_snoc.
  - cbn [mbind option_bind ak_tenant_id touch_key]. rewrite Htid. cbn [mbind option_bind].
    by rewrite !find_tenant_keys, Ht.
  - intros y (k & -> & Hk)%list_elem_of_fmap. specialize (Hid k Hk). apply String.eqb_neq in Hid.
    rewrite Hid. by rewrite Hid.
  - cbn [touch_key ak_id ak_is_active ak_tenant_id]. rewrite String.eqb_refl, Ha, Htid. cbn [andb].
    rewrite !find_tenant_keys, Ht.
    by apply bool_decide_eq_true.
Qed.

(** What a request authenticated by an API key leaves: the tenants as they were, and keys
    with the ids and hashes they had. *)
Lemma key_request_state now api_key credentials d c d1 :
  get_current_tenant checkpw jwt_decode pool_ready JWT_SECRET_KEY now api_key credentials d = (Ok c, d1) →
  tc_source c = "api_key" →
  pool_ready = true ∧ is_Some (find_tenant tn_is_active (tc_tenant_id c) d1) ∧
  ∀ k, k ∈ api_keys d1 → ∃ k0, k0 ∈ api_keys d ∧ ak_id k = ak_id k0 ∧ ak_key_hash k = ak_key_hash k0.
Proof.
  unfold get_current_tenant, get_st, mbind, stE_bind.
  destruct (jwt_context _ _ _ _ _ _) as [c1|] eqn:Ej.
  { cbn. intros [= <- <-] Hs. apply jwt_context_spec in Ej as (? & ? & ? & ? & ? & ? & H).
    destruct_and! H. subst c1. discriminate. }
  destruct api_key as [[|a0 key0]|]; cbn [truthy or_else]; try by intros [=].
  set (key := String a0 key0). unfold verify_api_key, get_st, mbind, stE_bind.
  destruct pool_ready; [|by intros [=]]. cbn [negb].
  pose proof (check_keys_spec now key (List.filter ak_is_active (api_keys d)) d) as Hs.
  destruct (check_keys _ _ _ _ _) as [[[info|]|] d2]; [|by intros [=]|done].
  destruct Hs as (row & _ & _ & -> & ->). unfold resolve_tenant_from_api_key. cbn [negb ki_id].
  destruct (key_with_tenant _ _) as [[k t]|] eqn:Ek; cbn; [|by intros [=]]. intros [= <- <-] _.
  split; [done|]. split.
  - unfold key_with_tenant in Ek. apply bind_Some in Ek as (k' & _ & E).
    apply bind_Some in E as (id' & _ & E). apply bind_Some in E as (t' & Ht & E). injection E as _ ->.
    cbn [tc_tenant_id]. exists t. by destruct (find_tenant_spec _ _ _ _ Ht) as (_ & -> & _).
  - intros k1 Hk1. apply touch_key_elem in Hk1 as (k0 & H0 & ? & _ & _ & _ & ?). eauto.
Qed.

(** Privilege escalation.  An API key passes the owner check of the API-key endpoint
    whatever its own scopes, and the endpoint takes the new key's scopes from the body:
    any key of a tenant mints a key of that tenant that passes every scope check. *)
Theorem api_key_escalation now now' new_id plain_key salt name api_key credentials c d d1 :
  get_current_tenant checkpw jwt_decode pool_ready JWT_SECRET_KEY now api_key credentials d = (Ok c, d1) →
  tc_source c = "api_key" →
  non_empty plain_key = true →
  checkpw plain_key (hashpw plain_key salt) = Ok true →
  (∀ k, k ∈ api_keys d → ak_id k ≠ new_id ∧ checkpw plain_key (ak_key_hash k) = Ok false) →
  match post_api_key checkpw hashpw jwt_decode pool_ready JWT_SECRET_KEY now new_id plain_key salt name
          (tc_tenant_id c) ["admin:*"] api_key credentials d with
  | (Ok _, d2) => ∀ required, ∃ c' d3,
      require_scopes checkpw jwt_decode pool_ready JWT_SECRET_KEY now' required (Some plain_key) None d2
        = (Ok c', d3) ∧ tc_tenant_id c' = tc_tenant_id c ∧ tc_api_key_scopes c' = Some ["admin:*"]
  | (Err _, _) => False
  end.
Proof.
  intros Hc Hsrc Hne Hpw Hother. destruct (key_request_state _ _ _ _ _ _ Hc Hsrc) as (Hpool & [t Ht] & Hkeys).
  assert (∀ k, k ∈ api_keys d1 → ak_id k ≠ new_id ∧ checkpw plain_key (ak_key_hash k) = Ok false) as Hk1.
  { intros k Hk. destruct (Hkeys k Hk) as (k0 & H0 & -> & ->). by apply Hother. }
  unfold post_api_key, depends_role, create_api_key, lift, get_st, modify_st, mbind, stE_bind.
  rewrite Hc. unfold require_role. rewrite Hsrc. cbn [String.eqb Ascii.eqb Bool.eqb].
  rewrite String.eqb_refl. cbn [negb]. set (row := mkApiKeyRow _ _ _ _ _ _ _ _ _).
  replace (existsb _ (api_keys d1)) with false.
  2: { symmetry. apply not_true_iff_false. intros (k & Hk%list_elem_of_In & Eh%String.eqb_eq)%existsb_exists.
       destruct (Hk1 k Hk) as [_ Hf]. rewrite Eh in Hf. cbn in Hf. congruence. }
  unfold mret, stE_ret. intros required.
  unfold require_scopes, get_current_tenant, jwt_context, get_st, mbind, stE_bind. cbn [truthy].
  destruct plain_key as [|a0 key0]; [done|]. set (key := String a0 key0) in *. cbn [or_else].
  unfold verify_api_key, get_st, mbind, stE_bind. rewrite Hpool. cbn [negb api_keys with_api_keys].
  rewrite List.filter_app. cbn [List.filter ak_is_active row].
  destruct (check_keys_snoc now' key (List.filter ak_is_active (api_keys d1)) row
              (with_api_keys (λ l, (l ++ [row])%list) d1)) as [E1 E2].
  { intros k [Hk _]%list_elem_of_In%filter_In. apply Hk1. by apply list_elem_of_In. }
  { exact Hpw. }
  fold row. destruct (check_keys _ _ _ _ _) as [r d3]. cbn [fst snd] in E1, E2. subst r d3.
  unfold resolve_tenant_from_api_key. cbn [negb ki_id].
  rewrite (key_with_tenant_new now' d1 row t (tc_tenant_id c)); [|by intros k Hk; apply Hk1|done..].
  cbn. do 2 eexists. split; [reflexivity|]. cbn. split; [|done].
  by destruct (find_tenant_spec _ _ _ _ Ht) as (_ & -> & _).
Qed.

(** ** Access tokens *)

(** An access token decodes to the user, tenant and role it was created for until the
    whole second that lies 24 hours after its creation, and never after.  (The login and
    refresh responses announce 15 minutes.) *)
Theorem access_token_lifetime now user_id tenant_id role :
  truthy JWT_SECRET_KEY = true →
  UUID user_id = Ok user_id → UUID tenant_id = Ok tenant_id →
  (∀ p key t, jwt_decode t (jwt_encode p key) key =
     if jp_exp p * sec <=? t then Err (PyException "Signature has expired") else Ok p) →
  let exp := (now + 24 * 3600 * sec) / sec * sec in
  match create_access_token jwt_encode JWT_SECRET_KEY now user_id tenant_id role with
  | Ok token => ∀ t, decode_access_token jwt_decode JWT_SECRET_KEY t token =
      if t <? exp then Some (mkTokenData user_id tenant_id role exp) else None
  | Err _ => False
  end.
Proof.
  intros Hkey Hu Ht Hjwt exp. unfold create_access_token, decode_access_token. rewrite Hkey. cbn [negb].
  intros t. rewrite Hjwt. cbn [jp_exp].
  change (now + JWT_ACCESS_TOKEN_EXPIRE_MINUTES * 60 * sec) with (now + 24 * 3600 * sec). fold exp.
  destruct (Z.leb_spec exp t), (Z.ltb_spec t exp); try lia; [done|].
  unfold mbind, result_bind. cbn [jp_user_id jp_tenant_id jp_role]. rewrite Hu, Ht, role_of_value. reflexivity.
Qed.
End Authentication.

(** ** Witnesses *)

(** Stand-ins for bcrypt and PyJWT that satisfy what the theorems ask of them. *)
Definition plain_hashpw (key salt : string) : string := "$" +:+ salt +:+ "$" +:+ key.
Definition plain_checkpw (key hash : string) : result exn bool :=
  if starts_with "$" hash then Ok (String.eqb hash (plain_hashpw key "salt"))
  else Err (PyException "Invalid salt").

Definition plain_jwt_encode (p : JwtPayload) (key : string) : string :=
  show_Z (Zpos (encode (jp_user_id p, jp_tenant_id p, jp_role p, jp_exp p, jp_iat p, key))).
Definition plain_jwt_decode (now : Z) (token key : string) : result exn JwtPayload :=
  match read_Z token with
  | Some (Zpos x) =>
      match decode x with
      | Some (u, t, r, e, i, k) =>
          if negb (String.eqb k key) then Err (PyException "Signature verification failed")
          else if e * sec <=? now then Err (PyException "Signature has expired")
          else Ok (mkJwtPayload u t r e i)
      | None => Err (PyException "Invalid payload")
      end
  | _ => Err (PyException "Not enough segments")
  end.

Lemma plain_jwt_decode_encode p key t :
  plain_jwt_decode t (plain_jwt_encode p key) key =
    if jp_exp p * sec <=? t then Err (PyException "Signature has expired") else Ok p.
Proof.
  unfold plain_jwt_decode, plain_jwt_encode. rewrite read_show_Z, decode_encode, String.eqb_refl.
  cbn [negb]. by destruct p.
Qed.

Definition user1 : string := "11111111-1111-4111-8111-111111111111".
Definition tenant1 : string := "22222222-2222-4222-8222-222222222222".
Definition key1 : string := "33333333-3333-4333-8333-333333333333".

(** One tenant with one reading key and one owner. *)
Definition auth_db : AuthDb :=
  mkAuthDb
    [mkApiKeyRow key1 "$salt$sensor" (Some "sensors") (Some tenant1) ["spaces:read"] true false None 0]
    [mkTenantRow tenant1 "Acme" "acme" None None (Some true) 0 0]
    [mkUserRow user1 "ada@acme.com" "Ada" "$salt$secret" None true true 0 0 None]
    [mkMembership "m1" user1 tenant1 "owner" true 0] [] 1.

Definition reader : TenantContext :=
  mkTenantContext tenant1 "Acme" "acme" None None (Some key1) (Some ["spaces:read"]) "api_key".

Definition auth_db_used (now : Z) : AuthDb :=
  with_api_keys (sql_update (λ k, String.eqb (ak_id k) key1) (touch_key now)) auth_db.

Lemma reader_authenticates :
  get_current_tenant plain_checkpw plain_jwt_decode true (Some "s") 7 (Some "sensor") None auth_db =
    (Ok reader, auth_db_used 7).
Proof. vm_compute. reflexivity. Qed.

Lemma authentication_sound_witness :
  NoDup (map ak_id (api_keys auth_db)) ∧
  (via_jwt plain_jwt_decode (Some "s") 7 None auth_db reader ∨ via_key plain_checkpw (Some "sensor") auth_db reader).
Proof.
  assert (NoDup (map ak_id (api_keys auth_db))) as Hnd by (cbn; apply NoDup_singleton).
  split; [exact Hnd|].
  exact (authentication_sound plain_checkpw plain_jwt_decode true (Some "s") 7 (Some "sensor") None auth_db
           reader (auth_db_used 7) Hnd reader_authenticates).
Defined.

Lemma revoked_key_rejected_witness :
  NoDup (map ak_id (api_keys auth_db)) ∧
  (revoke_api_key key1 reader auth_db).1 = Ok tt ∧
  (∀ info d'', verify_api_key plain_checkpw true 9 "sensor" (revoke_api_key key1 reader auth_db).2 =
                 (Ok (Some info), d'') → ki_id info ≠ key1).
Proof.
  assert (NoDup (map ak_id (api_keys auth_db))) as Hnd by (cbn; apply NoDup_singleton).
  split; [exact Hnd|]. split; [vm_compute; reflexivity|].
  exact (proj1 (revoked_key_rejected plain_checkpw true 9 key1 reader "sensor" auth_db Hnd)).
Defined.

Lemma api_key_escalation_witness :
  (check_scopes {[ "spaces:write" ]} reader = Err (HTTPException 403 "API key lacks required scopes: spaces:write")) ∧
  match post_api_key plain_checkpw plain_hashpw plain_jwt_decode true (Some "s") 7 "k2" "fresh" "salt" "mine"
          tenant1 ["admin:*"] (Some "sensor") None auth_db with
  | (Ok _, d2) => ∀ required, ∃ c' d3,
      require_scopes plain_checkpw plain_jwt_decode true (Some "s") 8 required (Some "fresh") None d2
        = (Ok c', d3) ∧ tc_tenant_id c' = tenant1 ∧ tc_api_key_scopes c' = Some ["admin:*"]
  | (Err _, _) => False
  end.
Proof.
  split; [vm_compute; reflexivity|].
  apply (api_key_escalation plain_checkpw plain_hashpw plain_jwt_decode true (Some "s") 7 8 "k2" "fresh" "salt"
           "mine" (Some "sensor") None reader auth_db (auth_db_used 7) reader_authenticates); try reflexivity.
  intros k Hk. apply list_elem_of_singleton in Hk as ->. split; [discriminate|reflexivity].
Defined.

Lemma access_token_lifetime_witness :
  match create_access_token plain_jwt_encode (Some "s") 0 user1 tenant1 OWNER with
  | Ok token => ∀ t, decode_access_token plain_jwt_decode (Some "s") t token =
      if t <? 86400 * sec then Some (mkTokenData user1 tenant1 OWNER (86400 * sec)) else None
  | Err _ => False
  end.
Proof.
  refine (access_token_lifetime plain_jwt_encode plain_jwt_decode (Some "s") 0 user1 tenant1 OWNER eq_refl _ _ _).
  - vm_compute. reflexivity.
  - vm_compute. reflexivity.
  - intros p key t. apply plain_jwt_decode_encode.
Defined.
