(* ===== verification/RefreshTokens.v ===== *)
(** * RefreshTokens: rotation and reuse detection of refresh tokens

    Models src/src/refresh_token_service.py and the two endpoints of
    src/src/api_tenants.py that use it, login and refresh, on the tables of [Auth].
    SHA-256, bcrypt and PyJWT are parameters, and so is the way the database driver
    decodes a TIMESTAMPTZ column, because Python refuses to compare the naive
    [datetime.utcnow()] of the service with an aware [datetime].  One clock value serves a
    whole call; the addresses stored in the INET column are well formed.

    Two migrations create the table.  007 does it first, with a column tenant_id that may
    not be NULL, so that the CREATE TABLE IF NOT EXISTS of 010, the table the service is
    written for, changes nothing.  [TokenTable] says which of the two a database has:
    [Migration007] when the migrations ran in their order.  What is proved holds for
    either, unless it names one. *)

From S2P Require Import Prelude Models Database Auth.

Open Scope Z_scope.

(** ** The service *)

(** What the endpoints read from the request. *)
Record Client := mkClient {
  cl_device_fingerprint : option string; cl_ip_address : option string; cl_user_agent : option string;
}.

Definition EXPIRY_DAYS : Z := 30.
Definition REUSE_DETECTION_WINDOW_MINUTES : Z := 5.

(** The next value of the sequence; it is consumed even when the row is refused. *)
Definition nextval : stE AuthDb exn Z := fun d =>
  (Ok (token_seq d),
   mkAuthDb (api_keys d) (tenants d) (users d) (user_memberships d) (refresh_tokens d) (token_seq d + 1)).

Definition revoked (now : Z) (r : RefreshToken) : RefreshToken :=
  mkRefreshToken (rt_id r) (rt_user_id r) (rt_token_hash r) (rt_device_fingerprint r) (rt_ip_address r)
    (rt_user_agent r) (rt_created_at r) (rt_expires_at r) (Some now) (rt_last_used_at r).

Definition is_live (r : RefreshToken) : bool := bool_decide (rt_revoked_at r = None).

(** The migration whose CREATE TABLE made [refresh_tokens] *)
Inductive TokenTable := Migration007 | Migration010.
Existing Class TokenTable.

Section Service.
Context {T : TokenTable} (hash_token : string → string) (decode_timestamptz : Z → datetime).

(** The INSERT with the constraints of the table; it names no tenant. *)
Definition insert_token (r : RefreshToken) : stE AuthDb exn unit :=
  d ← get_st;
  if negb (on_opt (len_between 0 255) (rt_device_fingerprint r))
  then raise (PyException "value too long for type character varying(255)")
  else if match T with Migration007 => true | Migration010 => false end
  then raise (not_null_violation "tenant_id")
  else if existsb (λ r', String.eqb (rt_token_hash r') (rt_token_hash r)) (refresh_tokens d)
  then raise (unique_violation "refresh_tokens_token_hash_key")
  else if negb (existsb (λ u, String.eqb (us_id u) (rt_user_id r)) (users d))
  then raise (fk_violation "refresh_tokens_user_id_fkey")
  else modify_st (with_tokens (λ l, (l ++ [r])%list)).

(** [token] is [generate_token()]. *)
Definition create_refresh_token (now : Z) (token user_id : string) (client : Client) : stE AuthDb exn string :=
  let token_hash := hash_token token in
  let expires_at := now + EXPIRY_DAYS * 86400 * sec in
  id ← nextval;
  _ ← insert_token (mkRefreshToken id user_id token_hash (cl_device_fingerprint client) (cl_ip_address client)
                      (cl_user_agent client) now expires_at None None);
  mret token.

Definition revoke_token (now token_id : Z) : stE AuthDb exn unit :=
  modify_st (with_tokens (sql_update (λ r, rt_id r =? token_id) (revoked now))).

Definition in_family (user_id : string) (device_fingerprint : option string) (r : RefreshToken) : bool :=
  String.eqb (rt_user_id r) user_id && is_live r &&
  (if truthy device_fingerprint then bool_decide (rt_device_fingerprint r = device_fingerprint) else true).

Definition revoke_token_family (now : Z) (user_id : string) (device_fingerprint : option string)
    : stE AuthDb exn Z :=
  d ← get_st;
  _ ← modify_st (with_tokens (sql_update (in_family user_id device_fingerprint) (revoked now)));
  mret (sql_count (in_family user_id device_fingerprint) (refresh_tokens d)).

Definition find_token (token_hash : string) (d : AuthDb) : option RefreshToken :=
  fetchrow (λ r, String.eqb (rt_token_hash r) token_hash) (refresh_tokens d).

(** [validate_and_rotate] up to its decision to rotate: the record of a valid token. *)
Definition check_token (now : Z) (token : string) : stE AuthDb exn (option RefreshToken) :=
  d ← get_st;
  match find_token (hash_token token) d with
  | None => mret None
  | Some token_record =>
      expired ← lift (dt_gt (Naive now) (decode_timestamptz (rt_expires_at token_record)));
      if (expired : bool) then mret None
      else match rt_revoked_at token_record with
      | Some revoked_at =>
          time_since_revoke ← lift (dt_sub (Naive now) (decode_timestamptz revoked_at));
          if time_since_revoke <? REUSE_DETECTION_WINDOW_MINUTES * 60 * sec then mret None
          else
            _ ← revoke_token_family now (rt_user_id token_record) (rt_device_fingerprint token_record);
            mret None
      | None => mret (Some token_record)
      end
  end.

(** The two writes of a rotation. *)
Definition rotate (now : Z) (token_record : RefreshToken) (new_token : string) (client : Client)
    : stE AuthDb exn (string * string) :=
  _ ← revoke_token now (rt_id token_record);
  new_token ← create_refresh_token now new_token (rt_user_id token_record) client;
  mret (rt_user_id token_record, new_token).

(** [None] stands for the pair [(None, None)]. *)
Definition validate_and_rotate (now : Z) (token new_token : string) (client : Client)
    : stE AuthDb exn (option (string * string)) :=
  token_record ← check_token now token;
  match token_record with
  | None => mret None
  | Some token_record => p ← rotate now token_record new_token client; mret (Some p)
  end.

Definition cleanup_expired_tokens (now : Z) : stE AuthDb exn Z :=
  d ← get_st;
  _ ← modify_st (with_tokens (List.filter (λ r, negb (rt_expires_at r <? now))));
  mret (sql_count (λ r, rt_expires_at r <? now) (refresh_tokens d)).

(** Newest first *)
Definition newer_token (a b : RefreshToken) : Prop := rt_created_at b ≤ rt_created_at a.
#[local] Instance newer_token_dec : RelDecision newer_token :=
  fun a b => decide (rt_created_at b ≤ rt_created_at a).

Definition get_user_tokens (now : Z) (user_id : string) (include_revoked : bool) (d : AuthDb) : list RefreshToken :=
  merge_sort newer_token
    (List.filter (λ r, String.eqb (rt_user_id r) user_id &&
                       (include_revoked || is_live r && (now <? rt_expires_at r))) (refresh_tokens d)).

(** ** The endpoints *)

Context (checkpw : string → string → result exn bool) (jwt_encode : JwtPayload → string → string).
Context (JWT_SECRET_KEY : option string).

Record TenantInfo := mkTenantInfo { ti_id : string; ti_name : string; ti_slug : string; ti_role : string }.

Definition older_membership (a b : Membership) : Prop := um_created_at a ≤ um_created_at b.
#[local] Instance older_membership_dec : RelDecision older_membership :=
  fun a b => decide (um_created_at a ≤ um_created_at b).

(** The active memberships of a user in active tenants, oldest first. *)
Definition tenant_rows (user_id : string) (d : AuthDb) : list TenantInfo :=
  omap (λ m, t ← find_tenant tn_is_active (um_tenant_id m) d;
             mret (mkTenantInfo (tn_id t) (tn_name t) (tn_slug t) (um_role m)))
    (merge_sort older_membership
      (List.filter (λ m, String.eqb (um_user_id m) user_id && um_is_active m) (user_memberships d))).

Record LoginResponse := mkLoginResponse {
  lr_access_token : string; lr_refresh_token : string; lr_expires_in : Z; lr_refresh_expires_in : Z;
  lr_user_id : string; lr_tenants : list TenantInfo;
}.

Record RefreshResponse := mkRefreshResponse {
  rr_access_token : string; rr_refresh_token : string; rr_expires_in : Z; rr_refresh_expires_in : Z;
}.

Definition set_last_login (now : Z) (u : UserRow) : UserRow :=
  mkUserRow (us_id u) (us_email u) (us_name u) (us_password_hash u) (us_metadata u) (us_is_active u) (us_email_verified u)
    (us_created_at u) now (Some now).

(** [except HTTPException: raise; except Exception: raise HTTPException(500, detail)] *)
Definition or_500 {S A} (detail : string) (c : stE S exn A) : stE S exn A :=
  try_catch c (λ e, match e with HTTPException _ _ => raise e | _ => raise (HTTPException 500 detail) end).

Definition access_token_for (now : Z) (user_id : string) (primary_tenant : TenantInfo) : result exn string :=
  role ← role_of (ti_role primary_tenant);
  create_access_token jwt_encode JWT_SECRET_KEY now user_id (ti_id primary_tenant) role.

Definition login (now : Z) (email password new_token : string) (client : Client) : stE AuthDb exn LoginResponse :=
  or_500 "Login failed" (
    d ← get_st;
    match fetchrow (λ u, String.eqb (us_email u) (str_lower email)) (users d) with
    | None => raise (HTTPException 401 "Invalid email or password")
    | Some user =>
        if negb (us_is_active user) then raise (HTTPException 403 "Account is inactive. Please contact support.")
        else if negb (verify_password checkpw password (us_password_hash user))
        then raise (HTTPException 401 "Invalid email or password")
        else match tenant_rows (us_id user) d with
        | [] => raise (HTTPException 403 "No active tenant membership found")
        | primary_tenant :: _ =>
            access_token ← lift (access_token_for now (us_id user) primary_tenant);
            refresh_token ← create_refresh_token now new_token (us_id user) client;
            _ ← modify_st (with_users (sql_update (λ u, String.eqb (us_id u) (us_id user)) (set_last_login now)));
            mret (mkLoginResponse access_token refresh_token (15 * 60) (30 * 24 * 60 * 60) (us_id user)
                    (tenant_rows (us_id user) d))
        end
    end).

Definition refresh_token (now : Z) (token new_token : string) (client : Client) : stE AuthDb exn RefreshResponse :=
  or_500 "Token refresh failed" (
    rotated ← validate_and_rotate now token new_token client;
    match rotated with
    | None => raise (HTTPException 401 "Invalid or expired refresh token")
    | Some (user_id, new_refresh_token) =>
        if negb (non_empty user_id && non_empty new_refresh_token)
        then raise (HTTPException 401 "Invalid or expired refresh token")
        else
          d ← get_st;
          match tenant_rows user_id d with
          | [] => raise (HTTPException 403 "No active tenant membership found")
          | primary_tenant :: _ =>
              access_token ← lift (access_token_for now user_id primary_tenant);
              mret (mkRefreshResponse access_token new_refresh_token (15 * 60) (30 * 24 * 60 * 60))
          end
    end).

End Service.

(** ** Traces: what the service does over time *)

Inductive token_op :=
| OpCreate (now : Z) (new_token user_id : string) (client : Client)
| OpRefresh (now : Z) (token new_token : string) (client : Client)
| OpRevokeFamily (now : Z) (user_id : string) (device_fingerprint : option string)
| OpCleanup (now : Z).

(** A token handed out, and a token accepted for rotation. *)
Inductive token_event := Issued (token : string) | Rotated (token : string).

Section Traces.
Context {T : TokenTable} (hash_token : string → string) (decode_timestamptz : Z → datetime).

Definition token_step (op : token_op) (d : AuthDb) : list token_event * AuthDb :=
  match op with
  | OpCreate now new_token user_id client =>
      match create_refresh_token hash_token now new_token user_id client d with
      | (Ok t, d') => ([Issued t], d')
      | (Err _, d') => ([], d')
      end
  | OpRefresh now token new_token client =>
      match validate_and_rotate hash_token decode_timestamptz now token new_token client d with
      | (Ok (Some (_, t)), d') => ([Rotated token; Issued t], d')
      | (_, d') => ([], d')
      end
  | OpRevokeFamily now user_id device_fingerprint => ([], (revoke_token_family now user_id device_fingerprint d).2)
  | OpCleanup now => ([], (cleanup_expired_tokens now d).2)
  end.

Fixpoint token_run (ops : list token_op) (d : AuthDb) : list token_event * AuthDb :=
  match ops with
  | [] => ([], d)
  | op :: ops =>
      let '(ev, d) := token_step op d in
      let '(evs, d) := token_run ops d in
      ((ev ++ evs)%list, d)
  end.

(** Events that concern a token, up to its hash. *)
Definition is_rotation (h : string) (e : token_event) : bool :=
  match e with Rotated t => String.eqb (hash_token t) h | Issued _ => false end.
Definition is_issue (h : string) (e : token_event) : bool :=
  match e with Issued t => String.eqb (hash_token t) h | Rotated _ => false end.

Definition rotations (token : string) (evs : list token_event) : nat :=
  length (List.filter (is_rotation (hash_token token)) evs).
Definition issues (token : string) (evs : list token_event) : nat :=
  length (List.filter (is_issue (hash_token token)) evs).

(** The rows that could still be rotated for a hash. *)
Definition live_with (h : string) (r : RefreshToken) : bool := is_live r && String.eqb (rt_token_hash r) h.
Definition live (h : string) (d : AuthDb) : nat := length (List.filter (live_with h) (refresh_tokens d)).

Definition b2n (b : bool) : nat := if b then 1 else 0.

Lemma live_with_revoked h now r : live_with h (revoked now r) = false.
Proof. reflexivity. Qed.

Lemma live_update_le h p now l :
  (length (List.filter (live_with h) (sql_update p (revoked now) l)) ≤ length (List.filter (live_with h) l))%nat.
Proof.
  induction l as [|r l IH]; [done|]. cbn [sql_update map List.filter]. fold (sql_update p (revoked now) l).
  destruct (p r); [rewrite live_with_revoked; destruct (live_with h r); cbn [length]; lia|].
  destruct (live_with h r); cbn [length]; lia.
Qed.

(** Revoking a live row takes it out of the live ones of its hash. *)
Lemma live_update_lt h p now l r :
  r ∈ l → p r = true → live_with h r = true →
  (S (length (List.filter (live_with h) (sql_update p (revoked now) l))) ≤ length (List.filter (live_with h) l))%nat.
Proof.
  intros Hin Hp Hl. induction l as [|r' l IH]; [by apply elem_of_nil in Hin|].
  cbn [sql_update map List.filter]. fold (sql_update p (revoked now) l).
  apply elem_of_cons in Hin as [<-|Hin].
  - rewrite Hp, live_with_revoked, Hl. cbn [length]. pose proof (live_update_le h p now l). lia.
  - specialize (IH Hin). destruct (p r'); [rewrite live_with_revoked|];
      destruct (live_with h r'); cbn [length]; lia.
Qed.

Lemma filter_filter_le {A} (p q : A → bool) l :
  (length (List.filter p (List.filter q l)) ≤ length (List.filter p l))%nat.
Proof. induction l as [|x l IH]; [done|]. cbn. destruct (q x); cbn; destruct (p x); cbn; lia. Qed.

Lemma insert_token_spec r d :
  match insert_token r d with
  | (Ok _, d') => d' = with_tokens (λ l, (l ++ [r])%list) d ∧
      (∀ r', r' ∈ refresh_tokens d → rt_token_hash r' ≠ rt_token_hash r)
  | (Err _, d') => d' = d
  end.
Proof.
  unfold insert_token, get_st, raise, modify_st, mbind, stE_bind.
  destruct (negb (on_opt _ _)); [done|]. destruct T; [done|]. destruct (existsb _ _) eqn:E; [done|].
  destruct (negb (existsb _ _)); [done|]. split; [done|]. intros r' Hr' Eh.
  apply not_true_iff_false in E. apply E, existsb_exists. exists r'.
  split; [by apply list_elem_of_In|by apply String.eqb_eq].
Qed.

(** A created token is live under its own hash only; nothing else changes the count. *)
Lemma create_live h now token user_id client d :
  match create_refresh_token hash_token now token user_id client d with
  | (Ok t, d') => t = token ∧ live h d' = (live h d + b2n (String.eqb (hash_token token) h))%nat
  | (Err _, d') => live h d' = live h d
  end.
Proof.
  unfold create_refresh_token, nextval, mbind, stE_bind, mret, stE_ret. set (d1 := mkAuthDb _ _ _ _ _ _).
  set (r := mkRefreshToken _ _ _ _ _ _ _ _ _ _). pose proof (insert_token_spec r d1) as H.
  destruct (insert_token r d1) as [[u|e] d2]; [|by subst d2].
  destruct H as [-> _]. split; [done|]. unfold live. cbn [refresh_tokens with_tokens].
  rewrite List.filter_app, length_app. cbn [List.filter].
  assert (live_with h r = String.eqb (hash_token token) h) as -> by reflexivity.
  by destruct (String.eqb _ _).
Qed.

Lemma revoke_family_live h now user_id fp d :
  (live h (revoke_token_family now user_id fp d).2 ≤ live h d)%nat.
Proof. apply live_update_le. Qed.

(** A record that [check_token] accepts is in the table, under the token's hash and live;
    the check itself revives nothing. *)
Lemma check_token_spec now token d :
  match check_token hash_token decode_timestamptz now token d with
  | (Ok (Some r), d') => d' = d ∧ r ∈ refresh_tokens d ∧ live_with (hash_token token) r = true
  | (_, d') => ∀ h, (live h d' ≤ live h d)%nat
  end.
Proof.
  unfold check_token, find_token, get_st, lift, mbind, stE_bind, mret, stE_ret.
  destruct (fetchrow _ _) as [r|] eqn:E; [|done].
  destruct (dt_gt _ _) as [[]|]; [done| |done].
  apply fetchrow_elem in E as [Hin Hh].
  destruct (rt_revoked_at r) as [rv|] eqn:Er.
  - destruct (dt_sub _ _) as [t|]; [|done]. destruct (t <? _); [done|].
    unfold revoke_token_family, get_st, modify_st, mbind, stE_bind, mret, stE_ret. intros h. apply live_update_le.
  - split_and!; [done..|]. unfold live_with, is_live. by rewrite Er, Hh.
Qed.

(** Every step pays for the rotations it accepts with live rows, and for the live rows it
    adds with issues. *)
Lemma token_step_pays token op d :
  let '(evs, d') := token_step op d in
  (rotations token evs + live (hash_token token) d' ≤ live (hash_token token) d + issues token evs)%nat.
Proof.
  destruct op as [now new_token user_id client|now tok new_token client|now user_id fp|now]; cbn [token_step].
  - pose proof (create_live (hash_token token) now new_token user_id client d) as H.
    destruct (create_refresh_token _ _ _ _ _ _) as [[t|e] d']; [|cbn; lia].
    destruct H as [-> H]. unfold rotations, issues. cbn. rewrite H. destruct (String.eqb _ _); cbn; lia.
  - unfold validate_and_rotate, mbind, stE_bind.
    pose proof (check_token_spec now tok d) as H.
    destruct (check_token _ _ _ _ _) as [[[r|]|e] d1];
      [|specialize (H (hash_token token)); cbn; lia|specialize (H (hash_token token)); cbn; lia].
    destruct H as (-> & Hin & Hlive). unfold rotate, revoke_token, modify_st, mbind, stE_bind, mret, stE_ret.
    set (d1 := with_tokens _ d).
    pose proof (create_live (hash_token token) now new_token (rt_user_id r) client d1) as H.
    assert (live (hash_token token) d1 + b2n (String.eqb (hash_token tok) (hash_token token))
            ≤ live (hash_token token) d)%nat as Hpay.
    { unfold live. cbn [refresh_tokens with_tokens d1].
      destruct (String.eqb_spec (hash_token tok) (hash_token token)) as [Eh|]; cbn [b2n].
      - rewrite Eh in Hlive. pose proof (live_update_lt _ (λ r0, rt_id r0 =? rt_id r) now _ _ Hin (Z.eqb_refl (rt_id r)) Hlive). lia.
      - rewrite Nat.add_0_r. apply live_update_le. }
    destruct (create_refresh_token _ _ _ _ _ _) as [[t|e] d'].
    + destruct H as [-> H]. unfold rotations, issues. cbn [List.filter is_rotation is_issue]. rewrite H.
      destruct (String.eqb (hash_token tok) _), (String.eqb (hash_token new_token) _);
        cbn [length b2n] in *; lia.
    + rewrite H. unfold rotations, issues. cbn [List.filter length]. lia.
  - pose proof (revoke_family_live (hash_token token) now user_id fp d). cbn in *. lia.
  - unfold cleanup_expired_tokens, get_st, modify_st, mbind, stE_bind, mret, stE_ret, live, rotations, issues.
    cbn [snd refresh_tokens with_tokens].
    pose proof (filter_filter_le (live_with (hash_token token)) (λ r, negb (rt_expires_at r <? now)) (refresh_tokens d)).
    cbn [List.filter length] in *. lia.
Qed.

Lemma token_run_pays token ops d :
  let '(evs, d') := token_run ops d in
  (rotations token evs + live (hash_token token) d' ≤ live (hash_token token) d + issues token evs)%nat.
Proof.
  revert d. induction ops as [|op ops IH]; intros d; cbn [token_run]; [cbn; lia|].
  pose proof (token_step_pays token op d) as H1. destruct (token_step op d) as [ev d1].
  specialize (IH d1). destruct (token_run ops d1) as [evs d2].
  unfold rotations, issues in *. rewrite !List.filter_app, !length_app. lia.
Qed.

(** C11. Rotation is single use.  Whatever calls the service gets, one after the other, from
    an empty table and with whatever clock, a token is accepted for rotation at most as
    often as it was handed out: a random token, handed out once, rotates at most once. *)
Theorem rotation_at_most_once token ops d :
  refresh_tokens d = [] →
  let '(evs, _) := token_run ops d in
  (rotations token evs ≤ issues token evs)%nat.
Proof.
  intros He. pose proof (token_run_pays token ops d) as H. unfold live in H at 2. rewrite He in H.
  destruct (token_run ops d) as [evs d']. cbn in H. lia.
Qed.
End Traces.

(** ** Reuse detection *)

Section Reuse.
Context {T : TokenTable} (hash_token : string → string) (decode_timestamptz : Z → datetime).

(** The lookup of a token sees through updates that keep the hash, and through rows added
    after the one it finds. *)
Lemma find_token_update h p now d :
  find_token h (with_tokens (sql_update p (revoked now)) d) =
    (λ r, if p r then revoked now r else r) <$> find_token h d.
Proof.
  unfold find_token, fetchrow. cbn [refresh_tokens with_tokens]. unfold sql_update.
  induction (refresh_tokens d) as [|r l IH]; [done|]. cbn [map find].
  assert (rt_token_hash (if p r then revoked now r else r) = rt_token_hash r) as -> by (by destruct (p r)).
  by destruct (String.eqb _ _).
Qed.

Lemma find_app {A} (p : A → bool) l1 l2 :
  find p (l1 ++ l2)%list = match find p l1 with Some x => Some x | None => find p l2 end.
Proof. induction l1 as [|x l1 IH]; [done|]. cbn. by destruct (p x). Qed.

Lemma find_token_none h d : (∀ r, r ∈ refresh_tokens d → rt_token_hash r ≠ h) → find_token h d = None.
Proof.
  intros H. unfold find_token, fetchrow. destruct (find _ _) as [r|] eqn:E; [|done].
  apply fetchrow_elem in E as [Hr Eh%String.eqb_eq]. by destruct (H r).
Qed.

(** A rotation that succeeds: the old row is revoked, and one row is added, for the same
    user, under a hash no row had. *)
Definition successor (d : AuthDb) (now : Z) (r : RefreshToken) (new_token : string) (client : Client) : RefreshToken :=
  mkRefreshToken (token_seq d) (rt_user_id r) (hash_token new_token) (cl_device_fingerprint client)
    (cl_ip_address client) (cl_user_agent client) now (now + EXPIRY_DAYS * 86400 * sec) None None.

Lemma rotate_spec now r new_token client d p d' :
  rotate hash_token now r new_token client d = (Ok p, d') →
  p = (rt_user_id r, new_token) ∧
  refresh_tokens d' = (sql_update (λ r', rt_id r' =? rt_id r) (revoked now) (refresh_tokens d)
                         ++ [successor d now r new_token client])%list ∧
  (∀ r', r' ∈ refresh_tokens d → rt_token_hash r' ≠ hash_token new_token).
Proof.
  unfold rotate, revoke_token, create_refresh_token, modify_st, nextval, mbind, stE_bind, mret, stE_ret.
  set (d1 := mkAuthDb _ _ _ _ _ _). set (row := mkRefreshToken _ _ _ _ _ _ _ _ _ _).
  pose proof (insert_token_spec row d1) as H.
  destruct (insert_token row d1) as [[u|e] d2]; [|by intros [=]].
  destruct H as [-> Hf]. intros [= <- <-]. split_and!; [done..|].
  intros r' Hr'. replace (rt_token_hash r') with (rt_token_hash (if rt_id r' =? rt_id r then revoked now r' else r'))
    by (by destruct (_ =? _)).
  apply (Hf (if rt_id r' =? rt_id r then revoked now r' else r')). cbn [refresh_tokens d1 with_tokens]. unfold sql_update.
  apply list_elem_of_fmap. eauto.
Qed.

(** A row added by a rotation is found under its hash, in whatever table follows. *)
Lemma find_new_row now r new_token client d p d' :
  rotate hash_token now r new_token client d = (Ok p, d') →
  find_token (hash_token new_token) d' = Some (successor d now r new_token client).
Proof.
  intros (_ & Htok & Hfresh)%rotate_spec. unfold find_token, fetchrow. rewrite Htok, find_app.
  destruct (find _ (sql_update _ _ _)) as [r2|] eqn:E2.
  - apply fetchrow_elem in E2 as [Hin Eh%String.eqb_eq]. unfold sql_update in Hin.
    apply list_elem_of_fmap in Hin as (r3 & -> & H3). destruct (Hfresh r3 H3). by destruct (_ =? _).
  - cbn [find successor rt_token_hash]. by rewrite String.eqb_refl.
Qed.

Lemma rotate_ok now r new_token client d :
  T = Migration010 →
  on_opt (len_between 0 255) (cl_device_fingerprint client) = true →
  (∃ u, u ∈ users d ∧ us_id u = rt_user_id r) →
  (∀ r', r' ∈ refresh_tokens d → rt_token_hash r' ≠ hash_token new_token) →
  ∃ d', rotate hash_token now r new_token client d = (Ok (rt_user_id r, new_token), d') ∧ users d' = users d.
Proof.
  intros HT Hfp (u & Hu & Eu) Hfresh.
  unfold rotate, revoke_token, create_refresh_token, insert_token, get_st, modify_st, nextval, raise,
    mbind, stE_bind, mret, stE_ret.
  cbn [refresh_tokens users with_tokens rt_device_fingerprint rt_token_hash rt_user_id].
  rewrite Hfp, HT. cbn [negb]. replace (existsb _ (sql_update _ _ _)) with false.
  2: { symmetry. apply not_true_iff_false. intros (r' & Hr' & Eh%String.eqb_eq)%existsb_exists.
       apply in_map_iff in Hr' as (r0 & <- & H0%list_elem_of_In). apply (Hfresh r0 H0).
       by destruct (rt_id r0 =? rt_id r). }
  replace (existsb _ (users d)) with true; [by eexists|].
  symmetry. apply existsb_exists. exists u. split; [by apply list_elem_of_In|by apply String.eqb_eq].
Qed.

(** [check_token] when the driver's datetimes compare with the service's. *)
Hypothesis Hnaive : ∀ t, decode_timestamptz t = Naive t.

Lemma check_live now token d r :
  find_token (hash_token token) d = Some r → rt_revoked_at r = None → now ≤ rt_expires_at r →
  check_token hash_token decode_timestamptz now token d = (Ok (Some r), d).
Proof.
  intros E Er He. unfold check_token, get_st, lift, mbind, stE_bind. rewrite E, Hnaive. cbn [dt_gt].
  rewrite (proj2 (Z.ltb_ge _ _)) by done. by rewrite Er.
Qed.

Lemma check_revoked now token d r revoked_at :
  find_token (hash_token token) d = Some r → rt_revoked_at r = Some revoked_at → now ≤ rt_expires_at r →
  check_token hash_token decode_timestamptz now token d =
    (Ok None, if now - revoked_at <? REUSE_DETECTION_WINDOW_MINUTES * 60 * sec then d
              else with_tokens (sql_update (in_family (rt_user_id r) (rt_device_fingerprint r)) (revoked now)) d).
Proof.
  intros E Er He. unfold check_token, get_st, lift, mbind, stE_bind. rewrite E, Hnaive. cbn [dt_gt].
  rewrite (proj2 (Z.ltb_ge _ _)) by done. rewrite Er, Hnaive. cbn [dt_sub].
  by destruct (_ <? _).
Qed.

(** Replay, when the datetimes compare.  Within five minutes of its
    revocation the replay changes nothing (a race is assumed); after that, until it
    expires, the replay leaves no live token of that user with that device fingerprint
    (none of the user at all, if the token had no fingerprint), and touches no other. *)
Lemma replay_naive now token new_token client d r revoked_at :
  find_token (hash_token token) d = Some r → rt_revoked_at r = Some revoked_at → now ≤ rt_expires_at r →
  match validate_and_rotate hash_token decode_timestamptz now token new_token client d with
  | (res, d') =>
      res = Ok None ∧
      if now - revoked_at <? 5 * 60 * sec then d' = d
      else (∀ r', r' ∈ refresh_tokens d' → rt_user_id r' = rt_user_id r →
              truthy (rt_device_fingerprint r) = false ∨ rt_device_fingerprint r' = rt_device_fingerprint r →
              is_live r' = false) ∧
           (∀ r', r' ∈ refresh_tokens d →
              rt_user_id r' ≠ rt_user_id r ∨
              (truthy (rt_device_fingerprint r) = true ∧ rt_device_fingerprint r' ≠ rt_device_fingerprint r) →
              r' ∈ refresh_tokens d')
  end.
Proof.
  intros E Er He. unfold validate_and_rotate, mbind, stE_bind. rewrite (check_revoked _ _ _ _ _ E Er He).
  split; [done|]. change (REUSE_DETECTION_WINDOW_MINUTES * 60 * sec) with (5 * 60 * sec).
  destruct (_ <? _); [done|]. cbn [snd refresh_tokens with_tokens]. unfold sql_update. split.
  - intros r' (r0 & -> & _)%list_elem_of_fmap. destruct (in_family _ _ r0) eqn:Ef; [done|].
    intros Hu Hfp. unfold in_family in Ef. rewrite Hu, String.eqb_refl in Ef. cbn [andb] in Ef.
    destruct (is_live r0); [|done]. cbn [andb] in Ef. destruct (truthy _); [|done].
    destruct Hfp as [?|Hfp]; [done|]. by rewrite (bool_decide_true _ Hfp) in Ef.
  - intros r' Hr' Hout. apply list_elem_of_fmap. exists r'. split; [|done].
    assert (in_family (rt_user_id r) (rt_device_fingerprint r) r' = false) as ->; [|done].
    unfold in_family. destruct Hout as [Hu%String.eqb_neq|[Ht Hfp]]; [by rewrite Hu|].
    rewrite Ht, (bool_decide_false _ Hfp). apply andb_false_r.
Qed.

(** The family can be escaped.  A rotation gives the successor the fingerprint of the
    request, not the one of the token it replaces.  If whoever holds a stolen token
    rotates it under another fingerprint, the replay by its owner is detected, but it
    revokes the tokens of the owner's fingerprint only: the thief's token stays valid. *)
Theorem family_escape now token new_token thief d r p d1 :
  find_token (hash_token token) d = Some r →
  truthy (rt_device_fingerprint r) = true →
  cl_device_fingerprint thief ≠ rt_device_fingerprint r →
  validate_and_rotate hash_token decode_timestamptz now token new_token thief d = (Ok (Some p), d1) →
  ∀ now' new_token' victim now'',
  now + 5 * 60 * sec ≤ now' → now' ≤ rt_expires_at r → now'' ≤ now + 30 * 86400 * sec →
  match validate_and_rotate hash_token decode_timestamptz now' token new_token' victim d1 with
  | (res, d2) => res = Ok None ∧ ∃ r',
      check_token hash_token decode_timestamptz now'' new_token d2 = (Ok (Some r'), d2) ∧
      rt_user_id r' = rt_user_id r ∧ rt_token_hash r' = hash_token new_token
  end.
Proof.
  intros E Ht Hfp Hrot now' new_token' victim now'' H1 H2 H3. unfold validate_and_rotate, mbind, stE_bind in Hrot |- *.
  destruct (check_token _ _ now _ d) as [[[r0|]|e] d0] eqn:Ec; [|by injection Hrot|done].
  assert (r0 = r ∧ d0 = d ∧ rt_revoked_at r = None) as (-> & -> & Er).
  { unfold check_token, get_st, lift, mbind, stE_bind in Ec. rewrite E, !Hnaive in Ec. cbn [dt_gt] in Ec.
    destruct (_ <? now); [done|]. destruct (rt_revoked_at r) as [rv|]; [|by injection Ec as <- <-].
    rewrite Hnaive in Ec. cbn [dt_sub] in Ec. by destruct (_ <? _). }
  destruct (rotate _ _ _ _ _ _) as [[p'|] d'] eqn:Er'; [|done]. injection Hrot as <- <-.
  pose proof (find_new_row _ _ _ _ _ _ _ Er') as Enew. apply rotate_spec in Er' as (_ & Htok & _).
  assert (find_token (hash_token token) d' = Some (revoked now r)) as E1.
  { unfold find_token, fetchrow. rewrite Htok, find_app.
    pose proof (find_token_update (hash_token token) (λ r', rt_id r' =? rt_id r) now d) as Hu.
    rewrite E in Hu. cbn [fmap option_fmap option_map] in Hu. rewrite Z.eqb_refl in Hu.
    unfold find_token, fetchrow in Hu. cbn [refresh_tokens with_tokens] in Hu. by rewrite Hu. }
  rewrite (check_revoked _ _ _ _ now E1) by done.
  replace (_ <? _) with false by (symmetry; apply Z.ltb_ge; unfold REUSE_DETECTION_WINDOW_MINUTES; lia).
  cbn [rt_user_id rt_device_fingerprint revoked]. split; [done|].
  exists (successor d now r new_token thief). split; [|done]. apply check_live; [|done|exact H3].
  rewrite find_token_update, Enew. cbn [fmap option_fmap option_map].
  assert (in_family (rt_user_id r) (rt_device_fingerprint r) (successor d now r new_token thief) = false) as ->; [|done].
  unfold in_family. rewrite Ht. cbn [successor rt_device_fingerprint]. rewrite (bool_decide_false _ Hfp). apply andb_false_r.
Qed.

(** ** Interleaving *)

(** Two requests with the same token, both past the check before either writes. *)
Definition concurrent_rotations (now : Z) (token new1 new2 : string) (c1 c2 : Client)
    : stE AuthDb exn (option ((string * string) * (string * string))) :=
  r1 ← check_token hash_token decode_timestamptz now token;
  r2 ← check_token hash_token decode_timestamptz now token;
  match r1, r2 with
  | Some r1, Some r2 =>
      p1 ← rotate hash_token now r1 new1 c1;
      p2 ← rotate hash_token now r2 new2 c2;
      mret (Some (p1, p2))
  | _, _ => mret None
  end.

(** A rotation of another row keeps what is found under a hash. *)
Lemma find_kept now r new_token client d p d' h r' :
  rotate hash_token now r new_token client d = (Ok p, d') →
  find_token h d = Some r' → rt_id r' ≠ rt_id r → find_token h d' = Some r'.
Proof.
  intros (_ & Htok & _)%rotate_spec E Hid. unfold find_token, fetchrow. rewrite Htok, find_app.
  pose proof (find_token_update h (λ x, rt_id x =? rt_id r) now d) as Hu. rewrite E in Hu.
  unfold find_token, fetchrow in Hu. cbn [refresh_tokens with_tokens fmap option_fmap option_map] in Hu.
  rewrite Hu. by rewrite (proj2 (Z.eqb_neq _ _) Hid).
Qed.

(** Concurrent rotation.  The check and the writes are separate statements outside a
    transaction, so two requests that present the same valid token at the same time both
    get a successor, and both successors are valid afterwards (on the table of migration
    010). *)
Theorem rotation_race now token new1 new2 c1 c2 d r :
  T = Migration010 →
  find_token (hash_token token) d = Some r → rt_revoked_at r = None → now ≤ rt_expires_at r →
  (∃ u, u ∈ users d ∧ us_id u = rt_user_id r) →
  (∀ r', r' ∈ refresh_tokens d → rt_id r' < token_seq d ∧
     rt_token_hash r' ≠ hash_token new1 ∧ rt_token_hash r' ≠ hash_token new2) →
  hash_token new1 ≠ hash_token new2 →
  on_opt (len_between 0 255) (cl_device_fingerprint c1) = true →
  on_opt (len_between 0 255) (cl_device_fingerprint c2) = true →
  match concurrent_rotations now token new1 new2 c1 c2 d with
  | (Ok (Some (p1, p2)), d') =>
      p1 = (rt_user_id r, new1) ∧ p2 = (rt_user_id r, new2) ∧
      (∃ r1, check_token hash_token decode_timestamptz now new1 d' = (Ok (Some r1), d')) ∧
      (∃ r2, check_token hash_token decode_timestamptz now new2 d' = (Ok (Some r2), d'))
  | _ => False
  end.
Proof.
  intros HT E Er He Hu Hrows Hne Hfp1 Hfp2. unfold concurrent_rotations, mbind, stE_bind.
  rewrite (check_live _ _ _ _ E Er He). rewrite (check_live _ _ _ _ E Er He).
  destruct (rotate_ok now r new1 c1 d HT Hfp1 Hu) as (d1 & R1 & U1); [by intros r' Hr'; apply Hrows|].
  rewrite R1. destruct (rotate_spec _ _ _ _ _ _ _ R1) as (_ & Htok1 & _).
  destruct (rotate_ok now r new2 c2 d1 HT Hfp2) as (d2 & R2 & U2).
  { destruct Hu as (u & ? & ?). exists u. by rewrite U1. }
  { intros r' Hr'. rewrite Htok1 in Hr'. apply elem_of_snoc in Hr' as [Hr'| ->]; [|by intros ?%symmetry].
    unfold sql_update in Hr'. apply list_elem_of_fmap in Hr' as (r0 & -> & H0).
    destruct (Hrows r0 H0) as (_ & _ & H2). by destruct (_ =? _). }
  rewrite R2. unfold mret, stE_ret. split_and!; [done..| |].
  - exists (successor d now r new1 c1). apply check_live; [|reflexivity|].
    + eapply find_kept; [exact R2|exact (find_new_row _ _ _ _ _ _ _ R1)|]. cbn [successor rt_id].
      apply fetchrow_elem in E as [Hin _]. destruct (Hrows r Hin) as [? _]. lia.
    + cbn [successor rt_expires_at]. unfold EXPIRY_DAYS, sec. lia.
  - exists (successor d1 now r new2 c2). apply check_live; [exact (find_new_row _ _ _ _ _ _ _ R2)|reflexivity|].
    cbn [successor rt_expires_at]. unfold EXPIRY_DAYS, sec. lia.
Qed.
End Reuse.

(** ** What the driver returns *)

(** C37. A replay never rotates.  Presenting a revoked token never yields tokens, whatever
    the driver returns.  With aware datetimes, as asyncpg documents for TIMESTAMPTZ, it
    raises and changes nothing: reuse is never detected.  With naive ones, which the
    service is written for, nothing changes within five minutes of the revocation (a race
    is assumed); after that, until the token expires, no token of that user with that
    device fingerprint stays live (none of the user at all, if the token had no
    fingerprint), and every other row is kept. *)
Theorem replay_never_rotates {T : TokenTable} hash_token (aware : bool) now token new_token client d r revoked_at :
  find_token (hash_token token) d = Some r → rt_revoked_at r = Some revoked_at → now ≤ rt_expires_at r →
  let decode_timestamptz := if aware then Aware else Naive in
  let '(res, d') := validate_and_rotate hash_token decode_timestamptz now token new_token client d in
  if aware then is_ok res = false ∧ d' = d
  else
    res = Ok None ∧
    if now - revoked_at <? 5 * 60 * sec then d' = d
    else (∀ r', r' ∈ refresh_tokens d' → rt_user_id r' = rt_user_id r →
            truthy (rt_device_fingerprint r) = false ∨ rt_device_fingerprint r' = rt_device_fingerprint r →
            is_live r' = false) ∧
         (∀ r', r' ∈ refresh_tokens d →
            rt_user_id r' ≠ rt_user_id r ∨
            (truthy (rt_device_fingerprint r) = true ∧ rt_device_fingerprint r' ≠ rt_device_fingerprint r) →
            r' ∈ refresh_tokens d').
Proof.
  intros E Er He. destruct aware; cbv zeta.
  - unfold validate_and_rotate, check_token, get_st, lift, mbind, stE_bind. by rewrite E.
  - pose proof (replay_naive hash_token Naive (λ _, eq_refl) now token new_token client d r revoked_at E Er He) as H.
    by destruct (validate_and_rotate _ _ _ _ _ _ _).
Qed.

Section Driver.
Context {T : TokenTable} (hash_token : string → string) (decode_timestamptz : Z → datetime).
Context (jwt_encode : JwtPayload → string → string) (JWT_SECRET_KEY : option string).

(** With a driver that decodes TIMESTAMPTZ columns to aware datetimes, as asyncpg
    documents, no refresh ever succeeds: for every stored token the comparison with the
    naive [datetime.utcnow()] raises, the endpoint answers 500 and nothing changes; an
    unknown token is refused with 401. *)
Theorem refresh_never_succeeds now token new_token client d :
  (∀ t, decode_timestamptz t = Aware t) →
  refresh_token hash_token decode_timestamptz jwt_encode JWT_SECRET_KEY now token new_token client d =
    (Err (match find_token (hash_token token) d with
          | Some _ => HTTPException 500 "Token refresh failed"
          | None => HTTPException 401 "Invalid or expired refresh token"
          end), d).
Proof.
  intros Haware. unfold refresh_token, or_500, try_catch, validate_and_rotate, check_token, get_st, lift, raise,
    mbind, stE_bind, mret, stE_ret.
  destruct (find_token (hash_token token) d) as [r|]; [|done]. by rewrite Haware.
Qed.
End Driver.

(** ** What the table takes *)

Section Table007.
#[local] Existing Instance Migration007.
Context (hash_token : string → string) (checkpw : string → string → result exn bool).
Context (jwt_encode : JwtPayload → string → string) (JWT_SECRET_KEY : option string).

(** The INSERT of the service, and what is left of it *)
Lemma create_refused now token user_id client d :
  ∃ e, (∀ n m, e ≠ HTTPException n m) ∧
    create_refresh_token hash_token now token user_id client d =
      (Err e, mkAuthDb (api_keys d) (tenants d) (users d) (user_memberships d) (refresh_tokens d) (token_seq d + 1)).
Proof.
  unfold create_refresh_token, nextval, insert_token, get_st, raise, mbind, stE_bind. cbn [rt_device_fingerprint].
  destruct (negb _); eexists; (split; [|reflexivity]); done.
Qed.

(** On the table of migration 007, where the migrations leave it, nobody logs in: every
    login is refused or answered 500, and it changes no table. *)
Theorem login_never_succeeds now email password new_token client d :
  ∃ code detail d', login hash_token checkpw jwt_encode JWT_SECRET_KEY now email password new_token client d =
      (Err (HTTPException code detail), d') ∧
    users d' = users d ∧ user_memberships d' = user_memberships d ∧ refresh_tokens d' = refresh_tokens d.
Proof.
  unfold login, or_500, try_catch, get_st, lift, mbind, stE_bind.
  destruct (fetchrow _ _) as [u|]; [|by do 3 eexists]. destruct (negb (us_is_active u)); [by do 3 eexists|].
  destruct (negb (verify_password _ _ _)); [by do 3 eexists|]. destruct (tenant_rows _ _) as [|t l]; [by do 3 eexists|].
  destruct (access_token_for _ _ _ _ _) as [tok|[]]; try by do 3 eexists.
  destruct (create_refused now new_token (us_id u) client d) as (e & He & ->). destruct e; by do 3 eexists.
Qed.
End Table007.

(** ** Witnesses *)

(** The witnesses run on the table of migration 010, but for those that name the other. *)
#[local] Existing Instance Migration010.

(** A stand-in for SHA-256 *)
Definition plain_hash (t : string) : string := "#" +:+ t.

Definition laptop : Client := mkClient (Some "laptop") (Some "10.0.0.1") (Some "Firefox").
Definition phone : Client := mkClient (Some "phone") (Some "10.6.6.6") (Some "curl").

(** The owner of [Auth.auth_db] has logged in on the laptop. *)
Definition logged_in : AuthDb :=
  (create_refresh_token plain_hash 0 "rt-0" user1 laptop auth_db).2.

Definition row0 : RefreshToken :=
  mkRefreshToken 1 user1 "#rt-0" (Some "laptop") (Some "10.0.0.1") (Some "Firefox") 0 (30 * 86400 * sec) None None.

Lemma rotation_at_most_once_witness :
  let ops := [OpCreate 0 "rt-0" user1 laptop; OpRefresh (60 * sec) "rt-0" "rt-1" laptop;
              OpRefresh (61 * sec) "rt-0" "rt-2" laptop; OpRefresh (600 * sec) "rt-0" "rt-3" laptop;
              OpRefresh (601 * sec) "rt-1" "rt-4" laptop] in
  (token_run plain_hash Naive ops auth_db).1 = [Issued "rt-0"; Rotated "rt-0"; Issued "rt-1"] ∧
  let '(evs, _) := token_run plain_hash Naive ops auth_db in
  (rotations plain_hash "rt-0" evs ≤ issues plain_hash "rt-0" evs)%nat.
Proof.
  intros ops. split; [vm_compute; reflexivity|]. exact (rotation_at_most_once plain_hash Naive "rt-0" ops auth_db eq_refl).
Defined.

Lemma replay_never_rotates_witness :
  let d := (validate_and_rotate plain_hash Naive (60 * sec) "rt-0" "rt-1" laptop logged_in).2 in
  let d' := (validate_and_rotate plain_hash Naive (600 * sec) "rt-0" "rt-2" laptop d).2 in
  map is_live (refresh_tokens d) = [false; true] ∧
  ∀ r', r' ∈ refresh_tokens d' → rt_user_id r' = user1 →
    rt_device_fingerprint r' = Some "laptop" → is_live r' = false.
Proof.
  intros d d'. split; [vm_compute; reflexivity|].
  pose proof (replay_never_rotates plain_hash false (600 * sec) "rt-0" "rt-2" laptop d
                (revoked (60 * sec) row0) (60 * sec) eq_refl eq_refl ltac:(vm_compute; discriminate)) as H.
  cbv zeta in H. unfold d'. destruct (validate_and_rotate _ _ _ _ _ _ d) as [res d2]. cbn [snd].
  intros r' Hr' Hu E. exact (proj1 (proj2 H) r' Hr' Hu (or_intror E)).
Defined.

Lemma family_escape_witness :
  let d1 := (validate_and_rotate plain_hash Naive (60 * sec) "rt-0" "rt-1" phone logged_in).2 in
  let d2 := (validate_and_rotate plain_hash Naive (600 * sec) "rt-0" "rt-2" laptop d1).2 in
  ∃ r', check_token plain_hash Naive (601 * sec) "rt-1" d2 = (Ok (Some r'), d2) ∧ rt_user_id r' = user1.
Proof.
  intros d1 d2.
  pose proof (family_escape plain_hash Naive (λ _, eq_refl) (60 * sec) "rt-0" "rt-1" phone logged_in row0
                (user1, "rt-1") d1 eq_refl eq_refl ltac:(discriminate) eq_refl (600 * sec) "rt-2" laptop (601 * sec)
                ltac:(vm_compute; discriminate) ltac:(vm_compute; discriminate) ltac:(vm_compute; discriminate)) as H.
  unfold d2. destruct (validate_and_rotate _ _ _ _ _ _ d1) as [res d3]. cbn [snd].
  destruct H as (_ & r' & H1 & H2 & _). exists r'. split; [exact H1|exact H2].
Defined.

Lemma rotation_race_witness :
  match concurrent_rotations plain_hash Naive (60 * sec) "rt-0" "rt-1" "rt-2" laptop laptop logged_in with
  | (Ok (Some (p1, p2)), d') => p1 = (user1, "rt-1") ∧ p2 = (user1, "rt-2") ∧
      (∃ r1, check_token plain_hash Naive (60 * sec) "rt-1" d' = (Ok (Some r1), d')) ∧
      (∃ r2, check_token plain_hash Naive (60 * sec) "rt-2" d' = (Ok (Some r2), d'))
  | _ => False
  end.
Proof.
  refine (rotation_race plain_hash Naive (λ _, eq_refl) (60 * sec) "rt-0" "rt-1" "rt-2" laptop laptop logged_in row0
            eq_refl eq_refl eq_refl _ _ _ _ eq_refl eq_refl).
  - vm_compute. discriminate.
  - eexists. split; [left|reflexivity].
  - intros r' Hr'. change (refresh_tokens logged_in) with [row0] in Hr'.
    apply list_elem_of_singleton in Hr' as ->. split_and!; [reflexivity|discriminate|discriminate].
  - discriminate.
Defined.

Lemma refresh_never_succeeds_witness :
  refresh_token plain_hash Aware plain_jwt_encode (Some "s") (60 * sec) "rt-0" "rt-1" laptop logged_in =
    (Err (HTTPException 500 "Token refresh failed"), logged_in) ∧
  is_ok (refresh_token plain_hash Naive plain_jwt_encode (Some "s") (60 * sec) "rt-0" "rt-1" laptop logged_in).1 = true.
Proof.
  split; [|vm_compute; reflexivity].
  exact (refresh_never_succeeds plain_hash Aware plain_jwt_encode (Some "s") (60 * sec) "rt-0" "rt-1" laptop
           logged_in (λ _, eq_refl)).
Defined.
