(* ===== verification/WebhookSpool.v ===== *)
(** * WebhookSpool: the file spool for webhooks the database could not take

    Models src/src/webhook_spool.py.  The three directories are maps from file names to
    contents; every system call the code makes is one file operation, and a crash stops
    the process between two of them.  A file opened for writing is empty until it is
    written.  JSON files are the envelopes they hold; the host runs in UTC. *)

From S2P Require Import Prelude.

Open Scope Z_scope.

(** ** Files *)

Record Envelope := mkEnvelope {
  en_id : string; en_device_eui : string; en_request_id : string; en_enqueued_at : Z;
  en_retry_count : Z; en_next_retry_at : Z;
  en_webhook_data : string; en_metadata : list (string * string);
}.

Inductive Dir := Pending | Processing | DeadLetter.

#[export] Instance dir_eq_dec : EqDecision Dir.
Proof. solve_decision. Defined.
#[export] Instance dir_countable : Countable Dir.
Proof.
  refine (inj_countable' (λ d, match d with Pending => 0%nat | Processing => 1%nat | DeadLetter => 2%nat end)
            (λ n, match n with 0%nat => Pending | 1%nat => Processing | _ => DeadLetter end) _).
  by intros [].
Defined.

(** The content of a file: [None] until it is completely written. *)
Abbreviation files := (gmap (Dir * string) (option Envelope)).

Inductive FileOp :=
| Open (d : Dir) (name : string)                     (* open(..., "w") *)
| Dump (d : Dir) (name : string) (e : Envelope)      (* json.dump *)
| Rename (d : Dir) (name : string) (d' : Dir) (name' : string)
| Unlink (d : Dir) (name : string).

(** Renaming a file that does not exist raises; the callers only rename files they have. *)
Definition exec (op : FileOp) (fs : files) : files :=
  match op with
  | Open d n => <[(d, n) := None]> fs
  | Dump d n e => <[(d, n) := Some e]> fs
  | Rename d n d' n' =>
      match fs !! (d, n) with
      | Some c => <[(d', n') := c]> (delete (d, n) fs)
      | None => fs
      end
  | Unlink d n => delete (d, n) fs
  end.

Definition exec_all (ops : list FileOp) (fs : files) : files := foldl (λ fs op, exec op fs) fs ops.

(** ** The operations *)

Definition MAX_RETRY_ATTEMPTS : Z := 5.
Definition INITIAL_BACKOFF_SECONDS : Z := 2.
Definition MAX_BACKOFF_SECONDS : Z := 300.

Definition json_name (id : string) : string := id +:+ ".json".
Definition tmp_name (id : string) : string := id +:+ ".tmp".

Definition envelope (now : Z) (spool_id device_eui request_id webhook_data : string)
    (metadata : list (string * string)) : Envelope :=
  mkEnvelope spool_id device_eui request_id now 0 now webhook_data metadata.

(** The file operations of [enqueue]; the id is returned after the last. *)
Definition enqueue_ops (e : Envelope) : list FileOp :=
  [Open Pending (tmp_name (en_id e)); Dump Pending (tmp_name (en_id e)) e;
   Rename Pending (tmp_name (en_id e)) Pending (json_name (en_id e))].

Definition enqueue (e : Envelope) (fs : files) : files := exec_all (enqueue_ops e) fs.

Definition backoff (retry_count : Z) : Z :=
  Z.min (INITIAL_BACKOFF_SECONDS * 2 ^ retry_count) MAX_BACKOFF_SECONDS.

Definition count_retry (e : Envelope) : Envelope :=
  mkEnvelope (en_id e) (en_device_eui e) (en_request_id e) (en_enqueued_at e) (en_retry_count e + 1)
    (en_next_retry_at e) (en_webhook_data e) (en_metadata e).

Definition schedule_retry (now : Z) (e : Envelope) : Envelope :=
  mkEnvelope (en_id e) (en_device_eui e) (en_request_id e) (en_enqueued_at e) (en_retry_count e)
    (now + backoff (en_retry_count e) * sec) (en_webhook_data e) (en_metadata e).

(** What the body of the loop does with one pending file after the outcome of
    [_process_envelope] is known. *)
Definition settle_ops (now' : Z) (name : string) (e : Envelope) (success : bool) : list FileOp :=
  if success then [Unlink Processing name]
  else
    let e := count_retry e in
    if MAX_RETRY_ATTEMPTS <=? en_retry_count e then
      [Open DeadLetter name; Dump DeadLetter name e; Unlink Processing name]
    else
      let e := schedule_retry now' e in
      [Open Pending name; Dump Pending name e; Rename Processing name Pending name].

(** [_process_envelope]: a stub *)
Definition _process_envelope (e : Envelope) : bool := false.

Section Worker.
Context (process_envelope : Envelope → bool).

(** One turn of the loop of [_process_pending_files]; a file that does not parse, or is
    gone, raises and is skipped. *)
Definition file_ops (now now' : Z) (name : string) (fs : files) : list FileOp :=
  match fs !! (Pending, name) with
  | Some (Some e) =>
      if now <? en_next_retry_at e then []
      else Rename Pending name Processing name :: settle_ops now' name e (process_envelope e)
  | _ => []
  end.

Definition process_file (now now' : Z) (name : string) (fs : files) : files :=
  exec_all (file_ops now now' name fs) fs.

(** The names of the directory's files that match the glob, sorted *)
Definition glob_json (d : Dir) (fs : files) : list string :=
  merge_sort string_leb
    (omap (λ f : (Dir * string) * option Envelope,
             if bool_decide (f.1.1 = d) && ends_with ".json" f.1.2 then Some f.1.2 else None) (map_to_list fs)).

Definition _process_pending_files (now now' : Z) (fs : files) : files :=
  foldl (λ fs name, process_file now now' name fs) fs (glob_json Pending fs).
End Worker.

(** [get_stats]: pending, processing, dead letters *)
Definition get_stats (fs : files) : Z * Z * Z :=
  let count d := Z.of_nat (length (glob_json d fs)) in (count Pending, count Processing, count DeadLetter).

(** [spool_webhook_on_error], when writing can fail; [None] is an absent spool. *)
Definition spool_webhook_on_error (spool : option files) (write_fails : bool) (e : Envelope) : bool * option files :=
  match spool with
  | None => (false, None)
  | Some fs => if write_fails then (false, Some fs) else (true, Some (enqueue e fs))
  end.

(** ** The spool over time *)

(** [accepted]: the webhooks whose [enqueue] returned; [delivered]: the ids for which
    processing succeeded. *)
Record Spool := mkSpool { sp_files : files; accepted : gmap string Envelope; delivered : gset string }.

Definition no_file (name : string) (fs : files) : Prop := ∀ d, fs !! (d, name) = None.

(** Calls run to the end or are cut off by a crash after [k] file operations. *)
Inductive spool_step : Spool → Spool → Prop :=
| step_enqueue fs acc del e k :
    acc !! en_id e = None → no_file (json_name (en_id e)) fs → no_file (tmp_name (en_id e)) fs →
    spool_step (mkSpool fs acc del)
      (mkSpool (exec_all (take k (enqueue_ops e)) fs) (if (3 <=? k)%nat then <[en_id e := e]> acc else acc) del)
| step_process fs acc del pe now now' i e k :
    fs !! (Pending, json_name i) = Some (Some e) →
    spool_step (mkSpool fs acc del)
      (mkSpool (exec_all (take k (file_ops pe now now' (json_name i) fs)) fs) acc
         (if (1 <=? k)%nat && negb (now <? en_next_retry_at e) && pe e then {[ en_id e ]} ∪ del else del)).

(** What a retry may change of an envelope is its count and its time. *)
Definition same_webhook (e e0 : Envelope) : Prop :=
  en_id e = en_id e0 ∧ en_device_eui e = en_device_eui e0 ∧ en_request_id e = en_request_id e0 ∧
  en_enqueued_at e = en_enqueued_at e0 ∧ en_webhook_data e = en_webhook_data e0 ∧ en_metadata e = en_metadata e0.

Record spool_ok (st : Spool) : Prop := {
  (** an accepted webhook was delivered or is complete in some directory *)
  ok_kept i e0 : accepted st !! i = Some e0 →
    en_id e0 = i ∧ (i ∈ delivered st ∨ ∃ d e, sp_files st !! (d, json_name i) = Some (Some e));
  (** complete files hold the webhook their name says *)
  ok_named d i e : sp_files st !! (d, json_name i) = Some (Some e) →
    ∃ e0, accepted st !! i = Some e0 ∧ same_webhook e e0;
}.

Lemma json_name_inj i j : json_name i = json_name j → i = j.
Proof. apply append_inj_r. Qed.

(** Operations on files of one name leave the files of the others alone. *)
Definition op_name (name : string) (op : FileOp) : Prop :=
  match op with
  | Open _ n | Dump _ n _ | Unlink _ n => n = name
  | Rename _ n _ n' => n = name ∧ n' = name
  end.

Lemma exec_other name op fs d n : op_name name op → n ≠ name → exec op fs !! (d, n) = fs !! (d, n).
Proof.
  intros Ho Hn. destruct op as [d1 n1|d1 n1 e|d1 n1 d2 n2|d1 n1]; cbn in Ho |- *; destruct_and?; subst.
  - apply lookup_insert_ne. congruence.
  - apply lookup_insert_ne. congruence.
  - destruct (fs !! (d1, name)); [|done]. rewrite lookup_insert_ne, lookup_delete_ne by congruence. done.
  - apply lookup_delete_ne. congruence.
Qed.

Lemma exec_all_other name ops fs d n :
  Forall (op_name name) ops → n ≠ name → exec_all ops fs !! (d, n) = fs !! (d, n).
Proof.
  intros Ho Hn. revert fs. induction Ho as [|op ops Hop _ IH]; intros fs; [done|].
  change (exec_all (op :: ops) fs) with (exec_all ops (exec op fs)). by rewrite IH, (exec_other name).
Qed.

Lemma file_ops_named pe now now' name fs : Forall (op_name name) (file_ops pe now now' name fs).
Proof.
  unfold file_ops, settle_ops. destruct (fs !! _) as [[e|]|]; [|constructor..].
  destruct (_ <? _); [constructor|]. destruct (pe e); [by repeat constructor|].
  destruct (_ <=? _); by repeat constructor.
Qed.

(** After any prefix of a turn on a complete file, the webhook is delivered or complete in
    some directory, and every complete file of that name holds it. *)
Definition settled (name : string) (e : Envelope) (del : bool) (fs : files) : Prop :=
  (del = true ∨ ∃ d e', fs !! (d, name) = Some (Some e')) ∧
  ∀ d e', fs !! (d, name) = Some (Some e') → same_webhook e' e.

Lemma same_webhook_refl e : same_webhook e e.
Proof. by unfold same_webhook. Qed.

Lemma same_webhook_trans e1 e2 e3 : same_webhook e1 e2 → same_webhook e2 e3 → same_webhook e1 e3.
Proof. unfold same_webhook. intros ??. destruct_and?. split_and!; congruence. Qed.

(** Looks the files of one name up through the operations on them. *)
Ltac files_at :=
  repeat first
    [ rewrite lookup_insert_eq | rewrite lookup_delete_eq
    | rewrite lookup_insert_ne by congruence | rewrite lookup_delete_ne by congruence
    | progress cbn [exec exec_all foldl take] ].

Lemma file_ops_settled pe now now' name fs e k :
  fs !! (Pending, name) = Some (Some e) →
  (∀ d e', fs !! (d, name) = Some (Some e') → same_webhook e' e) →
  settled name e ((1 <=? k)%nat && negb (now <? en_next_retry_at e) && pe e)
    (exec_all (take k (file_ops pe now now' name fs)) fs).
Proof.
  intros Hp Hs.
  assert (settled name e false fs) as H0 by (split; [right; eauto|done]).
  assert (∀ b, settled name e b fs) as H0' by (intros b; split; [right; eauto|done]).
  unfold file_ops. rewrite Hp. destruct (now <? en_next_retry_at e); cbn [negb].
  { rewrite andb_false_r. by rewrite take_nil. }
  rewrite andb_true_r. destruct k as [|k]; [apply H0'|]. cbn [take Nat.leb andb].
  change (exec_all (?op :: ?ops) fs) with (exec_all ops (exec op fs)). cbn [exec]. rewrite Hp.
  set (fs1 := <[_ := _]> _).
  assert (∀ d, fs1 !! (d, name) = match d with Pending => None | Processing => Some (Some e) | DeadLetter => fs !! (d, name) end) as H1.
  { intros []; subst fs1; by files_at. }
  clearbody fs1. pose proof (H1 Pending) as P1. pose proof (H1 Processing) as P2. pose proof (H1 DeadLetter) as P3.
  cbn in P1, P2, P3.
  assert (settled name e (pe e) fs1) as Hk0.
  { split; [right; eauto|]. intros [] e' H; rewrite H1 in H; simplify_eq; eauto using same_webhook_refl. }
  unfold settle_ops. destruct (pe e).
  { destruct k as [|k]; [exact Hk0|]. rewrite take_ge by (cbn; lia). split; [by left|].
    intros [] e' H; revert H; files_at; rewrite ?P1, ?P3; try done. apply Hs. }
  destruct (MAX_RETRY_ATTEMPTS <=? _).
  - destruct k as [|[|[|k]]]; [exact Hk0|..].
    + split; [right; exists Processing, e; by files_at|].
      intros [] e' H; revert H; files_at; rewrite ?P1, ?P2; intros; simplify_eq; by repeat split.
    + split; [right; exists Processing, e; by files_at|].
      intros [] e' H; revert H; files_at; rewrite ?P1, ?P2; intros; simplify_eq; by repeat split.
    + rewrite take_ge by (cbn; lia). split; [right; exists DeadLetter; eexists; by files_at|].
      intros [] e' H; revert H; files_at; rewrite ?P1, ?P2; intros; simplify_eq; by repeat split.
  - destruct k as [|[|[|k]]]; [exact Hk0|..].
    + split; [right; exists Processing, e; by files_at|].
      intros [] e' H; revert H; files_at; rewrite ?P1, ?P2, ?P3; intros; simplify_eq; first [by eapply Hs | by repeat split].
    + split; [right; exists Processing, e; by files_at|].
      intros [] e' H; revert H; files_at; rewrite ?P1, ?P2, ?P3; intros; simplify_eq; first [by eapply Hs | by repeat split].
    + rewrite take_ge by (cbn; lia). split; [right; exists Pending, e; files_at; by rewrite ?P2; files_at|].
      intros [] e' H; revert H; files_at; rewrite ?P1, ?P2, ?P3; files_at; rewrite ?P3; intros; simplify_eq; first [by eapply Hs | by repeat split].
Qed.

(** The two suffixes never meet. *)
Fixpoint last_char (s : string) : option ascii :=
  match s with
  | EmptyString => None
  | String c s' => match last_char s' with Some d => Some d | None => Some c end
  end.

Lemma last_char_append s c t : last_char (s +:+ String c t) = last_char (String c t).
Proof.
  induction s as [|d s IH]; [done|]. rewrite append_cons. cbn [last_char]. rewrite IH.
  cbn [last_char]. by destruct (last_char t).
Qed.

Lemma tmp_json_ne i j : tmp_name i ≠ json_name j.
Proof.
  intros H%(f_equal last_char). unfold tmp_name, json_name in H. rewrite !last_char_append in H. discriminate.
Qed.

(** What a prefix of [enqueue] leaves under the names of the directory listings. *)
Lemma enqueue_files e fs k d i :
  no_file (json_name (en_id e)) fs → no_file (tmp_name (en_id e)) fs →
  exec_all (take k (enqueue_ops e)) fs !! (d, json_name i) =
    if decide (i = en_id e ∧ d = Pending ∧ (3 ≤ k)%nat) then Some (Some e) else fs !! (d, json_name i).
Proof.
  intros Hj Ht. pose proof (tmp_json_ne (en_id e) i) as Hn. pose proof (tmp_json_ne (en_id e) (en_id e)) as Hn'.
  destruct k as [|[|[|k]]]; unfold enqueue_ops.
  - rewrite decide_False by lia. done.
  - rewrite decide_False by lia. files_at. done.
  - rewrite decide_False by lia. files_at. done.
  - rewrite take_ge by (cbn; lia). files_at. case_decide as H.
    + destruct H as (-> & -> & _). by files_at.
    + destruct (decide (i = en_id e)) as [->|Hi].
      * destruct d; [|by files_at..]. destruct H. split_and!; [done..|lia].
      * assert (json_name i ≠ json_name (en_id e)) by (intros ?%json_name_inj; done). by files_at.
Qed.

Lemma spool_step_ok st st' : spool_step st st' → spool_ok st → spool_ok st'.
Proof.
  intros Hs [H1 H2]. destruct Hs as [fs acc del e k Hacc Hj Ht|fs acc del pe now now' n e k Hp];
    cbn [sp_files accepted delivered] in *.
  - split; cbn [sp_files accepted delivered].
    + intros i e0 Hi. destruct (Nat.leb_spec 3 k) as [Hk|Hk].
      * apply lookup_insert_Some in Hi as [[<- <-]|[Hne Hi]].
        -- split; [done|]. right. exists Pending, e. rewrite enqueue_files by done. by rewrite decide_True by (by split_and!).
        -- destruct (H1 i e0 Hi) as [? [?|(d & e' & Hf)]]; (split; [done|]); [by left|right].
           exists d, e'. rewrite enqueue_files by done. rewrite decide_False; [done|]. naive_solver.
      * destruct (H1 i e0 Hi) as [? [?|(d & e' & Hf)]]; (split; [done|]); [by left|right].
        exists d, e'. rewrite enqueue_files by done. rewrite decide_False; [done|]. lia.
    + intros d i e' Hf. rewrite enqueue_files in Hf by done. case_decide as Hd.
      * destruct Hd as (-> & _ & Hk). injection Hf as <-. exists e.
        rewrite (proj2 (Nat.leb_le 3 k)) by done. rewrite lookup_insert_eq. by split; [|apply same_webhook_refl].
      * destruct (H2 d i e' Hf) as (e0 & He0 & Hsame). exists e0. split; [|done].
        destruct (3 <=? k)%nat; [|done]. rewrite lookup_insert_ne; [done|]. intros <-. congruence.
  - destruct (H2 Pending n e Hp) as (e0 & He0 & Hsame). destruct (H1 n e0 He0) as [Hid _].
    assert (en_id e = n) as Hen by (destruct Hsame as [-> _]; done).
    assert (∀ d i, i ≠ n → exec_all (take k (file_ops pe now now' (json_name n) fs)) fs !! (d, json_name i)
                           = fs !! (d, json_name i)) as Hother.
    { intros d i Hi. apply (exec_all_other (json_name n)); [apply Forall_take, file_ops_named|].
      by intros ?%json_name_inj. }
    destruct (file_ops_settled pe now now' (json_name n) fs e k Hp) as [Hkeep Hall].
    { intros d e' Hf. destruct (H2 d n e' Hf) as (e1 & He1 & Hs1). rewrite He0 in He1. injection He1 as <-.
      unfold same_webhook in *. destruct_and?. split_and!; congruence. }
    split; cbn [sp_files accepted delivered].
    + intros i e1 Hi. destruct (H1 i e1 Hi) as [Hid1 Hk]. split; [done|]. destruct (decide (i = n)) as [->|Hne].
      * destruct Hkeep as [->|Hf]; [left; set_solver|by right].
      * destruct Hk as [Hd|(d & e' & Hf)].
        -- left. destruct (_ && _ && _); set_solver.
        -- right. exists d, e'. by rewrite Hother.
    + intros d i e' Hf. destruct (decide (i = n)) as [->|Hne].
      * exists e0. split; [done|]. eapply same_webhook_trans; [by eapply Hall|done].
      * rewrite Hother in Hf by done. by eapply H2.
Qed.

Definition empty_spool : Spool := mkSpool ∅ ∅ ∅.

(** C28. The spool loses no webhook.  Wherever calls are cut off by crashes, every webhook
    whose [enqueue] returned was processed successfully, or is complete, with its data, in
    a file of its name in one of the three directories. *)
Theorem spool_loses_nothing st i e0 :
  rtc spool_step empty_spool st → accepted st !! i = Some e0 →
  i ∈ delivered st ∨ ∃ d e, sp_files st !! (d, json_name i) = Some (Some e) ∧ same_webhook e e0.
Proof.
  intros Hr Hi. assert (spool_ok st) as [H1 H2].
  { assert (spool_ok empty_spool) as H0 by (split; cbn; [by intros ???%lookup_empty_Some|by intros ????%lookup_empty_Some]).
    revert H0. clear Hi. induction Hr as [|x y z Hxy _ IH]; [done|]. intros Hx. by apply IH, (spool_step_ok x). }
  destruct (H1 i e0 Hi) as [_ [?|(d & e & Hf)]]; [by left|right].
  destruct (H2 d i e Hf) as (e1 & He1 & Hs). rewrite Hi in He1. injection He1 as <-. eauto.
Qed.

(** ** Retries *)

(** A failed turn that is not the last: the updated envelope is written to the pending
    file, and then the old one is renamed over it. *)
Lemma failed_turn pe now now' name fs e :
  fs !! (Pending, name) = Some (Some e) → fs !! (Processing, name) = None →
  pe e = false → en_retry_count e + 1 < MAX_RETRY_ATTEMPTS →
  process_file pe now now' name fs = fs.
Proof.
  intros Hp Hq Hf Hc. unfold process_file, file_ops. rewrite Hp. destruct (_ <? _); [done|].
  unfold settle_ops. rewrite Hf. cbn [count_retry en_retry_count].
  rewrite (proj2 (Z.leb_gt _ _)) by done. cbn [exec_all foldl exec]. rewrite Hp.
  rewrite !lookup_insert_ne by congruence. rewrite lookup_insert_eq.
  apply map_eq. intros [d n]. destruct (decide (n = name)) as [->|Hn].
  - destruct d; files_at; done.
  - rewrite lookup_insert_ne by congruence. rewrite lookup_delete_ne by congruence.
    rewrite !lookup_insert_ne by congruence. by rewrite lookup_delete_ne by congruence.
Qed.

Lemma missing_turn pe now now' name fs :
  (∀ e, fs !! (Pending, name) ≠ Some (Some e)) → process_file pe now now' name fs = fs.
Proof.
  intros Hn. unfold process_file, file_ops. destruct (fs !! (Pending, name)) as [[e|]|] eqn:E; [|done..].
  by destruct (Hn e).
Qed.

(** Passes of the worker, each with its clock values. *)
Definition passes (pe : Envelope → bool) (times : list (Z * Z)) (fs : files) : files :=
  foldl (λ fs t, _process_pending_files pe t.1 t.2 fs) fs times.

(** Retries never advance.  While processing fails, as the stub [_process_envelope]
    always does, the rename puts the old envelope back over the updated one: however many
    passes run, the files are what they were.  The retry count stays, the backoff is not
    applied, and the dead-letter directory is never reached. *)
Theorem retries_never_advance times fs :
  (∀ name, fs !! (Processing, name) = None) →
  (∀ name e, fs !! (Pending, name) = Some (Some e) → en_retry_count e + 1 < MAX_RETRY_ATTEMPTS) →
  passes _process_envelope times fs = fs.
Proof.
  intros Hq Hc. unfold passes. induction times as [|[now now'] times IH]; [done|]. cbn [foldl fst snd].
  assert (_process_pending_files _process_envelope now now' fs = fs) as ->; [|exact IH].
  unfold _process_pending_files. induction (glob_json Pending fs) as [|name names IHn]; [done|]. cbn [foldl].
  assert (process_file _process_envelope now now' name fs = fs) as ->; [|exact IHn].
  destruct (fs !! (Pending, name)) as [[e|]|] eqn:E.
  - apply (failed_turn _ _ _ _ _ e); eauto.
  - apply missing_turn. congruence.
  - apply missing_turn. congruence.
Qed.

(** A crash strands a webhook.  Nothing reads the processing directory: a file that was
    moved there when the process stopped is in the same place in every later state, so its
    webhook is neither retried nor dead-lettered. *)
Theorem processing_is_forgotten st st' i c :
  rtc spool_step st st' →
  sp_files st !! (Processing, json_name i) = Some c → sp_files st !! (Pending, json_name i) = None →
  sp_files st' !! (Processing, json_name i) = Some c ∧ sp_files st' !! (Pending, json_name i) = None.
Proof.
  intros Hr. induction Hr as [|x y z Hxy _ IH]; [done|]. intros Hc Hp. apply IH.
  - destruct Hxy as [fs acc del e k Hacc Hj Ht|fs acc del pe now now' n e k Hn]; cbn [sp_files] in *.
    + rewrite enqueue_files by done. rewrite decide_False; [done|]. by intros (_ & ? & _).
    + rewrite (exec_all_other (json_name n)); [done|apply Forall_take, file_ops_named|congruence].
  - destruct Hxy as [fs acc del e k Hacc Hj Ht|fs acc del pe now now' n e k Hn]; cbn [sp_files] in *.
    + rewrite enqueue_files by done. rewrite decide_False; [done|]. intros (-> & _ & _).
      rewrite (Hj Processing) in Hc. done.
    + rewrite (exec_all_other (json_name n)); [done|apply Forall_take, file_ops_named|congruence].
Qed.

(** ** Witnesses *)

Definition uplink1 : Envelope := envelope 0 "u1" "A81758FFFE03E4A1" "r1" "{}" [("error_type", "TimeoutError")].

Definition spooled : files := enqueue uplink1 ∅.

Lemma spooled_files : spooled = {[ (Pending, "u1.json") := Some uplink1 ]}.
Proof. vm_compute. reflexivity. Qed.

Lemma spooled_reachable : spool_step empty_spool (mkSpool spooled {[ "u1" := uplink1 ]} ∅).
Proof. by apply (step_enqueue ∅ ∅ ∅ uplink1 3). Qed.

(** The worker stops between the rename and the processing. *)
Definition stranded : Spool :=
  mkSpool (exec_all (take 1 (file_ops _process_envelope 1 1 "u1.json" spooled)) spooled) {[ "u1" := uplink1 ]} ∅.

Lemma stranded_reachable : rtc spool_step empty_spool stranded.
Proof.
  eapply rtc_l; [exact spooled_reachable|]. apply rtc_once.
  apply (step_process spooled {[ "u1" := uplink1 ]} ∅ _process_envelope 1 1 "u1" uplink1 1).
  rewrite spooled_files. apply lookup_singleton_eq.
Qed.

Lemma spool_loses_nothing_witness :
  "u1" ∈ delivered stranded ∨
  ∃ d e, sp_files stranded !! (d, "u1.json") = Some (Some e) ∧ same_webhook e uplink1.
Proof.
  apply (spool_loses_nothing stranded "u1" uplink1); [exact stranded_reachable|vm_compute; reflexivity].
Defined.

Lemma retries_never_advance_witness :
  passes _process_envelope [(1, 2); (10 * sec, 10 * sec); (20 * sec, 21 * sec)] spooled = spooled.
Proof.
  apply retries_never_advance; intros name.
  - rewrite spooled_files. by rewrite lookup_singleton_ne.
  - intros e. rewrite spooled_files. intros H. apply lookup_singleton_Some in H as [_ H].
    injection H as <-. vm_compute. reflexivity.
Defined.

Lemma processing_is_forgotten_witness :
  let st' := mkSpool (exec_all (enqueue_ops (envelope 5 "u2" "dev" "r2" "{}" [])) (sp_files stranded))
               (<["u2" := envelope 5 "u2" "dev" "r2" "{}" []]> (accepted stranded)) ∅ in
  sp_files st' !! (Processing, "u1.json") = Some (Some uplink1) ∧ sp_files st' !! (Pending, "u1.json") = None.
Proof.
  intros st'. apply (processing_is_forgotten stranded st' "u1" (Some uplink1)); [|vm_compute; reflexivity..].
  apply rtc_once. apply (step_enqueue (sp_files stranded) (accepted stranded) ∅ (envelope 5 "u2" "dev" "r2" "{}" []) 3);
    [vm_compute; reflexivity|intros []; vm_compute; reflexivity..].
Defined.
