(* ===== verification/WebhookValidation.v ===== *)
(** * WebhookValidation: HMAC signatures of webhooks

    Models src/src/webhook_validation.py and the webhook-secret endpoints of
    src/src/api_tenants.py, on the table webhook_secrets.  HMAC-SHA256 is a parameter; a
    database call fails when [fault] says so. *)

From S2P Require Import Prelude Models Database.

Open Scope Z_scope.

Record WebhookSecret := mkSecret {
  ws_tenant_id : string; ws_secret_hash : string; ws_is_active : bool; ws_created_at : Z;
}.

Abbreviation secrets := (list WebhookSecret).

Definition secret_of (tenant_id : string) (s : WebhookSecret) : bool := String.eqb (ws_tenant_id s) tenant_id.

Definition active_secret_of (tenant_id : string) (s : WebhookSecret) : bool :=
  secret_of tenant_id s && ws_is_active s.

Definition newer_secret (a b : WebhookSecret) : Prop := ws_created_at b ≤ ws_created_at a.
#[export] Instance newer_secret_dec : RelDecision newer_secret :=
  fun a b => decide (ws_created_at b ≤ ws_created_at a).

(** The newest active secret *)
Definition secret_row (tenant_id : string) (d : secrets) : option WebhookSecret :=
  head (merge_sort newer_secret (List.filter (active_secret_of tenant_id) d)).

Definition is_ascii (c : ascii) : bool := (N_of_ascii c <? 128)%N.

(** [hmac.compare_digest] on strings *)
Definition compare_digest (a b : string) : result exn bool :=
  if str_forallb is_ascii a && str_forallb is_ascii b then Ok (String.eqb a b)
  else Err (PyException "comparing strings with non-ASCII characters is not supported").

Section Validation.
Context (hmac_sha256 : string → string → string).

(** [except HTTPException: raise; except Exception: raise HTTPException(500)] *)
Definition fail_closed (r : result exn bool) : result exn bool :=
  match r with
  | Err (HTTPException c m) => Err (HTTPException c m)
  | Err _ => Err (HTTPException 500 "Failed to verify webhook signature")
  | Ok b => Ok b
  end.

Definition verify_webhook_signature (signature_header tenant_id : option string) (body : string)
    (fault : option exn) (d : secrets) : result exn bool :=
  if negb (truthy signature_header) then Ok true
  else match tenant_id with
  | None => Ok true
  | Some tenant_id =>
      fail_closed
        match fault with
        | Some e => Err e
        | None =>
            match secret_row tenant_id d with
            | None => Ok true
            | Some row =>
                let expected_signature := hmac_sha256 (ws_secret_hash row) body in
                same ← compare_digest (or_else signature_header "") expected_signature;
                if (same : bool) then Ok true else Err (HTTPException 401 "Invalid webhook signature")
            end
        end
  end.

(** [new_secret] is [secrets.token_hex(32)]. *)
Definition insert_secret (now : Z) (tenant_id new_secret : string) (fault : option exn) : stE secrets exn unit :=
  may_fail fault (modify_st (λ l, (l ++ [mkSecret tenant_id new_secret true now])%list)).

(** The ValueError of a second creation *)
Definition already_exists : exn :=
  PyException "Webhook secret already exists for this tenant. Secrets cannot be retrieved after creation for security reasons.".

Definition get_or_create_webhook_secret (now : Z) (tenant_id new_secret : string) (fault : option exn)
    : stE secrets exn string :=
  d ← get_st;
  if existsb (active_secret_of tenant_id) d
  then raise already_exists
  else _ ← insert_secret now tenant_id new_secret fault; mret new_secret.

Definition deactivate_secret (s : WebhookSecret) : WebhookSecret :=
  mkSecret (ws_tenant_id s) (ws_secret_hash s) false (ws_created_at s).

(** Two statements, each in a transaction of its own. *)
Definition rotate_webhook_secret (now : Z) (tenant_id new_secret : string) (fault : option exn)
    : stE secrets exn string :=
  _ ← modify_st (sql_update (secret_of tenant_id) deactivate_secret);
  _ ← insert_secret now tenant_id new_secret fault;
  mret new_secret.

(** The endpoints, after [require_owner]. *)
Definition create_webhook_secret (now : Z) (new_secret : string) (fault : option exn) (tenant : TenantContext)
    : stE secrets exn string :=
  try_catch (get_or_create_webhook_secret now (tc_tenant_id tenant) new_secret fault)
    (λ e, if decide (e = already_exists) then raise (HTTPException 400 (message e))
          else raise (HTTPException 500 "Failed to create webhook secret")).

Definition rotate_webhook_secret_endpoint (now : Z) (new_secret : string) (fault : option exn)
    (tenant : TenantContext) : stE secrets exn string :=
  try_catch (rotate_webhook_secret now (tc_tenant_id tenant) new_secret fault)
    (λ _, raise (HTTPException 500 "Failed to rotate webhook secret")).

(** ** Properties *)

Lemma merge_sort_head_elem {A} (R : relation A) `{!RelDecision R} l x :
  head (merge_sort R l) = Some x → x ∈ l.
Proof.
  intros H. rewrite <- (merge_sort_Permutation R l). destruct (merge_sort R l); [done|]. injection H as ->. by left.
Qed.

Lemma secret_row_none tenant_id d :
  secret_row tenant_id d = None ↔ ∀ s, s ∈ d → active_secret_of tenant_id s = false.
Proof.
  unfold secret_row. split.
  - intros H s Hs. destruct (active_secret_of tenant_id s) eqn:E; [|done].
    assert (s ∈ merge_sort newer_secret (List.filter (active_secret_of tenant_id) d)) as Hin.
    { rewrite merge_sort_Permutation. apply list_elem_of_In, filter_In. split; [by apply list_elem_of_In|done]. }
    destruct (merge_sort _ _); [by apply elem_of_nil in Hin|done].
  - intros H. destruct (head _) as [s|] eqn:E; [|done].
    apply merge_sort_head_elem, list_elem_of_In, filter_In in E as [Hs%list_elem_of_In Ha]. by rewrite H in Ha.
Qed.

(** What the signature check lets through.  With a working database, a webhook is
    accepted exactly when it carries no signature, or its device has no tenant, or the
    tenant has no active secret, or the signature is the HMAC of the body under the newest
    active secret; everything else is refused with 401, or with 500 if the header is not
    ASCII.  (So a configured secret does not protect: leaving the header out is enough.) *)
Theorem signature_check_spec header tenant_id body d :
  match verify_webhook_signature header tenant_id body None d with
  | Ok b => b = true ∧
      (truthy header = false ∨ tenant_id = None ∨
       ∃ t, tenant_id = Some t ∧
         ((∀ s, s ∈ d → active_secret_of t s = false) ∨
          ∃ s, s ∈ d ∧ active_secret_of t s = true ∧ secret_row t d = Some s ∧
               header = Some (hmac_sha256 (ws_secret_hash s) body)))
  | Err e => ∃ h t s, header = Some h ∧ tenant_id = Some t ∧ secret_row t d = Some s ∧
      ((e = HTTPException 401 "Invalid webhook signature" ∧ h ≠ hmac_sha256 (ws_secret_hash s) body) ∨
       (e = HTTPException 500 "Failed to verify webhook signature" ∧
        str_forallb is_ascii h && str_forallb is_ascii (hmac_sha256 (ws_secret_hash s) body) = false))
  end.
Proof.
  unfold verify_webhook_signature. destruct (truthy header) eqn:Eh; cbn [negb]; [|split; [done|by left]].
  destruct tenant_id as [t|]; [|split; [done|right; by left]].
  destruct header as [h|]; [|done]. cbn [or_else].
  destruct (secret_row t d) as [s|] eqn:Es.
  2: { cbn. split; [done|]. right; right. exists t. split; [done|]. left. by apply secret_row_none. }
  unfold compare_digest. destruct (str_forallb is_ascii h && _) eqn:Ea.
  - unfold mbind, result_bind. destruct (String.eqb_spec h (hmac_sha256 (ws_secret_hash s) body)) as [->|Hne].
    + cbn. split; [done|]. right; right. exists t. split; [done|]. right. exists s.
      pose proof Es as Hin. apply merge_sort_head_elem, list_elem_of_In, filter_In in Hin as [Hin%list_elem_of_In Ha].
      done.
    + cbn. exists h, t, s. split_and!; [done..|]. by left.
  - unfold mbind, result_bind. cbn. exists h, t, s. split_and!; [done..|]. by right.
Qed.

(** Rotation.  After a rotation that succeeds the tenant has exactly one active secret,
    the new one: a signature is accepted exactly when it is made with it.  If the second
    statement fails, the tenant is left without an active secret, and any signature is
    accepted. *)
Theorem rotation_switches_secret now tenant_id new_secret fault d h body :
  truthy (Some h) = true →
  str_forallb is_ascii h && str_forallb is_ascii (hmac_sha256 new_secret body) = true →
  match rotate_webhook_secret now tenant_id new_secret fault d with
  | (Ok s, d') => s = new_secret ∧
      verify_webhook_signature (Some h) (Some tenant_id) body None d' =
        if String.eqb h (hmac_sha256 new_secret body) then Ok true
        else Err (HTTPException 401 "Invalid webhook signature")
  | (Err _, d') => is_Some fault ∧ verify_webhook_signature (Some h) (Some tenant_id) body None d' = Ok true
  end.
Proof.
  intros Hh Ha. set (d0 := sql_update (secret_of tenant_id) deactivate_secret d).
  assert (∀ s, s ∈ d0 → active_secret_of tenant_id s = false) as Hoff.
  { subst d0. unfold sql_update. intros s (s0 & -> & _)%list_elem_of_fmap.
    destruct (secret_of tenant_id s0) eqn:E; unfold active_secret_of; cbn; [apply andb_false_r|by rewrite E]. }
  unfold rotate_webhook_secret, insert_secret, may_fail, modify_st, raise, mbind, stE_bind, mret, stE_ret. fold d0.
  unfold verify_webhook_signature. rewrite Hh. cbn [negb]. destruct fault as [e|].
  - split; [by eexists|]. by rewrite (proj2 (secret_row_none _ _) Hoff).
  - split; [done|].
    assert (secret_row tenant_id (d0 ++ [mkSecret tenant_id new_secret true now])%list =
            Some (mkSecret tenant_id new_secret true now)) as ->.
    { unfold secret_row. rewrite List.filter_app.
      assert (List.filter (active_secret_of tenant_id) d0 = []) as ->.
      { destruct (List.filter _ d0) as [|s l] eqn:E; [done|]. exfalso.
        assert (In s (List.filter (active_secret_of tenant_id) d0)) as [Hs Hact]%filter_In by (rewrite E; by left).
        apply list_elem_of_In, Hoff in Hs. congruence. }
      cbn [app List.filter]. unfold active_secret_of, secret_of. cbn. by rewrite String.eqb_refl. }
    cbn [ws_secret_hash or_else]. unfold compare_digest. rewrite Ha. unfold mbind, result_bind.
    by destruct (String.eqb _ _).
Qed.
End Validation.

(** ** Witness *)

(** A stand-in for HMAC *)
Definition plain_hmac (key body : string) : string := key +:+ "|" +:+ body.

Lemma rotation_switches_secret_witness :
  let d := [mkSecret "t1" "old" true 0] in
  verify_webhook_signature plain_hmac (Some "old|{}") (Some "t1") "{}" None d = Ok true ∧
  match rotate_webhook_secret 5 "t1" "new" None d with
  | (Ok s, d') => s = "new" ∧
      verify_webhook_signature plain_hmac (Some "old|{}") (Some "t1") "{}" None d' =
        Err (HTTPException 401 "Invalid webhook signature")
  | (Err _, _) => False
  end.
Proof.
  intros d. split; [reflexivity|].
  exact (rotation_switches_secret plain_hmac 5 "t1" "new" None d "old|{}" "{}" eq_refl eq_refl).
Defined.
