(* ===== verification/DeviceHandlers.v ===== *)
(** * DeviceHandlers: payload parsers and downlink encoders

    Models src/src/device_handlers.py on the JSON the webhook brings: the common fields of
    a ChirpStack uplink, the three handlers, and the registry with its cache.  A handler is
    a record of operations, as the abstract class is.  An attribute or subscript that the
    value does not have raises.  How pydantic reads a datetime, an int or a float from a
    JSON value is the class [Pydantic]. *)

From Stdlib Require Import QArith.
From S2P Require Import Prelude PyUtils Json Models.

Open Scope Z_scope.

(** ** Python on JSON values *)

Definition attribute_error (name : string) : exn := PyException ("object has no attribute '" +:+ name +:+ "'").

(** [j.get(k)], and [j.get(k, d)] *)
Definition py_get (k : string) (j : json) : result exn (option json) :=
  match j with JObj o => Ok (assoc k o) | _ => Err (attribute_error "get") end.

Definition py_get_or (k : string) (d j : json) : result exn json :=
  v ← py_get k j; mret (or_else v d).

(** [j[0]] *)
Definition py_first (j : json) : result exn json :=
  match j with
  | JArr (x :: _) => Ok x
  | JArr [] => Err (PyException "list index out of range")
  | JText (String c _) => Ok (JText (String c ""))
  | JText EmptyString => Err (PyException "string index out of range")
  | JObj _ => Err (PyException "0")
  | _ => Err (PyException "object is not subscriptable")
  end.

(** [j.lower()] *)
Definition py_lower (j : json) : result exn string :=
  match j with JText s => Ok (str_lower s) | _ => Err (attribute_error "lower") end.

(** [None] for an absent or null field *)
Definition is_none (j : option json) : bool :=
  match j with None | Some JNull => true | _ => false end.

(** [bool(j)] *)
Definition py_truthy (j : json) : bool :=
  match j with
  | JNull => false
  | JBool b => b
  | JInt n => negb (n =? 0)
  | JFloat x => negb (Qeq_bool (float_value x) 0)
  | JText s => non_empty s
  | JArr l => match l with [] => false | _ => true end
  | JObj o => match o with [] => false | _ => true end
  end.

(** [base64.b64decode(j)] *)
Definition py_b64decode (j : json) : result exn (list Z) :=
  match j with
  | JText s => match b64decode s with Some bs => Ok bs | None => Err (PyException "Invalid base64-encoded string") end
  | _ => Err (PyException "argument should be a bytes-like object or ASCII string")
  end.

(** ** pydantic *)

Class Pydantic := {
  to_datetime : json → option Z;
  to_int : json → option Z;
  to_float : json → option Q;
}.

Section Handlers.
Context {P : Pydantic}.

(** A field of type [Optional[T]] *)
Definition optional {A} (field : string) (f : json → option A) (j : option json) : result exn (option A) :=
  match j with
  | None | Some JNull => Ok None
  | Some j => match f j with Some a => Ok (Some a) | None => Err (PyException ("validation error: " +:+ field)) end
  end.

Definition to_text (j : json) : option string := match j with JText s => Some s | _ => None end.

(** ** The common fields *)

Record ChirpStackUplink := mkParsed {
  p_device_eui : string; p_payload : json; p_rssi : option json; p_snr : option json;
  p_gateway_id : option json; p_timestamp : option json;
}.

Definition parse_chirpstack_uplink (data : json) : result exn ChirpStackUplink :=
  device_info ← py_get_or "deviceInfo" (JObj []) data;
  rx_infos ← py_get_or "rxInfo" (JArr [JObj []]) data;
  rx_info ← py_first rx_infos;
  dev_eui ← py_get_or "devEui" (JText "") device_info;
  device_eui ← py_lower dev_eui;
  payload ← py_get_or "data" (JText "") data;
  rssi ← py_get "rssi" rx_info;
  snr ← py_get "snr" rx_info;
  gateway_id ← py_get "gatewayId" rx_info;
  timestamp ← py_get "time" data;
  mret (mkParsed device_eui payload rssi snr gateway_id timestamp).

(** [SensorUplink(...)]: pydantic converts and checks every field. *)
Definition make_uplink (p : ChirpStackUplink) (occupancy : option SpaceState) (battery : option Q)
    (gateway_id : option json) : result exn SensorUplink :=
  timestamp ← optional "timestamp" to_datetime (p_timestamp p);
  rssi ← optional "rssi" to_int (p_rssi p);
  snr ← optional "snr" to_float (p_snr p);
  gateway_id ← optional "gateway_id" to_text gateway_id;
  raw_payload ← optional "raw_payload" to_text (Some (p_payload p));
  match timestamp with
  | None => Err (PyException "validation error: timestamp")
  | Some t =>
      match validate_sensor_uplink (mkUplink (p_device_eui p) t occupancy battery None rssi snr gateway_id raw_payload) with
      | Ok u => Ok u
      | Err f => Err (PyException ("validation error: " +:+ f))
      end
  end.

(** ** Handlers *)

Record BaseDeviceHandler := mkHandler {
  class_name : string;
  device_profiles : list string;
  parse_uplink : json → result exn SensorUplink;
  encode_downlink : string → list (string * json) → result exn (list Z);
}.

Definition can_handle (h : BaseDeviceHandler) (device_profile : string) : bool :=
  non_empty device_profile && bool_decide (device_profile ∈ device_profiles h).

(** *** Browan TABS *)

Definition decode_browan (bs : list Z) : SpaceState * option Q :=
  match bs with
  | [] => (FREE, None)
  | status_byte :: rest =>
      (if Z.land status_byte 1 =? 0 then FREE else OCCUPIED,
       match rest with b :: _ => Some (inject_Z b / inject_Z 100)%Q | [] => None end)
  end.

Definition browan_parse (data : json) : result exn SensorUplink :=
  parsed ← parse_chirpstack_uplink data;
  match bs ← py_b64decode (p_payload parsed);
        let '(occupancy, battery) := decode_browan bs in
        make_uplink parsed (Some occupancy) battery (p_gateway_id parsed)
  with
  | Ok u => Ok u
  | Err _ => make_uplink parsed None None None
  end.

Definition BrowanTabsHandler : BaseDeviceHandler :=
  mkHandler "BrowanTabsHandler" ["browan_tbms100_motion"] browan_parse (λ _ _, Ok []).

(** *** Heltec displays *)

(** Displays report no occupancy. *)
Definition display_parse (data : json) : result exn SensorUplink :=
  parsed ← parse_chirpstack_uplink data;
  make_uplink parsed None None None.

Definition fromhex (s : string) : result exn (list Z) :=
  match bytes_fromhex s with Some bs => Ok bs | None => Err (PyException "non-hexadecimal number found in fromhex() arg") end.

(** An element of [bytes([...])] *)
Definition as_byte (j : json) : result exn Z :=
  match j with
  | JInt n => if (0 <=? n) && (n <? 256) then Ok n else Err (PyException "bytes must be in range(0, 256)")
  | JBool b => Ok (if b then 1 else 0)
  | _ => Err (PyException "object cannot be interpreted as an integer")
  end.

Definition heltec_encode (command : string) (params : list (string * json)) : result exn (list Z) :=
  if String.eqb command "set_color" then
    match or_else (assoc "state" params) (JText "FREE") with
    | JText state => fromhex (get_display_color state)
    | _ => Err (attribute_error "upper")
    end
  else if String.eqb command "set_rgb" then
    r ← as_byte (or_else (assoc "r" params) (JInt 0));
    g ← as_byte (or_else (assoc "g" params) (JInt 0));
    b ← as_byte (or_else (assoc "b" params) (JInt 0));
    mret [r; g; b]
  else Ok [].

Definition get_color_for_state (state : SpaceState) : result exn (list Z) :=
  fromhex (get_display_color (state_value state)).

Definition HeltecDisplayHandler : BaseDeviceHandler :=
  mkHandler "HeltecDisplayHandler" ["heltec_display"] display_parse heltec_encode.

(** *** Kuando Busylight *)

Definition kuando_colors : list (string * (Z * Z * Z)) :=
  [("FREE", (0, 255, 0)); ("OCCUPIED", (255, 0, 0)); ("RESERVED", (255, 255, 0)); ("MAINTENANCE", (255, 165, 0))].

(** A key that cannot be hashed raises; one that is not a string is not in the table. *)
Definition kuando_encode (command : string) (params : list (string * json)) : result exn (list Z) :=
  if String.eqb command "set_color" then
    rgb ← match or_else (assoc "state" params) (JText "FREE") with
          | JText state => Ok (or_else (assoc state kuando_colors) (0, 0, 255))
          | JArr _ | JObj _ => Err (PyException "unhashable type")
          | _ => Ok (0, 0, 255)
          end;
    let '(r, g, b) := rgb in mret [0; r; g; b; 0; 1]
  else Ok [].

Definition KuandoBusylightHandler : BaseDeviceHandler :=
  mkHandler "KuandoBusylightHandler" ["plenom_kuando_busylight"] display_parse kuando_encode.

(** ** The registry *)

Record DeviceHandlerRegistry := mkRegistry {
  handlers : list BaseDeviceHandler; _profile_cache : list (string * BaseDeviceHandler);
}.

Definition empty_registry : DeviceHandlerRegistry := mkRegistry [] [].

Definition register (h : BaseDeviceHandler) (r : DeviceHandlerRegistry) : DeviceHandlerRegistry :=
  mkRegistry (handlers r ++ [h])%list (_profile_cache r).

Definition get_handler (device_profile : string) (r : DeviceHandlerRegistry)
    : option BaseDeviceHandler * DeviceHandlerRegistry :=
  if negb (non_empty device_profile) then (None, r)
  else match assoc device_profile (_profile_cache r) with
  | Some h => (Some h, r)
  | None =>
      match find (λ h, can_handle h device_profile) (handlers r) with
      | Some h => (Some h, mkRegistry (handlers r) (obj_set device_profile h (_profile_cache r)))
      | None => (None, r)
      end
  end.

Definition get_handler_by_class (handler_class : string) (r : DeviceHandlerRegistry) : option BaseDeviceHandler :=
  find (λ h, String.eqb (class_name h) handler_class) (handlers r).

Definition auto_register (r : DeviceHandlerRegistry) : DeviceHandlerRegistry :=
  register KuandoBusylightHandler (register HeltecDisplayHandler (register BrowanTabsHandler r)).

Definition list_handlers (r : DeviceHandlerRegistry) : list string := map class_name (handlers r).

(** ** The generic parser *)

Record ParsedWebhook := mkWebhook {
  w_device_eui : string; w_device_name : option json; w_application_id : option json;
  w_frequency : option json; w_dr : option json; w_fport : option json; w_fcnt : option json;
  w_payload : json; w_rssi : option json; w_snr : option json; w_gateway_id : string;
  w_timestamp : option json;
}.

Definition parse_chirpstack_webhook (data : json) : result exn ParsedWebhook :=
  device_info ← py_get_or "deviceInfo" (JObj []) data;
  rx_infos ← py_get_or "rxInfo" (JArr [JObj []]) data;
  rx_info ← py_first rx_infos;
  tx_info ← py_get_or "txInfo" (JObj []) data;
  dev_eui ← py_get_or "devEui" (JText "") device_info;
  device_eui ← py_lower dev_eui;
  device_name ← py_get "deviceName" device_info;
  application_id ← py_get "applicationId" device_info;
  frequency ← py_get "frequency" tx_info;
  dr ← py_get "dr" tx_info;
  fport ← py_get "fPort" data;
  fcnt ← py_get "fCnt" data;
  payload ← py_get_or "data" (JText "") data;
  rssi ← py_get "rssi" rx_info;
  snr ← py_get "snr" rx_info;
  gateway ← py_get_or "gatewayId" (JText "") rx_info;
  gateway_id ← py_lower gateway;
  timestamp ← py_get "time" data;
  mret (mkWebhook device_eui device_name application_id frequency dr fport fcnt payload rssi snr gateway_id timestamp).

(** The dict itself, as it is stored with a new device type *)
Definition webhook_dict (w : ParsedWebhook) : list (string * json) :=
  let o j := or_else j JNull in
  [("device_eui", JText (w_device_eui w)); ("device_name", o (w_device_name w));
   ("application_id", o (w_application_id w)); ("frequency", o (w_frequency w)); ("dr", o (w_dr w));
   ("fport", o (w_fport w)); ("fcnt", o (w_fcnt w)); ("payload", w_payload w); ("rssi", o (w_rssi w));
   ("snr", o (w_snr w)); ("gateway_id", JText (w_gateway_id w)); ("timestamp", o (w_timestamp w))].

(** ** Properties *)

(** What a successful [SensorUplink(...)] holds *)
Lemma make_uplink_inv p occ bat gw u :
  make_uplink p occ bat gw = Ok u →
  up_device_eui u = p_device_eui p ∧ up_occupancy_state u = occ ∧ up_battery u = bat ∧
  up_temperature u = None ∧ validate_sensor_uplink u = Ok u.
Proof.
  unfold make_uplink, mbind, result_bind.
  repeat match goal with |- context [match optional ?a ?b ?c with _ => _ end] => destruct (optional a b c); [|done] end.
  destruct a as [t|]; [|done].
  destruct (validate_sensor_uplink _) as [u'|e] eqn:E; [|done]. intros [= <-].
  assert (u' = mkUplink (p_device_eui p) t occ bat None a0 a1 a2 a3) as ->; [|done].
  revert E. unfold validate_sensor_uplink, guard, mbind, result_bind.
  repeat match goal with |- context [if ?b then _ else _] => destruct b; [|done] end. by intros [= <-].
Qed.

(** The radio fields do not depend on what was decoded. *)
Lemma make_uplink_fields p gw occ bat u occ' bat' :
  make_uplink p occ bat gw = Ok u → on_opt (Q_between 0 (100 # 1)) bat' = true →
  make_uplink p occ' bat' gw =
    Ok (mkUplink (up_device_eui u) (up_timestamp u) occ' bat' (up_temperature u) (up_rssi u) (up_snr u)
          (up_gateway_id u) (up_raw_payload u)).
Proof.
  intros Hu Hbat. revert Hu. unfold make_uplink, mbind, result_bind.
  repeat match goal with |- context [match optional ?a ?b ?c with _ => _ end] => destruct (optional a b c); [|done] end.
  destruct a as [t|]; [|done]. unfold validate_sensor_uplink, guard, mbind, result_bind.
  cbn [up_battery up_temperature up_rssi up_snr up_device_eui up_timestamp up_gateway_id up_raw_payload].
  rewrite Hbat.
  repeat match goal with |- context [if ?b then _ else _] => destruct b; [|done] end. by intros [= <-].
Qed.

Lemma land_1 n : Z.land n 1 = n mod 2.
Proof. change 1 with (Z.ones 1) at 1. by rewrite Z.land_ones by lia. Qed.

Lemma battery_in_range bs occ bat :
  Forall is_byte bs → decode_browan bs = (occ, bat) → on_opt (Q_between 0 (255 # 100)) bat = true.
Proof.
  destruct bs as [|s [|b bs]]; cbn; [by intros _ [= _ <-]..|].
  intros [_ [Hb _]%Forall_cons]%Forall_cons [= _ <-]. unfold is_byte in Hb. unfold Q_between. cbn.
  apply andb_true_iff. split; apply Qle_bool_iff; unfold Qle; cbn; lia.
Qed.

Lemma Q_between_weaken lo hi hi' q : (hi <= hi')%Q → Q_between lo hi q = true → Q_between lo hi' q = true.
Proof.
  intros H [H1 H2]%andb_true_iff. apply andb_true_iff. split; [done|]. apply Qle_bool_iff in H2.
  apply Qle_bool_iff. by eapply Qle_trans.
Qed.

Lemma on_opt_weaken {A} (p q : A → bool) o : (∀ x, p x = true → q x = true) → on_opt p o = true → on_opt q o = true.
Proof. destruct o; cbn; auto. Qed.

(** Decoding a Browan frame.  When the payload is the base64 text of some bytes and the
    radio fields pass validation, the uplink reports OCCUPIED exactly when the first byte
    is odd (an empty payload reports FREE), the second byte in hundredths of a volt as the
    battery, and the radio fields as they are. *)
Theorem browan_decoding data p bs u0 :
  parse_chirpstack_uplink data = Ok p → p_payload p = JText (b64encode bs) → Forall is_byte bs →
  make_uplink p None None (p_gateway_id p) = Ok u0 →
  ∃ u, parse_uplink BrowanTabsHandler data = Ok u ∧
    up_occupancy_state u = Some (match bs with b :: _ => if Z.odd b then OCCUPIED else FREE | [] => FREE end) ∧
    up_battery u = (match bs with _ :: b :: _ => Some (inject_Z b / inject_Z 100)%Q | _ => None end) ∧
    up_device_eui u = p_device_eui p ∧ up_timestamp u = up_timestamp u0 ∧ up_rssi u = up_rssi u0 ∧
    up_snr u = up_snr u0 ∧ up_raw_payload u = Some (b64encode bs).
Proof.
  intros Hp Hpay Hbs H0. destruct (decode_browan bs) as [occ bat] eqn:Ed.
  assert (on_opt (Q_between 0 (100 # 1)) bat = true) as Hbat.
  { eapply on_opt_weaken; [|by eapply battery_in_range]. intros q. apply Q_between_weaken. by unfold Qle. }
  pose proof (make_uplink_fields p _ None None u0 (Some occ) bat H0 Hbat) as Hu.
  pose proof (make_uplink_inv _ _ _ _ _ H0) as (Heui & _ & _ & _ & _).
  assert (up_raw_payload u0 = Some (b64encode bs)) as Hraw.
  { revert H0. unfold make_uplink, mbind, result_bind.
    repeat match goal with |- context [match optional ?a ?b ?c with _ => _ end] =>
      destruct (optional a b c) eqn:?; [|done] end.
    rewrite Hpay in *. cbn in *. simplify_eq. destruct a as [t|]; [|done].
    unfold validate_sensor_uplink, guard, mbind, result_bind.
    repeat match goal with |- context [if ?b then _ else _] => destruct b; [|done] end. by intros [= <-]. }
  eexists. split.
  { cbn [parse_uplink BrowanTabsHandler]. unfold browan_parse, mbind, result_bind. rewrite Hp, Hpay. cbn [py_b64decode].
    rewrite b64_roundtrip by done. rewrite Ed, Hu. reflexivity. }
  cbn. split_and!; try done.
  - destruct bs as [|b bs]; cbn in Ed; injection Ed as <- _; [done|].
    rewrite land_1, Zmod_odd. by destruct (Z.odd b).
  - destruct bs as [|b [|b' bs]]; cbn in Ed; by injection Ed as _ <-.
Qed.

(** C29. The type of a parsed uplink.  Whatever JSON a registered handler is given, an uplink it
    returns passes the validation of SensorUplink, has a lower-case device EUI and no
    temperature; it is FREE or OCCUPIED if it has an occupancy at all, and only the Browan
    handler reports one. *)
Theorem handlers_return_valid_uplinks h data u :
  h ∈ handlers (auto_register empty_registry) → parse_uplink h data = Ok u →
  validate_sensor_uplink u = Ok u ∧ str_lower (up_device_eui u) = up_device_eui u ∧
  up_temperature u = None ∧
  (up_occupancy_state u = None ∨
   class_name h = "BrowanTabsHandler" ∧ (up_occupancy_state u = Some FREE ∨ up_occupancy_state u = Some OCCUPIED)).
Proof.
  assert (∀ p, parse_chirpstack_uplink data = Ok p → str_lower (p_device_eui p) = p_device_eui p) as Hlow.
  { intros p. unfold parse_chirpstack_uplink, mbind, result_bind.
    repeat match goal with |- context [match ?x with Ok _ => _ | Err _ => _ end] =>
      destruct x eqn:?; [|done] end.
    intros [= <-]. cbn. destruct a2; [done..| |done|done]. cbn in *. simplify_eq. apply str_lower_idemp. }
  assert (∀ occ bat gw p, parse_chirpstack_uplink data = Ok p → make_uplink p occ bat gw = Ok u →
    validate_sensor_uplink u = Ok u ∧ str_lower (up_device_eui u) = up_device_eui u ∧ up_temperature u = None ∧
    up_occupancy_state u = occ) as Hmake.
  { intros occ bat gw p Hp (Heui & Hocc & _ & Ht & Hv)%make_uplink_inv. rewrite Heui. auto. }
  intros Hh. change (handlers _) with [BrowanTabsHandler; HeltecDisplayHandler; KuandoBusylightHandler] in Hh.
  rewrite !elem_of_cons, elem_of_nil in Hh. destruct Hh as [->|[->|[->|[]]]];
    cbn [parse_uplink BrowanTabsHandler HeltecDisplayHandler KuandoBusylightHandler class_name];
    unfold browan_parse, display_parse, mbind, result_bind;
    (destruct (parse_chirpstack_uplink data) as [p|] eqn:Hp; [|done]).
  2-3: intros (?&?&?&?)%(Hmake _ _ _ p); auto.
  destruct (py_b64decode _) as [bs|]; [|intros (?&?&?&?)%(Hmake _ _ _ p); auto].
  destruct (decode_browan bs) as [occ bat] eqn:Ed.
  destruct (make_uplink p (Some occ) _ _) as [u'|] eqn:Em; [|intros (?&?&?&?)%(Hmake _ _ _ p); auto].
  intros [= ->]. destruct (Hmake _ _ _ p eq_refl Em) as (?&?&?&Hocc). split_and!; [done..|]. right. split; [done|].
  rewrite Hocc. destruct bs; cbn in Ed; [injection Ed as <- _; auto|]. destruct (_ =? 0); injection Ed as <- _; auto.
Qed.

Lemma fromhex_bytes s bs : fromhex s = Ok bs → Forall is_byte bs.
Proof. unfold fromhex. destruct (bytes_fromhex s) eqn:E; [|done]. intros [= <-]. by eapply bytes_fromhex_bytes. Qed.

Lemma as_byte_is_byte j n : as_byte j = Ok n → is_byte n.
Proof.
  destruct j as [|b|z| | | |]; cbn; try done.
  - intros [= <-]. by destruct b.
  - destruct (0 <=? z) eqn:?, (z <? 256) eqn:?; try done. intros [= <-]. unfold is_byte. lia.
Qed.

Lemma assoc_In {A} k (l : list (string * A)) v : assoc k l = Some v → In (k, v) l.
Proof.
  induction l as [|[k' v'] l IH]; [done|]. cbn. destruct (String.eqb_spec k k') as [->|_].
  - intros [= ->]. by left.
  - auto.
Qed.

Lemma display_color_table s : get_display_color s ∈ "FFFFFF" :: color_map.*2.
Proof.
  unfold get_display_color. destruct (assoc _ _) as [c|] eqn:E; [|by left]. right.
  apply assoc_In, list_elem_of_In in E. by apply (list_elem_of_fmap_2 snd) in E.
Qed.

Lemma color_three_bytes s : ∃ r g b, fromhex (get_display_color s) = Ok [r; g; b].
Proof.
  pose proof (display_color_table s) as H. cbn in H. rewrite !elem_of_cons, elem_of_nil in H.
  destruct H as [->|[->|[->|[->|[->|[->|[]]]]]]]; do 3 eexists; reflexivity.
Qed.

(** Bounds of an encoded downlink.  Whatever the command and its parameters, what a
    registered handler encodes is a list of bytes: none for an unknown command, three for
    the Heltec display, and for the Kuando light the six bytes [0; r; g; b; 0; 1]. *)
Theorem encoded_downlink_bytes h command params bs :
  h ∈ handlers (auto_register empty_registry) → encode_downlink h command params = Ok bs →
  Forall is_byte bs ∧
  (bs = [] ∨ (class_name h = "HeltecDisplayHandler" ∧ ∃ r g b, bs = [r; g; b]) ∨
   (class_name h = "KuandoBusylightHandler" ∧ ∃ r g b, bs = [0; r; g; b; 0; 1])).
Proof.
  intros Hh. change (handlers _) with [BrowanTabsHandler; HeltecDisplayHandler; KuandoBusylightHandler] in Hh.
  rewrite !elem_of_cons, elem_of_nil in Hh. destruct Hh as [->|[->|[->|[]]]]; cbn [encode_downlink class_name
    BrowanTabsHandler HeltecDisplayHandler KuandoBusylightHandler].
  - intros [= <-]. auto.
  - unfold heltec_encode. destruct (String.eqb command "set_color").
    + destruct (or_else _ _) as [| | | |s| |]; try done. intros H. split; [by eapply fromhex_bytes|].
      destruct (color_three_bytes s) as (r & g & b & E). right; left. split; [done|].
      exists r, g, b. congruence.
    + destruct (String.eqb command "set_rgb"); [|intros [= <-]; auto]. unfold mbind, result_bind.
      repeat match goal with |- context [match as_byte ?x with _ => _ end] =>
        destruct (as_byte x) eqn:?; [|done] end.
      intros [= <-]. split; [repeat constructor; by eapply as_byte_is_byte|]. right; left. eauto 6.
  - unfold kuando_encode. destruct (String.eqb command "set_color"); [|intros [= <-]; auto].
    unfold mbind, result_bind.
    assert (∀ s r g b, or_else (assoc s kuando_colors) (0, 0, 255) = (r, g, b) → is_byte r ∧ is_byte g ∧ is_byte b) as Ht.
    { intros s r g b. unfold kuando_colors. cbn.
      repeat (match goal with |- context [if String.eqb ?a ?b then _ else _] => destruct (String.eqb a b) end;
              [intros [= <- <- <-]; unfold is_byte; cbn; lia|]). intros [= <- <- <-]. unfold is_byte; cbn; lia. }
    assert (∀ r g b, is_byte r ∧ is_byte g ∧ is_byte b → Forall is_byte [0; r; g; b; 0; 1]) as Hb.
    { intros r g b (?&?&?). repeat constructor; unfold is_byte in *; lia. }
    destruct (or_else (assoc "state" params) (JText "FREE")) as [| | | |s| |]; try done; cbn [mret result_ret].
    all: try (intros [= <-]; split; [apply Hb; unfold is_byte; lia|right; right; eauto 6]).
    destruct (or_else (assoc s kuando_colors) (0, 0, 255)) as [[r g] b] eqn:E. intros [= <-].
    split; [apply Hb; by apply (Ht s)|right; right; eauto 6].
Qed.

(** *** The registry's cache *)

Inductive registry_op := Register (h : BaseDeviceHandler) | Lookup (device_profile : string).

Definition registry_step (r : DeviceHandlerRegistry) (op : registry_op) : DeviceHandlerRegistry :=
  match op with Register h => register h r | Lookup p => (get_handler p r).2 end.

Lemma assoc_obj_set {A} k k' (v : A) o :
  assoc k (obj_set k' v o) = if String.eqb k k' then Some v else assoc k o.
Proof.
  induction o as [|[x w] o IH]; [done|]. cbn.
  destruct (String.eqb_spec k' x) as [->|Hx]; cbn.
  - by destruct (String.eqb k x).
  - destruct (String.eqb_spec k x) as [->|Hk]; [|done].
    by destruct (String.eqb_spec x k') as [->|_].
Qed.

Lemma find_app_Some {A} (p : A → bool) l l' x : find p l = Some x → find p (l ++ l')%list = Some x.
Proof. induction l as [|y l IH]; [done|]. cbn. by destruct (p y). Qed.

(** Every cached handler is the first that matches. *)
Definition cache_coherent (r : DeviceHandlerRegistry) : Prop :=
  ∀ p h, assoc p (_profile_cache r) = Some h → find (λ h, can_handle h p) (handlers r) = Some h.

Lemma registry_coherent ops r : cache_coherent r → cache_coherent (fold_left registry_step ops r).
Proof.
  revert r. induction ops as [|op ops IH]; intros r Hr; [done|]. apply IH. destruct op as [h|p]; cbn.
  - intros q h' Hq. cbn in *. apply find_app_Some. by apply Hr.
  - unfold get_handler. destruct (non_empty p); [|done]. cbn [negb].
    destruct (assoc p _) as [h|] eqn:E; [done|]. destruct (find _ _) as [h|] eqn:Ef; [|done].
    intros q h' Hq. cbn in *. rewrite assoc_obj_set in Hq.
    destruct (String.eqb_spec q p) as [->|_]; [congruence|by apply Hr].
Qed.

(** The profile cache is transparent: after any sequence of registrations and lookups, a
    lookup returns the first registered handler that supports the profile, as it would
    without a cache. *)
Theorem cached_lookup_is_first_match ops device_profile :
  let r := fold_left registry_step ops empty_registry in
  (get_handler device_profile r).1 = find (λ h, can_handle h device_profile) (handlers r).
Proof.
  intros r. assert (cache_coherent r) as Hr by by apply registry_coherent.
  unfold get_handler. destruct device_profile as [|c s].
  - cbn. clear. induction (handlers r); [done|]. done.
  - cbn [non_empty negb]. destruct (assoc _ _) as [h|] eqn:E; [by rewrite (Hr _ _ E)|].
    by destruct (find _ _).
Qed.
End Handlers.

(** ** Witnesses *)

(** Numbers are read as they are, and a datetime as its number of microseconds. *)
Definition plain_pydantic : Pydantic := {|
  to_datetime j := match j with JInt n => Some n | _ => None end;
  to_int j := match j with JInt n => Some n | _ => None end;
  to_float j := match j with JInt n => Some (inject_Z n) | _ => None end;
|}.

(** An uplink of the Browan sensor: first byte 1, second byte 36. *)
Definition sample_uplink : json :=
  JObj [("deviceInfo", JObj [("devEui", JText "E8E1E1000103C3F8"); ("deviceProfileName", JText "browan_tbms100_motion");
                             ("deviceName", JText "bay 1")]);
        ("rxInfo", JArr [JObj [("rssi", JInt (-80)); ("snr", JInt 7); ("gatewayId", JText "7076FF006404010B")]]);
        ("data", JText "ASQ="); ("fCnt", JInt 12); ("time", JInt 1000)].

Definition sample_parsed : ChirpStackUplink :=
  mkParsed "e8e1e1000103c3f8" (JText "ASQ=") (Some (JInt (-80))) (Some (JInt 7))
    (Some (JText "7076FF006404010B")) (Some (JInt 1000)).

Lemma browan_decoding_witness :
  ∃ u, @parse_uplink (@BrowanTabsHandler plain_pydantic) sample_uplink = Ok u ∧ up_occupancy_state u = Some OCCUPIED.
Proof.
  destruct (@browan_decoding plain_pydantic sample_uplink sample_parsed [1; 36]
    (mkUplink "e8e1e1000103c3f8" 1000 None None None (Some (-80)) (Some (inject_Z 7)) (Some "7076FF006404010B") (Some "ASQ="))
    eq_refl eq_refl (ltac:(repeat constructor; unfold is_byte; lia)) eq_refl) as (u & Hu & Ho & _).
  exists u. split; [exact Hu|exact Ho].
Defined.

Lemma handlers_return_valid_uplinks_witness :
  ∃ u, parse_uplink (@BrowanTabsHandler plain_pydantic) sample_uplink = Ok u ∧ validate_sensor_uplink u = Ok u.
Proof.
  eexists. split; [vm_compute; reflexivity|].
  exact (proj1 (@handlers_return_valid_uplinks plain_pydantic (@BrowanTabsHandler plain_pydantic) sample_uplink _ ltac:(left) eq_refl)).
Defined.

Lemma encoded_downlink_bytes_witness :
  encode_downlink (@KuandoBusylightHandler plain_pydantic) "set_color" [("state", JText "OCCUPIED")] = Ok [0; 255; 0; 0; 0; 1] ∧
  Forall is_byte [0; 255; 0; 0; 0; 1].
Proof.
  split; [reflexivity|].
  exact (proj1 (@encoded_downlink_bytes plain_pydantic (@KuandoBusylightHandler plain_pydantic) "set_color" [("state", JText "OCCUPIED")] _
    ltac:(do 2 right; left) eq_refl)).
Defined.
