(* ===== verification/OrphanDevices.v ===== *)
(** * OrphanDevices: devices that belong to no space

    Models src/src/orphan_devices.py and its endpoints in src/src/api_tenants.py.  The
    tracking table [orphan_devices] (migration 004) is a list of rows; the view
    [v_orphan_devices] that the listing reads is a list of column names with its rows, and
    the migrations' columns are given as they are written.  [fault] is what a statement
    raises, and the class [Numeric] how the driver encodes the radio values. *)

From Stdlib Require Import QArith.
From S2P Require Import Prelude PyUtils Json Models Database.

Open Scope Z_scope.

Record OrphanRow := mkOrphan {
  od_id : string; od_dev_eui : string; od_first_seen : Z; od_last_seen : Z; od_uplink_count : Z;
  od_last_payload : option string; od_last_rssi : option Z; od_last_snr : option Q;
  od_assigned_to_space_id : option string; od_assigned_at : option Z;
}.

Abbreviation orphans := (list OrphanRow).

(** The driver's encoding of an INTEGER and of a DECIMAL(4,1) argument, if it accepts it. *)
Class Numeric := { as_integer : json → option Z; as_decimal : json → option Q }.

Section Orphans.
Context {N : Numeric}.

(** ** Tracking *)

Inductive OrphanInfo :=
| OrphanSeen (device_eui : string) (uplink_count first_seen last_seen : Z) (assigned : bool)
| OrphanError (device_eui : string) (error : string).

Definition is_orphan (device_eui : string) (o : OrphanRow) : bool := String.eqb (od_dev_eui o) device_eui.

(** The DO UPDATE of the upsert *)
Definition seen_again (now : Z) (payload : option string) (rssi : option Z) (snr : option Q) (o : OrphanRow) : OrphanRow :=
  mkOrphan (od_id o) (od_dev_eui o) (od_first_seen o) now (od_uplink_count o + 1) payload rssi snr
    (od_assigned_to_space_id o) (od_assigned_at o).

Definition orphan_info (o : OrphanRow) : OrphanInfo :=
  OrphanSeen (od_dev_eui o) (od_uplink_count o) (od_first_seen o) (od_last_seen o)
    (bool_decide (is_Some (od_assigned_to_space_id o))).

(** INSERT ... ON CONFLICT (dev_eui) DO UPDATE ... RETURNING *)
Definition upsert_orphan (now : Z) (new_id device_eui : string) (payload : option string) (rssi : option Z)
    (snr : option Q) (d : orphans) : OrphanRow * orphans :=
  match fetchrow (is_orphan device_eui) d with
  | Some o => (seen_again now payload rssi snr o, sql_update (is_orphan device_eui) (seen_again now payload rssi snr) d)
  | None =>
      let o := mkOrphan new_id device_eui now now 1 payload rssi snr None None in (o, d ++ [o])%list
  end.

Definition numeric {A} (f : json → option A) (j : option json) : result exn (option A) :=
  match j with
  | None | Some JNull => Ok None
  | Some j => match f j with Some a => Ok (Some a) | None => Err (PyException "invalid input for query argument") end
  end.

Definition handle_orphan_device (now : Z) (new_id device_eui : string) (payload : option string)
    (rssi snr : option json) (fault : option exn) (d : orphans) : OrphanInfo * orphans :=
  let body : stE orphans exn OrphanInfo :=
    rssi ← lift (numeric as_integer rssi);
    snr ← lift (numeric as_decimal snr);
    o ← may_fail fault (λ d, let '(o, d) := upsert_orphan now new_id device_eui payload rssi snr d in (Ok o, d));
    mret (orphan_info o) in
  match body d with
  | (Ok i, d) => (i, d)
  | (Err e, d) => (OrphanError device_eui (message e), d)
  end.

(** ** Assignment *)

Definition set_assigned (now : Z) (space_id : string) (o : OrphanRow) : OrphanRow :=
  mkOrphan (od_id o) (od_dev_eui o) (od_first_seen o) (od_last_seen o) (od_uplink_count o) (od_last_payload o)
    (od_last_rssi o) (od_last_snr o) (Some space_id) (Some now).

(** The command tag must be [UPDATE 1]. *)
Definition assign_orphan_device (now : Z) (device_eui space_id : string) (fault : option exn) (d : orphans)
    : bool * orphans :=
  match fault with
  | Some _ => (false, d)
  | None =>
      (sql_count (is_orphan device_eui) d =? 1, sql_update (is_orphan device_eui) (set_assigned now space_id) d)
  end.

(** ** Listing *)

(** What the listing selects from the view *)
Definition selected_columns : list string :=
  ["id"; "dev_eui"; "first_seen"; "last_seen"; "uplink_count"; "last_rssi"; "last_snr";
   "assigned_to_space_id"; "assigned_at"].

(** The columns of [v_orphan_devices]: migration 008 and its hotfix when the tables have a
    type_code, and the simplified view of the hotfix. *)
Definition view_with_type_code : list string :=
  ["id"; "dev_eui"; "device_model"; "status"; "type_code"; "device_type_name"; "first_seen"; "last_seen";
   "metadata"; "created_at"; "device_category"].
Definition view_simplified : list string :=
  ["id"; "dev_eui"; "device_model"; "status"; "type_code"; "last_seen"; "created_at"; "device_category"].

Definition last_seen_desc (a b : OrphanRow) : Prop := od_last_seen b ≤ od_last_seen a.
#[export] Instance last_seen_desc_dec : RelDecision last_seen_desc := fun a b => decide (od_last_seen b ≤ od_last_seen a).

(** A SELECT of a column the view does not have raises, which the function answers with an
    empty list.  [since_hours = 0] is no filter. *)
Definition get_orphan_devices (now : Z) (include_assigned : bool) (since_hours : option Z) (fault : option exn)
    (view_columns : list string) (view_rows : list OrphanRow) : list OrphanRow :=
  let p o :=
    (include_assigned || bool_decide (od_assigned_to_space_id o = None)) &&
    match since_hours with
    | None => true
    | Some h => (h =? 0) || (now - h * 3600 * sec <? od_last_seen o)
    end in
  match fault with
  | Some _ => []
  | None =>
      if forallb (λ c, bool_decide (c ∈ view_columns)) selected_columns
      then merge_sort last_seen_desc (List.filter p view_rows)
      else []
  end.

(** ** Deletion: from the device tables, not from the tracking table *)

Definition orphan_sensor (device_eui : string) (s : SensorDevice) : bool :=
  String.eqb (sd_dev_eui s) device_eui && String.eqb (sd_status s) "orphan".
Definition orphan_display (device_eui : string) (s : DisplayDevice) : bool :=
  String.eqb (dd_dev_eui s) device_eui && String.eqb (dd_status s) "orphan".

Definition sql_delete {A} (p : A → bool) : list A → list A := List.filter (λ r, negb (p r)).

Definition delete_orphan_device (device_eui : string) (fault : option exn) (d : Db) : bool * Db :=
  match fault with
  | Some _ => (false, d)
  | None =>
      let n := sql_count (orphan_sensor device_eui) (sensor_devices d) in
      let d := with_sensor_devices (sql_delete (orphan_sensor device_eui)) d in
      if n =? 1 then (true, d)
      else
        let m := sql_count (orphan_display device_eui) (display_devices d) in
        (m =? 1, with_display_devices (sql_delete (orphan_display device_eui)) d)
  end.

(** ** The endpoints, after [require_admin] *)

Definition list_orphan_devices (now : Z) (include_assigned : bool) (since_hours : option Z) (fault : option exn)
    (view_columns : list string) (view_rows : list OrphanRow) : list OrphanRow * Z :=
  let l := get_orphan_devices now include_assigned since_hours fault view_columns view_rows in
  (l, Z.of_nat (length l)).

Definition orphan_not_found (device_eui : string) : exn :=
  HTTPException 404 ("Orphan device " +:+ device_eui +:+ " not found").

Definition assign_orphan (now : Z) (device_eui space_id : string) (fault : option exn) (tenant : TenantContext)
    : stE orphans exn unit := λ d,
  let '(success, d) := assign_orphan_device now device_eui space_id fault d in
  (if success then Ok tt else Err (orphan_not_found device_eui), d).

Definition delete_orphan (device_eui : string) (fault : option exn) (tenant : TenantContext) : stE Db exn unit := λ d,
  let '(success, d) := delete_orphan_device device_eui fault d in
  (if success then Ok tt else Err (orphan_not_found device_eui), d).
End Orphans.

(** ** Properties *)

(** An uplink of a device without a space, as [process_uplink] reports it. *)
Record OrphanUplink := mkOrphanUplink {
  ou_now : Z; ou_new_id : string; ou_device_eui : string; ou_payload : option string;
  ou_rssi : option json; ou_snr : option json; ou_fault : option exn;
}.

Section Tracking.
Context {N : Numeric}.

Definition track (d : orphans) (u : OrphanUplink) : orphans :=
  (handle_orphan_device (ou_now u) (ou_new_id u) (ou_device_eui u) (ou_payload u) (ou_rssi u) (ou_snr u) (ou_fault u) d).2.

(** The statement runs: its arguments are encoded and it does not raise. *)
Definition tracked (u : OrphanUplink) : bool :=
  is_ok (numeric as_integer (ou_rssi u)) && is_ok (numeric as_decimal (ou_snr u)) && bool_decide (ou_fault u = None).

Definition count_of (device_eui : string) (d : orphans) : Z :=
  match fetchrow (is_orphan device_eui) d with Some o => od_uplink_count o | None => 0 end.

Lemma track_spec d u :
  track d u = if tracked u
              then (upsert_orphan (ou_now u) (ou_new_id u) (ou_device_eui u) (ou_payload u)
                      (match numeric as_integer (ou_rssi u) with Ok r => r | Err _ => None end)
                      (match numeric as_decimal (ou_snr u) with Ok r => r | Err _ => None end) d).2
              else d.
Proof.
  unfold track, handle_orphan_device, tracked, lift, may_fail, raise, mbind, stE_bind, mret, stE_ret.
  destruct (numeric as_integer _) as [r|e]; [|done]. destruct (numeric as_decimal _) as [s|e]; [|done].
  destruct (ou_fault u) as [e|]; [done|]. cbn [is_ok andb]. rewrite bool_decide_true by done.
  by destruct (upsert_orphan _ _ _ _ _ _ d).
Qed.

Lemma count_of_track d u device_eui :
  count_of device_eui (track d u) =
  count_of device_eui d + (if tracked u && String.eqb (ou_device_eui u) device_eui then 1 else 0).
Proof.
  rewrite track_spec. destruct (tracked u); cbn [andb]; [|lia]. unfold upsert_orphan.
  destruct (fetchrow (is_orphan (ou_device_eui u)) d) as [o|] eqn:E; cbn [snd]; unfold count_of.
  - destruct (String.eqb_spec (ou_device_eui u) device_eui) as [Heq|Hne]; [rewrite Heq in *|].
    + rewrite fetchrow_update by done. rewrite E. done.
    + rewrite fetchrow_update_other; [lia|]. intros x. unfold is_orphan. cbn.
      destruct (String.eqb_spec (od_dev_eui x) (ou_device_eui u)) as [->|]; [|done].
      by destruct (String.eqb_spec (ou_device_eui u) device_eui).
  - rewrite fetchrow_app. destruct (String.eqb_spec (ou_device_eui u) device_eui) as [Heq|Hne]; [rewrite Heq in *|].
    + rewrite E. cbn. unfold is_orphan. cbn. by rewrite String.eqb_refl.
    + destruct (fetchrow (is_orphan device_eui) d); [lia|]. cbn. unfold is_orphan. cbn.
      destruct (String.eqb_spec (ou_device_eui u) device_eui); [done|lia].
Qed.

Lemma track_keys d u : NoDup (map od_dev_eui d) → NoDup (map od_dev_eui (track d u)).
Proof.
  intros Hd. rewrite track_spec. destruct (tracked u); [|done]. unfold upsert_orphan.
  destruct (fetchrow _ d) as [o|] eqn:E; cbn [snd].
  - unfold sql_update. rewrite map_map.
    rewrite (map_ext _ od_dev_eui); [done|]. intros x. by destruct (is_orphan _ x).
  - rewrite map_app. apply NoDup_app. split_and!; [done| |apply NoDup_singleton].
    intros x Hx Hin. cbn in Hin. apply list_elem_of_singleton in Hin as ->.
    apply list_elem_of_fmap in Hx as (o & Ho & Hin).
    apply list_elem_of_In in Hin. pose proof (find_none _ _ E o Hin) as H. unfold is_orphan in H.
    rewrite <- Ho, String.eqb_refl in H. done.
Qed.

(** Orphan tracking counts uplinks.  Whatever uplinks of unassigned devices arrive, in any
    order and interleaved in any way, the table keeps one row per device, and a device's
    counter grows by exactly the number of its uplinks whose statement ran (bad radio
    values and database errors are swallowed, and not counted). *)
Theorem orphan_uplinks_counted us d device_eui :
  NoDup (map od_dev_eui d) →
  NoDup (map od_dev_eui (fold_left track us d)) ∧
  count_of device_eui (fold_left track us d) =
  count_of device_eui d + sql_count (λ u, tracked u && String.eqb (ou_device_eui u) device_eui) us.
Proof.
  revert d. induction us as [|u us IH]; intros d Hd; [split; [done|unfold sql_count; cbn [fold_left List.filter length]; lia]|]. cbn [fold_left].
  destruct (IH (track d u) (track_keys _ _ Hd)) as [Hk ->]. split; [done|].
  rewrite count_of_track. unfold sql_count. cbn [List.filter]. destruct (_ && _); cbn [length]; lia.
Qed.

(** No orphan is ever listed.  The listing selects columns that neither version of the view
    v_orphan_devices has, the query raises, and the exception becomes an empty list: the
    endpoint reports no orphan devices, whatever the tables hold. *)
Theorem orphans_never_listed now include_assigned since_hours fault view_columns view_rows :
  view_columns ∈ [view_with_type_code; view_simplified] →
  list_orphan_devices now include_assigned since_hours fault view_columns view_rows = ([], 0).
Proof.
  intros Hv. unfold list_orphan_devices, get_orphan_devices. destruct fault; [done|].
  rewrite !elem_of_cons, elem_of_nil in Hv. by destruct Hv as [->|[->|[]]].
Qed.
End Tracking.

(** With the columns it expects, the listing is exact: the unassigned devices (all of them
    on request) seen within the window, latest first. *)
Lemma orphans_listed_exactly now include_assigned since_hours rows o :
  let l := get_orphan_devices now include_assigned since_hours None selected_columns rows in
  (o ∈ l ↔ o ∈ rows ∧ (include_assigned = true ∨ od_assigned_to_space_id o = None) ∧
     match since_hours with None => True | Some h => h = 0 ∨ now - h * 3600 * sec < od_last_seen o end) ∧
  StronglySorted last_seen_desc l.
Proof.
  intros l. subst l. unfold get_orphan_devices. change (forallb _ selected_columns) with true. cbv iota. split.
  - rewrite merge_sort_Permutation, !list_elem_of_In, filter_In, andb_true_iff, orb_true_iff, bool_decide_eq_true.
    destruct since_hours as [h|]; [rewrite orb_true_iff, Z.eqb_eq, Z.ltb_lt; done|]. tauto.
  - apply StronglySorted_merge_sort.
    + intros a b c Hab Hbc. unfold last_seen_desc in *. lia.
    + intros a b. unfold last_seen_desc. lia.
Qed.

(** ** Witnesses *)

Definition plain_numeric : Numeric := {|
  as_integer j := match j with JInt n => Some n | _ => None end;
  as_decimal j := match j with JInt n => Some (inject_Z n) | _ => None end;
|}.

Lemma orphan_uplinks_counted_witness :
  let u t r := mkOrphanUplink t "o1" "AA" None (Some r) None None in
  count_of "AA" (fold_left (@track plain_numeric) [u 5 (JInt (-80)); u 6 (JText "x"); u 7 (JInt (-81))] []) = 2.
Proof.
  intros u.
  exact (proj2 (@orphan_uplinks_counted plain_numeric [u 5 (JInt (-80)); u 6 (JText "x"); u 7 (JInt (-81))] [] "AA"
    (NoDup_nil_2))).
Defined.

Lemma orphans_never_listed_witness :
  list_orphan_devices 9 true None None view_simplified [mkOrphan "o1" "AA" 5 7 2 None None None None None] = ([], 0).
Proof. exact (orphans_never_listed 9 true None None view_simplified _ ltac:(right; left)). Defined.
