(* ===== verification/Uplink.v ===== *)
(** * Uplink: the ChirpStack webhook

    Models [process_uplink] of src/src/main.py, the endpoint that ties the sensors to the
    rest: it looks up the device and its space, checks the signature, parses the payload,
    verifies Kuando downlinks, discovers devices, tracks orphans, and for a sensor reading
    updates the space's state and then stores the reading.  Every call to a server can
    fail ([UplinkCall], and [CallSite] inside the state manager).  [processing_time_ms] of
    the answer is left out. *)

From Stdlib Require Import QArith.
From S2P Require Import Prelude.
From S2P Require Import PyUtils.
From S2P Require Import Json.
From S2P Require Import Redis.
From S2P Require Import RateLimit.
From S2P Require Import DownlinkQueue.
From S2P Require Import Models.
From S2P Require Import Database.
From S2P Require Import Reservations.
From S2P Require Import StateManager.
From S2P Require Import WebhookValidation.
From S2P Require Import DeviceHandlers.
From S2P Require Import OrphanDevices.

Open Scope Z_scope.

Inductive UplinkCall :=
| UDevice | USpace | USecret | UDeviceType | USensorDevice | UOrphan | UTelemetry | UReading
| UKuandoSet | UKuandoGet | UKuandoDelete.

Record ProcessingResult := mkResult {
  pr_status : string; pr_device_eui : string; pr_space_code : option string; pr_state : option string;
  pr_request_id : string;
}.

(** The identifiers the call draws *)
Record FreshIds := mkFresh {
  fresh_request : string; fresh_device_type : string; fresh_device : string; fresh_orphan : string;
  fresh_command : string;
}.

Section Endpoint.
Context {R : Redis} {F : PyFloat} {P : Pydantic} {N : Numeric}.
Context (hmac_sha256 : string → string → string) (sha256_hexdigest : string → string).
Context (cfg : Config) (faults : CallSite → option exn) (fault : UplinkCall → option exn).

Record UpState := mkUp { up_world : World; up_orphans : orphans; up_registry : DeviceHandlerRegistry }.

Definition on_world (f : World → World) (s : UpState) : UpState := mkUp (f (up_world s)) (up_orphans s) (up_registry s).
Definition up_db (s : UpState) : Db := db (up_world s).

(** A query, and a statement on the database *)
Definition query {A} (c : UplinkCall) (f : Db → A) : stE UpState exn A :=
  may_fail (fault c) (λ s, (Ok (f (up_db s)), s)).
Definition statement {A} (c : UplinkCall) (f : Db → A * Db) : stE UpState exn A :=
  may_fail (fault c) (λ s, let '(a, d) := f (up_db s) in (Ok a, on_world (on_db (λ _, d)) s)).

(** A call of the state manager *)
Definition in_world {A} (c : stE World exn A) : stE UpState exn A := λ s,
  let '(r, w) := c (up_world s) in (r, on_world (λ _, w) s).

(** ** Device information *)

Definition extract_device (webhook_data : json) : result exn (string * json * json) :=
  device_info ← py_get_or "deviceInfo" (JObj []) webhook_data;
  device_eui_raw ← py_get_or "devEui" (JText "") device_info;
  device_name ← py_get_or "deviceName" (JText "unknown") device_info;
  profile_name ← py_get_or "deviceProfileName" (JText "unknown") device_info;
  if negb (py_truthy device_eui_raw) then Err (PyException "Missing device EUI in uplink")
  else match device_eui_raw with
  | JText raw =>
      match normalize_deveui raw with
      | Ok device_eui => Ok (device_eui, device_name, profile_name)
      | Err m => Err (PyException m)
      end
  | _ => Err (attribute_error "replace")
  end.

(** The handler named in the database if it is registered, else the one of the profile *)
Definition lookup_profile (profile_name : json) : stE UpState exn (option BaseDeviceHandler) :=
  match profile_name with
  | JText p => λ s, let '(h, r) := get_handler p (up_registry s) in
                    (Ok h, mkUp (up_world s) (up_orphans s) r)
  | JArr (_ :: _) | JObj (_ :: _) => raise (PyException "unhashable type")
  | _ => mret None
  end.

Definition select_handler (device_record : option (SensorDevice * option DeviceTypeRow)) (profile_name : json)
    : stE UpState exn (option BaseDeviceHandler) :=
  s ← get_st;
  let stored :=
    match device_record with
    | Some (_, Some t) =>
        if truthy (dt_handler_class t)
        then get_handler_by_class (or_else (dt_handler_class t) "") (up_registry s) else None
    | _ => None
    end in
  match stored with Some h => mret (Some h) | None => lookup_profile profile_name end.

(** ** Kuando verification *)

Definition last_uplink_key (device_eui : string) : string := "device:" +:+ device_eui +:+ ":last_kuando_uplink".
Definition pending_key (device_eui : string) : string := "device:" +:+ device_eui +:+ ":pending_downlink".

(** The report of a status frame; the light swaps blue and green. *)
Definition kuando_report (now : Z) (request_id : string) (bs : list Z) : json :=
  JObj [("timestamp", JText (isoformat now)); ("downlinks_received", JInt (nth 0 bs 0));
        ("rgb", JArr [JInt (nth 1 bs 0); JInt (nth 2 bs 0); JInt (nth 3 bs 0)]);
        ("options", JInt (nth 4 bs 0)); ("request_id", JText request_id)].

(** [n == j] and [n > j] for an int *)
Definition json_number (j : json) : option Q :=
  match j with
  | JInt m => Some (inject_Z m)
  | JBool b => Some (inject_Z (if b then 1 else 0))
  | JFloat x => Some (float_value x)
  | _ => None
  end.
Definition eq_int (n : Z) (j : json) : bool :=
  match json_number j with Some q => Qeq_bool (inject_Z n) q | None => false end.
Definition gt_int (n : Z) (j : json) : result exn bool :=
  match json_number j with
  | Some q => Ok (negb (Qle_bool (inject_Z n) q))
  | None => Err (PyException "'>' not supported between instances")
  end.

(** [j[k]] *)
Definition py_item (k : string) (j : json) : result exn json :=
  match j with
  | JObj o => match assoc k o with Some v => Ok v | None => Err (PyException k) end
  | _ => Err (PyException "indices must be integers")
  end.

(** [a, b, c = j] *)
Definition unpack3 (j : json) : result exn (json * json * json) :=
  match j with
  | JArr [a; b; c] => Ok (a, b, c)
  | JObj [(a, _); (b, _); (c, _)] => Ok (JText a, JText b, JText c)
  | JText (String a (String b (String c ""))) => Ok (JText (String a ""), JText (String b ""), JText (String c ""))
  | _ => Err (PyException "cannot unpack")
  end.

(** Does the reported colour match, and has the counter advanced? *)
Definition downlink_confirmed (pending : string) (bs : list Z) : result exn bool :=
  expected ← match loads pending with Some j => Ok j | None => Err (PyException "Expecting value") end;
  rgb ← py_item "rgb" expected;
  expected_rgb ← unpack3 rgb;
  let '(expected_r, expected_b, expected_g) := expected_rgb in
  expected_counter ← py_item "counter" expected;
  counter_incremented ← gt_int (nth 0 bs 0) expected_counter;
  mret (eq_int (nth 1 bs 0) expected_r && eq_int (nth 2 bs 0) expected_b && eq_int (nth 3 bs 0) expected_g &&
        counter_incremented).

Definition verify_kuando_body (now : Z) (device_eui request_id : string) (payload : json) : stE World exn unit :=
  bs ← lift (py_b64decode payload);
  if (length bs <? 8)%nat then mret tt
  else
    _ ← may_fail (fault UKuandoSet)
          (modify_st (on_redis (λ s, r_set s now (last_uplink_key device_eui) (dumps (kuando_report now request_id bs)) (Some 3600))));
    pending ← may_fail (fault UKuandoGet) (λ w, (Ok (r_get (redis w) now (pending_key device_eui)), w));
    if negb (truthy pending) then mret tt
    else
      confirmed ← lift (downlink_confirmed (or_else pending "") bs);
      if (confirmed : bool)
      then may_fail (fault UKuandoDelete) (modify_st (on_redis (λ s, r_del s (pending_key device_eui))))
      else mret tt.

(** [try: ... except Exception: log] *)
Definition verify_kuando (now : Z) (device_eui request_id : string) (payload : json) : stE World exn unit :=
  try_catch (verify_kuando_body now device_eui request_id payload) (λ _, mret tt).

(** ** Device discovery *)

(** The profile names the device type: [None] has no [lower], and the driver refuses
    anything else that is not a string. *)
Definition profile_text (profile_name : json) : result exn string :=
  match profile_name with JText p => Ok p | _ => Err (attribute_error "lower") end.

(** The name is used only when the type has no code. *)
Definition name_argument (type_code : string) (device_name : json) : result exn (option string) :=
  match device_name with
  | JText s => Ok (Some s)
  | j => if non_empty type_code || negb (py_truthy j) then Ok None
         else Err (PyException "invalid input for query argument")
  end.

Definition sample_text (w : ParsedWebhook) : json_obj := map (λ '(k, v), (k, dumps v)) (webhook_dict w).

Definition discover (now : Z) (ids : FreshIds) (device_eui : string) (device_name profile_name : json)
    (parsed_data : ParsedWebhook) : stE UpState exn unit :=
  profile ← lift (profile_text profile_name);
  device_type ← statement UDeviceType
    (get_or_create_device_type_by_profile (fresh_device_type ids) profile (Some (sample_text parsed_data)) "sensor");
  name ← lift (name_argument (dt_type_code device_type) device_name);
  _ ← statement USensorDevice
    (get_or_create_sensor_device now (fresh_device ids) device_eui (dt_id device_type) name
       (Some (dt_type_code device_type)));
  mret tt.

(** [parsed_data.get("payload", "").encode() if parsed_data.get("payload") else None] *)
Definition payload_bytes (payload : json) : result exn (option string) :=
  if negb (py_truthy payload) then Ok None
  else match payload with JText s => Ok (Some s) | _ => Err (attribute_error "encode") end.

Definition process_orphan (now : Z) (ids : FreshIds) (device_eui : string) (parsed_data : ParsedWebhook)
    (uplink : option SensorUplink) : stE UpState exn ProcessingResult :=
  payload ← lift (payload_bytes (w_payload parsed_data));
  _ ← modify_st (λ s, mkUp (up_world s)
        (handle_orphan_device now (fresh_orphan ids) device_eui payload (w_rssi parsed_data) (w_snr parsed_data)
           (fault UOrphan) (up_orphans s)).2 (up_registry s));
  _ ← match uplink with
      | Some u => statement UTelemetry (λ d, (tt,
          insert_telemetry now device_eui (state_value <$> up_occupancy_state u) (up_battery u) (up_rssi u) (up_snr u) d))
      | None => mret tt
      end;
  mret (mkResult "orphan_device" device_eui None None (fresh_request ids)).

(** ** A sensor reading: the state first, then the reading *)

Definition process_reading (now t_end : Z) (others : store → store) (ids : FreshIds) (device_eui : string)
    (space : Space) (parsed_data : ParsedWebhook) (u : SensorUplink) (occupancy : SpaceState)
    : stE UpState exn ProcessingResult :=
  result ← in_world (StateManager.update_space_state sha256_hexdigest cfg faults now t_end others (fresh_command ids)
                       (sp_id space) occupancy "sensor_uplink" (fresh_request ids));
  fcnt ← lift (numeric as_integer (w_fcnt parsed_data));
  _ ← statement UReading (λ d, (tt,
        insert_sensor_reading now device_eui (Some (sp_id space)) (Some (state_value occupancy)) (up_battery u)
          (up_rssi u) (up_snr u) (Some (up_timestamp u)) fcnt (sp_tenant_id space) d));
  mret (mkResult "success" device_eui (Some (sp_code space)) (Some (state_value (new_state result))) (fresh_request ids)).

(** What is done with the parsed uplink *)
Definition process_parsed (now t_end : Z) (others : store → store) (ids : FreshIds) (device_eui : string)
    (space : option Space) (parsed_data : ParsedWebhook) (uplink : option SensorUplink)
    : stE UpState exn ProcessingResult :=
  match space with
  | None => process_orphan now ids device_eui parsed_data uplink
  | Some space =>
      match uplink ≫= up_occupancy_state, uplink with
      | Some occupancy, Some u => process_reading now t_end others ids device_eui space parsed_data u occupancy
      | _, _ => mret (mkResult "no_occupancy_data" device_eui (Some (sp_code space)) None (fresh_request ids))
      end
  end.

(** ** The endpoint *)

Definition process_device (now t_end : Z) (others : store → store) (ids : FreshIds) (secret_rows : secrets)
    (signature_header : option string) (body : string) (webhook_data : json)
    (device_eui : string) (device_name profile_name : json) : stE UpState exn ProcessingResult :=
  device_record ← query UDevice (get_sensor_device_by_deveui device_eui);
  space ← query USpace (get_space_by_sensor device_eui);
  _ ← lift (verify_webhook_signature hmac_sha256 signature_header (space ≫= sp_tenant_id) body (fault USecret) secret_rows);
  handler ← select_handler device_record profile_name;
  parsed_data ← lift (parse_chirpstack_webhook webhook_data);
  let uplink :=
    match handler with
    | Some h => match parse_uplink h webhook_data with Ok u => Some u | Err _ => None end
    | None => None
    end in
  _ ← if starts_with "202020" device_eui && py_truthy (w_payload parsed_data)
      then in_world (verify_kuando now device_eui (fresh_request ids) (w_payload parsed_data))
      else mret tt;
  _ ← discover now ids device_eui device_name profile_name parsed_data;
  process_parsed now t_end others ids device_eui space parsed_data uplink.

Definition error_result (device_eui request_id : string) : ProcessingResult :=
  mkResult "error" device_eui None None request_id.

(** Any exception, an HTTPException too, becomes the answer with status [error]. *)
Definition process_uplink (now t_end : Z) (others : store → store) (ids : FreshIds) (secret_rows : secrets)
    (signature_header : option string) (body : string) (webhook_data : json) (s : UpState)
    : ProcessingResult * UpState :=
  match extract_device webhook_data with
  | Err _ => (error_result "unknown" (fresh_request ids), s)
  | Ok (device_eui, device_name, profile_name) =>
      match process_device now t_end others ids secret_rows signature_header body webhook_data
              device_eui device_name profile_name s with
      | (Ok r, s') => (r, s')
      | (Err _, s') => (error_result device_eui (fresh_request ids), s')
      end
  end.

(** ** Properties *)

(** The tables the endpoint leaves alone until the uplink is parsed *)
Definition untouched (s s' : UpState) : Prop :=
  spaces (up_db s') = spaces (up_db s) ∧ state_changes (up_db s') = state_changes (up_db s) ∧
  reservations (up_db s') = reservations (up_db s) ∧ sensor_readings (up_db s') = sensor_readings (up_db s) ∧
  display_devices (up_db s') = display_devices (up_db s).

#[local] Instance untouched_preorder : PreOrder untouched.
Proof. split; unfold untouched; [done|]. intros x y z (?&?&?&?&?) (?&?&?&?&?). split_and!; congruence. Qed.

Lemma keeps_query {A} c (f : Db → A) : keeps untouched (query c f).
Proof. apply keeps_may_fail; [apply _|]. intros s. done. Qed.

Lemma keeps_statement {A} c (f : Db → A * Db) :
  (∀ d, let d' := (f d).2 in
        spaces d' = spaces d ∧ state_changes d' = state_changes d ∧ reservations d' = reservations d ∧
        sensor_readings d' = sensor_readings d ∧ display_devices d' = display_devices d) →
  keeps untouched (statement c f).
Proof.
  intros Hf. apply keeps_may_fail; [apply _|]. intros s. specialize (Hf (up_db s)).
  destruct (f (up_db s)) as [a d]. exact Hf.
Qed.

(** Redis is not the database. *)
Lemma keeps_redis {A} (c : stE World exn A) : (∀ w, db (c w).2 = db w) → keeps untouched (in_world c).
Proof.
  intros Hc s. specialize (Hc (up_world s)). unfold in_world, untouched, up_db.
  destruct (c (up_world s)) as [r w]. cbn in *. by rewrite Hc.
Qed.

Lemma verify_kuando_db now device_eui request_id payload w :
  db (verify_kuando now device_eui request_id payload w).2 = db w.
Proof.
  enough (keeps (λ w w', db w' = db w) (verify_kuando now device_eui request_id payload)) as H by exact (H w).
  assert (PreOrder (λ w w' : World, db w' = db w)) by (split; [done|]; intros x y z; congruence).
  unfold verify_kuando, verify_kuando_body. apply keeps_try; [apply _| |auto with keeps].
  apply keeps_bind; [apply _|auto with keeps|]. intros bs. destruct (_ <? _)%nat; [auto with keeps|].
  apply keeps_bind; [apply _|by auto with keeps|]. intros _.
  apply keeps_bind; [apply _|by apply keeps_may_fail|]. intros pending. destruct (negb _); [auto with keeps|].
  apply keeps_bind; [apply _|auto with keeps|]. intros []; [|auto with keeps].
  apply keeps_may_fail; [apply _|by apply keeps_modify].
Qed.

Lemma keeps_select device_record profile_name : keeps untouched (select_handler device_record profile_name).
Proof.
  apply keeps_bind; [apply _|auto with keeps|]. intros s. cbv beta zeta. match goal with |- keeps _ (match ?x with _ => _ end) => destruct x end.
  - auto with keeps.
  - unfold lookup_profile. destruct profile_name as [| | | |p|[]|[]]; auto with keeps.
    intros s'. by destruct (get_handler p (up_registry s')).
Qed.

Lemma keeps_discover now ids device_eui device_name profile_name parsed_data :
  keeps untouched (discover now ids device_eui device_name profile_name parsed_data).
Proof.
  unfold discover. repeat (apply keeps_bind; [apply _| |intros ?]); auto with keeps; apply keeps_statement; intros d.
  - unfold get_or_create_device_type_by_profile. by destruct (fetchrow _ _).
  - unfold get_or_create_sensor_device. by destruct (fetchrow _ _).
Qed.
#[local] Hint Resolve keeps_query keeps_select keeps_discover : keeps.

(** The endpoint up to the parsed uplink changes none of these tables. *)
Lemma process_device_cases now t_end others ids secret_rows sig body webhook_data device_eui device_name profile_name s :
  wp (process_device now t_end others ids secret_rows sig body webhook_data device_eui device_name profile_name)
    (λ r s', ∃ s1, untouched s s1 ∧
       ((∃ e, r = Err e ∧ s' = s1) ∨
        ∃ parsed uplink,
          wp (process_parsed now t_end others ids device_eui (get_space_by_sensor device_eui (up_db s)) parsed uplink)
             (λ r2 s2, r = r2 ∧ s' = s2) s1)) s.
Proof.
  unfold process_device.
  apply (wp_bind_keeps untouched); [auto with keeps|intros e s1 H1; exists s1; eauto|intros rec s1 _ H1].
  apply (wp_bind_keeps untouched); [auto with keeps|intros e s2 H2; exists s2; split; [by etrans|eauto]|].
  intros space s2 Hs H2.
  assert (space = get_space_by_sensor device_eui (up_db s)) as ->.
  { unfold query, may_fail in Hs. destruct (fault USpace); [done|]. injection Hs as <- _.
    unfold get_space_by_sensor. by rewrite (proj1 H1). }
  clear Hs. assert (untouched s s2) as Hu by by etrans. clear H1 H2.
  repeat (apply (wp_bind_keeps untouched);
    [first [auto with keeps; fail|destruct (_ && _); [apply keeps_redis; intros w; apply verify_kuando_db|auto with keeps]]
    |let e := fresh in let s3 := fresh in let H3 := fresh in
     intros e s3 H3; exists s3; split; [by etrans|eauto]
    |let a := fresh "a" in let s3 := fresh "s" in let H3 := fresh in
     intros a s3 _ H3; assert (untouched s s3) by (by etrans); clear H3]).
  unfold wp. exists s6. split; [done|]. right. eauto.
Qed.

(** What an uplink may do to the tables of the spaces and the readings *)
Definition one_more (device_eui : string) (space_id : option string) (l l' : list SensorReading) : Prop :=
  l' = l ∨ ∃ r, l' = (l ++ [r])%list ∧ rd_device_eui r = str_upper device_eui ∧ rd_space_id r = space_id ∧
                existsb (same_frame r) l = false.

Definition uplink_effect (now : Z) (device_eui : string) (d d' : Db) : Prop :=
  reservations d' = reservations d ∧ display_devices d' = display_devices d ∧
  match get_space_by_sensor device_eui d with
  | None => spaces d' = spaces d ∧ state_changes d' = state_changes d ∧
            one_more device_eui None (sensor_readings d) (sensor_readings d')
  | Some sp => (∃ o, moved now (sp_id sp) o "sensor_uplink" d d') ∧
               one_more device_eui (Some (sp_id sp)) (sensor_readings d) (sensor_readings d')
  end.

Lemma uplink_effect_untouched now device_eui s s' : untouched s s' → uplink_effect now device_eui (up_db s) (up_db s').
Proof.
  intros (Hs & Hc & Hr & Hrd & Hd). unfold uplink_effect, moved. split_and!; [done..|].
  destruct (get_space_by_sensor _ _) as [sp|]; split_and!; try done; try by left.
  exists FREE. by left.
Qed.

(** Both relations only look at tables an untouched state shares. *)
Lemma uplink_effect_from now device_eui s s1 s2 :
  untouched s s1 → uplink_effect now device_eui (up_db s1) (up_db s2) → uplink_effect now device_eui (up_db s) (up_db s2).
Proof.
  intros (Hs & Hc & Hr & Hrd & Hd). unfold uplink_effect, moved, get_space_by_sensor, get_space. by rewrite Hs, Hc, Hr, Hrd, Hd.
Qed.

Lemma same_frame_no_fcnt r l : rd_fcnt r = None → existsb (same_frame r) l = false.
Proof. intros H. induction l as [|x l IH]; [done|]. cbn. rewrite IH. unfold same_frame. by rewrite H. Qed.

Lemma process_orphan_effect now ids device_eui parsed uplink s :
  get_space_by_sensor device_eui (up_db s) = None →
  uplink_effect now device_eui (up_db s) (up_db (process_orphan now ids device_eui parsed uplink s).2).
Proof.
  intros Hs. unfold process_orphan.
  change (wp (process_orphan now ids device_eui parsed uplink) (λ _ s', uplink_effect now device_eui (up_db s) (up_db s')) s).
  unfold process_orphan.
  apply wp_bind, wp_lift. destruct (payload_bytes _); [|by apply uplink_effect_untouched].
  apply wp_bind, wp_modify. set (s1 := mkUp _ _ _).
  apply wp_bind. destruct uplink as [u|]; [|apply wp_ret, wp_ret; by apply uplink_effect_untouched].
  apply wp_may_fail; [intros; by apply uplink_effect_untouched|]. intros _. unfold wp. cbn.
  unfold uplink_effect. change (up_db s1) with (up_db s) in *. rewrite Hs. cbn. split_and!; try done. right.
  eexists. split_and!; [reflexivity|done|done|]. by apply same_frame_no_fcnt.
Qed.

Lemma process_reading_effect now t_end others ids device_eui sp parsed u o s :
  get_space_by_sensor device_eui (up_db s) = Some sp →
  uplink_effect now device_eui (up_db s) (up_db (process_reading now t_end others ids device_eui sp parsed u o s).2).
Proof.
  intros Hs.
  change (wp (process_reading now t_end others ids device_eui sp parsed u o)
            (λ _ s', uplink_effect now device_eui (up_db s) (up_db s')) s).
  unfold process_reading. apply wp_bind. unfold wp at 1, in_world.
  destruct (StateManager.update_space_state _ _ _ _ _ _ _ _ _ _ _ _) as [r w] eqn:E. cbn [fst snd].
  assert (moved now (sp_id sp) o "sensor_uplink" (up_db s) (db w) ∧ same_tables (up_db s) (db w)) as [Hm Ht].
  { pose proof (update_space_state_tables sha256_hexdigest cfg faults now t_end others (fresh_command ids) (sp_id sp) o
      "sensor_uplink" (fresh_request ids) (up_world s)) as Ht. rewrite E in Ht. split; [|exact Ht].
    destruct (acquire_lock_db now t_end _ others _ _ _ _ E) as [(w1 & w2 & E1 & E2 & ->)|[Hd _]].
    - unfold up_db. rewrite <- E1. by eapply update_body_sound.
    - left. unfold up_db. by rewrite Hd. }
  assert (uplink_effect now device_eui (up_db s) (db w)) as Hbase.
  { destruct Ht as (?&?&Hrd&?&?). unfold uplink_effect. rewrite Hs. split_and!; try done; [by exists o|]. by left. }
  destruct r as [res|e]; [|exact Hbase].
  apply wp_bind, wp_lift. destruct (numeric _ _) as [fcnt|]; [|exact Hbase].
  apply wp_bind, wp_may_fail; [intros; exact Hbase|]. intros _. unfold wp. cbn [fst snd].
  unfold on_world, on_db, up_db at 2. cbn [up_world db fst snd]. unfold insert_sensor_reading. set (row := sync_tenant _ _).
  destruct (existsb (same_frame row) _) eqn:Ex; [exact Hbase|].
  destruct Ht as (?&?&Hrd&?&?). unfold uplink_effect. rewrite Hs. split_and!; try done; [exists o; exact Hm|].
  right. exists row. rewrite <- Hrd. split_and!; [reflexivity..|exact Ex].
Qed.

(** C8. What a webhook can change.  Whatever JSON arrives, with or without a signature, and
    whichever calls fail: the answer carries one of four statuses; reservations and
    displays stay as they are; the only space that can move is the one the sensor is
    assigned to, along an allowed transition; and at most one reading is added, of this
    device and with a frame number that is not stored yet. *)
Theorem uplink_changes_one_space now t_end others ids secret_rows sig body webhook_data s r s' :
  process_uplink now t_end others ids secret_rows sig body webhook_data s = (r, s') →
  pr_status r ∈ ["success"; "no_occupancy_data"; "orphan_device"; "error"] ∧
  match extract_device webhook_data with
  | Err _ => s' = s
  | Ok (device_eui, _, _) => uplink_effect now device_eui (up_db s) (up_db s')
  end.
Proof.
  unfold process_uplink. destruct (extract_device webhook_data) as [[[eui name] profile]|e].
  2: { intros [= <- <-]. split; [|done]. cbn. set_solver. }
  destruct (process_device _ _ _ _ _ _ _ _ _ _ _ s) as [r1 s1] eqn:E.
  pose proof (process_device_cases now t_end others ids secret_rows sig body webhook_data eui name profile s) as H.
  unfold wp in H. rewrite E in H. cbn [fst snd] in H. destruct H as (s2 & Hu & H).
  assert ((∃ e, r1 = Err e) ∨ (∃ res, r1 = Ok res ∧ pr_status res ∈ ["success"; "no_occupancy_data"; "orphan_device"; "error"])) as Hst.
  { destruct H as [(e & -> & _)|(parsed & uplink & -> & _)]; [eauto|].
    unfold process_parsed, process_orphan, process_reading, mbind, stE_bind, lift, in_world, mret, stE_ret.
    repeat case_match; simplify_eq; eauto; right; eexists; (split; [reflexivity|]); cbn; set_solver. }
  assert (uplink_effect now eui (up_db s) (up_db s1)) as Heff.
  { destruct H as [(e & _ & ->)|(parsed & uplink & _ & ->)]; [by apply uplink_effect_untouched|].
    eapply uplink_effect_from; [exact Hu|]. unfold process_parsed.
    destruct (get_space_by_sensor eui (up_db s)) as [sp|] eqn:Es.
    - assert (get_space_by_sensor eui (up_db s2) = Some sp) as Es2.
      { rewrite <- Es. unfold get_space_by_sensor. by rewrite (proj1 Hu). }
      destruct (uplink ≫= up_occupancy_state) as [o|]; [|by apply uplink_effect_untouched].
      destruct uplink as [u|]; [|by apply uplink_effect_untouched]. by apply process_reading_effect.
    - apply process_orphan_effect. rewrite <- Es. unfold get_space_by_sensor. by rewrite (proj1 Hu). }
  destruct Hst as [[e ->]|(res & -> & Hst)]; intros [= <- <-]; (split; [|exact Heff]); [cbn; set_solver|exact Hst].
Qed.

(** A webhook whose signature does not match has no effect.  If the sensor's space has a
    tenant with an active secret and the signature header is not the HMAC of the body,
    nothing is changed, whichever calls fail; the caller is told [error] in an ordinary
    answer, as the 401 of the check is caught like any exception. *)
Theorem forged_uplink_has_no_effect now t_end others ids secret_rows h body webhook_data s
    device_eui device_name profile_name sp tenant_id row :
  extract_device webhook_data = Ok (device_eui, device_name, profile_name) →
  get_space_by_sensor device_eui (up_db s) = Some sp → sp_tenant_id sp = Some tenant_id →
  secret_row tenant_id secret_rows = Some row →
  non_empty h = true → h ≠ hmac_sha256 (ws_secret_hash row) body →
  process_uplink now t_end others ids secret_rows (Some h) body webhook_data s =
    (error_result device_eui (fresh_request ids), s).
Proof.
  intros He Hs Ht Hrow Hh Hne. unfold process_uplink. rewrite He. unfold process_device, query.
  unfold mbind at 1, stE_bind, may_fail. destruct (fault UDevice); [done|]. cbn [fst snd].
  unfold mbind at 1, stE_bind. destruct (fault USpace); [done|]. rewrite Hs.
  unfold mbind at 1, stE_bind, lift. cbn [option_bind mbind]. rewrite Ht.
  assert (∃ e, verify_webhook_signature hmac_sha256 (Some h) (Some tenant_id) body (fault USecret) secret_rows = Err e) as [e ->]; [|done].
  unfold verify_webhook_signature. assert (truthy (Some h) = true) as -> by by destruct h. cbn [negb].
  destruct (fault USecret) as [e|]; [destruct e; eexists; reflexivity|]. rewrite Hrow.
  unfold compare_digest. destruct (_ && _); [|eexists; reflexivity]. unfold mbind, result_bind.
  cbn [or_else]. destruct (String.eqb_spec h (hmac_sha256 (ws_secret_hash row) body)); [done|]. eexists; reflexivity.
Qed.

(** The row of a reading, with the tenant the trigger fills in *)
Definition reading_row (device_eui : string) (sp : Space) (u : SensorUplink) (o : SpaceState) (fcnt : option Z) (d : Db)
    : SensorReading :=
  sync_tenant d (mkReading (str_upper device_eui) (Some (sp_id sp)) (Some (state_value o)) (up_battery u) (up_rssi u)
                   (up_snr u) (up_timestamp u) fcnt (sp_tenant_id sp)).

(** It does not depend on the state the space is in. *)
Lemma reading_row_after now device_eui sp u o fcnt d d' :
  spaces d' = spaces_after now sp o d → reading_row device_eui sp u o fcnt d' = reading_row device_eui sp u o fcnt d.
Proof.
  intros H. unfold reading_row, sync_tenant. cbn [rd_space_id]. rewrite H. unfold spaces_after.
  destruct (decide _); [done|]. rewrite fetchrow_update by done. by destruct (fetchrow _ (spaces d)).
Qed.

(** The result of a reading when no call fails: the state change does not depend on the
    readings already stored, the reading does. *)
Definition reading_applied (now : Z) (ids : FreshIds) (device_eui : string) (sp : Space) (u : SensorUplink) (o : SpaceState)
    (fcnt : option Z) (d d' : Db) : Prop :=
  let row := reading_row device_eui sp u o fcnt d in
  spaces d' = spaces_after now sp o d ∧
  state_changes d' = changes_after now sp o "sensor_uplink" (fresh_request ids) d ∧
  sensor_readings d' = if existsb (same_frame row) (sensor_readings d) then sensor_readings d
                       else (sensor_readings d ++ [row])%list.

(** The world after the call of the state manager *)
Definition state_updated (now t_end : Z) (others : store → store) (ids : FreshIds) (sp : Space) (o : SpaceState) (w : World)
    : World :=
  (update_space_state sha256_hexdigest cfg faults now t_end others (fresh_command ids) (sp_id sp) o "sensor_uplink"
     (fresh_request ids) w).2.

Lemma process_reading_ok now t_end others ids device_eui sp parsed u o fcnt s :
  (∀ c, faults c = None) → (∀ c, fault c = None) →
  (try_lock now ("space:" +:+ sp_id sp) others (redis (up_world s))).1 = true →
  get_space (sp_id sp) (up_db s) = Some sp →
  sp_state sp = o ∨ is_valid_transition (sp_state sp) o "sensor_uplink" = true →
  numeric as_integer (w_fcnt parsed) = Ok fcnt →
  wp (process_reading now t_end others ids device_eui sp parsed u o)
    (λ r s', r = Ok (mkResult "success" device_eui (Some (sp_code sp)) (Some (state_value o)) (fresh_request ids)) ∧
             reading_applied now ids device_eui sp u o fcnt (up_db s) (up_db s') ∧
             redis (up_world s') = redis (state_updated now t_end others ids sp o (up_world s))) s.
Proof.
  intros Hf Hu Hl Hs Hv Hn. unfold process_reading. apply wp_bind. unfold wp at 1, in_world.
  destruct (update_space_state_ok sha256_hexdigest cfg faults now t_end others (fresh_command ids) sp o "sensor_uplink"
              (fresh_request ids) (up_world s) Hf Hl Hs Hv) as (shown & w & E & H1 & H2).
  pose proof (update_space_state_tables sha256_hexdigest cfg faults now t_end others (fresh_command ids) (sp_id sp) o
      "sensor_uplink" (fresh_request ids) (up_world s)) as (_ & _ & Ht & _).
  rewrite E in *. cbn [fst snd] in *. apply wp_bind, wp_lift. rewrite Hn.
  apply wp_bind. unfold statement. rewrite Hu. unfold wp at 1, may_fail. cbn [fst snd].
  apply wp_ret. split; [done|]. split; [|unfold state_updated; by rewrite E].
  unfold reading_applied, up_db. cbn [up_world on_world on_db db].
  unfold insert_sensor_reading. set (row := sync_tenant _ _).
  assert (row = reading_row device_eui sp u o fcnt (up_db s)) as ->.
  { exact (reading_row_after now device_eui sp u o fcnt (db (up_world s)) (db w) H1). }
  change (db (up_world s)) with (up_db s) in *. unfold on_world, up_db at 1. cbn [up_world up_orphans up_registry] in *.
  rewrite !Ht. destruct (existsb _ _); cbn; rewrite ?Ht; done.
Qed.

Section Accepted.
Context (now t_end : Z) (others : store → store) (ids : FreshIds) (secret_rows : secrets).
Context (sig : option string) (body : string) (webhook_data : json) (s : UpState).
Context (device_eui name profile : string) (sp : Space) (h : BaseDeviceHandler) (u : SensorUplink) (o : SpaceState).
Context (parsed : ParsedWebhook) (fcnt : option Z).

(** A sensor's webhook that is well formed and authentic, from a device with a space and a
    handler, while every server answers, the space's lock is free and the transition to the
    decoded state is one the sensor may make. *)
Record good_uplink : Prop := {
  good_servers c : fault c = None;
  good_manager c : faults c = None;
  good_device : extract_device webhook_data = Ok (device_eui, JText name, JText profile);
  good_sensor : starts_with "202020" device_eui = false;
  good_space : get_space_by_sensor device_eui (up_db s) = Some sp ∧ get_space (sp_id sp) (up_db s) = Some sp;
  good_signature : verify_webhook_signature hmac_sha256 sig (sp_tenant_id sp) body None secret_rows = Ok true;
  good_handler : (select_handler (get_sensor_device_by_deveui device_eui (up_db s)) (JText profile) s).1 = Ok (Some h);
  good_payload : parse_uplink h webhook_data = Ok u ∧ up_occupancy_state u = Some o;
  good_fields : parse_chirpstack_webhook webhook_data = Ok parsed ∧ numeric as_integer (w_fcnt parsed) = Ok fcnt;
  good_lock : (try_lock now ("space:" +:+ sp_id sp) others (redis (up_world s))).1 = true;
  good_transition : sp_state sp = o ∨ is_valid_transition (sp_state sp) o "sensor_uplink" = true;
}.

Lemma good_run : good_uplink →
  let '(r, s') := process_uplink now t_end others ids secret_rows sig body webhook_data s in
  r = mkResult "success" device_eui (Some (sp_code sp)) (Some (state_value o)) (fresh_request ids) ∧
  reading_applied now ids device_eui sp u o fcnt (up_db s) (up_db s') ∧
  ∃ d, spaces d = spaces (up_db s) ∧ display_devices d = display_devices (up_db s) ∧
    redis (up_world s') = redis (state_updated now t_end others ids sp o (on_db (λ _, d) (up_world s))).
Proof.
  intros [Hf Hm He Hk [Hs Hg] Hsig Hh [Hu Ho] [Hp Hn] Hl Hv].
  assert (wp (process_device now t_end others ids secret_rows sig body webhook_data device_eui (JText name) (JText profile))
    (λ r s', r = Ok (mkResult "success" device_eui (Some (sp_code sp)) (Some (state_value o)) (fresh_request ids)) ∧
             reading_applied now ids device_eui sp u o fcnt (up_db s) (up_db s') ∧
             ∃ d, spaces d = spaces (up_db s) ∧ display_devices d = display_devices (up_db s) ∧
               redis (up_world s') = redis (state_updated now t_end others ids sp o (on_db (λ _, d) (up_world s)))) s) as H.
  2: { unfold process_uplink. rewrite He. unfold wp in H.
       destruct (process_device _ _ _ _ _ _ _ _ _ _ _ s) as [r s']. cbn [fst snd] in H. destruct H as [-> H]. done. }
  unfold process_device, query. rewrite !Hf. apply wp_bind. unfold wp at 1, may_fail. cbn [fst snd].
  apply wp_bind. unfold wp at 1. cbn [fst snd]. rewrite Hs. apply wp_bind, wp_lift. cbn [option_bind mbind]. rewrite Hsig.
  apply wp_bind. unfold wp at 1.
  assert (∃ g, (select_handler (get_sensor_device_by_deveui device_eui (up_db s)) (JText profile) s) =
               (Ok (Some h), mkUp (up_world s) (up_orphans s) g)) as [g ->].
  { revert Hh. unfold select_handler, get_st, mbind, stE_bind. cbn [fst snd].
    match goal with |- context [match ?x with Some _ => _ | None => _ end] => destruct x end.
    - cbn. intros [= ->]. destruct s as [w os g0]. by exists g0.
    - unfold lookup_profile. destruct (get_handler profile (up_registry s)) as [h' g]. cbn. intros [= ->]. by exists g. }
  cbn [fst snd]. apply wp_bind, wp_lift. rewrite Hp, Hk, Hu. cbn [andb]. apply wp_bind, wp_ret.
  apply wp_bind. unfold discover. apply wp_bind, wp_lift. cbn [profile_text]. apply wp_bind. unfold statement at 1. rewrite Hf.
  unfold wp at 1, may_fail. cbn [fst snd].
  set (s1 := mkUp (up_world s) (up_orphans s) g). change (up_db s1) with (up_db s).
  destruct (get_or_create_device_type_by_profile _ _ _ _ _) as [dt d1] eqn:E1. cbn [fst snd].
  apply wp_bind, wp_lift. cbn [name_argument]. apply wp_bind. unfold statement. rewrite Hf. unfold wp at 1, may_fail. cbn [fst snd].
  destruct (get_or_create_sensor_device _ _ _ _ _ _ _) as [dev d2] eqn:E2. cbn [fst snd]. apply wp_ret.
  set (s2 := on_world _ (on_world _ s1)). cbn [process_parsed option_bind mbind]. rewrite Ho.
  assert (untouched s s2) as Hun.
  { revert E1 E2. unfold get_or_create_device_type_by_profile, get_or_create_sensor_device.
    change (up_db (on_world _ _)) with d1. intros E1 E2.
    assert (spaces d1 = spaces (up_db s) ∧ state_changes d1 = state_changes (up_db s) ∧ reservations d1 = reservations (up_db s) ∧
            sensor_readings d1 = sensor_readings (up_db s) ∧ display_devices d1 = display_devices (up_db s)) as (?&?&?&?&?).
    { destruct (fetchrow _ (device_types (up_db s))); injection E1 as <- <-; done. }
    unfold untouched. change (up_db s2) with d2.
    destruct (fetchrow _ (sensor_devices d1)); injection E2 as <- <-; done. }
  destruct Hun as (Us & Uc & Ur & Urd & Ud).
  assert (get_space (sp_id sp) (up_db s2) = Some sp) as Hg2 by (rewrite <- Hg; unfold get_space; by rewrite Us).
  eapply wp_mono; [by apply (process_reading_ok now t_end others ids device_eui sp parsed u o fcnt s2)|].
  intros r s' (-> & Ha & Hw). split; [done|]. split; [|exists d2; split_and!; [done..|exact Hw]].
  revert Ha. unfold reading_applied, spaces_after, changes_after, reading_row, sync_tenant.
  cbn [rd_space_id]. by rewrite Us, Uc, Urd.
Qed.
End Accepted.

(** C21. A good uplink sets the state of its space.  Take a webhook whose device, fields and
    frame number are well formed, whose signature verifies, and which comes from a sensor
    (not a display) of a live space, with a handler that parses it and decodes an occupancy;
    let every server answer, the space's lock be free, and the space be in the decoded state
    already or in one from which a sensor's uplink may move it there (so not under
    maintenance).  It is answered with [success]; afterwards the space is in the state its
    handler decoded, and a reading with that frame is stored. *)
Theorem uplink_sets_state now t_end others ids secret_rows sig body webhook_data s
    device_eui name profile sp h u o parsed fcnt r s' :
  good_uplink now others secret_rows sig body webhook_data s device_eui name profile sp h u o parsed fcnt →
  process_uplink now t_end others ids secret_rows sig body webhook_data s = (r, s') →
  pr_status r = "success" ∧ pr_state r = Some (state_value o) ∧
  (∃ sp', get_space (sp_id sp) (up_db s') = Some sp' ∧ sp_state sp' = o) ∧
  ∃ row, row ∈ sensor_readings (up_db s') ∧
    (row = reading_row device_eui sp u o fcnt (up_db s) ∨ same_frame (reading_row device_eui sp u o fcnt (up_db s)) row = true).
Proof.
  intros Hgood E. pose proof (good_run _ t_end _ ids _ _ _ _ _ _ _ _ _ _ _ _ _ _ Hgood) as H. rewrite E in H.
  destruct H as (-> & (Hsp & _ & Hrd) & _). destruct (good_space _ _ _ _ _ _ _ _ _ _ _ _ _ _ _ _ Hgood) as [_ Hg].
  split_and!; [done|done| |].
  - unfold get_space in *. rewrite Hsp. unfold spaces_after. destruct (decide _) as [Heq|]; [eauto|].
    rewrite fetchrow_update; [rewrite Hg; eexists; split; [reflexivity|done]| |].
    + intros x. done.
    + intros x [? _]%andb_true_iff. done.
  - rewrite Hrd. destruct (existsb _ _) eqn:Ex.
    + apply existsb_exists in Ex as (row & Hin & Hsame). exists row. split; [by apply list_elem_of_In|by right].
    + eexists. split; [apply elem_of_app; right; by left|by left].
Qed.

(** A replayed frame changes the state again.  The unique key on tenant, device and frame
    number guards the readings only: when a frame that is already stored is delivered once
    more after the space has moved on, the readings stay as they are, but the space goes
    back to the state of the old frame and the audit log gets another row. *)
Theorem replayed_uplink_moves_state now t_end others ids secret_rows sig body webhook_data s
    device_eui name profile sp h u o parsed fcnt r s' :
  good_uplink now others secret_rows sig body webhook_data s device_eui name profile sp h u o parsed fcnt →
  existsb (same_frame (reading_row device_eui sp u o fcnt (up_db s))) (sensor_readings (up_db s)) = true →
  sp_state sp ≠ o →
  process_uplink now t_end others ids secret_rows sig body webhook_data s = (r, s') →
  pr_status r = "success" ∧ sensor_readings (up_db s') = sensor_readings (up_db s) ∧
  spaces (up_db s') = sql_update (is_space (sp_id sp)) (set_space_state now o) (spaces (up_db s)) ∧
  length (state_changes (up_db s')) = S (length (state_changes (up_db s))).
Proof.
  intros Hgood Hdup Hne E. pose proof (good_run _ t_end _ ids _ _ _ _ _ _ _ _ _ _ _ _ _ _ Hgood) as H. rewrite E in H.
  destruct H as (-> & (Hsp & Hch & Hrd) & _). rewrite Hdup in Hrd. unfold spaces_after, changes_after in *.
  destruct (decide (sp_state sp = o)); [done|]. split_and!; [done..|]. rewrite Hch, length_app. cbn. lia.
Qed.
End Endpoint.

(** ** Witnesses *)

Section Demo.
#[local] Existing Instance plain_pydantic.
#[local] Existing Instance plain_numeric.
#[local] Existing Instance gmap_redis.

Definition demo_bay (st : SpaceState) : Space :=
  mkSpace "s1" "Bay 1" "A1" None None None (Some "E8E1E1000103C3F8") None st (Some "site") (Some "t1") None None None 0 0 None.

Definition demo_up (st : SpaceState) (readings : list SensorReading) : UpState :=
  mkUp (mkWorld (∅ : store) (mkDb [demo_bay st] [] [] [] [] readings [] []) []) [] (auto_register empty_registry).

Definition demo_ids : FreshIds := mkFresh "req" "dt1" "dev1" "o1" "c1".

(** Frame 12 of the sensor, as it is stored *)
Definition demo_frame : SensorReading :=
  mkReading "E8E1E1000103C3F8" (Some "s1") (Some "OCCUPIED") (Some (36 # 100)) (Some (-80)) (Some (7 # 1)) 1000 (Some 12) (Some "t1").

Definition demo_reading : SensorUplink :=
  mkUplink "e8e1e1000103c3f8" 1000 (Some OCCUPIED) (Some (36 # 100)) None (Some (-80)) (Some (7 # 1))
    (Some "7076FF006404010B") (Some "ASQ=").

Definition demo_webhook : ParsedWebhook :=
  mkWebhook "e8e1e1000103c3f8" (Some (JText "bay 1")) None None None None (Some (JInt 12)) (JText "ASQ=")
    (Some (JInt (-80))) (Some (JInt 7)) "7076ff006404010b" (Some (JInt 1000)).

Definition demo_process (s : UpState) : ProcessingResult * UpState :=
  process_uplink plain_hmac (λ x, x) demo_config (λ _, None) (λ _, None) 5 (5 + sec) (λ r, r) demo_ids
    [mkSecret "t1" "key" true 0] (Some "key|{}") "{}" sample_uplink s.

Lemma demo_good st readings : is_valid_transition st OCCUPIED "sensor_uplink" = true →
  good_uplink plain_hmac (λ _, None) (λ _, None) 5 (λ r, r) [mkSecret "t1" "key" true 0] (Some "key|{}") "{}"
    sample_uplink (demo_up st readings) "E8E1E1000103C3F8" "bay 1" "browan_tbms100_motion" (demo_bay st)
    BrowanTabsHandler demo_reading OCCUPIED demo_webhook (Some 12).
Proof. intros Hv. split; try reflexivity; try (split; reflexivity). by right. Qed.

Lemma uplink_sets_state_witness :
  pr_status (demo_process (demo_up FREE [])).1 = "success" ∧ pr_state (demo_process (demo_up FREE [])).1 = Some "OCCUPIED".
Proof.
  destruct (uplink_sets_state plain_hmac (λ x, x) demo_config (λ _, None) (λ _, None) 5 (5 + sec) (λ r, r) demo_ids
    [mkSecret "t1" "key" true 0] (Some "key|{}") "{}" sample_uplink (demo_up FREE []) _ _ _ _ _ _ _ _ _
    (demo_process (demo_up FREE [])).1 (demo_process (demo_up FREE [])).2 (demo_good FREE [] eq_refl)
    (surjective_pairing _)) as (H1 & H2 & _).
  split; [exact H1|exact H2].
Defined.

(** The frame was stored, the space has become free since, and the frame comes again. *)
Lemma replayed_uplink_moves_state_witness :
  let s' := (demo_process (demo_up FREE [demo_frame])).2 in
  sensor_readings (up_db s') = [demo_frame] ∧ map sp_state (spaces (up_db s')) = [OCCUPIED].
Proof.
  destruct (replayed_uplink_moves_state plain_hmac (λ x, x) demo_config (λ _, None) (λ _, None) 5 (5 + sec) (λ r, r) demo_ids
    [mkSecret "t1" "key" true 0] (Some "key|{}") "{}" sample_uplink (demo_up FREE [demo_frame]) _ _ _ _ _ _ _ _ _
    (demo_process (demo_up FREE [demo_frame])).1 (demo_process (demo_up FREE [demo_frame])).2
    (demo_good FREE [demo_frame] eq_refl) eq_refl ltac:(discriminate) (surjective_pairing _)) as (_ & H2 & H3 & _).
  intros s'. split; [exact H2|]. unfold s'. rewrite H3. reflexivity.
Defined.

Lemma forged_uplink_has_no_effect_witness :
  process_uplink plain_hmac (λ x, x) demo_config (λ _, None) (λ _, None) 5 (5 + sec) (λ r, r) demo_ids
    [mkSecret "t1" "key" true 0] (Some "forged") "{}" sample_uplink (demo_up FREE []) =
  (error_result "E8E1E1000103C3F8" "req", demo_up FREE []).
Proof.
  apply (forged_uplink_has_no_effect plain_hmac (λ x, x) demo_config (λ _, None) (λ _, None) 5 (5 + sec) (λ r, r) demo_ids
    [mkSecret "t1" "key" true 0] "forged" "{}" sample_uplink (demo_up FREE []) "E8E1E1000103C3F8"
    (JText "bay 1") (JText "browan_tbms100_motion") (demo_bay FREE) "t1" (mkSecret "t1" "key" true 0));
    try reflexivity; discriminate.
Defined.

Lemma uplink_changes_one_space_witness :
  uplink_effect 5 "E8E1E1000103C3F8" (up_db (demo_up FREE [])) (up_db (demo_process (demo_up FREE [])).2).
Proof.
  exact (proj2 (uplink_changes_one_space plain_hmac (λ x, x) demo_config (λ _, None) (λ _, None) 5 (5 + sec) (λ r, r) demo_ids
    [mkSecret "t1" "key" true 0] (Some "key|{}") "{}" sample_uplink (demo_up FREE []) _ _
    (surjective_pairing (demo_process (demo_up FREE []))))).
Defined.
End Demo.
