(* ===== verification/Gateways.v ===== *)
(** * Gateways: the gateways of the network server

    Models src/src/gateway_monitor.py and src/src/routers/gateways.py on the table
    [gateway] of the network server's database (a list of rows).  A fetch raises what
    [fault] says.  How the driver decodes a JSONB column is the parameter [decode_jsonb]
    (asyncpg gives the text unless a codec is set, and none is).  Columns that are only
    copied into the answer are left out. *)

From S2P Require Import Prelude PyUtils Json Models Database.

Open Scope Z_scope.

Record GatewayRow := mkGateway {
  gw_gateway_id : string; gw_name : string; gw_description : string; gw_last_seen_at : option Z;
  gw_tags : list (string * json); gw_updated_at : Z;
}.

(** ** The monitor *)

Definition offline_threshold : Z := 5 * 60 * sec.
Definition _cache_ttl : Z := 30 * sec.

Record GatewayInfo := mkInfo {
  gi_gateway_id : string; gi_name : string; gi_last_seen_at : option Z;
  gi_is_online : bool; gi_minutes_offline : option Z;
}.

Record GatewayMonitor := mkMonitor {
  gm_connected : bool; _gateway_cache : list (string * GatewayInfo); _cache_updated : option Z;
}.

Definition gateway_info (now : Z) (row : GatewayRow) : GatewayInfo :=
  let since := (λ t, now - t) <$> gw_last_seen_at row in
  let is_online := match since with Some d => d <? offline_threshold | None => false end in
  mkInfo (gw_gateway_id row) (gw_name row) (gw_last_seen_at row) is_online
    (match since with Some d => if is_online then None else Some (d / (60 * sec)) | None => None end).

(** ORDER BY last_seen_at DESC NULLS LAST *)
Definition seen_later (a b : GatewayRow) : Prop :=
  match gw_last_seen_at a, gw_last_seen_at b with
  | Some x, Some y => y ≤ x
  | None, Some _ => False
  | _, None => True
  end.
#[export] Instance seen_later_dec : RelDecision seen_later.
Proof. intros a b. unfold seen_later. destruct (gw_last_seen_at a), (gw_last_seen_at b); apply _. Defined.

Definition cache_fresh (now : Z) (m : GatewayMonitor) : bool :=
  match _cache_updated m with Some t => now - t <? _cache_ttl | None => false end.

(** A refresh adds to the cache and removes nothing from it. *)
Definition get_all_gateways (now : Z) (refresh : bool) (fault : option exn) (rows : list GatewayRow) (m : GatewayMonitor)
    : list GatewayInfo * GatewayMonitor :=
  if negb (gm_connected m) then ([], m)
  else if negb refresh && cache_fresh now m then (map snd (_gateway_cache m), m)
  else match fault with
  | Some _ => ([], m)
  | None =>
      let gateways := map (gateway_info now) (merge_sort seen_later rows) in
      (gateways,
       mkMonitor true (fold_left (λ c g, obj_set (gi_gateway_id g) g c) gateways (_gateway_cache m)) (Some now))
  end.

Definition get_online_gateways (now : Z) fault rows (m : GatewayMonitor) : list GatewayInfo * GatewayMonitor :=
  let '(l, m) := get_all_gateways now false fault rows m in (List.filter gi_is_online l, m).

Definition get_offline_gateways (now : Z) fault rows (m : GatewayMonitor) : list GatewayInfo * GatewayMonitor :=
  let '(l, m) := get_all_gateways now false fault rows m in (List.filter (λ g, negb (gi_is_online g)) l, m).

Definition is_gateway_online (now : Z) (gateway_id : string) fault rows (m : GatewayMonitor) : bool * GatewayMonitor :=
  let '(l, m) := get_all_gateways now false fault rows m in
  (match find (λ g, String.eqb (gi_gateway_id g) gateway_id) l with Some g => gi_is_online g | None => false end, m).

Record HealthSummary := mkSummary {
  hs_total : Z; hs_online : Z; hs_offline : Z; hs_online_gateways : list string;
  hs_offline_gateways : list (string * string * option Z); hs_status : string; hs_checked_at : string;
}.

Definition get_health_summary (now : Z) fault rows (m : GatewayMonitor) : HealthSummary * GatewayMonitor :=
  let '(all_gateways, m) := get_all_gateways now true fault rows m in
  let online_gateways := List.filter gi_is_online all_gateways in
  let offline_gateways := List.filter (λ g, negb (gi_is_online g)) all_gateways in
  (mkSummary (Z.of_nat (length all_gateways)) (Z.of_nat (length online_gateways)) (Z.of_nat (length offline_gateways))
     (map gi_gateway_id online_gateways)
     (map (λ g, (gi_gateway_id g, gi_name g, gi_minutes_offline g)) offline_gateways)
     (if (0 <? length online_gateways)%nat then "healthy" else "critical") (isoformat now), m).

(** ** The router *)

Section Router.
Context (decode_jsonb : list (string * json) → json).

Definition ApiGateways := list (GatewayRow * bool).

Definition is_online (now : Z) (row : GatewayRow) : bool :=
  match gw_last_seen_at row with Some t => now - t <? 5 * 60 * sec | None => false end.

Definition by_name (a b : GatewayRow) : Prop := string_leb (gw_name a) (gw_name b).
#[export] Instance by_name_dec : RelDecision by_name := fun a b => string_leb_dec (gw_name a) (gw_name b).

Definition server_error (what : string) (e : exn) : exn := HTTPException 500 (what +:+ message e).

Definition list_gateways (now : Z) (fault : option exn) (rows : list GatewayRow) : result exn ApiGateways :=
  match fault with
  | Some e => Err (server_error "Failed to fetch gateways from ChirpStack: " e)
  | None => Ok (map (λ r, (r, is_online now r)) (merge_sort by_name rows))
  end.

Definition has_eui (gw_eui : string) (r : GatewayRow) : bool := String.eqb (gw_gateway_id r) (str_lower gw_eui).

Definition gateway_not_found (gw_eui : string) : exn :=
  HTTPException 404 ("Gateway with EUI " +:+ gw_eui +:+ " not found").

Definition get_gateway (now : Z) (gw_eui : string) (fault : option exn) (rows : list GatewayRow)
    : result exn (GatewayRow * bool) :=
  match fault with
  | Some e => Err (server_error "Failed to fetch gateway: " e)
  | None =>
      match fetchrow (has_eui gw_eui) rows with
      | None => Err (gateway_not_found gw_eui)
      | Some r => Ok (r, is_online now r)
      end
  end.

(** The three COUNTs: total, online, offline *)
Definition get_gateway_stats (now : Z) (fault : option exn) (rows : list GatewayRow) : result exn (Z * Z * Z) :=
  match fault with
  | Some e => Err (server_error "Failed to fetch gateway statistics: " e)
  | None =>
      Ok (Z.of_nat (length rows),
          sql_count (λ r, match gw_last_seen_at r with Some t => now - 5 * 60 * sec <? t | None => false end) rows,
          sql_count (λ r, match gw_last_seen_at r with Some t => t <=? now - 5 * 60 * sec | None => true end) rows)
  end.

(** [{**current, **tags}], where [current] is the column if it is true, else [{}] *)
Definition merge_tags (current : json) (tags : list (string * json)) : result exn (list (string * json)) :=
  let truth := match current with JNull | JText "" | JObj [] => false | _ => true end in
  if negb truth then Ok tags
  else match current with
  | JObj o => Ok (fold_left (λ o kv, obj_set kv.1 kv.2 o) tags o)
  | _ => Err (PyException "object is not a mapping")
  end.

Definition set_gateway (now : Z) (description : option string) (tags : option (list (string * json))) (r : GatewayRow) : GatewayRow :=
  mkGateway (gw_gateway_id r) (gw_name r) (or_else description (gw_description r)) (gw_last_seen_at r)
    (or_else tags (gw_tags r)) now.

Definition update_gateway_body (now : Z) (gw_eui : string) (description : option string)
    (tags : option (list (string * json))) (fault : option exn) : stE (list GatewayRow) exn GatewayRow :=
  rows ← get_st;
  match fetchrow (has_eui gw_eui) rows with
  | None => raise (gateway_not_found gw_eui)
  | Some current =>
      updated_tags ← match tags with
                     | Some t => lift (Some <$> merge_tags (decode_jsonb (gw_tags current)) t)
                     | None => mret None
                     end;
      if bool_decide (description = None) && bool_decide (tags = None)
      then raise (HTTPException 400 "No fields to update")
      else
        _ ← may_fail fault (modify_st (sql_update (has_eui gw_eui) (set_gateway now description updated_tags)));
        mret (set_gateway now description updated_tags current)
  end.

Definition update_gateway (now : Z) (gw_eui : string) (description : option string)
    (tags : option (list (string * json))) (fault : option exn) : stE (list GatewayRow) exn GatewayRow :=
  try_catch (update_gateway_body now gw_eui description tags fault)
    (λ e, match e with HTTPException _ _ => raise e | _ => raise (server_error "Failed to update gateway: " e) end).
End Router.

(** ** Properties *)

Lemma gateway_info_online now row : gi_is_online (gateway_info now row) = is_online now row.
Proof. unfold gateway_info, is_online. by destruct (gw_last_seen_at row). Qed.

Lemma filter_length_perm {A} (p : A → bool) l l' : l ≡ₚ l' → length (List.filter p l) = length (List.filter p l').
Proof.
  induction 1 as [|x l l' H IH|x y l|l l' l'' H1 IH1 H2 IH2]; cbn; [done| | |congruence].
  - destruct (p x); cbn; congruence.
  - by destruct (p x), (p y).
Qed.

Lemma filter_split {A} (p : A → bool) l : (length (List.filter p l) + length (List.filter (λ x, negb (p x)) l) = length l)%nat.
Proof. induction l as [|x l IH]; [done|]. cbn. destruct (p x); cbn; lia. Qed.

Lemma length_filter_map {A B} (f : A → B) (p : B → bool) l : length (List.filter p (map f l)) = length (List.filter (λ x, p (f x)) l).
Proof. induction l as [|x l IH]; [done|]. cbn. destruct (p (f x)); cbn; congruence. Qed.

Lemma filter_ext_length {A} (p q : A → bool) l : (∀ x, p x = q x) → length (List.filter p l) = length (List.filter q l).
Proof. intros H. f_equal. by apply filter_ext. Qed.

(** Three readers, one notion of online.  The monitor's summary, the counts of the
    statistics query and the flags of the gateway list agree at every instant: total,
    online and offline are the same numbers, and online and offline add up to total. *)
Theorem gateway_counts_agree now rows m :
  gm_connected m = true →
  let h := (get_health_summary now None rows m).1 in
  get_gateway_stats now None rows = Ok (hs_total h, hs_online h, hs_offline h) ∧
  (∃ l, list_gateways now None rows = Ok l ∧ hs_online h = sql_count snd l ∧ hs_total h = Z.of_nat (length l)) ∧
  hs_online h + hs_offline h = hs_total h.
Proof.
  intros Hm h. subst h. unfold get_health_summary, get_all_gateways. rewrite Hm. cbn [negb andb].
  set (sorted := merge_sort seen_later rows). cbn [fst hs_total hs_online hs_offline].
  assert (sorted ≡ₚ rows) as Hperm by apply merge_sort_Permutation.
  assert (∀ p, length (List.filter p (map (gateway_info now) sorted)) =
               length (List.filter (λ r, p (gateway_info now r)) rows)) as Hlen.
  { intros p. rewrite length_filter_map. by apply filter_length_perm. }
  rewrite !Hlen, length_map, (Permutation_length Hperm). split_and!.
  - unfold get_gateway_stats, sql_count. f_equal. f_equal; [f_equal|]; f_equal; apply filter_ext_length; intros r;
      rewrite gateway_info_online; unfold is_online; (destruct (gw_last_seen_at r) as [t|]; [|done]).
    + destruct (Z.ltb_spec (now - 5 * 60 * sec) t), (Z.ltb_spec (now - t) (5 * 60 * sec)); done || lia.
    + destruct (Z.leb_spec t (now - 5 * 60 * sec)), (Z.ltb_spec (now - t) (5 * 60 * sec)); done || lia.
  - eexists. split; [reflexivity|]. unfold sql_count. rewrite length_filter_map, length_map. split.
    + f_equal. cbn [snd]. rewrite (filter_length_perm _ _ _ (merge_sort_Permutation by_name rows)).
      apply filter_ext_length. intros r. apply gateway_info_online.
    + by rewrite (Permutation_length (merge_sort_Permutation by_name rows)).
  - rewrite <- Nat2Z.inj_add. f_equal. apply filter_split.
Qed.

Lemma assoc_fold_set (l : list GatewayInfo) c k :
  (∀ g, In g l → gi_gateway_id g ≠ k) →
  assoc k (fold_left (λ c g, obj_set (gi_gateway_id g) g c) l c) = assoc k c.
Proof.
  revert c. induction l as [|g l IH]; intros c H; [done|]. cbn [fold_left].
  rewrite IH by (intros; apply H; by right).
  assert (∀ A (o : list (string * A)) k' v, k ≠ k' → assoc k (obj_set k' v o) = assoc k o) as Hset.
  { clear. intros A o k' v Hne. induction o as [|[x w] o IH]; cbn.
    - by destruct (String.eqb_spec k k').
    - destruct (String.eqb_spec k' x) as [->|Hx]; cbn; [by destruct (String.eqb_spec k x)|by rewrite IH]. }
  apply Hset. intros ->. by apply (H g (or_introl eq_refl)).
Qed.

Lemma assoc_in_values {A} k (o : list (string * A)) v : assoc k o = Some v → In v (map snd o).
Proof.
  induction o as [|[x w] o IH]; [done|]. cbn. destruct (String.eqb_spec k x) as [->|]; [intros [= ->]; by left|auto].
Qed.

(** A removed gateway stays in the monitor's cache.  The cache is never pruned: a gateway
    that was online when it was last fetched and has since been deleted from the network
    server is still reported online by every cached read, whatever refreshes have happened
    in between. *)
Theorem removed_gateway_reported_online now now' rows fault rows' m g :
  gm_connected m = true → assoc (gi_gateway_id g) (_gateway_cache m) = Some g → gi_is_online g = true →
  (∀ r, In r rows → gw_gateway_id r ≠ gi_gateway_id g) → now ≤ now' < now + _cache_ttl →
  In g (get_online_gateways now' fault rows' (get_health_summary now None rows m).2).1.
Proof.
  intros Hm Hg Hon Hrows Ht. unfold get_health_summary, get_all_gateways. rewrite Hm. cbn [negb andb snd].
  unfold get_online_gateways, get_all_gateways. cbn [gm_connected negb].
  unfold cache_fresh. cbn [_cache_updated]. rewrite (proj2 (Z.ltb_lt _ _)) by lia. cbn [andb negb fst _gateway_cache].
  apply filter_In. split; [|done]. eapply (assoc_in_values (gi_gateway_id g)). rewrite assoc_fold_set; [exact Hg|].
  intros g' Hin. apply in_map_iff in Hin as (r & <- & Hr). cbn. apply Hrows.
  apply list_elem_of_In in Hr. rewrite merge_sort_Permutation in Hr. by apply list_elem_of_In.
Qed.

(** Tags of a gateway that has some cannot be changed: the driver hands the column over as a
    text, which is not a mapping. *)
Lemma gateway_tags_not_updated decode_jsonb now gw_eui description tags fault rows r c :
  (∀ o, decode_jsonb o = JText (String c (dumps (JObj o)))) → fetchrow (has_eui gw_eui) rows = Some r →
  update_gateway decode_jsonb now gw_eui description (Some tags) fault rows =
    (Err (server_error "Failed to update gateway: " (PyException "object is not a mapping")), rows).
Proof.
  intros Hd Hr. unfold update_gateway, update_gateway_body, try_catch, get_st, mbind, stE_bind, raise. rewrite Hr, Hd. done.
Qed.

(** ** Witnesses *)

Definition demo_gateway (i : string) (t : option Z) : GatewayRow := mkGateway i i "" t [] 0.

Lemma gateway_counts_agree_witness :
  get_gateway_stats (600 * sec) None [demo_gateway "a" (Some (400 * sec)); demo_gateway "b" (Some 0); demo_gateway "c" None]
  = Ok (3, 1, 2).
Proof.
  exact (proj1 (gateway_counts_agree (600 * sec)
    [demo_gateway "a" (Some (400 * sec)); demo_gateway "b" (Some 0); demo_gateway "c" None] (mkMonitor true [] None) eq_refl)).
Defined.

Lemma removed_gateway_reported_online_witness :
  let m := (get_health_summary 10 None [demo_gateway "a" (Some 5)] (mkMonitor true [] None)).2 in
  In (gateway_info 10 (demo_gateway "a" (Some 5)))
     (get_online_gateways (8000 * sec) None [] (get_health_summary (7999 * sec) None [] m).2).1.
Proof.
  intros m. apply (removed_gateway_reported_online (7999 * sec) (8000 * sec) [] None [] m).
  - reflexivity.
  - reflexivity.
  - reflexivity.
  - intros r [].
  - unfold _cache_ttl, sec. lia.
Defined.
