(* ===== verification/ChirpStack.v ===== *)
(** * ChirpStack: the client of the network server

    Models src/src/chirpstack_client.py: the retry decorator, the device queries, the
    downlink queue of a device and the connection loop, on the tables [device] and
    [device_queue_item] of the network server's database.  A call that is retried reads
    the outside again: what fails is a function of the attempt.  [is_pg] says which foreign
    exceptions are asyncpg's, and [enqueue_rpc] is the server's Enqueue call. *)

From Stdlib Require Import QArith.
From S2P Require Import Prelude PyUtils Json Models Database.

Open Scope Z_scope.

(** [bytea] columns hold bytes. *)
Record CsDevice := mkCsDevice {
  cd_dev_eui : list Z; cd_name : string; cd_description : string; cd_is_disabled : bool; cd_last_seen_at : option Z;
  cd_device_profile_id : string; cd_tags : list (string * json); cd_updated_at : Z;
}.

Record DeviceProfile := mkProfile {
  dp_id : string; dp_name : string; dp_description : option string; dp_region : option string;
  dp_mac_version : option string; dp_supports_otaa : bool; dp_supports_class_b : bool; dp_supports_class_c : bool;
}.

Record QueueItem := mkItem {
  qi_id : string; qi_dev_eui : list Z; qi_f_port : Z; qi_confirmed : bool; qi_data : list Z;
  qi_is_pending : bool; qi_created_at : Z;
}.

(** [device_queue] is a table the clean-up of background_tasks.py asks for; the client only
    knows [device_queue_item]. *)
Record ChirpDb := mkChirp {
  cs_device : list CsDevice; device_profile : list DeviceProfile; device_queue_item : list QueueItem; device_queue : option (list QueueItem);
}.

Section Client.
Context (is_pg : string → bool).

(** [isinstance(e, (asyncpg.PostgresError, asyncpg.InterfaceError))] *)
Definition is_transient (e : exn) : bool := match e with PyException m => is_pg m | _ => false end.

(** ** The decorator *)

Record Retried (A : Type) := mkRetried { rt_result : result exn A; rt_calls : nat; rt_waits : list Q }.
Arguments mkRetried {A}.
Arguments rt_result {A}.
Arguments rt_calls {A}.
Arguments rt_waits {A}.

(** The attempts [attempt, attempt + 1, ...], [remaining] of them *)
Fixpoint retry_from {A} (max_attempts : nat) (delay : Q) (func : nat → result exn A) (attempt remaining : nat)
    (last_error : exn) : Retried A :=
  match remaining with
  | O => mkRetried (Err (ChirpStackError ("Failed after " +:+ show_Z (Z.of_nat max_attempts) +:+ " attempts: " +:+ message last_error) None)) 0 []
  | S remaining =>
      match func attempt with
      | Ok a => mkRetried (Ok a) 1 []
      | Err e =>
          if is_transient e then
            let r := retry_from max_attempts delay func (S attempt) remaining e in
            mkRetried (rt_result r) (S (rt_calls r))
              (if (remaining =? 0)%nat then rt_waits r else (delay * inject_Z (2 ^ Z.of_nat attempt))%Q :: rt_waits r)
          else mkRetried (Err e) 1 []
      end
  end.

Definition with_retry {A} (max_attempts : nat) (delay : Q) (func : nat → result exn A) : Retried A :=
  retry_from max_attempts delay func 0 max_attempts (PyException "None").

(** ** The decorated calls.  Each catches every exception itself. *)

Definition no_hex : exn := PyException "non-hexadecimal number found in fromhex() arg".

Definition has_dev_eui (bs : list Z) (d : CsDevice) : bool := bool_decide (cd_dev_eui d = bs).

Definition get_device_once (connected : bool) (dev_eui : string) (fault : nat → option exn) (d : ChirpDb) (attempt : nat)
    : result exn (option CsDevice) :=
  if negb connected then Ok None
  else
    let failed e := Err (ChirpStackError ("Failed to get device: " +:+ message e) None) in
    match bytes_fromhex dev_eui with
    | None => failed no_hex
    | Some bs =>
        match fault attempt with
        | Some e => failed e
        | None => Ok (fetchrow (has_dev_eui bs) (cs_device d))
        end
    end.

Definition get_device_count_once (connected : bool) (fault : nat → option exn) (d : ChirpDb) (attempt : nat) : result exn Z :=
  if negb connected then Ok 0
  else match fault attempt with
  | Some _ => Ok 0
  | None => Ok (sql_count (λ x, negb (cd_is_disabled x)) (cs_device d))
  end.

Definition device_seen_later (a b : CsDevice) : Prop :=
  match cd_last_seen_at a, cd_last_seen_at b with
  | Some x, Some y => y ≤ x
  | None, Some _ => False
  | _, None => True
  end.
#[export] Instance device_seen_later_dec : RelDecision device_seen_later.
Proof. intros a b. unfold device_seen_later. destruct (cd_last_seen_at a), (cd_last_seen_at b); apply _. Defined.

Definition get_devices_once (connected : bool) (limit offset : nat) (fault : nat → option exn) (d : ChirpDb) (attempt : nat)
    : result exn (list CsDevice) :=
  if negb connected then Ok []
  else match fault attempt with
  | Some _ => Ok []
  | None => Ok (take limit (drop offset (merge_sort device_seen_later (cs_device d))))
  end.

Definition get_device connected dev_eui fault d : Retried (option CsDevice) :=
  with_retry 3 (1 # 2) (get_device_once connected dev_eui fault d).
Definition get_device_count connected fault d : Retried Z :=
  with_retry 3 (1 # 2) (get_device_count_once connected fault d).
Definition get_devices connected limit offset fault d : Retried (list CsDevice) :=
  with_retry 3 (1 # 2) (get_devices_once connected limit offset fault d).

(** ** Downlinks *)

Record QueuedDownlink := mkQueued {
  qd_id : string; qd_dev_eui : string; qd_f_port : Z; qd_confirmed : bool; qd_data : string;
}.

(** [enqueue_rpc] answers the queue item's id, or raises: a gRPC error with its details, or
    another exception. *)
Definition queue_downlink (enqueue_rpc : string → list Z → Z → bool → result (string + exn) string)
    (device_eui : string) (payload : list Z) (fport : Z) (confirmed : bool) : result exn QueuedDownlink :=
  match enqueue_rpc device_eui payload fport confirmed with
  | Ok i => Ok (mkQueued i device_eui fport confirmed (b64encode payload))
  | Err (inl details) => Err (ChirpStackError ("gRPC error: " +:+ details) None)
  | Err (inr e) => Err (ChirpStackError ("Failed to queue downlink: " +:+ message e) None)
  end.

Definition pending_of (bs : list Z) (i : QueueItem) : bool := bool_decide (qi_dev_eui i = bs) && qi_is_pending i.

Definition created_before (a b : QueueItem) : Prop := qi_created_at a ≤ qi_created_at b.
#[export] Instance created_before_dec : RelDecision created_before := fun a b => decide (qi_created_at a ≤ qi_created_at b).

Definition get_device_queue (device_eui : string) (fault : option exn) (d : ChirpDb) : list QueueItem :=
  match bytes_fromhex device_eui, fault with
  | Some bs, None => merge_sort created_before (List.filter (pending_of bs) (device_queue_item d))
  | _, _ => []
  end.

Definition flush_device_queue (device_eui : string) (fault : option exn) : stE ChirpDb exn unit := λ d,
  let failed e := (Err (ChirpStackError ("Failed to flush device queue: " +:+ message e) None), d) in
  match bytes_fromhex device_eui with
  | None => failed no_hex
  | Some bs =>
      match fault with
      | Some e => failed e
      | None => (Ok tt, mkChirp (cs_device d) (device_profile d) (List.filter (λ i, negb (pending_of bs i)) (device_queue_item d)) (device_queue d))
      end
  end.

(** ** Connecting *)

(** One try of [connect]: the pool, the test query and the schema check *)
Definition connect_once (create_pool : nat → option exn) (table_exists : nat → bool) (attempt : nat) : result exn unit :=
  match create_pool attempt with
  | Some e => Err e
  | None => if table_exists attempt then Ok tt
            else Err (ChirpStackError "ChirpStack database schema not found (device table missing)" None)
  end.

(** Whether it is connected at the end, the tries made and the seconds slept *)
Fixpoint connect_loop (create_pool : nat → option exn) (table_exists : nat → bool) (attempt remaining : nat)
    : bool * nat * list Z :=
  match remaining with
  | O => (false, 0%nat, [])
  | S remaining =>
      match connect_once create_pool table_exists attempt with
      | Ok _ => (true, 1%nat, [])
      | Err _ =>
          let '(b, n, w) := connect_loop create_pool table_exists (S attempt) remaining in
          (b, S n, if (remaining =? 0)%nat then w else (2 ^ Z.of_nat attempt) :: w)
      end
  end.

Definition connect create_pool table_exists : bool * nat * list Z := connect_loop create_pool table_exists 0 3.

(** The status of [health_check]; [None]: the query timed out. *)
Definition health_check (connected : bool) (outcome : option (option exn)) : string :=
  if negb connected then "disconnected"
  else match outcome with
  | None => "timeout"
  | Some None => "healthy"
  | Some (Some _) => "unhealthy"
  end.

Definition get_version (connected : bool) (outcome : option (option exn)) : result exn string :=
  if negb (String.eqb (health_check connected outcome) "healthy")
  then Err (ChirpStackError ("ChirpStack unhealthy: " +:+
              (if negb connected then "Not connected to ChirpStack database"
               else match outcome with Some (Some e) => message e | _ => "Health check query timed out" end)) None)
  else Ok "connected".

(** ** Properties *)

Lemma retry_stops {A} m delay (f : nat → result exn A) attempt remaining e0 :
  (∀ a e, f a = Err e → is_transient e = false) → (0 < remaining)%nat →
  rt_calls (retry_from m delay f attempt remaining e0) = 1%nat ∧ rt_waits (retry_from m delay f attempt remaining e0) = [] ∧
  rt_result (retry_from m delay f attempt remaining e0) = f attempt.
Proof.
  intros Hf Hl. destruct remaining as [|remaining]; [lia|]. cbn. destruct (f attempt) as [a|e] eqn:E; [done|]. by rewrite (Hf _ _ E).
Qed.

(** The retry decorator never retries.  [get_device], [get_device_count] and [get_devices]
    are declared with three attempts, but each answers every exception itself, with a
    ChirpStackError or an empty value, which the decorator does not take for transient:
    whatever the database does, each asks it once and never waits. *)
Theorem decorated_calls_run_once connected dev_eui limit offset fault d :
  rt_calls (get_device connected dev_eui fault d) = 1%nat ∧ rt_waits (get_device connected dev_eui fault d) = [] ∧
  rt_calls (get_device_count connected fault d) = 1%nat ∧ rt_waits (get_device_count connected fault d) = [] ∧
  rt_calls (get_devices connected limit offset fault d) = 1%nat ∧ rt_waits (get_devices connected limit offset fault d) = [].
Proof.
  assert (∀ a e, get_device_once connected dev_eui fault d a = Err e → is_transient e = false) as H1.
  { intros a e. unfold get_device_once. destruct (negb connected); [done|].
    destruct (bytes_fromhex dev_eui); [destruct (fault a)|]; by intros [= <-]. }
  assert (∀ a e, get_device_count_once connected fault d a = Err e → is_transient e = false) as H2.
  { intros a e. unfold get_device_count_once. destruct (negb connected); [done|]. by destruct (fault a). }
  assert (∀ a e, get_devices_once connected limit offset fault d a = Err e → is_transient e = false) as H3.
  { intros a e. unfold get_devices_once. destruct (negb connected); [done|]. by destruct (fault a). }
  unfold get_device, get_device_count, get_devices, with_retry.
  destruct (retry_stops 3 (1 # 2) _ 0 3 (PyException "None") H1 ltac:(lia)) as (? & ? & _).
  destruct (retry_stops 3 (1 # 2) _ 0 3 (PyException "None") H2 ltac:(lia)) as (? & ? & _).
  destruct (retry_stops 3 (1 # 2) _ 0 3 (PyException "None") H3 ltac:(lia)) as (? & ? & _). done.
Qed.

(** What the decorator does with a function that lets its exceptions through: it stops at the
    first success or at the first exception that is not transient, and otherwise makes all
    attempts, waiting between two of them only. *)
Lemma with_retry_bounds {A} m delay (f : nat → result exn A) :
  let r := with_retry m delay f in
  (rt_calls r ≤ m)%nat ∧ (length (rt_waits r) ≤ m - 1)%nat ∧
  (∀ a, rt_result r = Ok a → ∃ i, (i < m)%nat ∧ f i = Ok a ∧ rt_calls r = S i).
Proof.
  unfold with_retry. generalize (PyException "None") as e0.
  assert (∀ remaining attempt e0, let r := retry_from m delay f attempt remaining e0 in
    (rt_calls r ≤ remaining)%nat ∧ (length (rt_waits r) ≤ remaining - 1)%nat ∧
    (∀ a, rt_result r = Ok a → ∃ i, (i < remaining)%nat ∧ f (attempt + i)%nat = Ok a ∧ rt_calls r = S i)) as H.
  2: { intros e0. exact (H m 0%nat e0). }
  induction remaining as [|remaining IH]; intros attempt e0; [by cbn|]. cbn.
  destruct (f attempt) as [a|e] eqn:E.
  - cbn. split_and!; [lia..|]. intros a' [= ->]. exists 0%nat. rewrite Nat.add_0_r. split_and!; [lia|done|done].
  - destruct (is_transient e); cbn; [|split_and!; [lia..|done]].
    destruct (IH (S attempt) e) as (Hc & Hw & Hr). split_and!; [lia| |].
    + destruct (Nat.eqb_spec remaining 0); cbn; lia.
    + intros a (i & Hi & Hf & Hn)%Hr. exists (S i). split_and!; [lia| |lia]. by rewrite Nat.add_succ_r.
Qed.

(** A flush empties the pending queue of the device and touches no other item. *)
Lemma flush_spec device_eui bs d i :
  bytes_fromhex device_eui = Some bs →
  let d' := (flush_device_queue device_eui None d).2 in
  In i (device_queue_item d') ↔ In i (device_queue_item d) ∧ ¬ (qi_dev_eui i = bs ∧ qi_is_pending i = true).
Proof.
  intros E. unfold flush_device_queue. rewrite E. cbn. rewrite filter_In, negb_true_iff, <- not_true_iff_false.
  unfold pending_of. by rewrite andb_true_iff, bool_decide_eq_true.
Qed.
End Client.
