(* ===== verification/BackgroundTasks.v ===== *)
(** * BackgroundTasks: timers of reservations and the periodic loops

    Models [BackgroundTaskManager] of src/src/background_tasks.py.  The manager's dict of
    scheduled tasks is an association list; an asyncio task that sleeps is a [Coroutine]
    with the instant it wakes, and runs to its end once it has woken ([fire]); a cancelled
    one never wakes ([cancel_handle]).  A loop is one iteration: the body after the sleep.  Calls to the outside fail as [CallSite] and
    [BgCall] say.  [decode_timestamptz] is how the driver decodes a timestamp, because the
    manager compares it with the naive [utcnow()]. *)

From Stdlib Require Import QArith.
From S2P Require Import Prelude.
From S2P Require Import PyUtils.
From S2P Require Import Json.
From S2P Require Import Redis.
From S2P Require Import RateLimit.
From S2P Require Import DownlinkQueue.
From S2P Require Import Models.
From S2P Require Import Database.
From S2P Require Import Reservations.
From S2P Require Import StateManager.
From S2P Require Import DeviceHandlers.
From S2P Require Import OrphanDevices.
From S2P Require Import Uplink.
From S2P Require Import Gateways.
From S2P Require Import ChirpStack.

Open Scope Z_scope.

(** ** The manager *)

Inductive Action := AStart | AEnd.
#[export] Instance action_eq_dec : EqDecision Action.
Proof. solve_decision. Defined.

Record ScheduledTask := mkTask {
  st_task_id : string; st_reservation_id : string; st_space_id : string; st_action : Action;
  st_scheduled_time : Z; st_task_handle : nat;
}.

Record Coroutine := mkCoroutine {
  co_handle : nat; co_action : Action; co_reservation_id : string; co_space_id : string; co_wakes : Z;
}.

Record Manager := mkManager {
  running : bool; scheduled_tasks : list (string * ScheduledTask); sleeping : list Coroutine; next_handle : nat;
}.

Definition task_name (action : Action) (reservation_id : string) : string :=
  "res_" +:+ reservation_id +:+ match action with AStart => "_start" | AEnd => "_end" end.



Definition del_entry (k : string) (l : list (string * ScheduledTask)) : list (string * ScheduledTask) :=
  List.filter (λ kv, negb (String.eqb kv.1 k)) l.



Inductive BgCall := BExpireOne | BLoad | BExpireOld | BReservationRow | BReadings | BChanges | BRedisGet | BSpaces
| BCount | BStates | BStuck | BStuckDevices | BFlush (dev_eui : string) | BView (view : string).

Section Tasks.
Context {R : Redis} {F : PyFloat} (sha256_hexdigest : string → string).
Context (cfg : Config) (faults : CallSite → option exn) (fault : BgCall → option exn).
Context (decode_timestamptz : Z → datetime).

Record BgState := mkBg { bg_world : World; bg_manager : Manager }.

Definition bg_db (s : BgState) : Db := db (bg_world s).
Definition on_manager (f : Manager → Manager) (s : BgState) : BgState := mkBg (bg_world s) (f (bg_manager s)).
Definition bg_on_db (f : Db → Db) (s : BgState) : BgState := mkBg (on_db f (bg_world s)) (bg_manager s).
Definition bg_in_world {A} (c : stE World exn A) : stE BgState exn A := λ s,
  let '(r, w) := c (bg_world s) in (r, mkBg w (bg_manager s)).

(** ** Scheduling *)







(** ** The timers *)

Record Instant := mkInstant { i_now : Z; i_end : Z; i_others : store → store; i_command : string }.

Definition update (i : Instant) (space_id : string) (st : SpaceState) (source request_id : string)
    : stE World exn StateUpdateResult :=
  StateManager.update_space_state sha256_hexdigest cfg faults (i_now i) (i_end i) (i_others i) (i_command i)
    space_id st source request_id.

Definition forget (action : Action) (reservation_id : string) : stE BgState exn unit :=
  modify_st (on_manager (λ m, mkManager (running m) (del_entry (task_name action reservation_id) (scheduled_tasks m))
                                (sleeping m) (next_handle m))).

(** The bodies after the sleep; an exception is logged. *)
Definition _reservation_start_task (i : Instant) (reservation_id space_id : string) : stE BgState exn unit :=
  try_catch
    (_ ← bg_in_world (update i space_id RESERVED "reservation_start" ("bg_task_" +:+ reservation_id));
     forget AStart reservation_id)
    (λ _, mret tt).

Definition _reservation_end_task (i : Instant) (reservation_id space_id : string) : stE BgState exn unit :=
  try_catch
    (_ ← bg_in_world (update i space_id FREE "reservation_end" ("bg_task_" +:+ reservation_id));
     _ ← may_fail (fault BExpireOne) (modify_st (bg_on_db (expire_reservation (i_now i) reservation_id)));
     forget AEnd reservation_id)
    (λ _, mret tt).


(** ** The loops, one iteration each *)

(** [try: ... except Exception: log] *)
Definition logged (c : stE BgState exn unit) (s : BgState) : BgState := (try_catch c (λ _, mret tt) s).2.

Definition days (n : Z) : Z := n * 86400 * sec.

Definition _cleanup_loop (now : Z) : BgState → BgState := logged (
  _ ← may_fail (fault BReadings) (modify_st (bg_on_db (with_readings
        (sql_delete (λ r, rd_timestamp r <? now - days 30)))));
  may_fail (fault BChanges) (modify_st (bg_on_db (with_state_changes
        (sql_delete (λ c, ch_timestamp c <? now - days 90)))))).

(** What the monitoring loop logs: active reservations, scheduled tasks, spaces per state,
    and the spaces occupied for more than a day. *)
Record MonitoringReport := mkReport {
  mo_active : Z; mo_scheduled : Z; mo_states : list (string * Z); mo_stuck : list string;
}.

Definition stuck (now : Z) (s : Space) : bool :=
  bool_decide (sp_state s = OCCUPIED) && (sp_updated_at s <? now - days 1) && live_space s.

Definition _monitoring_loop (now : Z) (s : BgState) : option MonitoringReport :=
  match fault BCount, fault BStates, fault BStuck with
  | None, None, None =>
      let d := bg_db s in
      let count st := sql_count (λ x, live_space x && bool_decide (sp_state x = st)) (spaces d) in
      Some (mkReport (get_active_reservation_count now d) (Z.of_nat (length (scheduled_tasks (bg_manager s))))
              (List.filter (λ kv, 0 <? kv.2) (map (λ st, (state_value st, count st)) [FREE; OCCUPIED; RESERVED; MAINTENANCE]))
              (map sp_code (List.filter (stuck now) (spaces d))))
  | _, _, _ => None
  end.

(** *** Expiry *)

(** The space of one expired reservation is set free; a failure is logged. *)
Definition free_after_expiry (i : Instant) (reservation_id : string) : stE BgState exn unit :=
  try_catch
    (s ← get_st;
     res_info ← may_fail (fault BReservationRow) (mret (find_reservation reservation_id (bg_db s)));
     match res_info with
     | Some r => _ ← bg_in_world (update i (rv_space_id r) FREE "reservation_expired" ("expiry_" +:+ reservation_id)); mret tt
     | None => mret tt
     end)
    (λ _, mret tt).

Fixpoint free_all (i : Instant) (ids : list string) : stE BgState exn unit :=
  match ids with
  | [] => mret tt
  | x :: ids => _ ← free_after_expiry i x; free_all i ids
  end.

Definition _reservation_expiry_loop (i : Instant) : BgState → BgState := logged (
  ids ← may_fail (fault BExpireOld) (λ s, let '(ids, d) := expire_old_reservations (i_now i) (bg_db s) in
                                          (Ok ids, bg_on_db (λ _, d) s));
  free_all i ids).

(** *** Display reconciliation *)

(** The spaces with an enabled display, most recently updated first *)
Definition updated_later (a b : Space * DisplayDevice) : Prop := sp_updated_at b.1 ≤ sp_updated_at a.1.
#[export] Instance updated_later_dec : RelDecision updated_later := fun a b => decide (sp_updated_at b.1 ≤ sp_updated_at a.1).

Definition displays_of (d : Db) : list (Space * DisplayDevice) :=
  merge_sort updated_later
    (List.filter (λ sd, live_space sd.1 && dd_enabled sd.2)
       (flat_map (λ s, map (pair s)
          (List.filter (λ dd, bool_decide (sp_display_eui s = Some (dd_dev_eui dd))) (display_devices d))) (spaces d))).

(** [last_data.get('rgb', [])] differs from [[r, g, b]] *)
Definition rgb_differs (last_rgb : json) (r g b : Z) : bool :=
  match last_rgb with
  | JArr [x; y; z] => negb (eq_int r x && eq_int g y && eq_int b z)
  | _ => true
  end.

Definition refresh_display (i : Instant) (s : Space) (dd : DisplayDevice) (trigger_source : string) (w : World) : World :=
  (update_display sha256_hexdigest cfg faults (i_now i) (i_command i)
     (mkDisplay (sp_id s) (dd_dev_eui dd) (sp_state s) (sp_state s) "system_cleanup" trigger_source) w).2.

(** One space: compare what the light last reported with the code of the current state. *)
Definition reconcile_space (i : Instant) (sd : Space * DisplayDevice) : stE World exn unit :=
  let '(s, dd) := sd in
  last_known ← may_fail (fault BRedisGet) (λ w, (Ok (r_get (redis w) (i_now i) (last_uplink_key (dd_dev_eui dd))), w));
  if truthy last_known then
    last_data ← match loads (or_else last_known "") with
                | Some j => mret j
                | None => raise (PyException "Expecting value")
                end;
    last_rgb ← lift (py_get_or "rgb" (JArr []) last_data);
    match assoc (state_value (sp_state s)) (dd_display_codes dd) with
    | None | Some EmptyString => mret tt
    | Some expected_hex =>
        match bytes_fromhex expected_hex with
        | Some (r :: g :: b :: _) =>
            if rgb_differs last_rgb r g b then modify_st (refresh_display i s dd "reconciliation") else mret tt
        | Some _ => raise (PyException "index out of range")
        | None => raise (PyException "non-hexadecimal number found in fromhex() arg")
        end
    end
  else if starts_with "202020" (dd_dev_eui dd) then modify_st (refresh_display i s dd "reconciliation_poll")
  else mret tt.

Fixpoint reconcile_all (i : Instant) (l : list (Space * DisplayDevice)) : stE World exn unit :=
  match l with
  | [] => mret tt
  | sd :: l => _ ← try_catch (reconcile_space i sd) (λ _, mret tt); reconcile_all i l
  end.

Definition _reconciliation_loop (i : Instant) : BgState → BgState := logged (
  s ← get_st;
  spaces ← may_fail (fault BSpaces) (mret (displays_of (bg_db s)));
  bg_in_world (reconcile_all i spaces)).

(** *** Stuck downlinks *)

(** The devices with a downlink pending for more than ten minutes *)
Definition stuck_devices (now : Z) (items : list QueueItem) : list string :=
  map (λ i, bytes_hex (qi_dev_eui i))
    (foldl (λ acc i, if existsb (λ j, bool_decide (qi_dev_eui j = qi_dev_eui i)) acc then acc else (acc ++ [i])%list) []
       (List.filter (λ i, qi_is_pending i && (qi_created_at i <? now - 600 * sec)) items)).

(** The query names the table [device_queue]. *)
Definition query_stuck (now : Z) : stE ChirpDb exn (list string) :=
  may_fail (fault BStuckDevices)
    (d ← get_st;
     match device_queue d with
     | Some items => mret (stuck_devices now items)
     | None => raise (PyException "relation 'device_queue' does not exist")
     end).

Fixpoint flush_all (l : list string) : stE ChirpDb exn unit :=
  match l with
  | [] => mret tt
  | e :: l => _ ← try_catch (flush_device_queue e (fault (BFlush e))) (λ _, mret tt); flush_all l
  end.

Definition _queue_cleanup_loop (now : Z) (gw_fault : option exn) (rows : list GatewayRow) (m : GatewayMonitor) (d : ChirpDb)
    : GatewayMonitor * ChirpDb :=
  let '(gw_health, m) := get_health_summary now gw_fault rows m in
  (m, if hs_offline gw_health =? 0 then d
      else (try_catch (l ← query_stuck now; flush_all l) (λ _, mret tt) d).2).

(** *** Materialized views: the ones that were refreshed *)

Definition views_to_refresh : list string :=
  ["space_utilization_daily"; "api_usage_hourly"; "reservation_stats_daily"; "device_health_summary"].

Definition _materialized_views_refresh_loop : list string :=
  List.filter (λ v, bool_decide (fault (BView v) = None)) views_to_refresh.

(** ** Properties of the timers *)






(** *** A successful update, as the tasks call it *)

Definition lock_free (i : Instant) (space_id : string) (w : World) : Prop :=
  (try_lock (i_now i) ("space:" +:+ space_id) (i_others i) (redis w)).1 = true.

Lemma get_space_id space_id d sp : get_space space_id d = Some sp → sp_id sp = space_id.
Proof. intros [_ H]%find_some. apply andb_true_iff in H as [H _]. by apply String.eqb_eq. Qed.

Lemma get_space_after now sp st d :
  get_space (sp_id sp) d = Some sp → ∀ d', spaces d' = spaces_after now sp st d →
  ∃ sp', get_space (sp_id sp) d' = Some sp' ∧ sp_state sp' = st ∧ sp_id sp' = sp_id sp.
Proof.
  intros Hs d' Hd'. unfold get_space in *. rewrite Hd'. unfold spaces_after. destruct (decide _) as [E|Hne]; [eauto|].
  rewrite fetchrow_update; [|done|by intros x [? _]%andb_true_iff]. rewrite Hs. by eexists.
Qed.

Lemma update_ok i sp st source request_id w :
  (∀ c, faults c = None) → lock_free i (sp_id sp) w → get_space (sp_id sp) (db w) = Some sp →
  sp_state sp = st ∨ is_valid_transition (sp_state sp) st source = true →
  ∃ res w', update i (sp_id sp) st source request_id w = (Ok res, w') ∧ success res = true ∧
    (∃ sp', get_space (sp_id sp) (db w') = Some sp' ∧ sp_state sp' = st ∧ sp_id sp' = sp_id sp) ∧
    reservations (db w') = reservations (db w).
Proof.
  intros Hf Hl Hs Hv. unfold update.
  destruct (update_space_state_ok sha256_hexdigest cfg faults (i_now i) (i_end i) (i_others i) (i_command i) sp st source
              request_id w Hf Hl Hs Hv) as (shown & w' & E & H1 & _).
  pose proof (update_space_state_tables sha256_hexdigest cfg faults (i_now i) (i_end i) (i_others i) (i_command i)
    (sp_id sp) st source request_id w) as (Ht & _). rewrite E in *. cbn [snd] in Ht.
  do 2 eexists. split_and!; [reflexivity|done| |done]. by eapply get_space_after.
Qed.

(** Every state may become FREE. *)
Lemma free_allowed st source : st = FREE ∨ is_valid_transition st FREE source = true.
Proof. unfold is_valid_transition. destruct (String.eqb _ _); [by right|]. by destruct st; [left|right..]. Qed.

(** The row of a due reservation after the expiry statement *)
Lemma expired_row now d r :
  r ∈ reservations d → NoDup (map rv_id (reservations d)) → blocking (rv_status r) = true → rv_end_time r < now →
  ∃ r', find_reservation (rv_id r) (expire_old_reservations now d).2 = Some r' ∧ rv_status r' = EXPIRED ∧
        rv_space_id r' = rv_space_id r.
Proof.
  intros Hin Hids Hb He. unfold find_reservation. cbn [expire_old_reservations snd with_reservations reservations].
  assert (blocking (rv_status r) && (rv_end_time r <? now) = true) as Hr.
  { rewrite Hb. by apply Z.ltb_lt. }
  rewrite fetchrow_update_some with (r := r); [by eexists| |done|done].
  apply fetchrow_unique; [done|apply String.eqb_refl|].
  intros x Hx E. apply String.eqb_eq in E. by eapply (NoDup_map_inj rv_id).
Qed.

(** The world after the expiry statement of an iteration *)
Definition expired_world (i : Instant) (w : World) : World := on_db (λ _, (expire_old_reservations (i_now i) (db w)).2) w.

(** An iteration with one reservation past its end is the expiry statement and the update
    of that reservation's space. *)
Lemma expiry_run i s r sp :
  (∀ c, faults c = None) → (∀ c, fault c = None) →
  List.filter (λ x, blocking (rv_status x) && (rv_end_time x <? i_now i)) (reservations (bg_db s)) = [r] →
  NoDup (map rv_id (reservations (bg_db s))) →
  get_space (rv_space_id r) (bg_db s) = Some sp → lock_free i (rv_space_id r) (bg_world s) →
  ∃ res w', update i (sp_id sp) FREE "reservation_expired" ("expiry_" +:+ rv_id r) (expired_world i (bg_world s)) = (Ok res, w') ∧
    _reservation_expiry_loop i s = mkBg w' (bg_manager s) ∧
    (∃ r', find_reservation (rv_id r) (db w') = Some r' ∧ rv_status r' = EXPIRED) ∧
    (∃ sp', get_space (rv_space_id r) (db w') = Some sp' ∧ sp_state sp' = FREE).
Proof.
  intros Hf Hg Hdue Hids Hs Hl. pose proof (get_space_id _ _ _ Hs) as Hid.
  assert (r ∈ reservations (bg_db s) ∧ blocking (rv_status r) && (rv_end_time r <? i_now i) = true) as [Hin Hr].
  { apply (filter_In_elem (λ x, blocking (rv_status x) && (rv_end_time x <? i_now i))). rewrite Hdue. by left. }
  apply andb_true_iff in Hr as [Hb He%Z.ltb_lt].
  destruct (expired_row (i_now i) (bg_db s) r Hin Hids Hb He) as (r' & Hr' & Hex & Hsp).
  set (w := expired_world i (bg_world s)).
  assert (get_space (sp_id sp) (db w) = Some sp) as Hs1 by (rewrite Hid; exact Hs).
  assert (lock_free i (sp_id sp) w) as Hl1 by (rewrite Hid; exact Hl).
  destruct (update_ok i sp FREE "reservation_expired" ("expiry_" +:+ rv_id r) w Hf Hl1 Hs1 (free_allowed _ _))
    as (res & w' & U & _ & (sp' & H1 & H2 & _) & H3).
  exists res, w'. split; [exact U|]. split; [|split; [exists r'; split; [|done]|rewrite <- Hid; by exists sp']].
  - unfold _reservation_expiry_loop, logged, try_catch, mbind, stE_bind, may_fail. rewrite Hg.
    assert (expire_old_reservations (i_now i) (bg_db s) = ([rv_id r], db w)) as ->.
    { unfold w, expired_world. cbn [db on_db]. unfold expire_old_reservations. rewrite Hdue. done. }
    change (bg_on_db (λ _, db w) s) with (mkBg w (bg_manager s)). cbn [free_all]. unfold mbind, stE_bind.
    assert (free_after_expiry i (rv_id r) (mkBg w (bg_manager s)) = (Ok tt, mkBg w' (bg_manager s))) as ->; [|done].
    unfold free_after_expiry, try_catch, mbind, stE_bind, get_st, may_fail, mret, stE_ret. rewrite Hg.
    change (bg_db (mkBg w (bg_manager s))) with ((expire_old_reservations (i_now i) (bg_db s)).2). rewrite Hr'.
    unfold bg_in_world. cbn [bg_world]. rewrite Hsp, <- Hid. by rewrite U.
  - unfold find_reservation in *. rewrite H3. exact Hr'.
Qed.

(** Expiry frees the space whatever its state.  When one reservation is past its end, an
    iteration of the expiry loop marks it expired and sets its space to FREE, also when a
    car stands there (OCCUPIED), when the space is under MAINTENANCE, and when it is already
    RESERVED for the next booking. *)
Theorem expiry_overrides_state i s r sp :
  (∀ c, faults c = None) → (∀ c, fault c = None) →
  List.filter (λ x, blocking (rv_status x) && (rv_end_time x <? i_now i)) (reservations (bg_db s)) = [r] →
  NoDup (map rv_id (reservations (bg_db s))) →
  get_space (rv_space_id r) (bg_db s) = Some sp → lock_free i (rv_space_id r) (bg_world s) →
  let s' := _reservation_expiry_loop i s in
  (∃ r', find_reservation (rv_id r) (bg_db s') = Some r' ∧ rv_status r' = EXPIRED) ∧
  (∃ sp', get_space (rv_space_id r) (bg_db s') = Some sp' ∧ sp_state sp' = FREE).
Proof.
  intros Hf Hg Hdue Hids Hs Hl s'. destruct (expiry_run i s r sp) as (res & w' & _ & E & H); [done..|].
  subst s'. by rewrite E.
Qed.

(** *** Displays *)

Lemma keys_differ device_eui : pending_key device_eui ≠ last_uplink_key device_eui.
Proof. unfold pending_key, last_uplink_key. by intros H%(inj (String.append "device:"))%(inj (String.append device_eui)). Qed.

Lemma kuando_report_wf now request_id bs : wf_json (kuando_report now request_id bs).
Proof.
  split; [|repeat split]. apply (bool_decide_eq_true_1 (NoDup ["timestamp"; "downlinks_received"; "rgb"; "options"; "request_id"])). vm_compute. reflexivity.
Qed.

(** The verification stores the light's report for an hour, whatever it finds pending. *)
Lemma verify_kuando_stores (ufault : UplinkCall → option exn) now device_eui request_id bs w t :
  (∀ c, ufault c = None) → Forall is_byte bs → (8 ≤ length bs)%nat → now ≤ t < now + 3600 * sec →
  r_get (redis (verify_kuando ufault now device_eui request_id (JText (b64encode bs)) w).2) t (last_uplink_key device_eui)
  = Some (dumps (kuando_report now request_id bs)).
Proof.
  intros Hf Hbs Hlen Ht.
  set (v := dumps (kuando_report now request_id bs)).
  enough (str_at t (last_uplink_key device_eui)
            (dump (redis (verify_kuando ufault now device_eui request_id (JText (b64encode bs)) w).2)) = Some v) as H
    by by rewrite r_get_law.
  assert (∀ s, str_at t (last_uplink_key device_eui) (ks_set now (last_uplink_key device_eui) v (Some 3600) s) = Some v) as Hset.
  { intros s. rewrite str_at_set. by rewrite (proj2 (Z.ltb_lt t (now + 3600 * sec))) by lia. }
  unfold verify_kuando, verify_kuando_body, try_catch, mbind, stE_bind, lift, may_fail, modify_st.
  cbn [py_b64decode]. rewrite b64_roundtrip by done. destruct (Nat.ltb_spec (length bs) 8); [lia|].
  rewrite !Hf. set (w1 := on_redis _ w). assert (str_at t (last_uplink_key device_eui) (dump (redis w1)) = Some v) as H1.
  { subst w1. cbn [on_redis redis]. rewrite r_set_law. apply Hset. }
  destruct (negb (truthy _)); [exact H1|]. destruct (downlink_confirmed _ bs) as [[]|e]; [|exact H1..].
  cbn [on_redis redis snd]. rewrite r_del_law. erewrite str_at_ext; [exact H1|]. apply lookup_del_ne, keys_differ.
Qed.

(** The reconciliation trusts the light's last report.  After a status frame of a Kuando
    light, for an hour, reconciling its space compares the colour bytes of that frame, as
    they come back through Redis and JSON, with the code of the space's state: nothing at
    all happens when they are equal, and otherwise the display is pushed the state's
    code. *)
Theorem reported_colour_decides (ufault : UplinkCall → option exn) i now request_id bs s dd w expected_hex r g b rest :
  (∀ c, ufault c = None) → (∀ c, fault c = None) → Forall is_byte bs → (8 ≤ length bs)%nat →
  now ≤ i_now i < now + 3600 * sec →
  assoc (state_value (sp_state s)) (dd_display_codes dd) = Some expected_hex →
  bytes_fromhex expected_hex = Some (r :: g :: b :: rest) →
  let w1 := (verify_kuando ufault now (dd_dev_eui dd) request_id (JText (b64encode bs)) w).2 in
  (reconcile_space i (s, dd) w1).2 =
    if (nth 1 bs 0 =? r) && (nth 2 bs 0 =? g) && (nth 3 bs 0 =? b) then w1
    else refresh_display i s dd "reconciliation" w1.
Proof.
  intros Hu Hf Hbs Hlen Ht Hc Hx w1. unfold reconcile_space, mbind, stE_bind, may_fail. rewrite Hf.
  assert (r_get (redis w1) (i_now i) (last_uplink_key (dd_dev_eui dd)) = Some (dumps (kuando_report now request_id bs))) as ->
    by by apply verify_kuando_stores.
  assert (truthy (Some (dumps (kuando_report now request_id bs))) = true) as -> by done.
  cbn [or_else]. rewrite loads_dumps by apply kuando_report_wf. cbn [mret stE_ret py_get_or py_get mbind result_bind kuando_report].
  unfold lift. cbn [assoc String.eqb Ascii.eqb Bool.eqb or_else mret result_ret]. rewrite Hc.
  destruct expected_hex as [|c x]; [discriminate|]. rewrite Hx. unfold rgb_differs, eq_int, json_number.
  assert (∀ a b, Qeq_bool (inject_Z a) (inject_Z b) = (b =? a)) as Hq.
  { intros x0 y0. apply eq_true_iff_eq. rewrite Qeq_bool_iff, Z.eqb_eq. rewrite inject_Z_injective. lia. }
  rewrite !Hq. by destruct (nth 1 bs 0 =? r), (nth 2 bs 0 =? g), (nth 3 bs 0 =? b).
Qed.

(** *** The bodies of the timers *)

Lemma expired_found now r d :
  r ∈ reservations d → NoDup (map rv_id (reservations d)) → blocking (rv_status r) = true →
  ∃ r', find_reservation (rv_id r) (expire_reservation now (rv_id r) d) = Some r' ∧ rv_status r' = EXPIRED.
Proof.
  intros Hin Hids Hb. unfold find_reservation. cbn [expire_reservation with_reservations reservations].
  rewrite fetchrow_update_some with (r := r); [by eexists| |done|by rewrite String.eqb_refl].
  apply fetchrow_unique; [done|apply String.eqb_refl|].
  intros x Hx Ex. apply String.eqb_eq in Ex. by eapply (NoDup_map_inj rv_id).
Qed.

(** The body of the task at the start marks the free space RESERVED. *)
Lemma start_task_reserves i reservation_id s sp :
  (∀ c, faults c = None) → lock_free i (sp_id sp) (bg_world s) → get_space (sp_id sp) (bg_db s) = Some sp → sp_state sp = FREE →
  let s' := (_reservation_start_task i reservation_id (sp_id sp) s).2 in
  (∃ sp', get_space (sp_id sp) (bg_db s') = Some sp' ∧ sp_state sp' = RESERVED) ∧
  scheduled_tasks (bg_manager s') = del_entry (task_name AStart reservation_id) (scheduled_tasks (bg_manager s)).
Proof.
  intros Hf Hl Hs Hst s'.
  destruct (update_ok i sp RESERVED "reservation_start" ("bg_task_" +:+ reservation_id) (bg_world s) Hf Hl Hs)
    as (res & w & U & _ & (sp1 & H1 & H2 & _) & _); [right; by rewrite Hst|].
  subst s'. unfold _reservation_start_task, try_catch, mbind, stE_bind, bg_in_world. rewrite U. cbn. by split; [exists sp1|].
Qed.

(** That of the task at the end frees the space and marks the reservation expired. *)
Lemma end_task_frees i r s sp :
  (∀ c, faults c = None) → (∀ c, fault c = None) → lock_free i (sp_id sp) (bg_world s) →
  get_space (sp_id sp) (bg_db s) = Some sp →
  r ∈ reservations (bg_db s) → NoDup (map rv_id (reservations (bg_db s))) → blocking (rv_status r) = true →
  let s' := (_reservation_end_task i (rv_id r) (sp_id sp) s).2 in
  (∃ sp', get_space (sp_id sp) (bg_db s') = Some sp' ∧ sp_state sp' = FREE) ∧
  (∃ r', find_reservation (rv_id r) (bg_db s') = Some r' ∧ rv_status r' = EXPIRED) ∧
  scheduled_tasks (bg_manager s') = del_entry (task_name AEnd (rv_id r)) (scheduled_tasks (bg_manager s)).
Proof.
  intros Hf Hg Hl Hs Hin Hids Hb s'.
  destruct (update_ok i sp FREE "reservation_end" ("bg_task_" +:+ rv_id r) (bg_world s) Hf Hl Hs (free_allowed _ _))
    as (res & w & U & _ & (sp1 & H1 & H2 & _) & H3).
  subst s'. unfold _reservation_end_task, try_catch, mbind, stE_bind, bg_in_world, may_fail. rewrite U, Hg. cbn.
  split; [by exists sp1|]. split; [|done]. apply expired_found; rewrite ?H3; done.
Qed.
End Tasks.

(** ** Witnesses *)

Section Demo.
#[local] Existing Instance gmap_redis.

Definition demo_booking : Reservation :=
  mkReservation "r1" "s1" "t1" "q1" (100 * sec) (200 * sec) None None CONFIRMED None 0 0.

Definition bay (st : SpaceState) : Space := mkSpace "s1" "Bay 1" "A1" None None None None None st None (Some "t1") None None None 0 0 None.

Definition demo_bg (st : SpaceState) : BgState :=
  mkBg (mkWorld (∅ : store) (mkDb [bay st] [demo_booking] [] [] [] [] [] []) []) (mkManager true [] [] 0).

Definition instant (t : Z) : Instant := mkInstant t (t + sec) (λ s, s) "c1".


(** A car still stands on the space when its booking expires. *)
Lemma expiry_overrides_state_witness :
  let s' := _reservation_expiry_loop (λ x, x) demo_config (λ _, None) (λ _, None) (instant (260 * sec)) (demo_bg OCCUPIED) in
  ∃ sp', get_space "s1" (bg_db s') = Some sp' ∧ sp_state sp' = FREE.
Proof.
  exact (proj2 (expiry_overrides_state (λ x, x) demo_config (λ _, None) (λ _, None) (instant (260 * sec)) (demo_bg OCCUPIED)
    demo_booking (bay OCCUPIED) (λ _, eq_refl) (λ _, eq_refl) eq_refl (NoDup_singleton _) eq_refl eq_refl)).
Defined.

Definition light : DisplayDevice :=
  mkDisplayDevice "d1" "2020203705250102" "kuando_busylight" true [("FREE", "0000FFFF00")] 15 false None None "active" None 0 0.

Lemma reported_colour_decides_witness :
  let w := bg_world (demo_bg FREE) in
  let w1 := (verify_kuando (λ _, None) 0 "2020203705250102" "q" (JText (b64encode [7; 0; 0; 255; 0; 0; 0; 0])) w).2 in
  (reconcile_space (λ x, x) demo_config (λ _, None) (λ _, None) (instant (60 * sec)) (bay FREE, light) w1).2 = w1.
Proof.
  exact (reported_colour_decides (λ x, x) demo_config (λ _, None) (λ _, None) (λ _, None) (instant (60 * sec)) 0 "q"
    [7; 0; 0; 255; 0; 0; 0; 0] (bay FREE) light (bg_world (demo_bg FREE)) "0000FFFF00" 0 0 255 [255; 0]
    (λ _, eq_refl) (λ _, eq_refl) ltac:(repeat constructor; unfold is_byte; lia) ltac:(cbn; lia)
    ltac:(unfold instant, sec; cbn; lia) eq_refl eq_refl).
Defined.
End Demo.
