(* ===== verification/Devices.v ===== *)
(** * Devices: the device registry

    Models src/src/routers/devices.py on the tables [sensor_devices] and
    [display_devices], with the names, descriptions and profiles the network server keeps
    (ChirpStack.v).  The two tables are read through one record, [DeviceRow], of the
    columns both have; columns that are only copied into an answer are left out.  A call
    raises what [fault] says.  The tables' own definitions are not in the repository: what
    the driver and a column's constraints make of an argument is the class
    [DeviceColumns].  [decode_jsonb] is the driver's decoding of a JSONB column. *)

From S2P Require Import Prelude PyUtils Json Models Database OrphanDevices Gateways ChirpStack.

Open Scope Z_scope.

(** ** Rows of both tables *)

Inductive Category := CSensor | CDisplay.

#[export] Instance category_eq_dec : EqDecision Category.
Proof. solve_decision. Defined.

Definition category_name (c : Category) : string := match c with CSensor => "sensor" | CDisplay => "display" end.

Record DeviceRow := mkDevice {
  de_id : string; de_deveui : string; de_device_type : string; de_device_model : option string;
  de_manufacturer : option string; de_enabled : bool; de_status : string; de_last_seen_at : option Z;
  de_created_at : Z; de_updated_at : Z;
}.

Definition of_sensor (s : SensorDevice) : DeviceRow :=
  mkDevice (sd_id s) (sd_dev_eui s) (sd_device_type s) (sd_device_model s) (sd_manufacturer s) (sd_enabled s)
    (sd_status s) (Some (sd_last_seen_at s)) (sd_created_at s) (sd_updated_at s).

Definition of_display (s : DisplayDevice) : DeviceRow :=
  mkDevice (dd_id s) (dd_dev_eui s) (dd_device_type s) (dd_device_model s) (dd_manufacturer s) (dd_enabled s)
    (dd_status s) (dd_last_seen_at s) (dd_created_at s) (dd_updated_at s).

Definition devices (c : Category) (d : Db) : list DeviceRow :=
  match c with CSensor => map of_sensor (sensor_devices d) | CDisplay => map of_display (display_devices d) end.

(** The column of [spaces] that names a device of the category *)
Definition space_eui (c : Category) (s : Space) : option string :=
  match c with CSensor => sp_sensor_eui s | CDisplay => sp_display_eui s end.

Inductive DeviceCall := DList (c : Category) | DName (deveui : string) | DRow (c : Category) | DSpace (c : Category)
| DUpdate (c : Category) | DChirp | DChirpUpdate.

(** ** The listing *)

Record DeviceEntry := mkEntry {
  en_id : string; en_deveui : string; en_category : Category; en_device_type : string;
  en_device_model : option string; en_manufacturer : option string; en_enabled : bool; en_status : string;
  en_name : string; en_description : string; en_last_seen_at : option Z; en_created_at : Z; en_updated_at : Z;
}.

Record ListQuery := mkListQuery {
  lq_device_type : option string; lq_device_category : option string; lq_status : option string;
  lq_enabled : option bool; lq_include_archived : bool; lq_include_orphans : bool;
}.

Definition PLATFORM_TENANT_ID : string := "00000000-0000-0000-0000-000000000000".

Definition is_platform_admin (tenant : TenantContext) : bool :=
  bool_decide (tc_user_role tenant = Some PLATFORM_ADMIN) && String.eqb (tc_tenant_id tenant) PLATFORM_TENANT_ID.

(** EXISTS (SELECT 1 FROM spaces ...) *)
Definition assigned_to (tenant_id : string) (c : Category) (d : Db) (v : DeviceRow) : bool :=
  existsb (λ s, bool_decide (space_eui c s = Some (de_deveui v)) && bool_decide (sp_tenant_id s = Some tenant_id) &&
                live_space s) (spaces d).

Definition is_orphan_device (v : DeviceRow) : bool := String.eqb (de_status v) "orphan".

Definition tenant_scope (tenant : TenantContext) (q : ListQuery) (c : Category) (d : Db) : list (DeviceRow → bool) :=
  if is_platform_admin tenant then []
  else if lq_include_orphans q then [λ v, is_orphan_device v || assigned_to (tc_tenant_id tenant) c d v]
  else [assigned_to (tc_tenant_id tenant) c d].

Definition filters (q : ListQuery) (device_type : option string) : list (DeviceRow → bool) :=
  (match device_type with Some t => [λ v, String.eqb (de_device_type v) t] | None => [] end ++
   match lq_status q with Some t => [λ v, String.eqb (de_status v) t] | None => [] end ++
   match lq_enabled q with
   | Some b => [λ v, Bool.eqb (de_enabled v) b]
   | None => if lq_include_archived q then [] else [de_enabled]
   end)%list.

(** The text of the query always has the word WHERE: without a condition it is no SQL. *)
Definition where_clause (conditions : list (DeviceRow → bool)) : result exn (DeviceRow → bool) :=
  match conditions with
  | [] => Err (PyException "syntax error at or near 'ORDER'")
  | _ => Ok (λ v, forallb (λ p, p v) conditions)
  end.

(** ORDER BY created_at DESC *)
Definition newest_first (a b : DeviceRow) : Prop := de_created_at b ≤ de_created_at a.
#[export] Instance newest_first_dec : RelDecision newest_first := fun a b => decide (de_created_at b ≤ de_created_at a).

Section Listing.
Context (fault : DeviceCall → option exn).

Definition fetch_devices (tenant : TenantContext) (q : ListQuery) (c : Category) (device_type : option string) (d : Db)
    : result exn (list DeviceRow) :=
  p ← where_clause (tenant_scope tenant q c d ++ filters q device_type)%list;
  match fault (DList c) with
  | Some e => Err e
  | None => Ok (merge_sort newest_first (List.filter p (devices c d)))
  end.

(** The device at the network server, with its profile (a LEFT JOIN) *)
Definition cs_device_of (deveui : string) (cs : ChirpDb) : option (CsDevice * option DeviceProfile) :=
  match fetchrow (λ x, String.eqb (str_upper (bytes_hex (cd_dev_eui x))) (str_upper deveui)) (cs_device cs) with
  | Some x => Some (x, fetchrow (λ p, String.eqb (dp_id p) (cd_device_profile_id x)) (device_profile cs))
  | None => None
  end.

Definition shown_type (cs : ChirpDb) (v : DeviceRow) : string :=
  match cs_device_of (de_deveui v) cs with
  | Some (_, Some p) => if non_empty (dp_name p) then dp_name p else de_device_type v
  | _ => de_device_type v
  end.

Definition device_entry (c : Category) (cs : ChirpDb) (v : DeviceRow) : DeviceEntry :=
  let cs_device := fst <$> cs_device_of (de_deveui v) cs in
  mkEntry (de_id v) (de_deveui v) c (shown_type cs v) (de_device_model v) (de_manufacturer v) (de_enabled v)
    (de_status v) (match cs_device with Some x => cd_name x | None => de_deveui v end)
    (match cs_device with Some x => cd_description x | None => "" end)
    (de_last_seen_at v) (de_created_at v) (de_updated_at v).

(** The loop over the rows assigns the type it shows to [device_type], the variable the
    filter of the next query reads. *)
Fixpoint append_rows (c : Category) (cs : ChirpDb) (rows : list DeviceRow) (device_type : option string)
    : result exn (list DeviceEntry * option string) :=
  match rows with
  | [] => Ok ([], device_type)
  | v :: rows =>
      match fault (DName (str_upper (de_deveui v))) with
      | Some e => Err e
      | None =>
          r ← append_rows c cs rows (Some (shown_type cs v));
          Ok (device_entry c cs v :: r.1, r.2)
      end
  end.

(** [access_type], which the log lines after the second query and at the end read, is only
    bound where sensors are fetched. *)
Definition unbound_access_type : exn :=
  PyException "cannot access local variable 'access_type' where it is not associated with a value".

Definition list_devices_body (tenant : TenantContext) (q : ListQuery) (d : Db) (cs : ChirpDb)
    : result exn (list DeviceEntry) :=
  let wants c := negb (bool_decide (lq_device_category q = Some (match c with CSensor => "display" | CDisplay => "sensor" end))) in
  '(sensors, device_type) ← (if wants CSensor
                             then rows ← fetch_devices tenant q CSensor (lq_device_type q) d;
                                  append_rows CSensor cs rows (lq_device_type q)
                             else Ok ([], lq_device_type q));
  displays ← (if wants CDisplay
              then rows ← fetch_devices tenant q CDisplay device_type d;
                   if wants CSensor then fst <$> append_rows CDisplay cs rows device_type
                   else Err unbound_access_type
              else Ok []);
  Ok (sensors ++ displays)%list.

Definition list_devices (tenant : TenantContext) (q : ListQuery) (d : Db) (cs : ChirpDb) : result exn (list DeviceEntry) :=
  match list_devices_body tenant q d cs with
  | Ok l => Ok l
  | Err e => Err (HTTPException 500 (message e))
  end.
End Listing.

(** ** One device *)

Record AssignedSpace := mkAssigned { as_id : string; as_name : string; as_code : string }.

Definition is_device (deveui : string) (v : DeviceRow) : bool := String.eqb (de_deveui v) deveui.

(** The live space that names the device, and the answer's three columns of it *)
Definition space_of_device (c : Category) (deveui : string) (d : Db) : option Space :=
  fetchrow (λ s, bool_decide (space_eui c s = Some deveui) && live_space s) (spaces d).

Definition assigned_space (c : Category) (deveui : string) (d : Db) : option AssignedSpace :=
  (λ s, mkAssigned (sp_id s) (sp_name s) (sp_code s)) <$> space_of_device c deveui d.

Definition device_not_found (deveui : string) : exn := HTTPException 404 ("Device " +:+ deveui +:+ " not found").

Section Device.
Context (fault : DeviceCall → option exn).

(** A query of the pool *)
Definition select {A} (c : DeviceCall) (f : Db → A) : stE Db exn A := may_fail (fault c) (λ d, (Ok (f d), d)).

Definition get_device (deveui : string) : stE Db exn (Category * DeviceRow * option AssignedSpace) :=
  as_server_error (
    sensor ← select (DRow CSensor) (λ d, fetchrow (is_device deveui) (devices CSensor d));
    match sensor with
    | Some v => s ← select (DSpace CSensor) (assigned_space CSensor deveui); mret (CSensor, v, s)
    | None =>
        display ← select (DRow CDisplay) (λ d, fetchrow (is_device deveui) (devices CDisplay d));
        match display with
        | Some v => s ← select (DSpace CDisplay) (assigned_space CDisplay deveui); mret (CDisplay, v, s)
        | None => raise (device_not_found deveui)
        end
    end).

(** The rows of devices LEFT JOIN spaces: one per matching space, or one without *)
Definition with_space (c : Category) (d : Db) (v : DeviceRow) : list (Category * DeviceRow * option Space) :=
  match List.filter (λ s, bool_decide (space_eui c s = Some (de_deveui v)) && live_space s) (spaces d) with
  | [] => [(c, v, None)]
  | l => map (λ s, (c, v, Some s)) l
  end.

Definition metadata_rows (c : Category) (d : Db) : list (Category * DeviceRow * option Space) :=
  flat_map (with_space c d) (merge_sort newest_first (List.filter de_enabled (devices c d))).

Definition get_device_metadata : stE Db exn (list (Category * DeviceRow * option Space)) :=
  as_server_error (
    sensors ← select (DList CSensor) (metadata_rows CSensor);
    displays ← select (DList CDisplay) (metadata_rows CDisplay);
    mret (sensors ++ displays)%list).

(** *** Updates *)

Class DeviceColumns := {
  text_column : string → json → result exn string;
  nullable_column : string → json → result exn (option string);
  bool_column : string → json → result exn bool;
}.

Context {K : DeviceColumns}.

Record DeviceChange := mkChange {
  dc_device_type : option string; dc_device_model : option (option string); dc_manufacturer : option (option string);
  dc_enabled : option bool; dc_status : option string;
}.

Definition known_fields : list string := ["device_type"; "device_model"; "manufacturer"; "enabled"; "status"].

Definition has_updates (update_data : list (string * json)) : bool :=
  existsb (λ k, bool_decide (is_Some (assoc k update_data))) known_fields.

Definition field {A} (k : string) (column : string → json → result exn A) (update_data : list (string * json))
    : result exn (option A) :=
  match assoc k update_data with Some j => Some <$> column k j | None => Ok None end.

(** The arguments of the UPDATE *)
Definition read_change (update_data : list (string * json)) : result exn DeviceChange :=
  device_type ← field "device_type" text_column update_data;
  device_model ← field "device_model" nullable_column update_data;
  manufacturer ← field "manufacturer" nullable_column update_data;
  enabled ← field "enabled" bool_column update_data;
  status ← field "status" text_column update_data;
  mret (mkChange device_type device_model manufacturer enabled status).

Definition change_sensor (now : Z) (ch : DeviceChange) (s : SensorDevice) : SensorDevice :=
  mkSensorDevice (sd_id s) (sd_dev_eui s) (or_else (dc_device_type ch) (sd_device_type s)) (sd_device_type_id s)
    (or_else (dc_device_model ch) (sd_device_model s)) (or_else (dc_status ch) (sd_status s))
    (or_else (dc_enabled ch) (sd_enabled s)) (sd_last_seen_at s) (or_else (dc_manufacturer ch) (sd_manufacturer s))
    (sd_created_at s) now.

Definition change_display (now : Z) (ch : DeviceChange) (s : DisplayDevice) : DisplayDevice :=
  mkDisplayDevice (dd_id s) (dd_dev_eui s) (or_else (dc_device_type ch) (dd_device_type s))
    (or_else (dc_enabled ch) (dd_enabled s)) (dd_display_codes s) (dd_fport s) (dd_confirmed_downlinks s)
    (or_else (dc_device_model ch) (dd_device_model s)) (or_else (dc_manufacturer ch) (dd_manufacturer s))
    (or_else (dc_status ch) (dd_status s)) (dd_last_seen_at s) (dd_created_at s) now.

(** UPDATE ... WHERE dev_eui = $n, on one of the tables *)
Definition change_device (now : Z) (c : Category) (deveui : string) (ch : DeviceChange) (d : Db) : Db :=
  match c with
  | CSensor => with_sensor_devices (sql_update (λ s, String.eqb (sd_dev_eui s) deveui) (change_sensor now ch)) d
  | CDisplay => with_display_devices (sql_update (λ s, String.eqb (dd_dev_eui s) deveui) (change_display now ch)) d
  end.

(** The answer: the device and its category *)
Definition update_table (now : Z) (c : Category) (deveui : string) (update_data : list (string * json))
    : stE Db exn (string * Category) :=
  if negb (has_updates update_data) then raise (HTTPException 400 "No fields to update")
  else
    ch ← lift (read_change update_data);
    _ ← may_fail (fault (DUpdate c)) (modify_st (change_device now c deveui ch));
    mret (deveui, c).

Definition exists_in (c : Category) (deveui : string) (d : Db) : bool := existsb (is_device deveui) (devices c d).

Definition update_device (now : Z) (deveui : string) (update_data : list (string * json))
    : stE Db exn (string * Category) :=
  as_server_error (
    sensor_exists ← select (DRow CSensor) (exists_in CSensor deveui);
    if sensor_exists : bool then update_table now CSensor deveui update_data
    else
      display_exists ← select (DRow CDisplay) (exists_in CDisplay deveui);
      if display_exists : bool then update_table now CDisplay deveui update_data
      else raise (device_not_found deveui)).

Definition archived : DeviceChange := mkChange None None None (Some false) None.

(** UPDATE ... SET enabled = false ... RETURNING dev_eui *)
Definition archive_in (now : Z) (c : Category) (deveui : string) : stE Db exn bool :=
  may_fail (fault (DUpdate c)) (λ d, (Ok (exists_in c deveui d), change_device now c deveui archived d)).

(** [confirm] is not looked at. *)
Definition archive_device (now : Z) (deveui : string) (confirm : bool) : stE Db exn (string * Category) :=
  as_server_error (
    sensor_result ← archive_in now CSensor deveui;
    if sensor_result : bool then mret (deveui, CSensor)
    else
      display_result ← archive_in now CDisplay deveui;
      if display_result : bool then mret (deveui, CDisplay) else raise (device_not_found deveui)).
End Device.

(** ** The description at the network server *)

Section Description.
Context (fault : DeviceCall → option exn) (decode_jsonb : list (string * json) → json).

Definition has_hex (deveui : string) (x : CsDevice) : bool :=
  String.eqb (bytes_hex (cd_dev_eui x)) (str_lower (str_upper deveui)).

Definition set_cs_device (now : Z) (description : option string) (tags : option (list (string * json))) (x : CsDevice)
    : CsDevice :=
  mkCsDevice (cd_dev_eui x) (cd_name x) (or_else description (cd_description x)) (cd_is_disabled x) (cd_last_seen_at x)
    (cd_device_profile_id x) (or_else tags (cd_tags x)) now.

(** The module does not import the [status] its [raise] statements use, so each of them
    raises this instead, and so does the [except] clause. *)
Definition status_undefined : exn := PyException "name 'status' is not defined".

Definition description_body (now : Z) (deveui : string) (description : option string)
    (tags : option (list (string * json))) : stE ChirpDb exn CsDevice :=
  current ← may_fail (fault DChirp) (λ cs, (Ok (fetchrow (has_hex deveui) (cs_device cs)), cs));
  match current with
  | None => raise status_undefined
  | Some x =>
      updated_tags ← match tags with
                     | Some t => lift (Some <$> merge_tags (decode_jsonb (cd_tags x)) t)
                     | None => mret None
                     end;
      if bool_decide (description = None) && bool_decide (tags = None) then raise status_undefined
      else
        _ ← may_fail (fault DChirpUpdate) (modify_st (λ cs,
              mkChirp (sql_update (has_hex deveui) (set_cs_device now description updated_tags) (cs_device cs))
                (device_profile cs) (device_queue_item cs) (device_queue cs)));
        mret (set_cs_device now description updated_tags x)
  end.

Definition update_device_description (now : Z) (deveui : string) (description : option string)
    (tags : option (list (string * json))) : stE ChirpDb exn CsDevice :=
  try_catch (description_body now deveui description tags) (λ _, raise status_undefined).
End Description.

(** SELECT ... FROM device_profile ORDER BY name *)
Definition profile_by_name (a b : DeviceProfile) : Prop := string_leb (dp_name a) (dp_name b).
#[export] Instance profile_by_name_dec : RelDecision profile_by_name := fun a b => string_leb_dec (dp_name a) (dp_name b).

Definition list_chirpstack_device_profiles (fault : option exn) (cs : ChirpDb) : result exn (list DeviceProfile) :=
  match fault with
  | Some e => Err (HTTPException 500 ("Failed to fetch device profiles from ChirpStack: " +:+ message e))
  | None =>
      Ok (map (λ p, mkProfile (dp_id p) (dp_name p) (Some (or_else (dp_description p) ""))
                      (Some (or_else (dp_region p) "")) (Some (or_else (dp_mac_version p) ""))
                      (dp_supports_otaa p) (dp_supports_class_b p) (dp_supports_class_c p))
            (merge_sort profile_by_name (device_profile cs)))
  end.

(** What the table [device_types] has besides the columns of database.py; its definition is
    not in the repository. *)
Record TypeColumns := mkTypeColumns {
  ty_name : string; ty_manufacturer : option string; ty_enabled : bool; ty_default_config : json; ty_capabilities : json;
  ty_created_at : option Z; ty_updated_at : option Z;
}.

Section Types.
Context (columns : DeviceTypeRow → TypeColumns).

(** ORDER BY category, name *)
Definition type_before (a b : DeviceTypeRow) : Prop :=
  if String.eqb (dt_category a) (dt_category b) then string_leb (ty_name (columns a)) (ty_name (columns b))
  else string_leb (dt_category a) (dt_category b).
#[local] Instance type_before_dec : RelDecision type_before.
Proof. intros a b. unfold type_before. destruct (String.eqb _ _); apply string_leb_dec. Defined.

(** WHERE enabled = true, and the category unless it is empty *)
Definition listed_type (category : option string) (t : DeviceTypeRow) : bool :=
  ty_enabled (columns t) && (negb (truthy category) || String.eqb (dt_category t) (or_else category "")).

Definition type_json (t : DeviceTypeRow) : json :=
  let c := columns t in
  let when (o : option Z) := match o with Some t => iso t | None => JNull end in
  JObj [("id", JText (dt_id t)); ("type_code", JText (dt_type_code t)); ("category", JText (dt_category t));
        ("name", JText (ty_name c)); ("manufacturer", text_or_null (ty_manufacturer c));
        ("handler_class", text_or_null (dt_handler_class t)); ("default_config", ty_default_config c);
        ("capabilities", ty_capabilities c); ("enabled", JBool (ty_enabled c)); ("status", JText (dt_status t));
        ("chirpstack_profile_name", JText (dt_profile_name t)); ("created_at", when (ty_created_at c));
        ("updated_at", when (ty_updated_at c))].

Definition list_device_types (fault : option exn) (category : option string) (d : Db) : result exn (list json) :=
  match fault with
  | Some e => Err (HTTPException 500 (message e))
  | None => Ok (map type_json (merge_sort type_before (List.filter (listed_type category) (device_types d))))
  end.

End Types.

(** ** Properties *)

(** The rows a query returns *)
Definition matching (tenant : TenantContext) (q : ListQuery) (c : Category) (device_type : option string) (d : Db)
    : list DeviceRow :=
  merge_sort newest_first
    (List.filter (λ v, forallb (λ p, p v) (tenant_scope tenant q c d ++ filters q device_type)%list) (devices c d)).

(** The last value the loop gives [device_type] *)
Definition type_after (cs : ChirpDb) (rows : list DeviceRow) (device_type : option string) : option string :=
  match last rows with Some v => Some (shown_type cs v) | None => device_type end.

Section ListingFacts.
Context (fault : DeviceCall → option exn) (cs : ChirpDb).

Lemma append_rows_ok c rows t r :
  append_rows fault c cs rows t = Ok r → r = (map (device_entry c cs) rows, type_after cs rows t).
Proof.
  revert t r. induction rows as [|v rows IH]; intros t r; cbn [append_rows]; [by intros [= <-]|].
  destruct (fault _); [done|]. unfold mbind, result_bind.
  destruct (append_rows _ _ _ rows _) as [r'|] eqn:E; [|done]. intros [= <-]. apply IH in E as ->.
  cbn [map fst snd]. f_equal. unfold type_after. rewrite last_cons. by destruct (last rows).
Qed.

Lemma append_rows_total c rows t :
  (∀ x, fault x = None) → append_rows fault c cs rows t = Ok (map (device_entry c cs) rows, type_after cs rows t).
Proof.
  intros Hf. revert t. induction rows as [|v rows IH]; intros t; cbn [append_rows]; [done|]. rewrite Hf, IH.
  unfold mbind, result_bind. cbn [map fst snd]. unfold type_after. rewrite last_cons. by destruct (last rows).
Qed.

Lemma fetch_devices_ok tenant q c t d rows :
  fetch_devices fault tenant q c t d = Ok rows → rows = matching tenant q c t d.
Proof.
  unfold fetch_devices, where_clause, matching, mbind, result_bind.
  destruct (tenant_scope tenant q c d ++ filters q t)%list; [done|].
  destruct (fault _); [done|]. by intros [= <-].
Qed.

(** What a listing that succeeds contains *)
Lemma list_devices_ok tenant q d l :
  list_devices fault tenant q d cs = Ok l →
  lq_device_category q ≠ Some "display" ∧
  let S := matching tenant q CSensor (lq_device_type q) d in
  l = (map (device_entry CSensor cs) S ++
       if bool_decide (lq_device_category q = Some "sensor") then []
       else map (device_entry CDisplay cs) (matching tenant q CDisplay (type_after cs S (lq_device_type q)) d))%list.
Proof.
  unfold list_devices, list_devices_body. destruct (bool_decide (lq_device_category q = Some "display")) eqn:Hd.
  - apply bool_decide_eq_true in Hd. rewrite Hd, bool_decide_false by done. cbn [negb].
    unfold mbind, result_bind. by destruct (fetch_devices _ _ _ CDisplay _ _).
  - apply bool_decide_eq_false in Hd. cbn [negb]. intros H. split; [done|]. cbn zeta. revert H.
    unfold mbind, result_bind.
    destruct (fetch_devices _ _ _ CSensor _ _) as [rows|] eqn:Es; [|done]. apply fetch_devices_ok in Es as ->.
    destruct (append_rows _ CSensor _ _ _) as [[ss t]|] eqn:Ea; [|done]. apply append_rows_ok in Ea as [= -> ->].
    destruct (bool_decide (lq_device_category q = Some "sensor")); cbn [negb]; [by intros [= <-]|].
    destruct (fetch_devices _ _ _ CDisplay _ _) as [rows|] eqn:Es'; [|done]. apply fetch_devices_ok in Es' as ->.
    destruct (append_rows _ CDisplay _ _ _) as [[ds t]|] eqn:Ea'; [|done]. apply append_rows_ok in Ea' as [= -> ->].
    by intros [= <-].
Qed.

Lemma matching_spec tenant q c t d v :
  v ∈ matching tenant q c t d ↔
  v ∈ devices c d ∧ Forall (λ p, p v = true) (tenant_scope tenant q c d) ∧ Forall (λ p, p v = true) (filters q t).
Proof.
  unfold matching. rewrite merge_sort_Permutation, filter_In_elem, forallb_app, andb_true_iff.
  by rewrite !forallb_forall, !Forall_forall; setoid_rewrite list_elem_of_In.
Qed.

Lemma entry_category c v : en_category (device_entry c cs v) = c.
Proof. done. Qed.

(** Every entry comes from a row of its category that the query matched. *)
Lemma listed_row tenant q d l e :
  list_devices fault tenant q d cs = Ok l → e ∈ l →
  ∃ t v, v ∈ matching tenant q (en_category e) t d ∧ e = device_entry (en_category e) cs v.
Proof.
  intros [_ ->]%list_devices_ok. rewrite elem_of_app. intros [H|H].
  - apply list_elem_of_fmap in H as (v & -> & Hv). eauto.
  - destruct (bool_decide _); [by apply elem_of_nil in H|]. apply list_elem_of_fmap in H as (v & -> & Hv). eauto.
Qed.
End ListingFacts.

(** C35. Tenant isolation of the listing.  Whatever the filters, a caller who is not a platform
    administrator is shown only devices that a live space of the own tenant names, and,
    unless excluded, devices of status orphan; a disabled device appears only when it is
    asked for. *)
Theorem device_listing_scoped fault tenant q d cs l e :
  is_platform_admin tenant = false → list_devices fault tenant q d cs = Ok l → e ∈ l →
  ∃ v, v ∈ devices (en_category e) d ∧ e = device_entry (en_category e) cs v ∧
    ((∃ s, s ∈ spaces d ∧ space_eui (en_category e) s = Some (en_deveui e) ∧
           sp_tenant_id s = Some (tc_tenant_id tenant) ∧ sp_deleted_at s = None) ∨
     lq_include_orphans q = true ∧ en_status e = "orphan") ∧
    (en_enabled e = true ∨ lq_include_archived q = true ∨ lq_enabled q = Some false).
Proof.
  intros Hp Hl He. destruct (listed_row _ _ _ _ _ _ _ Hl He) as (t & v & (Hv & Hscope & Hf)%matching_spec & Heq).
  exists v. split; [done|]. split; [done|]. rewrite Heq. set (c := en_category e) in *.
  cbn [device_entry en_category en_deveui en_status en_enabled].
  assert (assigned_to (tc_tenant_id tenant) c d v = true → ∃ s, s ∈ spaces d ∧ space_eui c s = Some (de_deveui v) ∧
           sp_tenant_id s = Some (tc_tenant_id tenant) ∧ sp_deleted_at s = None) as Hassigned.
  { intros (s & Hs & Ht)%existsb_exists. exists s. unfold live_space in Ht. rewrite !andb_true_iff, !bool_decide_eq_true in Ht.
    apply list_elem_of_In in Hs. tauto. }
  split.
  - unfold tenant_scope in Hscope. rewrite Hp in Hscope. destruct (lq_include_orphans q).
    + apply Forall_inv in Hscope. apply orb_true_iff in Hscope as [Ho|Ha]; [right|auto]. split; [done|].
      by apply String.eqb_eq in Ho.
    + apply Forall_inv in Hscope. auto.
  - unfold filters in Hf. rewrite !Forall_app in Hf. destruct Hf as (_ & _ & Hf).
    destruct (lq_enabled q) as [[]|]; [|by auto|].
    + apply Forall_inv, Bool.eqb_prop in Hf. auto.
    + destruct (lq_include_archived q); [auto|]. apply Forall_inv in Hf. auto.
Qed.

(** What the listing contains.  When the calls work and some condition stands in both
    queries, the answer is: the matching sensors, newest first, and then the displays,
    filtered by the type of the last sensor shown and not by the type asked for, since the
    loop over the sensors assigns to the parameter.  (A tenant whose last sensor has a
    profile no display has is shown no display.) *)
Theorem device_listing_spec fault tenant q d cs :
  (∀ x, fault x = None) → lq_device_category q ≠ Some "display" →
  (tenant_scope tenant q CSensor d ++ filters q None)%list ≠ [] →
  let S := matching tenant q CSensor (lq_device_type q) d in
  list_devices fault tenant q d cs = Ok
    (map (device_entry CSensor cs) S ++
     if bool_decide (lq_device_category q = Some "sensor") then []
     else map (device_entry CDisplay cs) (matching tenant q CDisplay (type_after cs S (lq_device_type q)) d))%list.
Proof.
  intros Hf Hd Hc S.
  assert (∀ c t, fetch_devices fault tenant q c t d = Ok (matching tenant q c t d)) as Hfetch.
  { intros c t. unfold fetch_devices, where_clause, mbind, result_bind, matching. rewrite Hf.
    destruct (tenant_scope tenant q c d ++ filters q t)%list eqn:E; [|done]. destruct Hc.
    apply app_eq_nil in E as [E1 E2]. destruct t; [done|]. rewrite E2, app_nil_r. revert E1. unfold tenant_scope.
    by destruct (is_platform_admin tenant), (lq_include_orphans q). }
  unfold list_devices, list_devices_body. rewrite (bool_decide_false _ Hd). cbn [negb].
  unfold mbind, result_bind. rewrite Hfetch, (append_rows_total _ _ _ _ _ Hf). fold S.
  destruct (bool_decide _); cbn [negb]; [done|]. rewrite Hfetch, (append_rows_total _ _ _ _ _ Hf). done.
Qed.

(** Two listings never answer.  Asking for displays only reads a variable that is bound
    where sensors are fetched, and a platform administrator who asks for everything,
    archived devices included, sends a query that ends in the word WHERE: both are 500.
    (The role check in front refuses platform administrators anyway, see Auth.) *)
Theorem device_listing_errors fault tenant q d cs :
  lq_device_category q = Some "display" ∨
  is_platform_admin tenant = true ∧ lq_include_archived q = true ∧ lq_device_type q = None ∧
    lq_status q = None ∧ lq_enabled q = None →
  ∃ m, list_devices fault tenant q d cs = Err (HTTPException 500 m).
Proof.
  intros H. destruct (list_devices fault tenant q d cs) as [l|e] eqn:E.
  - apply list_devices_ok in E as E'. destruct E' as [Hd _].
    destruct H as [H|(Hp & Ha & Ht & Hs & He)]; [done|]. revert E. unfold list_devices, list_devices_body.
    rewrite (bool_decide_false _ Hd). cbn [negb]. unfold fetch_devices, tenant_scope, filters.
    rewrite Hp, Ha, Ht, Hs, He. done.
  - unfold list_devices in E. destruct (list_devices_body _ _ _ _ _); [done|]. simplify_eq. eauto.
Qed.

(** *** Updates *)

Section UpdateFacts.
Context (fault : DeviceCall → option exn) {K : DeviceColumns}.

(** The visible effect of a change on a row of either table *)
Definition change_row (now : Z) (ch : DeviceChange) (v : DeviceRow) : DeviceRow :=
  mkDevice (de_id v) (de_deveui v) (or_else (dc_device_type ch) (de_device_type v))
    (or_else (dc_device_model ch) (de_device_model v)) (or_else (dc_manufacturer ch) (de_manufacturer v))
    (or_else (dc_enabled ch) (de_enabled v)) (or_else (dc_status ch) (de_status v)) (de_last_seen_at v)
    (de_created_at v) now.

(** The tables other than the two device tables *)
Definition other_tables (d d' : Db) : Prop :=
  spaces d' = spaces d ∧ reservations d' = reservations d ∧ state_changes d' = state_changes d ∧
  actuations d' = actuations d ∧ sensor_readings d' = sensor_readings d ∧ device_types d' = device_types d.

Lemma sql_update_map {A B} (f : A → B) (p : B → bool) (g : B → B) (p' : A → bool) (g' : A → A) l :
  (∀ x, p' x = p (f x)) → (∀ x, f (g' x) = g (f x)) → map f (sql_update p' g' l) = sql_update p g (map f l).
Proof.
  intros Hp Hg. unfold sql_update. rewrite !map_map. apply map_ext. intros x. rewrite Hp. by destruct (p (f x)).
Qed.

Lemma change_device_rows now c deveui ch d :
  devices c (change_device now c deveui ch d) = sql_update (is_device deveui) (change_row now ch) (devices c d).
Proof. destruct c; apply sql_update_map; done. Qed.

Lemma change_device_other now c c' deveui ch d :
  c' ≠ c → devices c' (change_device now c deveui ch d) = devices c' d.
Proof. by destruct c, c'. Qed.

Lemma change_device_tables now c deveui ch d : other_tables d (change_device now c deveui ch d).
Proof. by destruct c. Qed.

Lemma exists_in_false c deveui d v : exists_in c deveui d = false → v ∈ devices c d → is_device deveui v = false.
Proof.
  intros H Hv. apply not_true_is_false. intros Hd. unfold exists_in in H. apply not_true_iff_false in H. apply H.
  apply existsb_exists. exists v. apply list_elem_of_In in Hv. done.
Qed.

Lemma change_device_absent now c deveui ch d : exists_in c deveui d = false →
  ∀ c', devices c' (change_device now c deveui ch d) = devices c' d.
Proof.
  intros H c'. destruct (decide (c' = c)) as [->|Hne]; [|by apply change_device_other].
  rewrite change_device_rows. unfold sql_update. rewrite <- map_id. apply map_ext_in. intros v Hv.
  by rewrite (exists_in_false _ _ _ _ H (proj2 (list_elem_of_In _ _) Hv)).
Qed.

(** What a call of PUT /devices may do *)
Definition update_outcome (now : Z) (deveui : string) (update_data : list (string * json)) (d : Db)
    (r : result exn (string * Category)) (d' : Db) : Prop :=
  match r with
  | Err _ => d' = d
  | Ok (eui, c) =>
      eui = deveui ∧ (c = CDisplay → exists_in CSensor deveui d = false) ∧ has_updates update_data = true ∧
      other_tables d d' ∧ (∀ c', c' ≠ c → devices c' d' = devices c' d) ∧
      ∃ ch, read_change update_data = Ok ch ∧
            devices c d' = sql_update (is_device deveui) (change_row now ch) (devices c d)
  end.

Lemma update_table_outcome now c deveui update_data d :
  (c = CDisplay → exists_in CSensor deveui d = false) →
  wp (update_table fault now c deveui update_data) (update_outcome now deveui update_data d) d.
Proof.
  intros Hc. unfold update_table. destruct (has_updates update_data) eqn:Hu; cbn [negb]; [|by apply wp_raise].
  apply wp_bind, wp_lift. destruct (read_change update_data) as [ch|] eqn:Hr; [|done].
  apply wp_bind, wp_may_fail; [done|]. intros _. apply wp_modify, wp_ret.
  split_and!; [done|done|done|apply change_device_tables|intros; by apply change_device_other|].
  exists ch. split; [done|apply change_device_rows].
Qed.

Lemma wp_select {A} c (f : Db → A) (Q : result exn A → Db → Prop) d :
  (∀ e, Q (Err e) d) → Q (Ok (f d)) d → wp (select fault c f) Q d.
Proof. intros He Hok. apply wp_may_fail; auto. Qed.

(** What PUT /devices changes.  A call that fails (no such device, no known field, a value
    a column refuses, a query that raises) leaves the database as it was.  One that
    succeeds changes the rows of that EUI in the sensor table if it has one and in the
    display table otherwise, only in the fields named, never the identity, and nothing in
    any other table. *)
Theorem update_device_frame now deveui update_data d r d' :
  update_device fault now deveui update_data d = (r, d') → update_outcome now deveui update_data d r d'.
Proof.
  intros E. enough (wp (update_device fault now deveui update_data) (update_outcome now deveui update_data d) d) as H
    by (unfold wp in H; by rewrite E in H).
  apply wp_as_server_error; [done|]. apply wp_bind, wp_select; [done|].
  destruct (exists_in CSensor deveui d) eqn:Es; [by apply update_table_outcome|].
  apply wp_bind, wp_select; [done|].
  destruct (exists_in CDisplay deveui d); [by apply update_table_outcome|by apply wp_raise].
Qed.

Lemma archive_device_ok now deveui confirm d eui c d' :
  archive_device fault now deveui confirm d = (Ok (eui, c), d') →
  eui = deveui ∧ devices c d' = sql_update (is_device deveui) (change_row now archived) (devices c d) ∧ spaces d' = spaces d.
Proof.
  intros E. enough (wp (archive_device fault now deveui confirm) (λ r d', match r with Err _ => True | Ok (eui, c) =>
    eui = deveui ∧ devices c d' = sql_update (is_device deveui) (change_row now archived) (devices c d) ∧ spaces d' = spaces d end) d)
    as H by (unfold wp in H; by rewrite E in H). clear E.
  apply wp_as_server_error; [done|]. apply wp_bind, wp_may_fail; [done|]. intros _. unfold wp at 1. cbn [fst snd].
  destruct (exists_in CSensor deveui d) eqn:Es; [apply wp_ret; split_and!; [done|apply change_device_rows|done]|].
  apply wp_bind, wp_may_fail; [done|]. intros _. unfold wp at 1. cbn [fst snd].
  destruct (exists_in CDisplay deveui (change_device now CSensor deveui archived d)); [|by apply wp_raise].
  apply wp_ret. split_and!; [done|by rewrite change_device_rows, (change_device_other _ CSensor)|done].
Qed.

(** An archived device is gone from the listing.  After PATCH /devices/{eui}/archive
    answered (from any caller: it asks for no authentication), no tenant's listing shows
    the device in that category again unless archived devices are asked for; spaces keep
    naming it. *)
Theorem archived_device_not_listed now deveui confirm d eui c d' fault' tenant q cs l e :
  archive_device fault now deveui confirm d = (Ok (eui, c), d') →
  list_devices fault' tenant q d' cs = Ok l → lq_include_archived q = false → lq_enabled q ≠ Some false →
  e ∈ l → en_category e = c → en_deveui e ≠ deveui.
Proof.
  intros (-> & Hrows & _)%archive_device_ok Hl Ha He Hin Hc Heui.
  destruct (listed_row _ _ _ _ _ _ _ Hl Hin) as (t & v & (Hv & _ & Hf)%matching_spec & Heq).
  rewrite Hc in *. rewrite Hrows in Hv. apply list_elem_of_fmap in Hv as (v0 & -> & _).
  assert (de_enabled (if is_device deveui v0 then change_row now archived v0 else v0) = true) as Hen.
  { unfold filters in Hf. rewrite !Forall_app in Hf. destruct Hf as (_ & _ & Hf).
    destruct (lq_enabled q) as [[]|]; [|done|].
    - by apply Forall_inv, Bool.eqb_prop in Hf.
    - rewrite Ha in Hf. by apply Forall_inv in Hf. }
  rewrite Heq in Heui. cbn in Heui. destruct (is_device deveui v0) eqn:E; [done|].
  unfold is_device in E. rewrite Heui, String.eqb_refl in E. done.
Qed.
End UpdateFacts.

(** Nothing but a success or a 500 about a missing name comes out of the description
    endpoint: a device the network server does not know and a request without fields are
    not answered 404 and 400. *)
Lemma description_errors fault decode_jsonb now deveui description tags cs :
  match (update_device_description fault decode_jsonb now deveui description tags cs).1 with
  | Ok x => has_hex deveui x = true
  | Err e => e = status_undefined
  end.
Proof.
  unfold update_device_description. set (Q := λ (r : result exn CsDevice) (_ : ChirpDb),
    match r with Ok x => has_hex deveui x = true | Err e => e = status_undefined end).
  change (wp (try_catch (description_body fault decode_jsonb now deveui description tags) (λ _, raise status_undefined)) Q cs).
  apply wp_try. apply (wp_mono _ (λ r _, match r with Ok x => has_hex deveui x = true | Err _ => True end)).
  2: { by intros [x|e] cs' H. }
  apply wp_bind, wp_may_fail; [done|]. intros _. unfold wp at 1. cbn [fst snd].
  destruct (fetchrow _ _) as [x|] eqn:Ex; [|done]. apply find_some in Ex as [_ Hx].
  apply wp_bind. destruct tags as [t|].
  - apply wp_lift. destruct (merge_tags _ _); [|done]. cbn [fmap result_fmap].
    destruct (_ && _); [done|]. apply wp_bind, wp_may_fail; [done|]. intros _. by apply wp_modify, wp_ret.
  - apply wp_ret. destruct (_ && _); [done|]. apply wp_bind, wp_may_fail; [done|]. intros _. by apply wp_modify, wp_ret.
Qed.

(** ** Witnesses *)

Definition demo_sensor (eui type status : string) (created : Z) : SensorDevice :=
  mkSensorDevice eui eui type "dt1" None status true 0 None created created.
Definition demo_display_device (eui type : string) : DisplayDevice :=
  mkDisplayDevice eui eui type true [] 15 false None None "active" None 0 0.
Definition sensing_space (eui tenant_id : string) : Space :=
  mkSpace "s1" "Bay 1" "A1" None None None (Some eui) (Some "D1") FREE (Some "site") (Some tenant_id) None None None 0 0 None.

Definition devices_db : Db :=
  with_spaces (λ _, [sensing_space "E1" "t1"])
    (with_display_devices (λ _, [demo_display_device "D1" "heltec"])
      (with_sensor_devices (λ _, [demo_sensor "E1" "tabs" "active" 1; demo_sensor "E2" "tabs" "active" 2;
                                  demo_sensor "E3" "tabs" "orphan" 3]) empty_db)).

Definition viewer_of (t : string) : TenantContext :=
  mkTenantContext t t t (Some "u1") (Some VIEWER) None None "jwt".
Definition list_all : ListQuery := mkListQuery None None None None false true.
Definition no_devices : ChirpDb := mkChirp [] [] [] None.

#[export] Instance plain_columns : DeviceColumns := {
  text_column := λ k j, match j with JText s => Ok s | _ => Err (PyException k) end;
  nullable_column := λ k j, match j with JText s => Ok (Some s) | JNull => Ok None | _ => Err (PyException k) end;
  bool_column := λ k j, match j with JBool b => Ok b | _ => Err (PyException k) end;
}.

(** The listing of the tenant t1: the orphan and the own sensor, but not the display, whose
    type is not that of the last sensor. *)
Example listed_for_t1 :
  match list_devices (λ _, None) (viewer_of "t1") list_all devices_db no_devices with
  | Ok l => map en_deveui l = ["E3"; "E1"] | Err _ => False end.
Proof. vm_compute. reflexivity. Qed.

Lemma device_listing_scoped_witness :
  ∃ l, list_devices (λ _, None) (viewer_of "t1") list_all devices_db no_devices = Ok l ∧
       ∀ e, e ∈ l → en_deveui e = "E1" → en_enabled e = true ∨ lq_include_archived list_all = true ∨ lq_enabled list_all = Some false.
Proof.
  eexists. split; [vm_compute; reflexivity|]. intros e He _.
  destruct (device_listing_scoped (λ _, None) (viewer_of "t1") list_all devices_db no_devices _ e eq_refl eq_refl He)
    as (v & _ & _ & _ & H). exact H.
Defined.

Lemma device_listing_spec_witness :
  list_devices (λ _, None) (viewer_of "t1") list_all devices_db no_devices =
  Ok (map (device_entry CSensor no_devices) [of_sensor (demo_sensor "E3" "tabs" "orphan" 3); of_sensor (demo_sensor "E1" "tabs" "active" 1)]).
Proof.
  etrans; [apply (device_listing_spec (λ _, None) (viewer_of "t1") list_all devices_db no_devices)|].
  - reflexivity.
  - discriminate.
  - discriminate.
  - vm_compute. reflexivity.
Defined.

Lemma device_listing_errors_witness :
  ∃ m, list_devices (λ _, None) (viewer_of "t1") (mkListQuery None (Some "display") None None false true) devices_db no_devices
       = Err (HTTPException 500 m).
Proof. apply device_listing_errors. now apply or_introl. Defined.

Lemma update_device_frame_witness :
  let '(r, d') := update_device (λ _, None) 5 "D1" [("enabled", JBool false)] devices_db in
  r = Ok ("D1", CDisplay) ∧ update_outcome 5 "D1" [("enabled", JBool false)] devices_db r d'.
Proof.
  destruct (update_device (λ _, None) 5 "D1" [("enabled", JBool false)] devices_db) as [r d'] eqn:E. split.
  - vm_compute in E. by inversion E.
  - exact (update_device_frame _ _ _ _ _ _ _ E).
Defined.

Lemma archived_device_not_listed_witness :
  ∃ d', archive_device (λ _, None) 5 "E1" true devices_db = (Ok ("E1", CSensor), d') ∧
  ∀ l e, list_devices (λ _, None) (viewer_of "t1") list_all d' no_devices = Ok l → e ∈ l → en_category e = CSensor → en_deveui e ≠ "E1".
Proof.
  eexists. split; [vm_compute; reflexivity|]. intros l e Hl He Hc.
  refine (archived_device_not_listed (λ _, None) 5 "E1" true devices_db "E1" CSensor _ (λ _, None) (viewer_of "t1")
           list_all no_devices l e _ Hl eq_refl _ He Hc); [vm_compute; reflexivity|discriminate].
Defined.
