(* ===== verification/Cache.v ===== *)
(** * Cache: the response cache

    Models src/src/cache.py: a [CacheManager] over Redis with its counters, the decorator
    [cached] and the invalidation helpers.  A call to Redis raises what [fault] says; every
    operation catches what it raises.  The keys of the cache hold strings.  MD5 is the
    parameter [md5]; a rate is a rational, rounded as Python rounds.  The global [cache] is
    an option: [None] before [init_cache]. *)

From Stdlib Require Import QArith Qround.
From S2P Require Import Prelude PyUtils Json Redis Models.

Open Scope Z_scope.

Section Manager.
Context {R : Redis} (md5 : string → string).

Record CacheManager := mkCache { c_redis : store; _hit_count : Z; _miss_count : Z }.

Definition cache_get (now : Z) (fault : option exn) (key : string) (c : CacheManager) : option json * CacheManager :=
  match fault with
  | Some _ => (None, c)
  | None =>
      let cached := r_get (c_redis c) now key in
      if truthy cached then
        (loads (or_else cached ""), mkCache (c_redis c) (_hit_count c + 1) (_miss_count c))
      else (None, mkCache (c_redis c) (_hit_count c) (_miss_count c + 1))
  end.

Definition on_cache (fault : option exn) (f : store → store) (c : CacheManager) : CacheManager :=
  match fault with
  | Some _ => c
  | None => mkCache (f (c_redis c)) (_hit_count c) (_miss_count c)
  end.

(** SETEX refuses a time to live that is not positive. *)
Definition cache_set (now : Z) (fault : option exn) (key : string) (value : json) (ttl : Z) : CacheManager → CacheManager :=
  if ttl <=? 0 then id else on_cache fault (λ s, r_set s now key (dumps value) (Some ttl)).

Definition cache_delete (fault : option exn) (key : string) : CacheManager → CacheManager :=
  on_cache fault (λ s, r_del s key).

Definition delete_pattern (now : Z) (fault : option exn) (pattern : string) : CacheManager → CacheManager :=
  on_cache fault (λ s, foldl r_del s (r_keys s now pattern)).

Definition clear_all (fault : option exn) : CacheManager → CacheManager := on_cache fault r_flushdb.

(** [round], to the nearest and on ties to the even integer *)
Definition py_round (q : Q) : Z :=
  let f := Qfloor q in
  match (q - inject_Z f ?= 1 # 2)%Q with
  | Lt => f
  | Gt => f + 1
  | Eq => if Z.even f then f else f + 1
  end.

Definition hit_rate (c : CacheManager) : Q :=
  let total := _hit_count c + _miss_count c in
  if total =? 0 then 0%Q
  else (inject_Z (py_round (inject_Z (_hit_count c) / inject_Z total * 100 * 100)) / 100)%Q.

(** The key of a decorated call *)
Definition call_key (key_prefix name : string) (args : list json) (kwargs : list (string * json)) : string :=
  key_prefix +:+ ":" +:+ md5 (name +:+ ":" +:+ dumps (JArr args) +:+ ":" +:+ dumps (JObj kwargs)).

(** The decorator, around a call that may change the world [W].  What [loads] reads as
    null is Python's None, a miss. *)
Definition cached {W} (now : Z) (get_fault set_fault : option exn) (ttl : Z) (cache_key : string)
    (func : stE W exn json) : stE (CacheManager * W) exn json := λ '(c, w),
  let '(hit, c) := cache_get now get_fault cache_key c in
  match hit with
  | Some JNull | None =>
      let '(r, w) := func w in
      match r with
      | Ok JNull | Err _ => (r, (c, w))
      | Ok result => (Ok result, (cache_set now set_fault cache_key result ttl c, w))
      end
  | Some v => (Ok v, (c, w))
  end.

(** ** The global instance *)

Definition init_cache (s : store) : option CacheManager := Some (mkCache s 0 0).

Definition get_cache (cache : option CacheManager) : result exn CacheManager :=
  match cache with
  | Some c => Ok c
  | None => Err (PyException "Cache not initialized. Call init_cache() first.")
  end.

(** The helpers run some operations on the global cache. *)
Definition with_cache (f : CacheManager → CacheManager) : stE (option CacheManager) exn unit :=
  cache ← get_st;
  c ← lift (get_cache cache);
  put_st (Some (f c)).

Definition space_patterns (tenant_id : string) (space_id : option string) : list string :=
  match space_id with
  | Some s =>
      if non_empty s then ["spaces:*" +:+ tenant_id +:+ "*" +:+ s +:+ "*"; "space_detail:*" +:+ s +:+ "*"]
      else ["spaces:*" +:+ tenant_id +:+ "*"]
  | None => ["spaces:*" +:+ tenant_id +:+ "*"]
  end.

Definition delete_patterns (now : Z) (fault : option exn) (ps : list string) (c : CacheManager) : CacheManager :=
  foldl (λ c p, delete_pattern now fault p c) c ps.

Definition invalidate_space_cache (now : Z) (fault : option exn) (tenant_id : string) (space_id : option string) :=
  with_cache (delete_patterns now fault (space_patterns tenant_id space_id)).

Definition invalidate_reservation_cache (now : Z) (fault : option exn) (tenant_id : string) (reservation_id : option string) :=
  with_cache (delete_patterns now fault
    ((if truthy reservation_id then ["reservations:*" +:+ or_else reservation_id "" +:+ "*"] else []) ++
     ["reservations:*" +:+ tenant_id +:+ "*"])%list).

Definition invalidate_device_cache (now : Z) (fault : option exn) (device_eui : string) :=
  with_cache (delete_patterns now fault ["devices:*" +:+ device_eui +:+ "*"; "orphan_devices:*"]).

Definition invalidate_site_cache (now : Z) (fault : option exn) (tenant_id : string) (site_id : option string) :=
  with_cache (delete_patterns now fault
    ((if truthy site_id then ["sites:*" +:+ or_else site_id "" +:+ "*"] else []) ++
     ["sites:*" +:+ tenant_id +:+ "*"])%list).
End Manager.

(** ** Properties *)

Lemma dumps_truthy j : wf_json j → truthy (Some (dumps j)) = true.
Proof.
  intros W. destruct (head_ok_skip _ (dumps_head j "" W)) as (c & s & H & _). rewrite append_nil_r in H. by rewrite H.
Qed.

Section Facts.
Context {R : Redis}.

(** What is cached is what is read back.  A JSON value stored for [ttl] seconds is
    returned, equal, by every read before it expires and by none after; [None] is the
    answer of a miss. *)
Theorem cache_roundtrip now now' key v ttl c :
  wf_json v → 0 < ttl →
  (cache_get now' None key (cache_set now None key v ttl c)).1 = if now' <? now + ttl * sec then Some v else None.
Proof.
  intros W Ht. unfold cache_set, cache_get, on_cache. destruct (Z.leb_spec ttl 0); [lia|]. cbn [c_redis].
  rewrite r_get_law, r_set_law, str_at_set. destruct (now' <? now + ttl * sec); [|done].
  rewrite (dumps_truthy v W). cbn [or_else]. by rewrite loads_dumps.
Qed.

(** A decorated call runs once per time to live.  If it returned a value (not None) and
    nothing failed, the same call within [ttl] seconds returns that value again and leaves
    the world untouched. *)
Theorem cached_calls_once {W} (now now' ttl : Z) key (func : stE W exn json) c w v c' w' :
  cached now None None ttl key func (c, w) = (Ok v, (c', w')) → v ≠ JNull → wf_json v → 0 < ttl →
  (cache_get now None key c).1 = None → now ≤ now' < now + ttl * sec → ∀ w2,
  (cached now' None None ttl key func (c', w2)).1 = Ok v ∧ (cached now' None None ttl key func (c', w2)).2.2 = w2.
Proof.
  intros E Hv Hw Ht Hmiss Hnow w2. unfold cached in E. destruct (cache_get now None key c) as [hit c1]. cbn in Hmiss. subst hit.
  destruct (func w) as [[r|e] w1]; [|done].
  assert (r = v ∧ c' = cache_set now None key v ttl c1) as [-> ->] by (destruct r; by simplify_eq).
  unfold cached. pose proof (cache_roundtrip now now' key v ttl c1 Hw Ht) as H.
  rewrite (proj2 (Z.ltb_lt _ _)) in H by lia. destruct (cache_get now' None key _) as [hit c2]. cbn in H. subst hit.
  by destruct v.
Qed.

(** Invalidation by pattern removes what matches and nothing else: for every key and at
    every later time, a reader sees nothing under a matching key and the old value under
    any other. *)
Theorem delete_pattern_spec now pattern c t k :
  now ≤ t →
  str_at t k (dump (c_redis (delete_pattern now None pattern c))) =
  if glob_match pattern k then None else str_at t k (dump (c_redis c)).
Proof.
  intros Hle. unfold delete_pattern, on_cache. cbn [c_redis]. unfold str_at. rewrite alive_foldl_del.
  destruct (bool_decide_reflect (k ∈ r_keys (c_redis c) now pattern)) as [[_ Hg]%r_keys_law|Hn]; [by rewrite Hg|].
  destruct (glob_match pattern k) eqn:Hg; [|done].
  destruct (alive now k (dump (c_redis c))) as [e|] eqn:Ha; [|by rewrite (alive_later now t)].
  destruct Hn. apply r_keys_law. rewrite Ha. eauto.
Qed.

Lemma delete_pattern_other now fault pattern c t k :
  glob_match pattern k = false →
  str_at t k (dump (c_redis (delete_pattern now fault pattern c))) = str_at t k (dump (c_redis c)).
Proof.
  intros Hg. unfold delete_pattern, on_cache. destruct fault; [done|]. cbn [c_redis]. unfold str_at. rewrite alive_foldl_del.
  rewrite bool_decide_false; [done|]. intros [_ H]%r_keys_law. congruence.
Qed.

Lemma delete_patterns_other now fault ps c t k :
  Forall (λ p, glob_match p k = false) ps →
  str_at t k (dump (c_redis (delete_patterns now fault ps c))) = str_at t k (dump (c_redis c)).
Proof.
  intros H. unfold delete_patterns. revert c. induction H as [|p ps Hp _ IH]; intros c; [done|].
  cbn [foldl]. by rewrite IH, delete_pattern_other.
Qed.
End Facts.

(** Every character of a pattern but the star occurs in what it matches. *)
Lemma glob_match_chars p s c :
  glob_match p s = true → In c (list_ascii_of_string p) → c ≠ "*"%char → In c (list_ascii_of_string s).
Proof.
  revert s. induction p as [|x p IH]; intros s; [done|]. cbn [glob_match list_ascii_of_string].
  destruct (Ascii.eqb_spec x "*") as [->|Hx].
  - intros Hm [->|Hin] Hc; [done|]. revert Hm. induction s as [|d s IHs]; cbn.
    + rewrite orb_false_r. intros Hm. by apply (IH "").
    + intros [Hm|Hm]%orb_true_iff; [by apply (IH (String d s))|]. right. by apply IHs.
  - destruct s as [|d s]; [done|]. intros [->%Ascii.eqb_eq Hm]%andb_true_iff [->|Hin] Hc; [by left|]. right. by apply IH.
Qed.

Lemma list_ascii_app a b : list_ascii_of_string (a +:+ b) = (list_ascii_of_string a ++ list_ascii_of_string b)%list.
Proof. induction a as [|c a IH]; [done|]. rewrite append_cons. cbn. by rewrite IH. Qed.

Lemma str_forallb_In p s c : str_forallb p s = true → In c (list_ascii_of_string s) → p c = true.
Proof. induction s as [|x s IH]; [done|]. cbn. intros [Hx Hs]%andb_true_iff [->|Hin]; auto. Qed.

(** The patterns of the space helpers match no key that is a prefix without a dash and a
    hexadecimal digest: a tenant's identifier, a UUID, has dashes. *)
Lemma space_patterns_miss_digests tenant_id space_id h :
  In "-"%char (list_ascii_of_string tenant_id) → str_forallb is_hex h = true →
  Forall (λ p, glob_match p ("spaces:list:" +:+ h) = false) (space_patterns tenant_id space_id).
Proof.
  intros Hd Hh.
  assert (∀ p, In "-"%char (list_ascii_of_string p) → glob_match p ("spaces:list:" +:+ h) = false) as Hno.
  { intros p Hp. apply not_true_is_false. intros Hm. pose proof (glob_match_chars _ _ _ Hm Hp ltac:(discriminate)) as H.
    rewrite list_ascii_app, in_app_iff in H. destruct H as [H|H].
    - cbn in H. repeat (destruct H as [H|H]; [discriminate|]). destruct H.
    - apply (str_forallb_In _ _ _ Hh) in H. discriminate. }
  assert (∀ a b, In "-"%char (list_ascii_of_string (a +:+ tenant_id +:+ b))) as Hin.
  { intros a b. rewrite !list_ascii_app, !in_app_iff. auto. }
  destruct space_id as [s|]; cbn [space_patterns]; [destruct (non_empty s)|]; repeat constructor; apply Hno, Hin.
Qed.

(** ** Witnesses *)

Lemma cache_roundtrip_witness :
  (cache_get 5 None "k" (cache_set 0 None "k" (JArr [JInt 1; JText "a"]) 60 (mkCache ∅ 0 0))).1 = Some (JArr [JInt 1; JText "a"]).
Proof. exact (cache_roundtrip 0 5 "k" (JArr [JInt 1; JText "a"]) 60 (mkCache ∅ 0 0) (conj I (conj I I)) eq_refl). Defined.

Definition ticket : stE Z exn json := λ w, (Ok (JInt w), w + 1).

Lemma cached_calls_once_witness :
  let c' := cache_set 0 None "k" (JInt 7) 60 (mkCache ∅ 0 1) in
  cached 0 None None 60 "k" ticket (mkCache ∅ 0 0, 7) = (Ok (JInt 7), (c', 8)) ∧
  (cached 5 None None 60 "k" ticket (c', 8)).1 = Ok (JInt 7).
Proof.
  split; [reflexivity|].
  refine (proj1 (cached_calls_once 0 5 60 "k" ticket (mkCache ∅ 0 0) 7 (JInt 7) _ 8 _ _ I _ _ _ 8));
    [reflexivity|discriminate|lia|reflexivity|unfold sec; lia].
Defined.

Lemma delete_pattern_spec_witness :
  str_at 9 "spaces:t1:x" (dump (c_redis (delete_pattern 3 None "spaces:*t1*" (cache_set 0 None "spaces:t1:x" (JInt 1) 60 (mkCache ∅ 0 0)))))
  = None.
Proof.
  etrans; [apply (delete_pattern_spec 3 "spaces:*t1*" _ 9 "spaces:t1:x"); lia|]. vm_compute. reflexivity.
Defined.
