(* ===== verification/Estate.v ===== *)
(** * Estate: the tables of sites and spaces, with their constraints

    The tables [sites] and [spaces] as the migrations 001, 002, 003, 008 and 011 leave
    them: the checks and unique indexes, and the triggers that copy the tenant of a site
    to its spaces and put EUIs in upper case.  Both routers (Sites.v and Spaces.v) write
    through the operations of this file, which keep the invariant [estate_ok].  Row-level
    security is taken to be bypassed, as it is for a superuser.

    What is modelled is a database without the trigger trg_spaces_eui_upper of migration
    008: its function reads NEW.dev_eui, which [spaces] does not have, so that with it
    every write to [spaces] raises.  Migration 011 adds a trigger that works ([enforce_eui_uppercase]) but does not
    drop the other one; whoever runs the migrations has to. *)

From Stdlib Require Import QArith Qround Qabs.
From S2P Require Import Prelude PyUtils Json Models Database.

Open Scope Z_scope.

Record Site := mkSite {
  si_id : string; si_tenant_id : string; si_name : string; si_timezone : string;
  si_location : option json; si_metadata : option json; si_is_active : bool;
  si_created_at : Z; si_updated_at : Z;
}.

Record Estate := mkEstate { es_db : Db; sites : list Site }.

Definition estate_db (f : Db → Db) (es : Estate) : Estate := mkEstate (f (es_db es)) (sites es).
Definition with_sites (f : list Site → list Site) (es : Estate) : Estate := mkEstate (es_db es) (f (sites es)).
Definition estate_spaces (es : Estate) : list Space := spaces (es_db es).

Definition is_site (site_id : string) (s : Site) : bool := String.eqb (si_id s) site_id.

(** ** The constraints of [spaces] *)

(** NUMERIC with [n] digits after the point rounds, ties away from zero. *)
Definition numeric_scale (n : Z) (q : Q) : Q :=
  let u := Qfloor (Qabs q * inject_Z (10 ^ n) + (1 # 2)) in
  ((if Qle_bool 0 q then u else - u) # Z.to_pos (10 ^ n))%Q.

Definition set_devices (sensor_eui display_eui : option string) (s : Space) : Space :=
  mkSpace (sp_id s) (sp_name s) (sp_code s) (sp_building s) (sp_floor s) (sp_zone s) sensor_eui display_eui (sp_state s)
    (sp_site_id s) (sp_tenant_id s) (sp_gps_latitude s) (sp_gps_longitude s) (sp_metadata s) (sp_created_at s)
    (sp_updated_at s) (sp_deleted_at s).

(** The trigger trigger_spaces_eui_uppercase of migration 011 *)
Definition enforce_eui_uppercase (s : Space) : Space :=
  set_devices (str_upper <$> sp_sensor_eui s) (str_upper <$> sp_display_eui s) s.

(** CHECK (dev_eui ~ '^[0-9A-F]{16}$') *)
Definition eui_hex (o : option string) : bool :=
  match o with Some e => (String.length e =? 16)%nat && str_forallb is_hex_upper e | None => true end.

Definition valid_gps (s : Space) : bool :=
  match sp_gps_latitude s, sp_gps_longitude s with
  | Some a, Some o => Q_between (-90 # 1) (90 # 1) a && Q_between (-180 # 1) (180 # 1) o
  | _, _ => true
  end.

Definition same_some (a b : option string) : bool :=
  match a, b with Some x, Some y => String.eqb x y | _, _ => false end.

(** The unique index two rows would violate together.  [unique_sensor_eui] counts deleted
    rows too, the other two only live ones. *)
Definition space_conflict (s x : Space) : option string :=
  if same_some (sp_sensor_eui s) (sp_sensor_eui x) then Some "unique_sensor_eui"
  else if live_space s && live_space x && same_some (sp_display_eui s) (sp_display_eui x) then Some "uq_spaces_display_eui"
  else if live_space s && live_space x && same_some (sp_tenant_id s) (sp_tenant_id x) &&
          same_some (sp_site_id s) (sp_site_id x) && String.eqb (sp_code s) (sp_code x)
  then Some "unique_tenant_site_space_code"
  else None.

Fixpoint first_conflict (s : Space) (l : list Space) : option string :=
  match l with
  | [] => None
  | x :: l => match space_conflict s x with Some name => Some name | None => first_conflict s l end
  end.

Definition space_violation (s : Space) (others : list Space) : option exn :=
  if negb (eui_hex (sp_sensor_eui s) && eui_hex (sp_display_eui s)) then Some (check_violation "chk_spaces_eui_hex")
  else if negb (valid_gps s) then Some (check_violation "valid_gps")
  else unique_violation <$> first_conflict s others.

(** The trigger [spaces_sync_tenant_id] of migration 003, on INSERT *)
Definition sync_tenant_id (es : Estate) (s : Space) : result exn Space :=
  match sp_site_id s with
  | None => Err (PyException "site_id cannot be NULL")
  | Some i =>
      match fetchrow (λ x, is_site i x && si_is_active x) (sites es) with
      | None => Err (PyException ("Site " +:+ i +:+ " not found or inactive"))
      | Some site =>
          if match sp_tenant_id s with Some t => negb (String.eqb t (si_tenant_id site)) | None => false end
          then Err (PyException "Tenant mismatch")
          else Ok (mkSpace (sp_id s) (sp_name s) (sp_code s) (sp_building s) (sp_floor s) (sp_zone s) (sp_sensor_eui s)
                     (sp_display_eui s) (sp_state s) (sp_site_id s) (Some (si_tenant_id site)) (sp_gps_latitude s)
                     (sp_gps_longitude s) (sp_metadata s) (sp_created_at s) (sp_updated_at s) (sp_deleted_at s))
      end
  end.

(** INSERT INTO spaces *)
Definition insert_space (s : Space) : stE Estate exn Space := λ es,
  match sync_tenant_id es s with
  | Err e => (Err e, es)
  | Ok s =>
      let s := enforce_eui_uppercase s in
      if existsb (is_space (sp_id s)) (estate_spaces es) then (Err (unique_violation "spaces_pkey"), es)
      else match space_violation s (estate_spaces es) with
           | Some e => (Err e, es)
           | None => (Ok s, estate_db (with_spaces (λ l, l ++ [s])%list) es)
           end
  end.

(** UPDATE spaces SET ... WHERE id = $n AND ..., of columns other than the id, the site and
    the tenant: the changed row, if there is one. *)
Definition update_space_where (space_id : string) (p : Space → bool) (f : Space → Space) : stE Estate exn (option Space) := λ es,
  let q s := is_space space_id s && p s in
  match fetchrow q (estate_spaces es) with
  | None => (Ok None, es)
  | Some s =>
      let s' := enforce_eui_uppercase (f s) in
      match space_violation s' (List.filter (λ x, negb (is_space space_id x)) (estate_spaces es)) with
      | Some e => (Err e, es)
      | None => (Ok (Some s'), estate_db (with_spaces (sql_update q (λ x, enforce_eui_uppercase (f x)))) es)
      end
  end.

(** ** The constraints of [sites] *)

Definition same_site_name (s x : Site) : bool :=
  String.eqb (si_tenant_id s) (si_tenant_id x) && String.eqb (si_name s) (si_name x).

(** VARCHAR(255) *)
Definition too_long : exn := PyException "value too long for type character varying(255)".

Definition insert_site (s : Site) : stE Estate exn Site := λ es,
  if existsb (is_site (si_id s)) (sites es) then (Err (unique_violation "sites_pkey"), es)
  else if existsb (same_site_name s) (sites es) then (Err (unique_violation "unique_tenant_site_name"), es)
  else if negb (len_between 0 255 (si_name s)) then (Err too_long, es)
  else (Ok s, with_sites (λ l, l ++ [s])%list es).

(** UPDATE sites SET ... WHERE id = $1 AND ..., of columns other than the id and the tenant *)
Definition update_site_where (site_id : string) (p : Site → bool) (f : Site → Site) : stE Estate exn (option Site) := λ es,
  let q s := is_site site_id s && p s in
  match fetchrow q (sites es) with
  | None => (Ok None, es)
  | Some s =>
      if existsb (λ x, same_site_name (f s) x && negb (is_site site_id x)) (sites es)
      then (Err (unique_violation "unique_tenant_site_name"), es)
      else (Ok (Some (f s)), with_sites (sql_update q f) es)
  end.

(** ** The invariant *)

Definition space_named (i : string) (es : Estate) : Prop := ∃ s, s ∈ estate_spaces es ∧ sp_id s = i.

(** Rows are told apart by their position: no two positions conflict. *)
Definition apart {A} (R : A → A → bool) (l : list A) : Prop :=
  ∀ i j x y, l !! i = Some x → l !! j = Some y → i ≠ j → R x y = false.

Definition conflict (s x : Space) : bool :=
  is_space (sp_id x) s || bool_decide (is_Some (space_conflict s x)).

Definition owned (es : Estate) (s : Space) : Prop :=
  ∃ site, site ∈ sites es ∧ sp_site_id s = Some (si_id site) ∧ sp_tenant_id s = Some (si_tenant_id site).

Definition euis_ok (s : Space) : bool := eui_hex (sp_sensor_eui s) && eui_hex (sp_display_eui s).

Definition site_conflict (s x : Site) : bool := is_site (si_id x) s || same_site_name s x.

Record estate_ok (es : Estate) : Prop := {
  eo_spaces : apart conflict (estate_spaces es);
  eo_owned : ∀ s, s ∈ estate_spaces es → owned es s;
  eo_euis : ∀ s, s ∈ estate_spaces es → euis_ok s = true;
  eo_sites : apart site_conflict (sites es);
}.

Lemma apart_app {A} (R : A → A → bool) l x :
  (∀ a b, R a b = R b a) → apart R l → (∀ y, y ∈ l → R x y = false) → apart R (l ++ [x]).
Proof.
  intros Hsym Hl Hx i j a b Hi Hj Hij. apply lookup_snoc_Some in Hi as [[Hi1 Hi]|[Hi ->]], Hj as [[Hj1 Hj]|[Hj ->]].
  - by eapply Hl.
  - rewrite Hsym. by eapply Hx, list_elem_of_lookup_2.
  - by eapply Hx, list_elem_of_lookup_2.
  - congruence.
Qed.

(** Replacing the only row that satisfies [q] *)
Lemma apart_update {A} (R : A → A → bool) (q : A → bool) f l x :
  (∀ a b, R a b = R b a) → apart R l → (∀ y, y ∈ l → q y = true → y = x) →
  (∀ a b, q a = true → q b = true → R a b = true) →
  (∀ y, y ∈ l → q y = false → R (f x) y = false) → apart R (sql_update q f l).
Proof.
  intros Hsym Hl Hx Hq Hf i j a b. unfold sql_update. rewrite !list_lookup_fmap.
  destruct (l !! i) as [a0|] eqn:Hi; [|done]. destruct (l !! j) as [b0|] eqn:Hj; [|done]. intros [= <-] [= <-] Hij.
  pose proof (list_elem_of_lookup_2 _ _ _ Hi) as Ha. pose proof (list_elem_of_lookup_2 _ _ _ Hj) as Hb.
  destruct (q a0) eqn:Ea, (q b0) eqn:Eb.
  - pose proof (Hl _ _ _ _ Hi Hj Hij). rewrite (Hq a0 b0) in *; done.
  - rewrite (Hx a0) by done. auto.
  - rewrite (Hx b0), Hsym by done. auto.
  - by eapply Hl.
Qed.

Lemma same_some_sym a b : same_some a b = same_some b a.
Proof. destruct a, b; cbn; [apply String.eqb_sym|done..]. Qed.

Lemma space_conflict_sym s x : space_conflict s x = space_conflict x s.
Proof.
  unfold space_conflict. rewrite (same_some_sym (sp_sensor_eui s)), (same_some_sym (sp_display_eui s)),
    (same_some_sym (sp_tenant_id s)), (same_some_sym (sp_site_id s)), (String.eqb_sym (sp_code s)), (andb_comm (live_space s)).
  done.
Qed.

Lemma conflict_sym s x : conflict s x = conflict x s.
Proof. unfold conflict, is_space. by rewrite String.eqb_sym, space_conflict_sym. Qed.

Lemma site_conflict_sym s x : site_conflict s x = site_conflict x s.
Proof.
  unfold site_conflict, is_site, same_site_name.
  by rewrite String.eqb_sym, (String.eqb_sym (si_tenant_id s)), (String.eqb_sym (si_name s)).
Qed.

Lemma first_conflict_none s l : first_conflict s l = None → ∀ x, x ∈ l → space_conflict s x = None.
Proof.
  induction l as [|y l IH]; cbn; [intros _ x ?%elem_of_nil; done|].
  destruct (space_conflict s y) eqn:E; [done|]. intros H x [->|Hx]%elem_of_cons; auto.
Qed.

Lemma space_violation_none s others :
  space_violation s others = None → euis_ok s = true ∧ ∀ x, x ∈ others → space_conflict s x = None.
Proof.
  unfold space_violation. fold (euis_ok s). destruct (euis_ok s); [|done]. cbn [negb].
  destruct (valid_gps s); [|done]. cbn [negb]. destruct (first_conflict s others) eqn:E; [done|]. intros _.
  split; [done|]. by apply first_conflict_none.
Qed.

Lemma conflict_false s x : sp_id s ≠ sp_id x → space_conflict s x = None → conflict s x = false.
Proof.
  intros Hi Hc. unfold conflict, is_space. rewrite Hc, (bool_decide_false (is_Some None)) by (by intros [? ?]).
  by destruct (String.eqb_spec (sp_id s) (sp_id x)).
Qed.

(** Rows with the same id are one row. *)
Lemma space_id_unique es s x :
  estate_ok es → s ∈ estate_spaces es → x ∈ estate_spaces es → sp_id s = sp_id x → s = x.
Proof.
  intros Hok Hs Hx Hi. apply list_elem_of_lookup in Hs as [i Hs], Hx as [j Hx]. destruct (decide (i = j)) as [->|Hij]; [congruence|].
  pose proof (eo_spaces _ Hok _ _ _ _ Hs Hx Hij) as H. unfold conflict, is_space in H. by rewrite Hi, String.eqb_refl in H.
Qed.

Lemma site_id_unique es s x :
  estate_ok es → s ∈ sites es → x ∈ sites es → si_id s = si_id x → s = x.
Proof.
  intros Hok Hs Hx Hi. apply list_elem_of_lookup in Hs as [i Hs], Hx as [j Hx]. destruct (decide (i = j)) as [->|Hij]; [congruence|].
  pose proof (eo_sites _ Hok _ _ _ _ Hs Hx Hij) as H. unfold site_conflict, is_site in H. by rewrite Hi, String.eqb_refl in H.
Qed.

(** *** The operations keep it *)

Lemma owned_sites es es' s : sites es' = sites es → owned es s → owned es' s.
Proof. unfold owned. by intros ->. Qed.

Lemma insert_space_ok s es r es' :
  estate_ok es → insert_space s es = (r, es') →
  estate_ok es' ∧ sites es' = sites es ∧
  match r with
  | Err _ => es' = es
  | Ok s' =>
      estate_spaces es' = (estate_spaces es ++ [s'])%list ∧ sp_id s' = sp_id s ∧
      ∃ site, site ∈ sites es ∧ si_is_active site = true ∧ sp_site_id s = Some (si_id site) ∧
              sp_site_id s' = Some (si_id site) ∧ sp_tenant_id s' = Some (si_tenant_id site)
  end.
Proof.
  intros Hok. unfold insert_space, sync_tenant_id.
  destruct (sp_site_id s) as [i|] eqn:Hi; [|by intros [= <- <-]].
  destruct (fetchrow _ (sites es)) as [site|] eqn:Hsite; [|by intros [= <- <-]].
  apply find_some in Hsite as [Hin [Hs Hact]%andb_true_iff]. apply String.eqb_eq in Hs. subst i. apply list_elem_of_In in Hin.
  match goal with |- context [if ?b then Err _ else _] => destruct b end; [by intros [= <- <-]|].
  match goal with |- context [enforce_eui_uppercase ?x] => set (s' := enforce_eui_uppercase x) end.
  destruct (existsb (is_space (sp_id s')) (estate_spaces es)) eqn:Hid; [by intros [= <- <-]|].
  destruct (space_violation s' (estate_spaces es)) eqn:Hv; intros [= <- <-]; [done|].
  apply space_violation_none in Hv as [He Hc]. cbn [estate_db es_db sites].
  split; [|split; [done|]].
  - constructor; unfold estate_spaces; cbn [estate_db es_db with_spaces spaces sites].
    + apply apart_app; [apply conflict_sym|apply (eo_spaces _ Hok)|]. intros y Hy. apply conflict_false; [|by apply Hc].
      intros Heq. apply not_true_iff_false in Hid. apply Hid, existsb_exists. exists y. apply list_elem_of_In in Hy.
      split; [done|]. by apply String.eqb_eq.
    + intros x [Hx| ->%list_elem_of_singleton]%elem_of_app; [by apply (owned_sites es), (eo_owned _ Hok)|].
      exists site. by subst s'.
    + intros x [Hx| ->%list_elem_of_singleton]%elem_of_app; [by apply (eo_euis _ Hok)|done].
    + apply (eo_sites _ Hok).
  - split; [done|]. split; [done|]. exists site. by subst s'.
Qed.

(** An update that keeps what the unique indexes look at, but may take a row out of the
    partial ones *)
Lemma keep_keys_ok q f es :
  estate_ok es →
  (∀ s, sp_id (f s) = sp_id s ∧ sp_site_id (f s) = sp_site_id s ∧ sp_tenant_id (f s) = sp_tenant_id s ∧
        sp_code (f s) = sp_code s ∧ sp_sensor_eui (f s) = sp_sensor_eui s ∧ sp_display_eui (f s) = sp_display_eui s ∧
        (live_space (f s) = true → live_space s = true)) →
  estate_ok (estate_db (with_spaces (sql_update q f)) es).
Proof.
  intros Hok Hf.
  assert (∀ s, let g := if q s then f s else s in
    sp_id g = sp_id s ∧ sp_site_id g = sp_site_id s ∧ sp_tenant_id g = sp_tenant_id s ∧ sp_code g = sp_code s ∧
    sp_sensor_eui g = sp_sensor_eui s ∧ sp_display_eui g = sp_display_eui s ∧ (live_space g = true → live_space s = true)) as Hg.
  { intros s. destruct (q s); [apply Hf|done]. }
  constructor; unfold estate_spaces; cbn [estate_db es_db with_spaces spaces sites].
  - intros i j a b. unfold sql_update. rewrite !list_lookup_fmap.
    destruct (_ !! i) as [x|] eqn:Hi; [|done]. destruct (_ !! j) as [y|] eqn:Hj; [|done]. intros [= <-] [= <-] Hij.
    pose proof (eo_spaces _ Hok _ _ _ _ Hi Hj Hij) as Hc. unfold conflict, is_space in *.
    destruct (Hg x) as (H1&H2&H3&H4&H5&H6&H7), (Hg y) as (K1&K2&K3&K4&K5&K6&K7). cbn zeta in *.
    apply orb_false_iff in Hc as [Hc1 Hc2]. rewrite H1, K1, Hc1. cbn [orb].
    apply bool_decide_eq_false in Hc2. apply bool_decide_eq_false. contradict Hc2. revert Hc2.
    unfold space_conflict. rewrite H2, H3, H4, H5, H6, K2, K3, K4, K5, K6.
    destruct (live_space (if q x then f x else x)); [rewrite H7 by done|].
    + destruct (live_space (if q y then f y else y)); [by rewrite K7|]. cbn [andb].
      destruct (same_some (sp_sensor_eui x) _); [done|]. by intros [? ?].
    + cbn [andb]. destruct (same_some (sp_sensor_eui x) _); [done|]. by intros [? ?].
  - intros s Hs. apply list_elem_of_fmap in Hs as (x & -> & Hx). destruct (eo_owned _ Hok x Hx) as (site & ? & ? & ?).
    exists site. destruct (Hg x) as (_&->&->&_). done.
  - intros s Hs. apply list_elem_of_fmap in Hs as (x & -> & Hx). pose proof (eo_euis _ Hok x Hx) as H. unfold euis_ok in *.
    destruct (Hg x) as (_&_&_&_&->&->&_). done.
  - apply (eo_sites _ Hok).
Qed.

Lemma update_space_where_ok space_id p f es r es' :
  estate_ok es → (∀ s, sp_id (f s) = sp_id s ∧ sp_site_id (f s) = sp_site_id s ∧ sp_tenant_id (f s) = sp_tenant_id s) →
  update_space_where space_id p f es = (r, es') → estate_ok es'.
Proof.
  intros Hok Hf. unfold update_space_where.
  destruct (fetchrow _ (estate_spaces es)) as [s|] eqn:Hs; [|by intros [= _ <-]].
  apply find_some in Hs as [Hin [Hid Hp]%andb_true_iff]. apply list_elem_of_In in Hin. apply String.eqb_eq in Hid. subst space_id.
  destruct (space_violation _ _) eqn:Hv; intros [= _ <-]; [done|]. apply space_violation_none in Hv as [He Hc].
  assert (∀ y, y ∈ estate_spaces es → (is_space (sp_id s) y && p y)%bool = true → y = s) as Huniq.
  { intros y Hy [Hq _]%andb_true_iff. apply String.eqb_eq in Hq. by apply (space_id_unique es). }
  constructor; unfold estate_spaces; cbn [estate_db es_db with_spaces spaces sites].
  - apply (apart_update _ _ _ _ s); [apply conflict_sym|apply (eo_spaces _ Hok)|done| |].
    + intros a b [Ha _]%andb_true_iff [Hb _]%andb_true_iff. apply String.eqb_eq in Ha, Hb. unfold conflict, is_space.
      by rewrite Ha, Hb, String.eqb_refl.
    + intros y Hy Hq. destruct (Hf s) as (H1 & _). apply conflict_false; [cbn; rewrite H1|].
      * intros Heq. apply (space_id_unique es) in Heq; [|done..]. subst y. unfold is_space in Hq. by rewrite String.eqb_refl, Hp in Hq.
      * apply Hc, filter_In_elem. split; [done|]. apply negb_true_iff. unfold is_space.
        destruct (String.eqb_spec (sp_id y) (sp_id s)) as [Heq|]; [|done].
        assert (y = s) as -> by (by apply (space_id_unique es)). unfold is_space in Hq. by rewrite String.eqb_refl, Hp in Hq.
  - intros x Hx. apply list_elem_of_fmap in Hx as (y & -> & Hy). destruct (eo_owned _ Hok y Hy) as (site & ? & ? & ?).
    exists site. destruct (_ && _)%bool; [|done]. destruct (Hf y) as (_ & H2 & H3). cbn. by rewrite H2, H3.
  - intros x Hx. apply list_elem_of_fmap in Hx as (y & -> & Hy). destruct (_ && _)%bool eqn:Hq; [|by apply (eo_euis _ Hok)].
    by rewrite (Huniq y Hy Hq).
  - apply (eo_sites _ Hok).
Qed.

Lemma insert_site_ok s es r es' : estate_ok es → insert_site s es = (r, es') → estate_ok es'.
Proof.
  intros Hok. unfold insert_site. destruct (existsb (is_site (si_id s)) _) eqn:Hid; [by intros [= _ <-]|].
  destruct (existsb (same_site_name s) _) eqn:Hn; [by intros [= _ <-]|].
  destruct (negb _); intros [= _ <-]; [done|].
  constructor; unfold estate_spaces; cbn [with_sites es_db sites]; try apply Hok.
  - intros x Hx. destruct (eo_owned _ Hok x Hx) as (site & ? & ? & ?). exists site. cbn. rewrite elem_of_app. auto.
  - apply apart_app; [apply site_conflict_sym|apply (eo_sites _ Hok)|]. intros y Hy. unfold site_conflict.
    apply orb_false_iff. split; apply not_true_is_false; intros H; [apply not_true_iff_false in Hid; apply Hid|apply not_true_iff_false in Hn; apply Hn];
      apply existsb_exists; exists y; (split; [by apply list_elem_of_In|]); [|done].
    unfold is_site in *. by rewrite String.eqb_sym.
Qed.

Lemma update_site_where_ok site_id p f es r es' :
  estate_ok es → (∀ s, si_id (f s) = si_id s ∧ si_tenant_id (f s) = si_tenant_id s) →
  update_site_where site_id p f es = (r, es') → estate_ok es'.
Proof.
  intros Hok Hf. unfold update_site_where. destruct (fetchrow _ (sites es)) as [s|] eqn:Hs; [|by intros [= _ <-]].
  apply find_some in Hs as [Hin [Hid Hp]%andb_true_iff]. apply list_elem_of_In in Hin. apply String.eqb_eq in Hid. subst site_id.
  destruct (existsb _ (sites es)) eqn:Hn; intros [= _ <-]; [done|].
  constructor; unfold estate_spaces; cbn [with_sites es_db sites]; try apply Hok.
  - intros x Hx. destruct (eo_owned _ Hok x Hx) as (site & Hsite & H1 & H2). set (q := λ s0, (is_site (si_id s) s0 && p s0)%bool).
    exists (if q site then f site else site). split; [apply list_elem_of_fmap; eauto|].
    destruct (q site); [|done]. destruct (Hf site) as [-> ->]. done.
  - apply (apart_update _ _ _ _ s); [apply site_conflict_sym|apply (eo_sites _ Hok)| | |].
    + intros y Hy [Hq _]%andb_true_iff. apply String.eqb_eq in Hq. by apply (site_id_unique es).
    + intros a b [Ha _]%andb_true_iff [Hb _]%andb_true_iff. apply String.eqb_eq in Ha, Hb. unfold site_conflict, is_site.
      by rewrite Ha, Hb, String.eqb_refl.
    + intros y Hy Hq. destruct (Hf s) as [H1 _].
      assert (is_site (si_id s) y = false) as Hne.
      { apply not_true_is_false. intros He%String.eqb_eq. assert (y = s) as -> by (by apply (site_id_unique es)).
        unfold is_site in Hq. by rewrite String.eqb_refl, Hp in Hq. }
      unfold site_conflict. apply orb_false_iff. split.
      * unfold is_site in *. by rewrite H1, String.eqb_sym.
      * apply not_true_is_false. intros Hc. apply not_true_iff_false in Hn. apply Hn, existsb_exists.
        exists y. split; [by apply list_elem_of_In|]. by rewrite Hc, Hne.
Qed.
