(* ===== verification/Monitor.v ===== *)
(** * Monitor: the endpoints of src/src/routers/downlink_monitor.py

    [get_queue_metrics] and [clear_queue_metrics]; the rules of [get_queue_health] are with
    the queue, in DownlinkQueue.v.  The queue is the Redis store it keeps its data in, or
    absent when the application has none.  None of the endpoints asks for authentication. *)

From Stdlib Require Import QArith.
From S2P Require Import Prelude PyUtils Redis RateLimit DownlinkQueue Json Models Cache.
Import AbstractQueue.

Open Scope Z_scope.

(** The answer of the metrics endpoint: the depths, the counters, the success rate in
    percent with two digits, and the latencies *)
Record QueueReport := mkReport {
  qr_pending_depth : Z; qr_dead_letter_depth : Z;
  qr_total_enqueued : Z; qr_total_succeeded : Z; qr_total_retried : Z; qr_total_dead_lettered : Z;
  qr_total_deduplicated : Z; qr_total_coalesced : Z;
  qr_success_rate_percent : Q; qr_latency_p50_ms : Z; qr_latency_p99_ms : Z;
}.

Definition queue_missing : exn := HTTPException 503 "Downlink queue not available".

Section Endpoints.
Context {R : Redis} {F : PyFloat}.

Definition get_queue_metrics (now : Z) (queue : option store) : result exn QueueReport :=
  match queue with
  | None => Err queue_missing
  | Some s =>
      match get_metrics now s with
      | Err e => Err (HTTPException 500 e)
      | Ok m =>
          Ok (mkReport (queue_depth m) (dead_letter_depth m) (total_enqueued m) (total_succeeded m) (total_retried m)
                (total_dead_lettered m) (total_deduplicated m) (total_coalesced m)
                (inject_Z (py_round (success_rate m * 100)) / 100)%Q (latency_p50_ms m) (latency_p99_ms m))
      end
  end.

Definition clear_queue_metrics (now : Z) (queue : option store) : result exn string * option store :=
  match queue with
  | None => (Err queue_missing, None)
  | Some s => (Ok "Queue metrics cleared", Some (clear_metrics now s))
  end.

(** ** Properties *)

Lemma clear_metrics_alive now t k s :
  now ≤ t → alive t k (dump (clear_metrics now s)) = if starts_with METRICS_PREFIX k then None else alive t k (dump s).
Proof.
  intros Ht. unfold clear_metrics. rewrite alive_foldl_del, <- (glob_match_prefix METRICS_PREFIX k) by (cbn; intuition discriminate).
  destruct (bool_decide_reflect (k ∈ r_keys s now (METRICS_PREFIX +:+ "*"))) as [[_ ->]%r_keys_law|Hn]; [done|].
  destruct (glob_match _ k) eqn:Hg; [|done].
  destruct (alive now k (dump s)) as [e|] eqn:Ha; [|by rewrite (alive_later now t)].
  destruct Hn. apply r_keys_law. rewrite Ha. eauto.
Qed.

Lemma clear_metrics_lookup now k s : starts_with METRICS_PREFIX k = false → dump (clear_metrics now s) !! k = dump s !! k.
Proof.
  intros Hk. unfold clear_metrics. rewrite lookup_foldl_del, bool_decide_false; [done|]. intros [_ Hg]%r_keys_law.
  rewrite glob_match_prefix, Hk in Hg; [done|]. cbn. intuition discriminate.
Qed.

Lemma queue_key_no_metric k : queue_key k → starts_with METRICS_PREFIX k = false.
Proof. intros [->|[->|(x & [->|[->| ->]])]]; reflexivity. Qed.

(** Clearing the metrics loses no command.  The endpoint leaves the queue in the abstract
    state it was in; the metrics read afterwards are zero, but for the depths of the two
    lists, which are those of the queue. *)
Theorem clearing_keeps_commands H now t s held A :
  now ≤ t → represents H (dump s) held A →
  ∃ s', clear_queue_metrics now (Some s) = (Ok "Queue metrics cleared", Some s') ∧
    represents H (dump s') held A ∧
    get_queue_metrics t (Some s') =
      Ok (mkReport (Z.of_nat (length (pending A))) (Z.of_nat (length (dead A))) 0 0 0 0 0 0 (0 / 100)%Q 0 0).
Proof.
  intros Ht Hr. eexists. split; [reflexivity|].
  assert (represents H (dump (clear_metrics now s)) held A) as Hr'.
  { eapply represents_frame; [|exact Hr]. intros k Hk. by apply clear_metrics_lookup, queue_key_no_metric. }
  split; [exact Hr'|]. unfold get_queue_metrics, get_metrics.
  assert (∀ name, r_get (clear_metrics now s) t (METRICS_PREFIX +:+ name) = None) as Hc.
  { intros name. rewrite r_get_law. unfold str_at. by rewrite clear_metrics_alive, starts_with_app. }
  assert (r_lrange (clear_metrics now s) t (METRICS_PREFIX +:+ "latencies") = []) as ->.
  { rewrite r_lrange_law. unfold list_at. by rewrite clear_metrics_alive, starts_with_app. }
  rewrite !Hc, !r_lrange_law. destruct (rp_pending _ _ _ _ Hr') as [Hp1 Hp2], (rp_dead _ _ _ _ Hr') as [Hd1 Hd2].
  rewrite (list_at_perm _ _ _ Hp1), (list_at_perm _ _ _ Hd1), Hp2, Hd2, length_map. reflexivity.
Qed.
End Endpoints.

(** ** Witness *)

Section Demo.
#[local] Existing Instance gmap_redis.
#[local] Existing Instance coded_float.

(** Counters, and a command that was given up *)
Definition counted_store : store :=
  r_rpush (r_incr (r_incr (∅ : store) 1 "dl:metrics:enqueued") 1 "dl:metrics:dead_lettered") 1 DEAD_LETTER_KEY "command 1".

Lemma counted_store_ok : represents 9 (dump counted_store) [] (mkAQueue [] ∅ ["command 1"]).
Proof.
  unfold counted_store. rewrite r_rpush_law. apply (push_dead 9 1 _ [] empty_queue "command 1"), represents_empty.
  intros k Hk%queue_key_no_metric. autorewrite with redis. rewrite !lookup_incr_ne by (intros <-; discriminate Hk). reflexivity.
Qed.

Lemma clearing_keeps_commands_witness :
  ∃ s', clear_queue_metrics 5 (Some counted_store) = (Ok "Queue metrics cleared", Some s') ∧
    qr_dead_letter_depth <$> (match get_queue_metrics 6 (Some s') with Ok m => Some m | Err _ => None end) = Some 1.
Proof.
  destruct (clearing_keeps_commands 9 5 6 counted_store [] (mkAQueue [] ∅ ["command 1"]) ltac:(lia) counted_store_ok)
    as (s' & H1 & _ & H2).
  exists s'. split; [exact H1|]. rewrite H2. reflexivity.
Defined.
End Demo.
