(* ===== verification/Pool.v ===== *)
(** * Pool: connections, row-level security and the rest of database.py

    Models DatabasePool of src/src/database.py: how the pool is opened and closed, how a
    connection gets a tenant context, and the queries that Database.v leaves out (listing,
    creating and updating spaces, listing reservations).

    A connection is a session: whether a transaction block is open, and the values that SET
    LOCAL and SET gave to [app.current_tenant].  SET LOCAL lasts until the end of the block;
    outside of one its value is gone with the statement, but PostgreSQL knows the name from
    then on and reads it as the empty text, also after the RESET ALL with which asyncpg
    hands a connection out again.  The policies of migration 008 compare a row's tenant with
    the setting cast to uuid, for every role that is not a superuser ([AppRole], the role of
    migration 009): an unknown name reads as NULL and matches no row, the empty text does
    not cast.  A listing asks the policy for every row of the table, a query by id for the
    row of that id.  The tenants given to a connection are UUIDs.  asyncpg gives a JSONB
    column as text ([jsonb_text]) unless a codec is set; [encode_jsonb] is what it makes of a
    dict argument. *)

From Stdlib Require Import QArith.
From S2P Require Import Prelude PyUtils Json Models Database Estate.

Open Scope Z_scope.

(** ** Sessions and policies *)

Inductive Role := Superuser | AppRole.

Record Session := mkSession { ss_block : bool; ss_local : option string; ss_value : option string }.

(** current_setting('app.current_tenant', true) *)
Definition current_setting (s : Session) : option string :=
  match ss_local s with Some v => Some v | None => ss_value s end.

(** A connection as the pool hands it out: [named] if some statement on it has set the
    name before *)
Definition handed_out (named : bool) : Session := mkSession false None (if named then Some "" else None).

(** SET LOCAL app.current_tenant = '...' *)
Definition set_local_tenant (tenant_id : string) (s : Session) : Session :=
  if ss_block s then mkSession true (Some tenant_id) (ss_value s)
  else mkSession false None (Some (or_else (ss_value s) "")).

(** SET app.current_tenant = '...' *)
Definition set_session_tenant (tenant_id : string) (s : Session) : Session := mkSession (ss_block s) None (Some tenant_id).

Definition begin_block (s : Session) : Session := mkSession true None (ss_value s).
Definition end_block (s : Session) : Session :=
  mkSession false None (match ss_local s with Some _ => Some (or_else (ss_value s) "") | None => ss_value s end).

Definition invalid_uuid : exn := PyException ("invalid input syntax for type uuid: " +:+ quote +:+ quote).

(** USING (tenant_id = current_setting('app.current_tenant', true)::uuid) *)
Definition policy (r : Role) (s : Session) (tenant_id : option string) : result exn bool :=
  match r with
  | Superuser => Ok true
  | AppRole =>
      match current_setting s with
      | None => Ok false
      | Some "" => Err invalid_uuid
      | Some t => Ok (bool_decide (tenant_id = Some t))
      end
  end.

(** ** Connections *)

(** The calls into asyncpg that can fail *)
Inductive DriverCall := CreatePool | TestConnection | PoolAcquire | SetTenant | PoolClose.

Section Connections.
Context {W : Type} (driver : DriverCall → option exn) (named : bool).

Definition not_initialized : exn := DatabaseError "Database pool not initialized".

(** [DatabasePool.acquire] around the body of the [async with] block *)
Definition acquire {A} (pool : option nat) (tenant_id : option string) (body : stE (Session * W) exn A) : stE W exn A := λ w,
  match pool with
  | None => (Err not_initialized, w)
  | Some _ =>
      let on_conn :=
        _ ← may_fail (driver PoolAcquire) (mret tt);
        _ ← (if truthy tenant_id
             then may_fail (driver SetTenant) (modify_st (λ sw, (set_local_tenant (or_else tenant_id "") sw.1, sw.2)))
             else mret tt);
        body in
      let '(r, (_, w')) := on_conn (handed_out named, w) in (r, w')
  end.

(** [conn.transaction()]: commit, or roll back and raise *)
Definition in_block {A} (body : stE (Session * W) exn A) : stE (Session * W) exn A := λ '(s, w),
  match body (begin_block s, w) with
  | (Ok a, (s', w')) => (Ok a, (end_block s', w'))
  | (Err e, (s', _)) => (Err e, (end_block s', w))
  end.

(** [DatabasePool.transaction] *)
Definition transaction {A} (pool : option nat) (tenant_id : option string) (body : stE (Session * W) exn A) : stE W exn A :=
  acquire pool tenant_id (in_block body).

(** [get_db_with_tenant]: the argument, or the tenant the middleware left on the request *)
Definition with_tenant_of (state_tenant tenant_id : option string) : option string :=
  match tenant_id with None => state_tenant | Some t => Some t end.

Definition get_db_with_tenant {A} (pool : option nat) (state_tenant tenant_id : option string)
    (body : stE (Session * W) exn A) : stE W exn A :=
  acquire pool (with_tenant_of state_tenant tenant_id) body.

(** How the handlers of routers/sites.py begin: [acquire()] and a SET of the caller's tenant *)
Definition site_connection {A} (pool : option nat) (tenant_id : string) (body : stE (Session * W) exn A) : stE W exn A :=
  acquire pool None (
    _ ← may_fail (driver SetTenant) (modify_st (λ sw, (set_session_tenant tenant_id sw.1, sw.2)));
    body).
End Connections.

(** ** Opening and closing the pool *)

Record DatabasePool := mkDatabasePool { dp_pool : option nat; dp_initialized : bool }.

(** The module's [_db_pool], the asyncpg pools that are open, and the next one's name *)
Record Process := mkProcess { pr_db_pool : option DatabasePool; pr_open : list nat; pr_next : nat }.

Section Lifecycle.
Context (driver : DriverCall → option exn).

Definition cannot_connect (e : exn) : exn := DatabaseError ("Cannot connect to database: " +:+ message e).

(** [DatabasePool.initialize] on the object [p]; the pool is kept when only the test
    query fails. *)
Definition initialize (p : DatabasePool) (open : list nat) (next : nat) : result exn unit * DatabasePool * list nat * nat :=
  if dp_initialized p then (Ok tt, p, open, next)
  else match driver CreatePool with
       | Some e => (Err (cannot_connect e), p, open, next)
       | None =>
           match driver TestConnection with
           | Some e => (Err (cannot_connect e), mkDatabasePool (Some next) false, next :: open, S next)
           | None => (Ok tt, mkDatabasePool (Some next) true, next :: open, S next)
           end
       end.

(** [DatabasePool.close] *)
Definition close (p : DatabasePool) (open : list nat) : result exn unit * DatabasePool * list nat :=
  match dp_pool p with
  | None => (Ok tt, p, open)
  | Some i =>
      match driver PoolClose with
      | Some e => (Err e, p, open)
      | None => (Ok tt, mkDatabasePool (Some i) false, List.filter (λ j, negb (Nat.eqb i j)) open)
      end
  end.

(** [get_db_pool]: the global is assigned before it is initialized. *)
Definition get_db_pool : stE Process exn DatabasePool := λ g,
  match pr_db_pool g with
  | Some p => (Ok p, g)
  | None =>
      let '(r, p, open, next) := initialize (mkDatabasePool None false) (pr_open g) (pr_next g) in
      (match r with Ok _ => Ok p | Err e => Err e end, mkProcess (Some p) open next)
  end.

Definition close_db_pool : stE Process exn unit := λ g,
  match pr_db_pool g with
  | None => (Ok tt, g)
  | Some p =>
      match close p (pr_open g) with
      | (Ok _, _, open) => (Ok tt, mkProcess None open (pr_next g))
      | (Err e, p, open) => (Err e, mkProcess (Some p) open (pr_next g))
      end
  end.
End Lifecycle.

(** ** Queries *)

Section Queries.
Context (role : Role) (driver : DriverCall → option exn) (named : bool) (pool : option nat) (jsonb_text : bool).
Context (encode_jsonb : json_obj → result exn json_obj).

Fixpoint filter_result {A} (p : A → result exn bool) (l : list A) : result exn (list A) :=
  match l with
  | [] => Ok []
  | x :: l => keep ← p x; l ← filter_result p l; mret (if keep : bool then x :: l else l)
  end.

(** The rows of [spaces] and [reservations] the session may see *)
Definition visible_spaces (sw : Session * Estate) : result exn (list Space) :=
  filter_result (λ s, policy role sw.1 (sp_tenant_id s)) (estate_spaces sw.2).
Definition visible_reservations (sw : Session * Estate) : result exn (list Reservation) :=
  filter_result (λ r, policy role sw.1 (Some (rv_tenant_id r))) (reservations (es_db sw.2)).

(** A SELECT *)
Definition select {A} (f : Session * Estate → result exn A) : stE (Session * Estate) exn A := λ sw, (f sw, sw).

(** ORDER BY ... LIMIT $limit OFFSET $offset *)
Definition page {A} (limit offset : Z) (l : list A) : result exn (list A) :=
  if limit <? 0 then Err (PyException "LIMIT must not be negative")
  else if offset <? 0 then Err (PyException "OFFSET must not be negative")
  else Ok (take (Z.to_nat limit) (drop (Z.to_nat offset) l)).

(** [if x:] of a filter: an empty text filters nothing. *)
Definition text_filter (filter value : option string) : bool :=
  if truthy filter then bool_decide (value = filter) else true.

Record SpaceFilters := mkSpaceFilters {
  sf_building : option string; sf_floor : option string; sf_zone : option string;
  sf_state : option SpaceState; sf_include_deleted : bool;
}.

Definition space_matches (q : SpaceFilters) (s : Space) : bool :=
  (sf_include_deleted q || live_space s) && text_filter (sf_building q) (sp_building s) &&
  text_filter (sf_floor q) (sp_floor s) && text_filter (sf_zone q) (sp_zone s) &&
  match sf_state q with Some st => bool_decide (sp_state s = st) | None => true end.

Definition name_before (a b : Space) : Prop := string_leb (sp_name a) (sp_name b).
#[export] Instance name_before_total : Total name_before.
Proof. intros a b. apply String.leb_total. Qed.
#[export] Instance name_before_dec : RelDecision name_before.
Proof. intros a b. unfold name_before. apply string_leb_dec. Defined.

Definition matching_spaces (q : SpaceFilters) (sw : Session * Estate) : result exn (list Space) :=
  rows ← visible_spaces sw; mret (merge_sort name_before (List.filter (space_matches q) rows)).

Definition model_error (field : string) : exn := PyException ("validation error: " +:+ field).

(** [Space( **row )]: the validators of the model on a row *)
Definition space_model (s : Space) : result exn Space :=
  match (sensor ← validate_deveui (sp_sensor_eui s);
         display ← validate_deveui (sp_display_eui s);
         _ ← valid_space_base (mkSpaceBase (sp_name s) (sp_code s) (sp_building s) (sp_floor s) (sp_zone s)
                                 (sp_gps_latitude s) (sp_gps_longitude s));
         mret (set_devices sensor display s)) with
  | Ok s => Ok s
  | Err f => Err (model_error f)
  end.

(** [Space( **dict(row) )] without the parsing of the metadata text *)
Definition unparsed_model (s : Space) : result exn Space :=
  if jsonb_text && bool_decide (is_Some (sp_metadata s)) then Err (model_error "metadata") else space_model s.

Definition get_spaces (q : SpaceFilters) (limit offset : Z) : stE Estate exn (list Space) :=
  rows ← acquire driver named pool None (select (λ sw, rows ← matching_spaces q sw; page limit offset rows));
  lift (mapM space_model rows).

(** The INSERT names neither a site nor a tenant. *)
Definition bare_space (now : Z) (new_id : string) (space : SpaceCreate) (metadata : option json_obj) : Space :=
  let b := sc_base space in
  mkSpace new_id (sb_name b) (sb_code b) (sb_building b) (sb_floor b) (sb_zone b) (str_upper <$> sc_sensor_eui space)
    (str_upper <$> sc_display_eui space) (sc_state space) None None (numeric_scale 8 <$> sb_gps_latitude b)
    (numeric_scale 8 <$> sb_gps_longitude b) metadata now now None.

(** [json.dumps(m) if m else None] *)
Definition given_metadata (m : option json_obj) : option json_obj := match m with Some [] => None | _ => m end.

Definition on_estate {A} (c : stE Estate exn A) : stE (Session * Estate) exn A := λ '(s, es),
  let '(r, es') := c es in (r, (s, es')).

Definition create_space (now : Z) (new_id : string) (space : SpaceCreate) : stE Estate exn Space :=
  row ← acquire driver named pool None
          (on_estate (insert_space (bare_space now new_id space (given_metadata (sc_metadata space)))));
  lift (unparsed_model row).

(** [updates.dict(exclude_unset=True)] has no entry *)
Definition nothing_set (u : SpaceUpdate) : bool :=
  match u with mkSpaceUpdate None None None None None None None None None => true | _ => false end.

(** The first column that is set to NULL although it may not be *)
Definition null_column (u : SpaceUpdate) : option string :=
  match su_name u, su_code u, su_state u with
  | Some None, _, _ => Some "name"
  | _, Some None, _ => Some "code"
  | _, _, Some None => Some "state"
  | _, _, _ => None
  end.

(** [LOWER($n)] of a value that is not empty *)
Definition set_eui (o : option (option string)) (old : option string) : option string :=
  match o with
  | None => old
  | Some v => if truthy v then str_lower <$> v else v
  end.

Definition set_nullable {A} (o : option (option A)) (old : option A) : option A :=
  match o with Some v => v | None => old end.
Definition set_required {A} (o : option (option A)) (old : A) : A :=
  match o with Some (Some v) => v | _ => old end.

Definition apply_update (now : Z) (u : SpaceUpdate) (metadata : option (option json_obj)) (s : Space) : Space :=
  mkSpace (sp_id s) (set_required (su_name u) (sp_name s)) (set_required (su_code u) (sp_code s))
    (set_nullable (su_building u) (sp_building s)) (set_nullable (su_floor u) (sp_floor s))
    (set_nullable (su_zone u) (sp_zone s)) (set_eui (su_sensor_eui u) (sp_sensor_eui s))
    (set_eui (su_display_eui u) (sp_display_eui s)) (set_required (su_state u) (sp_state s)) (sp_site_id s) (sp_tenant_id s)
    (sp_gps_latitude s) (sp_gps_longitude s) (set_nullable metadata (sp_metadata s)) (sp_created_at s) now (sp_deleted_at s).

(** The argument of [metadata = $n::jsonb], which is the dict itself *)
Definition encoded (m : option (option json_obj)) : result exn (option (option json_obj)) :=
  match m with Some (Some o) => (λ o, Some (Some o)) <$> encode_jsonb o | m => Ok m end.

Definition space_row (sw : Session * Estate) : Space → bool := λ s,
  live_space s && match policy role sw.1 (sp_tenant_id s) with Ok b => b | Err _ => false end.

Definition find_space (space_id : string) (sw : Session * Estate) : result exn (option Space) :=
  match fetchrow (λ s, is_space space_id s && live_space s) (estate_spaces sw.2) with
  | Some s => seen ← policy role sw.1 (sp_tenant_id s); mret (if seen : bool then Some s else None)
  | None => mret None
  end.

Definition update_statement (now : Z) (space_id : string) (u : SpaceUpdate) : stE (Session * Estate) exn Space := λ sw,
  match encoded (su_metadata u) with
  | Err e => (Err e, sw)
  | Ok metadata =>
      match find_space space_id sw, null_column u with
      | Err e, _ => (Err e, sw)
      | Ok None, _ => (Err (SpaceNotFoundError space_id), sw)
      | Ok (Some _), Some column => (Err (not_null_violation column), sw)
      | Ok (Some _), None =>
          on_estate (row ← update_space_where space_id (space_row sw) (apply_update now u metadata);
                     match row with Some s => mret s | None => raise (SpaceNotFoundError space_id) end) sw
      end
  end.

Definition get_space (space_id : string) : stE Estate exn (option Space) :=
  row ← acquire driver named pool None (select (find_space space_id));
  match row with Some s => s ← lift (space_model s); mret (Some s) | None => mret None end.

Definition update_space (now : Z) (space_id : string) (u : SpaceUpdate) : stE Estate exn Space :=
  if nothing_set u
  then space ← get_space space_id;
       match space with Some s => mret s | None => raise (SpaceNotFoundError space_id) end
  else row ← acquire driver named pool None (update_statement now space_id u);
       lift (unparsed_model row).

Record ReservationFilters := mkReservationFilters {
  rf_space_id : option string; rf_user_email : option string; rf_status : option ReservationStatus;
  rf_date_from : option Z; rf_date_to : option Z;
}.

Definition reservation_matches (q : ReservationFilters) (r : Reservation) : bool :=
  text_filter (rf_space_id q) (Some (rv_space_id r)) && text_filter (rf_user_email q) (rv_user_email r) &&
  match rf_status q with Some st => bool_decide (rv_status r = st) | None => true end &&
  match rf_date_from q with Some t => t <=? rv_end_time r | None => true end &&
  match rf_date_to q with Some t => rv_start_time r <=? t | None => true end.

Definition starts_after (a b : Reservation) : Prop := rv_start_time b ≤ rv_start_time a.
#[export] Instance starts_after_dec : RelDecision starts_after.
Proof. intros a b. unfold starts_after. apply _. Defined.

(** [Reservation( **dict(row) )] *)
Definition reservation_model (r : Reservation) : result exn Reservation :=
  if jsonb_text && bool_decide (is_Some (rv_metadata r)) then Err (model_error "metadata")
  else match validate_times (rv_start_time r) (rv_end_time r) with Ok _ => Ok r | Err f => Err (model_error f) end.

Definition get_reservations (q : ReservationFilters) (limit offset : Z) : stE Estate exn (list Reservation) :=
  rows ← acquire driver named pool None
           (select (λ sw, rows ← visible_reservations sw;
                          page limit offset (merge_sort starts_after (List.filter (reservation_matches q) rows))));
  lift (mapM reservation_model rows).
End Queries.

(** ** Properties: connections *)

Section ConnectionProperties.
Context {W : Type} (driver : DriverCall → option exn).

(** The tenant argument of [acquire], [transaction] and [get_db_with_tenant] reaches no
    statement of the block: SET LOCAL runs before a transaction block is open.  The call
    behaves as the one without a tenant on a connection where the name is known, or the
    SET itself fails. *)
Theorem tenant_context_never_set {A} named pool tenant_id state_tenant (body : stE (Session * W) exn A) w :
  let without t := acquire driver (named || truthy t) pool None in
  let ignored run plain := run = plain ∨ ∃ e, driver SetTenant = Some e ∧ run = (Err e, w) in
  ignored (acquire driver named pool tenant_id body w) (without tenant_id body w) ∧
  ignored (transaction driver named pool tenant_id body w) (without tenant_id (in_block body) w) ∧
  ignored (get_db_with_tenant driver named pool state_tenant tenant_id body w)
          (without (with_tenant_of state_tenant tenant_id) body w).
Proof.
  assert (∀ t (c : stE (Session * W) exn A),
    acquire driver named pool t c w = acquire driver (named || truthy t) pool None c w ∨
    ∃ e, driver SetTenant = Some e ∧ acquire driver named pool t c w = (Err e, w)) as H; [|split_and!; apply H].
  intros t c. unfold acquire. destruct pool; [|by left].
  cbv [mbind stE_bind mret stE_ret may_fail raise modify_st]. destruct (driver PoolAcquire); [by left|].
  destruct (truthy t); [|rewrite orb_false_r; by left]. rewrite orb_true_r.
  destruct (driver SetTenant) as [e|]; [right; by exists e|left]. by destruct named.
Qed.

(** Without faults the body runs on the session of the pool. *)
Lemma acquire_ok {A} named i (body : stE (Session * W) exn A) w :
  driver PoolAcquire = None →
  acquire driver named (Some i) None body w = let '(r, (_, w')) := body (handed_out named, w) in (r, w').
Proof. intros H. unfold acquire. cbn. by rewrite H. Qed.
End ConnectionProperties.

(** *** Opening and closing *)

Section LifecycleProperties.

Definition healthy (driver : DriverCall → option exn) : Prop := ∀ c, driver c = None.

(** The calls in a process whose driver does not fail *)
Inductive pool_step : Process → Process → Prop :=
| step_get driver r g g' : healthy driver → get_db_pool driver g = (r, g') → pool_step g g'
| step_close driver r g g' : healthy driver → close_db_pool driver g = (r, g') → pool_step g g'.

Definition new_process : Process := mkProcess None [] 0.

(** The open pools are exactly the one the global holds. *)
Definition one_pool (g : Process) : Prop :=
  match pr_db_pool g with
  | None => pr_open g = []
  | Some p => dp_initialized p = true ∧ ∃ i, dp_pool p = Some i ∧ pr_open g = [i]
  end.

(** As long as the driver does not fail, at most one pool is open at any time, the one the
    global holds; after [close_db_pool] none is. *)
Theorem pool_lifecycle g : rtc pool_step new_process g → one_pool g.
Proof.
  apply (rtc_ind_r one_pool); [done|]. intros g1 g2 _ Hs Hg. destruct Hs as [driver r g1 g2 Hd H|driver r g1 g2 Hd H];
    unfold get_db_pool, close_db_pool, initialize, close, one_pool in *; destruct (pr_db_pool g1) as [p|] eqn:E.
  - injection H as <- <-. by rewrite E.
  - cbn in H. rewrite !Hd in H. injection H as <- <-. cbn. split; [done|]. exists (pr_next g1). by rewrite Hg.
  - destruct Hg as (_ & i & Hi & Ho). rewrite Hi, Hd, Ho in H. injection H as <- <-. cbn. by rewrite Nat.eqb_refl.
  - injection H as <- <-. by rewrite E.
Qed.

(** When the first [get_db_pool] cannot create the pool, every later call returns an
    object without a pool, whatever the driver does by then, and [acquire] on it raises:
    nothing tries to connect again until [close_db_pool]. *)
Theorem failed_pool_is_kept down later e g g1 :
  pr_db_pool g = None → down CreatePool = Some e → get_db_pool down g = (Err (cannot_connect e), g1) →
  get_db_pool later g1 = (Ok (mkDatabasePool None false), g1) ∧
  ∀ {W A} named t (body : stE (Session * W) exn A) w, acquire later named None t body w = (Err not_initialized, w).
Proof.
  intros Hg Hd H. unfold get_db_pool, initialize in *. rewrite Hg in H. cbn in H. rewrite Hd in H.
  injection H as <-. done.
Qed.

(** A pool whose test query fails stays open and is not closed by anyone but
    [close_db_pool]. *)
Lemma failed_test_leaks down e g r g1 :
  pr_db_pool g = None → down CreatePool = None → down TestConnection = Some e → get_db_pool down g = (r, g1) →
  r = Err (cannot_connect e) ∧ pr_open g1 = pr_next g :: pr_open g.
Proof.
  intros Hg Hc Ht H. unfold get_db_pool, initialize in H. rewrite Hg in H. cbn in H. rewrite Hc, Ht in H.
  by injection H as <- <-.
Qed.
End LifecycleProperties.

(** ** Properties: queries *)

Section QueryProperties.
Context (driver : DriverCall → option exn) (named : bool) (i : nat) (jsonb_text : bool) (encode_jsonb : json_obj → result exn json_obj).
Context (driver_ok : healthy driver).

Lemma acquired {A} known (body : stE (Session * Estate) exn A) es :
  acquire driver known (Some i) None body es = let '(r, (_, es')) := body (handed_out known, es) in (r, es').
Proof. apply acquire_ok, driver_ok. Qed.

Lemma filter_result_ok {A} (p : A → result exn bool) (q : A → bool) l :
  (∀ x, p x = Ok (q x)) → filter_result p l = Ok (List.filter q l).
Proof. intros Hp. induction l as [|x l IH]; [done|]. cbn. rewrite Hp, IH. by destruct (q x). Qed.

Lemma filter_result_err {A} (p : A → result exn bool) e l :
  (∀ x, p x = Err e) → filter_result p l = match l with [] => Ok [] | _ => Err e end.
Proof. intros Hp. destruct l as [|x l]; [done|]. cbn. by rewrite Hp. Qed.

Lemma filter_const {A} (b : bool) (l : list A) : List.filter (λ _, b) l = if b then l else [].
Proof. induction l as [|x l IH]; [by destruct b|]. cbn. rewrite IH. by destruct b. Qed.

Lemma superuser_sees_all sw :
  visible_spaces Superuser sw = Ok (estate_spaces sw.2) ∧ visible_reservations Superuser sw = Ok (reservations (es_db sw.2)).
Proof. unfold visible_spaces, visible_reservations. split; rewrite (filter_result_ok _ (λ _, true)) by done; by rewrite filter_const. Qed.

(** What the policies leave of the tables for a role and a setting *)
Definition tables_seen (role : Role) (setting : option string) (es : Estate) : result exn (list Space * list Reservation) :=
  match role, setting with
  | Superuser, _ => Ok (estate_spaces es, reservations (es_db es))
  | AppRole, None => Ok ([], [])
  | AppRole, Some "" => match estate_spaces es, reservations (es_db es) with [], [] => Ok ([], []) | _, _ => Err invalid_uuid end
  | AppRole, Some t => Ok (List.filter (λ s, bool_decide (sp_tenant_id s = Some t)) (estate_spaces es),
                           List.filter (λ r, String.eqb (rv_tenant_id r) t) (reservations (es_db es)))
  end.

(** A query of both tables *)
Definition select_tables (role : Role) : stE (Session * Estate) exn (list Space * list Reservation) :=
  select (λ sw, l ← visible_spaces role sw; m ← visible_reservations role sw; mret (l, m)).

Lemma select_tables_seen role s es :
  select_tables role (s, es) = (tables_seen role (current_setting s) es, (s, es)).
Proof.
  unfold select_tables, select. f_equal. destruct role.
  { destruct (superuser_sees_all (s, es)) as [-> ->]. done. }
  unfold visible_spaces, visible_reservations, tables_seen, policy. cbn [fst snd].
  destruct (current_setting s) as [[|c t]|].
  - rewrite !(filter_result_err _ invalid_uuid) by done. by destruct (estate_spaces es), (reservations (es_db es)).
  - rewrite (filter_result_ok _ (λ x, bool_decide (sp_tenant_id x = Some (String c t)))) by done.
    rewrite (filter_result_ok _ (λ x, String.eqb (rv_tenant_id x) (String c t))); [done|]. intros x.
    destruct (String.eqb_spec (rv_tenant_id x) (String c t)) as [->|Hne]; [by rewrite bool_decide_true|].
    rewrite bool_decide_false; [done|by intros [= ?]].
  - rewrite !(filter_result_ok _ (λ _, false)) by done. by rewrite !filter_const.
Qed.

(** C20. Row-level security sees the tenant in one way only.  With an open pool and a
    driver that does not fail, a superuser sees every row, however the tenant is given.  Under the application's role, a tenant that is given to
    [acquire], [transaction] or [get_db_with_tenant] never makes its rows visible: on
    tables that are not empty the query raises, because the setting is left as an empty
    text that is no UUID; without a tenant it sees no row, or raises likewise on a
    connection where the name was set before.  After the session-level SET of the sites
    router it sees exactly the rows of the caller's tenant. *)
Theorem rls_by_setting role state_tenant tenant_id caller es :
  non_empty caller = true →
  let lost t := if named || truthy t then Some "" else None in
  acquire driver named (Some i) tenant_id (select_tables role) es = (tables_seen role (lost tenant_id) es, es) ∧
  transaction driver named (Some i) tenant_id (select_tables role) es = (tables_seen role (lost tenant_id) es, es) ∧
  get_db_with_tenant driver named (Some i) state_tenant tenant_id (select_tables role) es =
    (tables_seen role (lost (with_tenant_of state_tenant tenant_id)) es, es) ∧
  site_connection driver named (Some i) caller (select_tables role) es = (tables_seen role (Some caller) es, es).
Proof.
  intros Hc lost.
  assert (∀ r, r = (tables_seen role (current_setting (handed_out true)) es, es) →
    ∀ t, acquire driver (named || truthy t) (Some i) None (select_tables role) es = (tables_seen role (lost t) es, es)) as Ha.
  { intros _ _ t. rewrite acquired, select_tables_seen. unfold lost. by destruct (named || truthy t). }
  specialize (Ha _ eq_refl).
  destruct (tenant_context_never_set driver named (Some i) tenant_id state_tenant (select_tables role) es) as (H1 & H2 & H3).
  assert (∀ e : exn, driver SetTenant = Some e → False) as Hf by (intros e; by rewrite driver_ok).
  split_and!.
  - destruct H1 as [->|(e & ?%Hf & _)]; [apply Ha|done].
  - destruct H2 as [->|(e & ?%Hf & _)]; [|done]. rewrite acquired. unfold in_block. rewrite select_tables_seen.
    unfold lost. destruct (named || truthy tenant_id); cbn [begin_block handed_out current_setting ss_local ss_value];
      by destruct (tables_seen _ _ _).
  - destruct H3 as [->|(e & ?%Hf & _)]; [apply Ha|done].
  - unfold site_connection. rewrite acquired. cbv [mbind stE_bind may_fail modify_st]. rewrite driver_ok.
    by rewrite select_tables_seen.
Qed.

Lemma find_superuser space_id sw :
  find_space Superuser space_id sw = Ok (fetchrow (λ s, is_space space_id s && live_space s) (estate_spaces sw.2)).
Proof. unfold find_space. by destruct (fetchrow _ _). Qed.

(** Under the application's role the queries of database.py show nothing and change
    nothing, since none of them gives a tenant. *)
Lemma app_role_finds_nothing q q' limit offset now space_id u es :
  0 ≤ limit → 0 ≤ offset → nothing_set u = false →
  let nothing {A} (empty : A) (r : result exn A * Estate) := r.2 = es ∧ ∀ a, r.1 = Ok a → a = empty in
  nothing [] (get_spaces AppRole driver named (Some i) q limit offset es) ∧
  nothing [] (get_reservations AppRole driver named (Some i) jsonb_text q' limit offset es) ∧
  nothing None (get_space AppRole driver named (Some i) space_id es) ∧
  ∃ e, update_space AppRole driver named (Some i) jsonb_text encode_jsonb now space_id u es = (Err e, es).
Proof.
  intros Hl Ho Hu nothing. unfold nothing, get_spaces, get_reservations, get_space, update_space. rewrite Hu.
  cbv [mbind stE_bind]. rewrite !acquired. unfold select, matching_spaces, visible_spaces, visible_reservations, find_space,
    policy, current_setting, handed_out, page. cbn [fst snd ss_local ss_value].
  destruct (Z.ltb_spec limit 0); [lia|]. destruct (Z.ltb_spec offset 0); [lia|].
  unfold update_statement, find_space, policy, current_setting. cbn [fst snd ss_local ss_value].
  set (rows := filter_result _ (estate_spaces es)). set (booked := filter_result _ (reservations (es_db es))).
  assert (∀ l, rows = Ok l → l = []) as Hrows.
  { unfold rows. destruct named; [|rewrite (filter_result_ok _ (λ _, false)) by done; rewrite filter_const; by intros ? [= <-]].
    rewrite (filter_result_err _ invalid_uuid) by done. destruct (estate_spaces es); by intros ? [= <-]. }
  assert (∀ l, booked = Ok l → l = []) as Hbooked.
  { unfold booked. destruct named; [|rewrite (filter_result_ok _ (λ _, false)) by done; rewrite filter_const; by intros ? [= <-]].
    rewrite (filter_result_err _ invalid_uuid) by done. destruct (reservations (es_db es)); by intros ? [= <-]. }
  split; [|split; [|split]].
  - destruct rows as [l0|e]; [rewrite (Hrows l0 eq_refl)|]; cbn -[take drop]; rewrite ?drop_nil, ?take_nil;
      (split; [done|]); by intros a [= <-].
  - destruct booked as [l0|e]; [rewrite (Hbooked l0 eq_refl)|]; cbn -[take drop]; rewrite ?drop_nil, ?take_nil;
      (split; [done|]); by intros a [= <-].
  - destruct (fetchrow _ _), named; cbn; (split; [done|]); by intros a [= <-].
  - destruct (encoded _ _); [|eauto]. destruct (fetchrow _ _), named; cbn; eauto.
Qed.

(** *** Listing *)


Lemma page_ok {A} limit offset (l : list A) :
  0 ≤ limit → 0 ≤ offset → page limit offset l = Ok (take (Z.to_nat limit) (drop (Z.to_nat offset) l)).
Proof. intros. unfold page. destruct (Z.ltb_spec limit 0); [lia|]. by destruct (Z.ltb_spec offset 0); [lia|]. Qed.

(** What [get_spaces] returns for a superuser, rows that fail the model included *)
Lemma get_spaces_eq q limit offset es :
  0 ≤ limit → 0 ≤ offset →
  get_spaces Superuser driver named (Some i) q limit offset es =
  (mapM space_model (take (Z.to_nat limit) (drop (Z.to_nat offset)
     (merge_sort name_before (List.filter (space_matches q) (estate_spaces es))))), es).
Proof.
  intros Hl Ho. unfold get_spaces. cbv [mbind stE_bind]. rewrite acquired. unfold select, matching_spaces.
  rewrite (proj1 (superuser_sees_all _)). cbn [mbind result_bind mret result_ret fst snd]. by rewrite page_ok.
Qed.

(** The pages of a listing, requested one after the other, are together the spaces that
    match, each once and in the order of their names.  (Rows of equal names keep the order
    of the table here.) *)
Theorem pages_cover q limit n es :
  0 < limit → (∀ s, s ∈ estate_spaces es → space_model s = Ok s) →
  sql_count (space_matches q) (estate_spaces es) ≤ Z.of_nat n * limit →
  ∃ pages, mapM (λ k, (get_spaces Superuser driver named (Some i) q limit (Z.of_nat k * limit) es).1) (seq 0 n) = Ok pages ∧
    concat pages ≡ₚ List.filter (space_matches q) (estate_spaces es) ∧ Sorted name_before (concat pages).
Proof.
  intros Hl Hv Hn. set (l := merge_sort name_before (List.filter (space_matches q) (estate_spaces es))).
  exists (map (λ k, take (Z.to_nat limit) (drop (k * Z.to_nat limit) l)) (seq 0 n)).
  assert (l ≡ₚ List.filter (space_matches q) (estate_spaces es)) as Hp.
  { apply merge_sort_Permutation. }
  rewrite concat_chunks by (rewrite Hp; unfold sql_count in Hn; lia). split; [|split; [done|]].
  - apply mapM_ok. intros k _. rewrite get_spaces_eq by lia. cbn [fst]. fold l.
    replace (Z.to_nat (Z.of_nat k * limit)) with (k * Z.to_nat limit)%nat by lia. apply mapM_id.
    intros s Hs. apply Hv. assert (s ∈ l) as Hin; [|unfold l in Hin; rewrite merge_sort_Permutation, filter_In_elem in Hin; tauto].
    eapply elem_of_sublist; [exact Hs|]. etrans; [apply sublist_take|apply sublist_drop].
  - unfold l. apply Sorted_merge_sort, _.
Qed.

(** *** Writing *)

(** [create_space] never creates a space: its INSERT names no site, which the trigger of
    migration 003 refuses. *)
Theorem create_space_never_succeeds now new_id space es :
  create_space driver named (Some i) jsonb_text now new_id space es = (Err (PyException "site_id cannot be NULL"), es).
Proof. unfold create_space. cbv [mbind stE_bind]. by rewrite acquired. Qed.

(** [update_space] on one row: nothing is written and it raises, or exactly the live row
    of that id is replaced by the requested values, with its EUIs in upper case although
    the statement writes them in lower case.  What it answers then is what the model makes
    of the row: with JSONB columns as text and metadata in the row, an exception. *)
Theorem update_space_spec now space_id u es r es' :
  nothing_set u = false → update_space Superuser driver named (Some i) jsonb_text encode_jsonb now space_id u es = (r, es') →
  (es' = es ∧ is_ok r = false) ∨
  ∃ s metadata, fetchrow (λ x, is_space space_id x && live_space x) (estate_spaces es) = Some s ∧
    encoded encode_jsonb (su_metadata u) = Ok metadata ∧
    let write x := enforce_eui_uppercase (apply_update now u metadata x) in
    es' = estate_db (with_spaces (sql_update (λ x, is_space space_id x && live_space x) write)) es ∧
    r = unparsed_model jsonb_text (write s).
Proof.
  intros Hu. unfold update_space. rewrite Hu. cbv [mbind stE_bind lift]. rewrite acquired.
  unfold update_statement. destruct (encoded _ _) as [metadata|e]; [|intros [= <- <-]; by left].
  rewrite find_superuser. cbn [snd]. destruct (fetchrow _ _) as [s|] eqn:Hs; [|intros [= <- <-]; by left].
  destruct (null_column u); [intros [= <- <-]; by left|].
  unfold on_estate, update_space_where. cbv [mbind stE_bind].
  assert (∀ x, is_space space_id x && space_row Superuser (handed_out named, es) x = is_space space_id x && live_space x) as Hq.
  { intros x. unfold space_row. cbn. by rewrite andb_true_r. }
  assert (fetchrow (λ x, is_space space_id x && space_row Superuser (handed_out named, es) x) (estate_spaces es) = Some s) as ->.
  { rewrite <- Hs. unfold fetchrow. clear -Hq. induction (estate_spaces es) as [|x l IH]; [done|]. cbn. by rewrite Hq, IH. }
  destruct (space_violation _ _); intros [= <- <-]; [by left|]. right. exists s, metadata. split_and!; [done..| |done].
  unfold estate_db, with_spaces, sql_update. cbn. do 2 f_equal. apply map_ext. intros x. by rewrite Hq.
Qed.

(** The EUIs of the row that was written *)
Lemma written_eui now u metadata s :
  sp_sensor_eui (enforce_eui_uppercase (apply_update now u metadata s)) =
  str_upper <$> set_nullable (su_sensor_eui u) (sp_sensor_eui s).
Proof.
  cbn. destruct (su_sensor_eui u) as [[v|]|]; [|done..]. unfold set_eui. cbn [set_nullable].
  destruct (truthy (Some v)); [|done]. cbn. by rewrite str_upper_lower.
Qed.
End QueryProperties.

(** ** Witnesses *)

Definition no_faults (_ : DriverCall) : option exn := None.
Definition db_down (c : DriverCall) : option exn :=
  match c with CreatePool => Some (PyException "connection refused") | _ => None end.

Definition bay (id tenant : string) : Space :=
  mkSpace id ("Bay " +:+ id) id (Some "A") None None (Some "0004A30B001A2B3C") None FREE (Some "site") (Some tenant) None None None 0 0 None.
Definition two_tenants : Estate := mkEstate (with_spaces (λ _, [bay "2" "t1"; bay "1" "t2"]) empty_db) [].
Definition all_live : SpaceFilters := mkSpaceFilters None None None None false.

Lemma pool_lifecycle_witness : ∃ g, rtc pool_step new_process g ∧ pr_open g = [0%nat] ∧ one_pool g.
Proof.
  assert (rtc pool_step new_process (get_db_pool no_faults new_process).2) as H.
  { apply rtc_once. by apply (step_get no_faults (get_db_pool no_faults new_process).1). }
  eexists. split; [exact H|]. split; [reflexivity|]. exact (pool_lifecycle _ H).
Defined.

Lemma failed_pool_is_kept_witness :
  let g1 := (get_db_pool db_down new_process).2 in get_db_pool no_faults g1 = (Ok (mkDatabasePool None false), g1).
Proof. exact (proj1 (failed_pool_is_kept db_down no_faults (PyException "connection refused") new_process _ eq_refl eq_refl eq_refl)). Defined.

(** Two tenants, one space each: what the tenant t1 sees, given to the pool and given with SET *)
Lemma rls_by_setting_witness :
  get_db_with_tenant no_faults false (Some 0%nat) (Some "t1") None (select_tables AppRole) two_tenants = (Err invalid_uuid, two_tenants) ∧
  site_connection no_faults false (Some 0%nat) "t1" (select_tables AppRole) two_tenants = (Ok ([bay "2" "t1"], []), two_tenants).
Proof.
  destruct (rls_by_setting no_faults false 0 (λ _, eq_refl) AppRole (Some "t1") None "t1" two_tenants eq_refl) as (_ & _ & H1 & H2).
  split; [exact H1|exact H2].
Defined.

Lemma pages_cover_witness : ∃ pages,
  mapM (λ k, (get_spaces Superuser no_faults false (Some 0%nat) all_live 1 (Z.of_nat k * 1) two_tenants).1) (seq 0 2) = Ok pages ∧
  map sp_id (concat pages) = ["1"; "2"] ∧ Sorted name_before (concat pages).
Proof.
  destruct (pages_cover no_faults false 0 (λ _, eq_refl) all_live 1 2 two_tenants) as (pages & H & _ & Hs).
  - lia.
  - intros s Hs. repeat (apply elem_of_cons in Hs as [->|Hs]; [reflexivity|]). by apply elem_of_nil in Hs.
  - vm_compute. discriminate.
  - exists pages. split; [exact H|]. split; [|exact Hs]. assert (Ok (E := exn) pages = Ok [[bay "1" "t2"]; [bay "2" "t1"]]) as E.
    { rewrite <- H. vm_compute. reflexivity. }
    injection E as ->. reflexivity.
Defined.

Lemma create_space_never_succeeds_witness space :
  create_space no_faults false (Some 0%nat) true 5 "s" space two_tenants = (Err (PyException "site_id cannot be NULL"), two_tenants).
Proof. exact (create_space_never_succeeds no_faults false 0 true (λ _, eq_refl) 5 "s" space two_tenants). Defined.
