(* ===== verification/AuditTrail.v ===== *)
(** * AuditTrail: the append-only audit trail

    Models src/src/audit.py and the table of migration 007 it writes: the INSERT of
    [log_audit_event] with the table's constraints, the trigger that refuses every UPDATE
    and DELETE of a row, and the foreign keys whose ON DELETE actions meet that trigger.
    [parse_inet] is the driver's reading of an address, [decode_jsonb] what it makes of a
    JSONB column.  (TRUNCATE fires no row trigger; the application's role may not use it.) *)

From S2P Require Import Prelude PyUtils Json Models Database Estate Auth Pool.

Open Scope Z_scope.

Abbreviation audit_json := (list (string * json)).

Record AuditRow := mkAuditRow {
  au_id : string; au_created_at : Z; au_tenant_id : string; au_user_id : option string; au_api_key_id : option string;
  au_actor_type : string; au_actor_name : option string; au_action : string; au_resource_type : string;
  au_resource_id : option string; au_old_values : option json; au_new_values : option json; au_metadata : option json;
  au_ip_address : option string; au_user_agent : option string; au_request_id : option string;
  au_success : bool; au_error_message : option string;
}.

Record AuditDb := mkAuditDb { ad_auth : AuthDb; audit_log : list AuditRow }.

(** ** The table *)

Definition actor_types : list string := ["user"; "api_key"; "system"; "webhook"].

Definition too_long_for (n : nat) : exn :=
  PyException ("value too long for type character varying(" +:+ show_Z (Z.of_nat n) +:+ ")").

Definition refers {A} (key : A → string) (o : option string) (rows : list A) : bool :=
  match o with Some i => existsb (λ r, String.eqb (key r) i) rows | None => true end.

(** The first constraint of [audit_log] a new row violates *)
Definition audit_violation (d : AuditDb) (r : AuditRow) : option exn :=
  if (20 <? String.length (au_actor_type r))%nat then Some (too_long_for 20)
  else if negb (on_opt (len_between 0 255) (au_actor_name r)) then Some (too_long_for 255)
  else if (100 <? String.length (au_action r))%nat then Some (too_long_for 100)
  else if (50 <? String.length (au_resource_type r))%nat then Some (too_long_for 50)
  else if negb (on_opt (len_between 0 36) (au_request_id r)) then Some (too_long_for 36)
  else if negb (bool_decide (au_actor_type r ∈ actor_types)) then Some (check_violation "audit_log_actor_type_check")
  else if existsb (λ x, String.eqb (au_id x) (au_id r)) (audit_log d) then Some (unique_violation "audit_log_pkey")
  else if negb (refers tn_id (Some (au_tenant_id r)) (tenants (ad_auth d))) then Some (fk_violation "audit_log_tenant_id_fkey")
  else if negb (refers us_id (au_user_id r) (users (ad_auth d))) then Some (fk_violation "audit_log_user_id_fkey")
  else if negb (refers ak_id (au_api_key_id r) (api_keys (ad_auth d))) then Some (fk_violation "audit_log_api_key_id_fkey")
  else None.

(** [log_audit_event]: the INSERT, and the id it returns *)
Definition log_audit_event (r : AuditRow) : stE AuditDb exn string := λ d,
  match audit_violation d r with
  | Some e => (Err e, d)
  | None => (Ok (au_id r), mkAuditDb (ad_auth d) (audit_log d ++ [r])%list)
  end.

(** [prevent_audit_log_modification]: raises for every row it is fired for *)
Definition update_audit_log (p : AuditRow → bool) : stE AuditDb exn unit := λ d,
  (if existsb p (audit_log d) then Err (PyException "Audit log records cannot be modified") else Ok tt, d).
Definition delete_audit_log (p : AuditRow → bool) : stE AuditDb exn unit := λ d,
  (if existsb p (audit_log d) then Err (PyException "Audit log records cannot be deleted") else Ok tt, d).

(** DELETE FROM users and FROM api_keys: ON DELETE SET NULL is an UPDATE of the rows that
    refer to the deleted one. *)
Definition by_user (i : string) (r : AuditRow) : bool := bool_decide (au_user_id r = Some i).
Definition by_api_key (i : string) (r : AuditRow) : bool := bool_decide (au_api_key_id r = Some i).

Definition delete_user (i : string) : stE AuditDb exn unit := λ d,
  match update_audit_log (by_user i) d with
  | (Ok _, d) => (Ok tt, mkAuditDb (with_users (List.filter (λ u, negb (String.eqb (us_id u) i))) (ad_auth d)) (audit_log d))
  | failed => failed
  end.
Definition delete_api_key (i : string) : stE AuditDb exn unit := λ d,
  match update_audit_log (by_api_key i) d with
  | (Ok _, d) => (Ok tt, mkAuditDb (with_api_keys (List.filter (λ k, negb (String.eqb (ak_id k) i))) (ad_auth d)) (audit_log d))
  | failed => failed
  end.

(** ** The service *)

Section AuditLogger.
Context (parse_inet : string → result exn string) (decode_jsonb : json → json) (fault : option exn).

(** The arguments of [log_action] *)
Record Action := mkAction {
  ac_tenant : string; ac_action : string; ac_resource : string; ac_actor : string; ac_resource_id : option string;
  ac_user : option string; ac_api_key : option string; ac_name : option string; ac_old : option audit_json;
  ac_new : option audit_json; ac_meta : option audit_json; ac_ip : option string; ac_agent : option string;
  ac_request : option string; ac_ok : bool; ac_error : option string;
}.

(** [json.dumps(v) if v else None], read back by the server *)
Definition jsonb_argument (v : option audit_json) : option json :=
  match v with Some ((_ :: _) as o) => Some (JObj o) | _ => None end.

Definition audit_row (now : Z) (new_id : string) (a : Action) (ip : option string) : AuditRow :=
  mkAuditRow new_id now (ac_tenant a) (ac_user a) (ac_api_key a) (ac_actor a) (ac_name a) (ac_action a) (ac_resource a)
    (ac_resource_id a) (jsonb_argument (ac_old a)) (jsonb_argument (ac_new a)) (jsonb_argument (ac_meta a)) ip (ac_agent a)
    (ac_request a) (ac_ok a) (ac_error a).

Definition log_action (now : Z) (new_id : string) (a : Action) : stE AuditDb exn string :=
  may_fail fault (
    ip ← lift (match ac_ip a with Some s => Some <$> parse_inet s | None => Ok None end);
    log_audit_event (audit_row now new_id a ip)).

Definition log_user_action (now : Z) (new_id tenant_id user_id user_email action resource_type : string)
    (resource_id : option string) (old_values new_values : option audit_json) (request_id : option string) (success : bool) :=
  log_action now new_id (mkAction tenant_id action resource_type "user" resource_id (Some user_id) None (Some user_email)
    old_values new_values None None None request_id success None).

Definition log_api_key_action (now : Z) (new_id tenant_id api_key_id api_key_name action resource_type : string)
    (resource_id : option string) (new_values : option audit_json) (request_id : option string) (success : bool) :=
  log_action now new_id (mkAction tenant_id action resource_type "api_key" resource_id None (Some api_key_id)
    (Some api_key_name) None new_values None None None request_id success None).

Definition log_system_action (now : Z) (new_id tenant_id action resource_type system_name : string)
    (resource_id : option string) (metadata : option audit_json) :=
  log_action now new_id (mkAction tenant_id action resource_type "system" resource_id None None (Some system_name) None None
    metadata None None None true None).

(** ** Reading *)

Record AuditQuery := mkAuditQuery { aq_action : option string; aq_resource_type : option string; aq_user_id : option string }.

Definition in_audit_log (tenant_id : string) (q : AuditQuery) (r : AuditRow) : bool :=
  String.eqb (au_tenant_id r) tenant_id && text_filter (aq_action q) (Some (au_action r)) &&
  text_filter (aq_resource_type q) (Some (au_resource_type r)) && text_filter (aq_user_id q) (au_user_id r).

(** ORDER BY created_at DESC *)
Definition logged_later (a b : AuditRow) : Prop := au_created_at b ≤ au_created_at a.
#[export] Instance logged_later_dec : RelDecision logged_later.
Proof. intros a b. unfold logged_later. apply _. Defined.
#[export] Instance logged_later_total : Total logged_later.
Proof. intros a b. unfold logged_later. lia. Qed.

Definition column_json (o : option json) : json := match o with Some j => decode_jsonb j | None => JNull end.

Definition render_entry (r : AuditRow) : json :=
  JObj [("id", JText (au_id r)); ("created_at", iso (au_created_at r));
        ("actor_type", JText (au_actor_type r)); ("actor_name", text_or_null (au_actor_name r)); ("action", JText (au_action r));
        ("resource_type", JText (au_resource_type r)); ("resource_id", text_or_null (au_resource_id r));
        ("old_values", column_json (au_old_values r)); ("new_values", column_json (au_new_values r));
        ("metadata", column_json (au_metadata r)); ("success", JBool (au_success r));
        ("error_message", text_or_null (au_error_message r)); ("request_id", text_or_null (au_request_id r))].

Definition entries (tenant_id : string) (q : AuditQuery) (d : AuditDb) : list AuditRow :=
  merge_sort logged_later (List.filter (in_audit_log tenant_id q) (audit_log d)).

(** Every failure is answered with an empty list. *)
Definition get_tenant_audit_log (tenant_id : string) (limit offset : Z) (q : AuditQuery) (d : AuditDb) : list json :=
  match fault, page limit offset (entries tenant_id q d) with
  | None, Ok rows => map render_entry rows
  | _, _ => []
  end.
End AuditLogger.

(** ** Properties *)

(** Any statement on the table, through the service or not *)
Inductive audit_step : AuditDb → AuditDb → Prop :=
| step_log parse_inet fault now new_id a r d d' : log_action parse_inet fault now new_id a d = (r, d') → audit_step d d'
| step_update p r d d' : update_audit_log p d = (r, d') → audit_step d d'
| step_delete p r d d' : delete_audit_log p d = (r, d') → audit_step d d'
| step_delete_user i r d d' : delete_user i d = (r, d') → audit_step d d'
| step_delete_api_key i r d d' : delete_api_key i d = (r, d') → audit_step d d'.

Lemma log_action_cases parse_inet fault now new_id a d r d' :
  log_action parse_inet fault now new_id a d = (r, d') →
  (is_ok r = false ∧ d' = d) ∨
  ∃ ip, r = Ok new_id ∧ audit_violation d (audit_row now new_id a ip) = None ∧
    d' = mkAuditDb (ad_auth d) (audit_log d ++ [audit_row now new_id a ip])%list.
Proof.
  unfold log_action, may_fail. destruct fault; [intros [= <- <-]; by left|]. cbv [mbind stE_bind lift].
  destruct (match ac_ip a with Some _ => _ | None => _ end) as [ip|e]; [|intros [= <- <-]; by left].
  unfold log_audit_event. destruct (audit_violation _ _) eqn:E; intros [= <- <-]; [by left|]. right. eauto.
Qed.

(** Whatever statements run, the entries that were written stay, unchanged and in their
    order. *)
Theorem audit_append_only d d' : rtc audit_step d d' → audit_log d `prefix_of` audit_log d'.
Proof.
  induction 1 as [d|d d1 d' Hs _ IH]; [done|]. etrans; [|exact IH]. clear IH.
  destruct Hs as [parse_inet fault now new_id a r d d1 H|p r d d1 H|p r d d1 H|i r d d1 H|i r d d1 H].
  - apply log_action_cases in H as [[_ ->]|(ip & _ & _ & ->)]; [done|]. cbn. by apply prefix_app_r.
  - by injection H as _ <-.
  - by injection H as _ <-.
  - unfold delete_user, update_audit_log in H. destruct (existsb _ _); by injection H as _ <-.
  - unfold delete_api_key, update_audit_log in H. destruct (existsb _ _); by injection H as _ <-.
Qed.

(** C40. A user or an API key that appears in the trail can never be deleted again: the
    ON DELETE SET NULL of the foreign key is an update the trigger refuses. *)
Theorem audited_actor_not_deletable d d' r i :
  r ∈ audit_log d → rtc audit_step d d' →
  (au_user_id r = Some i → delete_user i d' = (Err (PyException "Audit log records cannot be modified"), d')) ∧
  (au_api_key_id r = Some i → delete_api_key i d' = (Err (PyException "Audit log records cannot be modified"), d')).
Proof.
  intros Hr Hs. assert (r ∈ audit_log d') as Hr'.
  { apply audit_append_only in Hs as [l ->]. apply elem_of_app. by left. }
  assert (∀ p : AuditRow → bool, p r = true → existsb p (audit_log d') = true) as H.
  { intros p Hp. apply existsb_exists. exists r. by rewrite <- list_elem_of_In. }
  split; intros E; unfold delete_user, delete_api_key, update_audit_log; rewrite H; [done| |done|];
    by apply bool_decide_eq_true.
Qed.

Lemma elem_of_page {A} limit offset (l l' : list A) x : page limit offset l = Ok l' → x ∈ l' → x ∈ l.
Proof.
  unfold page. destruct (limit <? 0); [done|]. destruct (offset <? 0); [done|]. intros [= <-] Hx.
  eapply elem_of_sublist; [exact Hx|]. etrans; [apply sublist_take|apply sublist_drop].
Qed.

(** A listing shows entries of the tenant only. *)
Theorem audit_listing_scoped decode_jsonb fault tenant_id limit offset q d j :
  j ∈ get_tenant_audit_log decode_jsonb fault tenant_id limit offset q d →
  ∃ r, r ∈ audit_log d ∧ j = render_entry decode_jsonb r ∧ au_tenant_id r = tenant_id ∧ in_audit_log tenant_id q r = true.
Proof.
  unfold get_tenant_audit_log. destruct fault; [by intros ?%elem_of_nil|].
  destruct (page _ _ _) as [rows|] eqn:E; [|by intros ?%elem_of_nil]. intros (r & -> & Hr)%list_elem_of_fmap.
  apply (elem_of_page _ _ _ _ _ E) in Hr. unfold entries in Hr. rewrite merge_sort_Permutation, filter_In_elem in Hr.
  destruct Hr as [Hr Hq]. exists r. split_and!; [done..| |done].
  unfold in_audit_log in Hq. rewrite !andb_true_iff in Hq. apply String.eqb_eq. tauto.
Qed.

(** *** Reading back *)

(** Equality of JSON values as Python has it: the order of an object's keys, which JSONB
    does not keep, does not matter. *)
Inductive same_json : json → json → Prop :=
| same_leaf j : same_json j j
| same_arr l l' : Forall2 same_json l l' → same_json (JArr l) (JArr l')
| same_obj o p o' :
    o ≡ₚ p → Forall2 (λ kv kv', kv.1 = kv'.1 ∧ same_json kv.2 kv'.2) p o' → same_json (JObj o) (JObj o').

(** A JSONB column is null where no dict, or an empty one, was given, and otherwise comes
    back as a text that parses to the dict. *)
Definition reads_back (given : option audit_json) (column : json) : Prop :=
  match given with
  | Some ((_ :: _) as o) => ∃ text j, column = JText text ∧ loads text = Some j ∧ same_json (JObj o) j
  | _ => column = JNull
  end.

(** What the server does with the dicts of an action: it stores them as JSONB and gives a
    text of the same value back.  (It would refuse a NUL character, and it rewrites the
    literal of a float.) *)
Definition server_keeps (jsonb_out : json → string) (a : Action) : Prop :=
  ∀ o, o ∈ [ac_old a; ac_new a; ac_meta a] → ∀ kv l, o = Some (kv :: l) →
  ∃ j, loads (jsonb_out (JObj (kv :: l))) = Some j ∧ same_json (JObj (kv :: l)) j.

(** A filter that the value passes *)
Definition passes (filter value : option string) : Prop := filter = None ∨ filter = value.

Lemma passes_filter f v : passes f v → text_filter f v = true.
Proof. unfold text_filter. intros [->| ->]; [done|]. destruct (truthy v); [by apply bool_decide_eq_true|done]. Qed.

Lemma column_reads_back jsonb_out a given :
  server_keeps jsonb_out a → given ∈ [ac_old a; ac_new a; ac_meta a] →
  reads_back given (column_json (λ j, JText (jsonb_out j)) (jsonb_argument given)).
Proof.
  intros Hk Hin. destruct given as [[|kv l]|]; [done| |done]. unfold reads_back.
  destruct (Hk _ Hin kv l eq_refl) as (j & Hl & Hs). exists (jsonb_out (JObj (kv :: l))), j. split_and!; [reflexivity|exact Hl|exact Hs].
Qed.

(** The newest row of those that are listed comes first. *)
Lemma newest_entry_first tenant_id q d x :
  in_audit_log tenant_id q x = true → (∀ r, r ∈ audit_log d → au_created_at r < au_created_at x) →
  ∃ rest, entries tenant_id q (mkAuditDb (ad_auth d) (audit_log d ++ [x])%list) = x :: rest.
Proof.
  intros Hx Hnew. set (l := entries _ _ _).
  assert (l ≡ₚ x :: List.filter (in_audit_log tenant_id q) (audit_log d)) as Hp.
  { unfold l, entries. rewrite merge_sort_Permutation. cbn [audit_log]. rewrite List.filter_app. cbn [List.filter].
    rewrite Hx, Permutation_app_comm. done. }
  assert (StronglySorted logged_later l) as Hs.
  { apply Sorted_StronglySorted; [intros a1 a2 a3; unfold logged_later; lia|]. apply Sorted_merge_sort, _. }
  destruct l as [|y l']; [by apply Permutation_nil in Hp|]. exists l'. f_equal.
  apply StronglySorted_inv in Hs as [_ Hall]. assert (x ∈ y :: l') as Hin by (rewrite Hp; left).
  apply elem_of_cons in Hin as [->|Hin]; [done|]. rewrite Forall_forall in Hall. specialize (Hall x Hin).
  assert (y ∈ x :: List.filter (in_audit_log tenant_id q) (audit_log d)) as Hy by (rewrite <- Hp; left).
  apply elem_of_cons in Hy as [->|Hy]; [done|]. apply filter_In_elem in Hy as [Hy _]. specialize (Hnew y Hy).
  unfold logged_later in Hall. lia.
Qed.

(** C39. What was logged is read back.  An action that is logged later than everything in
    the trail heads the listing of its tenant, under any filters it passes: the id and the
    time of the INSERT, the actor's type and name, the action, the resource and its id,
    the success, the error and the request as they were given, and the old values, the new
    values and the metadata each as a text that parses to the dict that was given (null for
    none or an empty one).  The driver gives JSONB as the text the server makes of it, and
    the server keeps the values. *)
Theorem logged_action_read_back parse_inet jsonb_out now new_id a d i d' q limit :
  log_action parse_inet None now new_id a d = (Ok i, d') → (∀ r, r ∈ audit_log d → au_created_at r < now) →
  server_keeps jsonb_out a → 0 < limit →
  passes (aq_action q) (Some (ac_action a)) → passes (aq_resource_type q) (Some (ac_resource a)) →
  passes (aq_user_id q) (ac_user a) →
  i = new_id ∧
  ∃ old new meta rest, reads_back (ac_old a) old ∧ reads_back (ac_new a) new ∧ reads_back (ac_meta a) meta ∧
    get_tenant_audit_log (λ j, JText (jsonb_out j)) None (ac_tenant a) limit 0 q d' =
    JObj [("id", JText new_id); ("created_at", iso now); ("actor_type", JText (ac_actor a));
          ("actor_name", text_or_null (ac_name a)); ("action", JText (ac_action a)); ("resource_type", JText (ac_resource a));
          ("resource_id", text_or_null (ac_resource_id a)); ("old_values", old); ("new_values", new); ("metadata", meta);
          ("success", JBool (ac_ok a)); ("error_message", text_or_null (ac_error a));
          ("request_id", text_or_null (ac_request a))] :: rest.
Proof.
  intros H Hnew Hk Hlimit Ha Hr Hu. apply log_action_cases in H as [[? _]|(ip & [= ->] & _ & ->)]; [done|]. split; [done|].
  destruct (newest_entry_first (ac_tenant a) q d (audit_row now new_id a ip)) as [rest Hrest]; [|done|].
  { unfold in_audit_log. cbn. by rewrite String.eqb_refl, !passes_filter. }
  unfold get_tenant_audit_log, page. rewrite Hrest. destruct (Z.ltb_spec limit 0); [lia|].
  do 3 eexists. exists (map (render_entry (λ j, JText (jsonb_out j))) (take (Z.to_nat limit - 1) rest)).
  assert (∀ given, given ∈ [ac_old a; ac_new a; ac_meta a] →
    reads_back given (column_json (λ j, JText (jsonb_out j)) (jsonb_argument given))) as Hb.
  { intros given. by apply column_reads_back. }
  split; [|split; [|split]]; [apply Hb; by left|apply Hb; right; by left|apply Hb; right; right; by left|].
  replace (Z.to_nat limit) with (S (Z.to_nat limit - 1)) at 1 by lia. done.
Qed.

(** ** Witnesses *)

Definition audited : AuditDb :=
  mkAuditDb (mkAuthDb [] [mkTenantRow "t1" "Acme" "acme" None None (Some true) 0 0]
               [mkUserRow "u1" "ada@acme.com" "Ada" "h" None true true 0 0 None] [] [] 1) [].
Definition first_action : Action :=
  mkAction "t1" "space.create" "space" "user" None (Some "u1") None (Some "ada@acme.com") None
    (Some [("code", JText "A-1")]) None None None None true None.
Definition any_inet (s : string) : result exn string := Ok s.
Definition after_first : AuditDb := (log_action any_inet None 5 "a1" first_action audited).2.

Lemma first_logged : log_action any_inet None 5 "a1" first_action audited = (Ok "a1", after_first).
Proof. reflexivity. Qed.

Lemma audit_append_only_witness :
  let d := (delete_audit_log (λ _, true) after_first).2 in map au_id (audit_log d) = ["a1"] ∧ audit_log after_first `prefix_of` audit_log d.
Proof.
  cbv zeta. split; [reflexivity|]. apply audit_append_only, rtc_once. apply (step_delete (λ _, true) (delete_audit_log (λ _, true) after_first).1). reflexivity.
Defined.

Lemma audited_actor_not_deletable_witness :
  delete_user "u1" after_first = (Err (PyException "Audit log records cannot be modified"), after_first).
Proof.
  apply (audited_actor_not_deletable after_first after_first (audit_row 5 "a1" first_action None)); [left|apply rtc_refl|reflexivity].
Defined.

Lemma audit_listing_scoped_witness : ∃ r, r ∈ audit_log after_first ∧ au_tenant_id r = "t1".
Proof.
  destruct (audit_listing_scoped (λ j, j) None "t1" 100 0 (mkAuditQuery None None None) after_first
    (render_entry (λ j, j) (audit_row 5 "a1" first_action None))) as (r & Hr & _ & Ht & _); [left|]. by exists r.
Defined.

Lemma first_action_kept : server_keeps dumps first_action.
Proof.
  intros o Ho kv l ->. exists (JObj (kv :: l)). split; [|constructor].
  cbn in Ho. rewrite !elem_of_cons in Ho. destruct Ho as [Ho|[Ho|[Ho|[]%elem_of_nil]]]; [done| |done].
  injection Ho as -> ->. reflexivity.
Qed.

Lemma logged_action_read_back_witness : ∃ new,
  reads_back (Some [("code", JText "A-1")]) new ∧
  get_tenant_audit_log (λ j, JText (dumps j)) None "t1" 10 0 (mkAuditQuery (Some "space.create") None None) after_first =
  [JObj [("id", JText "a1"); ("created_at", iso 5); ("actor_type", JText "user"); ("actor_name", JText "ada@acme.com");
         ("action", JText "space.create"); ("resource_type", JText "space"); ("resource_id", JNull); ("old_values", JNull);
         ("new_values", new); ("metadata", JNull); ("success", JBool true); ("error_message", JNull); ("request_id", JNull)]].
Proof.
  destruct (logged_action_read_back any_inet dumps 5 "a1" first_action audited "a1" after_first
    (mkAuditQuery (Some "space.create") None None) 10) as (_ & old & new & meta & rest & Ho & Hn & Hm & H).
  - exact first_logged.
  - intros r Hr. by apply elem_of_nil in Hr.
  - exact first_action_kept.
  - reflexivity.
  - by right.
  - by left.
  - by left.
  - exists new. split; [exact Hn|]. etrans; [exact H|]. injection H as _ _ _ ->. cbn in Ho, Hm. by subst old meta.
Defined.
