(* ===== verification/Sites.v ===== *)
(** * Sites: the sites of a tenant

    Models src/src/routers/sites.py on the tables of Estate.v.  The handlers catch
    nothing: an exception of a call ([fault]) goes to the generic handler of main.py.  How
    the driver decodes a JSONB column is the parameter [decode_jsonb] (asyncpg gives the
    text unless a codec is set, and none is).  [SET app.current_tenant] matters to row-level
    security only, which is in Pool.v; here the role is one that sees every row, and the
    handlers name the tenant in their WHERE clauses. *)

From S2P Require Import Prelude PyUtils Json Models Database Estate.

Open Scope Z_scope.

Abbreviation jobj := (list (string * json)).

Record SiteCreate := mkSiteCreate {
  sic_name : string; sic_timezone : string; sic_location : option jobj; sic_metadata : option jobj; sic_is_active : bool;
}.

Definition validate_site_create (s : SiteCreate) : result string SiteCreate :=
  _ ← guard "name" (len_between 1 255 (sic_name s));
  _ ← guard "timezone" (len_between 0 50 (sic_timezone s));
  mret s.

Record SiteUpdate := mkSiteUpdate {
  siu_name : option string; siu_timezone : option string; siu_location : option jobj; siu_metadata : option jobj;
  siu_is_active : option bool;
}.

Definition validate_site_update (s : SiteUpdate) : result string SiteUpdate :=
  _ ← guard "name" (on_opt (len_between 1 255) (siu_name s));
  _ ← guard "timezone" (on_opt (len_between 0 50) (siu_timezone s));
  mret s.

Record SiteResponse := mkSiteResponse {
  sr_id : string; sr_tenant_id : string; sr_name : string; sr_timezone : string; sr_location : option jobj;
  sr_metadata : jobj; sr_is_active : bool; sr_created_at : Z; sr_updated_at : Z; sr_spaces_count : Z;
}.

(** ** The clauses of a query with a join *)

(** [l LEFT JOIN r ON on] *)
Definition left_join {A B} (on : A → B → bool) (l : list A) (r : list B) : list (A * option B) :=
  flat_map (λ a, match List.filter (on a) r with [] => [(a, None)] | bs => map (λ b, (a, Some b)) bs end) l.

Section GroupBy.
Context {K X : Type} `{EqDecision K} (key : X → K).

Fixpoint add_to_group (k : K) (x : X) (groups : list (K * list X)) : list (K * list X) :=
  match groups with
  | [] => [(k, [x])]
  | (k', xs) :: groups => if decide (k = k') then (k', (xs ++ [x])%list) :: groups else (k', xs) :: add_to_group k x groups
  end.

Definition group_by (rows : list X) : list (K * list X) := fold_left (λ gs x, add_to_group (key x) x gs) rows [].

Lemma add_to_new_group k x gs : k ∉ gs.*1 → add_to_group k x gs = (gs ++ [(k, [x])])%list.
Proof.
  induction gs as [|[k' xs] gs IH]; [done|]. cbn. intros [Hk Hks]%not_elem_of_cons.
  rewrite decide_False by done. by rewrite IH.
Qed.

Lemma add_to_last_group k x xs gs : k ∉ gs.*1 → add_to_group k x (gs ++ [(k, xs)]) = (gs ++ [(k, xs ++ [x])])%list.
Proof.
  induction gs as [|[k' ys] gs IH]; cbn; [by rewrite decide_True|]. intros [Hk Hks]%not_elem_of_cons.
  rewrite decide_False by done. by rewrite IH.
Qed.

(** Rows of one new key in a row make one group. *)
Lemma group_run k x xs gs :
  k ∉ gs.*1 → Forall (λ y, key y = k) (x :: xs) →
  fold_left (λ gs x, add_to_group (key x) x gs) (x :: xs) gs = (gs ++ [(k, x :: xs)])%list.
Proof.
  intros Hk [Hx Hxs]%Forall_cons. cbn [fold_left]. rewrite Hx, add_to_new_group by done.
  change (x :: xs) with ([x] ++ xs)%list. generalize [x] as ys. revert Hxs.
  induction xs as [|z xs IH]; intros Hxs ys; cbn [fold_left]; [by rewrite app_nil_r|].
  apply Forall_cons in Hxs as [Hz Hxs]. rewrite Hz, add_to_last_group, IH by done. by rewrite <- app_assoc.
Qed.

(** Rows that come key by key are grouped as they come. *)
Lemma group_by_runs {A} (id : A → K) (rows : A → list X) l :
  NoDup (map id l) → (∀ a, a ∈ l → rows a ≠ [] ∧ Forall (λ x, key x = id a) (rows a)) →
  group_by (flat_map rows l) = map (λ a, (id a, rows a)) l.
Proof.
  intros Hnd Hl. unfold group_by.
  assert (∀ gs, (∀ a, a ∈ l → id a ∉ gs.*1) → fold_left (λ gs x, add_to_group (key x) x gs) (flat_map rows l) gs =
    (gs ++ map (λ a, (id a, rows a)) l)%list) as H; [|by apply (H []); intros ? _ ?%elem_of_nil].
  revert Hnd Hl. induction l as [|a l IH]; intros Hnd Hl gs Hgs; cbn [flat_map map]; [by rewrite app_nil_r|].
  cbn in Hnd. apply NoDup_cons in Hnd as [Ha Hnd]. destruct (Hl a) as [Hne Hkey]; [by left|].
  rewrite fold_left_app. destruct (rows a) as [|x xs] eqn:E; [done|].
  rewrite (group_run (id a)) by (try done; by apply Hgs; left).
  rewrite IH; [by rewrite <- app_assoc|done|by intros b Hb; apply Hl; right|].
  intros b Hb. rewrite fmap_app. cbn. intros [H|H%list_elem_of_singleton]%elem_of_app.
  - eapply Hgs; [right; exact Hb|exact H].
  - apply Ha. rewrite <- H. by apply (list_elem_of_fmap_2 id).
Qed.
End GroupBy.

(** ** Sites joined with their spaces

    The FROM, WHERE and GROUP BY that [list_sites], [get_site] and queries.py share *)

Abbreviation site_row := (Site * option Space)%type.

(** [FROM sites s LEFT JOIN spaces sp ON s.id = sp.site_id WHERE cond GROUP BY s.id] *)
Definition grouped_sites (cond : Site → bool) (es : Estate) : list (string * list site_row) :=
  let joined := left_join (λ s sp, bool_decide (sp_site_id sp = Some (si_id s))) (sites es) (estate_spaces es) in
  group_by (λ r, si_id r.1) (List.filter (λ r, cond r.1) joined).

(** [COUNT(sp.id) FILTER (WHERE ...)] *)
Definition count_where (p : Space → bool) (rows : list site_row) : Z :=
  sql_count (λ r, match r.2 with Some s => p s | None => false end) rows.

(** The row of a group: the site, whose columns are those of any of the group's rows, and
    the count of its live spaces *)
Definition counted_site (g : string * list site_row) : option (Site * Z) :=
  match g.2 with [] => None | (s, _) :: _ => Some (s, count_where live_space g.2) end.

Inductive SiteCall := SSet | SList | SExisting | SDuplicate | SInsert | SGet | SUpdate | SCount | SDelete.

Section Router.
Context (decode_jsonb : json → json) (fault : SiteCall → option exn).

(** [x if isinstance(x, dict) else ...] of a nullable JSONB column *)
Definition as_dict (column : option json) : option jobj :=
  match decode_jsonb <$> column with Some (JObj o) => Some o | _ => None end.

Definition render_site (spaces_count : Z) (s : Site) : SiteResponse :=
  mkSiteResponse (si_id s) (si_tenant_id s) (si_name s) (si_timezone s) (as_dict (si_location s))
    (or_else (as_dict (si_metadata s)) []) (si_is_active s) (si_created_at s) (si_updated_at s) spaces_count.

Definition in_site (site_id : string) (s : Space) : bool :=
  bool_decide (sp_site_id s = Some site_id) && live_space s.

Definition spaces_count (site_id : string) (es : Estate) : Z := sql_count (in_site site_id) (estate_spaces es).

Definition site_by_name (a b : Site) : Prop := string_leb (si_name a) (si_name b).
#[export] Instance site_by_name_dec : RelDecision site_by_name := fun a b => string_leb_dec (si_name a) (si_name b).

Definition row_by_name {X} (a b : Site * X) : Prop := site_by_name a.1 b.1.
#[export] Instance row_by_name_dec {X} : RelDecision (row_by_name (X := X)) := fun a b => site_by_name_dec a.1 b.1.

Definition site_call {A} (c : SiteCall) (f : Estate → A) : stE Estate exn A := may_fail (fault c) (λ es, (Ok (f es), es)).
Definition site_run {A} (c : SiteCall) (m : stE Estate exn A) : stE Estate exn A := may_fail (fault c) m.

Definition of_tenant (tenant : TenantContext) (s : Site) : bool := String.eqb (si_tenant_id s) (tc_tenant_id tenant).

(** The sites with their count, and the total *)
Definition list_sites (include_inactive : bool) (tenant : TenantContext) : stE Estate exn (list SiteResponse * Z) :=
  _ ← site_call SSet (λ _, tt);
  rows ← site_call SList (λ es,
    merge_sort row_by_name (omap counted_site
      (grouped_sites (λ s, of_tenant tenant s && (include_inactive || si_is_active s)) es)));
  let sites := map (λ r, render_site r.2 r.1) rows in
  mret (sites, Z.of_nat (length sites)).

(** [json.dumps(x) if x else None] *)
Definition dumped (o : option jobj) : option json := match o with Some ((_ :: _) as o) => Some (JObj o) | _ => None end.

Definition create_site (now : Z) (new_id : string) (site : SiteCreate) (tenant : TenantContext) : stE Estate exn SiteResponse :=
  _ ← site_call SSet (λ _, tt);
  existing ← site_call SExisting (λ es, existsb (λ s, of_tenant tenant s && String.eqb (si_name s) (sic_name site)) (sites es));
  if existing : bool
  then raise (HTTPException 409 ("Site with name '" +:+ sic_name site +:+ "' already exists for this tenant"))
  else
    row ← site_run SInsert (insert_site
            (mkSite new_id (tc_tenant_id tenant) (sic_name site) (sic_timezone site) (dumped (sic_location site))
               (dumped (sic_metadata site)) (sic_is_active site) now now));
    mret (render_site 0 row).

Definition site_not_found (site_id : string) : exn := HTTPException 404 ("Site " +:+ site_id +:+ " not found").

Definition own_site (site_id : string) (tenant : TenantContext) (es : Estate) : option Site :=
  fetchrow (λ s, is_site site_id s && of_tenant tenant s) (sites es).

Definition get_site (site_id : string) (tenant : TenantContext) : stE Estate exn SiteResponse :=
  _ ← site_call SSet (λ _, tt);
  row ← site_call SGet (λ es, head (omap counted_site (grouped_sites (λ s, is_site site_id s && of_tenant tenant s) es)));
  match row with Some r => mret (render_site r.2 r.1) | None => raise (site_not_found site_id) end.

(** The assignments of the UPDATE; the trigger of migration 002 sets [updated_at]. *)
Definition set_site (now : Z) (u : SiteUpdate) (s : Site) : Site :=
  mkSite (si_id s) (si_tenant_id s) (or_else (siu_name u) (si_name s)) (or_else (siu_timezone u) (si_timezone s))
    (match siu_location u with Some o => dumped (Some o) | None => si_location s end)
    (match siu_metadata u with Some o => dumped (Some o) | None => si_metadata s end)
    (or_else (siu_is_active u) (si_is_active s)) (si_created_at s) now.

Definition no_site_fields (u : SiteUpdate) : bool :=
  bool_decide (siu_name u = None) && bool_decide (siu_timezone u = None) &&
  match siu_location u, siu_metadata u with None, None => true | _, _ => false end &&
  bool_decide (siu_is_active u = None).

Definition update_site (now : Z) (site_id : string) (updates : SiteUpdate) (tenant : TenantContext) : stE Estate exn SiteResponse :=
  _ ← site_call SSet (λ _, tt);
  existing ← site_call SExisting (own_site site_id tenant);
  match existing with
  | None => raise (site_not_found site_id)
  | Some _ =>
      dup ← (match siu_name updates with
             | Some name => site_call SDuplicate (λ es, existsb (λ s, of_tenant tenant s && String.eqb (si_name s) name &&
                                                                      negb (is_site site_id s)) (sites es))
             | None => mret false
             end);
      if dup : bool
      then raise (HTTPException 409 ("Site with name '" +:+ or_else (siu_name updates) "" +:+ "' already exists"))
      else if no_site_fields updates then raise (HTTPException 400 "No fields to update")
      else
        row ← site_run SUpdate (update_site_where site_id (of_tenant tenant) (set_site now updates));
        match row with
        | None => raise (PyException "'NoneType' object is not subscriptable")
        | Some s => n ← site_call SCount (spaces_count site_id); mret (render_site n s)
        end
  end.

Definition deactivated (now : Z) (s : Site) : Site :=
  mkSite (si_id s) (si_tenant_id s) (si_name s) (si_timezone s) (si_location s) (si_metadata s) false (si_created_at s) now.

Definition delete_site (now : Z) (site_id : string) (force : bool) (tenant : TenantContext) : stE Estate exn unit :=
  _ ← site_call SSet (λ _, tt);
  existing ← site_call SExisting (own_site site_id tenant);
  match existing with
  | None => raise (site_not_found site_id)
  | Some _ =>
      n ← (if force then mret 0 else site_call SCount (spaces_count site_id));
      if 0 <? n
      then raise (HTTPException 409 ("Cannot delete site with " +:+ show_Z n +:+ " parking spaces. Use force=true to override."))
      else
        _ ← site_run SDelete (update_site_where site_id (λ _, true) (deactivated now));
        mret tt
  end.
End Router.

(** ** Properties *)

(** *** The joined query *)

(** The rows of the join for one site *)
Definition site_rows (es : Estate) (s : Site) : list site_row :=
  match List.filter (λ sp, bool_decide (sp_site_id sp = Some (si_id s))) (estate_spaces es) with
  | [] => [(s, None)]
  | sps => map (λ sp, (s, Some sp)) sps
  end.

Lemma site_rows_spec es s : site_rows es s ≠ [] ∧ Forall (λ r : site_row, r.1 = s) (site_rows es s).
Proof.
  unfold site_rows. destruct (List.filter _ _) as [|sp sps]; [split; [done|by constructor]|]. split; [done|].
  by rewrite Forall_map, Forall_forall.
Qed.

(** WHERE on the columns of the left table goes before the join. *)
Lemma filter_site_rows (p : Site → bool) es l :
  List.filter (λ r : site_row, p r.1) (flat_map (site_rows es) l) = flat_map (site_rows es) (List.filter p l).
Proof.
  induction l as [|s l IH]; [done|]. cbn [flat_map List.filter]. rewrite List.filter_app, IH.
  pose proof (proj2 (site_rows_spec es s)) as Hs.
  destruct (p s) eqn:E; cbn [flat_map].
  - f_equal. clear -Hs E. induction Hs as [|r rs Hr _ IHr]; [done|]. cbn. by rewrite Hr, E, IHr.
  - assert (List.filter (λ r : site_row, p r.1) (site_rows es s) = []) as ->; [|done].
    clear -Hs E. induction Hs as [|r rs Hr _ IHr]; [done|]. cbn. by rewrite Hr, E, IHr.
Qed.

Lemma count_site_rows p es s :
  count_where p (site_rows es s) =
  sql_count (λ sp, bool_decide (sp_site_id sp = Some (si_id s)) && p sp) (estate_spaces es).
Proof.
  unfold count_where, sql_count. rewrite <- filter_filter_andb. unfold site_rows.
  destruct (List.filter (λ sp, bool_decide _) (estate_spaces es)) as [|sp sps]; [done|]. f_equal.
  generalize (sp :: sps) as l. induction l as [|x l IH]; [done|]. cbn. destruct (p x); cbn; by rewrite IH.
Qed.

Lemma site_ids_NoDup es : estate_ok es → NoDup (map si_id (sites es)).
Proof.
  intros Hl%eo_sites. apply NoDup_alt. intros i j x Hi Hj.
  apply list_lookup_fmap_Some in Hi as (a & -> & Ha), Hj as (b & Hab & Hb).
  destruct (decide (i = j)) as [|Hij]; [done|]. specialize (Hl i j a b Ha Hb Hij). unfold site_conflict, is_site in Hl.
  apply orb_false_iff in Hl as [Hl _]. by apply String.eqb_neq in Hl.
Qed.

(** Under the constraints of [sites], the groups are the sites that satisfy the condition,
    each with its own rows. *)
Lemma groups_are_sites cond es :
  estate_ok es → grouped_sites cond es = map (λ s, (si_id s, site_rows es s)) (List.filter cond (sites es)).
Proof.
  intros Hok. unfold grouped_sites.
  change (left_join _ (sites es) (estate_spaces es)) with (flat_map (site_rows es) (sites es)).
  rewrite (filter_site_rows cond). apply group_by_runs.
  - pose proof (site_ids_NoDup es Hok) as Hnd. induction (sites es) as [|s l IH]; [constructor|].
    cbn in Hnd. apply NoDup_cons in Hnd as [Hs Hnd].
    cbn [List.filter]. destruct (cond s); [|by apply IH]. cbn. apply NoDup_cons. split; [|by apply IH].
    intros (x & Hx & Hin)%list_elem_of_fmap. apply filter_In_elem in Hin as [Hin _]. apply Hs. rewrite Hx.
    by apply list_elem_of_fmap_2.
  - intros s _. destruct (site_rows_spec es s) as [Hne Hs]. split; [done|].
    eapply Forall_impl; [exact Hs|]. by intros r ->.
Qed.

Lemma counted_site_rows es s : counted_site (si_id s, site_rows es s) = Some (s, spaces_count (si_id s) es).
Proof.
  unfold counted_site. cbn [snd]. pose proof (count_site_rows live_space es s) as Hc.
  destruct (site_rows_spec es s) as [Hne Hs]. destruct (site_rows es s) as [|[s' o] rows]; [done|].
  apply Forall_cons in Hs as [Hs _]. cbn in Hs. subst s'. by rewrite Hc.
Qed.

(** The joined query finds the sites of the condition, each with the count of its live
    spaces. *)
Lemma counted_sites cond es :
  estate_ok es →
  omap counted_site (grouped_sites cond es) = map (λ s, (s, spaces_count (si_id s) es)) (List.filter cond (sites es)).
Proof.
  intros Hok. rewrite groups_are_sites by done. induction (List.filter cond (sites es)) as [|s l IH]; [done|].
  cbn [map omap list_omap]. rewrite counted_site_rows. by f_equal.
Qed.

(** *** Requests *)

Section Facts.
Context (decode_jsonb : json → json) (fault : SiteCall → option exn).

Definition others (tenant : TenantContext) (es : Estate) : list Site :=
  List.filter (λ s, negb (of_tenant tenant s)) (sites es).

(** What a request of a tenant leaves alone *)
Definition site_frame (tenant : TenantContext) (es es' : Estate) : Prop :=
  estate_ok es' ∧ es_db es' = es_db es ∧ others tenant es' = others tenant es.

Lemma wp_site_call {A} c (f : Estate → A) (Q : result exn A → Estate → Prop) es :
  (∀ e, Q (Err e) es) → Q (Ok (f es)) es → wp (site_call fault c f) Q es.
Proof. intros He Hok. apply wp_may_fail; auto. Qed.

Lemma filter_update_none {A} (p q : A → bool) f l :
  (∀ x, x ∈ l → q x = true → p x = false ∧ p (f x) = false) → List.filter p (sql_update q f l) = List.filter p l.
Proof.
  unfold sql_update. induction l as [|x l IH]; intros H; [done|]. cbn.
  rewrite IH by (intros y Hy; apply H; by right). destruct (q x) eqn:E; [|done].
  by destruct (H x (list_elem_of_here _ _) E) as [-> ->].
Qed.

Lemma insert_site_frame s tenant es r es' :
  estate_ok es → of_tenant tenant s = true → insert_site s es = (r, es') → site_frame tenant es es'.
Proof.
  intros Hok Ht E. split; [by eapply insert_site_ok|]. unfold insert_site in E.
  destruct (existsb _ _); [by simplify_eq|]. destruct (existsb _ _); [by simplify_eq|].
  destruct (negb _); simplify_eq; [done|]. split; [done|].
  unfold others. cbn. rewrite List.filter_app. cbn. by rewrite Ht, app_nil_r.
Qed.

Lemma update_site_frame site_id p f tenant es r es' :
  estate_ok es → (∀ s, si_id (f s) = si_id s ∧ si_tenant_id (f s) = si_tenant_id s) →
  (∀ s, s ∈ sites es → is_site site_id s = true → p s = true → of_tenant tenant s = true) →
  update_site_where site_id p f es = (r, es') → site_frame tenant es es'.
Proof.
  intros Hok Hf Hp E. split; [by eapply update_site_where_ok|]. unfold update_site_where in E.
  destruct (fetchrow _ _); [|by simplify_eq]. destruct (existsb _ _); simplify_eq; [done|]. split; [done|].
  unfold others. cbn [with_sites sites]. apply filter_update_none. intros x Hx [Hi Hpx]%andb_true_iff.
  pose proof (Hp x Hx Hi Hpx) as Ht. unfold of_tenant in *. destruct (Hf x) as [_ ->]. by rewrite Ht.
Qed.

(** The requests that write *)
Inductive site_request (tenant : TenantContext) (es es' : Estate) : Prop :=
| request_create now new_id site r :
    create_site decode_jsonb fault now new_id site tenant es = (r, es') → site_request tenant es es'
| request_update now site_id updates r :
    update_site decode_jsonb fault now site_id updates tenant es = (r, es') → site_request tenant es es'
| request_delete now site_id force r :
    delete_site fault now site_id force tenant es = (r, es') → site_request tenant es es'.

Lemma own_site_unique site_id tenant es :
  estate_ok es →
  List.filter (λ s, is_site site_id s && of_tenant tenant s) (sites es) =
  match own_site site_id tenant es with Some s => [s] | None => [] end.
Proof.
  intros Hok. unfold own_site, fetchrow. set (p := λ s, _ && _).
  assert (NoDup (map si_id (sites es))) as Hnd by by apply site_ids_NoDup.
  assert (∀ x, p x = true → si_id x = site_id) as Hp.
  { intros x [Hx _]%andb_true_iff. by apply String.eqb_eq in Hx. }
  clearbody p. clear Hok. induction (sites es) as [|s l IH]; [done|]. cbn in *. apply NoDup_cons in Hnd as [Hs Hnd].
  destruct (p s) eqn:E; [|by apply IH]. f_equal. apply filter_nil. intros x Hx. destruct (p x) eqn:Ex; [|done].
  destruct Hs. rewrite (Hp s), <- (Hp x) by done. by apply list_elem_of_fmap_2.
Qed.

(** GET of one site, on every branch *)
Lemma get_site_spec site_id tenant es :
  estate_ok es →
  get_site decode_jsonb (λ _, None) site_id tenant es =
  match own_site site_id tenant es with
  | Some s => (Ok (render_site decode_jsonb (spaces_count (si_id s) es) s), es)
  | None => (Err (site_not_found site_id), es)
  end.
Proof.
  intros Hok. unfold get_site, site_call, may_fail, mbind, stE_bind. rewrite counted_sites, own_site_unique by done.
  by destruct (own_site _ _ _).
Qed.

Lemma get_site_own s tenant es :
  estate_ok es → s ∈ sites es → of_tenant tenant s = true →
  get_site decode_jsonb (λ _, None) (si_id s) tenant es = (Ok (render_site decode_jsonb (spaces_count (si_id s) es) s), es).
Proof.
  intros Hok Hs Ht. rewrite get_site_spec by done. unfold own_site.
  assert (is_site (si_id s) s = true) as Hi by apply String.eqb_refl.
  rewrite (fetchrow_unique _ _ s Hs); [done|by rewrite Hi, Ht|].
  intros y Hy [Hyi%String.eqb_eq _]%andb_true_iff. by apply (site_id_unique es).
Qed.

Lemma own_site_spec site_id tenant es s :
  own_site site_id tenant es = Some s → s ∈ sites es ∧ is_site site_id s = true ∧ of_tenant tenant s = true.
Proof. intros [Hin [? ?]%andb_true_iff]%find_some. by apply list_elem_of_In in Hin. Qed.

Lemma site_request_frame tenant es es' :
  estate_ok es → site_request tenant es es' → site_frame tenant es es'.
Proof.
  intros Hok Hr. set (Q := λ (A : Type) (_ : result exn A) es', site_frame tenant es es').
  assert (∀ A (r : result exn A), Q A r es) as Hsame by (intros; done).
  assert (∀ A (m : stE Estate exn A) r, wp m (Q A) es → m es = (r, es') → site_frame tenant es es') as Hwp.
  { intros A m r H E. unfold wp in H. by rewrite E in H. }
  assert (∀ A c (m : stE Estate exn A), (∀ r es2, m es = (r, es2) → site_frame tenant es es2) → wp (site_run fault c m) (Q A) es) as Hrun.
  { intros A c m Hm. apply wp_may_fail; [done|]. intros _. unfold wp. destruct (m es) eqn:E. by eapply Hm. }
  destruct Hr as [now new_id site r E|now site_id updates r E|now site_id force r E]; apply Hwp in E; try exact E.
  - apply wp_bind, wp_site_call; [done|]. apply wp_bind, wp_site_call; [done|]. destruct (existsb _ _); [done|].
    apply wp_bind. eapply wp_mono; [apply Hrun|by intros [] ? ?]. intros r' es2. apply insert_site_frame; [done|].
    unfold of_tenant. cbn. apply String.eqb_refl.
  - apply wp_bind, wp_site_call; [done|]. apply wp_bind, wp_site_call; [done|]. destruct (own_site _ _ _); [|done].
    assert (∀ dup : bool, wp (if dup then raise (HTTPException 409 ("Site with name '" +:+ or_else (siu_name updates) "" +:+ "' already exists"))
      else if no_site_fields updates then raise (HTTPException 400 "No fields to update")
      else row ← site_run fault SUpdate (update_site_where site_id (of_tenant tenant) (set_site now updates));
        match row with
        | None => raise (PyException "'NoneType' object is not subscriptable")
        | Some s => n ← site_call fault SCount (spaces_count site_id); mret (render_site decode_jsonb n s)
        end) (Q _) es) as Hrest.
    { intros []; [done|]. destruct (no_site_fields updates); [done|]. apply wp_bind.
      eapply wp_mono; [apply Hrun|].
      - intros r' es2. apply update_site_frame; [done|done|auto].
      - intros [[s'|]|e] es2 H; [|done|done]. apply wp_bind, wp_site_call; done. }
    apply wp_bind. destruct (siu_name updates); [apply wp_site_call; [done|apply Hrest]|apply wp_ret, (Hrest false)].
  - apply wp_bind, wp_site_call; [done|]. apply wp_bind, wp_site_call; [done|].
    destruct (own_site _ _ _) as [s|] eqn:Hs; [|done]. apply own_site_spec in Hs as (Hin & Hid & Ht).
    assert (∀ n : Z, wp (if 0 <? n
      then raise (HTTPException 409 ("Cannot delete site with " +:+ show_Z n +:+ " parking spaces. Use force=true to override."))
      else _ ← site_run fault SDelete (update_site_where site_id (λ _, true) (deactivated now)); mret tt) (Q _) es) as Hrest.
    { intros n. destruct (0 <? n); [done|]. apply wp_bind. eapply wp_mono; [apply Hrun|by intros [] ? ?].
      intros r' es2. apply update_site_frame; [done|done|]. intros x Hx Hxi _. replace x with s; [done|].
      apply (site_id_unique es); [done..|]. apply String.eqb_eq in Hid, Hxi. congruence. }
    apply wp_bind. destruct force; [apply wp_ret, Hrest|apply wp_site_call; [done|apply Hrest]].
Qed.

(** Sites are isolated by tenant.  Whatever a request of one tenant asks and whichever
    calls fail, the tables stay consistent, no space is touched, and the sites of every
    other tenant are the same rows as before. *)
Theorem site_requests_isolated tenant es es' :
  estate_ok es → site_request tenant es es' → site_frame tenant es es'.
Proof. apply site_request_frame. Qed.

(** Deleting a site, on every branch.  A site of another tenant or no site is 404; without
    [force], live spaces are 409; both change nothing.  Otherwise exactly that site becomes
    inactive and its spaces stay. *)
Theorem delete_site_spec now site_id force tenant es :
  estate_ok es → (∀ c, fault c = None) →
  delete_site fault now site_id force tenant es =
  match own_site site_id tenant es with
  | None => (Err (site_not_found site_id), es)
  | Some _ =>
      if negb force && (0 <? spaces_count site_id es)
      then (Err (HTTPException 409 ("Cannot delete site with " +:+ show_Z (spaces_count site_id es) +:+
                                    " parking spaces. Use force=true to override.")), es)
      else (Ok tt, with_sites (sql_update (is_site site_id) (deactivated now)) es)
  end.
Proof.
  intros Hok Hf. unfold delete_site, site_call, site_run, may_fail. rewrite !Hf. unfold mbind, stE_bind.
  destruct (own_site site_id tenant es) as [s|] eqn:Hs; [|done]. apply own_site_spec in Hs as (Hin & Hid & _).
  assert (update_site_where site_id (λ _, true) (deactivated now) es =
          (Ok (Some (deactivated now s)), with_sites (sql_update (is_site site_id) (deactivated now)) es)) as Hup.
  { unfold update_site_where. rewrite (fetchrow_unique _ _ s Hin).
    - destruct (existsb _ (sites es)) eqn:Hx.
      + apply existsb_exists in Hx as (x & Hxin & [Hsame Hne]%andb_true_iff). apply list_elem_of_In in Hxin.
        apply list_elem_of_lookup in Hin as [i Hi]. apply list_elem_of_lookup in Hxin as [j Hj]. destruct (decide (i = j)) as [->|Hij].
        * assert (x = s) as -> by congruence. by rewrite Hid in Hne.
        * pose proof (eo_sites _ Hok _ _ _ _ Hi Hj Hij) as Hc. unfold site_conflict in Hc. apply orb_false_iff in Hc as [_ Hc].
          unfold same_site_name in *. cbn in Hsame. congruence.
      + f_equal. unfold with_sites. f_equal. unfold sql_update. apply map_ext. intros x. by rewrite andb_true_r.
    - by rewrite Hid.
    - intros y Hy [Hyi _]%andb_true_iff. apply (site_id_unique es); [done..|]. apply String.eqb_eq in Hid, Hyi. congruence. }
  destruct force; cbn [mret stE_ret negb andb].
  - change (0 <? 0) with false. cbn. rewrite Hup. done.
  - destruct (0 <? spaces_count site_id es); [done|]. by rewrite Hup.
Qed.

(** The details of a site are written and never read back: with a driver that returns the
    text of a JSONB column, every answer has the location null and no metadata. *)
Lemma site_details_hidden s n :
  (∀ j, ∃ t, decode_jsonb j = JText t) →
  sr_location (render_site decode_jsonb n s) = None ∧ sr_metadata (render_site decode_jsonb n s) = [].
Proof.
  intros Hd. unfold render_site, as_dict. cbn.
  destruct (si_location s) as [l|], (si_metadata s) as [m|]; cbn;
    repeat match goal with |- context [decode_jsonb ?j] => destruct (Hd j) as [? ->] end; done.
Qed.
End Facts.

(** ** Witnesses *)

Definition demo_site (i t : string) : Site := mkSite i t ("Site " +:+ i) "UTC" None None true 0 0.
Definition demo_estate : Estate := mkEstate empty_db [demo_site "site1" "t1"; demo_site "site2" "t2"].
Definition admin_of (t : string) : TenantContext := mkTenantContext t t t (Some "u1") (Some ADMIN) None None "jwt".

Lemma demo_estate_ok : estate_ok demo_estate.
Proof.
  constructor; cbn.
  - intros i j x y Hi. by rewrite lookup_nil in Hi.
  - by intros s ?%elem_of_nil.
  - by intros s ?%elem_of_nil.
  - intros [|[|i]] [|[|j]] x y; cbn; intros; simplify_eq; reflexivity.
Qed.

Lemma site_requests_isolated_witness :
  let es' := (delete_site (λ _, None) 5 "site1" false (admin_of "t1") demo_estate).2 in
  others (admin_of "t1") es' = [demo_site "site2" "t2"].
Proof.
  assert (estate_ok demo_estate) as Hok by apply demo_estate_ok.
  destruct (site_requests_isolated id (λ _, None) (admin_of "t1") demo_estate
    (delete_site (λ _, None) 5 "site1" false (admin_of "t1") demo_estate).2 Hok) as (_ & _ & H).
  - apply (request_delete _ _ _ _ _ 5 "site1" false (Ok tt)). reflexivity.
  - exact H.
Defined.

Lemma delete_site_spec_witness :
  delete_site (λ _, None) 5 "site2" true (admin_of "t1") demo_estate = (Err (site_not_found "site2"), demo_estate).
Proof. exact (delete_site_spec (λ _, None) 5 "site2" true (admin_of "t1") demo_estate demo_estate_ok (λ _, eq_refl)). Defined.
