(* ===== verification/Queries.v ===== *)
(** * Queries: the joined queries of src/src/queries.py

    [get_sites_with_stats]: the listing of the sites router with, for each site, the count
    of its spaces by state.  It is the same join and grouping as the router's
    ([grouped_sites] of Sites.v) with more aggregates; the aggregates are shown to be the
    counts one would make site by site, and the router's two reads to give the same rows.
    The other two queries of the file select columns the migrations do not create
    (sensor_readings.occupied, reservations.external_booking_id), so every call raises. *)

From S2P Require Import Prelude PyUtils Json Models Database Estate Sites.

Open Scope Z_scope.

(** ** [get_sites_with_stats] *)

Section Sites.
Context (decode_jsonb : json → json).

Definition by_state (rows : list site_row) : list (string * Z) :=
  map (λ st, (state_value st, count_where (λ s, live_space s && bool_decide (sp_state s = st)) rows)) [FREE; OCCUPIED; RESERVED].

(** The row of a group; the columns of the site are those of any of its rows. *)
Definition site_stats (g : string * list site_row) : option (Site * (SiteResponse * list (string * Z))) :=
  match g.2 with
  | [] => None
  | (s, _) :: _ => Some (s, (render_site decode_jsonb (count_where live_space g.2) s, by_state g.2))
  end.

Definition get_sites_with_stats (tenant_id : string) (include_inactive : bool) (es : Estate) : list (SiteResponse * list (string * Z)) :=
  let rows := grouped_sites (λ s, String.eqb (si_tenant_id s) tenant_id && (include_inactive || si_is_active s)) es in
  map snd (merge_sort row_by_name (omap site_stats rows)).

(** ** Properties *)

Definition site_entry (es : Estate) (s : Site) : SiteResponse * list (string * Z) :=
  (render_site decode_jsonb (spaces_count (si_id s) es) s,
   map (λ st, (state_value st, sql_count (λ sp, in_site (si_id s) sp && bool_decide (sp_state sp = st)) (estate_spaces es)))
     [FREE; OCCUPIED; RESERVED]).

Lemma site_stats_rows es s : site_stats (si_id s, site_rows es s) = Some (s, site_entry es s).
Proof.
  unfold site_stats, site_entry. cbn [snd]. destruct (site_rows_spec es s) as [Hne Hs].
  assert (∀ p, count_where p (site_rows es s) =
    sql_count (λ sp, bool_decide (sp_site_id sp = Some (si_id s)) && p sp) (estate_spaces es)) as Hc.
  { intros p. apply count_site_rows. }
  destruct (site_rows es s) as [|[s' o] rows] eqn:E; [done|]. apply Forall_cons in Hs as [Hs _]. cbn in Hs. subst s'.
  unfold by_state. cbn [map]. rewrite !Hc. unfold spaces_count, in_site. do 3 f_equal.
  unfold sql_count. repeat (f_equal; try (f_equal; apply filter_ext; intros sp; by rewrite andb_assoc)).
Qed.

(** The live spaces of a site, counted state by state *)
Lemma site_count_by_state site_id es :
  let count st := sql_count (λ sp, in_site site_id sp && bool_decide (sp_state sp = st)) (estate_spaces es) in
  spaces_count site_id es = count FREE + count OCCUPIED + count RESERVED + count MAINTENANCE.
Proof.
  unfold spaces_count, sql_count. cbv zeta. rewrite <- !Nat2Z.inj_add. f_equal.
  induction (estate_spaces es) as [|sp l IH]; [done|].
  cbn [List.filter]. destruct (in_site _ sp); cbn [andb]; [|done].
  destruct (sp_state sp); repeat case_bool_decide; try done; cbn [length]; lia.
Qed.

(** C38. The joined queries agree with a count per site.  Under the constraints of the
    tables, [get_sites_with_stats], the listing of the sites router and its read of one
    site give the same rows: exactly the caller's sites (the active ones, unless inactive
    ones are asked for), each once, in the order of their names; with each the number of
    its live spaces, the count by which the router guards a deletion, and their numbers by
    state, where those under maintenance are in the total only. *)
Theorem sites_in_one_query include_inactive tenant es :
  estate_ok es →
  let stats := get_sites_with_stats (tc_tenant_id tenant) include_inactive es in
  list_sites decode_jsonb (λ _, None) include_inactive tenant es = (Ok (map fst stats, Z.of_nat (length stats)), es) ∧
  map (λ r, sr_id r.1) stats =
    map si_id (merge_sort site_by_name (List.filter (λ s, of_tenant tenant s && (include_inactive || si_is_active s)) (sites es))) ∧
  ∀ r counts, (r, counts) ∈ stats →
    let count st := sql_count (λ sp, in_site (sr_id r) sp && bool_decide (sp_state sp = st)) (estate_spaces es) in
    get_site decode_jsonb (λ _, None) (sr_id r) tenant es = (Ok r, es) ∧
    sr_spaces_count r = spaces_count (sr_id r) es ∧
    sr_spaces_count r = count FREE + count OCCUPIED + count RESERVED + count MAINTENANCE ∧
    counts = map (λ st, (state_value st, count st)) [FREE; OCCUPIED; RESERVED].
Proof.
  intros Hok stats. set (cond := λ s, of_tenant tenant s && (include_inactive || si_is_active s)).
  assert (stats = map (site_entry es) (merge_sort site_by_name (List.filter cond (sites es)))) as Hstats.
  { unfold stats, get_sites_with_stats. rewrite groups_are_sites by done. unfold cond, of_tenant. set (l := List.filter _ (sites es)).
    assert (omap site_stats (map (λ s, (si_id s, site_rows es s)) l) = map (λ s, (s, site_entry es s)) l) as ->.
    { induction l as [|s l IH]; [done|]. cbn [map omap list_omap]. rewrite site_stats_rows. by f_equal. }
    rewrite (merge_sort_map site_by_name row_by_name) by done. rewrite map_map. done. }
  clearbody stats. subst stats. split; [|split].
  - unfold list_sites, site_call, may_fail, mbind, stE_bind, mret, stE_ret. rewrite counted_sites by done. fold cond.
    rewrite (merge_sort_map site_by_name row_by_name) by done. rewrite !map_map, !length_map. done.
  - by rewrite map_map.
  - intros r counts (s & [= -> ->] & Hs)%list_elem_of_fmap count. cbn [render_site sr_spaces_count sr_id] in *.
    rewrite merge_sort_Permutation, filter_In_elem in Hs. destruct Hs as [Hin [Ht _]%andb_true_iff].
    split; [by apply get_site_own|]. split; [done|]. split; [|done]. apply site_count_by_state.
Qed.
End Sites.

(** ** Witness *)

(** Two spaces at a site of tenant t1: one occupied, one under maintenance *)
Definition space_at (i : string) (st : SpaceState) : Space :=
  mkSpace i ("Bay " +:+ i) i None None None None None st (Some "site1") None None None None 0 0 None.
Definition counted_estate : Estate := (insert_space (space_at "2" MAINTENANCE) (insert_space (space_at "1" OCCUPIED) demo_estate).2).2.

Lemma counted_estate_ok : estate_ok counted_estate.
Proof. repeat (eapply insert_space_ok; [|apply surjective_pairing]). apply demo_estate_ok. Qed.

Lemma sites_in_one_query_witness :
  ∃ r, get_sites_with_stats id "t1" false counted_estate = [(r, [("FREE", 0); ("OCCUPIED", 1); ("RESERVED", 0)])] ∧
       sr_spaces_count r = 2.
Proof.
  eexists. split; [reflexivity|].
  destruct (sites_in_one_query id false (admin_of "t1") counted_estate counted_estate_ok) as (_ & H).
  destruct H as [_ H]. destruct (H _ _ (list_elem_of_here _ _)) as (_ & -> & _). reflexivity.
Defined.
