(* ===== verification/Spaces.v ===== *)
(** * Spaces: the spaces of a tenant

    Models src/src/routers/spaces_tenanted.py, the router main.py includes, on the tables
    of Estate.v and the response cache of Cache.v.  Answers are JSON where the cache keeps
    them.  Parameters: MD5, Python's text of a float ([repr_float], of the decimal the
    column holds), what the driver gives for a JSONB column ([decode_jsonb]) and makes of a
    dict given for one ([encode_jsonb]; the router passes the dict itself), and the row the
    device tables, whose definitions are not in the repository, make of an EUI and a name
    ([bare_sensor], [bare_display]).  Each call raises what [fault] says. *)

From Stdlib Require Import QArith.
From S2P Require Import Prelude PyUtils Json Redis Models Database StateManager DeviceHandlers Devices Cache Estate Sites.

Open Scope Z_scope.

Inductive SpaceCall := CacheGet | CacheSet | CacheDelete | SpList | SpGet | SpSite | SpDuplicate | SpInsert | SpExisting
| SpUpdate | SpDelete | SpStats | SpDevice (c : Category) | SpBare (c : Category) | SpAssign (c : Category).

Record SpaceQuery := mkSpaceQuery {
  sq_building : option string; sq_floor : option string; sq_zone : option string; sq_state : option SpaceState;
  sq_site_id : option string; sq_include_deleted : bool;
}.

Section Router.
Context {R : Redis} (md5 : string → string) (repr_float : Q → string).
Context (decode_jsonb : json_obj → json) (encode_jsonb : json_obj → result exn json_obj).
Context (bare_sensor : string → string → string → result exn SensorDevice)
        (bare_display : string → string → string → result exn DisplayDevice).
Context (fault : SpaceCall → option exn).

Record SpacesState := mkSpaces { ss_estate : Estate; ss_cache : option CacheManager }.

Definition sp_call {A} (c : SpaceCall) (f : Estate → A) : stE SpacesState exn A :=
  may_fail (fault c) (λ s, (Ok (f (ss_estate s)), s)).

Definition sp_run {A} (c : SpaceCall) (m : stE Estate exn A) : stE SpacesState exn A :=
  may_fail (fault c) (λ s, let '(r, es) := m (ss_estate s) in (r, mkSpaces es (ss_cache s))).

(** ** Answers *)

(** [float(x) if x else None]: zero is no coordinate. *)
Definition coordinate (o : option Q) : json :=
  match o with Some q => if Qeq_bool q 0 then JNull else JFloat (repr_float q) | None => JNull end.

Definition metadata_json (o : option json_obj) : json := match o with Some m => decode_jsonb m | None => JNull end.

Definition space_fields (s : Space) (site_name : list (string * json)) : list (string * json) :=
  ([("id", JText (sp_id s)); ("name", JText (sp_name s)); ("code", JText (sp_code s));
    ("building", text_or_null (sp_building s)); ("floor", text_or_null (sp_floor s)); ("zone", text_or_null (sp_zone s));
    ("state", JText (state_value (sp_state s))); ("site_id", text_or_null (sp_site_id s))] ++ site_name ++
   [("tenant_id", text_or_null (sp_tenant_id s)); ("sensor_eui", text_or_null (sp_sensor_eui s));
    ("display_eui", text_or_null (sp_display_eui s)); ("gps_latitude", coordinate (sp_gps_latitude s));
    ("gps_longitude", coordinate (sp_gps_longitude s)); ("metadata", metadata_json (sp_metadata s));
    ("created_at", iso (sp_created_at s)); ("updated_at", iso (sp_updated_at s))])%list.

(** LEFT JOIN sites *)
Definition site_name_of (es : Estate) (s : Space) : list (string * json) :=
  [("site_name", text_or_null (si_name <$> (sp_site_id s ≫= λ i, fetchrow (is_site i) (sites es))))].

Definition listed_space (es : Estate) (s : Space) : json :=
  JObj (space_fields s (site_name_of es s) ++
        [("deleted_at", match sp_deleted_at s with Some t => iso t | None => JNull end)])%list.

(** ** Listing *)

Definition cache_key_data (tenant : TenantContext) (q : SpaceQuery) : json :=
  JObj [("building", text_or_null (sq_building q)); ("floor", text_or_null (sq_floor q));
        ("include_deleted", JBool (sq_include_deleted q)); ("site_id", text_or_null (sq_site_id q));
        ("state", text_or_null (state_value <$> sq_state q)); ("tenant_id", JText (tc_tenant_id tenant));
        ("zone", text_or_null (sq_zone q))].

Definition cache_key (tenant : TenantContext) (q : SpaceQuery) : string :=
  "spaces:list:" +:+ md5 (dumps (cache_key_data tenant q)).

Definition wanted {A} `{EqDecision A} (filter value : option A) : bool :=
  match filter with Some _ => bool_decide (value = filter) | None => true end.

Definition in_listing (tenant : TenantContext) (q : SpaceQuery) (s : Space) : bool :=
  (is_platform_admin tenant || bool_decide (sp_tenant_id s = Some (tc_tenant_id tenant))) &&
  wanted (sq_building q) (sp_building s) && wanted (sq_floor q) (sp_floor s) && wanted (sq_zone q) (sp_zone s) &&
  wanted (sq_state q) (Some (sp_state s)) && wanted (sq_site_id q) (sp_site_id s) &&
  (sq_include_deleted q || live_space s).

(** ORDER BY s.code, s.name *)
Definition by_code_name (a b : Space) : Prop :=
  if String.eqb (sp_code a) (sp_code b) then string_leb (sp_name a) (sp_name b) else string_leb (sp_code a) (sp_code b).
#[export] Instance by_code_name_dec : RelDecision by_code_name.
Proof. intros a b. unfold by_code_name. destruct (String.eqb _ _); apply string_leb_dec. Defined.

Definition listed_spaces (tenant : TenantContext) (q : SpaceQuery) (es : Estate) : list Space :=
  merge_sort by_code_name (List.filter (in_listing tenant q) (estate_spaces es)).

Definition list_answer (tenant : TenantContext) (q : SpaceQuery) (es : Estate) : json :=
  let l := listed_spaces tenant q es in
  JObj [("spaces", JArr (map (listed_space es) l)); ("count", JInt (Z.of_nat (length l)))].

(** A look-up in the cache, if there is one; nothing of it raises. *)
Definition cache_lookup (now : Z) (key : string) : stE SpacesState exn (option json) := λ s,
  match ss_cache s with
  | None => (Ok None, s)
  | Some c =>
      let '(hit, c) := cache_get now (fault CacheGet) key c in
      (Ok (match hit with Some v => if py_truthy v then Some v else None | None => None end),
       mkSpaces (ss_estate s) (Some c))
  end.

Definition cache_store (now : Z) (key : string) (v : json) (ttl : Z) : stE SpacesState exn unit :=
  modify_st (λ s, mkSpaces (ss_estate s) (cache_set now (fault CacheSet) key v ttl <$> ss_cache s)).

Definition list_spaces (now : Z) (q : SpaceQuery) (tenant : TenantContext) : stE SpacesState exn json :=
  let key := cache_key tenant q in
  cached ← cache_lookup now key;
  match cached with
  | Some v => mret v
  | None =>
      try_catch (
        result ← sp_call SpList (list_answer tenant q);
        _ ← cache_store now key result 60;
        mret result)
      (λ e, raise (HTTPException 500 (message e)))
  end.

(** ** One space *)

Definition own_space (space_id : string) (tenant : TenantContext) (s : Space) : bool :=
  is_space space_id s && bool_decide (sp_tenant_id s = Some (tc_tenant_id tenant)) && live_space s.

Definition space_missing : exn := HTTPException 404 "Space not found".

Definition get_space (space_id : string) (tenant : TenantContext) : stE SpacesState exn json :=
  as_server_error (
    row ← sp_call SpGet (λ es, (λ s, JObj (space_fields s (site_name_of es s))) <$>
                                fetchrow (own_space space_id tenant) (estate_spaces es));
    match row with Some j => mret j | None => raise space_missing end).

Definition invalidate (now : Z) (tenant : TenantContext) (space_id : option string) : stE SpacesState exn unit := λ s,
  (Ok tt, mkSpaces (ss_estate s)
            (invalidate_space_cache now (fault CacheDelete) (tc_tenant_id tenant) space_id (ss_cache s)).2).

Definition encoded (m : option json_obj) : result exn (option json_obj) :=
  match m with Some o => Some <$> encode_jsonb o | None => Ok None end.

(** The row of the INSERT; DECIMAL(10, 8) and DECIMAL(11, 8) keep eight digits. *)
Definition new_space (now : Z) (new_id : string) (space : SpaceCreate) (metadata : option json_obj) : Space :=
  let b := sc_base space in
  mkSpace new_id (sb_name b) (sb_code b) (sb_building b) (sb_floor b) (sb_zone b) (sc_sensor_eui space)
    (sc_display_eui space) (sc_state space) (Some (sc_site_id space)) None (numeric_scale 8 <$> sb_gps_latitude b)
    (numeric_scale 8 <$> sb_gps_longitude b) metadata now now None.

Definition create_space (now : Z) (new_id : string) (space : SpaceCreate) (tenant : TenantContext) : stE SpacesState exn json :=
  as_server_error (
    site_check ← sp_call SpSite (λ es,
      existsb (λ s, is_site (sc_site_id space) s && of_tenant tenant s && si_is_active s) (sites es));
    if negb site_check then raise (HTTPException 400 "Site not found or does not belong to your tenant")
    else
      existing ← sp_call SpDuplicate (λ es,
        existsb (λ s, bool_decide (sp_tenant_id s = Some (tc_tenant_id tenant)) &&
                      bool_decide (sp_site_id s = Some (sc_site_id space)) &&
                      String.eqb (sp_code s) (sb_code (sc_base space)) && live_space s) (estate_spaces es));
      if existing : bool
      then raise (HTTPException 400 ("Space with code '" +:+ sb_code (sc_base space) +:+ "' already exists in this site"))
      else
        metadata ← lift (encoded (sc_metadata space));
        row ← sp_run SpInsert (insert_space (new_space now new_id space metadata));
        _ ← invalidate now tenant None;
        mret (JObj (space_fields row []))).

(** The fields that are given and not null *)
Definition given {A} (o : option (option A)) : option A := match o with Some (Some v) => Some v | _ => None end.
Definition given_or_old {A} (o : option (option A)) (old : option A) : option A :=
  match given o with Some v => Some v | None => old end.

Definition no_space_fields (u : SpaceUpdate) : bool :=
  bool_decide (given (su_name u) = None) && bool_decide (given (su_code u) = None) &&
  bool_decide (given (su_building u) = None) && bool_decide (given (su_floor u) = None) &&
  bool_decide (given (su_zone u) = None) && bool_decide (given (su_sensor_eui u) = None) &&
  bool_decide (given (su_display_eui u) = None) && bool_decide (given (su_state u) = None) &&
  bool_decide (given (su_metadata u) = None).

Definition set_space (now : Z) (u : SpaceUpdate) (metadata : option json_obj) (s : Space) : Space :=
  mkSpace (sp_id s) (or_else (given (su_name u)) (sp_name s)) (or_else (given (su_code u)) (sp_code s))
    (given_or_old (su_building u) (sp_building s)) (given_or_old (su_floor u) (sp_floor s))
    (given_or_old (su_zone u) (sp_zone s)) (given_or_old (su_sensor_eui u) (sp_sensor_eui s))
    (given_or_old (su_display_eui u) (sp_display_eui s)) (or_else (given (su_state u)) (sp_state s)) (sp_site_id s)
    (sp_tenant_id s) (sp_gps_latitude s) (sp_gps_longitude s)
    (match metadata with Some m => Some m | None => sp_metadata s end) (sp_created_at s) now (sp_deleted_at s).

Definition tenant_row (tenant : TenantContext) (s : Space) : bool := bool_decide (sp_tenant_id s = Some (tc_tenant_id tenant)).

Definition update_space (now : Z) (space_id : string) (u : SpaceUpdate) (tenant : TenantContext) : stE SpacesState exn json :=
  as_server_error (
    existing ← sp_call SpExisting (λ es, existsb (own_space space_id tenant) (estate_spaces es));
    if negb existing then raise space_missing
    else if no_space_fields u then raise (HTTPException 400 "No fields to update")
    else
      metadata ← lift (encoded (given (su_metadata u)));
      row ← sp_run SpUpdate (update_space_where space_id (tenant_row tenant) (set_space now u metadata));
      match row with
      | None => raise (PyException "'NoneType' object is not subscriptable")
      | Some s =>
          _ ← invalidate now tenant (Some space_id);
          mret (JObj (space_fields s []))
      end).

Definition delete_space (now : Z) (space_id : string) (tenant : TenantContext) : stE SpacesState exn unit :=
  as_server_error (
    row ← sp_run SpDelete (update_space_where space_id (λ s, tenant_row tenant s && live_space s) (set_space_deleted now));
    match row with
    | None => raise space_missing
    | Some _ => invalidate now tenant (Some space_id)
    end).

(** ** Statistics: counts per state and their total *)

Definition all_states : list SpaceState := [FREE; OCCUPIED; RESERVED; MAINTENANCE].

(** SELECT state, COUNT over groups *)
Definition state_counts (p : Space → bool) (es : Estate) : list (string * Z) :=
  List.filter (λ r, 0 <? r.2)
    (map (λ st, (state_value st, sql_count (λ s, p s && bool_decide (sp_state s = st)) (estate_spaces es))) all_states).

Definition in_stats (site_id : option string) (tenant : TenantContext) (s : Space) : bool :=
  tenant_row tenant s && wanted site_id (sp_site_id s) && live_space s.

Definition no_stats : list (string * Z) :=
  [("FREE", 0); ("OCCUPIED", 0); ("RESERVED", 0); ("MAINTENANCE", 0); ("total", 0)].

Definition add_count (stats : list (string * Z)) (row : string * Z) : list (string * Z) :=
  let stats := obj_set row.1 row.2 stats in
  obj_set "total" (or_else (assoc "total" stats) 0 + row.2) stats.

Definition get_space_stats (site_id : option string) (tenant : TenantContext) : stE SpacesState exn (list (string * Z)) :=
  try_catch (results ← sp_call SpStats (state_counts (in_stats site_id tenant)); mret (fold_left add_count results no_stats))
    (λ e, raise (HTTPException 500 (message e))).

(** ** Devices of a space *)

Definition eui_format (eui : string) : bool :=
  (String.length eui =? 16)%nat && str_forallb is_hex_upper eui.

(** INSERT INTO sensor_devices (or display_devices) ... ON CONFLICT (dev_eui) DO NOTHING *)
Definition insert_bare (c : Category) (new_id eui : string) : stE Estate exn unit := λ es,
  if exists_in c eui (es_db es) then (Ok tt, es)
  else match c with
  | CSensor =>
      match bare_sensor new_id eui ("Sensor " +:+ str_take 8 eui) with
      | Ok r => (Ok tt, estate_db (with_sensor_devices (λ l, l ++ [r])%list) es)
      | Err e => (Err e, es)
      end
  | CDisplay =>
      match bare_display new_id eui ("Display " +:+ str_take 8 eui) with
      | Ok r => (Ok tt, estate_db (with_display_devices (λ l, l ++ [r])%list) es)
      | Err e => (Err e, es)
      end
  end.

Definition set_device (now : Z) (c : Category) (eui : option string) (s : Space) : Space :=
  let s := match c with CSensor => set_devices eui (sp_display_eui s) s | CDisplay => set_devices (sp_sensor_eui s) eui s end in
  mkSpace (sp_id s) (sp_name s) (sp_code s) (sp_building s) (sp_floor s) (sp_zone s) (sp_sensor_eui s) (sp_display_eui s)
    (sp_state s) (sp_site_id s) (sp_tenant_id s) (sp_gps_latitude s) (sp_gps_longitude s) (sp_metadata s)
    (sp_created_at s) now (sp_deleted_at s).

Definition not_in_tenant (space_id : string) (tenant : TenantContext) : exn :=
  HTTPException 404 ("Space " +:+ space_id +:+ " not found in tenant " +:+ tc_tenant_slug tenant).

(** UPDATE spaces SET sensor_eui (or display_eui) = $1 ... RETURNING *)
Definition put_device (now : Z) (c : Category) (eui : option string) (space_id : string) (tenant : TenantContext)
    : stE SpacesState exn Space :=
  row ← sp_run (SpAssign c) (update_space_where space_id (λ s, tenant_row tenant s && live_space s) (set_device now c eui));
  match row with Some s => mret s | None => raise (not_in_tenant space_id tenant) end.

Definition assign_device (c : Category) (now : Z) (new_id space_id eui : string) (tenant : TenantContext)
    : stE SpacesState exn Space :=
  as_server_error (
    let eui := str_upper eui in
    if negb (eui_format eui)
    then raise (HTTPException 400 (category_name c +:+ "_eui must be 16 hexadecimal characters"))
    else
      exists_ ← sp_call (SpDevice c) (λ es, exists_in c eui (es_db es));
      _ ← (if exists_ : bool then mret tt else sp_run (SpBare c) (insert_bare c new_id eui));
      put_device now c (Some eui) space_id tenant).

Definition assign_sensor_to_space := assign_device CSensor.
Definition assign_display_to_space := assign_device CDisplay.

Definition unassign_sensor_from_space (now : Z) (space_id : string) (tenant : TenantContext) : stE SpacesState exn Space :=
  as_server_error (put_device now CSensor None space_id tenant).
Definition unassign_display_from_space (now : Z) (space_id : string) (tenant : TenantContext) : stE SpacesState exn Space :=
  as_server_error (put_device now CDisplay None space_id tenant).
End Router.

(** ** Properties *)

(** *** Requests and what they leave alone *)

Section Requests.
Context {R : Redis} (md5 : string → string) (repr_float : Q → string).
Context (decode_jsonb : json_obj → json) (encode_jsonb : json_obj → result exn json_obj).
Context (bare_sensor : string → string → string → result exn SensorDevice)
        (bare_display : string → string → string → result exn DisplayDevice).
Context (fault : SpaceCall → option exn).

(** The requests that write to the tables *)
Inductive write_request (tenant : TenantContext) (s s' : SpacesState) : Prop :=
| write_create now new_id space r :
    create_space repr_float decode_jsonb encode_jsonb fault now new_id space tenant s = (r, s') → write_request tenant s s'
| write_update now space_id u r :
    update_space repr_float decode_jsonb encode_jsonb fault now space_id u tenant s = (r, s') → write_request tenant s s'
| write_delete now space_id r : delete_space fault now space_id tenant s = (r, s') → write_request tenant s s'
| write_assign c now new_id space_id eui r :
    assign_device bare_sensor bare_display fault c now new_id space_id eui tenant s = (r, s') → write_request tenant s s'
| write_unassign_sensor now space_id r : unassign_sensor_from_space fault now space_id tenant s = (r, s') → write_request tenant s s'
| write_unassign_display now space_id r : unassign_display_from_space fault now space_id tenant s = (r, s') → write_request tenant s s'.

(** What a request of a tenant may do to the tables *)
Definition foreign_spaces (tenant : TenantContext) (es : Estate) : list Space :=
  List.filter (λ s, negb (tenant_row tenant s)) (estate_spaces es).

Record space_frame (tenant : TenantContext) (es es' : Estate) : Prop := {
  sf_ok : estate_ok es → estate_ok es';
  sf_sites : sites es' = sites es;
  sf_foreign : foreign_spaces tenant es' = foreign_spaces tenant es;
  sf_reservations : reservations (es_db es') = reservations (es_db es);
}.

(** What it does to the cache: nothing is added, and the lists kept under a digest stay. *)
Definition cached_at (t : Z) (key : string) (s : SpacesState) : option string :=
  match ss_cache s with Some c => str_at t key (dump (c_redis c)) | None => None end.

(** A tenant's identifier is a UUID, whose text has dashes. *)
Definition dashed (tenant : TenantContext) : Prop := In "-"%char (list_ascii_of_string (tc_tenant_id tenant)).

Record cache_frame (tenant : TenantContext) (s s' : SpacesState) : Prop := {
  cf_some : is_Some (ss_cache s) → is_Some (ss_cache s');
  cf_fewer : ∀ t key v, cached_at t key s' = Some v → cached_at t key s = Some v;
  cf_lists : dashed tenant → ∀ t h, str_forallb is_hex h = true →
             cached_at t ("spaces:list:" +:+ h) s' = cached_at t ("spaces:list:" +:+ h) s;
}.

Definition framed (tenant : TenantContext) (s s' : SpacesState) : Prop :=
  space_frame tenant (ss_estate s) (ss_estate s') ∧ cache_frame tenant s s'.

#[local] Instance framed_preorder tenant : PreOrder (framed tenant).
Proof.
  split.
  - intros s. split; by constructor.
  - intros s1 s2 s3 [[A1 A2 A3 A4] [A5 A6 A7]] [[B1 B2 B3 B4] [B5 B6 B7]].
    split; constructor; [auto|congruence..|auto|auto|]. intros Hd t h Hh. by rewrite B7, A7.
Qed.

(** Only the tables move. *)
Lemma framed_tables tenant s es : space_frame tenant (ss_estate s) es → framed tenant s (mkSpaces es (ss_cache s)).
Proof. intros H. split; [done|]. by constructor. Qed.

Lemma wp_sp_call {A} c (f : Estate → A) (Q : result exn A → SpacesState → Prop) s :
  (∀ e, Q (Err e) s) → Q (Ok (f (ss_estate s))) s → wp (sp_call fault c f) Q s.
Proof. intros He Hok. apply wp_may_fail; auto. Qed.

Lemma sp_call_ok {A B} c (f : Estate → A) (k : A → stE SpacesState exn B) s :
  fault c = None → (x ← sp_call fault c f; k x) s = k (f (ss_estate s)) s.
Proof. intros Hf. unfold sp_call, may_fail. by rewrite Hf. Qed.

Lemma sp_run_ok {A B} c (m : stE Estate exn A) a es (k : A → stE SpacesState exn B) s :
  fault c = None → m (ss_estate s) = (Ok a, es) → (x ← sp_run fault c m; k x) s = k a (mkSpaces es (ss_cache s)).
Proof. intros Hf Hm. unfold sp_run, may_fail, mbind, stE_bind. by rewrite Hf, Hm. Qed.

Lemma keeps_sp_call {A} tenant c (f : Estate → A) : keeps (framed tenant) (sp_call fault c f).
Proof. apply keeps_may_fail; [apply _|]. intros s. reflexivity. Qed.

Lemma keeps_sp_run {A} tenant c (m : stE Estate exn A) : keeps (space_frame tenant) m → keeps (framed tenant) (sp_run fault c m).
Proof.
  intros Hm. apply keeps_may_fail; [apply _|]. intros s. specialize (Hm (ss_estate s)).
  destruct (m (ss_estate s)) as [r es]. by apply framed_tables.
Qed.

Lemma str_at_delete_pattern now f p c t key v :
  str_at t key (dump (c_redis (delete_pattern now f p c))) = Some v → str_at t key (dump (c_redis c)) = Some v.
Proof.
  unfold delete_pattern, on_cache. destruct f; [done|]. cbn [c_redis]. unfold str_at. rewrite alive_foldl_del.
  by destruct (bool_decide _).
Qed.

Lemma str_at_delete_patterns now f ps c t key v :
  str_at t key (dump (c_redis (delete_patterns now f ps c))) = Some v → str_at t key (dump (c_redis c)) = Some v.
Proof.
  unfold delete_patterns. revert c. induction ps as [|p ps IH]; intros c; [done|]. cbn [foldl].
  intros H%IH. by apply str_at_delete_pattern in H.
Qed.

Lemma keeps_invalidate tenant now space_id : keeps (framed tenant) (invalidate fault now tenant space_id).
Proof.
  intros s. cbn [invalidate snd]. split; [by constructor|]. unfold invalidate_space_cache, with_cache.
  destruct s as [es [c|]]; [|by constructor]. constructor; unfold cached_at; cbn; [done| |].
  - intros t key v. apply str_at_delete_patterns.
  - intros Hd t h Hh. apply delete_patterns_other. by apply space_patterns_miss_digests.
Qed.

Lemma keeps_update_where tenant space_id p f :
  (∀ s, sp_id (f s) = sp_id s ∧ sp_site_id (f s) = sp_site_id s ∧ sp_tenant_id (f s) = sp_tenant_id s) →
  (∀ s, p s = true → tenant_row tenant s = true) → keeps (space_frame tenant) (update_space_where space_id p f).
Proof.
  intros Hf Hp es. destruct (update_space_where space_id p f es) as [r es'] eqn:E. cbn [snd].
  assert (estate_ok es → estate_ok es') as Hok by (intros; by eapply update_space_where_ok).
  unfold update_space_where in E. destruct (fetchrow _ _); [|by simplify_eq].
  destruct (space_violation _ _); simplify_eq; [by constructor|]. constructor; [done|done| |done].
  unfold foreign_spaces, estate_spaces. cbn [estate_db es_db with_spaces spaces]. apply filter_update_none.
  intros x _ [_ Hx]%andb_true_iff. apply Hp in Hx. unfold tenant_row in *. destruct (Hf x) as (_ & _ & Ht). cbn. by rewrite Ht, Hx.
Qed.

Lemma insert_space_frame tenant x es :
  (∀ site, site ∈ sites es → si_is_active site = true → sp_site_id x = Some (si_id site) → of_tenant tenant site = true) →
  estate_ok es → space_frame tenant es (insert_space x es).2.
Proof.
  intros Hsite Hok. destruct (insert_space x es) as [r es'] eqn:E. cbn [snd].
  destruct (insert_space_ok _ _ _ _ Hok E) as (Hok' & Hs & Hr). destruct r as [x'|e]; [|by subst].
  destruct Hr as (Hsp & _ & site & Hin & Hact & Hx & _ & Ht). constructor; [done|done| |].
  - unfold foreign_spaces. rewrite Hsp, List.filter_app. cbn. replace (tenant_row tenant x') with true; [by rewrite app_nil_r|].
    symmetry. apply bool_decide_eq_true. rewrite Ht. f_equal. by apply String.eqb_eq, (Hsite site).
  - unfold insert_space in E. destruct (sync_tenant_id es x); [|by simplify_eq].
    destruct (existsb _ _); [by simplify_eq|]. destruct (space_violation _ _); by simplify_eq.
Qed.

Lemma keeps_insert_bare tenant c new_id eui : keeps (space_frame tenant) (insert_bare bare_sensor bare_display c new_id eui).
Proof.
  intros es. unfold insert_bare. destruct (exists_in c eui (es_db es)); [by constructor|].
  assert (∀ g, spaces (g (es_db es)) = spaces (es_db es) → reservations (g (es_db es)) = reservations (es_db es) →
               space_frame tenant es (estate_db g es)) as Hg.
  { intros g Hs Hr. unfold estate_db. constructor; unfold foreign_spaces, estate_spaces; cbn; [|done|by rewrite Hs|done].
    intros [H1 H2 H3 H4]. unfold estate_spaces, owned in *. by constructor; unfold estate_spaces, owned; cbn; rewrite ?Hs. }
  destruct c; [destruct (bare_sensor _ _ _)|destruct (bare_display _ _ _)]; (by apply Hg) || by constructor.
Qed.

#[local] Hint Resolve keeps_sp_call keeps_sp_run keeps_invalidate keeps_update_where keeps_insert_bare : keeps.

Lemma keeps_as_server_error {A} tenant (m : stE SpacesState exn A) :
  keeps (framed tenant) m → keeps (framed tenant) (as_server_error m).
Proof. intros Hm. apply keeps_try; [apply _|done|]. intros []; apply keeps_raise; apply _. Qed.
#[local] Hint Resolve keeps_as_server_error : keeps.

Lemma tenant_row_and tenant s b : (tenant_row tenant s && b)%bool = true → tenant_row tenant s = true.
Proof. by intros [? _]%andb_true_iff. Qed.

Lemma update_space_keeps tenant now space_id u :
  keeps (framed tenant) (update_space repr_float decode_jsonb encode_jsonb fault now space_id u tenant).
Proof.
  apply keeps_as_server_error, keeps_bind; [apply _|auto with keeps|]. intros []; cbn [negb]; [|auto with keeps].
  destruct (no_space_fields u); [auto with keeps|]. apply keeps_bind; [apply _|auto with keeps|]. intros m.
  apply keeps_bind; [apply _|auto with keeps|]. intros [x|]; auto with keeps.
Qed.

Lemma delete_space_keeps tenant now space_id : keeps (framed tenant) (delete_space fault now space_id tenant).
Proof.
  apply keeps_as_server_error, keeps_bind; [apply _| |].
  - apply keeps_sp_run, keeps_update_where; [done|]. intros s. apply tenant_row_and.
  - intros [x|]; auto with keeps.
Qed.

Lemma put_device_keeps tenant now c eui space_id : keeps (framed tenant) (put_device fault now c eui space_id tenant).
Proof.
  apply keeps_bind; [apply _| |].
  - apply keeps_sp_run, keeps_update_where; [intros s; by destruct c|]. intros s. apply tenant_row_and.
  - intros [x|]; auto with keeps.
Qed.
#[local] Hint Resolve put_device_keeps : keeps.

Lemma assign_device_keeps tenant c now new_id space_id eui :
  keeps (framed tenant) (assign_device bare_sensor bare_display fault c now new_id space_id eui tenant).
Proof.
  apply keeps_as_server_error. cbv zeta. destruct (eui_format (str_upper eui)); cbn [negb]; [|auto with keeps].
  apply keeps_bind; [apply _|auto with keeps|]. intros []; auto 6 with keeps.
Qed.

(** The check of the site is what keeps a creation inside the tenant. *)
Lemma create_space_keeps tenant now new_id space s :
  estate_ok (ss_estate s) →
  framed tenant s (create_space repr_float decode_jsonb encode_jsonb fault now new_id space tenant s).2.
Proof.
  intros Hok. set (Q := λ (_ : result exn json) s', framed tenant s s').
  change (wp (create_space repr_float decode_jsonb encode_jsonb fault now new_id space tenant) Q s).
  apply wp_as_server_error; [done|].
  apply wp_bind, wp_may_fail; [by intros|]. intros _. unfold wp at 1. cbn [fst snd].
  destruct (existsb _ (sites (ss_estate s))) eqn:Hsite; cbn [negb]; [|by apply wp_raise; unfold Q].
  apply wp_bind_keeps with (framed tenant); [auto with keeps|done|]. intros dup s1 E1 H1.
  assert (ss_estate s1 = ss_estate s) as Hs1.
  { unfold sp_call, may_fail in E1. by destruct (fault SpDuplicate); simplify_eq. }
  destruct dup; [by apply wp_raise|]. apply wp_bind, wp_lift. destruct (encoded _ _) as [m|]; [|done].
  apply wp_bind, wp_may_fail; [done|]. intros _. unfold wp at 1.
  pose proof (insert_space_frame tenant (new_space now new_id space m) (ss_estate s1)) as Hins. rewrite Hs1 in *.
  destruct (insert_space (new_space now new_id space m) (ss_estate s)) as [r es'] eqn:E.
  assert (framed tenant s (mkSpaces es' (ss_cache s1))) as Hf.
  { etrans; [exact H1|]. apply framed_tables. rewrite Hs1. apply Hins; [|done].
    intros site Hin Hact Hx. cbn in Hx. simplify_eq. apply existsb_exists in Hsite as (y & Hy & [[Hy1 Hy2]%andb_true_iff _]%andb_true_iff).
    apply list_elem_of_In in Hy. replace site with y; [done|]. apply (site_id_unique (ss_estate s)); [done..|].
    apply String.eqb_eq in Hy1. congruence. }
  destruct r as [x|e]; cbn [fst snd]; [|exact Hf].
  apply wp_bind_keeps with (framed tenant); [apply keeps_invalidate|intros; unfold Q; by etrans|].
  intros _ s2 _ H2. apply wp_ret. unfold Q. by etrans.
Qed.

Lemma write_request_framed tenant s s' : estate_ok (ss_estate s) → write_request tenant s s' → framed tenant s s'.
Proof.
  intros Hok []; match goal with H : _ s = (_, s') |- _ => apply (f_equal snd) in H; cbn in H; rewrite <- H end.
  - by apply create_space_keeps.
  - apply update_space_keeps.
  - apply delete_space_keeps.
  - apply assign_device_keeps.
  - apply keeps_as_server_error, put_device_keeps.
  - apply keeps_as_server_error, put_device_keeps.
Qed.

(** C9. Spaces are isolated by tenant.  Whatever a writing request of one tenant asks, with
    whatever ids and EUIs and whichever calls fail: the tables stay consistent, sites and
    reservations are not touched, the spaces of every other tenant are the same rows as
    before, and a space it creates belongs to it. *)
Theorem space_requests_isolated tenant s s' :
  estate_ok (ss_estate s) → write_request tenant s s' →
  estate_ok (ss_estate s') ∧ space_frame tenant (ss_estate s) (ss_estate s').
Proof. intros Hok Hr. destruct (write_request_framed _ _ _ Hok Hr) as [Hf _]. split; [by apply Hf|done]. Qed.
End Requests.

(** *** The invariant *)

Section Reachable.
Context {R : Redis} (md5 : string → string) (repr_float : Q → string).
Context (decode_jsonb : json_obj → json) (encode_jsonb : json_obj → result exn json_obj).
Context (bare_sensor : string → string → string → result exn SensorDevice)
        (bare_display : string → string → string → result exn DisplayDevice).
Context (decode_site : json → json).

(** Everything that touches the tables or the cache: the requests of all tenants with any
    calls failing, and the rest of the system, which moves the state of spaces
    ([StateManager.moved]), deletes them softly (database.py) and writes other tables. *)
Inductive estate_step : SpacesState → SpacesState → Prop :=
| step_list fault now q tenant r s s' :
    list_spaces md5 repr_float decode_jsonb fault now q tenant s = (r, s') → estate_step s s'
| step_write fault tenant s s' :
    write_request repr_float decode_jsonb encode_jsonb bare_sensor bare_display fault tenant s s' → estate_step s s'
| step_site fault tenant s es' :
    site_request decode_site fault tenant (ss_estate s) es' → estate_step s (mkSpaces es' (ss_cache s))
| step_moved now i st source s d' :
    moved now i st source (es_db (ss_estate s)) d' →
    estate_step s (mkSpaces (mkEstate d' (sites (ss_estate s))) (ss_cache s))
| step_soft_delete now i r s d' :
    soft_delete_space now i (es_db (ss_estate s)) = (r, d') →
    estate_step s (mkSpaces (mkEstate d' (sites (ss_estate s))) (ss_cache s))
| step_other s d' :
    spaces d' = spaces (es_db (ss_estate s)) →
    estate_step s (mkSpaces (mkEstate d' (sites (ss_estate s))) (ss_cache s)).

Lemma list_spaces_tables fault now q tenant s : ss_estate (list_spaces md5 repr_float decode_jsonb fault now q tenant s).2 = ss_estate s.
Proof.
  assert (keeps (λ a b, ss_estate b = ss_estate a) (list_spaces md5 repr_float decode_jsonb fault now q tenant)) as H; [|apply H].
  assert (PreOrder (λ a b : SpacesState, ss_estate b = ss_estate a)) by (split; [by intros ?|intros ??? ? ?; congruence]).
  apply keeps_bind; [done| |].
  - intros s0. unfold cache_lookup. destruct (ss_cache s0) as [c|]; [|done]. by destruct (cache_get _ _ _ c).
  - intros [v|]; [by apply keeps_ret|]. apply keeps_try; [done| |intros; by apply keeps_raise].
    apply keeps_bind; [done|apply keeps_may_fail; [done|by intros ?]|]. intros j.
    apply keeps_bind; [done|by apply keeps_modify|intros; by apply keeps_ret].
Qed.

Lemma estate_step_ok s s' : estate_step s s' → estate_ok (ss_estate s) → estate_ok (ss_estate s').
Proof.
  intros [fault now q tenant r s0 s1 E|fault tenant s0 s1 E|fault tenant s0 es' E|now i st source s0 d' E|now i r s0 d' E|s0 d' E] Hok; cbn in *.
  - apply (f_equal snd) in E. cbn in E. subst s1. by rewrite list_spaces_tables.
  - by apply write_request_framed in E as [[H _ _ _] _]; [apply H|].
  - by apply site_requests_isolated in E as [H _].
  - assert (∀ q f, spaces d' = sql_update q f (estate_spaces (ss_estate s0)) →
      estate_ok (estate_db (with_spaces (sql_update q f)) (ss_estate s0)) → estate_ok (mkEstate d' (sites (ss_estate s0)))) as Hcopy.
    { intros q f Hd [H1 H2 H3 H4]. unfold estate_spaces, owned in *. cbn in *. constructor; unfold estate_spaces, owned; cbn; rewrite ?Hd; done. }
    destruct E as [E|(x & _ & _ & _ & E)].
    + apply (Hcopy (λ _, false) id); [unfold sql_update; rewrite map_id; exact E|]. by apply keep_keys_ok.
    + eapply Hcopy; [exact E|]. by apply keep_keys_ok.
  - unfold soft_delete_space in E. destruct (Database.get_space i _); simplify_eq; [|by destruct (ss_estate s0)].
    refine (keep_keys_ok (λ s, is_space i s && live_space s)%bool (set_space_deleted now) (ss_estate s0) Hok _).
    intros x. split_and!; try done.
  - destruct Hok as [H1 H2 H3 H4]. unfold estate_spaces, owned in *. constructor; unfold estate_spaces, owned; cbn; rewrite ?E; done.
Qed.

(** C19. The tables stay consistent.  From consistent tables, however requests of all tenants
    interleave with the rest of the system and whatever fails: no two spaces share an id or
    a sensor, no two live ones a display or a code within a site, every space belongs to
    the tenant of its site, EUIs are canonical, and site names are unique per tenant. *)
Theorem estate_well_formed s s' :
  estate_ok (ss_estate s) → rtc estate_step s s' → estate_ok (ss_estate s').
Proof. intros Hok Hr. revert Hok. induction Hr as [|x y z Hs _ IH]; [done|]. intros Hok. by eapply IH, estate_step_ok. Qed.
End Reachable.

(** *** The cached listing *)

Lemma text_or_null_inj a b : text_or_null a = text_or_null b → a = b.
Proof. destruct a, b; cbn; congruence. Qed.

Lemma cache_key_data_inj tenant q tenant' q' :
  cache_key_data tenant q = cache_key_data tenant' q' → tc_tenant_id tenant = tc_tenant_id tenant' ∧ q = q'.
Proof.
  intros H. inversion H as [[H1 H2 H3 H4 H5 H6 H7]]. split; [done|].
  apply text_or_null_inj in H1, H2, H4, H5, H7. destruct q as [a b c s i x], q' as [a' b' c' s' i' x']. cbn in *. subst.
  f_equal. destruct s, s'; cbn in H5; try done. f_equal. apply state_value_inj. congruence.
Qed.

Lemma wf_text_or_null o : wf_json (text_or_null o).
Proof. by destruct o. Qed.

Lemma wf_key_data tenant q : wf_json (cache_key_data tenant q).
Proof.
  split; [by apply (bool_decide_unpack _); vm_compute|].
  cbn [fold_right cache_key_data]. repeat split; try apply wf_text_or_null.
Qed.

Section CachedListing.
Context {R : Redis} (md5 : string → string) (repr_float : Q → string).
Context (decode_jsonb : json_obj → json) (encode_jsonb : json_obj → result exn json_obj).
Context (bare_sensor : string → string → string → result exn SensorDevice)
        (bare_display : string → string → string → result exn DisplayDevice).
Context (decode_site : json → json).
Context (Hfloat : ∀ q, wf_json (JFloat (repr_float q))) (Hjsonb : ∀ m, wf_json (decode_jsonb m)).

Abbreviation answer := (list_answer repr_float decode_jsonb).
Abbreviation step := (estate_step md5 repr_float decode_jsonb encode_jsonb bare_sensor bare_display decode_site).
Abbreviation listing := (list_spaces md5 repr_float decode_jsonb).

Lemma wf_coordinate o : wf_json (coordinate repr_float o).
Proof. destruct o as [q|]; cbn; [|done]. destruct (Qeq_bool q 0); [done|apply Hfloat]. Qed.

Lemma wf_listed_space es s : wf_json (listed_space repr_float decode_jsonb es s).
Proof.
  split; [by apply (bool_decide_unpack _); vm_compute|].
  cbn [fold_right listed_space space_fields site_name_of app].
  repeat split; try apply wf_text_or_null; try apply wf_coordinate.
  - unfold metadata_json. destruct (sp_metadata s); [apply Hjsonb|done].
  - by destruct (sp_deleted_at s).
Qed.

Lemma wf_answer tenant q es : wf_json (answer tenant q es).
Proof.
  unfold list_answer. split; [by apply (bool_decide_unpack _); vm_compute|]. cbn [fold_right]. split; [|split; [done|done]].
  cbn [wf_json]. induction (listed_spaces tenant q es) as [|x l IH]; [done|]. cbn [map fold_right]. split; [apply wf_listed_space|done].
Qed.

(** An answer is kept under its key by the state it was computed in. *)
Definition stored_in (s0 s : SpacesState) (key v : string) : Prop :=
  ∃ tenant q s1, rtc step s0 s1 ∧ rtc step s1 s ∧ cache_key md5 tenant q = key ∧ v = dumps (answer tenant q (ss_estate s1)).

Definition lists_stored (s0 s : SpacesState) : Prop :=
  ∀ t h v, cached_at t ("spaces:list:" +:+ h) s = Some v → stored_in s0 s ("spaces:list:" +:+ h) v.

(** What a call of the listing leaves in the cache *)
Lemma listing_cached fault now q tenant s r s' :
  listing fault now q tenant s = (r, s') →
  ∀ t key v, cached_at t key s' = Some v →
    cached_at t key s = Some v ∨ key = cache_key md5 tenant q ∧ v = dumps (answer tenant q (ss_estate s)).
Proof.
  intros E. enough (wp (listing fault now q tenant) (λ _ s', ∀ t key v, cached_at t key s' = Some v →
    cached_at t key s = Some v ∨ key = cache_key md5 tenant q ∧ v = dumps (answer tenant q (ss_estate s))) s) as H
    by (unfold wp in H; by rewrite E in H). clear E r s'.
  apply wp_bind. unfold wp at 1, cache_lookup.
  assert (∀ c, ss_cache s = Some c → ∀ t key v, cached_at t key (mkSpaces (ss_estate s)
            (Some (cache_get now (fault CacheGet) (cache_key md5 tenant q) c).2)) = Some v → cached_at t key s = Some v) as Hget.
  { intros c Hc t key v. unfold cached_at. rewrite Hc. cbn. unfold cache_get. destruct (fault CacheGet); [done|]. by destruct (truthy _). }
  assert (∀ s1, (∀ t key v, cached_at t key s1 = Some v → cached_at t key s = Some v) → ss_estate s1 = ss_estate s →
    wp (try_catch (result ← sp_call fault SpList (answer tenant q); _ ← cache_store fault now (cache_key md5 tenant q) result 60; mret result)
          (λ e, raise (HTTPException 500 (message e)))) (λ _ s', ∀ t key v, cached_at t key s' = Some v →
    cached_at t key s = Some v ∨ key = cache_key md5 tenant q ∧ v = dumps (answer tenant q (ss_estate s))) s1) as Hmiss.
  { intros s1 Hs1 Hes. apply wp_try, wp_bind, wp_sp_call; [intros e; apply wp_raise; auto|].
    apply wp_bind, wp_modify, wp_ret. intros t key v. rewrite Hes. unfold cached_at, cache_set, on_cache. cbn [ss_cache].
    specialize (Hs1 t key v). unfold cached_at in Hs1 at 1. destruct (ss_cache s1) as [c|]; cbn; [|done].
    destruct (fault CacheSet); [auto|]. cbn. rewrite r_set_law. destruct (decide (cache_key md5 tenant q = key)) as [<-|Hne].
    - rewrite str_at_set. destruct (_ <? _); [|done]. intros [= <-]. auto.
    - rewrite (str_at_ext _ _ (ks_set _ _ _ _ _) (dump (c_redis c))) by (by apply lookup_set_ne). auto. }
  destruct (ss_cache s) as [c|] eqn:Hc; [|by apply Hmiss].
  specialize (Hget c eq_refl). destruct (cache_get now (fault CacheGet) (cache_key md5 tenant q) c) as [hit c']. cbn [fst snd] in *.
  destruct hit as [v|]; [destruct (py_truthy v); [apply wp_ret; auto|]|]; by apply Hmiss.
Qed.

Lemma step_stored s0 s s' :
  rtc step s0 s → step s s' → estate_ok (ss_estate s) → lists_stored s0 s → lists_stored s0 s'.
Proof.
  intros Hr Hstep Hok Hs t h v Hv.
  assert (∀ key, stored_in s0 s key v → stored_in s0 s' key v) as Hmono.
  { intros key (tn & q & s1 & H1 & H2 & H3). exists tn, q, s1. split; [done|]. split; [|done]. by eapply rtc_r. }
  revert Hr Hok Hs Hv Hmono. destruct Hstep as [fault now q tenant r s1 s2 E|fault tenant s1 s2 E|fault tenant s1 es' E|now i st source s1 d' E|now i r s1 d' E|s1 d' E];
    intros Hr Hok Hs Hv Hmono; try (apply Hmono, (Hs t h v); exact Hv).
  - destruct (listing_cached _ _ _ _ _ _ _ E _ _ _ Hv) as [H|[H1 H2]]; [by apply Hmono, (Hs t h v)|].
    exists tenant, q, s1. split; [done|]. split; [|done]. apply rtc_once. by eapply step_list.
  - apply Hmono, (Hs t h v). apply (write_request_framed _ _ _ _ _ _ _ _ _ Hok) in E as [_ Hc]. by apply (cf_fewer _ _ _ Hc).
Qed.

(** What [list_spaces] returns: the answer of this state or one the cache kept. *)
Lemma listing_result fault now q tenant s j :
  (listing fault now q tenant s).1 = Ok j →
  j = answer tenant q (ss_estate s) ∨
  ∃ v, cached_at now (cache_key md5 tenant q) s = Some v ∧ loads v = Some j.
Proof.
  unfold list_spaces, mbind, stE_bind, cache_lookup.
  assert (∀ s1, ss_estate s1 = ss_estate s →
    (try_catch (result ← sp_call fault SpList (answer tenant q); _ ← cache_store fault now (cache_key md5 tenant q) result 60; mret result)
       (λ e, raise (HTTPException 500 (message e))) s1).1 = Ok j → j = answer tenant q (ss_estate s)) as Hmiss.
  { intros s1 <-. unfold try_catch, sp_call, may_fail, mbind, stE_bind. by destruct (fault SpList); [|intros [= <-]]. }
  unfold cached_at. destruct (ss_cache s) as [c|] eqn:Hc; [|intros H; left; by apply Hmiss in H].
  unfold cache_get. destruct (fault CacheGet); [intros H; left; by apply Hmiss in H|].
  rewrite r_get_law. destruct (str_at now _ _) as [v|] eqn:Hv; cbn [truthy or_else];
    [|intros H; left; by apply Hmiss in H].
  destruct v as [|a v]; [intros H; left; by apply Hmiss in H|].
  destruct (loads (String a v)) as [x|] eqn:Hl; [|intros H; left; by apply Hmiss in H].
  destruct (py_truthy x); [|intros H; left; by apply Hmiss in H]. intros [= <-]. right. eauto.
Qed.

(** C17. The listing shows the own spaces, from the cache too.  Starting with consistent tables
    and no list in the cache, after any interleaving of requests and other activity, an
    answer of GET /spaces to a tenant (not the platform's) is the listing of that tenant,
    with these filters, of the tables as they are or were at some moment before: it never
    shows another tenant's space, although all tenants share the cache.  MD5 must not map
    another key text to this one's digest. *)
Theorem listed_spaces_are_own fault now q tenant s0 s j :
  estate_ok (ss_estate s0) → (∀ t h, cached_at t ("spaces:list:" +:+ h) s0 = None) → rtc step s0 s →
  tc_tenant_id tenant ≠ PLATFORM_TENANT_ID →
  (∀ x, md5 x = md5 (dumps (cache_key_data tenant q)) → x = dumps (cache_key_data tenant q)) →
  (listing fault now q tenant s).1 = Ok j →
  ∃ s1, rtc step s0 s1 ∧ rtc step s1 s ∧ j = answer tenant q (ss_estate s1) ∧
        ∀ x, x ∈ listed_spaces tenant q (ss_estate s1) → sp_tenant_id x = Some (tc_tenant_id tenant).
Proof.
  intros Hok Hnone Hr Hp Hmd5 Hj.
  assert (is_platform_admin tenant = false) as Hadmin.
  { unfold is_platform_admin. destruct (String.eqb_spec (tc_tenant_id tenant) PLATFORM_TENANT_ID); [done|apply andb_false_r]. }
  assert (∀ es x, x ∈ listed_spaces tenant q es → sp_tenant_id x = Some (tc_tenant_id tenant)) as Hown.
  { intros es x. unfold listed_spaces. rewrite merge_sort_Permutation, filter_In_elem. unfold in_listing. rewrite Hadmin. cbn [orb].
    rewrite !andb_true_iff, bool_decide_eq_true. tauto. }
  assert (lists_stored s0 s ∧ estate_ok (ss_estate s)) as [Hst _].
  { refine (rtc_ind_r (λ s, lists_stored s0 s ∧ estate_ok (ss_estate s)) s0 _ _ s Hr).
    - split; [|done]. intros t h v Hv. by rewrite Hnone in Hv.
    - intros s1 s2 Hr1 Hstep [IH IHok]. split; [exact (step_stored _ _ _ Hr1 Hstep IHok IH)|exact (estate_step_ok _ _ _ _ _ _ _ _ _ Hstep IHok)]. }
  apply listing_result in Hj as [->|(v & Hv & Hl)]; [by exists s; split_and!; [..|apply Hown]|].
  destruct (Hst _ _ _ Hv) as (tenant' & q' & s1 & H1 & H2 & Hkey & ->).
  rewrite loads_dumps in Hl by apply wf_answer. injection Hl as <-.
  assert (md5 (dumps (cache_key_data tenant' q')) = md5 (dumps (cache_key_data tenant q))) as Hdigest.
  { unfold cache_key in Hkey. by apply append_inj_l in Hkey. }
  apply Hmd5, (f_equal loads) in Hdigest. rewrite !loads_dumps in Hdigest by apply wf_key_data.
  assert (tc_tenant_id tenant' = tc_tenant_id tenant ∧ q' = q) as [Ht ->] by (apply cache_key_data_inj; congruence).
  exists s1. split_and!; [done|done| |by apply Hown].
  unfold list_answer, listed_spaces, in_listing. rewrite Ht, Hadmin.
  replace (is_platform_admin tenant') with false; [done|]. unfold is_platform_admin in *. rewrite Ht.
  destruct (String.eqb_spec (tc_tenant_id tenant) PLATFORM_TENANT_ID); [done|by rewrite andb_false_r].
Qed.
End CachedListing.

(** *** Invalidation does not reach the listing *)

Section Stale.
Context {R : Redis} (md5 : string → string) (repr_float : Q → string).
Context (decode_jsonb : json_obj → json) (encode_jsonb : json_obj → result exn json_obj).
Context (bare_sensor : string → string → string → result exn SensorDevice)
        (bare_display : string → string → string → result exn DisplayDevice).
Context (fault : SpaceCall → option exn).
Context (Hfloat : ∀ q, wf_json (JFloat (repr_float q))) (Hjsonb : ∀ m, wf_json (decode_jsonb m)).
Context (Hmd5 : ∀ x, str_forallb is_hex (md5 x) = true).

Abbreviation write := (write_request repr_float decode_jsonb encode_jsonb bare_sensor bare_display fault).

(** Requests one after the other, by any tenants *)
Definition writes : SpacesState → SpacesState → Prop :=
  rtc (λ s s', ∃ tenant, dashed tenant ∧ write tenant s s').

Lemma writes_framed s s' :
  estate_ok (ss_estate s) → writes s s' →
  estate_ok (ss_estate s') ∧
  ∀ t h, str_forallb is_hex h = true → cached_at t ("spaces:list:" +:+ h) s' = cached_at t ("spaces:list:" +:+ h) s.
Proof.
  intros Hok Hw. revert Hok. induction Hw as [|s1 s2 s3 (tenant & Hd & Hs) _ IH]; [done|]. intros Hok.
  destruct (write_request_framed _ _ _ _ _ _ _ _ _ Hok Hs) as [[H _ _ _] Hc].
  destruct (IH (H Hok)) as [Hok' IHc]. split; [done|]. intros t h Hh. rewrite IHc by done. by apply (cf_lists _ _ _ Hc).
Qed.

(** Writers do not refresh the listing.  The handlers that change spaces call the
    invalidation, but its patterns contain the tenant's identifier and the listing is
    kept under a digest: an answer that was computed and stored is returned again for a
    minute, whatever spaces have been created, changed, deleted or given devices since. *)
Theorem listing_is_stale now now' q tenant s1 j s2 s3 :
  fault CacheGet = None → fault CacheSet = None → is_Some (ss_cache s1) → estate_ok (ss_estate s1) →
  cached_at now (cache_key md5 tenant q) s1 = None →
  list_spaces md5 repr_float decode_jsonb fault now q tenant s1 = (Ok j, s2) → writes s2 s3 →
  now ≤ now' < now + 60 * sec →
  (list_spaces md5 repr_float decode_jsonb fault now' q tenant s3).1 = Ok j.
Proof.
  intros Hget Hset [c Hc] Hok Hmiss E Hw Hnow.
  assert (wf_json j ∧ cached_at now' (cache_key md5 tenant q) s2 = Some (dumps j) ∧ ss_estate s2 = ss_estate s1 ∧ py_truthy j = true)
    as (Hwf & Hstored & Hes & Htrue).
  { unfold list_spaces, mbind, stE_bind, cache_lookup in E. rewrite Hc in E. unfold cache_get in E. rewrite Hget in E.
    unfold cached_at in Hmiss. rewrite Hc in Hmiss. rewrite r_get_law, Hmiss in E. cbn [truthy] in E.
    unfold try_catch, sp_call, may_fail, mbind, stE_bind in E. destruct (fault SpList); [done|].
    unfold cache_store, modify_st, mret, stE_ret in E. cbn [ss_cache ss_estate fmap option_fmap option_map] in E.
    unfold cache_set in E. change (60 <=? 0) with false in E. unfold on_cache in E. rewrite Hset in E.
    injection E as <- <-. split; [by apply wf_answer|]. split; [|done].
    unfold cached_at. cbn [ss_cache c_redis]. rewrite r_set_law, str_at_set. by rewrite (proj2 (Z.ltb_lt _ _)) by lia. }
  destruct (writes_framed s2 s3) as [_ Hlists]; [by rewrite Hes|done|].
  assert (cached_at now' (cache_key md5 tenant q) s3 = Some (dumps j)) as Hin.
  { unfold cache_key in *. rewrite Hlists by apply Hmd5. done. }
  unfold list_spaces, mbind, stE_bind, cache_lookup. unfold cached_at in Hin. destruct (ss_cache s3) as [c3|]; [|done].
  unfold cache_get. rewrite Hget, r_get_law, Hin, (dumps_truthy j Hwf). cbn [or_else]. rewrite (loads_dumps j Hwf), Htrue. done.
Qed.
End Stale.

(** *** Statistics *)

Lemma assoc_add_count k n stats k' :
  assoc k' (add_count stats (k, n)) =
  if String.eqb k' "total" then Some ((if String.eqb k "total" then n else or_else (assoc "total" stats) 0) + n)
  else if String.eqb k' k then Some n else assoc k' stats.
Proof.
  unfold add_count. cbn [fst snd]. rewrite !assoc_obj_set. destruct (String.eqb_spec k' "total"); [|done].
  f_equal. rewrite (String.eqb_sym "total" k). by destruct (String.eqb k "total").
Qed.

Lemma sql_count_ext {A} (p q : A → bool) l : (∀ x, p x = q x) → sql_count p l = sql_count q l.
Proof. intros H. unfold sql_count. do 2 f_equal. by apply filter_ext. Qed.

Lemma count_by_state p l :
  sql_count p l = sql_count (λ s, p s && bool_decide (sp_state s = FREE)) l + sql_count (λ s, p s && bool_decide (sp_state s = OCCUPIED)) l +
                  sql_count (λ s, p s && bool_decide (sp_state s = RESERVED)) l + sql_count (λ s, p s && bool_decide (sp_state s = MAINTENANCE)) l.
Proof.
  induction l as [|x l IH]; [done|]. unfold sql_count in *. cbn [List.filter].
  destruct (p x); cbn [andb]; [|exact IH]. destruct (sp_state x); repeat match goal with |- context [bool_decide (?a = ?b)] =>
      first [rewrite (bool_decide_true (a = b)) by done | rewrite (bool_decide_false (a = b)) by discriminate] end;
    cbn [length]; rewrite ?Nat2Z.inj_succ; lia.
Qed.

Lemma stats_of_counts n1 n2 n3 n4 :
  0 ≤ n1 → 0 ≤ n2 → 0 ≤ n3 → 0 ≤ n4 →
  let stats := fold_left add_count
    (List.filter (λ r, 0 <? r.2) [("FREE", n1); ("OCCUPIED", n2); ("RESERVED", n3); ("MAINTENANCE", n4)]) no_stats in
  assoc "FREE" stats = Some n1 ∧ assoc "OCCUPIED" stats = Some n2 ∧ assoc "RESERVED" stats = Some n3 ∧
  assoc "MAINTENANCE" stats = Some n4 ∧ assoc "total" stats = Some (n1 + n2 + n3 + n4).
Proof.
  intros H1 H2 H3 H4. cbn [List.filter snd].
  destruct (Z.ltb_spec 0 n1), (Z.ltb_spec 0 n2), (Z.ltb_spec 0 n3), (Z.ltb_spec 0 n4);
    cbn -[Z.add]; split_and!; f_equal; lia.
Qed.

Lemma listed_count tenant q es :
  Z.of_nat (length (listed_spaces tenant q es)) = sql_count (in_listing tenant q) (estate_spaces es).
Proof. unfold listed_spaces. by rewrite (Permutation_length (merge_sort_Permutation by_code_name _)). Qed.

(** The statistics agree with the listing.  The total and the count of every state are
    the numbers of spaces GET /spaces lists for the same tenant and site, from the tables,
    without and with the filter on that state. *)
Theorem stats_agree_with_listing {R : Redis} fault site_id tenant s stats :
  is_platform_admin tenant = false → (get_space_stats fault site_id tenant s).1 = Ok stats →
  let listed st := Z.of_nat (length (listed_spaces tenant (mkSpaceQuery None None None st site_id false) (ss_estate s))) in
  assoc "total" stats = Some (listed None) ∧ ∀ st, assoc (state_value st) stats = Some (listed (Some st)).
Proof.
  intros Ha H listed. unfold get_space_stats, try_catch, sp_call, may_fail, mbind, stE_bind in H.
  destruct (fault SpStats); [done|]. cbn [mret stE_ret fst] in H. injection H as <-.
  set (p := in_stats site_id tenant).
  assert (∀ st, listed (Some st) = sql_count (λ x, p x && bool_decide (sp_state x = st)) (estate_spaces (ss_estate s))) as Hst.
  { intros st. unfold listed. rewrite listed_count. apply sql_count_ext. intros x. unfold in_listing, p, in_stats, tenant_row.
    rewrite Ha. cbn [sq_building sq_floor sq_zone sq_state sq_site_id sq_include_deleted wanted orb andb].
    rewrite (bool_decide_ext (Some (sp_state x) = Some st) (sp_state x = st)) by (split; congruence).
    destruct (bool_decide (sp_tenant_id x = _)), (bool_decide (sp_state x = st)), (wanted site_id _), (live_space x); done. }
  assert (listed None = sql_count p (estate_spaces (ss_estate s))) as Htotal.
  { unfold listed. rewrite listed_count. apply sql_count_ext. intros x. unfold in_listing, p, in_stats, tenant_row.
    rewrite Ha. cbn [sq_building sq_floor sq_zone sq_state sq_site_id sq_include_deleted wanted orb andb].
    destruct (bool_decide (sp_tenant_id x = _)), (wanted site_id _); done. }
  rewrite count_by_state, <- !Hst in Htotal. unfold state_counts. cbn [map all_states]. rewrite <- !Hst.
  destruct (stats_of_counts (listed (Some FREE)) (listed (Some OCCUPIED)) (listed (Some RESERVED)) (listed (Some MAINTENANCE)))
    as (E1 & E2 & E3 & E4 & E5); try (unfold listed; lia).
  split; [rewrite Htotal; exact E5|]. intros []; assumption.
Qed.

(** *** Creating, and the devices of a space *)

Lemma first_conflict_some s l x : x ∈ l → is_Some (space_conflict s x) → is_Some (first_conflict s l).
Proof.
  induction l as [|y l IH]; [by intros ?%elem_of_nil|]. intros [<-|Hx]%elem_of_cons Hc; cbn.
  - destruct Hc as [n ->]. eauto.
  - destruct (space_conflict s y); eauto.
Qed.

Lemma first_conflict_free s l : (∀ x, x ∈ l → space_conflict s x = None) → first_conflict s l = None.
Proof.
  induction l as [|y l IH]; intros H; [done|]. cbn. rewrite (H y) by apply list_elem_of_here.
  apply IH. intros x Hx. apply H. by apply list_elem_of_further.
Qed.

Section Creation.
Context {R : Redis} (repr_float : Q → string).
Context (decode_jsonb : json_obj → json) (encode_jsonb : json_obj → result exn json_obj).
Context (fault : SpaceCall → option exn).

Abbreviation create := (create_space repr_float decode_jsonb encode_jsonb fault).

(** The row a creation stores *)
Definition created_row (now : Z) (new_id : string) (space : SpaceCreate) (tenant : TenantContext) : Space :=
  let s := enforce_eui_uppercase (new_space now new_id space None) in
  mkSpace (sp_id s) (sp_name s) (sp_code s) (sp_building s) (sp_floor s) (sp_zone s) (sp_sensor_eui s) (sp_display_eui s)
    (sp_state s) (sp_site_id s) (Some (tc_tenant_id tenant)) (sp_gps_latitude s) (sp_gps_longitude s) (sp_metadata s)
    (sp_created_at s) (sp_updated_at s) (sp_deleted_at s).

Lemma fetchrow_fresh {A} (p : A → bool) l x : existsb p l = false → p x = true → fetchrow p (l ++ [x])%list = Some x.
Proof.
  intros Hl Hx. rewrite fetchrow_app. unfold fetchrow. destruct (find p l) as [y|] eqn:E.
  - apply find_some in E as [Hin Hp]. apply not_true_iff_false in Hl. destruct Hl. apply existsb_exists. eauto.
  - cbn. by rewrite Hx.
Qed.

(** A space that fits is created, and found.  For an active site of the tenant, without
    metadata, with EUIs and coordinates the columns accept and no index in the way, POST
    /spaces stores the space in the tenant and GET /spaces/{id} then returns the same
    fields. *)
Theorem created_space_found now new_id space tenant s :
  (∀ c, fault c = None) → estate_ok (ss_estate s) →
  (∃ site, site ∈ sites (ss_estate s) ∧ si_id site = sc_site_id space ∧ of_tenant tenant site = true ∧ si_is_active site = true) →
  sc_metadata space = None → existsb (is_space new_id) (estate_spaces (ss_estate s)) = false →
  let row := created_row now new_id space tenant in
  euis_ok row = true → valid_gps row = true →
  (∀ x, x ∈ estate_spaces (ss_estate s) → space_conflict row x = None) →
  ∃ s', create now new_id space tenant s = (Ok (JObj (space_fields repr_float decode_jsonb row [])), s') ∧
        estate_spaces (ss_estate s') = (estate_spaces (ss_estate s) ++ [row])%list ∧
        get_space repr_float decode_jsonb fault new_id tenant s' =
          (Ok (JObj (space_fields repr_float decode_jsonb row (site_name_of (ss_estate s') row))), s').
Proof.
  intros Hf Hok (site & Hsite & Hid & Hten & Hact) Hmeta Hnew row Heui Hgps Hfree.
  assert (existsb (λ x, is_site (sc_site_id space) x && of_tenant tenant x && si_is_active x) (sites (ss_estate s)) = true) as Hcheck.
  { apply existsb_exists. exists site. split; [by apply list_elem_of_In|]. unfold is_site. by rewrite Hid, String.eqb_refl, Hten, Hact. }
  assert (existsb (λ x, bool_decide (sp_tenant_id x = Some (tc_tenant_id tenant)) && bool_decide (sp_site_id x = Some (sc_site_id space)) &&
                        String.eqb (sp_code x) (sb_code (sc_base space)) && live_space x) (estate_spaces (ss_estate s)) = false) as Hdup.
  { apply not_true_is_false. intros (x & Hx & Hp)%existsb_exists. apply list_elem_of_In in Hx. specialize (Hfree x Hx).
    rewrite !andb_true_iff, !bool_decide_eq_true in Hp. destruct Hp as [[[Ht Hs] Hc] Hl]. apply String.eqb_eq in Hc.
    unfold space_conflict in Hfree. rewrite Hl, Ht, Hs, Hc in Hfree. cbn in Hfree. rewrite !String.eqb_refl in Hfree. cbn in Hfree.
    destruct (same_some _ _); [done|]. by destruct (same_some _ _). }
  assert (insert_space (new_space now new_id space None) (ss_estate s) = (Ok row, estate_db (with_spaces (λ l, l ++ [row])%list) (ss_estate s))) as Hins.
  { unfold insert_space, sync_tenant_id. cbn [new_space sp_site_id sp_tenant_id].
    rewrite (fetchrow_unique _ (sites (ss_estate s)) site Hsite).
    - apply String.eqb_eq in Hten. rewrite Hten.
      match goal with |- context [enforce_eui_uppercase ?x] => change (enforce_eui_uppercase x) with row end.
      change (sp_id row) with new_id. rewrite Hnew. unfold space_violation. fold (euis_ok row). rewrite Heui, Hgps. cbn [negb].
      by rewrite first_conflict_free.
    - unfold is_site. by rewrite Hid, String.eqb_refl, Hact.
    - intros y Hy [Hyi _]%andb_true_iff. apply String.eqb_eq in Hyi. apply (site_id_unique (ss_estate s)); [done..|congruence]. }
  eexists. split; [|split].
  - unfold create_space, as_server_error, try_catch. rewrite sp_call_ok, Hcheck by done. cbn [negb].
    rewrite sp_call_ok, Hdup, Hmeta by done. cbn [encoded]. unfold lift at 1, mbind at 1, stE_bind at 1.
    rewrite (sp_run_ok _ _ _ _ _ _ _ (Hf _) Hins). reflexivity.
  - reflexivity.
  - unfold get_space, as_server_error, try_catch. rewrite sp_call_ok by done. cbn [ss_estate invalidate estate_db es_db snd].
    unfold estate_spaces at 1. cbn [es_db estate_db with_spaces spaces]. rewrite (fetchrow_fresh _ _ row); [reflexivity| |].
    + apply not_true_is_false. intros (x & Hx & Hp)%existsb_exists. apply not_true_iff_false in Hnew. destruct Hnew.
      apply existsb_exists. exists x. split; [done|]. unfold own_space in Hp. rewrite !andb_true_iff in Hp. tauto.
    + unfold own_space, is_space, row. cbn. by rewrite String.eqb_refl, !bool_decide_true.
Qed.
End Creation.

Section Assignment.
Context {R : Redis}.
Context (bare_sensor : string → string → string → result exn SensorDevice)
        (bare_display : string → string → string → result exn DisplayDevice).
Context (fault : SpaceCall → option exn).

Abbreviation assign := (assign_device bare_sensor bare_display fault).

(** A deleted space keeps its sensor.  The unique index on [sensor_eui] counts deleted
    rows, and deletion does not clear the column: no other space can be given that sensor
    again, the request fails and changes no space. *)
Theorem deleted_space_keeps_sensor now new_id space_id eui tenant s x :
  x ∈ estate_spaces (ss_estate s) → sp_sensor_eui x = Some (str_upper eui) → sp_id x ≠ space_id →
  ∃ e, (assign CSensor now new_id space_id eui tenant s).1 = Err e ∧
       estate_spaces (ss_estate (assign CSensor now new_id space_id eui tenant s).2) = estate_spaces (ss_estate s).
Proof.
  intros Hx Hs Hid.
  enough (wp (assign CSensor now new_id space_id eui tenant) (λ r s', is_ok r = false ∧ estate_spaces (ss_estate s') = estate_spaces (ss_estate s)) s) as H.
  { destruct H as [H1 H2]. destruct (assign CSensor now new_id space_id eui tenant s) as [[a|e] s']; [done|]. eauto. }
  apply wp_as_server_error; [done|]. cbv zeta. destruct (eui_format (str_upper eui)); cbn [negb]; [|by apply wp_raise].
  apply wp_bind, wp_sp_call; [done|].
  assert (∀ s1, estate_spaces (ss_estate s1) = estate_spaces (ss_estate s) →
    wp (put_device fault now CSensor (Some (str_upper eui)) space_id tenant)
       (λ r s', is_ok r = false ∧ estate_spaces (ss_estate s') = estate_spaces (ss_estate s)) s1) as Hput.
  { intros s1 Hs1. apply wp_bind, wp_may_fail; [done|]. intros _. unfold wp, update_space_where. rewrite Hs1.
    destruct (fetchrow _ _) as [y|]; [|done].
    set (y' := enforce_eui_uppercase _). set (rest := List.filter _ _).
    assert (is_Some (first_conflict y' rest)) as [n Hn].
    { apply (first_conflict_some _ _ x).
      - apply filter_In_elem. split; [done|]. unfold is_space. by destruct (String.eqb_spec (sp_id x) space_id).
      - unfold space_conflict. cbn. rewrite Hs. cbn. rewrite str_upper_idemp, String.eqb_refl. eauto. }
    unfold space_violation. rewrite Hn. destruct (negb _); [done|]. by destruct (negb _). }
  apply wp_bind. destruct (exists_in CSensor _ _); [apply wp_ret; by apply Hput|].
  apply wp_may_fail; [done|]. intros _. unfold wp. unfold insert_bare. destruct (exists_in _ _ _); [by apply Hput|].
  destruct (bare_sensor _ _ _); [|done]. by apply Hput.
Qed.

(** An assigned sensor can stay visible to everybody.  Assignment does not touch the
    status of the device, so a sensor that was discovered as an orphan and then assigned
    to a space of one tenant is still listed to every other tenant as an orphan. *)
Theorem assigned_orphan_still_listed now new_id space_id eui tenant s sp s' v other q cs l :
  assign CSensor now new_id space_id eui tenant s = (Ok sp, s') →
  v ∈ devices CSensor (es_db (ss_estate s)) → de_deveui v = str_upper eui → de_status v = "orphan" → de_enabled v = true →
  lq_device_type q = None → lq_status q = None → lq_enabled q = None → lq_include_orphans q = true →
  list_devices (λ _, None) other q (es_db (ss_estate s')) cs = Ok l →
  sp_tenant_id sp = Some (tc_tenant_id tenant) ∧ ∃ e, e ∈ l ∧ en_deveui e = str_upper eui.
Proof.
  intros E Hv Hdev Hst Hen Ht Hs He Ho Hl.
  assert (wp (assign CSensor now new_id space_id eui tenant) (λ r s', ∀ sp, r = Ok sp →
            devices CSensor (es_db (ss_estate s')) = devices CSensor (es_db (ss_estate s)) ∧
            sp_tenant_id sp = Some (tc_tenant_id tenant)) s) as H.
  { apply wp_as_server_error; [by intros|]. cbv zeta. destruct (eui_format (str_upper eui)); cbn [negb]; [|by apply wp_raise].
    apply wp_bind, wp_sp_call; [done|]. apply wp_bind.
    assert (exists_in CSensor (str_upper eui) (es_db (ss_estate s)) = true) as ->.
    { apply existsb_exists. exists v. split; [by apply list_elem_of_In|]. by apply String.eqb_eq. }
    apply wp_ret, wp_bind, wp_may_fail; [done|]. intros _. unfold wp, update_space_where.
    destruct (fetchrow _ _) as [y|] eqn:Hy; [|done]. destruct (space_violation _ _); [done|].
    intros sp0 [= <-]. split; [done|]. apply find_some in Hy as [_ [_ [Hy _]%andb_true_iff]%andb_true_iff].
    apply bool_decide_eq_true in Hy. exact Hy. }
  unfold wp in H. rewrite E in H. cbn [fst snd] in H. destruct (H _ eq_refl) as [Hdevs Hten]. split; [done|].
  apply list_devices_ok in Hl as [_ ->]. exists (device_entry CSensor cs v). split; [|done].
  apply elem_of_app. left. apply list_elem_of_fmap. exists v. split; [done|]. apply matching_spec. rewrite Hdevs.
  split; [done|]. rewrite Ht. unfold tenant_scope, filters. rewrite Hs, He, Ho. split.
  - destruct (is_platform_admin other); [done|]. constructor; [|done]. unfold is_orphan_device. by rewrite Hst.
  - cbn. destruct (lq_include_archived q); [done|]. by constructor.
Qed.
End Assignment.

(** ** Witnesses *)

Definition plain_repr (q : Q) : string := if Qle_bool 0 q then "0.5" else "-0.5".
Definition plain_jsonb (m : json_obj) : json := JText "{}".
Definition as_text_jsonb (m : json_obj) : result exn json_obj := Err (PyException "expected str, got dict").
Definition plain_sensor (i eui name : string) : result exn SensorDevice :=
  Ok (mkSensorDevice i eui "unknown" "dt" None "active" true 0 None 0 0).
Definition plain_display (i eui name : string) : result exn DisplayDevice :=
  Ok (mkDisplayDevice i eui "unknown" true [] 1 false None None "active" None 0 0).
Definition no_fault : SpaceCall → option exn := λ _, None.

Lemma plain_repr_wf q : wf_json (JFloat (plain_repr q)).
Proof. unfold plain_repr. by destruct (Qle_bool 0 q). Qed.

Definition bay_body (code : string) : SpaceCreate :=
  mkSpaceCreate (mkSpaceBase "Bay" code None None None None None) None None FREE "site1" None.
Definition demo_start : SpacesState := mkSpaces demo_estate (Some (mkCache ∅ 0 0)).
Definition created (code : string) (s : SpacesState) : SpacesState :=
  (create_space plain_repr plain_jsonb as_text_jsonb no_fault 1 code (bay_body code) (admin_of "t1") s).2.

Lemma created_writes code s :
  write_request plain_repr plain_jsonb as_text_jsonb plain_sensor plain_display no_fault (admin_of "t1") s (created code s).
Proof.
  apply (write_create _ _ _ _ _ _ _ _ _ 1 code (bay_body code)
          (create_space plain_repr plain_jsonb as_text_jsonb no_fault 1 code (bay_body code) (admin_of "t1") s).1).
  apply surjective_pairing.
Qed.

Lemma space_requests_isolated_witness : estate_ok (ss_estate (created "A1" demo_start)).
Proof.
  exact (proj1 (space_requests_isolated plain_repr plain_jsonb as_text_jsonb plain_sensor plain_display no_fault
    (admin_of "t1") demo_start (created "A1" demo_start) demo_estate_ok (created_writes "A1" demo_start))).
Defined.

Lemma estate_well_formed_witness : estate_ok (ss_estate (created "A2" (created "A1" demo_start))).
Proof.
  apply (estate_well_formed id plain_repr plain_jsonb as_text_jsonb plain_sensor plain_display id demo_start); [exact demo_estate_ok|].
  eapply rtc_l; [apply (step_write _ _ _ _ _ _ _ no_fault (admin_of "t1")), (created_writes "A1")|].
  apply rtc_once, (step_write _ _ _ _ _ _ _ no_fault (admin_of "t1")), created_writes.
Defined.

Definition no_filter : SpaceQuery := mkSpaceQuery None None None None None false.

Lemma listed_spaces_are_own_witness :
  ∃ j, (list_spaces id plain_repr plain_jsonb no_fault 5 no_filter (admin_of "t2") (created "A1" demo_start)).1 = Ok j ∧
  ∃ s1, j = list_answer plain_repr plain_jsonb (admin_of "t2") no_filter (ss_estate s1).
Proof.
  eexists. split; [reflexivity|].
  destruct (listed_spaces_are_own id plain_repr plain_jsonb as_text_jsonb plain_sensor plain_display id plain_repr_wf (λ _, I)
    no_fault 5 no_filter (admin_of "t2") demo_start (created "A1" demo_start)
    (list_answer plain_repr plain_jsonb (admin_of "t2") no_filter (ss_estate (created "A1" demo_start)))) as (s1 & _ & _ & H & _).
  - exact demo_estate_ok.
  - reflexivity.
  - apply rtc_once, (step_write _ _ _ _ _ _ _ no_fault (admin_of "t1")), created_writes.
  - discriminate.
  - intros x Hx. exact Hx.
  - reflexivity.
  - exists s1. exact H.
Defined.

Definition admin_dashed : TenantContext := mkTenantContext "t-1" "t" "t" (Some "u1") (Some ADMIN) None None "jwt".
Definition md5_stub (x : string) : string := "d41d8cd98f00b204e9800998ecf8427e".

Lemma listing_is_stale_witness :
  let s2 := (list_spaces md5_stub plain_repr plain_jsonb no_fault 0 no_filter admin_dashed demo_start).2 in
  let s3 := (delete_space no_fault 1 "x" admin_dashed s2).2 in
  (list_spaces md5_stub plain_repr plain_jsonb no_fault (30 * sec) no_filter admin_dashed s3).1 =
  Ok (list_answer plain_repr plain_jsonb admin_dashed no_filter demo_estate).
Proof.
  intros s2 s3.
  apply (listing_is_stale md5_stub plain_repr plain_jsonb as_text_jsonb plain_sensor plain_display no_fault plain_repr_wf
           (λ _, I) (λ _, eq_refl) 0 (30 * sec) no_filter admin_dashed demo_start _ s2 s3).
  - reflexivity.
  - reflexivity.
  - exists (mkCache ∅ 0 0). reflexivity.
  - exact demo_estate_ok.
  - reflexivity.
  - reflexivity.
  - apply rtc_once. exists admin_dashed. split; [right; left; reflexivity|].
    apply (write_delete _ _ _ _ _ _ _ _ _ 1 "x" (delete_space no_fault 1 "x" admin_dashed s2).1). apply surjective_pairing.
  - unfold sec. lia.
Defined.

Lemma stats_agree_with_listing_witness :
  (get_space_stats no_fault None (admin_of "t1") demo_start).1 = Ok no_stats ∧ assoc "total" no_stats = Some 0.
Proof.
  split; [reflexivity|].
  exact (proj1 (stats_agree_with_listing no_fault None (admin_of "t1") demo_start no_stats eq_refl eq_refl)).
Defined.

Lemma created_space_found_witness :
  ∃ s', create_space plain_repr plain_jsonb as_text_jsonb no_fault 1 "A1" (bay_body "A1") (admin_of "t1") demo_start =
        (Ok (JObj (space_fields plain_repr plain_jsonb (created_row 1 "A1" (bay_body "A1") (admin_of "t1")) [])), s') ∧
        estate_spaces (ss_estate s') = [created_row 1 "A1" (bay_body "A1") (admin_of "t1")].
Proof.
  destruct (created_space_found plain_repr plain_jsonb as_text_jsonb no_fault 1 "A1" (bay_body "A1") (admin_of "t1") demo_start)
    as (s' & H1 & H2 & _).
  - reflexivity.
  - exact demo_estate_ok.
  - exists (demo_site "site1" "t1"). repeat split. apply list_elem_of_here.
  - reflexivity.
  - reflexivity.
  - reflexivity.
  - reflexivity.
  - intros x Hx. inversion Hx.
  - exists s'. split; [exact H1|exact H2].
Defined.

Definition estate_with (l : list Space) (devs : list SensorDevice) : SpacesState :=
  mkSpaces (mkEstate (with_spaces (λ _, l) (with_sensor_devices (λ _, devs) empty_db)) [demo_site "site1" "t1"]) None.
Definition a_space (i : string) (eui : option string) (deleted : option Z) : Space :=
  mkSpace i i i None None None eui None FREE (Some "site1") (Some "t1") None None None 0 0 deleted.

Lemma deleted_space_keeps_sensor_witness :
  ∃ e, (assign_device plain_sensor plain_display no_fault CSensor 9 "n" "s2" "00000000000000aa" (admin_of "t1")
          (estate_with [a_space "s1" (Some "00000000000000AA") (Some 5); a_space "s2" None None] [])).1 = Err e.
Proof.
  destruct (deleted_space_keeps_sensor plain_sensor plain_display no_fault 9 "n" "s2" "00000000000000aa" (admin_of "t1")
    (estate_with [a_space "s1" (Some "00000000000000AA") (Some 5); a_space "s2" None None] [])
    (a_space "s1" (Some "00000000000000AA") (Some 5))) as (e & H & _).
  - apply list_elem_of_here.
  - reflexivity.
  - discriminate.
  - exists e. exact H.
Defined.

Definition orphan_bay : SpacesState :=
  estate_with [a_space "s1" None None] [demo_sensor "00000000000000AA" "tabs" "orphan" 1].
Definition orphan_assigned : result exn Space * SpacesState :=
  assign_device plain_sensor plain_display no_fault CSensor 9 "n" "s1" "00000000000000AA" (admin_of "t1") orphan_bay.
Definition assigned_bay : Space := set_device 9 CSensor (Some "00000000000000AA") (a_space "s1" None None).

Lemma assigned_orphan_still_listed_witness :
  orphan_assigned.1 = Ok assigned_bay ∧
  ∀ l, list_devices (λ _, None) (viewer_of "t2") list_all (es_db (ss_estate orphan_assigned.2)) no_devices = Ok l →
       ∃ e, e ∈ l ∧ en_deveui e = "00000000000000AA".
Proof.
  split; [reflexivity|]. intros l Hl.
  refine (proj2 (assigned_orphan_still_listed plain_sensor plain_display no_fault 9 "n" "s1" "00000000000000AA" (admin_of "t1")
    orphan_bay assigned_bay orphan_assigned.2 (of_sensor (demo_sensor "00000000000000AA" "tabs" "orphan" 1)) (viewer_of "t2")
    list_all no_devices l _ _ _ _ _ _ _ _ _ Hl)); try reflexivity. apply list_elem_of_here.
Defined.
