(* ===== verification/Tenants.v ===== *)
(** * Tenants: registration, the profile, limits and the tenant itself

    Models the endpoints of src/src/api_tenants.py that RefreshTokens.v (login, refresh),
    Auth.v (API keys), WebhookValidation.v and OrphanDevices.v do not: [register],
    [get_current_user_profile], [get_current_user_limits], [get_current_tenant_info],
    [update_current_tenant] and [list_tenant_users], on the accounts of Auth.v together
    with the sites and spaces of Estate.v.  A call to the database can raise ([fault]); a
    transaction is rolled back when something in it raises.  bcrypt, and how the driver
    encodes and decodes JSONB, are parameters. *)

From S2P Require Import Prelude PyUtils Json Models Database Auth RefreshTokens DeviceHandlers Devices Estate Sites Spaces.

Open Scope Z_scope.

(** The accounts, and the sites, spaces and reservations *)
Record Platform := mkPlatform { pf_auth : AuthDb; pf_estate : Estate }.

Definition with_tenants (f : list TenantRow → list TenantRow) (d : AuthDb) : AuthDb :=
  mkAuthDb (api_keys d) (f (tenants d)) (users d) (user_memberships d) (refresh_tokens d) (token_seq d).
Definition with_memberships (f : list Membership → list Membership) (d : AuthDb) : AuthDb :=
  mkAuthDb (api_keys d) (tenants d) (users d) (f (user_memberships d)) (refresh_tokens d) (token_seq d).

(** ** Constraints: migration 002, and the index on lower(email) of migration 008 *)

Definition insert_user (u : UserRow) : stE AuthDb exn UserRow := λ d,
  if existsb (λ x, String.eqb (us_id x) (us_id u)) (users d) then (Err (unique_violation "users_pkey"), d)
  else if existsb (λ x, String.eqb (str_lower (us_email x)) (str_lower (us_email u))) (users d)
  then (Err (unique_violation "uq_users_email_ci"), d)
  else if negb (len_between 0 255 (us_email u) && len_between 0 255 (us_name u) && len_between 0 255 (us_password_hash u))
  then (Err too_long, d)
  else (Ok u, with_users (λ l, l ++ [u])%list d).

Definition insert_tenant (t : TenantRow) : stE AuthDb exn TenantRow := λ d,
  if existsb (λ x, String.eqb (tn_id x) (tn_id t)) (tenants d) then (Err (unique_violation "tenants_pkey"), d)
  else if existsb (λ x, String.eqb (tn_slug x) (tn_slug t)) (tenants d) then (Err (unique_violation "tenants_slug_key"), d)
  else if negb (re_slug (tn_slug t)) then (Err (check_violation "valid_slug"), d)
  else if negb (len_between 0 255 (tn_name t)) then (Err too_long, d)
  else (Ok t, with_tenants (λ l, l ++ [t])%list d).

Definition valid_roles : list string := ["owner"; "admin"; "operator"; "viewer"].

Definition same_pair (m x : Membership) : bool :=
  String.eqb (um_user_id m) (um_user_id x) && String.eqb (um_tenant_id m) (um_tenant_id x).

Definition insert_membership (m : Membership) : stE AuthDb exn Membership := λ d,
  if existsb (λ x, String.eqb (um_id x) (um_id m)) (user_memberships d) then (Err (unique_violation "user_memberships_pkey"), d)
  else if existsb (same_pair m) (user_memberships d) then (Err (unique_violation "unique_user_tenant"), d)
  else if negb (existsb (String.eqb (um_role m)) valid_roles) then (Err (check_violation "valid_role"), d)
  else if negb (existsb (λ u, String.eqb (us_id u) (um_user_id m)) (users d)) then (Err (fk_violation "fk_user"), d)
  else if negb (existsb (λ t, String.eqb (tn_id t) (um_tenant_id m)) (tenants d)) then (Err (fk_violation "fk_tenant"), d)
  else (Ok m, with_memberships (λ l, l ++ [m])%list d).

(** ** The models of the answers *)

Record User := mkUser {
  ur_id : string; ur_email : string; ur_name : string; ur_is_active : bool; ur_email_verified : bool;
  ur_created_at : Z; ur_updated_at : Z; ur_last_login_at : option Z;
}.

Definition invalid (e : string) : exn := PyException ("validation error: " +:+ e).

Definition checked {A} (r : result string A) : result exn A :=
  match r with Ok a => Ok a | Err e => Err (invalid e) end.

(** [User] over [dict(row)]; the row of an INSERT has no last login yet. *)
Definition user_model (u : UserRow) : result exn User :=
  checked (
    _ ← guard "email" (len_between 0 255 (us_email u));
    _ ← guard "name" (len_between 1 255 (us_name u));
    email ← validate_email (us_email u);
    mret (mkUser (us_id u) email (us_name u) (us_is_active u) (us_email_verified u) (us_created_at u) (us_updated_at u)
            (us_last_login_at u))).

Record Tenant := mkTenant {
  tm_id : string; tm_name : string; tm_slug : string; tm_metadata : option jobj; tm_settings : option jobj;
  tm_is_active : bool; tm_created_at : Z; tm_updated_at : Z;
}.

(** A [Dict[str, Any]] that may be None *)
Definition dict_or_none (field : string) (v : option json) : result string (option jobj) :=
  match v with None | Some JNull => Ok None | Some (JObj o) => Ok (Some o) | Some _ => Err field end.

Section Endpoints.
Context (decode_jsonb : json → json) (encode_jsonb : jobj → result exn json).

Definition tenant_model (t : TenantRow) : result exn Tenant :=
  checked (
    _ ← valid_tenant (tn_name t) (tn_slug t);
    metadata ← dict_or_none "metadata" (decode_jsonb <$> tn_metadata t);
    settings ← dict_or_none "settings" (decode_jsonb <$> tn_settings t);
    is_active ← match tn_active t with Some b => Ok b | None => Err "is_active" end;
    mret (mkTenant (tn_id t) (tn_name t) (tn_slug t) metadata settings is_active (tn_created_at t) (tn_updated_at t))).

Inductive PfCall :=
| TEmail | TSlug | TAcquire | TUser | TTenant | TSite | TMembership | TCommit
| TProfile | TTenants | TSettings | TSpaces | TSensors | TDisplays | TReservations | TSites | TUsers | TUpdate.

Context (fault : PfCall → option exn).

Definition pf_call {A} (c : PfCall) (f : Platform → A) : stE Platform exn A := may_fail (fault c) (λ p, (Ok (f p), p)).

(** A statement on the accounts, and one on the sites *)
Definition pf_auth_run {A} (c : PfCall) (m : stE AuthDb exn A) : stE Platform exn A :=
  may_fail (fault c) (λ p, let '(r, d) := m (pf_auth p) in (r, mkPlatform d (pf_estate p))).
Definition pf_estate_run {A} (c : PfCall) (m : stE Estate exn A) : stE Platform exn A :=
  may_fail (fault c) (λ p, let '(r, es) := m (pf_estate p) in (r, mkPlatform (pf_auth p) es)).

(** [async with conn.transaction()] *)
Definition transaction {S A} (c : stE S exn A) : stE S exn A := λ s,
  match c s with (Ok a, s') => (Ok a, s') | (Err e, _) => (Err e, s) end.

(** ** Registration *)

Record RegistrationRequest := mkRegistration {
  rg_email : string; rg_name : string; rg_password : string; rg_user_metadata : option jobj;
  rg_tenant_name : string; rg_slug : string; rg_tenant_metadata : option jobj; rg_settings : option jobj;
}.

(** The validators of the request: the email is put in lower case. *)
Definition validate_registration (r : RegistrationRequest) : result string RegistrationRequest :=
  email ← valid_user (rg_email r) (rg_name r) (rg_password r);
  _ ← valid_tenant (rg_tenant_name r) (rg_slug r);
  mret (mkRegistration email (rg_name r) (rg_password r) (rg_user_metadata r) (rg_tenant_name r) (rg_slug r)
          (rg_tenant_metadata r) (rg_settings r)).

(** What gen_random_uuid and bcrypt.gensalt give a registration *)
Record Fresh := mkFresh { fr_user : string; fr_tenant : string; fr_site : string; fr_membership : string; fr_salt : string }.

Definition new_user (now : Z) (f : Fresh) (hash : string) (r : RegistrationRequest) : UserRow :=
  mkUserRow (fr_user f) (str_lower (rg_email r)) (rg_name r) hash (dumped (rg_user_metadata r)) true false now now None.

Definition new_tenant (now : Z) (f : Fresh) (r : RegistrationRequest) : TenantRow :=
  mkTenantRow (fr_tenant f) (rg_tenant_name r) (str_lower (rg_slug r)) (dumped (rg_tenant_metadata r))
    (dumped (rg_settings r)) (Some true) now now.

Definition main_site (now : Z) (f : Fresh) (r : RegistrationRequest) : Site :=
  mkSite (fr_site f) (fr_tenant f) (rg_tenant_name r +:+ " - Main Site") "UTC" (Some (JObj [])) (Some (JObj [])) true now now.

Definition owner_membership (now : Z) (f : Fresh) : Membership :=
  mkMembership (fr_membership f) (fr_user f) (fr_tenant f) (role_value OWNER) true now.

Context (hashpw : string → string → result exn string).

Definition hash_password (salt password : string) : result exn string := hashpw password salt.

(** The transaction *)
Definition create_account (now : Z) (f : Fresh) (r : RegistrationRequest) : stE Platform exn User :=
  hash ← lift (hash_password (fr_salt f) (rg_password r));
  user_row ← pf_auth_run TUser (insert_user (new_user now f hash r));
  tenant_row ← pf_auth_run TTenant (insert_tenant (new_tenant now f r));
  _ ← pf_estate_run TSite (insert_site (main_site now f r));
  _ ← pf_auth_run TMembership (insert_membership (owner_membership now f));
  user ← lift (user_model user_row);
  _ ← pf_call TCommit (λ _, tt);
  mret user.

Definition register (now : Z) (f : Fresh) (r : RegistrationRequest) : stE Platform exn User :=
  or_500 "Registration failed" (
    existing ← pf_call TEmail (λ p, existsb (λ u, String.eqb (us_email u) (str_lower (rg_email r))) (users (pf_auth p)));
    if existing : bool then raise (HTTPException 400 "Email already registered")
    else
      existing_tenant ← pf_call TSlug (λ p, existsb (λ t, String.eqb (tn_slug t) (str_lower (rg_slug r))) (tenants (pf_auth p)));
      if existing_tenant : bool then raise (HTTPException 400 "Tenant slug already taken")
      else
        _ ← pf_call TAcquire (λ _, tt);
        transaction (create_account now f r)).

(** ** The profile *)

Record UserProfile := mkProfile { up_user : User; up_current_tenant : TenantInfo; up_all_tenants : list TenantInfo }.

(** The last entry of the loop that is the current tenant, or what the context says *)
Definition current_tenant_info (tenant : TenantContext) (all_tenants : list TenantInfo) : TenantInfo :=
  fold_left (λ cur t, if String.eqb (ti_id t) (tc_tenant_id tenant) then t else cur) all_tenants
    (mkTenantInfo (tc_tenant_id tenant) (tc_tenant_name tenant) (tc_tenant_slug tenant)
       (match tc_user_role tenant with Some r => role_value r | None => "viewer" end)).

Definition is_user (user_id : option string) (u : UserRow) : bool := bool_decide (user_id = Some (us_id u)).

Definition get_current_user_profile (tenant : TenantContext) : stE Platform exn UserProfile :=
  or_500 "Failed to fetch user profile" (
    user_row ← pf_call TProfile (λ p, fetchrow (is_user (tc_user_id tenant)) (users (pf_auth p)));
    match user_row with
    | None => raise (HTTPException 404 "User not found")
    | Some row =>
        rows ← pf_call TTenants (λ p, tenant_rows (or_else (tc_user_id tenant) "") (pf_auth p));
        user ← lift (user_model row);
        mret (mkProfile user (current_tenant_info tenant rows) rows)
    end).

(** ** Limits *)

(** [settings], a JSON text unless the driver decodes: [json.loads] of a text *)
Definition settings_value (j : json) : result exn json :=
  match j with
  | JText s => match loads s with Some v => Ok v | None => Err (PyException "JSONDecodeError") end
  | _ => Ok j
  end.

(** [if key in settings: ... settings[key]] *)
Definition setting (key : string) (settings : json) : result exn (option json) :=
  match settings with
  | JObj o => Ok (assoc key o)
  | JArr l =>
      if existsb (λ x, match x with JText s => String.eqb s key | _ => false end) l
      then Err (PyException "list indices must be integers or slices, not str") else Ok None
  | JText s =>
      if str_contains key s then Err (PyException "string indices must be integers, not 'str'") else Ok None
  | _ => Err (PyException "argument is not iterable")
  end.

(** An element of a sequence given to [dict.update]: a pair.  A key that is no string
    makes the answer invalid. *)
Definition update_pair (x : json) : result exn (string * json) :=
  match x with
  | JArr [JText k; v] => Ok (k, v)
  | JText (String a (String b EmptyString)) => Ok (String a "", JText (String b ""))
  | JObj [(k, _); (k', _)] => Ok (k, JText k')
  | _ => Err (PyException "dictionary update sequence element has length other than 2, or is no pair")
  end.

(** [d.update(v)] *)
Fixpoint update_pairs (d : jobj) (l : list json) : result exn jobj :=
  match l with
  | [] => Ok d
  | x :: l => kv ← update_pair x; update_pairs (obj_set kv.1 kv.2 d) l
  end.

Definition dict_update (d : jobj) (v : json) : result exn jobj :=
  match v with
  | JObj o => Ok (fold_left (λ d kv, obj_set kv.1 kv.2 d) o d)
  | JArr l => update_pairs d l
  | JText EmptyString => Ok d
  | JText _ => Err (PyException "dictionary update sequence element #0 has length 1; 2 is required")
  | _ => Err (PyException "object is not iterable")
  end.

Definition default_rate_limits : jobj :=
  [("requests_per_minute", JInt 100); ("reservations_per_minute", JInt 10); ("webhook_requests_per_minute", JInt 1000)].
Definition default_quotas : jobj :=
  [("max_spaces", JInt 500); ("max_devices", JInt 1000); ("max_concurrent_reservations", JInt 100); ("max_sites", JInt 10)].

Definition override (key : string) (settings : json) (d : jobj) : result exn jobj :=
  v ← setting key settings;
  match v with Some v => dict_update d v | None => Ok d end.

(** The rate limits and quotas of a tenant with these settings *)
Definition limits_of (settings : option json) : result exn (jobj * jobj) :=
  match settings with
  | Some j =>
      if py_truthy j then
        v ← settings_value j;
        rate_limits ← override "rate_limits" v default_rate_limits;
        quotas ← override "quotas" v default_quotas;
        mret (rate_limits, quotas)
      else Ok (default_rate_limits, default_quotas)
  | None => Ok (default_rate_limits, default_quotas)
  end.

Definition space_of_tenant (tenant : TenantContext) (s : Space) : bool :=
  bool_decide (sp_tenant_id s = Some (tc_tenant_id tenant)) && live_space s.

(** COUNT(DISTINCT dev_eui) of a device table joined with the tenant's live spaces *)
Definition devices_in_spaces (eui_of : Space → option string) (euis : list string) (tenant : TenantContext) (d : Db) : Z :=
  Z.of_nat (length (remove_dups (List.filter
    (λ e, existsb (λ s, bool_decide (eui_of s = Some e) && space_of_tenant tenant s) (spaces d)) euis))).

Definition counts_as_active (now : Z) (tenant : TenantContext) (r : Reservation) : bool :=
  String.eqb (rv_tenant_id r) (tc_tenant_id tenant) && bool_decide (rv_status r = PENDING ∨ rv_status r = ACTIVE) &&
  (now <? rv_end_time r).

Record UserLimits := mkLimits { ul_rate_limits : jobj; ul_quotas : jobj; ul_usage : list (string * Z) }.

Definition get_current_user_limits (now : Z) (tenant : TenantContext) : stE Platform exn UserLimits :=
  or_500 "Failed to fetch user limits" (
    tenant_row ← pf_call TSettings (λ p, find_tenant (λ _, true) (tc_tenant_id tenant) (pf_auth p));
    limits ← lift (limits_of (t ← tenant_row; decode_jsonb <$> tn_settings t));
    spaces ← pf_call TSpaces (λ p, sql_count (space_of_tenant tenant) (estate_spaces (pf_estate p)));
    sensors ← pf_call TSensors (λ p, let d := es_db (pf_estate p) in
      devices_in_spaces sp_sensor_eui (map sd_dev_eui (sensor_devices d)) tenant d);
    displays ← pf_call TDisplays (λ p, let d := es_db (pf_estate p) in
      devices_in_spaces sp_display_eui (map dd_dev_eui (display_devices d)) tenant d);
    active ← pf_call TReservations (λ p, sql_count (counts_as_active now tenant) (reservations (es_db (pf_estate p))));
    sites ← pf_call TSites (λ p, sql_count (λ s, of_tenant tenant s && si_is_active s) (sites (pf_estate p)));
    mret (mkLimits limits.1 limits.2
      [("spaces", spaces); ("sensor_devices", sensors); ("display_devices", displays); ("total_devices", sensors + displays);
       ("active_reservations", active); ("sites", sites)])).

(** ** The tenant *)

Definition get_current_tenant_info (tenant : TenantContext) : stE Platform exn Tenant :=
  row ← pf_call TTenant (λ p, find_tenant (λ _, true) (tc_tenant_id tenant) (pf_auth p));
  match row with
  | None => raise (HTTPException 404 "Tenant not found")
  | Some row => lift (tenant_model row)
  end.

(** A field is absent, null or a value. *)
Record TenantUpdate := mkTenantUpdate {
  tu_name : option (option string); tu_metadata : option (option jobj); tu_settings : option (option jobj);
  tu_is_active : option (option bool);
}.

Definition validate_tenant_update (u : TenantUpdate) : result string TenantUpdate :=
  _ ← guard "name" (match tu_name u with Some (Some n) => len_between 1 255 n | _ => true end);
  mret u.

Definition no_tenant_fields (u : TenantUpdate) : bool :=
  match tu_name u, tu_metadata u, tu_settings u, tu_is_active u with None, None, None, None => true | _, _, _, _ => false end.

(** The value of a JSONB parameter: absent, null or what the driver makes of a dict *)
Definition jsonb_param (o : option (option jobj)) : result exn (option (option json)) :=
  match o with
  | None => Ok None
  | Some None => Ok (Some None)
  | Some (Some v) => j ← encode_jsonb v; mret (Some (Some j))
  end.

(** The assignments of the UPDATE; the trigger of migration 002 sets [updated_at]. *)
Definition set_tenant (now : Z) (u : TenantUpdate) (metadata settings : option (option json)) (t : TenantRow) : TenantRow :=
  mkTenantRow (tn_id t) (match tu_name u with Some (Some n) => n | _ => tn_name t end) (tn_slug t)
    (or_else metadata (tn_metadata t)) (or_else settings (tn_settings t)) (or_else (tu_is_active u) (tn_active t))
    (tn_created_at t) now.

Definition update_tenant_where (id : string) (null_name : bool) (f : TenantRow → TenantRow)
    : stE AuthDb exn (option TenantRow) := λ d,
  match fetchrow (λ t, String.eqb (tn_id t) id) (tenants d) with
  | None => (Ok None, d)
  | Some t =>
      if null_name then (Err (not_null_violation "name"), d)
      else (Ok (Some (f t)), with_tenants (sql_update (λ t, String.eqb (tn_id t) id) f) d)
  end.

(** The body, for a context that [require_owner] let through *)
Definition update_current_tenant (now : Z) (u : TenantUpdate) (tenant : TenantContext) : stE Platform exn Tenant :=
  if no_tenant_fields u then raise (HTTPException 400 "No fields to update")
  else
    metadata ← lift (jsonb_param (tu_metadata u));
    settings ← lift (jsonb_param (tu_settings u));
    row ← pf_auth_run TUpdate (update_tenant_where (tc_tenant_id tenant) (bool_decide (tu_name u = Some None))
            (set_tenant now u metadata settings));
    match row with
    | None => raise (PyException "'NoneType' object is not iterable")
    | Some row => lift (tenant_model row)
    end.

(** ** The users of the tenant *)

Record UserMembership := mkUserMembership {
  me_id : string; me_user_id : string; me_tenant_id : string; me_role : UserRole; me_is_active : bool; me_created_at : Z;
}.

Record UserWithMemberships := mkUserWith { uw_user : User; uw_memberships : list UserMembership }.

Definition by_email (a b : UserRow * Membership) : Prop := string_leb (us_email a.1) (us_email b.1).
#[local] Instance by_email_dec : RelDecision by_email := fun a b => string_leb_dec (us_email a.1) (us_email b.1).

(** [users INNER JOIN user_memberships], ORDER BY u.email *)
Definition member_rows (tenant : TenantContext) (d : AuthDb) : list (UserRow * Membership) :=
  merge_sort by_email
    (List.filter (λ r, String.eqb (us_id r.1) (um_user_id r.2) && String.eqb (um_tenant_id r.2) (tc_tenant_id tenant))
       (list_prod (users d) (user_memberships d))).

Definition membership_model (tenant : TenantContext) (r : UserRow * Membership) : result exn UserMembership :=
  role ← role_of (um_role r.2);
  mret (mkUserMembership (um_id r.2) (us_id r.1) (tc_tenant_id tenant) role (um_is_active r.2) (um_created_at r.2)).

(** [users_dict[user_id]], made when it is missing, gets one more membership. *)
Fixpoint add_member (user_id : string) (user : result exn User) (membership : result exn UserMembership)
    (users_dict : list (string * UserWithMemberships)) : result exn (list (string * UserWithMemberships)) :=
  match users_dict with
  | [] => u ← user; m ← membership; mret [(user_id, mkUserWith u [m])]
  | (k, w) :: rest =>
      if String.eqb k user_id
      then m ← membership; mret ((k, mkUserWith (uw_user w) (uw_memberships w ++ [m])) :: rest)
      else rest ← add_member user_id user membership rest; mret ((k, w) :: rest)
  end.

Fixpoint group_members (tenant : TenantContext) (rows : list (UserRow * Membership))
    (users_dict : list (string * UserWithMemberships)) : result exn (list (string * UserWithMemberships)) :=
  match rows with
  | [] => Ok users_dict
  | r :: rows =>
      users_dict ← add_member (us_id r.1) (user_model r.1) (membership_model tenant r) users_dict;
      group_members tenant rows users_dict
  end.

Definition list_tenant_users (tenant : TenantContext) : stE Platform exn (list UserWithMemberships) :=
  rows ← pf_call TUsers (λ p, member_rows tenant (pf_auth p));
  users_dict ← lift (group_members tenant rows []);
  mret users_dict.*2.
End Endpoints.

(** ** Consistent accounts *)

Definition user_conflict (a b : UserRow) : bool :=
  String.eqb (us_id a) (us_id b) || String.eqb (str_lower (us_email a)) (str_lower (us_email b)).
Definition tenant_conflict (a b : TenantRow) : bool :=
  String.eqb (tn_id a) (tn_id b) || String.eqb (tn_slug a) (tn_slug b).
Definition member_conflict (a b : Membership) : bool := String.eqb (um_id a) (um_id b) || same_pair a b.

(** Ids, emails and slugs are unique, a membership links a user and a tenant that exist,
    every tenant but the one migration 002 seeds has an owner, and every site a tenant. *)
Record platform_ok (p : Platform) : Prop := {
  po_users : apart user_conflict (users (pf_auth p));
  po_tenants : apart tenant_conflict (tenants (pf_auth p));
  po_members : apart member_conflict (user_memberships (pf_auth p));
  po_links : ∀ m, m ∈ user_memberships (pf_auth p) →
    um_user_id m ∈ map us_id (users (pf_auth p)) ∧ um_tenant_id m ∈ map tn_id (tenants (pf_auth p));
  po_owner : ∀ t, t ∈ map tn_id (tenants (pf_auth p)) → t ≠ DEFAULT_TENANT →
    ∃ m, m ∈ user_memberships (pf_auth p) ∧ um_tenant_id m = t ∧ um_role m = role_value OWNER;
  po_sites : ∀ s, s ∈ sites (pf_estate p) → si_tenant_id s ∈ map tn_id (tenants (pf_auth p));
  po_estate : estate_ok (pf_estate p);
}.

Lemma insert_user_spec u d r d' :
  insert_user u d = (r, d') →
  match r with
  | Ok u' => u' = u ∧ d' = with_users (λ l, l ++ [u])%list d ∧ ∀ x, x ∈ users d → user_conflict u x = false
  | Err _ => d' = d
  end.
Proof.
  unfold insert_user. destruct (existsb _ (users d)) eqn:H1; [by intros [= <- <-]|].
  destruct (existsb _ (users d)) eqn:H2 in |- *; [by intros [= <- <-]|]. destruct (negb _); intros [= <- <-]; [done|].
  split_and!; [done..|]. intros x Hx. unfold user_conflict. rewrite String.eqb_sym, (proj1 (existsb_false _ _) H1 x Hx).
  rewrite String.eqb_sym. exact (proj1 (existsb_false _ _) H2 x Hx).
Qed.

Lemma insert_tenant_spec t d r d' :
  insert_tenant t d = (r, d') →
  match r with
  | Ok t' => t' = t ∧ d' = with_tenants (λ l, l ++ [t])%list d ∧ ∀ x, x ∈ tenants d → tenant_conflict t x = false
  | Err _ => d' = d
  end.
Proof.
  unfold insert_tenant. destruct (existsb _ (tenants d)) eqn:H1; [by intros [= <- <-]|].
  destruct (existsb _ (tenants d)) eqn:H2 in |- *; [by intros [= <- <-]|]. destruct (negb _); [by intros [= <- <-]|].
  destruct (negb _); intros [= <- <-]; [done|].
  split_and!; [done..|]. intros x Hx. unfold tenant_conflict. rewrite String.eqb_sym, (proj1 (existsb_false _ _) H1 x Hx).
  rewrite String.eqb_sym. exact (proj1 (existsb_false _ _) H2 x Hx).
Qed.

Lemma insert_membership_spec m d r d' :
  insert_membership m d = (r, d') →
  match r with
  | Ok m' => m' = m ∧ d' = with_memberships (λ l, l ++ [m])%list d ∧
      (∀ x, x ∈ user_memberships d → member_conflict m x = false) ∧
      um_user_id m ∈ map us_id (users d) ∧ um_tenant_id m ∈ map tn_id (tenants d)
  | Err _ => d' = d
  end.
Proof.
  unfold insert_membership. destruct (existsb _ (user_memberships d)) eqn:H1; [by intros [= <- <-]|].
  destruct (existsb (same_pair m) _) eqn:H2; [by intros [= <- <-]|]. destruct (negb _); [by intros [= <- <-]|].
  destruct (existsb _ (users d)) eqn:Hu; [|by intros [= <- <-]]. destruct (existsb _ (tenants d)) eqn:Ht; intros [= <- <-]; [|done].
  split_and!; [done..| | |].
  - intros x Hx. unfold member_conflict. rewrite String.eqb_sym, (proj1 (existsb_false _ _) H1 x Hx). exact (proj1 (existsb_false _ _) H2 x Hx).
  - apply existsb_exists in Hu as (x & Hx & <-%String.eqb_eq). apply list_elem_of_In. by apply in_map.
  - apply existsb_exists in Ht as (x & Hx & <-%String.eqb_eq). apply list_elem_of_In. by apply in_map.
Qed.

Lemma insert_site_spec s es r es' :
  insert_site s es = (r, es') →
  match r with Ok s' => s' = s ∧ es' = with_sites (λ l, l ++ [s])%list es | Err _ => es' = es end.
Proof.
  unfold insert_site. destruct (existsb _ _); [by intros [= <- <-]|]. destruct (existsb _ _); [by intros [= <- <-]|].
  destruct (negb _); by intros [= <- <-].
Qed.

(** ** Registration *)

Section Registration.
Context (fault : PfCall → option exn) (hashpw : string → string → result exn string).

Lemma wp_pf_call {A} c (f : Platform → A) (Q : result exn A → Platform → Prop) p :
  (∀ e, Q (Err e) p) → Q (Ok (f p)) p → wp (pf_call fault c f) Q p.
Proof. intros He Hok. apply wp_may_fail; auto. Qed.

Lemma wp_auth_run {A} c (m : stE AuthDb exn A) (Q : result exn A → Platform → Prop) p :
  (∀ e, Q (Err e) p) → (∀ r d, m (pf_auth p) = (r, d) → Q r (mkPlatform d (pf_estate p))) → wp (pf_auth_run fault c m) Q p.
Proof.
  intros He Hm. apply wp_may_fail; [auto|]. intros _. unfold wp. destruct (m (pf_auth p)) as [r d] eqn:E. cbn. by apply Hm.
Qed.

Lemma wp_estate_run {A} c (m : stE Estate exn A) (Q : result exn A → Platform → Prop) p :
  (∀ e, Q (Err e) p) → (∀ r es, m (pf_estate p) = (r, es) → Q r (mkPlatform (pf_auth p) es)) → wp (pf_estate_run fault c m) Q p.
Proof.
  intros He Hm. apply wp_may_fail; [auto|]. intros _. unfold wp. destruct (m (pf_estate p)) as [r es] eqn:E. cbn. by apply Hm.
Qed.

Lemma wp_transaction {S A} (c : stE S exn A) (Q : result exn A → S → Prop) s :
  wp c (λ r s', match r with Ok a => Q (Ok a) s' | Err e => Q (Err e) s end) s → wp (transaction c) Q s.
Proof. unfold wp, transaction. by destruct (c s) as [[a|e] s']. Qed.

Lemma wp_or_500 {S A} detail (c : stE S exn A) (Q : result exn A → S → Prop) s :
  wp c (λ r s', match r with
                | Ok a => Q (Ok a) s'
                | Err (HTTPException n m) => Q (Err (HTTPException n m)) s'
                | Err _ => Q (Err (HTTPException 500 detail)) s'
                end) s → wp (or_500 detail c) Q s.
Proof. intros H. apply wp_try. eapply wp_mono; [exact H|]. by intros [a|[]] s' ?. Qed.

(** What a registration adds *)
Definition registered (now : Z) (f : Fresh) (r : RegistrationRequest) (hash : string) (p : Platform) : Platform :=
  mkPlatform
    (with_memberships (λ l, l ++ [owner_membership now f])%list
      (with_tenants (λ l, l ++ [new_tenant now f r])%list
        (with_users (λ l, l ++ [new_user now f hash r])%list (pf_auth p))))
    (with_sites (λ l, l ++ [main_site now f r])%list (pf_estate p)).

(** The rows fit the tables *)
Record fits (now : Z) (f : Fresh) (r : RegistrationRequest) (hash : string) (p : Platform) : Prop := {
  ft_user : ∀ x, x ∈ users (pf_auth p) → user_conflict (new_user now f hash r) x = false;
  ft_tenant : ∀ x, x ∈ tenants (pf_auth p) → tenant_conflict (new_tenant now f r) x = false;
  ft_member : ∀ x, x ∈ user_memberships (pf_auth p) → member_conflict (owner_membership now f) x = false;
  ft_site : insert_site (main_site now f r) (pf_estate p) =
              (Ok (main_site now f r), with_sites (λ l, l ++ [main_site now f r])%list (pf_estate p));
}.

Definition registration_outcome (now : Z) (f : Fresh) (r : RegistrationRequest) (p : Platform)
    (res : result exn User) (p' : Platform) : Prop :=
  match res with
  | Err e => p' = p ∧ ∃ code detail, e = HTTPException code detail
  | Ok u => ∃ hash, hashpw (rg_password r) (fr_salt f) = Ok hash ∧ user_model (new_user now f hash r) = Ok u ∧
                    fits now f r hash p ∧ p' = registered now f r hash p
  end.

Lemma create_account_spec now f r p :
  wp (create_account fault hashpw now f r)
     (λ res p', match res with Ok u => registration_outcome now f r p (Ok u) p' | Err _ => True end) p.
Proof.
  apply wp_bind, wp_lift. unfold hash_password. destruct (hashpw _ _) as [hash|] eqn:Hh; [|done].
  apply wp_bind, wp_auth_run; [done|]. intros [u|] d Hu; [|done]. apply insert_user_spec in Hu as (-> & -> & Hu).
  apply wp_bind, wp_auth_run; [done|]. intros [t|] d Ht; [|done]. apply insert_tenant_spec in Ht as (-> & -> & Ht).
  apply wp_bind, wp_estate_run; [done|]. intros [s|] es Hs; [|done]. pose proof (insert_site_spec _ _ _ _ Hs) as [-> ->].
  apply wp_bind, wp_auth_run; [done|]. intros [m|] d Hm; [|done].
  apply insert_membership_spec in Hm as (-> & -> & Hm & _).
  apply wp_bind, wp_lift. destruct (user_model _) as [u|] eqn:Hmod; [|done].
  apply wp_bind, wp_pf_call; [done|]. apply wp_ret. exists hash. by split_and!.
Qed.

Lemma register_cases now f r p :
  let '(res, p') := register fault hashpw now f r p in registration_outcome now f r p res p'.
Proof.
  enough (wp (register fault hashpw now f r) (registration_outcome now f r p) p) as H.
  { unfold wp in H. by destruct (register _ _ _ _ _ _). }
  assert (∀ e, registration_outcome now f r p (match e with HTTPException n m => Err (HTTPException n m)
                                              | _ => Err (HTTPException 500 "Registration failed") end) p) as Herr.
  { intros []; cbn; eauto. }
  apply wp_or_500. apply wp_bind, wp_pf_call; [intros e; specialize (Herr e); by destruct e|]. destruct (existsb _ _).
  { apply wp_raise. cbn. eauto. }
  apply wp_bind, wp_pf_call; [intros e; specialize (Herr e); by destruct e|]. destruct (existsb _ _).
  { apply wp_raise. cbn. eauto. }
  apply wp_bind, wp_pf_call; [intros e; specialize (Herr e); by destruct e|].
  apply wp_transaction. eapply wp_mono; [apply create_account_spec|].
  intros [u|e] p'; [done|]. intros _. specialize (Herr e). by destruct e.
Qed.

(** C31. Registration is all or nothing.  Whatever the input, whichever call fails and at
    whatever point: either it answers the user, and exactly one user, one tenant, one site
    and one membership as owner have been added, or it answers an HTTP error and nothing
    has changed. *)
Theorem registration_atomic now f r p :
  let '(res, p') := register fault hashpw now f r p in registration_outcome now f r p res p'.
Proof. apply register_cases. Qed.

(** A registration keeps the accounts consistent. *)
Lemma registered_ok now f r hash p :
  platform_ok p → fits now f r hash p → platform_ok (registered now f r hash p).
Proof.
  intros [] []. constructor; cbn.
  - apply apart_app; [|done..]. intros a b. unfold user_conflict. by rewrite String.eqb_sym, (String.eqb_sym (str_lower _)).
  - apply apart_app; [|done..]. intros a b. unfold tenant_conflict. by rewrite String.eqb_sym, (String.eqb_sym (tn_slug _)).
  - apply apart_app; [|done..]. intros a b. unfold member_conflict, same_pair.
    by rewrite String.eqb_sym, (String.eqb_sym (um_user_id _)), (String.eqb_sym (um_tenant_id _)).
  - intros m [Hm| ->%list_elem_of_singleton]%elem_of_app; rewrite !map_app, !elem_of_app; cbn.
    + destruct (po_links0 m Hm). auto.
    + split; right; by apply list_elem_of_singleton.
  - intros t. rewrite map_app, elem_of_app. intros [Ht| ->%list_elem_of_singleton] Hd.
    + destruct (po_owner0 t Ht Hd) as (m & ? & ?). exists m. rewrite elem_of_app. auto.
    + exists (owner_membership now f). rewrite elem_of_app, list_elem_of_singleton. auto.
  - intros s [Hs| ->%list_elem_of_singleton]%elem_of_app; rewrite map_app, elem_of_app; cbn; [auto|].
    right. by apply list_elem_of_singleton.
  - by apply (insert_site_ok _ _ _ _ po_estate0 ft_site0).
Qed.
End Registration.

(** ** Every operation keeps the accounts consistent *)

Definition user_key (u : UserRow) : string * string := (us_id u, us_email u).

(** The tables a login, a refresh or an API key leaves as they are, but for the last login *)
Definition accounts_kept (d d' : AuthDb) : Prop :=
  tenants d' = tenants d ∧ user_memberships d' = user_memberships d ∧ map user_key (users d') = map user_key (users d).

#[export] Instance accounts_kept_preorder : PreOrder accounts_kept.
Proof. split; [by intros d|]. intros a b c (H1 & H2 & H3) (H4 & H5 & H6). split_and!; congruence. Qed.

(** Conflicts are about the keys. *)
Lemma apart_keys l l' : map user_key l' = map user_key l → apart user_conflict l → apart user_conflict l'.
Proof.
  intros Hk Hl i j a b Hi Hj Hij.
  assert (∀ n x, l' !! n = Some x → ∃ y, l !! n = Some y ∧ user_key y = user_key x) as Hat.
  { intros n x Hx. assert ((user_key <$> l) !! n = Some (user_key x)) as H.
    { change (user_key <$> l) with (map user_key l). rewrite <- Hk. change (map user_key l') with (user_key <$> l').
      by rewrite list_lookup_fmap, Hx. }
    rewrite list_lookup_fmap in H. apply fmap_Some in H as (y & Hy & E). eauto. }
  destruct (Hat i a Hi) as (a0 & Ha0 & [= Ea Ea']), (Hat j b Hj) as (b0 & Hb0 & [= Eb Eb']).
  pose proof (Hl i j a0 b0 Ha0 Hb0 Hij) as H. unfold user_conflict in *. congruence.
Qed.

Lemma accounts_kept_ok d d' es : accounts_kept d d' → platform_ok (mkPlatform d es) → platform_ok (mkPlatform d' es).
Proof.
  intros (H1 & H2 & H3) []. cbn in *.
  assert (map us_id (users d') = map us_id (users d)) as Hid.
  { assert (∀ l, map us_id l = map fst (map user_key l)) as E by (intros l; rewrite map_map; by apply map_ext). by rewrite !E, H3. }
  constructor; cbn; rewrite ?H1, ?H2, ?Hid; try done. by apply (apart_keys (users d)).
Qed.

#[local] Ltac kept := intros ?; split_and!; done.

Lemma keeps_create_refresh {T : TokenTable} h now token user_id client : keeps accounts_kept (create_refresh_token h now token user_id client).
Proof.
  apply keeps_bind; [apply _|kept|]. intros id. apply keeps_bind; [apply _| |auto with keeps].
  apply keeps_bind; [apply _|auto with keeps|]. intros d. destruct T; cbn beta iota;
    repeat case_match; auto with keeps. apply keeps_modify. kept.
Qed.

Lemma keeps_login {T : TokenTable} h checkpw enc key now email password new_token client :
  keeps accounts_kept (login h checkpw enc key now email password new_token client).
Proof.
  apply keeps_try; [apply _| |intros []; auto with keeps].
  apply keeps_bind; [apply _|auto with keeps|]. intros d. repeat case_match; auto with keeps.
  apply keeps_bind; [apply _|auto with keeps|]. intros tok.
  apply keeps_bind; [apply _|apply keeps_create_refresh|]. intros rt.
  apply keeps_bind; [apply _| |auto with keeps]. apply keeps_modify. intros d0. split_and!; [done..|].
  cbn. unfold sql_update. rewrite map_map. apply map_ext. intros x. by destruct (String.eqb _ _).
Qed.

Lemma keeps_rotate {T : TokenTable} h dec now token new_token client :
  keeps accounts_kept (validate_and_rotate h dec now token new_token client).
Proof.
  apply keeps_bind; [apply _| |].
  - apply keeps_bind; [apply _|auto with keeps|]. intros d. case_match; [|auto with keeps].
    apply keeps_bind; [apply _|auto with keeps|]. intros []; [auto with keeps|]. case_match; [|auto with keeps].
    apply keeps_bind; [apply _|auto with keeps|]. intros t. case_match; [auto with keeps|].
    apply keeps_bind; [apply _| |auto with keeps]. apply keeps_bind; [apply _|auto with keeps|]. intros d1.
    apply keeps_bind; [apply _| |auto with keeps]. apply keeps_modify. kept.
  - intros [r|]; [|auto with keeps]. apply keeps_bind; [apply _| |auto with keeps].
    apply keeps_bind; [apply _| |].
    + apply keeps_modify. kept.
    + intros _. apply keeps_bind; [apply _|apply keeps_create_refresh|auto with keeps].
Qed.

Lemma keeps_refresh {T : TokenTable} h dec enc key now token new_token client :
  keeps accounts_kept (refresh_token h dec enc key now token new_token client).
Proof.
  apply keeps_try; [apply _| |intros []; auto with keeps].
  apply keeps_bind; [apply _|apply keeps_rotate|]. intros [[user_id t]|]; [|auto with keeps].
  case_match; [auto with keeps|]. apply keeps_bind; [apply _|auto with keeps|]. intros d.
  case_match; [auto with keeps|]. apply keeps_bind; [apply _|auto with keeps|auto with keeps].
Qed.

Lemma keeps_check_keys checkpw now key rows : keeps accounts_kept (check_keys checkpw now key rows).
Proof.
  induction rows as [|row rows IH]; cbn [check_keys]; [auto with keeps|]. repeat case_match; auto.
  apply keeps_bind; [apply _| |auto with keeps]. apply keeps_modify. kept.
Qed.

Lemma keeps_verify_key checkpw ready now api_key : keeps accounts_kept (verify_api_key checkpw ready now api_key).
Proof.
  unfold verify_api_key. case_match; [auto with keeps|].
  apply keeps_bind; [apply _|auto with keeps|]. intros d. apply keeps_check_keys.
Qed.

Lemma keeps_current_tenant checkpw dec ready key now api_key credentials :
  keeps accounts_kept (get_current_tenant checkpw dec ready key now api_key credentials).
Proof.
  apply keeps_bind; [apply _|auto with keeps|]. intros d. case_match; [auto with keeps|].
  apply keeps_bind; [apply _| |intros []; auto with keeps]. case_match; [|auto with keeps].
  apply keeps_bind; [apply _|apply keeps_verify_key|].
  - intros []; [|auto with keeps]. apply keeps_bind; [apply _|auto with keeps|auto with keeps].
Qed.

Lemma keeps_post_key checkpw hash dec ready key now new_id plain_key salt name tenant_id scopes api_key credentials :
  keeps accounts_kept (post_api_key checkpw hash dec ready key now new_id plain_key salt name tenant_id scopes api_key credentials).
Proof.
  apply keeps_bind; [apply _| |].
  - apply keeps_bind; [apply _|apply keeps_current_tenant|auto with keeps].
  - intros c. unfold create_api_key. case_match; [auto with keeps|]. apply keeps_bind; [apply _|auto with keeps|]. intros d.
    case_match; [auto with keeps|]. apply keeps_bind; [apply _| |auto with keeps]. apply keeps_modify. kept.
Qed.

Lemma keeps_revoke_key key_id tenant : keeps accounts_kept (revoke_api_key key_id tenant).
Proof.
  apply keeps_bind; [apply _|auto with keeps|]. intros d. case_match; [auto with keeps|]. apply keeps_modify. kept.
Qed.

(** *** The update of a tenant *)

Section Update.
Context (decode_jsonb : json → json) (encode_jsonb : jobj → result exn json) (fault : PfCall → option exn).

Definition own_row (tenant : TenantContext) (t : TenantRow) : bool := String.eqb (tn_id t) (tc_tenant_id tenant).

(** The update either fails and changes nothing, or assigns the given fields in the row of
    the own tenant; only then is the answer built, so that it can still fail. *)
Definition update_tenant_outcome (now : Z) (u : TenantUpdate) (tenant : TenantContext) (p : Platform)
    (r : result exn Tenant) (p' : Platform) : Prop :=
  p' = p ∧ is_ok r = false ∨
  ∃ row metadata settings,
    row ∈ tenants (pf_auth p) ∧ own_row tenant row = true ∧ tu_name u ≠ Some None ∧
    jsonb_param encode_jsonb (tu_metadata u) = Ok metadata ∧ jsonb_param encode_jsonb (tu_settings u) = Ok settings ∧
    p' = mkPlatform (with_tenants (sql_update (own_row tenant) (set_tenant now u metadata settings)) (pf_auth p)) (pf_estate p) ∧
    r = tenant_model decode_jsonb (set_tenant now u metadata settings row).

Lemma update_tenant_cases now u tenant p :
  let '(r, p') := update_current_tenant decode_jsonb encode_jsonb fault now u tenant p in
  update_tenant_outcome now u tenant p r p'.
Proof.
  enough (wp (update_current_tenant decode_jsonb encode_jsonb fault now u tenant) (update_tenant_outcome now u tenant p) p) as H.
  { unfold wp in H. by destruct (update_current_tenant _ _ _ _ _ _ _). }
  assert (∀ e, update_tenant_outcome now u tenant p (Err e) p) as Herr by (intros e; by left).
  unfold update_current_tenant. destruct (no_tenant_fields u); [apply wp_raise, Herr|].
  apply wp_bind, wp_lift. destruct (jsonb_param _ (tu_metadata u)) as [metadata|] eqn:Hm; [|apply Herr].
  apply wp_bind, wp_lift. destruct (jsonb_param _ (tu_settings u)) as [settings|] eqn:Hs; [|apply Herr].
  apply wp_bind, wp_auth_run; [done|]. intros r d. unfold update_tenant_where. fold (own_row tenant).
  destruct (fetchrow _ _) as [row|] eqn:Hrow.
  2: { intros [= <- <-]. apply wp_raise. destruct p. apply Herr. }
  destruct (bool_decide_reflect (tu_name u = Some None)); intros [= <- <-]; [destruct p; apply Herr|].
  apply fetchrow_elem in Hrow as [Hin Hown]. apply wp_lift. right. exists row, metadata, settings. by split_and!.
Qed.

(** PATCH /tenants/current changes the own tenant and nothing else.  Whatever fails, the
    other tenants, the users, memberships, sites and spaces are the same rows as before,
    and of the own tenant at most the name, metadata, settings and activity change.  The answer,
    when there is one, is the row as it now is. *)
Theorem tenant_update_frame now u tenant p :
  let '(r, p') := update_current_tenant decode_jsonb encode_jsonb fault now u tenant p in
  pf_estate p' = pf_estate p ∧ users (pf_auth p') = users (pf_auth p) ∧
  user_memberships (pf_auth p') = user_memberships (pf_auth p) ∧
  List.filter (λ t, negb (own_row tenant t)) (tenants (pf_auth p')) =
    List.filter (λ t, negb (own_row tenant t)) (tenants (pf_auth p)) ∧
  map (λ t, (tn_id t, tn_slug t, tn_created_at t)) (tenants (pf_auth p')) =
    map (λ t, (tn_id t, tn_slug t, tn_created_at t)) (tenants (pf_auth p)) ∧
  ∀ m, r = Ok m → ∃ row, row ∈ tenants (pf_auth p') ∧ own_row tenant row = true ∧ tenant_model decode_jsonb row = Ok m.
Proof.
  pose proof (update_tenant_cases now u tenant p) as H. destruct (update_current_tenant _ _ _ _ _ _ _) as [r p'].
  destruct H as [[-> Hr]|(row & m & s & Hin & Hown & _ & _ & _ & -> & ->)]; [by split_and!; [done..|intros m ->]|]. cbn.
  split_and!; try done.
  - apply filter_update_none. intros x _ Hx. unfold own_row in *. cbn. by rewrite Hx.
  - unfold sql_update. rewrite map_map. apply map_ext. intros x. by destruct (own_row tenant x).
  - intros tm E. exists (set_tenant now u m s row). split_and!; [|done|done].
    apply list_elem_of_fmap. exists row. by rewrite Hown.
Qed.

(** A consistent platform stays so under the update. *)
Lemma update_tenant_ok now u tenant p r p' :
  update_current_tenant decode_jsonb encode_jsonb fault now u tenant p = (r, p') → platform_ok p → platform_ok p'.
Proof.
  intros E. pose proof (update_tenant_cases now u tenant p) as H. rewrite E in H.
  destruct H as [[-> _]|(row & m & s & _ & _ & _ & _ & _ & -> & _)]; [done|]. intros [].
  set (f := set_tenant now u m s) in *. set (q := own_row tenant).
  assert (map tn_id (sql_update q f (tenants (pf_auth p))) = map tn_id (tenants (pf_auth p))) as Hid.
  { unfold sql_update. rewrite map_map. apply map_ext. intros x. by destruct (q x). }
  constructor; cbn; rewrite ?Hid; try done.
  intros i j a b. unfold sql_update. rewrite !list_lookup_fmap. intros Ha Hb Hij.
  apply fmap_Some in Ha as (a0 & Ha & ->), Hb as (b0 & Hb & ->).
  pose proof (po_tenants0 i j a0 b0 Ha Hb Hij) as H. unfold tenant_conflict in *. by destruct (q a0), (q b0).
Qed.

(** With a driver that returns JSONB as text, a tenant that has metadata or settings cannot
    be rendered: GET /tenants/current fails, and so does PATCH after its UPDATE. *)
Lemma tenant_not_rendered t :
  (∀ j, ∃ s, decode_jsonb j = JText s) → tn_metadata t ≠ None ∨ tn_settings t ≠ None →
  is_ok (tenant_model decode_jsonb t) = false.
Proof.
  intros Hd H. unfold tenant_model. destruct (valid_tenant _ _); [|done]. unfold mbind, result_bind.
  destruct (tn_metadata t) as [m|]; cbn; [by destruct (Hd m) as [? ->]|].
  destruct (tn_settings t) as [s|]; cbn; [by destruct (Hd s) as [? ->]|]. by destruct H.
Qed.
End Update.

(** ** Nobody gets into an inactive tenant *)

Lemma context_tenant_active checkpw dec ready key now api_key credentials d c d' :
  get_current_tenant checkpw dec ready key now api_key credentials d = (Ok c, d') →
  ∃ t, t ∈ tenants d ∧ tn_id t = tc_tenant_id c ∧ tn_is_active t = true.
Proof.
  unfold get_current_tenant, get_st, mbind, stE_bind.
  assert (∀ id t, find_tenant tn_is_active id d = Some t → t ∈ tenants d ∧ tn_id t = id ∧ tn_is_active t = true) as Hfind.
  { intros id t. apply find_tenant_spec. }
  destruct (jwt_context dec ready key now credentials d) as [c0|] eqn:Hj.
  - intros [= <- <-]. apply jwt_context_spec in Hj as (tok & td & u & m & t & role & _ & _ & _ & _ & _ & _ & _ & _ & _ & _ & Ht & _ & Ha & ->).
    exists t. by split_and!.
  - destruct (truthy api_key); [|done]. unfold verify_api_key. destruct (negb ready) eqn:Hr; [done|].
    unfold get_st, mbind, stE_bind.
    pose proof (keeps_check_keys checkpw now (or_else api_key "") (List.filter ak_is_active (api_keys d)) d) as (Ht & _ & _).
    destruct (check_keys _ _ _ _ d) as [[[info|]|e] d1]; [|done..]. cbn [snd] in Ht.
    unfold resolve_tenant_from_api_key. rewrite Hr. cbn [mret stE_ret].
    destruct (key_with_tenant _ d1) as [[k t]|] eqn:Hk; [|done]. intros [= <- _].
    unfold key_with_tenant in Hk. apply bind_Some in Hk as (k0 & _ & Hk). apply bind_Some in Hk as (i & _ & Hk).
    apply bind_Some in Hk as (t0 & Ht0 & [= <- <-]). apply find_tenant_spec in Ht0 as (? & ? & ?).
    exists t0. rewrite <- Ht. by split_and!.
Qed.

(** Deactivating the tenant locks everybody out.  After an owner has set [is_active] to
    false (or null), and the UPDATE took effect, no token and no API key is given a
    context of that tenant, in whatever way it authenticates: nobody can reactivate it
    through the API. *)
Theorem deactivated_tenant_locked_out decode_jsonb encode_jsonb fault now u tenant p r p' :
  update_current_tenant decode_jsonb encode_jsonb fault now u tenant p = (r, p') → p' ≠ p →
  tu_is_active u = Some (Some false) ∨ tu_is_active u = Some None →
  ∀ checkpw dec ready key now' api_key credentials c d,
    get_current_tenant checkpw dec ready key now' api_key credentials (pf_auth p') = (Ok c, d) →
    tc_tenant_id c ≠ tc_tenant_id tenant.
Proof.
  intros E Hp Hu checkpw dec ready key now' api_key credentials c d (t & Hin & Hid & Hact)%context_tenant_active Heq.
  pose proof (update_tenant_cases decode_jsonb encode_jsonb fault now u tenant p) as H. rewrite E in H.
  destruct H as [[-> _]|(row & m & s & _ & _ & _ & _ & _ & -> & _)]; [done|].
  cbn in Hin. apply list_elem_of_fmap in Hin as (t0 & -> & _). unfold own_row in *.
  destruct (String.eqb_spec (tn_id t0) (tc_tenant_id tenant)); [|congruence].
  unfold tn_is_active in Hact. cbn in Hact. destruct Hu as [Hu|Hu]; by rewrite Hu in Hact.
Qed.

(** ** The accounts over time *)

Section Tenancy.
Context {T : TokenTable} (decode_jsonb : json → json) (encode_jsonb : jobj → result exn json).
Context (hashpw : string → string → result exn string) (hash_token : string → string) (decode_timestamptz : Z → datetime).
Context (checkpw : string → string → result exn bool) (key_hash : string → string → string).
Context (jwt_encode : JwtPayload → string → string) (jwt_decode : Z → string → string → result exn JwtPayload).
Context (pool_ready : bool) (key : option string).

(** What the endpoints do to the accounts; requests on sites come from a tenant that
    exists, requests on spaces keep what [space_frame] of Spaces.v says. *)
Inductive tenancy_step (p : Platform) : Platform → Prop :=
| step_register fault now f r res p' : register fault hashpw now f r p = (res, p') → tenancy_step p p'
| step_tenant fault now u tenant res p' :
    update_current_tenant decode_jsonb encode_jsonb fault now u tenant p = (res, p') → tenancy_step p p'
| step_login now email password new_token client res d :
    login hash_token checkpw jwt_encode key now email password new_token client (pf_auth p) = (res, d) →
    tenancy_step p (mkPlatform d (pf_estate p))
| step_refresh now token new_token client res d :
    refresh_token hash_token decode_timestamptz jwt_encode key now token new_token client (pf_auth p) = (res, d) →
    tenancy_step p (mkPlatform d (pf_estate p))
| step_authenticate now api_key credentials res d :
    get_current_tenant checkpw jwt_decode pool_ready key now api_key credentials (pf_auth p) = (res, d) →
    tenancy_step p (mkPlatform d (pf_estate p))
| step_api_key now new_id plain_key salt name tenant_id scopes api_key credentials res d :
    post_api_key checkpw key_hash jwt_decode pool_ready key now new_id plain_key salt name tenant_id scopes api_key credentials
      (pf_auth p) = (res, d) → tenancy_step p (mkPlatform d (pf_estate p))
| step_revoke_key key_id tenant res d :
    revoke_api_key key_id tenant (pf_auth p) = (res, d) → tenancy_step p (mkPlatform d (pf_estate p))
| step_sites fault tenant es' :
    tc_tenant_id tenant ∈ map tn_id (tenants (pf_auth p)) → site_request decode_jsonb fault tenant (pf_estate p) es' →
    tenancy_step p (mkPlatform (pf_auth p) es')
| step_spaces tenant es' : space_frame tenant (pf_estate p) es' → tenancy_step p (mkPlatform (pf_auth p) es').

Lemma kept_step {A} (m : stE AuthDb exn A) p r d :
  keeps accounts_kept m → m (pf_auth p) = (r, d) → platform_ok p → platform_ok (mkPlatform d (pf_estate p)).
Proof. intros Hk E Hok. apply (accounts_kept_ok (pf_auth p)); [specialize (Hk (pf_auth p)); by rewrite E in Hk|by destruct p]. Qed.

Lemma tenancy_step_ok p p' : tenancy_step p p' → platform_ok p → platform_ok p'.
Proof.
  intros [fault now f r res p2 E|fault now u tenant res p2 E|now email pw tok cl res d E|now tok ntok cl res d E
         |now ak cr res d E|now i pk salt name t scopes ak cr res d E|i tenant res d E|fault tenant es' Ht Hs|tenant es' Hs] Hok.
  - pose proof (register_cases fault hashpw now f r p) as H. rewrite E in H.
    destruct res; [|by destruct H as [-> _]]. destruct H as (hash & _ & _ & Hf & ->). by apply registered_ok.
  - by eapply update_tenant_ok.
  - eapply kept_step; [apply keeps_login|exact E|exact Hok].
  - eapply kept_step; [apply keeps_refresh|exact E|exact Hok].
  - eapply kept_step; [apply keeps_current_tenant|exact E|exact Hok].
  - eapply kept_step; [apply keeps_post_key|exact E|exact Hok].
  - eapply kept_step; [apply keeps_revoke_key|exact E|exact Hok].
  - destruct (site_request_frame _ _ _ _ _ (po_estate _ Hok) Hs) as (Hes & _ & Hoth). destruct Hok.
    constructor; try done. cbn. intros s Hin. destruct (of_tenant tenant s) eqn:Ho.
    + apply String.eqb_eq in Ho. by rewrite Ho.
    + apply po_sites0. assert (s ∈ others tenant es') as H by (apply filter_In_elem; by rewrite Ho).
      rewrite Hoth in H. by apply filter_In_elem in H as [H _].
  - destruct Hs as [Hs1 Hs2 _ _], Hok. constructor; cbn; [done..| |auto]. by rewrite Hs2.
Qed.

(** C18. The accounts stay consistent.  However registrations, logins, refreshes, updates of
    tenants, API keys and requests on sites and spaces follow each other, and whatever
    fails: ids, emails (in any case) and slugs are unique, every membership links a user
    and a tenant that exist, every tenant has an owner (but the seeded default tenant,
    which the migrations create without one), every site has a tenant, and the sites and
    spaces are consistent.  The tables as the migrations leave them are consistent. *)
Theorem tenancy_well_formed p p' : platform_ok p → rtc tenancy_step p p' → platform_ok p'.
Proof. intros Hok Hr. revert Hok. induction Hr as [|x y z Hs _ IH]; [done|]. intros Hok. by eapply IH, tenancy_step_ok. Qed.

(** ** A registered owner can log in *)

(** The rows of a registration are found by their keys. *)
Lemma registered_rows now f r hash p :
  platform_ok p → fits now f r hash p →
  let d := pf_auth (registered now f r hash p) in
  fetchrow (λ u, String.eqb (us_email u) (str_lower (rg_email r))) (users d) = Some (new_user now f hash r) ∧
  fetchrow (λ u, String.eqb (us_id u) (fr_user f)) (users d) = Some (new_user now f hash r) ∧
  List.filter (λ m, String.eqb (um_user_id m) (fr_user f) && um_is_active m) (user_memberships d) = [owner_membership now f] ∧
  fetchrow (λ m, String.eqb (um_user_id m) (fr_user f) && String.eqb (um_tenant_id m) (fr_tenant f)) (user_memberships d) =
    Some (owner_membership now f) ∧
  ∀ q, q (new_tenant now f r) = true → find_tenant q (fr_tenant f) d = Some (new_tenant now f r).
Proof.
  intros Hok Hf d.
  assert (∀ m, m ∈ user_memberships (pf_auth p) → String.eqb (um_user_id m) (fr_user f) = false) as Hmem.
  { intros m Hm. destruct (po_links _ Hok m Hm) as [Hu _]. apply list_elem_of_fmap in Hu as (x & -> & Hx).
    pose proof (ft_user _ _ _ _ _ Hf x Hx) as H. unfold user_conflict in H. cbn in H.
    apply orb_false_iff in H as [H _]. by rewrite String.eqb_sym. }
  split_and!; cbn; unfold fetchrow, find_tenant, fetchrow; rewrite ?find_app, ?List.filter_app.
  - rewrite find_no; [cbn; by rewrite String.eqb_refl|]. intros x Hx.
    pose proof (ft_user _ _ _ _ _ Hf x Hx) as H. unfold user_conflict in H. cbn in H. rewrite str_lower_idemp in H.
    apply orb_false_iff in H as [_ H]. destruct (String.eqb_spec (us_email x) (str_lower (rg_email r))) as [E|]; [|done].
    by rewrite E, str_lower_idemp, String.eqb_refl in H.
  - rewrite find_no; [cbn; by rewrite String.eqb_refl|]. intros x Hx.
    pose proof (ft_user _ _ _ _ _ Hf x Hx) as H. unfold user_conflict in H. cbn in H.
    apply orb_false_iff in H as [H _]. by rewrite String.eqb_sym.
  - rewrite filter_nil; [cbn; by rewrite String.eqb_refl|]. intros m Hm. by rewrite Hmem.
  - rewrite find_no; [cbn; by rewrite !String.eqb_refl|]. intros m Hm. by rewrite Hmem.
  - intros q Hq. rewrite find_app, find_no; [cbn; by rewrite String.eqb_refl, Hq|]. intros x Hx.
    pose proof (ft_tenant _ _ _ _ _ Hf x Hx) as H. unfold tenant_conflict in H. cbn in H.
    apply orb_false_iff in H as [H _]. by rewrite String.eqb_sym, H.
Qed.

Context (hash_check : ∀ pw salt h, hashpw pw salt = Ok h → checkpw pw h = Ok true).
Context (jwt_law : ∀ payload k t, jwt_decode t (jwt_encode payload k) k =
  if jp_exp payload * sec <=? t then Err (PyException "Signature has expired") else Ok payload).
Context (jwt_non_empty : ∀ payload k, non_empty (jwt_encode payload k) = true).

(** A login of a user with one active membership, and what it leaves *)
Lemma login_of now email password new_token client d u m t role :
  fetchrow (λ u, String.eqb (us_email u) (str_lower email)) (users d) = Some u → us_is_active u = true →
  verify_password checkpw password (us_password_hash u) = true →
  tenant_rows (us_id u) d = [mkTenantInfo (tn_id t) (tn_name t) (tn_slug t) (um_role m)] →
  role_of (um_role m) = Ok role → truthy key = true → u ∈ users d → T = Migration010 →
  on_opt (len_between 0 255) (cl_device_fingerprint client) = true →
  (∀ r, r ∈ refresh_tokens d → rt_token_hash r ≠ hash_token new_token) →
  ∃ token lr d', create_access_token jwt_encode key now (us_id u) (tn_id t) role = Ok token ∧
    login hash_token checkpw jwt_encode key now email password new_token client d = (Ok lr, d') ∧
    lr_access_token lr = token ∧ lr_tenants lr = [mkTenantInfo (tn_id t) (tn_name t) (tn_slug t) (um_role m)] ∧
    tenants d' = tenants d ∧ user_memberships d' = user_memberships d ∧
    users d' = sql_update (λ x, String.eqb (us_id x) (us_id u)) (set_last_login now) (users d).
Proof.
  intros Hu Hact Hpw Hrows Hrole Hkey Hin HT Hfp Hfresh.
  destruct (create_access_token jwt_encode key now (us_id u) (tn_id t) role) as [token|] eqn:Htok.
  2: { unfold create_access_token in Htok. by rewrite Hkey in Htok. }
  exists token. unfold login, or_500, try_catch, get_st, mbind, stE_bind. rewrite Hu, Hact, Hpw. cbn [negb]. rewrite Hrows.
  unfold access_token_for, lift. cbn [ti_role ti_id]. rewrite Hrole. cbn [mbind result_bind]. rewrite Htok.
  unfold create_refresh_token, nextval, insert_token, get_st, modify_st, mbind, stE_bind, mret, stE_ret.
  cbn [rt_device_fingerprint rt_token_hash rt_user_id refresh_tokens users]. rewrite Hfp, HT. cbn [negb].
  replace (existsb _ (refresh_tokens d)) with false.
  2: { symmetry. apply not_true_iff_false. intros (r & Hr & He%String.eqb_eq)%existsb_exists.
       by apply (Hfresh r); [apply list_elem_of_In|]. }
  replace (existsb _ (users d)) with true.
  2: { symmetry. apply existsb_exists. exists u. split; [by apply list_elem_of_In|apply String.eqb_refl]. }
  cbn [negb]. do 2 eexists. split; [done|]. split; [reflexivity|]. by split_and!.
Qed.

(** The token of a member whose rows are found is given the member's context. *)
Lemma member_token_context now user_id tenant_id role token d u m t :
  truthy key = true → pool_ready = true → UUID user_id = Ok user_id → UUID tenant_id = Ok tenant_id →
  create_access_token jwt_encode key now user_id tenant_id role = Ok token →
  membership_of user_id tenant_id d = Some (u, m, t) → us_is_active u = true → um_is_active m = true → tn_is_active t = true →
  us_id u = user_id → tn_id t = tenant_id → um_role m = "owner" →
  ∀ t' api_key, t' < (now + 24 * 3600 * sec) / sec * sec →
    ∃ c, get_current_tenant checkpw jwt_decode pool_ready key t' api_key (Some token) d = (Ok c, d) ∧
         tc_tenant_id c = tenant_id ∧ tc_user_id c = Some user_id ∧ tc_source c = "jwt" ∧ require_role OWNER c = Ok c.
Proof.
  intros Hkey Hpool Hu Ht Htok Hmem Hua Hma Hta Hui Hti Hrole t' api_key Hlt.
  pose proof (access_token_lifetime jwt_encode jwt_decode key now user_id tenant_id role Hkey Hu Ht jwt_law) as Hdec.
  rewrite Htok in Hdec. specialize (Hdec t'). rewrite (proj2 (Z.ltb_lt _ _) Hlt) in Hdec.
  assert (truthy (Some token) = true) as Htt.
  { unfold create_access_token in Htok. rewrite Hkey in Htok. injection Htok as <-. apply jwt_non_empty. }
  unfold get_current_tenant, get_st, mbind, stE_bind, jwt_context. rewrite Htt. cbn [or_else]. rewrite Hdec.
  cbn [mbind option_bind]. unfold resolve_tenant_from_jwt. rewrite Hpool. cbn [negb td_user_id td_tenant_id].
  rewrite Hmem, Hua, Hma, Hta, Hrole. cbn. eexists. split; [reflexivity|]. cbn. by subst.
Qed.

(** The rows of a new owner *)
Lemma registered_membership now f r hash p d' last :
  platform_ok p → fits now f r hash p →
  let d := pf_auth (registered now f r hash p) in
  tenants d' = tenants d → user_memberships d' = user_memberships d →
  users d' = (match last with
              | Some t => sql_update (λ x, String.eqb (us_id x) (fr_user f)) (set_last_login t) (users d)
              | None => users d
              end) →
  membership_of (fr_user f) (fr_tenant f) d' =
    Some (match last with Some t => set_last_login t (new_user now f hash r) | None => new_user now f hash r end,
          owner_membership now f, new_tenant now f r).
Proof.
  intros Hok Hfits d Dt Dm Du. destruct (registered_rows now f r hash p Hok Hfits) as (_ & R2 & _ & R4 & R5). fold d in R2, R4, R5.
  unfold membership_of. rewrite Du, Dm.
  assert (fetchrow (λ u, String.eqb (us_id u) (fr_user f))
    (match last with Some t => sql_update (λ x, String.eqb (us_id x) (fr_user f)) (set_last_login t) (users d) | None => users d end) =
    Some (match last with Some t => set_last_login t (new_user now f hash r) | None => new_user now f hash r end)) as ->.
  { destruct last as [t|]; [|exact R2]. by rewrite (fetchrow_update_some _ _ _ _ _ R2); [|done|apply String.eqb_refl]. }
  cbn [mbind option_bind]. rewrite R4. cbn [mbind option_bind]. unfold find_tenant in *. by rewrite Dt, R5.
Qed.

(** The access token of a registered owner.  From consistent accounts: once POST
    /auth/register has answered, the access token that a login signs for the user in the
    new tenant exists and, for the next 24 hours, is given the context of that user in
    that tenant, which passes the owner check. *)
Theorem registered_owner_token fault now f r p u p' :
  platform_ok p → register fault hashpw now f r p = (Ok u, p') →
  truthy key = true → pool_ready = true → UUID (fr_user f) = Ok (fr_user f) → UUID (fr_tenant f) = Ok (fr_tenant f) →
  ∀ now', ∃ token,
    access_token_for jwt_encode key now' (fr_user f) (mkTenantInfo (fr_tenant f) (rg_tenant_name r) (str_lower (rg_slug r)) "owner") = Ok token ∧
    ∀ t api_key, t < (now' + 24 * 3600 * sec) / sec * sec →
      ∃ c, get_current_tenant checkpw jwt_decode pool_ready key t api_key (Some token) (pf_auth p') = (Ok c, pf_auth p') ∧
           tc_tenant_id c = fr_tenant f ∧ tc_user_id c = Some (fr_user f) ∧ tc_source c = "jwt" ∧ require_role OWNER c = Ok c.
Proof.
  intros Hok Hreg Hkey Hpool Hu Ht now'. pose proof (register_cases fault hashpw now f r p) as H. rewrite Hreg in H.
  destruct H as (hash & Hhash & _ & Hfits & ->).
  destruct (create_access_token jwt_encode key now' (fr_user f) (fr_tenant f) OWNER) as [token|] eqn:Htok.
  2: { unfold create_access_token in Htok. by rewrite Hkey in Htok. }
  exists token. split; [exact Htok|].
  apply (member_token_context now' _ _ OWNER token _ (new_user now f hash r) (owner_membership now f) (new_tenant now f r)); try done.
  by apply (registered_membership now f r hash p _ None).
Qed.

(** A registered owner can log in where the table of refresh tokens is the one the service
    is written for (migration 010).  From consistent accounts: once POST /auth/register has
    answered, POST /auth/login with that password and the email in any case succeeds,
    offers exactly the new tenant with the role of owner, and for the next 24 hours its
    access token is given the context of that user in that tenant, which passes the owner
    check. *)
Theorem registered_owner_logs_in fault now f r p u p' :
  platform_ok p → register fault hashpw now f r p = (Ok u, p') → T = Migration010 →
  truthy key = true → pool_ready = true → UUID (fr_user f) = Ok (fr_user f) → UUID (fr_tenant f) = Ok (fr_tenant f) →
  ∀ now' email new_token client,
    str_lower email = str_lower (rg_email r) → on_opt (len_between 0 255) (cl_device_fingerprint client) = true →
    (∀ t, t ∈ refresh_tokens (pf_auth p) → rt_token_hash t ≠ hash_token new_token) →
    ∃ lr d,
      login hash_token checkpw jwt_encode key now' email (rg_password r) new_token client (pf_auth p') = (Ok lr, d) ∧
      lr_tenants lr = [mkTenantInfo (fr_tenant f) (rg_tenant_name r) (str_lower (rg_slug r)) "owner"] ∧
      ∀ t api_key, t < (now' + 24 * 3600 * sec) / sec * sec →
        ∃ c, get_current_tenant checkpw jwt_decode pool_ready key t api_key (Some (lr_access_token lr)) d = (Ok c, d) ∧
             tc_tenant_id c = fr_tenant f ∧ tc_user_id c = Some (fr_user f) ∧ tc_source c = "jwt" ∧ require_role OWNER c = Ok c.
Proof.
  intros Hok Hreg HT Hkey Hpool Hu Ht now' email new_token client Hemail Hfp Hfresh.
  pose proof (register_cases fault hashpw now f r p) as H. rewrite Hreg in H.
  destruct H as (hash & Hhash & _ & Hfits & ->).
  destruct (registered_rows now f r hash p Hok Hfits) as (R1 & R2 & R3 & R4 & R5).
  set (d := pf_auth (registered now f r hash p)) in *.
  assert (tenant_rows (fr_user f) d = [mkTenantInfo (fr_tenant f) (rg_tenant_name r) (str_lower (rg_slug r)) "owner"]) as Hrows.
  { unfold tenant_rows. rewrite R3. change (merge_sort older_membership [owner_membership now f]) with [owner_membership now f].
    unfold omap, list_omap. change (um_tenant_id (owner_membership now f)) with (fr_tenant f). by rewrite (R5 tn_is_active). }
  destruct (login_of now' email (rg_password r) new_token client d (new_user now f hash r) (owner_membership now f)
              (new_tenant now f r) OWNER) as (token & lr & d' & Htok & Hlog & Elr & Elt & Dt & Dm & Du); try done.
  { rewrite Hemail. exact R1. }
  { unfold verify_password. cbn. by rewrite (hash_check _ _ _ Hhash). }
  { cbn. apply elem_of_app. right. by apply list_elem_of_singleton. }
  exists lr, d'. split; [exact Hlog|]. split; [exact Elt|]. rewrite Elr.
  apply (member_token_context now' _ _ OWNER token _ (set_last_login now' (new_user now f hash r)) (owner_membership now f)
    (new_tenant now f r)); try done.
  by apply (registered_membership now f r hash p _ (Some now')).
Qed.
End Tenancy.

(** ** Limits and usage *)

Section Limits.
Context (decode_jsonb : json → json) (fault : PfCall → option exn).

(** A device counted once per space it is in counts no more than the spaces do. *)
Lemma devices_at_most_spaces eui_of euis tenant d :
  0 ≤ devices_in_spaces eui_of euis tenant d ≤ sql_count (space_of_tenant tenant) (spaces d).
Proof.
  unfold devices_in_spaces, sql_count. split; [lia|]. apply inj_le.
  set (l := remove_dups _). set (live := List.filter (space_of_tenant tenant) (spaces d)).
  transitivity (length (omap eui_of live)).
  - apply NoDup_incl_length.
    + apply NoDup_ListNoDup, NoDup_remove_dups.
    + intros e He%list_elem_of_In. apply elem_of_remove_dups, filter_In_elem in He as [_ He].
      apply existsb_exists in He as (s & Hs & [Heui%bool_decide_eq_true Ht]%andb_true_iff).
      apply list_elem_of_In, list_elem_of_omap. exists s. split; [|done]. apply filter_In_elem. split; [by apply list_elem_of_In|done].
  - clear. induction live as [|s live IH]; [done|]. cbn. destruct (eui_of s); cbn; unfold list_omap in *; lia.
Qed.

(** [d.update(o)]: the given entries win. *)
Lemma assoc_update k (o d : jobj) :
  NoDup o.*1 → assoc k (fold_left (λ d kv, obj_set kv.1 kv.2 d) o d) = match assoc k o with Some v => Some v | None => assoc k d end.
Proof.
  revert d. induction o as [|[k' v] o IH]; intros d Hnd; [done|]. cbn in *. apply NoDup_cons in Hnd as [Hk' Hnd].
  rewrite IH, assoc_obj_set by done. destruct (String.eqb_spec k k') as [<-|]; [|done].
  destruct (assoc k o) as [w|] eqn:E; [|done]. destruct Hk'. apply assoc_In in E.
  apply list_elem_of_fmap. exists (k, w). split; [done|by apply list_elem_of_In].
Qed.

(** The settings override the defaults.  A tenant whose stored settings are a JSON object,
    as text (the driver's way) or decoded, in which [rate_limits] and [quotas] are objects
    or absent: each limit in the answer is the one from the settings where they give one,
    the default otherwise, and limits the defaults do not know are passed on. *)
Theorem limits_override o rl qs :
  wf_json (JObj o) → o ≠ [] → wf_json (JObj rl) → wf_json (JObj qs) →
  assoc "rate_limits" o = Some (JObj rl) ∨ assoc "rate_limits" o = None ∧ rl = [] →
  assoc "quotas" o = Some (JObj qs) ∨ assoc "quotas" o = None ∧ qs = [] →
  ∃ limits, limits_of (Some (JText (dumps (JObj o)))) = Ok limits ∧ limits_of (Some (JObj o)) = Ok limits ∧
    ∀ k, assoc k limits.1 = match assoc k rl with Some v => Some v | None => assoc k default_rate_limits end ∧
         assoc k limits.2 = match assoc k qs with Some v => Some v | None => assoc k default_quotas end.
Proof.
  intros Ho Hne [Hrl _] [Hqs _] Er Eq.
  assert (py_truthy (JText (dumps (JObj o))) = true ∧ py_truthy (JObj o) = true) as [Ht1 Ht2].
  { split; [done|]. by destruct o. }
  set (r := fold_left (λ d kv, obj_set kv.1 kv.2 d) rl default_rate_limits).
  set (q := fold_left (λ d kv, obj_set kv.1 kv.2 d) qs default_quotas). exists (r, q).
  assert (override "rate_limits" (JObj o) default_rate_limits = Ok r ∧ override "quotas" (JObj o) default_quotas = Ok q) as [E1 E2].
  { unfold override, setting, mbind, result_bind. split; [destruct Er as [->|[-> ->]]|destruct Eq as [->|[-> ->]]]; done. }
  unfold limits_of. rewrite Ht1, Ht2. unfold settings_value. rewrite loads_dumps by done.
  unfold mbind, result_bind. rewrite E1, E2. split_and!; [done..|]. intros k. split; by apply assoc_update.
Qed.

(** The usage agrees with the listings.  The space count is the length of GET /spaces, the
    site count the total of GET /sites; the devices of either kind are at most one per
    space.  But confirmed reservations, and that is what the API creates, do not count as
    active. *)
Theorem usage_agrees now tenant p ul p' :
  estate_ok (pf_estate p) → is_platform_admin tenant = false →
  get_current_user_limits decode_jsonb fault now tenant p = (Ok ul, p') →
  let n := Z.of_nat (length (listed_spaces tenant (mkSpaceQuery None None None None None false) (pf_estate p))) in
  p' = p ∧ assoc "spaces" (ul_usage ul) = Some n ∧
  (∀ fault' l, (list_sites decode_jsonb fault' false tenant (pf_estate p)).1 = Ok l → assoc "sites" (ul_usage ul) = Some l.2) ∧
  ((∀ r, r ∈ reservations (es_db (pf_estate p)) → rv_status r = CONFIRMED) → assoc "active_reservations" (ul_usage ul) = Some 0) ∧
  ∃ sensors displays,
    assoc "sensor_devices" (ul_usage ul) = Some sensors ∧ assoc "display_devices" (ul_usage ul) = Some displays ∧
    assoc "total_devices" (ul_usage ul) = Some (sensors + displays) ∧ 0 ≤ sensors ≤ n ∧ 0 ≤ displays ≤ n.
Proof.
  intros Hok Ha H.
  assert (sql_count (space_of_tenant tenant) (estate_spaces (pf_estate p)) =
          Z.of_nat (length (listed_spaces tenant (mkSpaceQuery None None None None None false) (pf_estate p)))) as Hn.
  { rewrite listed_count. apply sql_count_ext. intros x. unfold space_of_tenant, in_listing. rewrite Ha. cbn.
    by rewrite !andb_true_r. }
  unfold get_current_user_limits, or_500, try_catch, pf_call, may_fail, lift, mbind, stE_bind, mret, stE_ret in H.
  destruct (fault TSettings); [by destruct e|]. destruct (limits_of _) as [limits|e]; [|by destruct e].
  destruct (fault TSpaces); [by destruct e|]. destruct (fault TSensors); [by destruct e|].
  destruct (fault TDisplays); [by destruct e|]. destruct (fault TReservations); [by destruct e|].
  destruct (fault TSites); [by destruct e|]. injection H as <- <-. cbn -[Z.add devices_in_spaces].
  split; [done|]. rewrite Hn. split; [done|]. split; [|split].
  - intros fault' l Hl. unfold list_sites, site_call, may_fail, mbind, stE_bind in Hl.
    destruct (fault' SSet); [done|]. destruct (fault' SList); [done|]. injection Hl as <-. cbn. f_equal. unfold sql_count. f_equal.
    by rewrite length_map, (Permutation_length (merge_sort_Permutation _ _)), counted_sites, length_map by done.
  - intros Hr. f_equal. unfold sql_count. rewrite filter_nil; [done|]. intros x Hx. unfold counts_as_active.
    rewrite (Hr x Hx), bool_decide_false by (by intros [|]). by rewrite andb_false_r.
  - do 2 eexists. split_and!; [done..| | | |]; try apply devices_at_most_spaces;
      rewrite <- Hn; apply devices_at_most_spaces.
Qed.
End Limits.

(** ** The profile *)

Section Profile.
Context (fault : PfCall → option exn).

Lemma role_of_inv s r : role_of s = Ok r → s = role_value r.
Proof.
  unfold role_of. destruct (find _ _) as [x|] eqn:E; [|done]. intros [= <-].
  by apply find_some in E as [_ <-%String.eqb_eq].
Qed.

Lemma apart_unique {A} (R : A → A → bool) l x y : apart R l → x ∈ l → y ∈ l → R x y = true → x = y.
Proof.
  intros Hl [i Hi]%list_elem_of_lookup [j Hj]%list_elem_of_lookup HR. destruct (decide (i = j)) as [->|Hij]; [congruence|].
  by rewrite (Hl i j x y Hi Hj Hij) in HR.
Qed.

(** Every entry of the profile comes from an active membership in an active tenant. *)
Lemma elem_tenant_rows user_id d i :
  i ∈ tenant_rows user_id d ↔
  ∃ m t, m ∈ user_memberships d ∧ um_user_id m = user_id ∧ um_is_active m = true ∧
         find_tenant tn_is_active (um_tenant_id m) d = Some t ∧ i = mkTenantInfo (tn_id t) (tn_name t) (tn_slug t) (um_role m).
Proof.
  unfold tenant_rows. rewrite list_elem_of_omap. split.
  - intros (m & Hm & Hi). rewrite merge_sort_Permutation in Hm. apply filter_In_elem in Hm as (Hm & [Hu%String.eqb_eq Ha]%andb_true_iff).
    apply bind_Some in Hi as (t & Ht & [= <-]). by exists m, t.
  - intros (m & t & Hm & Hu & Ha & Ht & ->). exists m. split.
    + rewrite merge_sort_Permutation. apply filter_In_elem. split; [done|]. by rewrite Hu, String.eqb_refl, Ha.
    + by rewrite Ht.
Qed.

Lemma last_match (P : TenantInfo → bool) l x : x ∈ l → P x = true → (∀ y, y ∈ l → P y = true → y = x) →
  ∀ a, fold_left (λ cur t, if P t then t else cur) l a = x.
Proof.
  induction l as [|y l IH] using rev_ind; [by intros ?%elem_of_nil|]. intros Hx Hp Hu a. rewrite fold_left_app. cbn.
  destruct (P y) eqn:Ey; [apply Hu; [|done]; apply elem_of_app; right; by apply list_elem_of_singleton|].
  apply IH; [|done|intros z Hz; apply Hu, elem_of_app; by left].
  apply elem_of_app in Hx as [Hx| ->%list_elem_of_singleton]; [done|congruence].
Qed.

(** What GET /me says of the current tenant.  For a caller authenticated by an access
    token, on consistent accounts, the current tenant is the one of the context, with its
    name, slug and the role the access checks use, and it is one of the listed tenants.  A
    caller with an API key has no user and is answered 404 (or 500 when the query fails). *)
Theorem profile_spec checkpw dec ready key now api_key credentials p c d r p' :
  platform_ok p →
  get_current_tenant checkpw dec ready key now api_key credentials (pf_auth p) = (Ok c, d) →
  get_current_user_profile fault c (mkPlatform d (pf_estate p)) = (r, p') →
  p' = mkPlatform d (pf_estate p) ∧
  match tc_user_id c with
  | Some _ => ∀ profile, r = Ok profile → ∃ role, tc_user_role c = Some role ∧
      up_current_tenant profile = mkTenantInfo (tc_tenant_id c) (tc_tenant_name c) (tc_tenant_slug c) (role_value role) ∧
      up_current_tenant profile ∈ up_all_tenants profile
  | None => (∀ x, fault x = None) → r = Err (HTTPException 404 "User not found")
  end.
Proof.
  intros Hok Hctx Hp.
  assert (tc_user_id c ≠ None → d = pf_auth p ∧ via_jwt dec key now credentials (pf_auth p) c) as Hjwt.
  { intros Hc. unfold get_current_tenant, get_st, mbind, stE_bind in Hctx.
    destruct (jwt_context _ _ _ _ _ _) as [c0|] eqn:Hj; [injection Hctx as <- <-; split; [done|by eapply jwt_context_spec]|].
    destruct (truthy api_key); [|done]. destruct (verify_api_key _ _ _ _ _) as [[[info|]|e] d1]; [|done..].
    unfold get_st, mbind, stE_bind, resolve_tenant_from_api_key, mret, stE_ret in Hctx. destruct (negb ready); [done|].
    destruct (key_with_tenant _ d1) as [[k t]|]; [|done]. by injection Hctx as <- <-. }
  unfold get_current_user_profile, or_500, try_catch, pf_call, may_fail, lift, raise, mbind, stE_bind, mret, stE_ret in Hp.
  destruct (tc_user_id c) as [uid|] eqn:Hc.
  - destruct Hjwt as [-> (tok & td & u & m & t & role & _ & _ & _ & Hu & _ & Hm & Hmu & Hmt & Hma & Hr & Ht & Hti & Hta & Hcc)]; [done|].
    destruct (fault TProfile) as [[]|]; try (injection Hp as <- <-; by split).
    destruct (fetchrow _ _) as [row|]; [|injection Hp as <- <-; by split].
    destruct (fault TTenants) as [[]|]; try (injection Hp as <- <-; by split).
    destruct (user_model row) as [user|[]]; injection Hp as <- <-; (split; [done|]); intros profile [= <-].
    exists role. rewrite Hcc in Hc |- *. cbn in *. injection Hc as <-. split; [done|]. cbn [or_else].
    set (info := mkTenantInfo (tn_id t) (tn_name t) (tn_slug t) (role_value role)).
    assert (∀ t', find_tenant tn_is_active (tn_id t) (pf_auth p) = Some t' → t' = t) as Huniq.
    { intros t' (Ht' & Hi' & _)%find_tenant_spec. apply (apart_unique _ _ _ _ (po_tenants _ Hok) Ht' Ht).
      unfold tenant_conflict. by rewrite Hi', String.eqb_refl. }
    assert (info ∈ tenant_rows (us_id u) (pf_auth p)) as Hin.
    { apply elem_tenant_rows. exists m, t. split_and!; try congruence.
      - rewrite Hmt, <- Hti. destruct (find_tenant _ _ _) as [t'|] eqn:E; [by rewrite (Huniq t' eq_refl)|].
        apply list_elem_of_In in Ht. pose proof (List.find_none _ _ E t Ht) as Hn. cbn in Hn. by rewrite String.eqb_refl, Hta in Hn.
      - unfold info. by rewrite (role_of_inv _ _ Hr). }
    assert (current_tenant_info (mkTenantContext (tn_id t) (tn_name t) (tn_slug t) (Some (us_id u)) (Some role) None None "jwt")
              (tenant_rows (us_id u) (pf_auth p)) = info) as ->; [|by split].
    apply (last_match (λ x, String.eqb (ti_id x) (tn_id t))); [done|apply String.eqb_refl|].
    intros y (m' & t' & Hm' & Hu' & _ & Ht' & ->)%elem_tenant_rows E%String.eqb_eq. cbn in E.
    pose proof (find_tenant_spec _ _ _ _ Ht') as (_ & Hid & _).
    assert (m' = m) as ->.
    { apply (apart_unique _ _ _ _ (po_members _ Hok) Hm' Hm). unfold member_conflict, same_pair.
      replace (um_user_id m') with (um_user_id m) by congruence. replace (um_tenant_id m') with (um_tenant_id m) by congruence.
      by rewrite !String.eqb_refl, orb_true_r. }
    assert (t' = t) as -> by (apply Huniq; rewrite <- Ht'; f_equal; congruence).
    unfold info. by rewrite (role_of_inv _ _ Hr).
  - assert (fetchrow (is_user None) (users d) = None) as Hnone by (by apply find_no).
    destruct (fault TProfile) as [e|] eqn:Hf; [destruct e; injection Hp as <- <-; (split; [done|]); intros H; by rewrite H in Hf|].
    cbn [pf_auth] in Hp. rewrite Hnone in Hp. by injection Hp as <- <-.
Qed.
End Profile.

(** ** The users of a tenant *)

Section Members.
Context (fault : PfCall → option exn) (tenant : TenantContext).

Lemma add_member_spec k user membership dict dict' :
  add_member k user membership dict = Ok dict' →
  ∃ m, membership = Ok m ∧
    (((k ∉ dict.*1) ∧ (∃ u, user = Ok u ∧ dict' = (dict ++ [(k, mkUserWith u [m])])%list)) ∨
     (∃ l1 w l2, dict = (l1 ++ (k, w) :: l2)%list ∧
                 dict' = (l1 ++ (k, mkUserWith (uw_user w) (uw_memberships w ++ [m])) :: l2)%list)).
Proof.
  revert dict'. induction dict as [|[k0 w] dict IH]; intros dict'; cbn [add_member].
  - destruct user as [u|]; [|done]. destruct membership as [m|]; [|done]. intros [= <-]. exists m. split; [done|]. left.
    split; [set_solver|]. eauto.
  - destruct (String.eqb_spec k0 k) as [->|Hk].
    + destruct membership as [m|]; [|done]. intros [= <-]. exists m. split; [done|]. right. by exists [], w, dict.
    + destruct (add_member k user membership dict) as [rest|] eqn:E; [|done]. intros [= <-].
      destruct (IH rest eq_refl) as (m & Hm & [[Hn (u & Hu & ->)]|(l1 & w1 & l2 & -> & ->)]); exists m; (split; [done|]).
      * left. split; [cbn; set_solver|]. eauto.
      * right. by exists ((k0, w) :: l1)%list, w1, l2.
Qed.

(** The dict after the rows [done] *)
Record grouped (rows : list (UserRow * Membership)) (dict : list (string * UserWithMemberships)) : Prop := {
  gr_keys : NoDup dict.*1;
  gr_entries : ∀ k w, (k, w) ∈ dict → ur_id (uw_user w) = k ∧ uw_memberships w ≠ [] ∧
    ∀ e, e ∈ uw_memberships w → ∃ r, r ∈ rows ∧ us_id r.1 = k ∧ membership_model tenant r = Ok e;
  gr_rows : ∀ r, r ∈ rows → ∃ w e, (us_id r.1, w) ∈ dict ∧ e ∈ uw_memberships w ∧ membership_model tenant r = Ok e;
}.

Lemma user_model_id u v : user_model u = Ok v → ur_id v = us_id u.
Proof.
  unfold user_model, checked, mbind, result_bind. repeat (case_match; try done). intros [= <-].
  repeat match goal with H : _ = Ok _ |- _ => injection H as <- end. by simplify_eq.
Qed.

Lemma grouped_step rows r dict dict' :
  grouped rows dict → add_member (us_id r.1) (user_model r.1) (membership_model tenant r) dict = Ok dict' →
  grouped (rows ++ [r]) dict'.
Proof.
  intros [Hk He Hr] (m & Hm & [[Hn (u & Hu & ->)]|(l1 & w & l2 & -> & ->)])%add_member_spec.
  - constructor.
    + rewrite fmap_app. apply NoDup_app. split; [done|]. split; [|apply NoDup_singleton].
      intros x Hx ->%list_elem_of_singleton. done.
    + intros k v [Hv|[= -> ->]%list_elem_of_singleton]%elem_of_app.
      * destruct (He k v Hv) as (? & ? & H). split_and!; [done..|]. intros e Hin. destruct (H e Hin) as (r0 & ? & ?).
        exists r0. rewrite elem_of_app. auto.
      * split_and!; [by apply user_model_id|done|]. intros e ->%list_elem_of_singleton. exists r.
        by rewrite elem_of_app, list_elem_of_singleton; auto.
    + intros r0 [Hin| ->%list_elem_of_singleton]%elem_of_app.
      * destruct (Hr r0 Hin) as (w & e & ? & ?). exists w, e. rewrite elem_of_app. auto.
      * exists (mkUserWith u [m]), m. rewrite elem_of_app. split_and!; [right; by apply list_elem_of_singleton|cbn; by apply list_elem_of_singleton|done].
  - constructor.
    + by rewrite fmap_app, fmap_cons in *.
    + intros k v Hv. apply elem_of_app in Hv as [Hv|[[= -> ->]|Hv]%elem_of_cons].
      2: { destruct (He (us_id r.1) w) as (? & ? & H); [set_solver|]. split_and!; [done|cbn; by destruct (uw_memberships w)|].
           intros e [Hin| ->%list_elem_of_singleton]%elem_of_app.
           - destruct (H e Hin) as (r0 & ? & ?). exists r0. rewrite elem_of_app. auto.
           - exists r. rewrite elem_of_app, list_elem_of_singleton. auto. }
      all: destruct (He k v) as (? & ? & H); [set_solver|]; split_and!; [done..|];
        intros e Hin; destruct (H e Hin) as (r0 & ? & ?); exists r0; rewrite elem_of_app; auto.
    + intros r0 Hr0. set (w' := mkUserWith (uw_user w) (uw_memberships w ++ [m])).
      assert (∀ v e, (us_id r0.1, v) ∈ (l1 ++ (us_id r.1, w) :: l2)%list → e ∈ uw_memberships v →
        ∃ v', (us_id r0.1, v') ∈ (l1 ++ (us_id r.1, w') :: l2)%list ∧ e ∈ uw_memberships v') as Hkeep.
      { intros v e Hv Hin. apply elem_of_app in Hv as [Hv|[[= -> ->]|Hv]%elem_of_cons].
        - exists v. rewrite elem_of_app. auto.
        - exists w'. rewrite elem_of_app, elem_of_cons. split; [auto|]. cbn. rewrite elem_of_app. auto.
        - exists v. rewrite elem_of_app, elem_of_cons. auto. }
      apply elem_of_app in Hr0 as [Hin| ->%list_elem_of_singleton].
      * destruct (Hr r0 Hin) as (v & e & Hv & Hine & He0). destruct (Hkeep v e Hv Hine) as (v' & ? & ?). eauto.
      * exists w', m. rewrite elem_of_app, elem_of_cons. split_and!; [auto|cbn; rewrite elem_of_app, list_elem_of_singleton; auto|done].
Qed.

Lemma group_members_spec rows dict done dict' :
  grouped done dict → group_members tenant rows dict = Ok dict' → grouped (done ++ rows) dict'.
Proof.
  revert done dict. induction rows as [|r rows IH]; intros dn dict Hg; cbn [group_members].
  - intros [= <-]. by rewrite app_nil_r.
  - destruct (add_member _ _ _ dict) as [d1|] eqn:E; [|intros H; discriminate H]. intros H.
    replace (dn ++ r :: rows)%list with ((dn ++ [r]) ++ rows)%list by by rewrite <- app_assoc.
    eapply IH; [|exact H]. by eapply grouped_step.
Qed.

Lemma elem_member_rows d r :
  r ∈ member_rows tenant d ↔
  r.1 ∈ users d ∧ r.2 ∈ user_memberships d ∧ us_id r.1 = um_user_id r.2 ∧ um_tenant_id r.2 = tc_tenant_id tenant.
Proof.
  unfold member_rows. rewrite merge_sort_Permutation, filter_In_elem, andb_true_iff, !String.eqb_eq.
  destruct r as [u m]. rewrite list_elem_of_In, in_prod_iff, <- !list_elem_of_In. cbn. tauto.
Qed.

(** GET /users lists the members of the tenant and nobody else.  An answer has one entry
    per user; every membership in an entry is a row of that user in this tenant, with its
    role and activity; and every membership row of the tenant whose user exists is in the
    entry of its user. *)
Theorem members_listed p l p' :
  list_tenant_users fault tenant p = (Ok l, p') →
  let d := pf_auth p in
  p' = p ∧ NoDup (map (λ w, ur_id (uw_user w)) l) ∧
  (∀ w, w ∈ l → uw_memberships w ≠ [] ∧ ∀ e, e ∈ uw_memberships w →
     ∃ m, m ∈ user_memberships d ∧ um_tenant_id m = tc_tenant_id tenant ∧ um_user_id m = ur_id (uw_user w) ∧
          me_id e = um_id m ∧ role_of (um_role m) = Ok (me_role e) ∧ me_is_active e = um_is_active m) ∧
  (∀ u m, u ∈ users d → m ∈ user_memberships d → um_user_id m = us_id u → um_tenant_id m = tc_tenant_id tenant →
     ∃ w e, w ∈ l ∧ ur_id (uw_user w) = us_id u ∧ e ∈ uw_memberships w ∧ me_id e = um_id m).
Proof.
  intros H d. unfold list_tenant_users, pf_call, may_fail, lift, mbind, stE_bind, mret, stE_ret in H.
  destruct (fault TUsers); [done|]. destruct (group_members _ _ []) as [dict|] eqn:E; [|done]. injection H as <- <-.
  assert (grouped ([] ++ member_rows tenant d) dict) as [Hk He Hr].
  { eapply group_members_spec; [|exact E]. constructor; [apply NoDup_nil_2|by intros ?? ?%elem_of_nil|by intros ? ?%elem_of_nil]. }
  cbn [app] in *.
  assert (∀ r e, membership_model tenant r = Ok e → me_id e = um_id r.2 ∧ role_of (um_role r.2) = Ok (me_role e) ∧
    me_is_active e = um_is_active r.2) as Hmod.
  { intros r e Hm. unfold membership_model, mbind, result_bind in Hm. destruct (role_of _) eqn:Hrole; [|done].
    by injection Hm as <-. }
  split_and!; [done|..].
  - replace (map (λ w, ur_id (uw_user w)) dict.*2) with dict.*1; [done|].
    change (map _ dict.*2) with ((λ w, ur_id (uw_user w)) <$> dict.*2). rewrite <- list_fmap_compose.
    apply list_fmap_ext. intros i [k w] Hi. cbn. symmetry. by apply (He k w), (list_elem_of_lookup_2 _ i).
  - intros w ([k w'] & -> & Hw)%list_elem_of_fmap. destruct (He k w' Hw) as (Hid & Hne & Hent). split; [done|].
    intros e Hin. destruct (Hent e Hin) as (r & (? & ? & Hu & Ht)%elem_member_rows & Hrk & Hm).
    destruct (Hmod r e Hm) as (? & ? & ?). exists r.2. cbn. split_and!; congruence.
  - intros u m Hu Hm Hum Ht. destruct (Hr (u, m)) as (w & e & Hw & Hin & Hmm); [by apply elem_member_rows|].
    exists w, e. destruct (Hmod _ e Hmm) as (? & _). split_and!; [apply list_elem_of_fmap; by exists (us_id u, w)| |done|done].
    by destruct (He _ _ Hw).
Qed.
End Members.

(** ** Witnesses *)

#[local] Existing Instance Migration010.

Definition fixed_hashpw (password salt : string) : result exn string := Ok (plain_hashpw password "salt").

Lemma fixed_hash_check pw salt h : fixed_hashpw pw salt = Ok h → plain_checkpw pw h = Ok true.
Proof. intros [= <-]. unfold plain_checkpw, plain_hashpw. cbn. by rewrite String.eqb_refl. Qed.

Definition empty_platform : Platform := mkPlatform (mkAuthDb [] [] [] [] [] 1) (mkEstate empty_db []).

Lemma empty_platform_ok : platform_ok empty_platform.
Proof. constructor; cbn; try (by intros ? ?%elem_of_nil); try (by intros i j x y Hi; rewrite lookup_nil in Hi). constructor; cbn; try (by intros ? ?%elem_of_nil); by intros i j x y Hi; rewrite lookup_nil in Hi. Qed.

(** The accounts as the migrations leave them *)
Definition seeded_platform : Platform :=
  mkPlatform
    (mkAuthDb [] [mkTenantRow DEFAULT_TENANT "Default Organization" "default"
                    (Some (JObj [("description", JText "Default tenant for backward compatibility")])) None (Some true) 0 0] [] [] [] 1)
    (mkEstate empty_db [mkSite DEFAULT_TENANT DEFAULT_TENANT "Default Site" "UTC"
                          (Some (JObj [("city", JText "Default"); ("country", JText "Unknown")])) None true 0 0]).

Lemma seeded_platform_ok : platform_ok seeded_platform.
Proof.
  constructor; cbn; try (by intros ? ?%elem_of_nil).
  - intros i j x y Hi. by rewrite lookup_nil in Hi.
  - intros [|i] [|j] x y; cbn; intros; simplify_eq.
  - intros i j x y Hi. by rewrite lookup_nil in Hi.
  - intros t ->%list_elem_of_singleton. done.
  - intros s ->%list_elem_of_singleton. by apply list_elem_of_singleton.
  - constructor; cbn; try (by intros ? ?%elem_of_nil); [intros i j x y Hi; by rewrite lookup_nil in Hi|].
    intros [|i] [|j] x y; cbn; intros; simplify_eq.
Qed.

Definition acme_ids : Fresh := mkFresh user1 tenant1 "site-1" "member-1" "salt".
Definition acme_request : RegistrationRequest :=
  mkRegistration "Ada@Acme.com" "Ada" "correct horse" None "Acme" "acme" None None.

Definition acme : Platform := (register (λ _, None) fixed_hashpw 0 acme_ids acme_request empty_platform).2.
Definition ada : User := mkUser user1 "ada@acme.com" "Ada" true false 0 0 None.

Lemma acme_registered : register (λ _, None) fixed_hashpw 0 acme_ids acme_request empty_platform = (Ok ada, acme).
Proof. vm_compute. reflexivity. Qed.

Lemma acme_ok : platform_ok acme.
Proof.
  pose proof (register_cases (λ _, None) fixed_hashpw 0 acme_ids acme_request empty_platform) as H. rewrite acme_registered in H.
  destruct H as (hash & _ & _ & Hf & ->). by apply registered_ok; [apply empty_platform_ok|].
Qed.

Definition text_jsonb (j : json) : json := JText (dumps j).
Definition dict_refused (o : jobj) : result exn json := Err (PyException "expected str, got dict").
Definition owner_of_acme : TenantContext := mkTenantContext tenant1 "Acme" "acme" (Some user1) (Some OWNER) None None "jwt".
Definition deactivate : TenantUpdate := mkTenantUpdate None None None (Some (Some false)).

Lemma registered_owner_logs_in_witness :
  ∃ lr d, login plain_hash plain_checkpw plain_jwt_encode (Some "s") 5 "ADA@acme.com" "correct horse" "rt-1" laptop (pf_auth acme) = (Ok lr, d) ∧
    lr_tenants lr = [mkTenantInfo tenant1 "Acme" "acme" "owner"].
Proof.
  destruct (registered_owner_logs_in fixed_hashpw plain_hash plain_checkpw plain_jwt_encode plain_jwt_decode true (Some "s")
    fixed_hash_check (λ p k t, plain_jwt_decode_encode p k t) (λ p k, show_Z_non_empty _)
    (λ _, None) 0 acme_ids acme_request empty_platform ada acme empty_platform_ok acme_registered eq_refl eq_refl eq_refl eq_refl eq_refl
    5 "ADA@acme.com" "rt-1" laptop eq_refl eq_refl (λ t H, match not_elem_of_nil t H with end)) as (lr & d & H1 & H2 & _).
  exists lr, d. split; [exact H1|exact H2].
Defined.

Lemma tenant_update_frame_witness :
  users (pf_auth (update_current_tenant text_jsonb dict_refused (λ _, None) 9 deactivate owner_of_acme acme).2) = users (pf_auth acme).
Proof.
  pose proof (tenant_update_frame text_jsonb dict_refused (λ _, None) 9 deactivate owner_of_acme acme) as H.
  destruct (update_current_tenant _ _ _ _ _ _ _) as [r p']. exact (proj1 (proj2 H)).
Defined.

Lemma deactivated_tenant_locked_out_witness :
  let p' := (update_current_tenant text_jsonb dict_refused (λ _, None) 9 deactivate owner_of_acme acme).2 in
  map tn_is_active (tenants (pf_auth p')) = [false] ∧
  ∀ api_key credentials c d,
    get_current_tenant plain_checkpw plain_jwt_decode true (Some "s") 10 api_key credentials (pf_auth p') = (Ok c, d) →
    tc_tenant_id c ≠ tenant1.
Proof.
  split; [reflexivity|]. intros api_key credentials c d.
  refine (deactivated_tenant_locked_out text_jsonb dict_refused (λ _, None) 9 deactivate owner_of_acme acme _ _
    (surjective_pairing _) _ (or_introl eq_refl) plain_checkpw plain_jwt_decode true (Some "s") 10 api_key credentials c d).
  intros H. apply (f_equal (λ p, map tn_is_active (tenants (pf_auth p)))) in H. discriminate H.
Defined.

(** A registration on the tables the migrations leave *)
Lemma tenancy_well_formed_witness :
  let p' := (register (λ _, None) fixed_hashpw 0 acme_ids acme_request seeded_platform).2 in
  map tn_slug (tenants (pf_auth p')) = ["default"; "acme"] ∧ platform_ok p'.
Proof.
  intros p'. split; [vm_compute; reflexivity|].
  apply (tenancy_well_formed text_jsonb dict_refused fixed_hashpw plain_hash Naive plain_checkpw plain_hashpw plain_jwt_encode
    plain_jwt_decode true (Some "s") seeded_platform p' seeded_platform_ok).
  apply rtc_once. exact (step_register _ _ _ _ _ _ _ _ _ _ _ _ _ _ _ _ _ _ (surjective_pairing _)).
Defined.

Lemma limits_override_witness :
  let o := [("rate_limits", JObj [("requests_per_minute", JInt 500)])] in
  ∃ limits, limits_of (Some (JText (dumps (JObj o)))) = Ok limits ∧ assoc "requests_per_minute" limits.1 = Some (JInt 500).
Proof.
  intros o.
  destruct (limits_override o [("requests_per_minute", JInt 500)] []) as (limits & H1 & _ & H); [| |..].
  - cbn. split_and!; try done; repeat (apply NoDup_cons; split; [set_solver|]); apply NoDup_nil_2.
  - discriminate.
  - cbn. split_and!; try done; repeat (apply NoDup_cons; split; [set_solver|]); apply NoDup_nil_2.
  - cbn. split_and!; try done; apply NoDup_nil_2.
  - left. reflexivity.
  - right. split; reflexivity.
  - exists limits. split; [exact H1|]. destruct (H "requests_per_minute") as [H2 _]. exact H2.
Defined.

Lemma usage_agrees_witness :
  ∃ ul, (get_current_user_limits text_jsonb (λ _, None) 5 owner_of_acme acme).1 = Ok ul ∧ assoc "spaces" (ul_usage ul) = Some 0.
Proof.
  eexists. split; [reflexivity|].
  exact (proj1 (proj2 (usage_agrees text_jsonb (λ _, None) 5 owner_of_acme acme _ acme (po_estate _ acme_ok) eq_refl eq_refl))).
Defined.

Lemma profile_spec_witness :
  match get_current_user_profile (λ _, None) owner_of_acme acme with
  | (Ok profile, _) => up_current_tenant profile = mkTenantInfo tenant1 "Acme" "acme" "owner" ∧
                       up_current_tenant profile ∈ up_all_tenants profile
  | _ => False
  end.
Proof.
  set (dec := λ (_ : Z) (_ _ : string), Ok (mkJwtPayload user1 tenant1 "owner" 99 0) : result exn JwtPayload).
  assert (get_current_tenant plain_checkpw dec true (Some "s") 6 None (Some "token") (pf_auth acme) =
          (Ok owner_of_acme, pf_auth acme)) as Hctx by reflexivity.
  pose proof (profile_spec (λ _, None) plain_checkpw dec true (Some "s") 6 None (Some "token") acme owner_of_acme
    (pf_auth acme) _ _ acme_ok Hctx (surjective_pairing _)) as [_ H].
  destruct (H _ eq_refl) as (role & [= <-] & H1 & H2). split; [exact H1|exact H2].
Defined.

Lemma members_listed_witness :
  ∃ l, (list_tenant_users (λ _, None) owner_of_acme acme).1 = Ok l ∧ NoDup (map (λ w, ur_id (uw_user w)) l) ∧ length l = 1%nat.
Proof.
  eexists. split; [reflexivity|].
  split; [|reflexivity]. exact (proj1 (proj2 (members_listed (λ _, None) owner_of_acme acme _ acme eq_refl))).
Defined.
