(* ===== verification/ApiKeyScript.v ===== *)
(** * ApiKeyScript: the command line tool for API keys

    Models src/scripts/manage_api_keys.py, which works on the table [api_keys] next to the
    endpoints of Auth.v: every command is a process of its own with a connection of its
    own, and what it prints is its value.  The key that [secrets.token_urlsafe] draws, the
    salt and the id of a new row are arguments; bcrypt and what the driver makes of a text
    given for a UUID column ([as_uuid]) are parameters; a call raises what [fault] says. *)

From S2P Require Import Prelude PyUtils Json Models Database Auth.

Open Scope Z_scope.

Inductive KeyCall := KConnect | KInsert | KSelect | KUpdate.

(** What a command prints *)
Record KeyLine := mkKeyLine {
  kl_id : string; kl_name : string; kl_is_admin : bool; kl_is_active : bool; kl_last_used : option Z;
}.

Inductive Report :=
| KeyCreated (id name : string) (is_admin : bool) (created_at : Z) (api_key : string)
| KeyTable (lines : list KeyLine) (total : Z)
| KeyNotFound (key_id : string)
| KeyAlready (active : bool) (name : option string)
| KeySwitched (active : bool) (name : option string)
| KeyValid (name : option string) (id : string) (is_admin : bool)
| KeyInvalid.

Inductive Command :=
| Create (api_key salt new_id name : string) (admin : bool)
| ListKeys
| Revoke (key_id : string)
| Activate (key_id : string)
| Test (api_key : string).

Definition set_key_active (active : bool) (k : ApiKeyRow) : ApiKeyRow :=
  mkApiKeyRow (ak_id k) (ak_key_hash k) (ak_key_name k) (ak_tenant_id k) (ak_scopes k) active (ak_is_admin k)
    (ak_last_used_at k) (ak_created_at k).

Definition is_key (key_id : string) (k : ApiKeyRow) : bool := String.eqb (ak_id k) key_id.

(** The default of the column, migration 003 *)
Definition default_scopes : list string := ["spaces:read"; "devices:read"].

#[local] Instance newer_key_rel : RelDecision newer_key := fun a b => decide (ak_created_at b ≤ ak_created_at a).

Section Script.
Context (checkpw : string → string → result exn bool) (hashpw : string → string → string).
Context (as_uuid : string → result exn string) (fault : KeyCall → option exn).

(** [hash_api_key] of auth.py, with the salt that [bcrypt.gensalt] draws *)
Definition hash_api_key (salt api_key : string) : string := hashpw api_key salt.

Definition connect : stE AuthDb exn unit := may_fail (fault KConnect) (mret tt).

(** INSERT INTO api_keys (key_hash, key_name, is_admin, is_active) *)
Definition insert_key (row : ApiKeyRow) : stE AuthDb exn ApiKeyRow := λ d,
  if negb (on_opt (len_between 0 100) (ak_key_name row))
  then (Err (PyException "value too long for type character varying(100)"), d)
  else if existsb (λ k, String.eqb (ak_key_hash k) (ak_key_hash row)) (api_keys d)
  then (Err (unique_violation "unique_key_hash"), d)
  else (Ok row, with_api_keys (λ l, l ++ [row])%list d).

Definition create_api_key (now : Z) (api_key salt new_id name : string) (is_admin : bool) : stE AuthDb exn Report :=
  _ ← connect;
  row ← may_fail (fault KInsert)
    (insert_key (mkApiKeyRow new_id (hash_api_key salt api_key) (Some name) None default_scopes true is_admin None now));
  mret (KeyCreated (ak_id row) name is_admin (ak_created_at row) api_key).

(** The lines of the table; a row without a name cannot be formatted. *)
Fixpoint key_lines (rows : list ApiKeyRow) : result exn (list KeyLine) :=
  match rows with
  | [] => Ok []
  | k :: rows =>
      name ← match ak_key_name k with
             | Some name => Ok name
             | None => Err (PyException "unsupported format string passed to NoneType.__format__")
             end;
      lines ← key_lines rows;
      mret (mkKeyLine (ak_id k) name (ak_is_admin k) (ak_is_active k) (ak_last_used_at k) :: lines)
  end.

Definition list_api_keys : stE AuthDb exn Report :=
  _ ← connect;
  rows ← may_fail (fault KSelect) (d ← get_st; mret (merge_sort newer_key (api_keys d)));
  lines ← lift (key_lines rows);
  mret (KeyTable lines (Z.of_nat (length rows))).

(** The row of the key, for both switches *)
Definition find_key (key_id : string) : stE AuthDb exn (option ApiKeyRow) :=
  may_fail (fault KSelect) (id ← lift (as_uuid key_id); d ← get_st; mret (fetchrow (is_key id) (api_keys d))).

(** UPDATE api_keys SET is_active *)
Definition store_active (key_id : string) (active : bool) : stE AuthDb exn unit :=
  may_fail (fault KUpdate)
    (id ← lift (as_uuid key_id); modify_st (with_api_keys (sql_update (is_key id) (set_key_active active)))).

Definition revoke_api_key (key_id : string) : stE AuthDb exn Report :=
  _ ← connect;
  row ← find_key key_id;
  match row with
  | None => mret (KeyNotFound key_id)
  | Some k =>
      if negb (ak_is_active k) then mret (KeyAlready false (ak_key_name k))
      else _ ← store_active key_id false; mret (KeySwitched false (ak_key_name k))
  end.

Definition activate_api_key (key_id : string) : stE AuthDb exn Report :=
  _ ← connect;
  row ← find_key key_id;
  match row with
  | None => mret (KeyNotFound key_id)
  | Some k =>
      if ak_is_active k then mret (KeyAlready true (ak_key_name k))
      else _ ← store_active key_id true; mret (KeySwitched true (ak_key_name k))
  end.

(** With a pool of its own, which [set_db_pool] hands to auth.py *)
Definition test_api_key (now : Z) (api_key : string) : stE AuthDb exn Report :=
  _ ← connect;
  key_info ← verify_api_key checkpw true now api_key;
  mret match key_info with
       | Some info => KeyValid (ki_name info) (ki_id info) (ki_is_admin info)
       | None => KeyInvalid
       end.

Definition main (now : Z) (c : Command) : stE AuthDb exn Report :=
  match c with
  | Create api_key salt new_id name admin => create_api_key now api_key salt new_id name admin
  | ListKeys => list_api_keys
  | Revoke key_id => revoke_api_key key_id
  | Activate key_id => activate_api_key key_id
  | Test api_key => test_api_key now api_key
  end.

(** One command after the other; a failing one does not keep the operator from the next. *)
Fixpoint session (cs : list (Z * Command)) (d : AuthDb) : AuthDb :=
  match cs with [] => d | (now, c) :: cs => session cs (main now c d).2 end.
End Script.

(** ** Properties *)

Section Facts.
Context (checkpw : string → string → result exn bool) (hashpw : string → string → string).
Context (as_uuid : string → result exn string).
Context (jwt_decode : Z → string → string → result exn JwtPayload).

Abbreviation run := (main checkpw hashpw as_uuid (λ _, None)).
Abbreviation run_session := (session checkpw hashpw as_uuid (λ _, None)).

Lemma check_keys_none now key rows d :
  (∀ k, k ∈ rows → checkpw key (ak_key_hash k) ≠ Ok true) → check_keys checkpw now key rows d = (Ok None, d).
Proof.
  induction rows as [|k rows IH]; intros H; [done|]. cbn [check_keys].
  pose proof (H k ltac:(by left)) as Hk.
  destruct (checkpw key (ak_key_hash k)) as [[]|]; [done| |]; apply IH; intros x Hx; apply H; by right.
Qed.

Lemma check_keys_only now key l1 k l2 d :
  (∀ x, x ∈ l1 → checkpw key (ak_key_hash x) ≠ Ok true) → checkpw key (ak_key_hash k) = Ok true →
  check_keys checkpw now key (l1 ++ k :: l2)%list d =
    (Ok (Some (mkAPIKeyInfo (ak_id k) (ak_key_name k) (ak_is_admin k))),
     with_api_keys (sql_update (λ x, String.eqb (ak_id x) (ak_id k)) (touch_key now)) d).
Proof.
  intros Hl Hk. induction l1 as [|x l1 IH]; cbn [app check_keys]; [by rewrite Hk|].
  pose proof (Hl x ltac:(by left)) as Hx.
  destruct (checkpw key (ak_key_hash x)) as [[]|]; [done| |]; apply IH; intros y Hy; apply Hl; by right.
Qed.

(** The row of a key made by the tool: the only one the key matches, without a tenant *)
Definition key_stored (api_key id name : string) (admin active : bool) (d : AuthDb) : Prop := ∃ l1 k l2,
  api_keys d = (l1 ++ k :: l2)%list ∧ ak_id k = id ∧ checkpw api_key (ak_key_hash k) = Ok true ∧
  ak_key_name k = Some name ∧ ak_is_admin k = admin ∧ ak_tenant_id k = None ∧ ak_is_active k = active ∧
  ∀ x, x ∈ (l1 ++ l2)%list → ak_id x ≠ id ∧ checkpw api_key (ak_key_hash x) ≠ Ok true.

(** What a command does to the key with that id *)
Definition switched (id : string) (c : Command) (active : bool) : bool :=
  let hit key_id := match as_uuid key_id with Ok i => String.eqb i id | Err _ => false end in
  match c with
  | Revoke key_id => if hit key_id then false else active
  | Activate key_id => if hit key_id then true else active
  | _ => active
  end.

(** Later keys have ids of their own and do not share the secret. *)
Definition distinct_from (api_key id : string) (c : Command) : Prop :=
  match c with
  | Create key salt new_id _ _ => new_id ≠ id ∧ checkpw api_key (hashpw key salt) ≠ Ok true
  | _ => True
  end.

Lemma key_stored_map api_key id name admin a b (f : ApiKeyRow → ApiKeyRow) d :
  (∀ k, ak_id (f k) = ak_id k ∧ ak_key_hash (f k) = ak_key_hash k ∧ ak_key_name (f k) = ak_key_name k ∧
        ak_is_admin (f k) = ak_is_admin k ∧ ak_tenant_id (f k) = ak_tenant_id k) →
  (∀ k, ak_id k = id → ak_is_active k = a → ak_is_active (f k) = b) →
  key_stored api_key id name admin a d → key_stored api_key id name admin b (with_api_keys (map f) d).
Proof.
  intros Hf Hb (l1 & k & l2 & Hd & Hid & Hk & Hn & Had & Ht & Ha & Ho). destruct (Hf k) as (E1 & E2 & E3 & E4 & E5).
  exists (map f l1), (f k), (map f l2). cbn [api_keys with_api_keys]. rewrite Hd, map_app. split; [done|].
  rewrite E1, E2, E3, E4, E5. split_and!; try done; [by apply Hb|].
  rewrite <- map_app. intros x Hx. apply list_elem_of_In, in_map_iff in Hx as (y & <- & Hy%list_elem_of_In).
  destruct (Hf y) as (-> & -> & _). by apply Ho.
Qed.

Lemma key_stored_found api_key id name admin active d :
  key_stored api_key id name admin active d → ∃ k, fetchrow (is_key id) (api_keys d) = Some k ∧ ak_is_active k = active.
Proof.
  intros (l1 & k & l2 & -> & Hid & _ & _ & _ & _ & Ha & Ho). exists k. split; [|done].
  rewrite fetchrow_app. unfold fetchrow, is_key. rewrite find_no; [cbn; by rewrite Hid, String.eqb_refl|].
  intros x Hx. apply String.eqb_neq, Ho. apply elem_of_app. by left.
Qed.

(** A switch of some key *)
Lemma key_stored_switch api_key id name admin a b i d :
  key_stored api_key id name admin a d →
  key_stored api_key id name admin (if String.eqb i id then b else a)
    (with_api_keys (sql_update (is_key i) (set_key_active b)) d).
Proof.
  apply key_stored_map; intros k; unfold is_key; [by destruct (String.eqb _ _)|].
  intros -> Ha. rewrite (String.eqb_sym id). by destruct (String.eqb i id).
Qed.

Lemma create_stored now key salt new_id n adm api_key id name admin active d :
  key_stored api_key id name admin active d → new_id ≠ id → checkpw api_key (hashpw key salt) ≠ Ok true →
  key_stored api_key id name admin active (run now (Create key salt new_id n adm) d).2.
Proof.
  intros Hd H1 H2. cbn [main]. unfold create_api_key, connect, insert_key, may_fail, mbind, stE_bind, mret, stE_ret.
  destruct (negb _); [done|]. destruct (existsb _ _); [done|]. cbn.
  destruct Hd as (l1 & k & l2 & Hd & Hid & Hk & Hn & Had & Ht & Ha & Ho).
  eexists l1, k, (l2 ++ [_])%list. cbn [api_keys with_api_keys]. rewrite Hd, <- app_assoc. split; [done|].
  split_and!; try done. intros x. rewrite app_assoc. intros [Hx| ->%list_elem_of_singleton]%elem_of_app; [by apply Ho|done].
Qed.

(** Both switches: nothing for an unknown key or one that is as asked, else the UPDATE *)
#[local] Ltac switch_stored id Hd b :=
  unfold revoke_api_key, activate_api_key, connect, find_key, store_active, may_fail, lift, get_st, modify_st, mbind, stE_bind,
    mret, stE_ret;
  match goal with |- context [as_uuid ?i] =>
    let j := fresh "j" in let Hj := fresh "Hj" in
    destruct (as_uuid i) as [j|]; [|done];
    pose proof (key_stored_switch _ _ _ _ _ b j _ Hd) as H;
    destruct (String.eqb_spec j id) as [Hj|Hj];
    [ let k := fresh "k" in let Ha := fresh "Ha" in
      rewrite Hj; destruct (key_stored_found _ _ _ _ _ _ Hd) as (k & -> & Ha); destruct (ak_is_active k); cbn; subst; done
    | destruct (fetchrow _ _) as [k|]; [|done]; destruct (ak_is_active k); done ]
  end.

Lemma main_stored now c api_key id name admin active d :
  key_stored api_key id name admin active d → distinct_from api_key id c →
  key_stored api_key id name admin (switched id c active) (run now c d).2.
Proof.
  intros Hd Hc. destruct c as [key salt new_id n adm| |i|i|key]; cbn [switched].
  - destruct Hc. by apply create_stored.
  - cbn [main]. unfold list_api_keys, connect, may_fail, lift, get_st, mbind, stE_bind, mret, stE_ret. by destruct (key_lines _).
  - cbn [main]. switch_stored id Hd false.
  - cbn [main]. switch_stored id Hd true.
  - cbn [main]. unfold test_api_key, verify_api_key, connect, may_fail, get_st, mbind, stE_bind, mret, stE_ret. cbn [negb].
    pose proof (check_keys_spec checkpw now key (List.filter ak_is_active (api_keys d)) d) as Hs.
    destruct (check_keys _ _ _ _ _) as [[[info|]|e] d']; cbn; [|by subst d'|done].
    destruct Hs as (row & _ & _ & _ & ->). revert Hd. apply key_stored_map; intros k; by destruct (String.eqb _ _).
Qed.

Lemma session_stored api_key id name admin cs active d :
  key_stored api_key id name admin active d → Forall (λ c, distinct_from api_key id c.2) cs →
  key_stored api_key id name admin (fold_left (λ a c, switched id c.2 a) cs active) (run_session cs d).
Proof.
  intros Hd Hcs. revert active d Hd. induction Hcs as [|[t c] cs Hc _ IH]; intros active d Hd; [done|].
  cbn [session fold_left]. by apply IH, main_stored.
Qed.

(** Of the only row a key matches, the check tells whether it is active; but as the row has
    no tenant, the key gives no request a context. *)
Lemma stored_verifies api_key id name admin active t d :
  key_stored api_key id name admin active d →
  match verify_api_key checkpw true t api_key d with
  | (r, d') => r = Ok (if active then Some (mkAPIKeyInfo id (Some name) admin) else None) ∧
               key_stored api_key id name admin active d'
  end.
Proof.
  intros Hd. pose proof (main_stored t (Test api_key) _ _ _ _ _ _ Hd I) as Hs. revert Hs.
  cbn [main switched]. unfold test_api_key, verify_api_key, connect, may_fail, get_st, mbind, stE_bind, mret, stE_ret. cbn [negb].
  destruct Hd as (l1 & k & l2 & -> & Hid & Hk & Hn & Had & Ht & Ha & Ho). rewrite List.filter_app. cbn [List.filter].
  assert (∀ l x, x ∈ List.filter ak_is_active l → x ∈ l) as Hsub by (intros l x [Hx _]%filter_In_elem; done).
  rewrite Ha. destruct active.
  - rewrite check_keys_only; [|intros x Hx%Hsub; apply Ho, elem_of_app; by left|done].
    rewrite Hid, Hn, Had. by split.
  - rewrite check_keys_none; [by split|]. intros x [Hx%Hsub|Hx%Hsub]%elem_of_app; apply Ho, elem_of_app; auto.
Qed.

Lemma stored_no_context api_key id name admin active t secret d :
  key_stored api_key id name admin active d →
  (get_current_tenant checkpw jwt_decode true secret t (Some api_key) None d).1 =
    Err (HTTPException 401 "Authentication required. Provide either JWT Bearer token or X-API-Key header.").
Proof.
  intros Hd. unfold get_current_tenant, jwt_context, get_st, mbind, stE_bind. cbn [truthy].
  destruct api_key as [|a0 key0]; [done|]. set (api_key := String a0 key0) in *. cbn [or_else]. pose proof (stored_verifies _ _ _ _ _ t _ Hd) as H.
  destruct (verify_api_key _ _ _ _ _) as [r d']. destruct H as [-> (l1 & k & l2 & Hl & Hid & _ & _ & _ & Ht & _ & Ho)].
  destruct active; [|done]. unfold mret, stE_ret, resolve_tenant_from_api_key. cbn [negb ki_id].
  assert (key_with_tenant id d' = None) as ->; [|done].
  unfold key_with_tenant, fetchrow. rewrite find_no; [done|]. intros x. rewrite Hl.
  intros [Hx|[->|Hx]%elem_of_cons]%elem_of_app.
  - rewrite (proj2 (String.eqb_neq _ _)); [done|]. apply Ho, elem_of_app. by left.
  - by rewrite Ht, andb_false_r.
  - rewrite (proj2 (String.eqb_neq _ _)); [done|]. apply Ho, elem_of_app. by right.
Qed.

(** The life of a key made by the tool.  Once the tool has created a key, whatever commands
    follow in whatever order, it calls that key valid exactly when the last switch that
    named it was not a revocation; and through all of that life no request that carries the
    key gets a tenant, although the tool prints a request for the spaces as its usage: the
    tool stores no tenant, and the key's resolution joins with the tenants. *)
Theorem script_key_history now api_key salt id name admin cs d r d1 :
  checkpw api_key (hashpw api_key salt) = Ok true →
  (∀ k, k ∈ api_keys d → ak_id k ≠ id ∧ checkpw api_key (ak_key_hash k) ≠ Ok true) →
  run now (Create api_key salt id name admin) d = (Ok r, d1) →
  Forall (λ c, distinct_from api_key id c.2) cs →
  let d2 := run_session cs d1 in
  let active := fold_left (λ a c, switched id c.2 a) cs true in
  (∀ t, (run t (Test api_key) d2).1 = Ok (if active then KeyValid (Some name) id admin else KeyInvalid)) ∧
  ∀ t secret, (get_current_tenant checkpw jwt_decode true secret t (Some api_key) None d2).1 =
    Err (HTTPException 401 "Authentication required. Provide either JWT Bearer token or X-API-Key header.").
Proof.
  intros Hpw Ho Hc Hcs d2 active. assert (key_stored api_key id name admin active d2) as Hd.
  { apply session_stored; [|done]. revert Hc. cbn [main].
    unfold create_api_key, connect, insert_key, may_fail, mbind, stE_bind, mret, stE_ret.
    destruct (negb _); [done|]. destruct (existsb _ _); [done|]. intros [= _ <-].
    eexists (api_keys d), _, []. split; [reflexivity|]. split_and!; try done. by rewrite app_nil_r. }
  clearbody active d2. split; intros t; [|intros secret; by eapply stored_no_context].
  cbn [main]. unfold test_api_key, connect, may_fail, mbind, stE_bind, mret, stE_ret.
  pose proof (stored_verifies _ _ _ _ _ t _ Hd) as H. destruct (verify_api_key _ _ _ _ _) as [r' d'].
  destruct H as [-> _]. by destruct active.
Qed.
End Facts.

(** ** Witness *)

Definition tool_keys : list (Z * Command) :=
  [(2, Create "other" "salt" "k2" "Other" true); (3, Revoke "k1"); (4, ListKeys); (5, Revoke "k1"); (6, Activate "k1"); (7, Test "plain")].

Lemma script_key_history_witness :
  let d1 := (main plain_checkpw plain_hashpw Ok (λ _, None) 1 (Create "plain" "salt" "k1" "My App Key" true) auth_db).2 in
  (main plain_checkpw plain_hashpw Ok (λ _, None) 9 (Test "plain") (session plain_checkpw plain_hashpw Ok (λ _, None) tool_keys d1)).1
    = Ok (KeyValid (Some "My App Key") "k1" true) ∧
  (get_current_tenant plain_checkpw plain_jwt_decode true (Some "s") 9 (Some "plain") None
     (session plain_checkpw plain_hashpw Ok (λ _, None) tool_keys d1)).1
    = Err (HTTPException 401 "Authentication required. Provide either JWT Bearer token or X-API-Key header.").
Proof.
  intros d1. destruct (script_key_history plain_checkpw plain_hashpw Ok plain_jwt_decode 1 "plain" "salt" "k1" "My App Key" true
    tool_keys auth_db (KeyCreated "k1" "My App Key" true 1 "plain") d1) as [H1 H2].
  - reflexivity.
  - intros k ->%list_elem_of_singleton. split; [discriminate|vm_compute; discriminate].
  - reflexivity.
  - repeat (apply Forall_cons; split; [first [exact I|split; [discriminate|vm_compute; discriminate]]|]). apply Forall_nil_2.
  - split; [exact (H1 9)|exact (H2 9 (Some "s"))].
Defined.
