(* ===== verification/AdminUser.v ===== *)
(** * AdminUser: the script that makes an owner of the default organisation

    Models src/create_admin_user.py on the accounts of Auth.v with the constraints of
    Tenants.v.  The constants at the top of the script (the email, the name, the password
    and the tenant) are a record, [Admin]; new ids and the salt are arguments, bcrypt is a
    parameter, and a call raises what [fault] says.  All the script does after connecting
    is one transaction. *)

From S2P Require Import Prelude PyUtils Json Models Database Auth RefreshTokens Estate Tenants.

Open Scope Z_scope.

Inductive AdminCall := AConnect | AUserRow | ASetPassword | AInsertUser | AMemberRow | ASetRole | AInsertMember | ATenantRow.

Record Admin := mkAdmin { EMAIL : string; NAME : string; PASSWORD : string; TENANT_ID : string }.

(** What the script prints: whether the user existed, the role it found, and the login *)
Record AdminReport := mkAdminReport {
  ar_existed : bool; ar_user_id : string; ar_previous_role : option string; ar_tenant_name : string; ar_tenant_slug : string;
}.

Definition created_by : json := JObj [("created_by", JText "admin_script")].

Definition set_password (now : Z) (hash : string) (u : UserRow) : UserRow :=
  mkUserRow (us_id u) (us_email u) (us_name u) hash (us_metadata u) (us_is_active u) (us_email_verified u) (us_created_at u)
    now (us_last_login_at u).

Definition make_owner (m : Membership) : Membership :=
  mkMembership (um_id m) (um_user_id m) (um_tenant_id m) "owner" (um_is_active m) (um_created_at m).

Section Script.
Context (admin : Admin) (hashpw : string → string → result exn string) (fault : AdminCall → option exn).

Definition select_row {A} (c : AdminCall) (f : AuthDb → A) : stE AuthDb exn A :=
  may_fail (fault c) (λ d, (Ok (f d), d)).

Definition has_email (u : UserRow) : bool := String.eqb (str_lower (us_email u)) (str_lower (EMAIL admin)).

Definition admin_row (now : Z) (new_id hash : string) : UserRow :=
  mkUserRow new_id (str_lower (EMAIL admin)) (NAME admin) hash (Some created_by) true true now now None.

(** The user: with a new password, or a new one *)
Definition ensure_user (now : Z) (new_id hash : string) : stE AuthDb exn (bool * string) :=
  existing_user ← select_row AUserRow (λ d, fetchrow has_email (users d));
  match existing_user with
  | Some u =>
      _ ← may_fail (fault ASetPassword)
        (modify_st (with_users (sql_update (λ x, String.eqb (us_id x) (us_id u)) (set_password now hash))));
      mret (true, us_id u)
  | None =>
      u ← may_fail (fault AInsertUser) (insert_user (admin_row now new_id hash));
      mret (false, us_id u)
  end.

Definition is_member (user_id : string) (m : Membership) : bool :=
  String.eqb (um_user_id m) user_id && String.eqb (um_tenant_id m) (TENANT_ID admin).

(** The membership: made an owner's, or a new one; the role it had *)
Definition ensure_owner (now : Z) (new_id user_id : string) : stE AuthDb exn (option string) :=
  existing_membership ← select_row AMemberRow (λ d, fetchrow (is_member user_id) (user_memberships d));
  match existing_membership with
  | Some m =>
      if negb (String.eqb (um_role m) "owner")
      then _ ← may_fail (fault ASetRole)
             (modify_st (with_memberships (sql_update (λ x, String.eqb (um_id x) (um_id m)) make_owner)));
           mret (Some (um_role m))
      else mret (Some (um_role m))
  | None =>
      _ ← may_fail (fault AInsertMember) (insert_membership (mkMembership new_id user_id (TENANT_ID admin) "owner" true now));
      mret None
  end.

Definition create_admin_user (now : Z) (new_user_id new_member_id salt : string) : stE AuthDb exn AdminReport :=
  hash ← lift (hashpw (PASSWORD admin) salt);
  _ ← may_fail (fault AConnect) (mret tt);
  transaction (
    '(existed, user_id) ← ensure_user now new_user_id hash;
    role ← ensure_owner now new_member_id user_id;
    tenant ← select_row ATenantRow (λ d, fetchrow (λ t, String.eqb (tn_id t) (TENANT_ID admin)) (tenants d));
    match tenant with
    | None => raise (PyException "'NoneType' object is not subscriptable")
    | Some t => mret (mkAdminReport existed user_id role (tn_name t) (tn_slug t))
    end).
End Script.

(** ** Properties *)

Lemma apart_map {A} (R : A → A → bool) (f : A → A) l :
  (∀ a b, R (f a) (f b) = R a b) → apart R l → apart R (map f l).
Proof.
  intros Hf Hl i j a b Hi Hj Hij. change (map f l) with (f <$> l) in Hi, Hj.
  apply list_lookup_fmap_Some in Hi as (x & -> & Hi), Hj as (y & -> & Hj). rewrite Hf. by eapply Hl.
Qed.

Lemma filter_single {A} (p : A → bool) l x :
  NoDup l → x ∈ l → p x = true → (∀ y, y ∈ l → p y = true → y = x) → List.filter p l = [x].
Proof.
  intros Hn Hx Hp Hu. induction l as [|y l IH]; [by apply elem_of_nil in Hx|]. apply NoDup_cons in Hn as [Hy Hn]. cbn.
  destruct (p y) eqn:E.
  - assert (y = x) as -> by (apply Hu; [by left|done]). f_equal. apply filter_nil. intros z Hz.
    destruct (p z) eqn:Ez; [|done]. destruct Hy. by rewrite <- (Hu z ltac:(by right) Ez).
  - apply elem_of_cons in Hx as [->|Hx]; [congruence|]. apply IH; [done|done|]. intros z Hz. apply Hu. by right.
Qed.

Section Facts.
Context (admin : Admin) (hashpw : string → string → result exn string) (es : Estate).

Abbreviation ok d := (platform_ok (mkPlatform d es)).

Lemma ensure_user_ok fault now new_id hash d r d' :
  ok d → ensure_user admin fault now new_id hash d = (Ok r, d') →
  ok d' ∧ tenants d' = tenants d ∧ user_memberships d' = user_memberships d ∧
  ∃ u, u ∈ users d' ∧ us_id u = r.2 ∧ has_email admin u = true ∧ us_password_hash u = hash ∧
    if r.1 then ∃ u0, u0 ∈ users d ∧ u = set_password now hash u0
    else u = admin_row admin now new_id hash ∧ ∀ x, x ∈ users d → has_email admin x = false ∧ us_id x ≠ new_id.
Proof.
  intros Hok. unfold ensure_user, select_row, may_fail, mbind, stE_bind, mret, stE_ret.
  destruct (fault AUserRow); [done|]. destruct (fetchrow _ (users d)) as [u|] eqn:Eu.
  - destruct (fault ASetPassword); [done|]. intros [= <- <-]. apply fetchrow_elem in Eu as [Hu He].
    split; [|split; [done|split; [done|]]].
    + apply (accounts_kept_ok d); [|done]. split_and!; [done..|]. cbn. unfold sql_update. rewrite map_map.
      apply map_ext. intros x. by destruct (String.eqb _ _).
    + exists (set_password now hash u). split_and!; [|done..|by exists u]. cbn. apply list_elem_of_fmap. exists u.
      by rewrite String.eqb_refl.
  - destruct (fault AInsertUser); [done|]. destruct (insert_user _ d) as [[u|] d1] eqn:E; [|done]. intros [= <- <-].
    apply insert_user_spec in E as (-> & -> & Hc). split; [|split; [done|split; [done|]]].
    + destruct Hok as [Hus Htn Hmem Hlinks Hown Hsites Hes]. constructor; cbn in *; [|done|done| |done..].
      * apply apart_app; [|done..]. intros a b. unfold user_conflict. by rewrite String.eqb_sym, (String.eqb_sym (str_lower _)).
      * intros m Hm. destruct (Hlinks m Hm) as [H1 H2]. split; [|done]. rewrite map_app. apply elem_of_app. by left.
    + eexists. split_and!; [apply elem_of_app; right; by apply list_elem_of_singleton|done| |done|split; [done|]].
      * unfold has_email. cbn. rewrite str_lower_idemp. by apply String.eqb_refl.
      * intros x Hx. split.
        -- unfold fetchrow in Eu. apply list_elem_of_In in Hx. by apply (find_none _ _ Eu).
        -- intros Heq. specialize (Hc x Hx). unfold user_conflict in Hc. cbn in Hc. by rewrite Heq, String.eqb_refl in Hc.
Qed.

(** The UPDATE of the role *)
Lemma made_owner_ok m d :
  ok d → ok (with_memberships (sql_update (λ x, String.eqb (um_id x) (um_id m)) make_owner) d).
Proof.
  intros [Hus Htn Hmem Hlinks Hown Hsites Hes]. set (g := λ x, if String.eqb (um_id x) (um_id m) then make_owner x else x).
  change (sql_update _ make_owner) with (map g).
  assert (∀ x, um_id (g x) = um_id x ∧ um_user_id (g x) = um_user_id x ∧ um_tenant_id (g x) = um_tenant_id x ∧
               (um_role x = "owner" → um_role (g x) = "owner")) as Hk by (intros x; unfold g; by destruct (String.eqb _ _)).
  constructor; cbn in *; [done|done| | | |done..].
  - apply apart_map; [|done]. intros a b. unfold member_conflict, same_pair.
    destruct (Hk a) as (-> & -> & -> & _), (Hk b) as (-> & -> & -> & _). done.
  - intros x (y & -> & Hy)%list_elem_of_fmap. destruct (Hk y) as (_ & -> & -> & _). by apply Hlinks.
  - intros t Ht Hd. destruct (Hown t Ht Hd) as (x & Hx & Hxt & Hxr). exists (g x).
    split; [apply list_elem_of_fmap; by exists x|]. destruct (Hk x) as (_ & _ & -> & Hr). split; [done|]. by apply Hr.
Qed.

Lemma ensure_owner_ok fault now new_id user_id d r d' :
  ok d → ensure_owner admin fault now new_id user_id d = (Ok r, d') →
  ok d' ∧ tenants d' = tenants d ∧ users d' = users d ∧
  ∃ m, m ∈ user_memberships d' ∧ is_member admin user_id m = true ∧ um_role m = "owner" ∧
    (∀ x, x ∈ user_memberships d' → x = m ∨ x ∈ user_memberships d) ∧
    (um_is_active m = true ∨ ∃ m0, m0 ∈ user_memberships d ∧ is_member admin user_id m0 = true).
Proof.
  intros Hok. unfold ensure_owner, select_row, may_fail, mbind, stE_bind, mret, stE_ret.
  destruct (fault AMemberRow); [done|]. destruct (fetchrow _ (user_memberships d)) as [m|] eqn:Em.
  - apply fetchrow_elem in Em as [Hm Hp]. destruct (String.eqb_spec (um_role m) "owner") as [Er|Er]; cbn [negb].
    + intros [= <- <-]. split_and!; try done. exists m. split_and!; try done; [by right|eauto].
    + destruct (fault ASetRole); [done|]. intros [= <- <-].
      split; [by apply made_owner_ok|split; [done|split; [done|]]]. exists (make_owner m). split_and!; [|done|done| |eauto].
      * cbn. apply list_elem_of_fmap. exists m. by rewrite String.eqb_refl.
      * cbn. intros x (y & -> & Hy)%list_elem_of_fmap. destruct (String.eqb_spec (um_id y) (um_id m)) as [E|E]; [left|by right].
        f_equal. apply (apart_unique member_conflict (user_memberships d)); [apply (po_members _ Hok)|done|done|].
        unfold member_conflict. by rewrite E, String.eqb_refl.
  - destruct (fault AInsertMember); [done|]. destruct (insert_membership _ d) as [[m|] d1] eqn:E; [|done]. intros [= <- <-].
    apply insert_membership_spec in E as (-> & -> & Hc & Hu & Ht). split; [|split; [done|split; [done|]]].
    + destruct Hok as [Hus Htn Hmem Hlinks Hown Hsites Hes]. constructor; cbn in *; [done|done| | | |done..].
      * apply apart_app; [|done..]. intros a b. unfold member_conflict, same_pair.
        by rewrite String.eqb_sym, (String.eqb_sym (um_user_id _)), (String.eqb_sym (um_tenant_id _)).
      * intros x [Hx| ->%list_elem_of_singleton]%elem_of_app; [by apply Hlinks|done].
      * intros t Htt Hd. destruct (Hown t Htt Hd) as (x & Hx & H). exists x. split; [apply elem_of_app; by left|done].
    + eexists. split_and!; [apply elem_of_app; right; by apply list_elem_of_singleton| |done| |by left].
      * unfold is_member. cbn. by rewrite !String.eqb_refl.
      * intros x [Hx| ->%list_elem_of_singleton]%elem_of_app; [by right|by left].
Qed.

Context {T : TokenTable} (hash_token : string → string) (checkpw : string → string → result exn bool).
Context (jwt_encode : JwtPayload → string → string) (key : option string).
Context (hash_check : ∀ pw salt h, hashpw pw salt = Ok h → checkpw pw h = Ok true).

(** A new user has no other membership. *)
Lemma new_user_alone now new_id hash d d1 d2 u m :
  ok d → user_memberships d1 = user_memberships d →
  u = admin_row admin now new_id hash ∧ (∀ x, x ∈ users d → has_email admin x = false ∧ us_id x ≠ new_id) →
  (∀ x, x ∈ user_memberships d2 → x = m ∨ x ∈ user_memberships d1) →
  (um_is_active m = true ∨ ∃ m0, m0 ∈ user_memberships d1 ∧ is_member admin (us_id u) m0 = true) →
  us_is_active u = true ∧ us_email u = str_lower (EMAIL admin) ∧ um_is_active m = true ∧
  ∀ x, x ∈ user_memberships d2 → um_user_id x = us_id u → x = m.
Proof.
  intros Hok Hm1 [-> Hnew] Honly Hact. rewrite Hm1 in Honly, Hact.
  assert (∀ x, x ∈ user_memberships d → um_user_id x ≠ new_id) as Hno.
  { intros x Hx Heq. destruct (po_links _ Hok x Hx) as [Hl _]. cbn in Hl.
    apply list_elem_of_In, in_map_iff in Hl as (y & Hy & Hin%list_elem_of_In). apply (Hnew y Hin). congruence. }
  split_and!; [done|done| |].
  - destruct Hact as [?|(m0 & Hm0 & [Hu _]%andb_true_iff)]; [done|]. apply String.eqb_eq in Hu. by destruct (Hno m0 Hm0).
  - intros x Hx Heq. destruct (Honly x Hx) as [?|Hd]; [done|]. by destruct (Hno x Hd).
Qed.

(** The login of a user whose only membership is an active owner's one in an active tenant *)
Lemma owner_login now email password new_token client d u m t :
  ok d → truthy key = true → u ∈ users d → us_email u = str_lower email → checkpw password (us_password_hash u) = Ok true →
  m ∈ user_memberships d → um_user_id m = us_id u → um_tenant_id m = tn_id t → um_role m = "owner" →
  t ∈ tenants d → tn_is_active t = true → um_is_active m = true →
  (∀ x, x ∈ user_memberships d → um_user_id x = us_id u → x = m) →
  on_opt (len_between 0 255) (cl_device_fingerprint client) = true →
  (∀ x, x ∈ refresh_tokens d → rt_token_hash x ≠ hash_token new_token) →
  let '(answer, d') := login hash_token checkpw jwt_encode key now email password new_token client d in
  if us_is_active u then
    match T with
    | Migration010 => ∃ lr, answer = Ok lr ∧ lr_tenants lr = [mkTenantInfo (tn_id t) (tn_name t) (tn_slug t) "owner"]
    | Migration007 => answer = Err (HTTPException 500 "Login failed")
    end
  else answer = Err (HTTPException 403 "Account is inactive. Please contact support.").
Proof.
  intros Hok Hkey Hu Hemail Hpw Hm Hmu Hmt Hrole Ht Hta Hma Honly Hfp Hfresh.
  assert (fetchrow (λ x, String.eqb (us_email x) (str_lower email)) (users d) = Some u) as Hrow.
  { apply fetchrow_unique; [done|by rewrite Hemail, String.eqb_refl|]. intros y Hy He%String.eqb_eq.
    apply (apart_unique user_conflict (users d)); [apply (po_users _ Hok)|done..|].
    unfold user_conflict. by rewrite He, Hemail, String.eqb_refl, orb_true_r. }
  destruct (us_is_active u) eqn:Ea.
  2: { unfold login, or_500, try_catch, get_st, mbind, stE_bind. by rewrite Hrow, Ea. }
  assert (tenant_rows (us_id u) d = [mkTenantInfo (tn_id t) (tn_name t) (tn_slug t) (um_role m)]) as Hrows.
  { unfold tenant_rows. rewrite (filter_single _ _ m); [| |done|by rewrite Hmu, String.eqb_refl, Hma|].
    - unfold merge_sort, omap, list_omap. cbn. rewrite Hmt. unfold find_tenant.
      rewrite (fetchrow_unique _ _ t); [done|done|by rewrite String.eqb_refl, Hta|]. intros y Hy [He%String.eqb_eq _]%andb_true_iff.
      apply (apart_unique tenant_conflict (tenants d)); [apply (po_tenants _ Hok)|done..|].
      unfold tenant_conflict. by rewrite He, String.eqb_refl.
    - apply NoDup_alt. intros i j x Hi Hj. destruct (decide (i = j)) as [|Hij]; [done|].
      pose proof (po_members _ Hok _ _ _ _ Hi Hj Hij) as Hc. unfold member_conflict in Hc. by rewrite String.eqb_refl in Hc.
    - intros y Hy [He%String.eqb_eq _]%andb_true_iff. by apply Honly. }
  assert (verify_password checkpw password (us_password_hash u) = true) as Hv by (unfold verify_password; by rewrite Hpw).
  destruct T eqn:HT.
  - unfold login, or_500, try_catch, get_st, mbind, stE_bind. rewrite Hrow, Ea, Hv. cbn [negb]. rewrite Hrows.
    unfold access_token_for, create_access_token, lift. cbn [ti_role ti_id]. rewrite Hrole, Hkey. cbn [role_of mbind result_bind].
    destruct (create_refused hash_token now new_token (us_id u) client d) as (e & He & E). cbn. rewrite E. destruct e; try done; by edestruct He.
  - destruct (login_of (T := T) hash_token checkpw jwt_encode key now email password new_token client d u m t OWNER)
      as (token & lr & d' & _ & Hl & _ & Hlt & _); try done; [by rewrite Hrole|].
    rewrite HT in Hl. rewrite Hl. rewrite Hrole in Hlt. by exists lr.
Qed.

(** C34. The script makes an owner, and its login works only for accounts in use.  From
    consistent accounts, among them the seeded ones without any owner, it either changes
    nothing or leaves consistent accounts in which a user of that email has a membership as
    owner in the tenant.  When the user is new, or is active under the email in lower case
    with this membership, active, as the only one, and the tenant is active, the printed
    password is right: with the table of migration 010 it logs in as the owner, while with
    the one of migration 007, which the migrations leave, the login is answered 500.  When
    the existing user was deactivated, the script reports success all the same and the
    login is refused, since neither the user nor the membership is activated. *)
Theorem script_makes_owner fault now new_user_id new_member_id salt d :
  ok d → truthy key = true →
  match create_admin_user admin hashpw fault now new_user_id new_member_id salt d with
  | (Err _, d') => d' = d
  | (Ok r, d') => ok d' ∧ ∃ u m t,
      u ∈ users d' ∧ has_email admin u = true ∧ m ∈ user_memberships d' ∧ is_member admin (us_id u) m = true ∧
      um_role m = "owner" ∧ t ∈ tenants d' ∧ tn_id t = TENANT_ID admin ∧
      let alone := us_email u = str_lower (EMAIL admin) ∧ um_is_active m = true ∧
                   ∀ x, x ∈ user_memberships d' → um_user_id x = us_id u → x = m in
      (ar_existed r = false → us_is_active u = true ∧ alone) ∧
      (alone → ∀ now' email new_token client,
        str_lower email = str_lower (EMAIL admin) → on_opt (len_between 0 255) (cl_device_fingerprint client) = true →
        (∀ x, x ∈ refresh_tokens d' → rt_token_hash x ≠ hash_token new_token) → tn_is_active t = true →
        let '(answer, _) := login hash_token checkpw jwt_encode key now' email (PASSWORD admin) new_token client d' in
        if us_is_active u then
          match T with
          | Migration010 => ∃ lr, answer = Ok lr ∧ lr_tenants lr = [mkTenantInfo (tn_id t) (tn_name t) (tn_slug t) "owner"]
          | Migration007 => answer = Err (HTTPException 500 "Login failed")
          end
        else answer = Err (HTTPException 403 "Account is inactive. Please contact support."))
  end.
Proof.
  intros Hok Hkey. unfold create_admin_user, lift, transaction. unfold mbind at 1 2, stE_bind at 1 2.
  destruct (hashpw (PASSWORD admin) salt) as [hash|] eqn:Hh; [|done].
  unfold may_fail at 1, mret at 1, stE_ret at 1. destruct (fault AConnect); [done|].
  unfold mbind, stE_bind. destruct (ensure_user _ _ _ _ _ d) as [[[existed uid]|] d1] eqn:E1; [|done].
  destruct (ensure_owner _ _ _ _ uid d1) as [[role|] d2] eqn:E2; [|done].
  apply ensure_user_ok in E1 as (Hok1 & Ht1 & Hm1 & u & Hu & Hid & He & Hpw & Hcase); [|done]. cbn in Hid. subst uid.
  apply ensure_owner_ok in E2 as (Hok2 & Ht2 & Hu2 & m & Hm & Hmu & Hrole & Honly & Hact); [|done].
  unfold select_row, may_fail. destruct (fault ATenantRow); [done|].
  destruct (fetchrow _ (tenants d2)) as [t|] eqn:Et; [|done]. cbn. apply fetchrow_elem in Et as [Ht Htid%String.eqb_eq].
  split; [done|]. exists u, m, t. rewrite Hu2. split_and!; try done.
  - intros ->. exact (new_user_alone now new_user_id hash d d1 d2 u m Hok Hm1 Hcase Honly Hact).
  - intros (Hemail & Hma & Hal) now' email new_token client Heq Hfp Hfresh Hta.
    apply andb_true_iff in Hmu as [Hmu%String.eqb_eq Hmt%String.eqb_eq].
    apply (owner_login now' email (PASSWORD admin) new_token client d2 u m t); try done; rewrite ?Hu2, ?Hpw, ?Heq, ?Htid; try done.
    by apply (hash_check _ salt).
Qed.
End Facts.

(** ** Witness *)

(** The administrator of the script, on the accounts the migrations leave *)
Definition root_admin : Admin := mkAdmin "Root@Acme.com" "Root" "correct horse" DEFAULT_TENANT.
Definition user2 : string := "44444444-4444-4444-8444-444444444444".
Definition after_script : AuthDb :=
  (create_admin_user root_admin fixed_hashpw (λ _, None) 3 user2 "member-2" "salt" (pf_auth seeded_platform)).2.

Lemma script_makes_owner_witness :
  platform_ok (mkPlatform after_script (pf_estate seeded_platform)) ∧
  (login (T := Migration007) plain_hash plain_checkpw plain_jwt_encode (Some "s") 5 "root@acme.com" "correct horse" "rt-1" laptop
    after_script).1 = Err (HTTPException 500 "Login failed") ∧
  ∃ lr, (login (T := Migration010) plain_hash plain_checkpw plain_jwt_encode (Some "s") 5 "root@acme.com" "correct horse" "rt-1" laptop
    after_script).1 = Ok lr ∧ lr_tenants lr = [mkTenantInfo DEFAULT_TENANT "Default Organization" "default" "owner"].
Proof.
  pose proof (λ T, script_makes_owner root_admin fixed_hashpw (pf_estate seeded_platform) (T := T) plain_hash plain_checkpw plain_jwt_encode
    (Some "s") fixed_hash_check (λ _, None) 3 user2 "member-2" "salt" (pf_auth seeded_platform) seeded_platform_ok eq_refl) as H.
  destruct (create_admin_user root_admin fixed_hashpw (λ _, None) 3 user2 "member-2" "salt" (pf_auth seeded_platform)) as [[r|e] d'] eqn:E;
    [|vm_compute in E; discriminate E].
  assert (d' = after_script) as -> by (unfold after_script; by rewrite E).
  assert (ar_existed r = false) as Hex by (vm_compute in E; injection E as <-; reflexivity).
  split; [exact (proj1 (H Migration010))|]. split.
  - destruct (H Migration007) as (Hok & u & m & t & _ & _ & _ & _ & _ & Ht & Htid & Hnew & Hlogin).
    destruct (Hnew Hex) as [Hact Hal]. specialize (Hlogin Hal 5 "root@acme.com" "rt-1" laptop eq_refl eq_refl).
    rewrite Hact in Hlogin. cbn in Ht. apply list_elem_of_singleton in Ht as ->.
    destruct (login _ _ _ _ _ _ _ _ _ after_script) as [answer d'']. apply Hlogin; [|reflexivity]. intros x Hx. by apply elem_of_nil in Hx.
  - destruct (H Migration010) as (Hok & u & m & t & _ & _ & _ & _ & _ & Ht & Htid & Hnew & Hlogin).
    destruct (Hnew Hex) as [Hact Hal]. specialize (Hlogin Hal 5 "root@acme.com" "rt-1" laptop eq_refl eq_refl).
    rewrite Hact in Hlogin. cbn in Ht. apply list_elem_of_singleton in Ht as ->.
    destruct (login _ _ _ _ _ _ _ _ _ after_script) as [answer d'']. apply Hlogin; [|reflexivity]. intros x Hx. by apply elem_of_nil in Hx.
Defined.
