(* ===== verification/Migration.v ===== *)
(** * Migration: the script that copies the spaces of version 4

    Models src/scripts/migrate_v4_spaces.py: it reads the spaces of the old database and
    inserts them, each with a statement of its own, into the table [spaces] of Estate.v,
    as migrations 001 to 011 leave it.  The definition of the old table is not in the
    repository; [V4Space] has the columns the script selects, and a JSONB column holds what
    the driver makes of it.  What the driver and the column make of a metadata argument is
    the parameter [encode_jsonb]; a call raises what [fault] says. *)

From Stdlib Require Import QArith.
From S2P Require Import Prelude PyUtils Json Models Database DeviceHandlers Estate.

Open Scope Z_scope.

Record V4Space := mkV4Space {
  v4_space_id : string; v4_space_name : string; v4_space_code : string; v4_location_description : option string;
  v4_building : option string; v4_floor : option string; v4_zone : option string;
  v4_gps_latitude : option Q; v4_gps_longitude : option Q; v4_sensor : option string; v4_display : option string;
  v4_current_state : option string; v4_enabled : bool; v4_archived : bool; v4_maintenance_mode : bool;
  v4_space_metadata : option json; v4_notes : option string; v4_created_at : Z; v4_updated_at : Z;
}.

Inductive MigrationCall := MConnectV4 | MConnectV5 | MSelectV4 | MSelectCodes | MInsert (code : string) | MSelectFinal.

Definition STATE_MAPPING : gmap string string :=
  list_to_map [("FREE", "FREE"); ("OCCUPIED", "OCCUPIED"); ("RESERVED", "RESERVED"); ("MAINTENANCE", "FREE")].

Definition v5_state (space : V4Space) : string :=
  let v4_state := if truthy (v4_current_state space) then or_else (v4_current_state space) "" else "FREE" in
  or_else (STATE_MAPPING !! v4_state) "FREE".

(** [metadata[k] = v] *)
Definition set_item (k : string) (v : json) (metadata : json) : result exn json :=
  match metadata with
  | JObj o => Ok (JObj (obj_set k v o))
  | JText _ => Err (PyException "'str' object does not support item assignment")
  | _ => Err (PyException "list indices must be integers or slices, not str")
  end.

Definition v5_metadata (space : V4Space) : result exn json :=
  let metadata := match v4_space_metadata space with Some j => if py_truthy j then j else JObj [] | None => JObj [] end in
  metadata ← (if truthy (v4_location_description space)
              then set_item "description" (text_or_null (v4_location_description space)) metadata else Ok metadata);
  metadata ← (if truthy (v4_notes space) then set_item "notes" (text_or_null (v4_notes space)) metadata else Ok metadata);
  if v4_maintenance_mode space then set_item "maintenance_mode" (JBool true) metadata else Ok metadata.

(** What is printed at the end *)
Record Summary := mkSummary { sm_found : Z; sm_skipped : Z; sm_migrated : Z; sm_would_migrate : Z; sm_failed : Z }.

Section Script.
Context (encode_jsonb : json → result exn json_obj) (fault : MigrationCall → option exn).

(** INSERT INTO spaces: no site and no tenant *)
Definition v5_row (space : V4Space) (metadata : json_obj) (st : SpaceState) : Space :=
  mkSpace (v4_space_id space) (v4_space_name space) (v4_space_code space) (v4_building space) (v4_floor space)
    (v4_zone space) (v4_sensor space) (v4_display space) st None None (v4_gps_latitude space) (v4_gps_longitude space)
    (Some metadata) (v4_created_at space) (v4_updated_at space) None.

Definition insert_v5 (space : V4Space) (metadata : json) : stE Estate exn Space :=
  may_fail (fault (MInsert (v4_space_code space))) (
    m ← lift (encode_jsonb metadata);
    st ← lift (state_of (v5_state space));
    insert_space (v5_row space m st)).

(** The loop: how many spaces were skipped and how many migrated *)
Fixpoint migrate_each (dry_run : bool) (existing_codes : list string) (v4_spaces : list V4Space) (skipped migrated : Z)
    : stE Estate exn (Z * Z) :=
  match v4_spaces with
  | [] => mret (skipped, migrated)
  | space :: rest =>
      if existsb (String.eqb (v4_space_code space)) existing_codes
      then migrate_each dry_run existing_codes rest (skipped + 1) migrated
      else
        metadata ← lift (v5_metadata space);
        if dry_run then migrate_each dry_run existing_codes rest skipped migrated
        else _ ← insert_v5 space metadata;
             migrate_each dry_run existing_codes rest skipped (migrated + 1)
  end.

Definition by_space_code (a b : V4Space) : Prop := string_leb (v4_space_code a) (v4_space_code b).
#[local] Instance by_space_code_dec : RelDecision by_space_code := fun a b => string_leb_dec (v4_space_code a) (v4_space_code b).

Definition selected (include_archived : bool) (v4 : list V4Space) : list V4Space :=
  merge_sort by_space_code (List.filter (λ s, include_archived || (negb (v4_archived s) && v4_enabled s)) v4).

Definition migrate_spaces (dry_run include_archived : bool) (v4 : list V4Space) : stE Estate exn Summary :=
  _ ← may_fail (fault MConnectV4) (mret tt);
  _ ← may_fail (fault MConnectV5) (mret tt);
  _ ← may_fail (fault MSelectV4) (mret tt);
  let v4_spaces := selected include_archived v4 in
  existing_codes ← may_fail (fault MSelectCodes) (λ es, (Ok (map sp_code (estate_spaces es)), es));
  '(skipped, migrated) ← migrate_each dry_run existing_codes v4_spaces 0 0;
  let found := Z.of_nat (length v4_spaces) in
  _ ← (if dry_run then mret tt else may_fail (fault MSelectFinal) (mret tt));
  mret (mkSummary found skipped migrated (if dry_run then found - skipped else 0)
          (if dry_run then 0 else found - skipped - migrated)).

(** [main]: a live run asks first. *)
Definition main (dry_run include_archived : bool) (response : string) (v4 : list V4Space) : stE Estate exn (option Summary) :=
  if negb dry_run && negb (String.eqb (str_lower response) "yes") then mret None
  else s ← migrate_spaces dry_run include_archived v4; mret (Some s).
End Script.

(** ** Properties *)

Section Facts.
Context (encode_jsonb : json → result exn json_obj) (fault : MigrationCall → option exn).

Abbreviation each := (migrate_each encode_jsonb fault).

(** The trigger of migration 003 refuses a row without a site. *)
Lemma insert_v5_refused space metadata es : ∃ e, insert_v5 encode_jsonb fault space metadata es = (Err e, es).
Proof.
  unfold insert_v5, may_fail, lift, mbind, stE_bind. destruct (fault _) as [e|]; [by eexists|].
  destruct (encode_jsonb metadata) as [m|e]; [|by eexists]. destruct (state_of _) as [st|e]; [|by eexists].
  by eexists.
Qed.

Definition known (codes : list string) (space : V4Space) : bool := existsb (String.eqb (v4_space_code space)) codes.

(** A live loop ends well exactly when there is nothing to migrate. *)
Lemma live_loop codes l skipped migrated es :
  if forallb (known codes) l then each false codes l skipped migrated es = (Ok (skipped + Z.of_nat (length l), migrated), es)
  else ∃ e, each false codes l skipped migrated es = (Err e, es).
Proof.
  revert skipped migrated. induction l as [|x l IH]; intros skipped migrated; cbn [forallb migrate_each length].
  - by rewrite Z.add_0_r.
  - fold (known codes x). destruct (known codes x); cbn [andb].
    + specialize (IH (skipped + 1) migrated). destruct (forallb _ l); [|exact IH]. rewrite IH. do 3 f_equal. lia.
    + unfold lift, mbind, stE_bind. destruct (v5_metadata x) as [j|e]; [|by eexists].
      destruct (insert_v5_refused x j es) as (e & ->). by eexists.
Qed.

(** A dry loop counts the rows whose codes exist. *)
Lemma dry_loop codes l skipped migrated es :
  match each true codes l skipped migrated es with
  | (Ok (s, m), es') => es' = es ∧ s = skipped + sql_count (known codes) l ∧ m = migrated
  | (Err _, es') => es' = es
  end.
Proof.
  revert skipped migrated. induction l as [|x l IH]; intros skipped migrated; cbn [migrate_each].
  - unfold mret, stE_ret, sql_count. cbn. split_and!; [done|lia|done].
  - fold (known codes x). unfold sql_count. cbn [List.filter]. destruct (known codes x).
    + specialize (IH (skipped + 1) migrated). destruct (each _ _ _ _ _ _) as [[[s m]|e] es']; [|done].
      destruct IH as (-> & -> & ->). unfold sql_count. cbn [length]. split_and!; [done|lia|done].
    + unfold lift, mbind, stE_bind. destruct (v5_metadata x) as [j|e]; [|done]. apply IH.
Qed.

(** The migration stores nothing.  Whatever the old table, the options, the answer and the
    failures, the table of spaces is afterwards as before; a live run that ends well found
    every selected code in the new table, so it skipped all, and counts no failure; and
    when a dry run announces that spaces would be migrated, the live run on the same tables
    fails at the first of them, since the statement gives no site and the trigger of
    migration 003 demands one. *)
Theorem migration_stores_nothing dry_run include_archived response v4 es :
  let codes := map sp_code (estate_spaces es) in
  let answer := main encode_jsonb fault dry_run include_archived response v4 es in
  answer.2 = es ∧
  (∀ s, dry_run = false → answer.1 = Ok (Some s) →
    forallb (known codes) (selected include_archived v4) = true ∧ sm_skipped s = sm_found s ∧ sm_migrated s = 0 ∧ sm_failed s = 0) ∧
  (∀ s, dry_run = true → answer.1 = Ok (Some s) → 0 < sm_would_migrate s →
    ∃ e, main encode_jsonb fault false include_archived "yes" v4 es = (Err e, es)).
Proof.
  intros codes. unfold main. cbn zeta. set (l := selected include_archived v4).
  assert (∀ b, forallb (known codes) l = b → b = false → fault MConnectV4 = None → fault MConnectV5 = None →
    ∃ e, migrate_spaces encode_jsonb fault false include_archived v4 es = (Err e, es)) as Hlive.
  { intros b Hb ->. unfold migrate_spaces, may_fail, mbind, stE_bind, mret, stE_ret. intros -> ->.
    destruct (fault MSelectV4); [by eexists|]. destruct (fault MSelectCodes); [by eexists|]. fold codes l.
    pose proof (live_loop codes l 0 0 es) as H. rewrite Hb in H. destruct H as (e & ->). by eexists. }
  destruct dry_run; cbn [negb andb].
  - set (live := migrate_spaces encode_jsonb fault false include_archived v4) in *.
    unfold migrate_spaces, may_fail, mbind, stE_bind, mret, stE_ret.
    destruct (fault MConnectV4) eqn:F1; [done|]. destruct (fault MConnectV5) eqn:F2; [done|].
    destruct (fault MSelectV4); [done|]. destruct (fault MSelectCodes); [done|]. fold codes l.
    pose proof (dry_loop codes l 0 0 es) as H. destruct (each true codes l 0 0 es) as [[[s m]|e] es']; [|by subst].
    destruct H as (-> & -> & ->). cbn. split; [done|]. split; [done|]. intros s _ [= <-]. cbn. intros Hlt.
    destruct (Hlive _ eq_refl) as (e & He); [|done|done|].
    + apply not_true_iff_false. intros Hall. unfold sql_count in Hlt. rewrite forallb_filter_id in Hlt by done. lia.
    + exists e. exact (f_equal (λ x, match x with (Ok a, s') => (Ok (Some a), s') | (Err e, s') => (Err e, s') end) He).
  - destruct (String.eqb _ "yes"); cbn [negb]; [|done].
    unfold migrate_spaces, may_fail, mbind, stE_bind, mret, stE_ret.
    destruct (fault MConnectV4) eqn:F1; [done|]. destruct (fault MConnectV5) eqn:F2; [done|].
    destruct (fault MSelectV4); [done|]. destruct (fault MSelectCodes); [done|]. fold codes l.
    pose proof (live_loop codes l 0 0 es) as H. destruct (forallb (known codes) l) eqn:Hall; [|destruct H as (e & ->); done].
    rewrite H. destruct (fault MSelectFinal); cbn; [done|]. split; [done|]. split; [|done]. intros s _ [= <-]. cbn.
    split_and!; [done|lia|done|lia].
Qed.
End Facts.

(** ** Witness *)

Definition old_bay : V4Space :=
  mkV4Space "s1" "Bay 1" "B1" None None None None None None None None (Some "MAINTENANCE") true false false None None 0 0.
Definition new_estate : Estate := mkEstate empty_db [].

Lemma migration_stores_nothing_witness :
  (main (λ _, Ok []) (λ _, None) true false "" [old_bay] new_estate).1 = Ok (Some (mkSummary 1 0 0 1 0)) ∧
  ∃ e, main (λ _, Ok []) (λ _, None) false false "yes" [old_bay] new_estate = (Err e, new_estate).
Proof.
  split; [reflexivity|].
  destruct (migration_stores_nothing (λ _, Ok []) (λ _, None) true false "" [old_bay] new_estate) as (_ & _ & H).
  apply (H (mkSummary 1 0 0 1 0)); reflexivity.
Defined.
