(* ===== verification/Workers.v ===== *)
(** * Workers: the tasks behind the downlink worker and the webhook spool

    Models how the two background workers are started and stopped: [start], [stop] and
    the loop of [DownlinkWorker] (src/src/downlink_queue.py), [start_worker],
    [stop_worker] and [_worker_loop] of [WebhookSpool] (src/src/webhook_spool.py).  What
    a turn of a loop does is in DownlinkQueue and WebhookSpool.

    A task is a row of the list of tasks and its index is its handle; between two turns
    it waits in an [await], and any other code may run.  A task that is cancelled gets
    [CancelledError] where it waits: no handler of the loop catches it but the [break],
    so the next turn is its last. *)

From S2P Require Import Prelude Json Redis RateLimit DownlinkQueue WebhookSpool.

Open Scope Z_scope.

(** ** The downlink worker *)

Module DownlinkTasks.

(** Where a task waits: before [while self.running], with a command it took from the
    queue and has not settled, in the pause after an error, or nowhere any more. *)
Inductive Point := AtTest | Holding (c : DownlinkCommand) | Pausing | Finished.

Record Task := mkTask { point : Point; cancelled : bool }.

Record Worker := mkWorker { running : bool; task : option nat; tasks : list Task }.

Definition new_worker : Worker := mkWorker false None [].

Definition start (k : Worker) : Worker :=
  if running k then k else mkWorker true (Some (length (tasks k))) (tasks k ++ [mkTask AtTest false])%list.

(** [stop] up to its [await self._task]; the call returns once that task has finished. *)
Definition stop (k : Worker) : Worker :=
  if negb (running k) then k
  else mkWorker false (task k)
         match task k with
         | Some i => alter (λ t, mkTask (point t) true) i (tasks k)
         | None => tasks k
         end.

Section Loop.
Context {R : Redis} {F : PyFloat} (queue_downlink : Network).

(** A turn of [_run_loop], from one wait to the next; what [_process_command] waits for
    is over at [now']. *)
Definition loop_turn (now now' : Z) (is_running : bool) (t : Task) (w : World) : Task * World :=
  if cancelled t then (mkTask Finished true, w)
  else
    match point t with
    | AtTest =>
        if is_running then
          match dequeue now (redis w) with
          | (Ok (Some c), s) => (mkTask (Holding c) false, mkWorld s (sent w))
          | (Ok None, s) => (mkTask AtTest false, mkWorld s (sent w))
          | (Err _, s) => (mkTask Pausing false, mkWorld s (sent w))
          end
        else (mkTask Finished false, w)
    | Holding c => (mkTask AtTest false, _process_command queue_downlink now now' c w)
    | Pausing => (mkTask AtTest false, w)
    | Finished => (t, w)
    end.

(** Uninterrupted, the turns of a running worker are those of [run_once]. *)
Lemma loop_turns_run_once now now' w :
  let '(t, w1) := loop_turn now now' true (mkTask AtTest false) w in
  run_once queue_downlink now now' w =
    match point t with Holding _ => (loop_turn now now' true t w1).2 | _ => w1 end.
Proof. unfold loop_turn, run_once. cbn. by destruct (dequeue now (redis w)) as [[[c|]|e] s]. Qed.

(** The event loop resumes task [i]. *)
Definition resume (now now' : Z) (i : nat) (s : Worker * World) : Worker * World :=
  match tasks s.1 !! i with
  | Some t =>
      let '(t, w) := loop_turn now now' (running s.1) t s.2 in
      (mkWorker (running s.1) (task s.1) (<[i := t]> (tasks s.1)), w)
  | None => s
  end.

(** Calls to the worker, its tasks and the other clients of Redis, in any order *)
Inductive worker_step : Worker * World → Worker * World → Prop :=
| step_start k w : worker_step (k, w) (start k, w)
| step_stop k w : worker_step (k, w) (stop k, w)
| step_resume now now' i s : worker_step s (resume now now' i s)
| step_client k w f : worker_step (k, w) (k, with_redis f w).

(** A task that goes on with the loop: a cancelled one only comes to its end. *)
Definition in_loop (k : Worker) (i : nat) : Prop :=
  ∃ t, tasks k !! i = Some t ∧ point t ≠ Finished ∧ cancelled t = false.

Definition worker_ok (k : Worker) : Prop :=
  if running k then ∃ i, task k = Some i ∧ ∀ j, in_loop k j ↔ j = i else ∀ j, ¬ in_loop k j.

Lemma start_ok k : worker_ok k → worker_ok (start k).
Proof.
  unfold worker_ok, start. destruct (running k) eqn:E; [by rewrite E|]. intros Hno. cbn.
  exists (length (tasks k)). split; [done|]. intros j. split.
  - intros (t & Ht & Hp & Hc). cbn in Ht. apply lookup_app_Some in Ht as [Ht|[Hle Ht]].
    + destruct (Hno j). by exists t.
    + apply list_lookup_singleton_Some in Ht as [? _]. lia.
  - intros ->. exists (mkTask AtTest false). cbn. by rewrite lookup_app_r, Nat.sub_diag by done.
Qed.

Lemma stop_ok k : worker_ok k → worker_ok (stop k).
Proof.
  unfold worker_ok, stop. destruct (running k) eqn:E; cbn [negb running]; [|by rewrite E].
  intros (i & -> & Hi) j (t & Ht & Hp & Hc). cbn in Ht. destruct (decide (j = i)) as [->|Hne].
  - rewrite list_lookup_alter_eq in Ht. destruct (tasks k !! i); by simplify_eq/=.
  - rewrite list_lookup_alter_ne in Ht by done. apply Hne, Hi. by exists t.
Qed.

(** While the worker runs, a turn neither ends a loop nor revives one. *)
Lemma turn_in_loop now now' is_running t w :
  let t' := (loop_turn now now' is_running t w).1 in
  (point t' ≠ Finished ∧ cancelled t' = false → point t ≠ Finished ∧ cancelled t = false) ∧
  (is_running = true → point t ≠ Finished ∧ cancelled t = false → point t' ≠ Finished ∧ cancelled t' = false).
Proof.
  unfold loop_turn. destruct t as [p c]; destruct c; cbn; [naive_solver|].
  destruct p; cbn; try naive_solver. destruct is_running; cbn; [|naive_solver].
  destruct (dequeue now (redis w)) as [[[c|]|e] s]; cbn; naive_solver.
Qed.

Lemma resume_in_loop now now' i s j :
  (in_loop (resume now now' i s).1 j → in_loop s.1 j) ∧
  (running s.1 = true → in_loop s.1 j → in_loop (resume now now' i s).1 j).
Proof.
  unfold resume, in_loop. destruct (tasks s.1 !! i) as [t|] eqn:E; [|done].
  destruct (turn_in_loop now now' (running s.1) t s.2) as [H1 H2].
  destruct (loop_turn now now' (running s.1) t s.2) as [t' w]. cbn in *.
  assert (i < length (tasks s.1))%nat by (by apply lookup_lt_Some in E).
  destruct (decide (j = i)) as [->|Hne].
  - rewrite list_lookup_insert_eq by done. naive_solver.
  - by rewrite list_lookup_insert_ne by done.
Qed.

Lemma resume_running now now' i s :
  running (resume now now' i s).1 = running s.1 ∧ task (resume now now' i s).1 = task s.1.
Proof. unfold resume. destruct (tasks s.1 !! i); [|done]. by destruct (loop_turn _ _ _ _ _). Qed.

Lemma worker_step_ok s s' : worker_step s s' → worker_ok s.1 → worker_ok s'.1.
Proof.
  intros [k w|k w|now now' i [k w]|k w f]; cbn [fst]; [apply start_ok|apply stop_ok| |done].
  unfold worker_ok. destruct (resume_running now now' i (k, w)) as [-> ->].
  pose proof (resume_in_loop now now' i (k, w)) as Hr. cbn [fst] in *.
  destruct (running k); [|by intros Hno j ?%Hr%Hno].
  intros (n & Hn & Hi). exists n. split; [done|]. intros j. rewrite <- Hi. split; by apply Hr.
Qed.

(** C33. One loop.  However [start] and [stop] are called, also while an earlier task is still
    coming to its end, and whatever the tasks and the other clients of Redis do between:
    while the worker runs exactly one task is in the loop, the one [stop] would cancel,
    and after a [stop] none is. *)
Theorem one_downlink_loop w0 k w :
  rtc worker_step (new_worker, w0) (k, w) →
  if running k then ∃ i, task k = Some i ∧ ∀ j, in_loop k j ↔ j = i else ∀ j, ¬ in_loop k j.
Proof.
  intros Hr. assert (∀ s s', rtc worker_step s s' → worker_ok s.1 → worker_ok s'.1) as H.
  { induction 1; eauto using worker_step_ok. }
  apply (H _ _ Hr). intros j (t & Ht & _). by destruct j.
Qed.

(** *** What [stop] leaves behind *)

Definition turns (l : list (nat * (Z * Z))) (s : Worker * World) : Worker * World :=
  foldl (λ s t, resume t.2.1 t.2.2 t.1 s) s l.

Definition on_worker (f : Worker → Worker) (s : Worker * World) : Worker * World := (f s.1, s.2).

(** No task holds a command, and the store is the queue [A] with [c] taken from it. *)
Definition idle (H : Z) (c : DownlinkCommand) (A : AbstractQueue.AQueue) (s : Worker * World) : Prop :=
  Forall (λ t, match point t with Holding _ => False | _ => True end) (tasks s.1) ∧
  represents H (dump (redis s.2)) [c] A.

Lemma dequeue_empty H now s held A :
  represents H (dump s) held A → AbstractQueue.pending A = [] →
  ∃ s', dequeue now s = (Ok None, s') ∧ dump s' = dump s.
Proof.
  intros Hr Hp. unfold dequeue. destruct (r_lpop s now PENDING_KEY) as [popped s1] eqn:E.
  destruct (r_lpop_law s now PENDING_KEY) as [H1 H2]. rewrite E in H1, H2. cbn in H1, H2.
  destruct (rp_pending _ _ _ _ Hr) as [Hp1 Hp2].
  unfold ks_lpop in H1, H2. rewrite list_at_perm, Hp2, Hp in H1, H2 by done. cbn in H1, H2. subst popped. eauto.
Qed.

Lemma resume_idle H c A now now' i s :
  AbstractQueue.pending A = [] → idle H c A s →
  idle H c A (resume now now' i s) ∧ sent (resume now now' i s).2 = sent s.2.
Proof.
  intros Hp [Ht Hr]. unfold resume. destruct (tasks s.1 !! i) as [t|] eqn:E; [|done].
  assert (let '(t', w) := loop_turn now now' (running s.1) t s.2 in
          match point t' with Holding _ => False | _ => True end ∧
          represents H (dump (redis w)) [c] A ∧ sent w = sent s.2) as Hturn.
  { pose proof (proj1 (Forall_lookup _ _) Ht i t E) as Hpt. cbn in Hpt. unfold loop_turn.
    destruct (cancelled t); [done|]. destruct (point t) eqn:Ept; cbn; try done; [|by rewrite Ept].
    destruct (running s.1); [|done].
    destruct (dequeue_empty H now (redis s.2) [c] A Hr Hp) as (s' & -> & Ed). cbn. by rewrite Ed. }
  destruct (loop_turn now now' (running s.1) t s.2) as [t' w]. destruct Hturn as (Hpt & Hrep & Hs).
  split; [split|done]; [by apply Forall_insert|done].
Qed.

Lemma turns_idle H c A l s :
  AbstractQueue.pending A = [] → idle H c A s → idle H c A (turns l s) ∧ sent (turns l s).2 = sent s.2.
Proof.
  intros Hp. revert s. induction l as [|[i [now now']] l IH]; intros s Hi; [done|].
  destruct (resume_idle H c A now now' i s Hp Hi) as [Hi' Hs].
  destruct (IH _ Hi') as [Hi'' Hs']. by rewrite <- Hs.
Qed.

(** A graceful stop loses the command in flight.  A worker that took the only pending
    command and is stopped before it is settled ends its task with the command neither
    sent, nor pending, nor a dead letter; when the worker is started again, its turns
    send nothing, although the command's data is still stored. *)
Theorem stop_loses_command H now now' t t' c A w l :
  now < H → represents H (dump (redis w)) [] A → AbstractQueue.pending A = [c] →
  let s := on_worker start (resume t t' 0 (on_worker stop (resume now now' 0 (start new_worker, w)))) in
  let s' := turns l s in
  tasks s.1 !! 0%nat = Some (mkTask Finished true) ∧ running s.1 = true ∧
  sent s'.2 = sent w ∧
  represents H (dump (redis s'.2)) [c]
    (AbstractQueue.mkAQueue [] (AbstractQueue.last_sent A) (AbstractQueue.dead A)).
Proof.
  intros Hn Hr Hp. pose proof (dequeue_refines H now (redis w) A Hn Hr) as Hd.
  unfold AbstractQueue.a_dequeue in Hd. rewrite Hp in Hd. destruct Hd as (s1 & Ed & Hr1).
  assert (on_worker start (resume t t' 0 (on_worker stop (resume now now' 0 (start new_worker, w)))) =
          (mkWorker true (Some 1%nat) [mkTask Finished true; mkTask AtTest false], mkWorld s1 (sent w))) as ->.
  { unfold resume. cbn [start new_worker running tasks app fst snd lookup list_lookup loop_turn cancelled point].
    rewrite Ed. reflexivity. }
  cbv zeta. split; [done|]. split; [done|].
  edestruct turns_idle as [[_ ?] ?]; [| |split; [|eassumption]]; [done| |done].
  split; [by repeat constructor|exact Hr1].
Qed.
End Loop.

(** *** Examples *)

#[local] Existing Instance gmap_redis.

Definition refusing_network : Network := λ _ _ _ _, Err "unavailable".

(** Stopped and started again while the first task still comes to its end *)
Lemma one_downlink_loop_witness :
  let k := start (stop (start new_worker)) in
  rtc (worker_step refusing_network) (new_worker, mkWorld ∅ []) (k, mkWorld ∅ []) ∧
  tasks k = [mkTask AtTest true; mkTask AtTest false] ∧
  if running k then ∃ i, task k = Some i ∧ ∀ j, in_loop k j ↔ j = i else ∀ j, ¬ in_loop k j.
Proof.
  intros k. assert (rtc (worker_step refusing_network) (new_worker, mkWorld ∅ []) (k, mkWorld ∅ [])) as Hr.
  { eapply rtc_l; [apply step_start|]. eapply rtc_l; [apply step_stop|]. apply rtc_once, step_start. }
  split; [exact Hr|]. split; [reflexivity|].
  exact (one_downlink_loop refusing_network (mkWorld ∅ []) k (mkWorld ∅ []) Hr).
Defined.

Definition queued_c1 : store := (DownlinkQueue.enqueue (λ x, x) 0 "c1" (on_args "D1" "01") ∅).2.
Definition command_c1 : DownlinkCommand := AbstractQueue.stored (new_command (λ x, x) 0 "c1" (on_args "D1" "01")).

Lemma queued_represents : represents (300 * sec) (dump queued_c1) [] (AbstractQueue.mkAQueue [command_c1] ∅ []).
Proof.
  apply (enqueue_refines (λ x, x) (300 * sec) 0 ∅ empty_queue "c1" (on_args "D1" "01"));
    [unfold sec; lia|unfold sec; lia|by apply represents_empty|apply not_elem_of_nil|reflexivity].
Qed.

Lemma stop_loses_command_witness :
  let s := on_worker start (resume refusing_network 1 1 0
             (on_worker stop (resume refusing_network 0 0 0 (start new_worker, mkWorld queued_c1 [])))) in
  let s' := turns refusing_network [(1%nat, (2, 2)); (1%nat, (3, 3))] s in
  tasks s.1 !! 0%nat = Some (mkTask Finished true) ∧ running s.1 = true ∧
  sent s'.2 = [] ∧
  represents (300 * sec) (dump (redis s'.2)) [command_c1] (AbstractQueue.mkAQueue [] ∅ []).
Proof.
  exact (stop_loses_command refusing_network (300 * sec) 0 0 1 1 command_c1
    (AbstractQueue.mkAQueue [command_c1] ∅ []) (mkWorld queued_c1 []) [(1%nat, (2, 2)); (1%nat, (3, 3))]
    eq_refl queued_represents eq_refl).
Defined.
End DownlinkTasks.

(** ** The worker of the spool *)

Module SpoolTasks.

(** [worker_task] and the tasks, [true] for a task that has not finished; it waits in a
    [sleep], because a pass over the files waits for nothing.  [awaiting] are the calls of
    [stop_worker] that wait for a task. *)
Record SpoolWorker := mkSpoolWorker {
  running : bool; worker_task : option nat; loops : list bool; awaiting : list nat; spool_files : files;
}.

Definition new_spool_worker (fs : files) : SpoolWorker := mkSpoolWorker false None [] [] fs.

Definition start_worker (k : SpoolWorker) : SpoolWorker :=
  if running k then k
  else mkSpoolWorker true (Some (length (loops k))) (loops k ++ [true])%list (awaiting k) (spool_files k).

Definition stop_worker (k : SpoolWorker) : SpoolWorker :=
  if negb (running k) then k
  else mkSpoolWorker false (worker_task k) (loops k)
         match worker_task k with Some i => (awaiting k ++ [i])%list | None => awaiting k end (spool_files k).

(** The calls whose task has finished return. *)
Definition returning (k : SpoolWorker) : list nat :=
  List.filter (λ i, match loops k !! i with Some true => false | _ => true end) (awaiting k).

Section Loop.
Context (process_envelope : Envelope → bool).

(** Task [i] wakes from its sleep: the test of [while self.running] and one pass, which
    takes from [now] to [now'], or the end of the task. *)
Definition _worker_loop (now now' : Z) (i : nat) (k : SpoolWorker) : SpoolWorker :=
  match loops k !! i with
  | Some true =>
      if running k then
        mkSpoolWorker true (worker_task k) (loops k) (awaiting k)
          (_process_pending_files process_envelope now now' (spool_files k))
      else mkSpoolWorker false (worker_task k) (<[i := false]> (loops k)) (awaiting k) (spool_files k)
  | _ => k
  end.

Definition wakes (l : list (nat * (Z * Z))) (k : SpoolWorker) : SpoolWorker :=
  foldl (λ k t, _worker_loop t.2.1 t.2.2 t.1 k) k l.

Definition looping (k : SpoolWorker) (i : nat) : Prop := loops k !! i = Some true.

(** Calls in which the worker is started again only when no task is left of the last
    time, as when each call of [stop_worker] is awaited. *)
Inductive careful_step : SpoolWorker → SpoolWorker → Prop :=
| step_start k : running k = true ∨ (∀ i, ¬ looping k i) → careful_step k (start_worker k)
| step_stop k : careful_step k (stop_worker k)
| step_wake now now' i k : careful_step k (_worker_loop now now' i k).

Definition spool_worker_ok (k : SpoolWorker) : Prop :=
  (∀ i, looping k i → worker_task k = Some i) ∧ (running k = true → ∃ i, looping k i).

Lemma careful_step_ok k k' : careful_step k k' → spool_worker_ok k → spool_worker_ok k'.
Proof.
  intros [k0 Hs|k0|now now' i k0] [H1 H2]; unfold spool_worker_ok, looping in *.
  - unfold start_worker. destruct (running k0) eqn:Er; [by split; auto|]. destruct Hs as [?|Hno]; [done|]. cbn. split.
    + intros j [Hj|[Hle Hj]]%lookup_app_Some; [by destruct (Hno j)|].
      apply list_lookup_singleton_Some in Hj as [? _]. f_equal. lia.
    + intros _. exists (length (loops k0)). by rewrite lookup_app_r, Nat.sub_diag by done.
  - unfold stop_worker. destruct (running k0) eqn:Er; split; auto; cbn; by rewrite ?Er.
  - unfold _worker_loop. destruct (loops k0 !! i) as [[]|] eqn:E; try by split.
    destruct (running k0); [split; auto|]. cbn. split; [|done]. intros j Hj. apply H1.
    destruct (decide (j = i)) as [->|Hne]; [done|]. by rewrite list_lookup_insert_ne in Hj.
Qed.

(** One loop, with care.  When the worker is started again only after its last task has
    finished, at most one task loops, the one the next [stop_worker] waits for; and a
    running worker has one. *)
Theorem one_spool_loop fs k :
  rtc careful_step (new_spool_worker fs) k →
  (∀ i, looping k i → worker_task k = Some i) ∧ (running k = true → ∃ i, looping k i).
Proof.
  intros Hr. assert (∀ k1 k2, rtc careful_step k1 k2 → spool_worker_ok k1 → spool_worker_ok k2) as H.
  { induction 1; eauto using careful_step_ok. }
  apply (H _ _ Hr). split; [intros i Hi; by destruct i|done].
Qed.

(** A task that wakes when the worker is stopped ends and touches no file. *)
Lemma stopped_wake now now' i k :
  running k = false →
  let k' := _worker_loop now now' i k in
  running k' = false ∧ spool_files k' = spool_files k ∧ awaiting k' = awaiting k ∧
  ∀ j, looping k' j ↔ looping k j ∧ j ≠ i.
Proof.
  intros Hk. unfold _worker_loop, looping. destruct (loops k !! i) as [[]|] eqn:E;
    cbn; rewrite ?Hk; cbn; (split; [done|]); (split; [done|]); (split; [done|]); intros j;
    try (split; [intros Hj; split; [done|]; intros ->; simplify_eq|by intros [? _]]).
  assert (i < length (loops k))%nat by (by apply lookup_lt_Some in E).
  destruct (decide (j = i)) as [->|Hne].
  - rewrite list_lookup_insert_eq by done. naive_solver.
  - rewrite list_lookup_insert_ne by done. naive_solver.
Qed.

Lemma stopped_wakes l k :
  running k = false →
  let k' := wakes l k in
  spool_files k' = spool_files k ∧ awaiting k' = awaiting k ∧ ∀ j, looping k' j ↔ looping k j ∧ j ∉ map fst l.
Proof.
  revert k. induction l as [|[i [now now']] l IH]; intros k Hk.
  - repeat split; try done; [by intros ?%elem_of_nil|by intros [? _]].
  - destruct (stopped_wake now now' i k Hk) as (Hr & Hf & Ha & Hl).
    destruct (IH _ Hr) as (Hf' & Ha' & Hl'). cbn. split; [by rewrite <- Hf|]. split; [by rewrite <- Ha|].
    intros j. rewrite (Hl' j), (Hl j), not_elem_of_cons. naive_solver.
Qed.

(** A stop takes effect.  Once every task that loops has woken after [stop_worker], and
    none was started between, no task loops, every call of [stop_worker] returns, and no
    file was touched. *)
Theorem stop_worker_drains k l :
  running k = true → (∀ i, looping k i → i ∈ map fst l) →
  let k' := wakes l (stop_worker k) in
  (∀ i, ¬ looping k' i) ∧ returning k' = awaiting k' ∧ spool_files k' = spool_files k.
Proof.
  intros Hk Hl. assert (running (stop_worker k) = false) as Hs by (unfold stop_worker; by rewrite Hk).
  assert (∀ i, looping (stop_worker k) i ↔ looping k i) as Hsame by (unfold stop_worker; by rewrite Hk).
  assert (spool_files (stop_worker k) = spool_files k) as Hf by (unfold stop_worker; by rewrite Hk).
  destruct (stopped_wakes l _ Hs) as (Hf' & _ & Hl'). cbv zeta.
  assert (∀ i, ¬ looping (wakes l (stop_worker k)) i) as Hno.
  { intros i [Hi Hn]%Hl'. by apply Hn, Hl, Hsame. }
  split; [done|]. split; [|by rewrite Hf'].
  apply List.forallb_filter_id, forallb_forall. intros i _. specialize (Hno i). unfold looping in Hno.
  by destruct (loops _ !! i) as [[]|].
Qed.

Lemma two_loops_stay l k :
  running k = true → loops k = [true; true] →
  let k' := wakes l k in
  running k' = true ∧ loops k' = [true; true] ∧ awaiting k' = awaiting k ∧
  spool_files k' = passes process_envelope (map snd (List.filter (λ t, (t.1 <? 2)%nat) l)) (spool_files k).
Proof.
  revert k. induction l as [|[i [now now']] l IH]; intros k Hk Hl; [done|].
  set (k1 := _worker_loop now now' i k).
  assert (running k1 = true ∧ loops k1 = [true; true] ∧ awaiting k1 = awaiting k ∧
          spool_files k1 = if (i <? 2)%nat then _process_pending_files process_envelope now now' (spool_files k)
                           else spool_files k) as (Hr1 & Hl1 & Ha1 & Hf1).
  { unfold k1, _worker_loop. rewrite Hl, Hk. by destruct i as [|[|i]]. }
  destruct (IH k1 Hr1 Hl1) as (Hr & Hl' & Ha & Hf). cbn [wakes foldl fst snd List.filter map].
  fold k1. fold (wakes l k1). rewrite Ha, Hf, Hf1, Ha1. by destruct (i <? 2)%nat.
Qed.

(** A hasty restart doubles the loop.  Started again while the task of the last time
    still sleeps, the worker has two tasks, and neither ever ends: each pass over the files is
    made by both, and the call of [stop_worker] never returns. *)
Theorem restart_doubles_the_loop now now' l fs :
  let k := start_worker (stop_worker (_worker_loop now now' 0 (start_worker (new_spool_worker fs)))) in
  let k' := wakes l k in
  looping k' 0 ∧ looping k' 1 ∧ awaiting k' = [0%nat] ∧ returning k' = [] ∧
  spool_files k' = passes process_envelope (map snd (List.filter (λ t, (t.1 <? 2)%nat) l)) (spool_files k).
Proof.
  cbv zeta. set (k := start_worker _).
  destruct (two_loops_stay l k) as (_ & Hl & Ha & Hf); [done|done|].
  unfold looping, returning. by rewrite Hl, Ha.
Qed.
End Loop.

(** *** Examples *)

Definition awaited_restart : SpoolWorker :=
  start_worker (_worker_loop _process_envelope 1 1 0 (stop_worker (start_worker (new_spool_worker spooled)))).

Lemma one_spool_loop_witness :
  loops awaited_restart = [false; true] ∧
  (∀ i, looping awaited_restart i → worker_task awaited_restart = Some i) ∧
  (running awaited_restart = true → ∃ i, looping awaited_restart i).
Proof.
  split; [reflexivity|]. apply (one_spool_loop _process_envelope spooled awaited_restart).
  eapply rtc_l; [apply step_start; right; intros i Hi; by destruct i|].
  eapply rtc_l; [apply step_stop|]. eapply rtc_l; [apply step_wake|].
  apply rtc_once, step_start. right. intros i Hi. by destruct i as [|i].
Defined.

Lemma stop_worker_drains_witness :
  let k' := wakes _process_envelope [(0%nat, (1, 1))] (stop_worker (start_worker (new_spool_worker spooled))) in
  (∀ i, ¬ looping k' i) ∧ returning k' = awaiting k' ∧ spool_files k' = spooled.
Proof.
  apply (stop_worker_drains _process_envelope (start_worker (new_spool_worker spooled)) [(0%nat, (1, 1))]);
    [reflexivity|]. intros i Hi. destruct i as [|i]; [by left|by destruct i].
Defined.
End SpoolTasks.
