(* ===== verification/App.v ===== *)
(** * App: middlewares, exception handlers, health checks and the life of the application

    Models the wiring of src/src/main.py and the middlewares of src/src/middleware.py.  An
    application takes a request (with its scope, state and the context variables of its
    task) and answers or raises; a middleware makes an application from an application.
    How Starlette composes them and what CORSMiddleware does are parameters ([starlette],
    [cors]); what is relied on is their documented behaviour: the middleware added last
    runs first, and CORS adds its own headers to the answer of a request that is no
    preflight.  The handlers behind the middlewares are an arbitrary [endpoint]. *)

From S2P Require Import Prelude PyUtils Json Redis ApiRateLimit SlidingWindow Models Database Auth DeviceHandlers.

Open Scope Z_scope.

(** Header names are in lower case. *)
Record HttpRequest := mkHttpRequest {
  hr_method : string; hr_path : string; hr_headers : list (string * string); hr_client_host : option string;
  hr_scheme : string; hr_server : option string;
  st_tenant_id : option (option string);       (* request.state.tenant_id, when set *)
  st_user_id : option (option string); st_request_id : option string;
  cv_request_id : string; cv_tenant_id : string; cv_user_id : string;
}.

Inductive ResponseBody :=
| BAnswer (j : json) | BError (error message : string) (details : json_obj) | BDetail (detail : string) | BInternal | BLimited.

Record Response := mkResponse { rs_status : Z; rs_headers : list (string * string); rs_body : ResponseBody }.

Definition header (name : string) (r : HttpRequest) : option string := assoc name (hr_headers r).

(** [response.headers[name] = value] *)
Definition set_header (kv : string * string) (rs : Response) : Response :=
  mkResponse (rs_status rs) (obj_set (str_lower kv.1) kv.2 (rs_headers rs)) (rs_body rs).

Definition set_headers (l : list (string * string)) (rs : Response) : Response := fold_left (λ rs kv, set_header kv rs) l rs.

(** [str] of a value that may be None *)
Definition str_of (o : option string) : string := or_else o "None".

Section Application.
Context {R : Redis} {W : Type}.

(** The accounts, the Redis store, the record factory of the logging module (the request
    ids it would add, innermost first) and the rest. *)
Record AppWorld := mkWorld { aw_auth : AuthDb; aw_store : store; aw_factory : list string; aw_rest : W }.

Definition with_auth (d : AuthDb) (w : AppWorld) : AppWorld := mkWorld d (aw_store w) (aw_factory w) (aw_rest w).
Definition with_store (s : store) (w : AppWorld) : AppWorld := mkWorld (aw_auth w) s (aw_factory w) (aw_rest w).
Definition with_factory (f : list string) (w : AppWorld) : AppWorld := mkWorld (aw_auth w) (aw_store w) f (aw_rest w).

Abbreviation Asgi := (HttpRequest → stE AppWorld exn Response).
Abbreviation Middleware := (Asgi → Asgi).

(** ** src/src/main.py: X-Forwarded headers *)

Definition forwarded (r : HttpRequest) : HttpRequest :=
  let proto := header "x-forwarded-proto" r in
  let host := header "x-forwarded-host" r in
  mkHttpRequest (hr_method r) (hr_path r) (hr_headers r) (hr_client_host r)
    (if truthy proto then or_else proto "" else hr_scheme r) (if truthy host then host else hr_server r)
    (st_tenant_id r) (st_user_id r) (st_request_id r) (cv_request_id r) (cv_tenant_id r) (cv_user_id r).

Definition proxy_headers : Middleware := λ next r, next (forwarded r).

(** ** src/src/middleware.py *)

Definition security_headers : list (string * string) :=
  [("X-Content-Type-Options", "nosniff"); ("X-Frame-Options", "DENY"); ("X-XSS-Protection", "1; mode=block");
   ("Referrer-Policy", "strict-origin-when-cross-origin")].

Definition add_security_headers (rs : Response) : Response := set_headers security_headers rs.

Definition security : Middleware := λ next r, rs ← next r; mret (add_security_headers rs).

Definition with_context (request_id tenant_id user_id : string) (r : HttpRequest) : HttpRequest :=
  mkHttpRequest (hr_method r) (hr_path r) (hr_headers r) (hr_client_host r) (hr_scheme r) (hr_server r)
    (st_tenant_id r) (st_user_id r) (st_request_id r) request_id tenant_id user_id.

Definition tenant_of_state (r : HttpRequest) : string :=
  match st_tenant_id r with Some t => str_of t | None => cv_tenant_id r end.

(** [uuid4] is the id for a request that brings none, [elapsed] the duration as text. *)
Definition request_tracing (uuid4 elapsed : string) : Middleware := λ next r,
  let request_id := or_else (header "x-request-id" r) uuid4 in
  let r := with_context request_id (tenant_of_state r) (cv_user_id r) r in
  rs ← next r;
  let rs := set_headers [("X-Request-ID", request_id); ("X-Response-Time", elapsed)] rs in
  mret (if non_empty (cv_tenant_id r) then set_header ("X-Tenant-ID", cv_tenant_id r) rs else rs).

Definition tenant_context : Middleware := λ next r,
  next (with_context (cv_request_id r) (tenant_of_state r)
          (match st_user_id r with Some u => str_of u | None => cv_user_id r end) r).

(** ** Rate limiting *)

(** What RateLimitMiddleware reads *)
Definition limiter_request (r : HttpRequest) : Request :=
  mkRequest (hr_path r) (hr_method r) (header "x-api-key" r) (hr_client_host r) (str_of <$> st_tenant_id r).

Definition too_many (headers : list (string * string)) : Response := set_headers headers (mkResponse 429 [] BLimited).

(** [limiter] is None before start-up has finished. *)
Definition deferred_rate_limit (limiter : option RateLimiter) (now now' : Z) : Middleware := λ next r,
  match limiter with
  | Some self => dispatch aw_store with_store PyException too_many set_headers self (next r) now now' (limiter_request r)
  | None => next r
  end.

(** ** Request ids: [add_request_id] *)

Definition with_request_id (request_id : string) (r : HttpRequest) : HttpRequest :=
  mkHttpRequest (hr_method r) (hr_path r) (hr_headers r) (hr_client_host r) (hr_scheme r) (hr_server r)
    (st_tenant_id r) (st_user_id r) (Some request_id) (cv_request_id r) (cv_tenant_id r) (cv_user_id r).

Definition add_request_id (request_id : string) : Middleware := λ next r,
  old_factory ← (λ w, (Ok (aw_factory w), w)) : stE AppWorld exn (list string);
  _ ← modify_st (with_factory (request_id :: old_factory));
  rs ← next (with_request_id request_id r);
  _ ← modify_st (with_factory old_factory);
  mret (set_header ("X-Request-ID", request_id) rs).

(** ** The tenant of a request: [set_tenant_context_for_rls] *)

Context (checkpw : string → string → result exn bool) (jwt_decode : Z → string → string → result exn JwtPayload).
Context (pool_ready : bool) (JWT_SECRET_KEY : option string).

(** [s.split(" ")[1]] of a text with a space *)
Definition second_word (s : string) : string :=
  match split_first " " s with
  | Some (_, rest) => match split_first " " rest with Some (w, _) => w | None => rest end
  | None => ""
  end.

Definition bearer_tenant (now : Z) (r : HttpRequest) : option string :=
  match header "authorization" r with
  | Some h =>
      if starts_with "Bearer " h then td_tenant_id <$> decode_access_token jwt_decode JWT_SECRET_KEY now (second_word h) else None
  | None => None
  end.

Definition in_auth {A} (m : stE AuthDb exn A) : stE AppWorld exn A := λ w,
  let '(r, d) := m (aw_auth w) in (r, with_auth d w).

Definition key_tenant (now : Z) (r : HttpRequest) : stE AuthDb exn (option string) :=
  let api_key := header "x-api-key" r in
  if truthy api_key then
    info ← verify_api_key checkpw pool_ready now (or_else api_key "");
    match info with
    | Some info => d ← get_st; mret (tc_tenant_id <$> resolve_tenant_from_api_key pool_ready info d)
    | None => mret None
    end
  else mret None.

Definition request_tenant (now : Z) (r : HttpRequest) : stE AuthDb exn (option string) :=
  match bearer_tenant now r with Some t => mret (Some t) | None => key_tenant now r end.

Definition with_tenant (tenant_id : option string) (r : HttpRequest) : HttpRequest :=
  mkHttpRequest (hr_method r) (hr_path r) (hr_headers r) (hr_client_host r) (hr_scheme r) (hr_server r)
    (Some tenant_id) (st_user_id r) (st_request_id r) (cv_request_id r) (cv_tenant_id r) (cv_user_id r).

Definition set_tenant_context_for_rls (now : Z) : Middleware := λ next r,
  tenant_id ← try_catch (in_auth (request_tenant now r)) (λ _, mret None);
  next (with_tenant tenant_id r).

(** ** Exception handlers *)

(** Parking and HTTP exceptions are answered inside the middlewares, anything else goes on. *)
Definition exception_handlers : Middleware := λ next r,
  try_catch (next r) (λ e,
    match e with
    | PyException _ => raise e
    | HTTPException c detail => mret (mkResponse (response_status e) [] (BDetail detail))
    | _ => mret (mkResponse (response_status e) [] (BError (error_code e) (message e) (details e)))
    end).

(** The handler of Exception runs outside the middlewares. *)
Definition generic_exception_handler (app : Asgi) (r : HttpRequest) (w : AppWorld) : Response * AppWorld :=
  match app r w with (Ok rs, w') => (rs, w') | (Err _, w') => (mkResponse 500 [] BInternal, w') end.

(** ** The stack *)

(** What one request draws from clocks and generators *)
Record Ticks := mkTicks { tk_auth : Z; tk_limit : Z; tk_info : Z; tk_request_id : string; tk_uuid4 : string; tk_elapsed : string }.

Context (starlette : list Middleware → Asgi → Asgi) (cors : Middleware) (limiter : option RateLimiter).

(** In the order of the calls of [add_middleware] and the decorators *)
Definition user_middleware (t : Ticks) : list Middleware :=
  [proxy_headers; security; request_tracing (tk_uuid4 t) (tk_elapsed t); tenant_context;
   deferred_rate_limit limiter (tk_limit t) (tk_info t); cors; add_request_id (tk_request_id t);
   set_tenant_context_for_rls (tk_auth t)].

Definition stack (t : Ticks) (endpoint : Asgi) : Asgi := starlette (user_middleware t) (exception_handlers endpoint).

Definition serve (t : Ticks) (endpoint : Asgi) (r : HttpRequest) (w : AppWorld) : Response * AppWorld :=
  generic_exception_handler (stack t endpoint) r w.

(** ** Properties *)

Context (starlette_nil : ∀ app, starlette [] app = app).
Context (starlette_snoc : ∀ l m app, starlette (l ++ [m]) app = m (starlette l app)).
(** What CORSMiddleware adds to the answer of a request that is no preflight *)
Context (cors_add : HttpRequest → Response → Response).
Context (cors_simple : ∀ next r w, hr_method r ≠ "OPTIONS" →
  cors next r w = match next r w with (Ok rs, w') => (Ok (cors_add r rs), w') | (Err e, w') => (Err e, w') end).
Context (cors_headers : ∀ r rs k, starts_with "access-control-" k = false → k ≠ "vary" →
  assoc k (rs_headers (cors_add r rs)) = assoc k (rs_headers rs)).
Context (cors_status : ∀ r rs, rs_status (cors_add r rs) = rs_status rs).

(** The order at run time is the reverse of the order in the file. *)
Lemma stack_order t endpoint :
  stack t endpoint =
  set_tenant_context_for_rls (tk_auth t) (add_request_id (tk_request_id t) (cors
    (deferred_rate_limit limiter (tk_limit t) (tk_info t) (tenant_context
      (request_tracing (tk_uuid4 t) (tk_elapsed t) (security (proxy_headers (exception_handlers endpoint)))))))).
Proof.
  unfold stack, user_middleware. set (app := exception_handlers endpoint).
  change (starlette (([] ++ [proxy_headers] ++ [security] ++ [request_tracing (tk_uuid4 t) (tk_elapsed t)] ++ [tenant_context] ++
    [deferred_rate_limit limiter (tk_limit t) (tk_info t)] ++ [cors] ++ [add_request_id (tk_request_id t)] ++
    [set_tenant_context_for_rls (tk_auth t)])%list) app = set_tenant_context_for_rls (tk_auth t)
    (add_request_id (tk_request_id t) (cors (deferred_rate_limit limiter (tk_limit t) (tk_info t) (tenant_context
      (request_tracing (tk_uuid4 t) (tk_elapsed t) (security (proxy_headers app)))))))).
  rewrite !app_assoc, !starlette_snoc.
  by rewrite starlette_nil.
Qed.

(** Resolving the tenant never raises. *)
Lemma request_tenant_ok now r d : ∃ tenant d', request_tenant now r d = (Ok tenant, d').
Proof.
  unfold request_tenant. destruct (bearer_tenant now r); [by do 2 eexists|]. unfold key_tenant.
  destruct (truthy _); [|by do 2 eexists]. unfold verify_api_key. destruct (negb pool_ready); [by do 2 eexists|].
  unfold get_st, mbind, stE_bind. pose proof (check_keys_spec checkpw now (or_else (header "x-api-key" r) "") (List.filter ak_is_active (api_keys d)) d) as H.
  destruct (check_keys _ _ _ _ _) as [[[info|]|e] d']; [by do 2 eexists..|done].
Qed.

(** What the endpoint is given *)
Definition seen (t : Ticks) (tenant : option string) (r : HttpRequest) : HttpRequest :=
  forwarded (with_context (or_else (header "x-request-id" r) (tk_uuid4 t)) (str_of tenant)
    (match st_user_id r with Some u => str_of u | None => cv_user_id r end)
    (with_request_id (tk_request_id t) (with_tenant tenant r))).

(** What the inner middlewares make of its answer *)
Definition dressed (t : Ticks) (tenant : option string) (r : HttpRequest) (rs : Response) : Response :=
  let rs := set_headers [("X-Request-ID", or_else (header "x-request-id" r) (tk_uuid4 t)); ("X-Response-Time", tk_elapsed t)]
              (add_security_headers rs) in
  if non_empty (str_of tenant) then set_header ("X-Tenant-ID", str_of tenant) rs else rs.

Definition finished (t : Ticks) (tenant : option string) (r : HttpRequest) (rs : Response) : Response :=
  set_header ("X-Request-ID", tk_request_id t) (cors_add (with_request_id (tk_request_id t) (with_tenant tenant r)) rs).

(** The inner part of the stack, up to the endpoint *)
Lemma inner_eq t endpoint tenant r w :
  tenant_context (request_tracing (tk_uuid4 t) (tk_elapsed t) (security (proxy_headers (exception_handlers endpoint))))
    (with_request_id (tk_request_id t) (with_tenant tenant r)) w =
  match exception_handlers endpoint (seen t tenant r) w with
  | (Ok rs, w') => (Ok (dressed t tenant r rs), w')
  | (Err e, w') => (Err e, w')
  end.
Proof.
  set (app := exception_handlers endpoint).
  transitivity ((rs ← (rs ← app (seen t tenant r); mret (add_security_headers rs));
                 let rs := set_headers [("X-Request-ID", or_else (header "x-request-id" r) (tk_uuid4 t)); ("X-Response-Time", tk_elapsed t)] rs in
                 mret (if non_empty (str_of tenant) then set_header ("X-Tenant-ID", str_of tenant) rs else rs)) w); [reflexivity|].
  unfold mbind, stE_bind, mret, stE_ret. by destruct (app (seen t tenant r) w) as [[rs|e] w'].
Qed.

(** The stack on a request that is no preflight *)
Lemma stack_run t endpoint r w tenant d :
  hr_method r ≠ "OPTIONS" → request_tenant (tk_auth t) r (aw_auth w) = (Ok tenant, d) →
  stack t endpoint r w =
  match deferred_rate_limit limiter (tk_limit t) (tk_info t)
          (tenant_context (request_tracing (tk_uuid4 t) (tk_elapsed t) (security (proxy_headers (exception_handlers endpoint)))))
          (with_request_id (tk_request_id t) (with_tenant tenant r))
          (with_factory (tk_request_id t :: aw_factory w) (with_auth d w)) with
  | (Ok rs, w') => (Ok (finished t tenant r rs), with_factory (aw_factory w) w')
  | (Err e, w') => (Err e, w')
  end.
Proof.
  intros Hm Ht. rewrite stack_order. unfold set_tenant_context_for_rls, try_catch, in_auth, mbind, stE_bind. rewrite Ht.
  unfold add_request_id, modify_st, mbind, stE_bind, mret, stE_ret. rewrite cors_simple by done. cbn [aw_factory with_auth].
  by destruct (deferred_rate_limit _ _ _ _ _ _) as [[rs|e] w'].
Qed.

Lemma assoc_set_headers k l rs :
  (∀ kv, kv ∈ l → str_lower kv.1 ≠ k) → assoc k (rs_headers (set_headers l rs)) = assoc k (rs_headers rs).
Proof.
  unfold set_headers. revert rs. induction l as [|kv l IH]; intros rs H; [done|]. cbn [fold_left].
  rewrite IH by (intros x Hx; apply H; by right). cbn [set_header rs_headers]. rewrite assoc_obj_set.
  destruct (String.eqb_spec k (str_lower kv.1)) as [->|]; [|done]. by destruct (H kv (list_elem_of_here _ _)).
Qed.

Lemma assoc_set_header k v k' rs :
  assoc k (rs_headers (set_header (k', v) rs)) = if String.eqb k (str_lower k') then Some v else assoc k (rs_headers rs).
Proof. apply assoc_obj_set. Qed.

(** An answer of the rate limiter is a refusal, or the answer of the application with
    limit headers added. *)
Lemma rate_answer a b next r w rs w' :
  deferred_rate_limit limiter a b next r w = (Ok rs, w') →
  (∃ limit retry, rs = too_many [("X-RateLimit-Limit", limit); ("X-RateLimit-Remaining", "0"); ("Retry-After", retry)]) ∨
  (∃ w1 rs0 w2 hs, next r w1 = (Ok rs0, w2) ∧ rs = set_headers hs rs0 ∧
     ∀ kv, kv ∈ hs → kv.1 = "X-RateLimit-Limit" ∨ kv.1 = "X-RateLimit-Remaining").
Proof.
  unfold deferred_rate_limit. destruct limiter as [self|].
  2: { intros H. right. exists w, rs, w', []. split_and!; [done|done|]. by intros ? ?%elem_of_nil. }
  unfold dispatch. destruct (bool_decide _).
  { intros H. right. exists w, rs, w', []. split_and!; [done|done|]. by intros ? ?%elem_of_nil. }
  unfold on_store, mbind, stE_bind, mret, stE_ret. destruct (check_limit _ _ _ _ _ _) as [[[[] retry]|e] s1]; [| |done].
  - destruct (next r _) as [[rs0|e] w2] eqn:E; [|done]. destruct (get_limit_info _ _ _ _) as [[info|e] s2]; [|done].
    intros [= <- _]. right. do 4 eexists. split_and!; [exact E|done|].
    unfold info_headers. destruct (match assoc "minute" info with Some i => _ | None => _ end) as [l rm].
    intros kv [->|[->|[]%elem_of_nil]%elem_of_cons]%elem_of_cons; auto.
  - unfold refused_headers. destruct (assoc "minute" _); [|done]. intros [= <- _]. left. by do 2 eexists.
Qed.

(** Every answer is tagged and hardened.  Whatever the endpoint does, an answer to a
    request that is no preflight carries the request id drawn for it.  Unless it is the
    refusal of the rate limiter (which sits outside of the security middleware), it carries
    the four security headers, and the tenant its credentials stand for: the text None
    when there are none. *)
Theorem answers_are_tagged t endpoint r w rs w' tenant d :
  hr_method r ≠ "OPTIONS" → request_tenant (tk_auth t) r (aw_auth w) = (Ok tenant, d) →
  stack t endpoint r w = (Ok rs, w') →
  assoc "x-request-id" (rs_headers rs) = Some (tk_request_id t) ∧
  (rs_status rs = 429 ∧ is_Some (assoc "retry-after" (rs_headers rs)) ∧ assoc "x-frame-options" (rs_headers rs) = None ∨
   (∀ kv, kv ∈ security_headers → assoc (str_lower kv.1) (rs_headers rs) = Some kv.2) ∧
   (non_empty (str_of tenant) = true → assoc "x-tenant-id" (rs_headers rs) = Some (str_of tenant))).
Proof.
  intros Hm Ht. rewrite (stack_run _ _ _ _ tenant d) by done. intros H.
  destruct (deferred_rate_limit _ _ _ _ _ _) as [[rs0|e] w1] eqn:E; [|done]. injection H as <- _.
  assert (∀ k, starts_with "access-control-" k = false → k ≠ "vary" → k ≠ "x-request-id" →
    assoc k (rs_headers (finished t tenant r rs0)) = assoc k (rs_headers rs0)) as Hf.
  { intros k Hk Hv Hi. unfold finished. rewrite assoc_set_header.
    destruct (String.eqb_spec k (str_lower "X-Request-ID")); [done|]. by apply cors_headers. }
  split; [unfold finished; by rewrite assoc_set_header|].
  apply rate_answer in E as [(limit & retry & ->)|(w0 & rs1 & w2 & hs & E & -> & Hhs)].
  - left. split; [unfold finished; cbn; by rewrite cors_status|]. rewrite !Hf by done. cbn. eauto.
  - right. rewrite inner_eq in E. destruct (exception_handlers endpoint _ w0) as [[rs2|e] w3]; [|done]. injection E as <- <-.
    assert (∀ k, k ≠ "x-ratelimit-limit" → k ≠ "x-ratelimit-remaining" →
      assoc k (rs_headers (set_headers hs (dressed t tenant r rs2))) = assoc k (rs_headers (dressed t tenant r rs2))) as Hd.
    { intros k H1 H2. apply assoc_set_headers. intros kv Hkv. destruct (Hhs kv Hkv) as [-> | ->]; intros <-; [by apply H1|by apply H2]. }
    split.
    + assert (Forall (λ kv, assoc (str_lower kv.1) (rs_headers (finished t tenant r (set_headers hs (dressed t tenant r rs2)))) = Some kv.2)
        security_headers) as Hall; [|by rewrite Forall_forall in Hall].
      repeat (apply Forall_cons; split; [|]); [..|done]; cbn [fst snd];
        (rewrite Hf, Hd by done; unfold dressed; case_match; unfold add_security_headers, set_headers; cbn [fold_left security_headers];
         rewrite ?assoc_set_header; reflexivity).
    + intros Hne. rewrite Hf, Hd by done. unfold dressed. rewrite Hne. by rewrite assoc_set_header.
Qed.

(** C32. Requests are limited by the tenant of their credentials. Take a request that is not
    an OPTIONS request and whose path is not exempt ([skip_paths]: health, the
    documentation, the uplink webhook, login and refresh), in an application whose limiter
    started with a limit per minute, while the lookup of its tenant answers. When the
    windows of that tenant (of the text None for every such request without valid
    credentials, so these all share one) refuse, the answer is 429, and the endpoint is not
    run: the answer and the whole state afterwards are the same for every endpoint, and
    nothing but the windows and the last use of an API key has changed. *)
Theorem limited_by_credentials t r w tenant d self retry s :
  limiter = Some self → hr_method r ≠ "OPTIONS" → hr_path r ∉ skip_paths →
  request_tenant (tk_auth t) r (aw_auth w) = (Ok tenant, d) → is_Some (assoc "minute" (default_limits self)) →
  check_limit self (tk_limit t) (str_of tenant) (operation_type (limiter_request r)) None (aw_store w) = (Ok (false, retry), s) →
  ∃ rs, rs_status rs = 429 ∧ ∀ endpoint, stack t endpoint r w = (Ok rs, mkWorld d s (aw_factory w) (aw_rest w)).
Proof.
  intros Hl Hm Hp Ht [limit Hlim] Hc.
  exists (finished t tenant r (too_many [("X-RateLimit-Limit", show_Z limit); ("X-RateLimit-Remaining", "0");
    ("Retry-After", match retry with Some r => show_Z r | None => "None" end)])).
  split; [unfold finished; cbn; by rewrite cors_status|]. intros endpoint.
  rewrite (stack_run _ _ _ _ tenant d) by done. unfold deferred_rate_limit. rewrite Hl. unfold dispatch.
  rewrite bool_decide_false by done. unfold on_store, mbind, stE_bind, mret, stE_ret.
  change (limited_tenant (limiter_request (with_request_id (tk_request_id t) (with_tenant tenant r)))) with (str_of tenant).
  change (operation_type (limiter_request (with_request_id (tk_request_id t) (with_tenant tenant r))))
    with (operation_type (limiter_request r)).
  cbn [aw_store with_factory with_auth]. rewrite Hc. unfold refused_headers. rewrite Hlim. done.
Qed.

(** Where the limiter does not stand in the way, the endpoint is run once, on a request
    that names the tenant of the credentials, the drawn request id and the forwarded scheme
    and host, and its answer is dressed. *)
Theorem endpoint_sees t endpoint r w tenant d :
  hr_method r ≠ "OPTIONS" → hr_path r ∈ skip_paths ∨ limiter = None →
  request_tenant (tk_auth t) r (aw_auth w) = (Ok tenant, d) →
  st_tenant_id (seen t tenant r) = Some tenant ∧ st_request_id (seen t tenant r) = Some (tk_request_id t) ∧
  hr_scheme (seen t tenant r) = hr_scheme (forwarded r) ∧ hr_server (seen t tenant r) = hr_server (forwarded r) ∧
  stack t endpoint r w =
  match exception_handlers endpoint (seen t tenant r) (with_factory (tk_request_id t :: aw_factory w) (with_auth d w)) with
  | (Ok rs, w') => (Ok (finished t tenant r (dressed t tenant r rs)), with_factory (aw_factory w) w')
  | (Err e, w') => (Err e, w')
  end.
Proof.
  intros Hm Hp Ht. split_and!; [done..|]. rewrite (stack_run _ _ _ _ tenant d) by done.
  assert (∀ next, deferred_rate_limit limiter (tk_limit t) (tk_info t) next (with_request_id (tk_request_id t) (with_tenant tenant r)) =
    next (with_request_id (tk_request_id t) (with_tenant tenant r))) as Hr.
  { intros next. unfold deferred_rate_limit. destruct limiter as [self|]; [|done]. destruct Hp as [Hp|]; [|done].
    unfold dispatch. by rewrite bool_decide_true. }
  rewrite Hr, inner_eq. by destruct (exception_handlers _ _ _) as [[rs|e] w'].
Qed.

(** The limiter runs the application at most once, on the same accounts and the same rest. *)
Lemma limit_rest a b next r w :
  let w' := (deferred_rate_limit limiter a b next r w).2 in
  aw_rest w' = aw_rest w ∨
  ∃ w1, aw_auth w1 = aw_auth w ∧ aw_rest w1 = aw_rest w ∧ aw_rest w' = aw_rest (next r w1).2.
Proof.
  unfold deferred_rate_limit. destruct limiter as [self|]; [|right; by exists w].
  unfold dispatch. destruct (bool_decide _); [right; by exists w|].
  unfold on_store, mbind, stE_bind, mret, stE_ret. destruct (check_limit _ _ _ _ _ _) as [[[[] retry]|e] s1]; [| |by left].
  - right. exists (with_store s1 w). split_and!; [done..|]. destruct (next r _) as [[rs0|e] w2]; [|done].
    by destruct (get_limit_info _ _ _ _) as [[info|e] s2].
  - left. by destruct (refused_headers _ _).
Qed.

(** What a served request does to the rest of the state, its endpoint did, once, with the
    accounts as resolving the tenant left them. *)
Lemma served_once t endpoint r w :
  hr_method r ≠ "OPTIONS" →
  let w' := (serve t endpoint r w).2 in
  aw_rest w' = aw_rest w ∨
  ∃ tenant w1, request_tenant (tk_auth t) r (aw_auth w) = (Ok tenant, aw_auth w1) ∧ aw_rest w1 = aw_rest w ∧
    aw_rest w' = aw_rest (endpoint (seen t tenant r) w1).2.
Proof.
  intros Hm. destruct (request_tenant_ok (tk_auth t) r (aw_auth w)) as (tenant & d & Ht).
  unfold serve, generic_exception_handler. rewrite (stack_run _ _ _ _ tenant d Hm Ht).
  match goal with |- context [deferred_rate_limit _ ?a ?b ?n ?q ?v] => pose proof (limit_rest a b n q v) as H; cbn [aw_rest aw_auth with_factory with_auth] in H end.
  destruct (deferred_rate_limit _ _ _ _ _ _) as [x w2]. cbn [snd] in H.
  enough (aw_rest w2 = aw_rest w ∨ ∃ tenant w1, request_tenant (tk_auth t) r (aw_auth w) = (Ok tenant, aw_auth w1) ∧
    aw_rest w1 = aw_rest w ∧ aw_rest w2 = aw_rest (endpoint (seen t tenant r) w1).2) by (by destruct x).
  destruct H as [->|(w1 & Ha & Hr & ->)]; [by left|]. right. exists tenant, w1. split_and!; [by rewrite Ha|done|].
  rewrite inner_eq. unfold exception_handlers, try_catch. destruct (endpoint _ _) as [[rs|[]] w3]; done.
Qed.

(** The limiter lets the request of a tenant through. *)
Definition admitted (t : Ticks) (tenant : option string) (r : HttpRequest) (w : AppWorld) : Prop :=
  match limiter with
  | None => True
  | Some self => hr_path r ∈ skip_paths ∨ ∃ retry s,
      check_limit self (tk_limit t) (str_of tenant) (operation_type (limiter_request r)) None (aw_store w) = (Ok (true, retry), s)
  end.

(** What an admitted request does to the rest of the state is what its endpoint does. *)
Lemma served_admitted t endpoint r w tenant d :
  hr_method r ≠ "OPTIONS" → request_tenant (tk_auth t) r (aw_auth w) = (Ok tenant, d) → admitted t tenant r w →
  ∃ w1, aw_auth w1 = d ∧ aw_rest w1 = aw_rest w ∧
    aw_rest (serve t endpoint r w).2 = aw_rest (endpoint (seen t tenant r) w1).2.
Proof.
  intros Hm Ht Ha. unfold serve, generic_exception_handler. rewrite (stack_run _ _ _ _ tenant d Hm Ht).
  set (app := tenant_context _). set (r1 := with_request_id _ _). set (w0 := with_factory _ _).
  assert (∃ w1, aw_auth w1 = d ∧ aw_rest w1 = aw_rest w ∧
    aw_rest (deferred_rate_limit limiter (tk_limit t) (tk_info t) app r1 w0).2 = aw_rest (app r1 w1).2) as (w1 & H1 & H2 & H3).
  { unfold deferred_rate_limit, admitted in *. destruct limiter as [self|]; [|by exists w0]. unfold dispatch.
    destruct (bool_decide_reflect (hr_path r ∈ skip_paths)) as [Hp|Hp]; [rewrite bool_decide_true by done; by exists w0|].
    destruct Ha as [Ha|(retry & s & Ha)]; [done|]. rewrite bool_decide_false by done.
    unfold on_store, mbind, stE_bind, mret, stE_ret. change (limited_tenant (limiter_request r1)) with (str_of tenant).
    change (operation_type (limiter_request r1)) with (operation_type (limiter_request r)). cbn [w0 aw_store with_factory with_auth].
    rewrite Ha. exists (with_store s w0). split_and!; [done..|]. destruct (app r1 _) as [[rs0|e] w2]; [|done].
    by destruct (get_limit_info _ _ _ _) as [[info|e] s2]. }
  exists w1. split_and!; [done..|]. destruct (deferred_rate_limit _ _ _ _ _ _) as [x w2]. cbn [snd] in H3.
  transitivity (aw_rest w2); [by destruct x|]. rewrite H3. unfold app, r1. rewrite inner_eq.
  unfold exception_handlers, try_catch. by destruct (endpoint _ _) as [[rs|[]] w3].
Qed.

(** The record factory of the logging module is put back only by requests that are
    answered.  A request that ends in an unhandled exception is answered 500 without any of
    the headers the middlewares add, and leaves its record factory in place: the chain that
    every later log record goes through has grown by one. *)
Theorem unhandled_requests_pile_up t endpoint r w :
  hr_method r ≠ "OPTIONS" → (∀ r w, aw_factory (endpoint r w).2 = aw_factory w) →
  let '(rs, w') := serve t endpoint r w in
  match stack t endpoint r w with
  | (Ok _, _) => aw_factory w' = aw_factory w
  | (Err _, _) => rs = mkResponse 500 [] BInternal ∧ aw_factory w' = tk_request_id t :: aw_factory w
  end.
Proof.
  intros Hm He. unfold serve, generic_exception_handler.
  destruct (request_tenant_ok (tk_auth t) r (aw_auth w)) as (tenant & d & Ht). rewrite (stack_run _ _ _ _ tenant d) by done.
  set (app := tenant_context _).
  assert (∀ r w, aw_factory (app r w).2 = aw_factory w) as Happ.
  { intros r0 w0. unfold app, tenant_context, request_tracing, security, proxy_headers, exception_handlers, try_catch, mbind, stE_bind, mret, stE_ret.
    match goal with |- context [endpoint ?x w0] => pose proof (He x w0) as H; destruct (endpoint x w0) as [[rs|[]] w1] end; done. }
  clearbody app.
  assert (∀ r w, aw_factory (deferred_rate_limit limiter (tk_limit t) (tk_info t) app r w).2 = aw_factory w) as Hrate.
  { intros r0 w0. unfold deferred_rate_limit. destruct limiter as [self|]; [|apply Happ]. unfold dispatch. destruct (bool_decide _); [apply Happ|].
    unfold on_store, mbind, stE_bind, mret, stE_ret. destruct (check_limit _ _ _ _ _ _) as [[[[] retry]|e] s1]; [| |done].
    - pose proof (Happ r0 (with_store s1 w0)) as H. destruct (app r0 _) as [[rs|e] w1]; [|done].
      destruct (get_limit_info _ _ _ _) as [[info|e] s2]; done.
    - by destruct (refused_headers _ _). }
  match goal with |- context [deferred_rate_limit limiter ?a ?b app ?x ?y] =>
    pose proof (Hrate x y) as H; destruct (deferred_rate_limit limiter a b app x y) as [[rs|e] w'] end; [done|].
  by split.
Qed.
End Application.

(** ** Health checks *)

Section Health.
(** What the probes find: the attributes of [app.state] (an error when missing), and the
    answers of the servers *)
Record Probes := mkProbes {
  pb_db_pool : result exn unit; pb_select : result exn unit; pb_ping : result exn unit; pb_chirpstack : result exn string;
  pb_limiter : result exn (option bool); pb_worker : result exn (option bool); pb_tasks : result exn (option bool);
  pb_spool : result exn (option bool);
}.

Definition unhealthy (e : exn) : string := "unhealthy: " +:+ message e.
Definition not_ready (e : exn) : string := "not ready: " +:+ str_take 100 (message e).
Definition probe_error (e : exn) : string := "error: " +:+ str_take 100 (message e).

(** Each check: its text, and whether it leaves the status alone. *)
Definition health_checks (p : Probes) : list (string * (string * bool)) :=
  [("database", match pb_db_pool p with Ok _ => ("healthy", true) | Err e => (unhealthy e, false) end);
   ("redis", match pb_ping p with Ok _ => ("healthy", true) | Err e => (unhealthy e, false) end);
   ("chirpstack", match pb_chirpstack p with Ok status => (status, true) | Err e => (unhealthy e, false) end);
   ("rate_limiter", match pb_limiter p with
                    | Ok (Some true) => ("healthy", true) | Ok (Some false) => ("disabled", true)
                    | Ok None => ("not initialized", false) | Err e => (unhealthy e, false) end)].

Definition health_check (p : Probes) : string * list (string * string) :=
  (if forallb (λ c, c.2.2) (health_checks p) then "healthy" else "degraded", map (λ c, (c.1, c.2.1)) (health_checks p)).

(** ChirpStackClient has no attribute [mqtt_client]. *)
Definition mqtt_connected : result exn bool := Err (PyException "'ChirpStackClient' object has no attribute 'mqtt_client'").

Definition ready_checks (p : Probes) : list (string * (string * bool)) :=
  [("database", match (_ ← pb_db_pool p; pb_select p) with Ok _ => ("ready", true) | Err e => (not_ready e, false) end);
   ("redis", match pb_ping p with Ok _ => ("ready", true) | Err e => (not_ready e, false) end);
   ("chirpstack_mqtt", match mqtt_connected with
                       | Ok true => ("ready", true) | Ok false => ("not connected", false) | Err e => (not_ready e, false) end);
   ("downlink_worker", match pb_worker p with
                       | Ok (Some true) => ("ready", true) | Ok _ => ("not running", true) | Err e => (probe_error e, true) end)].

(** The status code and the checks *)
Definition readiness_check (p : Probes) : Z * list (string * string) :=
  (if forallb (λ c, c.2.2) (ready_checks p) then 200 else 503, map (λ c, (c.1, c.2.1)) (ready_checks p)).

Definition alive_text (r : result exn (option bool)) : string :=
  match r with Ok (Some true) => "alive" | Ok (Some false) => "stopped" | Ok None => "not initialized" | Err e => probe_error e end.

Definition liveness_check (p : Probes) : Z * list (string * string) :=
  (match pb_tasks p with Ok (Some true) => 200 | _ => 503 end,
   [("task_manager", match pb_tasks p with Ok (Some true) => "alive" | Ok _ => "stopped" | Err e => probe_error e end);
    ("downlink_worker", alive_text (pb_worker p)); ("webhook_spool", alive_text (pb_spool p))]).

(** Readiness is never reported, whatever the servers answer; and the health check does not
    ask the database anything. *)
Lemma readiness_never_ready p : (readiness_check p).1 = 503.
Proof. unfold readiness_check, ready_checks. cbn. by rewrite !andb_false_r. Qed.

Lemma health_ignores_database p r : health_check p = health_check
  (mkProbes (pb_db_pool p) r (pb_ping p) (pb_chirpstack p) (pb_limiter p) (pb_worker p) (pb_tasks p) (pb_spool p)).
Proof. done. Qed.
End Health.

(** ** Start-up and shutdown: [lifespan] *)

Inductive Component :=
| DbPool | TenantAuth | CacheManager | ApiLimiter | Spool | Queue | StateMgr | ChirpStack | Monitor | Registry | Worker | Tasks.

#[export] Instance component_eq_dec : EqDecision Component.
Proof. solve_decision. Defined.

Definition startup_order : list Component :=
  [DbPool; TenantAuth; CacheManager; ApiLimiter; Spool; Queue; StateMgr; ChirpStack; Monitor; Registry; Worker; Tasks].

(** What the construction of a component is given *)
Definition requires (c : Component) : list Component :=
  match c with
  | TenantAuth => [DbPool] | ApiLimiter => [CacheManager] | Queue => [CacheManager] | StateMgr => [DbPool; Queue]
  | Monitor => [ChirpStack] | Worker => [Queue; ChirpStack] | Tasks => [DbPool; StateMgr; ChirpStack; Monitor]
  | _ => []
  end.

(** What is closed; the cache, the queue, the registry and the globals of the
    authentication are not. *)
Definition shutdown_order : list Component := [Tasks; Worker; Spool; Monitor; ChirpStack; StateMgr; DbPool].

Fixpoint bring_up (fails : Component → option exn) (cs up : list Component) : result exn unit * list Component :=
  match cs with
  | [] => (Ok tt, up)
  | c :: cs => match fails c with Some e => (Err e, up) | None => bring_up fails cs (up ++ [c]) end
  end.

Fixpoint bring_down (fails : Component → option exn) (cs up : list Component) : result exn unit * list Component :=
  match cs with
  | [] => (Ok tt, up)
  | c :: cs =>
      match fails c with
      | Some e => (Err e, up)
      | None => bring_down fails cs (List.filter (λ x, bool_decide (x ≠ c)) up)
      end
  end.

(** The application serves when start-up succeeded; then it is brought down. *)
Definition lifespan_start (jwt_secret : string) (fails : Component → option exn) : result exn unit * list Component :=
  if (String.length jwt_secret <? 32)%nat then (Err (PyException "JWT_SECRET_KEY must be at least 32 characters"), [])
  else bring_up fails startup_order [].

Definition lifespan (jwt_secret : string) (fails stop_fails : Component → option exn) : result exn unit * list Component :=
  match lifespan_start jwt_secret fails with
  | (Ok _, up) => bring_down stop_fails shutdown_order up
  | failed => failed
  end.

(** Everything running has what it was built on; the globals of the authentication, which
    keep a closed pool, aside. *)
Definition supported (up : list Component) : Prop :=
  Forall (λ c, c = TenantAuth ∨ Forall (λ d, d ∈ up) (requires c)) up.

#[export] Instance supported_dec up : base.Decision (supported up).
Proof. unfold supported. apply _. Defined.

(** The components of a list are supported by those before them. *)
Fixpoint orderly (up cs : list Component) : Prop :=
  match cs with [] => True | c :: cs => (∀ d, d ∈ requires c → d ∈ up) ∧ orderly (up ++ [c]) cs end.

Lemma bring_up_supported fails cs up : supported up → orderly up cs → supported (bring_up fails cs up).2.
Proof.
  revert up. induction cs as [|c cs IH]; intros up Hs Ho; [done|]. cbn. destruct Ho as [Hc Ho]. destruct (fails c); [done|].
  apply IH; [|done]. unfold supported. apply Forall_app. split; [|apply Forall_singleton; right; apply Forall_forall; intros d Hd; apply elem_of_app; auto].
  eapply Forall_impl; [exact Hs|]. intros x [?|Hx]; [by left|right]. eapply Forall_impl; [exact Hx|]. intros d Hd. apply elem_of_app. by left.
Qed.

Lemma bring_up_ok fails cs up up' : bring_up fails cs up = (Ok tt, up') → up' = (up ++ cs)%list.
Proof.
  revert up. induction cs as [|c cs IH]; intros up; cbn; [intros [= <-]; by rewrite app_nil_r|].
  destruct (fails c); [done|]. intros ->%IH. by rewrite <- app_assoc.
Qed.

(** A list whose components can be taken away one after the other *)
Fixpoint removable (up cs : list Component) : Prop :=
  match cs with
  | [] => True
  | c :: cs => let up := List.filter (λ x, bool_decide (x ≠ c)) up in supported up ∧ removable up cs
  end.

Lemma bring_down_supported fails cs up : supported up → removable up cs → supported (bring_down fails cs up).2.
Proof.
  revert up. induction cs as [|c cs IH]; intros up Hs; [done|]. intros [H1 H2]. cbn. destruct (fails c); [done|]. by apply IH.
Qed.

(** Nothing runs without what it was built on.  Whatever component fails to start or to
    stop, and so at every moment in between: a component that is up has everything its
    construction was given, the globals of the authentication aside, which keep the closed
    pool after the shutdown. *)
Theorem lifespan_supported jwt_secret fails stop_fails :
  supported (lifespan_start jwt_secret fails).2 ∧ supported (lifespan jwt_secret fails stop_fails).2.
Proof.
  assert (supported (lifespan_start jwt_secret fails).2) as Hup.
  { unfold lifespan_start. destruct (_ <? _)%nat; [by apply Forall_nil|].
    apply bring_up_supported; [by apply Forall_nil|]. cbn. split_and!; try done; set_solver. }
  split; [exact Hup|]. unfold lifespan. destruct (lifespan_start jwt_secret fails) as [[[]|e] up] eqn:E; [|exact Hup].
  apply bring_down_supported; [exact Hup|]. unfold lifespan_start in E. destruct (_ <? _)%nat; [done|].
  apply bring_up_ok in E as ->. cbn [app]. unfold shutdown_order.
  repeat (split; [apply (bool_decide_unpack _); vm_compute; exact I|]). exact I.
Qed.

(** ** Witnesses *)

Definition reversed_fold {W} (l : list ((HttpRequest → stE (AppWorld (R := gmap_redis) (W := W)) exn Response) →
    HttpRequest → stE (AppWorld (R := gmap_redis) (W := W)) exn Response)) (app : HttpRequest → stE (AppWorld (R := gmap_redis) (W := W)) exn Response) :=
  fold_left (λ a m, m a) l app.

Definition no_cors {W} (next : HttpRequest → stE (AppWorld (R := gmap_redis) (W := W)) exn Response) := next.

Definition get_spaces : HttpRequest := mkHttpRequest "GET" "/api/v1/spaces" [] None "http" None None None None "" "" "".
Definition ticks : Ticks := mkTicks (1 * sec) (2 * sec) (2 * sec) "req_1" "uuid-1" "1.00ms".
Definition no_world : AppWorld (R := gmap_redis) (W := unit) := mkWorld auth_db ∅ [] tt.
Definition ok_endpoint (r : HttpRequest) : stE (AppWorld (R := gmap_redis) (W := unit)) exn Response := mret (mkResponse 200 [] (BAnswer JNull)).

Lemma fold_snoc {W} l m (app : HttpRequest → stE (AppWorld (R := gmap_redis) (W := W)) exn Response) :
  reversed_fold (l ++ [m]) app = m (reversed_fold l app).
Proof. unfold reversed_fold. by rewrite fold_left_app. Qed.

Lemma no_cors_simple {W} next r (w : AppWorld (R := gmap_redis) (W := W)) :
  hr_method r ≠ "OPTIONS" →
  no_cors next r w = match next r w with (Ok rs, w') => (Ok rs, w') | (Err e, w') => (Err e, w') end.
Proof. intros _. unfold no_cors. by destruct (next r w) as [[rs|e] w']. Qed.

Abbreviation demo_stack limiter := (stack plain_checkpw plain_jwt_decode true (Some "s") reversed_fold no_cors limiter).

Lemma answers_are_tagged_witness :
  ∃ rs, (demo_stack None ticks ok_endpoint get_spaces no_world).1 = Ok rs ∧
        assoc "x-request-id" (rs_headers rs) = Some "req_1" ∧ assoc "x-frame-options" (rs_headers rs) = Some "DENY".
Proof.
  eexists. split; [reflexivity|].
  refine ((λ H, conj (proj1 H) _) (answers_are_tagged plain_checkpw plain_jwt_decode true (Some "s") reversed_fold no_cors None
    (λ app, eq_refl) fold_snoc (λ _ rs, rs) no_cors_simple (λ _ _ _ _ _, eq_refl) (λ _ _, eq_refl)
    ticks ok_endpoint get_spaces no_world _ _ None auth_db ltac:(discriminate) eq_refl eq_refl)).
  reflexivity.
Defined.

(** One read per minute, and two requests without credentials *)
Lemma limited_by_credentials_witness :
  let self := new_limiter true 1 100 in
  let w := (demo_stack (Some self) ticks ok_endpoint get_spaces no_world).2 in
  ∃ rs, rs_status rs = 429 ∧
    ∀ endpoint, (demo_stack (Some self) ticks endpoint get_spaces w).1 = Ok rs.
Proof.
  intros self w.
  destruct (limited_by_credentials (W := unit) plain_checkpw plain_jwt_decode true (Some "s") reversed_fold no_cors (Some self)
    (λ app, eq_refl) fold_snoc (λ _ rs, rs) no_cors_simple (λ _ _, eq_refl)
    ticks get_spaces w None auth_db self (Some 61) (check_limit self (2 * sec) "None" "read" None (aw_store w)).2) as (rs & H1 & H2).
  - reflexivity.
  - discriminate.
  - vm_compute. intros H. repeat (apply elem_of_cons in H as [H|H]; [discriminate|]). by apply elem_of_nil in H.
  - reflexivity.
  - vm_compute. eauto.
  - vm_compute. reflexivity.
  - exists rs. split; [exact H1|]. intros endpoint. by rewrite (H2 endpoint).
Defined.

Lemma endpoint_sees_witness :
  st_tenant_id (seen ticks None get_spaces) = Some None ∧
  (demo_stack None ticks ok_endpoint get_spaces no_world).2 = with_auth auth_db no_world.
Proof.
  destruct (endpoint_sees plain_checkpw plain_jwt_decode true (Some "s") reversed_fold no_cors None
    (λ app, eq_refl) fold_snoc (λ _ rs, rs) no_cors_simple ticks ok_endpoint get_spaces no_world None auth_db
    ltac:(discriminate) (or_intror eq_refl) eq_refl) as (H1 & _ & _ & _ & H2).
  split; [exact H1|]. by rewrite H2.
Defined.

Definition failing_endpoint (r : HttpRequest) : stE (AppWorld (R := gmap_redis) (W := unit)) exn Response := raise (PyException "boom").

Lemma unhandled_requests_pile_up_witness :
  (serve plain_checkpw plain_jwt_decode true (Some "s") reversed_fold no_cors None ticks failing_endpoint get_spaces no_world).1 =
    mkResponse 500 [] BInternal ∧
  aw_factory (serve plain_checkpw plain_jwt_decode true (Some "s") reversed_fold no_cors None ticks failing_endpoint get_spaces no_world).2 =
    ["req_1"].
Proof.
  exact (unhandled_requests_pile_up plain_checkpw plain_jwt_decode true (Some "s") reversed_fold no_cors None
    (λ app, eq_refl) fold_snoc (λ _ rs, rs) no_cors_simple ticks failing_endpoint get_spaces no_world
    ltac:(discriminate) (λ _ _, eq_refl)).
Defined.
