(* ===== verification/Served.v ===== *)
(** * Served: a request on spaces, from the socket to the tables

    Composes the middlewares of App.v, the dependencies of Auth.v and the writing handlers
    of Spaces.v the way main.py and the routes of src/src/routers/spaces_tenanted.py do:
    the stack runs the route, the route authenticates the caller, checks the scope and the
    role, and calls the handler.  The last theorem follows a new customer from
    POST /auth/register (Tenants.v), with the access token of RefreshTokens.v, to the
    first space.  The world
    behind the middlewares is the state of Spaces.v.  What FastAPI makes of the
    Authorization header ([credentials]) and of an answer ([render]) are parameters;
    within one request a dependency is resolved once. *)

From Stdlib Require Import QArith.
From S2P Require Import Prelude PyUtils Json Redis ApiRateLimit SlidingWindow Models Database StateManager Auth DeviceHandlers Devices.
From S2P Require Import RefreshTokens Cache Estate Sites Spaces Tenants App.

Open Scope Z_scope.

(** The writing routes, with what they take from the path and the body *)
Inductive SpaceWrite :=
| WCreate (space : SpaceCreate) | WUpdate (space_id : string) (u : SpaceUpdate) | WDelete (space_id : string)
| WAssign (c : Category) (space_id eui : string) | WUnassign (c : Category) (space_id : string).

Inductive SpaceAnswer := AJson (j : json) | ARow (s : Space) | ANone.

Section Routes.
Context {R : Redis} (repr_float : Q → string).
Context (decode_jsonb : json_obj → json) (encode_jsonb : json_obj → result exn json_obj).
Context (bare_sensor : string → string → string → result exn SensorDevice)
        (bare_display : string → string → string → result exn DisplayDevice).
Context (checkpw : string → string → result exn bool) (jwt_decode : Z → string → string → result exn JwtPayload).
Context (pool_ready : bool) (JWT_SECRET_KEY : option string).
Context (credentials : option string → option string) (render : SpaceAnswer → Response).
Context (fault : SpaceCall → option exn).

Abbreviation world := (AppWorld (R := R) (W := SpacesState)).

Definition run_write (now : Z) (new_id : string) (q : SpaceWrite) (tenant : TenantContext) : stE SpacesState exn SpaceAnswer :=
  match q with
  | WCreate space => j ← create_space repr_float decode_jsonb encode_jsonb fault now new_id space tenant; mret (AJson j)
  | WUpdate i u => j ← update_space repr_float decode_jsonb encode_jsonb fault now i u tenant; mret (AJson j)
  | WDelete i => _ ← delete_space fault now i tenant; mret ANone
  | WAssign c i eui => s ← assign_device bare_sensor bare_display fault c now new_id i eui tenant; mret (ARow s)
  | WUnassign CSensor i => s ← unassign_sensor_from_space fault now i tenant; mret (ARow s)
  | WUnassign CDisplay i => s ← unassign_display_from_space fault now i tenant; mret (ARow s)
  end.

(** The caller of a writing route *)
Definition space_writer (now : Z) (r : HttpRequest) : stE AuthDb exn TenantContext :=
  c ← get_current_tenant checkpw jwt_decode pool_ready JWT_SECRET_KEY now (header "x-api-key" r) (credentials (header "authorization" r));
  _ ← lift (check_scopes (list_to_set ["spaces:write"]) c);
  lift (require_role ADMIN c).

Definition in_rest {A} (m : stE SpacesState exn A) : stE world exn A := λ w,
  let '(r, s) := m (aw_rest w) in (r, mkWorld (aw_auth w) (aw_store w) (aw_factory w) s).

Definition space_route (now : Z) (new_id : string) (q : SpaceWrite) (r : HttpRequest) : stE world exn Response :=
  c ← in_auth (space_writer now r);
  a ← in_rest (run_write now new_id q c);
  mret (render a).

(** ** Properties *)

Lemma run_write_request now new_id q tenant s :
  write_request repr_float decode_jsonb encode_jsonb bare_sensor bare_display fault tenant s (run_write now new_id q tenant s).2.
Proof.
  assert (∀ A (m : stE SpacesState exn A) (f : A → SpaceAnswer), (mbind (λ a, mret (f a)) m s).2 = (m s).2) as Hm.
  { intros A m f. unfold mbind, stE_bind, mret, stE_ret. by destruct (m s) as [[]]. }
  destruct q as [space|i u|i|c i eui|[] i]; unfold run_write; rewrite Hm.
  - eapply write_create. apply surjective_pairing.
  - eapply write_update. apply surjective_pairing.
  - eapply write_delete. apply surjective_pairing.
  - eapply write_assign. apply surjective_pairing.
  - eapply write_unassign_sensor. apply surjective_pairing.
  - eapply write_unassign_display. apply surjective_pairing.
Qed.

(** The route changes the tables only through the handler, for the caller it admitted. *)
Lemma route_writes now new_id q r w :
  let s' := aw_rest (space_route now new_id q r w).2 in
  s' = aw_rest w ∨
  ∃ c d, get_current_tenant checkpw jwt_decode pool_ready JWT_SECRET_KEY now (header "x-api-key" r) (credentials (header "authorization" r)) (aw_auth w)
           = (Ok c, d) ∧
    check_scopes (list_to_set ["spaces:write"]) c = Ok tt ∧ require_role ADMIN c = Ok c ∧
    write_request repr_float decode_jsonb encode_jsonb bare_sensor bare_display fault c (aw_rest w) s'.
Proof.
  unfold space_route, space_writer, in_auth, in_rest, lift, mbind, stE_bind, mret, stE_ret.
  destruct (get_current_tenant _ _ _ _ _ _ _ _) as [[c|e] d] eqn:Ec; [|by left].
  destruct (check_scopes _ c) as [[]|e] eqn:Es; [|by left].
  destruct (require_role ADMIN c) as [c'|e] eqn:Er; [|by left].
  assert (c' = c) as ->.
  { unfold require_role in Er. destruct (String.eqb _ _); [by injection Er|]. destruct (tc_user_role c); [|done].
    destruct (_ <? _); [done|]. by injection Er. }
  cbn [aw_rest with_auth]. right. exists c, d. split_and!; [done..|].
  pose proof (run_write_request now new_id q c (aw_rest w)) as H. by destruct (run_write _ _ _ _ _) as [[a|e] s'].
Qed.

(** Resolving the tenant for the row policies only marks the use of a key. *)
Lemma keeps_request_tenant now r : keeps accounts_kept (request_tenant checkpw jwt_decode pool_ready JWT_SECRET_KEY now r).
Proof.
  unfold request_tenant. case_match; [auto with keeps|]. unfold key_tenant. case_match; [|auto with keeps].
  apply keeps_bind; [apply _|apply keeps_verify_key|]. intros []; [|auto with keeps].
  apply keeps_bind; [apply _|auto with keeps|auto with keeps].
Qed.

Context (starlette : list ((HttpRequest → stE world exn Response) → HttpRequest → stE world exn Response) →
                     (HttpRequest → stE world exn Response) → HttpRequest → stE world exn Response).
Context (cors : (HttpRequest → stE world exn Response) → HttpRequest → stE world exn Response) (limiter : option RateLimiter).
Context (starlette_nil : ∀ app, starlette [] app = app).
Context (starlette_snoc : ∀ l m app, starlette (l ++ [m])%list app = m (starlette l app)).
Context (cors_add : HttpRequest → Response → Response).
Context (cors_simple : ∀ next r w, hr_method r ≠ "OPTIONS" →
  cors next r w = match next r w with (Ok rs, w') => (Ok (cors_add r rs), w') | (Err e, w') => (Err e, w') end).

(** C6. A writing request on spaces is served for one tenant.  Whatever the request, whichever
    calls fail and whether the rate limiter lets it through: the tables are left alone, or
    its credentials gave an active tenant's context with the scope and the role of the
    route, and then only that tenant's spaces have changed, consistently. *)
Theorem served_for_its_caller t now new_id q r w :
  hr_method r ≠ "OPTIONS" → estate_ok (ss_estate (aw_rest w)) →
  let w' := (serve checkpw jwt_decode pool_ready JWT_SECRET_KEY starlette cors limiter t (space_route now new_id q) r w).2 in
  aw_rest w' = aw_rest w ∨
  ∃ c d d' row, get_current_tenant checkpw jwt_decode pool_ready JWT_SECRET_KEY now (header "x-api-key" r) (credentials (header "authorization" r)) d = (Ok c, d') ∧
    accounts_kept (aw_auth w) d ∧ check_scopes (list_to_set ["spaces:write"]) c = Ok tt ∧ require_role ADMIN c = Ok c ∧
    row ∈ tenants (aw_auth w) ∧ tn_id row = tc_tenant_id c ∧ tn_is_active row = true ∧
    estate_ok (ss_estate (aw_rest w')) ∧ space_frame c (ss_estate (aw_rest w)) (ss_estate (aw_rest w')).
Proof.
  intros Hm Hok w'.
  destruct (served_once checkpw jwt_decode pool_ready JWT_SECRET_KEY starlette cors limiter starlette_nil starlette_snoc
    cors_add cors_simple t (space_route now new_id q) r w Hm) as [H|(tenant & w1 & Ht & Hr & H)]; [by left|].
  fold w' in H. destruct (route_writes now new_id q (seen t tenant r) w1) as [E|(c & d & Hc & Hs & Hrole & Hw)].
  { left. by rewrite H, E. }
  right. rewrite Hr in Hw. rewrite <- H in Hw. destruct (write_request_framed _ _ _ _ _ _ _ _ _ Hok Hw) as [Hf _].
  destruct (context_tenant_active _ _ _ _ _ _ _ _ _ _ Hc) as (row & Hin & Hid & Ha).
  pose proof (keeps_request_tenant (tk_auth t) r (aw_auth w)) as Hk. rewrite Ht in Hk. cbn [snd] in Hk.
  exists c, (aw_auth w1), d, row. split; [exact Hc|]. split; [exact Hk|]. rewrite <- (proj1 Hk).
  split_and!; try done; by apply Hf.
Qed.

(** *** From registration to the first space *)



Context (hashpw : string → string → result exn string).
Context (jwt_encode : JwtPayload → string → string).
Context (jwt_law : ∀ payload k t, jwt_decode t (jwt_encode payload k) k =
  if jp_exp payload * sec <=? t then Err (PyException "Signature has expired") else Ok payload).
Context (jwt_non_empty : ∀ payload k, non_empty (jwt_encode payload k) = true).



End Routes.

(** ** Witnesses *)

(** Bay A1 of demo_start, deleted with a writing key of its tenant *)
Definition writer_db : AuthDb :=
  mkAuthDb [mkApiKeyRow key1 "$salt$sensor" (Some "admin") (Some "t1") ["spaces:write"] true false None 0]
    [mkTenantRow "t1" "Acme" "acme" None None (Some true) 0 0] [] [] [] 1.
Definition delete_request : HttpRequest :=
  mkHttpRequest "DELETE" "/api/v1/spaces/A1" [("x-api-key", "sensor")] None "http" None None None None "" "" "".
Definition empty_answer (a : SpaceAnswer) : Response := mkResponse 204 [] (BAnswer JNull).
Definition served_world : AppWorld (R := gmap_redis) (W := SpacesState) := mkWorld writer_db ∅ [] (created "A1" demo_start).
Definition served_state : SpacesState :=
  aw_rest (serve (R := gmap_redis) plain_checkpw plain_jwt_decode true (Some "s") reversed_fold no_cors None ticks
    (space_route plain_repr plain_jsonb as_text_jsonb plain_sensor plain_display plain_checkpw plain_jwt_decode true (Some "s")
       (λ _, None) empty_answer no_fault (3 * sec) "x" (WDelete "A1")) delete_request served_world).2.

Lemma served_for_its_caller_witness :
  length (List.filter live_space (estate_spaces (ss_estate (aw_rest served_world)))) =
    S (length (List.filter live_space (estate_spaces (ss_estate served_state)))) ∧
  (served_state = aw_rest served_world ∨
   ∃ c, tc_tenant_id c = "t1" ∧ space_frame c (ss_estate (aw_rest served_world)) (ss_estate served_state)).
Proof.
  split; [vm_compute; reflexivity|].
  assert (estate_ok (ss_estate (aw_rest served_world))) as Hok.
  { apply (write_request_framed plain_repr plain_jsonb as_text_jsonb plain_sensor plain_display no_fault (admin_of "t1") demo_start).
    - exact demo_estate_ok.
    - exact (created_writes "A1" demo_start).
    - exact demo_estate_ok. }
  destruct (served_for_its_caller plain_repr plain_jsonb as_text_jsonb plain_sensor plain_display plain_checkpw plain_jwt_decode
    true (Some "s") (λ _, None) empty_answer no_fault reversed_fold no_cors None (λ app, eq_refl) fold_snoc (λ _ rs, rs) no_cors_simple
    ticks (3 * sec) "x" (WDelete "A1") delete_request served_world ltac:(discriminate) Hok)
    as [H|(c & d & d' & row & _ & _ & _ & _ & Hin & Hid & _ & _ & H)]; [left; exact H|right].
  exists c. split; [|exact H]. rewrite <- Hid. apply list_elem_of_singleton in Hin. by rewrite Hin.
Defined.


