(* ===== verification/System.v ===== *)
(** * System: from an uplink or the end of a booking to the display

    The components of this file's theorems are those of Uplink.v, StateManager.v,
    DownlinkQueue.v and RateLimit.v, composed as main.py composes them: the endpoint calls
    the state manager, which enqueues a downlink on the Redis queue, and the worker takes
    it from there, asks the rate limiter and sends it.  The worker and the endpoint share
    nothing but the store.  The expiry loop of BackgroundTasks.v changes states the same
    way. *)

From Stdlib Require Import QArith.
From S2P Require Import Prelude PyUtils Json Redis RateLimit.
From S2P Require Import DownlinkQueue Models Database Reservations StateManager WebhookValidation DeviceHandlers OrphanDevices Uplink BackgroundTasks.
Import AbstractQueue.

Open Scope Z_scope.

Section Reach.
Context {R : Redis} {F : PyFloat} (sha256_hexdigest : string → string).
Context (cfg : Config) (faults : CallSite → option exn).

(** The keys of the downlink subsystem *)
Definition dl_key (k : string) : Prop := starts_with "dl:" k = true.

(** Two stores that agree on them *)
Definition same_downlinks (s s' : store) : Prop := ∀ k, dl_key k → dump s' !! k = dump s !! k.

#[local] Instance same_downlinks_preorder : PreOrder same_downlinks.
Proof. split; unfold same_downlinks; [done|]. intros x y z H1 H2 k Hk. by rewrite H2, H1. Qed.

Lemma queue_key_dl k : queue_key k → dl_key k.
Proof. intros [->|[->|(x & [->|[->| ->]])]]; reflexivity. Qed.

Lemma represents_same H s s' held A :
  same_downlinks s s' → represents H (dump s) held A → represents H (dump s') held A.
Proof. intros Hs. apply represents_frame. intros k Hk. by apply Hs, queue_key_dl. Qed.

(** The state manager's own keys are no downlink keys. *)
Lemma set_lock_same t resource value s : same_downlinks s (set_lock t resource value s).2.
Proof.
  intros k Hk. unfold set_lock. rewrite (proj2 (r_set_nx_law _ _ _ _ _)). apply lookup_set_nx_ne.
  intros <-. discriminate Hk.
Qed.

Lemma release_same now t_end resource s : same_downlinks s (release now t_end resource s).
Proof.
  unfold release. destruct (owns_lock _ _ _ _); [|done]. intros k Hk. rewrite r_del_law. apply lookup_del_ne.
  intros <-. discriminate Hk.
Qed.

Lemma invalidate_same space_id w : same_downlinks (redis w) (redis (invalidate_cache space_id w)).
Proof.
  intros k Hk. unfold invalidate_cache, on_redis. cbn [redis]. autorewrite with redis.
  rewrite !lookup_del_ne; [done|..]; intros <-; discriminate Hk.
Qed.

(** ** The downlink of a state change *)

(** A space whose display shows the new state with a code of its own, while the servers
    answer and the lock is free *)
Record displayed (now : Z) (sp : Space) (o : SpaceState) (source : string) (dev : DisplayDevice) (code : string)
    (bytes : list Z) (w : World) : Prop := {
  dp_client : has_chirpstack cfg = true ∧ has_queue cfg = true;
  dp_calls c : faults c = None;
  dp_lock : (set_lock now ("space:" +:+ sp_id sp) (lock_value now) (redis w)).1 = true;
  dp_space : get_space (sp_id sp) (db w) = Some sp;
  dp_change : sp_state sp ≠ o ∧ is_valid_transition (sp_state sp) o source = true;
  dp_eui : sp_display_eui sp = Some (dd_dev_eui dev) ∧ dd_dev_eui dev ≠ "";
  dp_device : fetchrow (λ d, String.eqb (dd_dev_eui d) (dd_dev_eui dev) && dd_enabled d) (display_devices (db w)) = Some dev;
  dp_code : assoc (state_value o) (dd_display_codes dev) = Some code ∧ code ≠ "" ∧ bytes_fromhex code = Some bytes;
}.

(** What the state manager asks the queue to send *)
Definition downlink_args (sp : Space) (dev : DisplayDevice) (code tenant request_id : string) : EnqueueArgs :=
  mkArgs (dd_dev_eui dev) code (dd_fport dev) tenant (dd_confirmed_downlinks dev) None (Some (sp_id sp)) (Some request_id).

Definition row_tenant (sp : Space) (rows : list Space) : string :=
  str_or_empty ((λ s, or_else (sp_tenant_id s) "None") <$> fetchrow (is_space (sp_id sp)) rows).

(** A displayed change is enqueued: on the downlink keys, the update is an enqueue. *)
Lemma update_enqueues now t_end others cmd_id sp o source request_id dev code bytes w :
  displayed now sp o source dev code bytes w →
  ∃ s, same_downlinks (redis w) s ∧
    same_downlinks (enqueue sha256_hexdigest now cmd_id (downlink_args sp dev code (row_tenant sp (spaces (db w))) request_id) s).2
      (redis (update_space_state sha256_hexdigest cfg faults now t_end others cmd_id (sp_id sp) o source request_id w).2).
Proof.
  intros [[Hc Hq] Hf Hl Hs [Hne Hv] [Heui Hnon] Hdev (Hcode & Hcne & Hhex)].
  unfold update_space_state, acquire_lock, try_lock. pose proof (set_lock_same now ("space:" +:+ sp_id sp) (lock_value now) (redis w)) as Hs1.
  destruct (set_lock _ _ _ _) as [b s1]. cbn [fst snd] in *. subst b.
  unfold update_body. rewrite !Hf. cbn [db]. rewrite Hs. destruct (decide _); [done|]. rewrite Hv. cbn [negb].
  set (w1 := on_db (with_state_changes _) _). pose proof (invalidate_same (sp_id sp) w1) as Hs2.
  set (w2 := invalidate_cache (sp_id sp) w1) in *. rewrite Heui.
  destruct (dd_dev_eui dev) as [|c x] eqn:Edev; [done|].
  unfold update_display. rewrite Hc, Hf. cbn [negb].
  change (display_devices (db w2)) with (display_devices (db w)). cbn [da_display_eui da_new_state]. rewrite Hdev, Hcode.
  destruct code as [|c' x']; [done|]. rewrite Hhex, !Hf. unfold send_downlink. rewrite Hq, Hf.
  exists (redis w2). split; [by etrans|]. cbn [da_space_id da_display_eui da_trigger_source].
  match goal with |- context [mkArgs ?a ?b ?c ?d ?e ?f ?g ?h] => set (args := mkArgs a b c d e f g h) end.
  assert (args = downlink_args sp dev (String c' x') (row_tenant sp (spaces (db w))) request_id) as ->.
  { subst args. unfold downlink_args, row_tenant. rewrite Edev. f_equal. f_equal.
    change (spaces (db w2)) with (sql_update (is_space (sp_id sp)) (set_space_state now o) (spaces (db w))).
    rewrite fetchrow_update by done. by rewrite <- option_fmap_compose. }
  destruct (enqueue _ _ _ _ _) as [q s]. cbn [fst snd]. cbn. apply release_same.
Qed.

(** ... so on a store that holds the queue [A], the new content is the last command of the
    queue and the only one for its display. *)
Theorem state_change_queued H A now t_end others cmd_id sp o source request_id dev code bytes w :
  displayed now sp o source dev code bytes w → now < H ≤ now + 300 * sec → represents H (dump (redis w)) [] A →
  cmd_id ∉ map id (pending A) → non_empty cmd_id = true →
  represents H (dump (redis (update_space_state sha256_hexdigest cfg faults now t_end others cmd_id (sp_id sp) o source request_id w).2)) []
    (a_enqueue sha256_hexdigest now cmd_id (downlink_args sp dev code (row_tenant sp (spaces (db w))) request_id) A).2.
Proof.
  intros Hd [Hn Hh] Hr Hid Hne. destruct (update_enqueues now t_end others cmd_id sp o source request_id dev code bytes w Hd) as (s & H1 & H2).
  apply (represents_same _ _ _ _ _ H2). apply enqueue_refines; try done. by apply (represents_same _ (redis w)).
Qed.

(** ** The worker's turn *)

Definition tenant_bucket (tenant : string) : string := DownlinkRateLimiter.TENANT_LIMIT_KEY_PREFIX +:+ tenant.

(** The tenant's bucket holds a token at [t]. *)
Definition has_token (t : Z) (tenant : string) (s : store) : Prop :=
  ∃ b, Bucket.bucket_state (dump s) (tenant_bucket tenant) b ∧
    Qle_bool 1 (Bucket.tokens_at t (inject_Z DownlinkRateLimiter.DEFAULT_TENANT_LIMIT_PER_MIN / 60)
                  (inject_Z DownlinkRateLimiter.DEFAULT_TENANT_LIMIT_PER_MIN) b) = true.

Lemma has_token_same t tenant s s' :
  dump s' !! tenant_bucket tenant = dump s !! tenant_bucket tenant → has_token t tenant s → has_token t tenant s'.
Proof. intros E (b & Hb & Ht). exists b. split; [|done]. revert Hb. unfold Bucket.bucket_state. by rewrite E. Qed.

Lemma token_admits t tenant s : has_token t tenant s → ∃ s',
  DownlinkRateLimiter.check_tenant_limit t tenant None s = (Ok (true, None), s').
Proof.
  intros (b & Hb & Ht). unfold DownlinkRateLimiter.check_tenant_limit, DownlinkRateLimiter._check_token_bucket.
  cbn [DownlinkRateLimiter.limit_or]. rewrite (Bucket.refill_spec _ _ _ _ _ _ Hb), Ht. eauto.
Qed.

(** On a queue that holds one command without a gateway, whose tenant has a token, a turn
    of the worker sends it when the network takes it. *)
Lemma turn_sends H A t t' (network : Network) c bytes s out :
  t < H ≤ t' + 3600 * sec → represents H (dump s) [] A → pending A = [c] → gateway_id c = None →
  bytes_fromhex (payload c) = Some bytes → network (device_eui c) bytes (fport c) (confirmed c) = Ok tt →
  has_token t (tenant_id c) s →
  let w := run_once network t t' (DownlinkQueue.mkWorld s out) in
  DownlinkQueue.sent w = (out ++ [(device_eui c, bytes, fport c, confirmed c)])%list ∧
  represents H (dump (DownlinkQueue.redis w)) [] (a_success c (mkAQueue [] (last_sent A) (dead A))).
Proof.
  intros [Ht Ht'] Hr HA Hg Hb Hn Htok. unfold run_once. cbn [DownlinkQueue.redis DownlinkQueue.sent].
  pose proof (dequeue_refines H t s A Ht Hr) as Hd. unfold a_dequeue in Hd. rewrite HA in Hd. destruct Hd as (s1 & E & Hr1).
  assert (has_token t (tenant_id c) s1) as Htok1.
  { apply (has_token_same _ _ s); [|done]. rewrite <- (dequeue_other_key t s) by discriminate. by rewrite E. }
  destruct (token_admits _ _ _ Htok1) as (s2 & E2). rewrite E. unfold _process_command. rewrite Hg. cbn [truthy].
  unfold limited. cbn [DownlinkQueue.redis]. rewrite E2. unfold send_command. rewrite Hb, Hn. cbn [DownlinkQueue.sent DownlinkQueue.redis].
  split; [done|]. apply success_refines; [done|]. eapply represents_frame; [|exact Hr1].
  intros k Hk. pose proof (tenant_limit_frame t (tenant_id c) None s1 k Hk) as Hf. by rewrite E2 in Hf.
Qed.
End Reach.

(** ** From the webhook to the display *)

Section EndToEnd.
Context {R : Redis} {F : PyFloat} {P : Pydantic} {N : Numeric}.
Context (hmac_sha256 : string → string → string) (sha256_hexdigest : string → string).
Context (cfg : Config) (faults : CallSite → option exn) (fault : UplinkCall → option exn).

(** A turn of the worker on a queue with nothing to do *)
Lemma idle_turn H A t t' (network : Network) s out :
  t < H → represents H (dump s) [] A → pending A = [] →
  let w := run_once network t t' (DownlinkQueue.mkWorld s out) in
  DownlinkQueue.sent w = out ∧ represents H (dump (DownlinkQueue.redis w)) [] A.
Proof.
  intros Ht Hr HA. unfold run_once. cbn [DownlinkQueue.redis DownlinkQueue.sent].
  pose proof (dequeue_refines H t s A Ht Hr) as Hd. unfold a_dequeue in Hd. rewrite HA in Hd. by destruct Hd as (s1 & -> & Hr1).
Qed.

(** A state that changed is on the display after one turn of an idle worker. *)
Lemma change_reaches_display H A now t_end others cmd_id sp o source request_id dev code bytes w t t' (network : Network) s :
  displayed cfg faults now sp o source dev code bytes w →
  represents H (dump (redis w)) [] A → pending A = [] → non_empty cmd_id = true →
  now < H ≤ now + 300 * sec → t < H ≤ t' + 3600 * sec →
  has_token t (row_tenant sp (spaces (db w))) (redis w) →
  network (dd_dev_eui dev) bytes (dd_fport dev) (dd_confirmed_downlinks dev) = Ok tt →
  redis (update_space_state sha256_hexdigest cfg faults now t_end others cmd_id (sp_id sp) o source request_id w).2 = s →
  let hash := compute_content_hash sha256_hexdigest (dd_dev_eui dev) code (dd_fport dev) in
  let v := run_once network t t' (DownlinkQueue.mkWorld s []) in
  ∃ A', represents H (dump (DownlinkQueue.redis v)) [] A' ∧ pending A' = [] ∧ last_sent A' !! dd_dev_eui dev = Some hash ∧
    DownlinkQueue.sent v = if decide (last_sent A !! dd_dev_eui dev = Some hash) then []
                           else [(dd_dev_eui dev, bytes, dd_fport dev, dd_confirmed_downlinks dev)].
Proof.
  intros Hd Hr HA Hcmd Hn Ht Htok Hnet <- hash v.
  assert (cmd_id ∉ map id (pending A)) as Hfresh by (rewrite HA; by intros ?%elem_of_nil).
  pose proof (state_change_queued sha256_hexdigest cfg faults H A now t_end others cmd_id sp o source request_id dev code bytes w
    Hd Hn Hr Hfresh Hcmd) as Hq.
  set (w' := (update_space_state _ _ _ _ _ _ _ _ _ _ _ _).2) in *.
  unfold a_enqueue in Hq. cbn [a_device_eui downlink_args content_hash new_command a_payload a_fport] in Hq.
  fold hash in Hq. destruct (decide (last_sent A !! dd_dev_eui dev = Some hash)) as [E|E].
  - rewrite bool_decide_eq_true_2 in Hq by done. cbn [snd] in Hq.
    destruct (idle_turn H A t t' network (redis w') [] (proj1 Ht) Hq HA) as [H1 H2]. by exists A.
  - rewrite bool_decide_eq_false_2 in Hq by done. cbn [snd] in Hq. rewrite HA in Hq. cbn [filter list_filter app] in Hq.
    set (c := stored _) in Hq. pose proof (dp_code _ _ _ _ _ _ _ _ _ _ Hd) as (_ & _ & Hbytes).
    assert (has_token t (tenant_id c) (redis w')) as Htok'.
    { destruct (update_enqueues sha256_hexdigest cfg faults now t_end others cmd_id sp o source request_id dev code bytes w Hd) as (s1 & H1 & H2).
      apply (has_token_same _ _ (redis w)); [|exact Htok]. unfold w'. rewrite H2, enqueue_other_key, H1 by (try done; intros x; discriminate).
      done. }
    destruct (turn_sends H _ t t' network c bytes (redis w') [] Ht Hq eq_refl eq_refl Hbytes Hnet Htok') as [H1 H2].
    eexists. split; [exact H2|]. split_and!; [done| |exact H1]. apply lookup_insert_eq.
Qed.

(** C2. An occupancy report reaches the display.  A good uplink that changes the state of a
    space with a display, on an idle downlink queue: after one turn of the worker, with a
    network that takes the downlink and a tenant below its rate limit, the space is in the
    reported state and the last content delivered to its display is the code of that state;
    it is sent now unless it was the last delivery already, and nothing else is. *)
Theorem uplink_reaches_display H A now t_end others ids secret_rows sig body webhook_data s
    device_eui name profile sp h u o parsed fcnt dev code bytes t t' (network : Network) :
  good_uplink hmac_sha256 faults fault now others secret_rows sig body webhook_data s device_eui name profile sp h u o parsed fcnt →
  displayed cfg faults now sp o "sensor_uplink" dev code bytes (up_world s) →
  represents H (dump (redis (up_world s))) [] A → pending A = [] → non_empty (fresh_command ids) = true →
  now < H ≤ now + 300 * sec → t < H ≤ t' + 3600 * sec →
  has_token t (row_tenant sp (spaces (up_db s))) (redis (up_world s)) →
  network (dd_dev_eui dev) bytes (dd_fport dev) (dd_confirmed_downlinks dev) = Ok tt →
  let s' := (process_uplink hmac_sha256 sha256_hexdigest cfg faults fault now t_end others ids secret_rows sig body webhook_data s).2 in
  let v := run_once network t t' (DownlinkQueue.mkWorld (redis (up_world s')) []) in
  let hash := compute_content_hash sha256_hexdigest (dd_dev_eui dev) code (dd_fport dev) in
  (∃ sp', get_space (sp_id sp) (up_db s') = Some sp' ∧ sp_state sp' = o) ∧
  ∃ A', represents H (dump (DownlinkQueue.redis v)) [] A' ∧ pending A' = [] ∧ last_sent A' !! dd_dev_eui dev = Some hash ∧
    DownlinkQueue.sent v = if decide (last_sent A !! dd_dev_eui dev = Some hash) then []
                           else [(dd_dev_eui dev, bytes, dd_fport dev, dd_confirmed_downlinks dev)].
Proof.
  intros Hgood Hd Hr HA Hcmd Hn Ht Htok Hnet s' v hash.
  pose proof (good_run hmac_sha256 sha256_hexdigest cfg faults fault now t_end others ids secret_rows sig body webhook_data s
    device_eui name profile sp h u o parsed fcnt Hgood) as Hrun.
  unfold v, s'. destruct (process_uplink _ _ _ _ _ _ _ _ _ _ _ _ _ _) as [r s1]. cbn [snd].
  destruct Hrun as (_ & (Hsp & _ & _) & d & Hds & Hdd & Hredis). split.
  - pose proof (dp_space _ _ _ _ _ _ _ _ _ _ Hd) as Hs. change (db (up_world s)) with (up_db s) in Hs.
    unfold get_space in *. rewrite Hsp. unfold spaces_after. destruct (decide _) as [Heq|]; [eauto|].
    rewrite fetchrow_update; [rewrite Hs; eexists; split; [reflexivity|done]| |].
    + done.
    + by intros x [? _]%andb_true_iff.
  - destruct Hd as [H1 H2 H3 H4 H5 H6 H7 H8].
    apply (change_reaches_display H A now t_end others (fresh_command ids) sp o "sensor_uplink" (fresh_request ids) dev code bytes
      (on_db (λ _, d) (up_world s))); try done.
    + split; try done; cbn; [|by rewrite Hdd]. unfold get_space in *. by rewrite Hds.
    + cbn. by rewrite Hds.
Qed.

End EndToEnd.

(** ** Witness *)

Section Demo.
#[local] Existing Instance plain_pydantic.
#[local] Existing Instance plain_numeric.
#[local] Existing Instance gmap_redis.

Definition bay_with_display : Space :=
  mkSpace "s1" "Bay 1" "A1" None None None (Some "E8E1E1000103C3F8") (Some "2020203907290902") FREE (Some "site") (Some "t1")
    None None None 0 0 None.
Definition bay_display : DisplayDevice :=
  mkDisplayDevice "d1" "2020203907290902" "kuando" true [("FREE", "0000FF64"); ("OCCUPIED", "FF000064")] 15 true None None "active"
    None 0 0.
Definition bay_up : UpState :=
  mkUp (mkWorld (∅ : store) (mkDb [bay_with_display] [] [] [bay_display] [] [] [] []) []) [] (auto_register empty_registry).
Definition open_network : Network := λ _ _ _ _, Ok tt.

Lemma bay_good :
  good_uplink plain_hmac (λ _, None) (λ _, None) 5 (λ r, r) [mkSecret "t1" "key" true 0] (Some "key|{}") "{}"
    sample_uplink bay_up "E8E1E1000103C3F8" "bay 1" "browan_tbms100_motion" bay_with_display
    BrowanTabsHandler demo_reading OCCUPIED demo_webhook (Some 12).
Proof. split; try reflexivity; try (split; reflexivity). by right. Qed.

Lemma bay_displayed :
  displayed demo_config (λ _, None) 5 bay_with_display OCCUPIED "sensor_uplink" bay_display "FF000064" [255; 0; 0; 100] (up_world bay_up).
Proof. split; repeat split; try reflexivity; discriminate. Qed.

Lemma uplink_reaches_display_witness :
  let s' := (process_uplink plain_hmac (λ x, x) demo_config (λ _, None) (λ _, None) 5 (5 + sec) (λ r, r) demo_ids
               [mkSecret "t1" "key" true 0] (Some "key|{}") "{}" sample_uplink bay_up).2 in
  DownlinkQueue.sent (run_once open_network (2 * sec) (3 * sec) (DownlinkQueue.mkWorld (redis (up_world s')) [])) =
    [("2020203907290902", [255; 0; 0; 100], 15, true)].
Proof.
  destruct (uplink_reaches_display plain_hmac (λ x, x) demo_config (λ _, None) (λ _, None) (300 * sec) empty_queue 5 (5 + sec)
    (λ r, r) demo_ids [mkSecret "t1" "key" true 0] (Some "key|{}") "{}" sample_uplink bay_up _ _ _ _ _ _ _ _ _ bay_display
    "FF000064" [255; 0; 0; 100] (2 * sec) (3 * sec) open_network bay_good bay_displayed) as (_ & A' & _ & _ & _ & H).
  - apply represents_empty. intros k _. reflexivity.
  - reflexivity.
  - reflexivity.
  - unfold sec; lia.
  - unfold sec; lia.
  - exists None. split; reflexivity.
  - reflexivity.
  - exact H.
Defined.


End Demo.
